(* ===== verification/_CoqProject ===== *)
-Q . S2P
Prelude.v
Bytes.v
Errors.v
Model.v
Repository.v
World.v
Schema.v
Postgres.v
TenantService.v
IdentityService.v
KeyService.v
Crypto.v
Argon2.v
SchemaFacts.v
StatementFacts.v
Guarantees.v
Integrity.v
Runs.v
System.v
Services.v
Demo.v
SystemFacts.v
LifecycleFacts.v
IdentityFacts.v
UpdateFacts.v
ListFacts.v
TenantFacts.v
AuditFacts.v
KeyFacts.v
CryptoFacts.v
Store.v
StoreFacts.v
SessionFacts.v
Jwt.v
JwtFacts.v
Grpc.v
Rpc.v
RpcFacts.v
Proto.v
Main.v
MainFacts.v
WebAuthn.v
WebAuthnFacts.v
Http.v
HttpFacts.v
HttpDemo.v
LoginFacts.v
RequestWalk.v
RequestFacts.v
ServiceRoutes.v
SessionRoutes.v
SessionGate.v
Revocation.v
Lockout.v
PanicFacts.v
Boot.v
BootFacts.v
Rls.v
RlsFacts.v
