(* ===== verification/Prelude.v ===== *)
(** * Verion: a verification development

    Verion is an identity service: tenants hold identities, identities hold
    keys and credentials, people log in with passkeys and are given sessions
    and tokens.  This library models the Go code under src/ and proves what
    makes it correct, and, where the code does something else than its
    comments say, what it does.

    ** The program and its parts

    - cmd/verion/main.go reads the configuration from environment variables,
      connects, wires the parts together, serves until a signal and shuts down
      (files Main, System and Boot).
    - internal/identity holds the domain: the data (enums.go, model.go: file
      Model), the errors (errors.go, svc_helpers.go: file Errors), the
      interfaces to storage (repository.go: file Repository) and the three
      services (tenant_service.go, identity_service.go, key_service.go: files
      TenantService, IdentityService, KeyService).
    - internal/identity/postgres implements the interfaces: one program per
      method (file Postgres) around the SQL statements, which are functions of
      the tables that internal/db/migrations create (file Schema).
    - internal/crypto generates keys, encrypts attributes and hashes recovery
      codes (files Crypto and Argon2), and keeps private keys in memory
      (internal/crypto/local).
    - internal/store keeps WebAuthn challenges and sessions in Redis (file
      Store); internal/auth issues tokens (jwt.go: file Jwt) and runs the
      passkey ceremonies (webauthn.go: file WebAuthn).
    - internal/transport/grpc and internal/transport/http translate requests
      into calls of the services (files Grpc and Http); api/gen/go/verion/v1
      holds the messages, descriptors and stubs of gRPC (files Grpc, Rpc and
      Proto), which follow the protocol of api/proto/verion/v1.

    A request enters through a transport, which calls a service; the service
    calls a repository and the crypto service; the repository sends commands to
    PostgreSQL.  The gateway's middleware checks the token's signature and
    claims (Jwt) and then that its session is still in Redis (Store).  A login
    is the composition of WebAuthn, Store and Jwt.

    ** How the code is modelled

    A Go function is a program: the tree of its atomic actions on a shared
    world (type [prog] below).  An action is one SQL command, one Redis
    command, one read of the clock or of the random source, one access to the
    key store; a database transaction is one action, that undoes its changes
    when it fails.  Errors are values of [Errors.error], and the notations
    [let*] and [;;;] are the idiom [if err != nil { return err }].  A panic is
    an outcome of its own: dereferencing a pointer, indexing and slicing are
    partial (file Bytes), as are the operations of AES-GCM, Argon2 and the codec
    of gRPC, and type assertions.  The same definition is run alone ([exec])
    and interleaved with other programs, action by action ([run_sched],
    [pool_steps]).

    The world (file World) holds the tables, the private keys, the state of the
    services outside (parameter [X]: the content of Redis, the WebAuthn
    library) and a counter [w_tick] of the environment's readings: the n-th
    command may fail before or after it took effect, the n-th identifier or
    instant is [pg_uuid n], [pg_now n], [clock n].  Strings are sequences of bytes, as in Go; instants
    are nanoseconds; a version is a 64-bit integer whose overflow is the
    server's error 22003; a protobuf enum is an int32; uint32 counters wrap
    (file WebAuthn).

    ** The files

    - Prelude: programs, their runs, and the logics for programs that run among
      others: [guar] (what every action guarantees), [keeps] and [rely] (what it
      guarantees, and what the result is, under an invariant that all keep),
      [yields], [must_disarm] and [one_winner] (a resource taken once).
      Bytes: strings, base64, hexadecimal, with round trips.
    - Errors, Model, Repository, World, Schema, Postgres, TenantService,
      IdentityService, KeyService, Crypto, Argon2, Store, Jwt, Grpc, Rpc,
      WebAuthn, Http, Main, Boot: the definitions, named as in the sources.
    - SchemaFacts, StatementFacts: the integrity [db_ok] of the tables (labels,
      unique indexes, foreign keys), the preorders [evolves] and [isolates],
      and that every statement is in them.
    - Guarantees, Integrity: the interfaces between services and repositories,
      as classes, and the proof that the PostgreSQL repositories meet them.
    - Services: the interfaces that the transports hold, and their constructors.
    - System, SystemFacts: one constructor of [call] per operation, and the
      theorems about any calls in any interleaving, with any failures:
      integrity ([calls_keep_integrity]), history ([calls_preserve_history]),
      isolation of tenants ([calls_isolate_tenants]).
    - Runs: each repository operation, run alone, as a function of the tables;
      what is left of this when commands fail.
    - AuditFacts: the events that each call leaves ([calls_are_audited]).
    - LifecycleFacts, TenantFacts: the operations on statuses refine abstract
      machines on every branch; terminal statuses are final; a created tenant
      is the one that is looked up.
    - IdentityFacts, UpdateFacts, ListFacts: creation, attributes, optimistic
      locking (two updates from one version never both succeed), pages.
    - KeyFacts: rotation (which fails on behalf of an identity with an active
      key of the purpose, and does not check whose key it is), revocation, where
      private keys are kept.
    - CryptoFacts, JwtFacts, MainFacts: round trips and bounds of the
      encodings, soundness of token verification, the configuration.
    - StoreFacts, SessionFacts: a challenge is used once; what each session
      operation does; the invariant of the store under any interleaving.
    - WebAuthnFacts, HttpFacts, LoginFacts: logins, routing, errors on both
      transports, the middleware, and that a login opens protected routes.
    - RpcFacts: each method of gRPC, given a decoded request, is one call of a
      service.  Proto: the protocol, the structs of its messages, and that these
      and the services, descriptors and stubs, are what a generator makes of it;
      the enums and their labels ([enums_on_the_wire]); and that no request gets
      to a method, since the codec panics on messages whose ProtoReflect is nil.
    - RequestWalk: every handler and method walked once, for any invariant
      that the tables' statements and the store's operations keep.
    - RequestFacts: the whole server, with any requests on both transports at
      once ([requests_keep_integrity]).
    - ServiceRoutes: sixteen routes of the gateway are calls of the services
      ([http_refines_call]); the same call over gRPC has the same effect and a
      corresponding status ([transports_equivalent]).
    - SessionRoutes: the list of an identity's live sessions, and the logout,
      after which the token opens no route ([logout_is_final]).
    - SessionGate, Revocation, Lockout: the gate in front of the routes under any
      requests at once.  A session that is not stored stays out
      ([revoked_session_stays_revoked]), but for a request that read it before
      (theorem logout_undone_by_request_in_flight); and a new deployment lets
      nobody in ([nobody_gets_in]), as no registration succeeds.
    - PanicFacts: no service call and no gRPC method panics ([calls_never_panic]):
      the tests before each partial operation are enough.
    - Boot, BootFacts: [main] as a program over the libraries' constructors,
      with the trace of what it does outside: what a start needs, what a failed
      start leaves open, and the life of a process as a step relation, which a
      signal ends in an orderly way and any gRPC request to a known method ends
      by a crash ([what_ends_a_process]).
    - Rls, RlsFacts: the policies of migration 000007 on reads and writes: they
      isolate the tenants ([policies_isolate_tenants]), but the tenant context
      of withTenantConn has lapsed when the statements run, unlike that of
      withTenantTx ([rls_context_lapses], from the semantics of [set_config] in
      file Postgres).
    - Demo, HttpDemo: concrete parameters, on which the theorems are exercised.

    ** Parameters and their laws

    What is not under src/ is a parameter with its documented behaviour:
    PostgreSQL and the operating system ([World.Env], laws [EnvOk];
    [Runs.Reliable] when nothing fails), encoding/json ([Codec], [SessionCodec],
    [ClaimsCodec] with laws [CodecOk], [SessionCodecOk], [ClaimsCodecOk]: what
    is written is read back), Go's crypto packages ([Prims], [PrimsOk]), Argon2
    ([idkey], [Argon2Ok]), the Redis client ([RedisClient], [RedisOk]: the
    meaning of the eight commands used, each of which may fail after or before
    it took effect), go-webauthn ([WebAuthnLib]; [LibSteps]: it changes neither
    the tables nor the store; [Lockout.LibVerifies]: a user without credentials
    cannot log in), the server and the codec of gRPC ([GrpcServerOk];
    [GrpcCodec], [ProtoCodecOk]: it panics on a nil ProtoReflect),
    the decoders and encoders of HTTP bodies, and the constructors, pings and
    listeners that [main] calls ([Boot.Library], [LibraryCalm]).  Files Demo,
    HttpDemo, RequestFacts, Lockout and BootFacts show
    that the laws hold together.

    ** Bounds and fuel

    Programs are finite trees, so every function of the model is total and no
    theorem is conditional on fuel.  Two loops of the standard library are
    given fuel: the digits of an integer (Argon2.decimal_fuel) and its
    big-endian bytes (Crypto.big_bytes_fuel), each with one unit more than the
    binary logarithm of the number, which is enough as every round at least
    halves it; the round trips of CryptoFacts depend on it.

    ** Not modelled

    - The table of recovery methods: its repository is an interface without an
      implementation, so there is no statement to model.
    - The log of the WebAuthn handlers' services below the gateway; the
      gateway's own log is part of its response writer.
    - The insides of net/http, of the gRPC server and of the connection pools;
      in file Boot the requests of a process run one after the other, their
      interleaving being that of file RequestFacts.
    - The redirection of paths that are not canonical in net/http.
    - The wire format of protobuf: it is the library's code, driven by the
      descriptors that these messages do not give (ProtoReflect returns nil).
      The theorems on the methods of gRPC start from decoded requests; those on
      requests to the whole server hold for any codec, and after a panic over
      gRPC they speak of a process that has ended by then.
    - Texts are taken to be what PostgreSQL accepts (valid UTF-8, no NUL);
      where JSON is written from them this is a hypothesis.
    - The down migrations, the scripts and the deployment files. *)

From Stdlib Require Import ZArith Lia.
From stdpp Require Import base list strings gmap numbers.

(** ** Programs

    A Go function of the service runs as a sequence of atomic actions on the
    shared world: one SQL statement, one Redis command, one read of the clock
    or of the random source.  A program is the tree of its actions, so that
    the same definition can be run alone ([exec]) and interleaved with other
    programs action by action ([pool_steps]). *)

Inductive prog (W A : Type) : Type :=
| Ret (a : A)
| Act {R : Type} (f : W -> W * R) (k : R -> prog W A).
Arguments Ret {W A} a.
Arguments Act {W A R} f k.

(** What a Go call ends in: a value, a non-nil [error], or a panic.  The type
    of errors is a parameter here; file Errors instantiates it. *)
Inductive outcome (E A : Type) : Type :=
| Ok (a : A)
| Err (e : E)
| Panic (msg : string).
Arguments Ok {E A} a.
Arguments Err {E A} e.
Arguments Panic {E A} msg.

Fixpoint exec {W A} (p : prog W A) (w : W) : W * A :=
  match p with
  | Ret a => (w, a)
  | Act f k => let '(w', r) := f w in exec (k r) w'
  end.

Fixpoint pbind {W A B} (p : prog W A) (k : A -> prog W B) : prog W B :=
  match p with
  | Ret a => k a
  | Act f g => Act f (fun r => pbind (g r) k)
  end.

Section combinators.
Context {W E : Type}.

(** The Go idiom [x, err := m; if err != nil { return err }; k]. *)
Definition bind {A B} (m : prog W (outcome E A)) (k : A -> prog W (outcome E B))
  : prog W (outcome E B) :=
  pbind m (fun o => match o with
                    | Ok a => k a
                    | Err e => Ret (Err e)
                    | Panic s => Ret (Panic s)
                    end).

Definition ret {A} (a : A) : prog W (outcome E A) := Ret (Ok a).
Definition throw {A} (e : E) : prog W (outcome E A) := Ret (Err e).
Definition panic {A} (s : string) : prog W (outcome E A) := Ret (Panic s).

(** [if err != nil { return g(err) }]. *)
Definition mapErr {A} (g : E -> E) (m : prog W (outcome E A)) : prog W (outcome E A) :=
  pbind m (fun o => Ret (match o with
                         | Ok a => Ok a
                         | Err e => Err (g e)
                         | Panic s => Panic s
                         end)).

(** [x, err := m], with [err] inspected afterwards. *)
Definition try {A} (m : prog W (outcome E A)) : prog W (outcome E (E + A)) :=
  pbind m (fun o => Ret (match o with
                         | Ok a => Ok (inr a)
                         | Err e => Ok (inl e)
                         | Panic s => Panic s
                         end)).

(** [_ = m]: the error is dropped. *)
Definition ignore {A} (m : prog W (outcome E A)) : prog W (outcome E unit) :=
  bind (try m) (fun _ => ret tt).

(** [defer func() { if rec := recover(); rec != nil { h } }()]. *)
Definition recovering {A} (h : string -> prog W (outcome E A))
  (m : prog W (outcome E A)) : prog W (outcome E A) :=
  pbind m (fun o => match o with Panic s => h s | o => Ret o end).

(** A single atomic action, returning a value or a whole outcome. *)
Definition act {A} (f : W -> W * A) : prog W (outcome E A) :=
  Act f (fun r => Ret (Ok r)).
Definition actO {A} (f : W -> W * outcome E A) : prog W (outcome E A) :=
  Act f (fun o => Ret o).

(** A block of actions performed as one atomic action (a transaction). *)
Definition atomic {A} (m : prog W (outcome E A)) : prog W (outcome E A) :=
  actO (exec m).

Fixpoint mapM {A B} (f : A -> prog W (outcome E B)) (l : list A)
  : prog W (outcome E (list B)) :=
  match l with
  | [] => ret []
  | x :: l => bind (f x) (fun y => bind (mapM f l) (fun ys => ret (y :: ys)))
  end.

End combinators.

(** Steps of a program that only panic or return, such as Go's index
    expressions: a program does one with [Ret]. *)
Definition obind {E A B} (o : outcome E A) (k : A -> outcome E B) : outcome E B :=
  match o with Ok a => k a | Err e => Err e | Panic s => Panic s end.

(** [b && m], where [m] is evaluated for a true [b] only. *)
Definition andalso {E} (b : bool) (m : outcome E bool) : outcome E bool := if b then m else Ok false.

(** Pure steps that may fail, inside one action. *)
Definition rbind {E A B} (m : E + A) (k : A -> E + B) : E + B :=
  match m with inl e => inl e | inr a => k a end.
Definition guard_or {E} (b : bool) (e : E) : E + unit := if b then inr tt else inl e.
Definition some_or {E A} (o : option A) (e : E) : E + A :=
  match o with Some a => inr a | None => inl e end.

Lemma rbind_inr {E A B} (m : E + A) (k : A -> E + B) b :
  rbind m k = inr b <-> exists a, m = inr a /\ k a = inr b.
Proof. destruct m; simpl; split; [done|by intros (? & [=] & _)|eauto|by intros (? & [= ->] & ?)]. Qed.
Lemma guard_or_inr {E} b (e : E) u : guard_or b e = inr u <-> b = true.
Proof. destruct b, u; simpl; by split. Qed.
Lemma some_or_inr {E A} (o : option A) (e : E) a : some_or o e = inr a <-> o = Some a.
Proof. destruct o; simpl; split; congruence. Qed.

Declare Scope prog_scope.
Delimit Scope prog_scope with prog.
Notation "'let*' x ':=' m 'in' k" := (bind m (fun x => k))
  (at level 10, x pattern, m at level 100, k at level 200)
  : prog_scope.
Notation "'let!' x ':=' o 'in' k" := (obind o (fun x => k))
  (at level 10, x pattern, o at level 100, k at level 200) : prog_scope.
Notation "'let?' x ':=' m 'in' k" := (rbind m (fun x => k))
  (at level 10, x pattern, m at level 100, k at level 200) : prog_scope.
Notation "m ;;; k" := (bind m (fun _ => k))
  (at level 100, right associativity) : prog_scope.

(** ** Running a program alone *)

Lemma exec_pbind {W A B} (p : prog W A) (k : A -> prog W B) w :
  exec (pbind p k) w = let '(w', a) := exec p w in exec (k a) w'.
Proof.
  revert w. induction p as [a|R f g IH]; intros w; simpl; [done|].
  destruct (f w) as [w' r]. apply IH.
Qed.

Lemma pbind_assoc_exec {W A B C} (p : prog W A) (k : A -> prog W B) (h : B -> prog W C) w :
  exec (pbind (pbind p k) h) w = exec (pbind p (fun a => pbind (k a) h)) w.
Proof. rewrite !exec_pbind. destruct (exec p w). by rewrite exec_pbind. Qed.

Section exec.
Context {W E : Type}.
Implicit Types w : W.

Lemma exec_bind {A B} (m : prog W (outcome E A)) (k : A -> prog W (outcome E B)) w :
  exec (bind m k) w =
  let '(w', o) := exec m w in
  match o with
  | Ok a => exec (k a) w'
  | Err e => (w', Err e)
  | Panic s => (w', Panic s)
  end.
Proof. unfold bind. rewrite exec_pbind. by destruct (exec m w) as [w' []]. Qed.

Lemma exec_mapErr {A} (g : E -> E) (m : prog W (outcome E A)) w :
  exec (mapErr g m) w =
  let '(w', o) := exec m w in
  (w', match o with Ok a => Ok a | Err e => Err (g e) | Panic s => Panic s end).
Proof. unfold mapErr. rewrite exec_pbind. by destruct (exec m w). Qed.

Lemma exec_try {A} (m : prog W (outcome E A)) w :
  exec (try m) w =
  let '(w', o) := exec m w in
  (w', match o with Ok a => Ok (inr a) | Err e => Ok (inl e) | Panic s => Panic s end).
Proof. unfold try. rewrite exec_pbind. by destruct (exec m w). Qed.

Lemma exec_ignore {A} (m : prog W (outcome E A)) w :
  exec (ignore m) w =
  let '(w', o) := exec m w in
  (w', match o with Ok _ | Err _ => Ok tt | Panic s => Panic s end).
Proof.
  unfold ignore. rewrite exec_bind, exec_try. by destruct (exec m w) as [w' []].
Qed.

Lemma exec_recovering {A} h (m : prog W (outcome E A)) w :
  exec (recovering h m) w =
  let '(w', o) := exec m w in
  match o with Panic s => exec (h s) w' | o => (w', o) end.
Proof. unfold recovering. rewrite exec_pbind. by destruct (exec m w) as [w' []]. Qed.

Lemma exec_ret {A} (a : A) w : exec (ret (E:=E) a) w = (w, Ok a).
Proof. done. Qed.
Lemma exec_throw {A} (e : E) w : exec (throw (A:=A) e) w = (w, Err e).
Proof. done. Qed.
Lemma exec_Ret {A} (o : outcome E A) w : exec (Ret o) w = (w, o).
Proof. done. Qed.
Lemma exec_panic {A} s w : exec (panic (E:=E) (A:=A) s) w = (w, Panic s).
Proof. done. Qed.
Lemma exec_act {A} (f : W -> W * A) w :
  exec (act (E:=E) f) w = let '(w', r) := f w in (w', Ok r).
Proof. done. Qed.
Lemma exec_actO {A} (f : W -> W * outcome E A) w : exec (actO f) w = f w.
Proof. simpl. by destruct (f w). Qed.
Lemma exec_atomic {A} (m : prog W (outcome E A)) w : exec (atomic m) w = exec m w.
Proof. unfold atomic. by rewrite exec_actO. Qed.
End exec.

Create Rewrite HintDb run.
#[export] Hint Rewrite @exec_bind @exec_mapErr @exec_try @exec_ignore @exec_ret
  @exec_throw @exec_panic @exec_recovering @exec_atomic : run.

(** [prog_run] computes the run of a program as far as its actions are known. *)
Ltac prog_run := repeat (progress (autorewrite with run; simpl)).
Ltac prog_run_in H := repeat (progress (autorewrite with run in H; simpl in H)).

(** ** What every action of a program guarantees

    [guar G Q p]: every atomic action of [p], started in any world, moves the
    world inside the relation [G], and [p] ends in a result in [Q].  The
    relation holds of the action whatever other programs do between the actions
    of [p].  [steps_in G p] asks nothing of the result. *)

Section guarantee.
Context {W E : Type}.

Fixpoint guar {A} (G : W -> W -> Prop) (Q : A -> Prop) (p : prog W A) : Prop :=
  match p with
  | Ret a => Q a
  | Act f k => forall w, G w (fst (f w)) /\ guar G Q (k (snd (f w)))
  end.
Definition steps_in {A} (G : W -> W -> Prop) (p : prog W A) : Prop := guar G (fun _ => True) p.

(** Results that are values satisfy [Q]. *)
Definition on_ok {A} (Q : A -> Prop) (o : outcome E A) : Prop := forall a, o = Ok a -> Q a.

Lemma guar_mono {A} (G G' : W -> W -> Prop) (Q Q' : A -> Prop) p :
  (forall w w', G w w' -> G' w w') -> (forall a, Q a -> Q' a) -> guar G Q p -> guar G' Q' p.
Proof.
  intros HG HQ. induction p as [a|R f g IH]; simpl; [apply HQ|].
  intros Hf w. destruct (Hf w). auto.
Qed.

Lemma guar_pbind {A B} G (Q : A -> Prop) (Q' : B -> Prop) (p : prog W A) k :
  guar G Q p -> (forall a, Q a -> guar G Q' (k a)) -> guar G Q' (pbind p k).
Proof.
  intros Hp Hk. induction p as [a|R f g IH]; simpl in *; [auto|].
  intros w. destruct (Hp w). auto.
Qed.

Lemma guar_bind {A B} G (Q : A -> Prop) (Q' : outcome E B -> Prop)
    (m : prog W (outcome E A)) k :
  guar G (on_ok Q) m -> (forall a, Q a -> guar G Q' (k a)) ->
  (forall e, Q' (Err e)) -> (forall s, Q' (Panic s)) ->
  guar G Q' (bind m k).
Proof.
  intros Hm Hk He Hs. eapply guar_pbind; [exact Hm|]. intros [a|e|s] Ho; simpl; auto.
Qed.

Lemma guar_mapErr {A} G (Q : A -> Prop) g (m : prog W (outcome E A)) :
  guar G (on_ok Q) m -> guar G (on_ok Q) (mapErr g m).
Proof.
  intros Hm. eapply guar_pbind; [exact Hm|].
  intros [a|e|s] Ho; simpl; [exact Ho| |]; by intros ? [=].
Qed.

Lemma guar_steps_in {A} G (Q : A -> Prop) (p : prog W A) : guar G Q p -> steps_in G p.
Proof. by apply guar_mono. Qed.

Lemma steps_in_guar {A} G (m : prog W (outcome E A)) :
  steps_in G m -> guar G (on_ok (fun _ => True)) m.
Proof. apply guar_mono; [done|]. by intros o _ a _. Qed.

(** A sequence of which only the last part decides the result. *)
Lemma guar_then {A B} G (Q : outcome E B -> Prop) (m : prog W (outcome E A)) k :
  steps_in G m -> (forall a, guar G Q (k a)) ->
  (forall e, Q (Err e)) -> (forall s, Q (Panic s)) -> guar G Q (bind m k).
Proof. intros Hm Hk He Hs. eapply guar_bind; [by apply steps_in_guar|by intros a _|done..]. Qed.

Lemma steps_in_pbind {A B} G (p : prog W A) (k : A -> prog W B) :
  steps_in G p -> (forall a, steps_in G (k a)) -> steps_in G (pbind p k).
Proof. intros Hp Hk. eapply guar_pbind; [exact Hp|]. intros a _. apply Hk. Qed.

Lemma steps_in_mono {A} (G G' : W -> W -> Prop) (p : prog W A) :
  (forall w w', G w w' -> G' w w') -> steps_in G p -> steps_in G' p.
Proof. intros HG. by apply guar_mono. Qed.

Lemma steps_in_bind {A B} G (m : prog W (outcome E A)) (k : A -> prog W (outcome E B)) :
  steps_in G m -> (forall a, steps_in G (k a)) -> steps_in G (bind m k).
Proof. intros Hm Hk. apply steps_in_pbind; [done|]. by intros []. Qed.

(** The rest of a sequence may rely on the result of its first part. *)
Lemma steps_in_bind_post {A B} G (Q : A -> Prop)
    (m : prog W (outcome E A)) (k : A -> prog W (outcome E B)) :
  guar G (on_ok Q) m -> (forall a, Q a -> steps_in G (k a)) -> steps_in G (bind m k).
Proof. intros Hm Hk. by eapply guar_bind. Qed.

(** The relation that holds of everything is no constraint. *)
Lemma steps_in_any {A} (G : W -> W -> Prop) (p : prog W A) :
  (forall w w', G w w') -> steps_in G p.
Proof. intros HG. induction p as [a|R f g IH]; [done|]. intros w. split; [apply HG|apply IH]. Qed.

Lemma steps_in_Ret {A} G (a : A) : steps_in G (Ret a).
Proof. done. Qed.
Lemma steps_in_ret {A} G (a : A) : steps_in G (ret (E:=E) a).
Proof. done. Qed.
Lemma steps_in_throw {A} G (e : E) : steps_in G (throw (A:=A) e).
Proof. done. Qed.
Lemma steps_in_panic {A} G s : steps_in G (panic (E:=E) (A:=A) s).
Proof. done. Qed.
Lemma steps_in_mapErr {A} G g (m : prog W (outcome E A)) :
  steps_in G m -> steps_in G (mapErr g m).
Proof. intros Hm. apply steps_in_pbind; done. Qed.
Lemma steps_in_try {A} G (m : prog W (outcome E A)) :
  steps_in G m -> steps_in G (try m).
Proof. intros Hm. apply steps_in_pbind; done. Qed.
Lemma steps_in_ignore {A} G (m : prog W (outcome E A)) :
  steps_in G m -> steps_in G (ignore m).
Proof. intros Hm. apply steps_in_bind; [by apply steps_in_try|done]. Qed.
Lemma steps_in_recovering {A} G h (m : prog W (outcome E A)) :
  steps_in G m -> (forall s, steps_in G (h s)) -> steps_in G (recovering h m).
Proof. intros Hm Hh. apply steps_in_pbind; [done|]. by intros []. Qed.
Lemma steps_in_act {A} G (f : W -> W * A) :
  (forall w, G w (fst (f w))) -> steps_in G (act (E:=E) f).
Proof. intros Hf w. split; [apply Hf|done]. Qed.
Lemma steps_in_actO {A} G (f : W -> W * outcome E A) :
  (forall w, G w (fst (f w))) -> steps_in G (actO f).
Proof. intros Hf w. split; [apply Hf|done]. Qed.
Lemma guar_actO {A} G Q (f : W -> W * outcome E A) :
  (forall w, G w (fst (f w)) /\ Q (snd (f w))) -> guar G Q (actO f).
Proof. done. Qed.
Lemma steps_in_mapM {A B} G (f : A -> prog W (outcome E B)) l :
  (forall x, steps_in G (f x)) -> steps_in G (mapM f l).
Proof.
  intros Hf. induction l as [|x l IH]; simpl; [done|].
  apply steps_in_bind; [done|]. intros y. by apply steps_in_bind.
Qed.

(** A preorder guaranteed by every action holds of the whole run. *)
Lemma steps_in_exec {A} G `{!PreOrder G} (p : prog W A) w :
  steps_in G p -> G w (fst (exec p w)).
Proof.
  revert w. induction p as [a|R f g IH]; intros w; [done|].
  intros Hp. destruct (Hp w) as [Hf Hg]. simpl. destruct (f w) as [w' r]; simpl in *.
  etrans; [exact Hf|]. by apply IH.
Qed.

Lemma guar_exec {A} G `{!PreOrder G} Q (p : prog W A) w :
  guar G Q p -> G w (fst (exec p w)) /\ Q (snd (exec p w)).
Proof.
  revert w. induction p as [a|R f g IH]; intros w; [by split|].
  intros Hp. destruct (Hp w) as [Hf Hg]. simpl. destruct (f w) as [w' r]; simpl in *.
  destruct (IH r w' Hg). split; [|done]. by etrans.
Qed.

Lemma steps_in_atomic {A} G `{!PreOrder G} (m : prog W (outcome E A)) :
  steps_in G m -> steps_in G (atomic m).
Proof. intros Hm. apply steps_in_actO. intros w. by apply steps_in_exec. Qed.
End guarantee.

(** ** Programs that rely on an invariant *)

Section keeps.
Context {W E : Type} (I : W -> Prop) (G : W -> W -> Prop).

(** Started under [I], every action restores [I] and moves inside [G], and the
    program ends in a result in [Q]. *)
Fixpoint keeps {A} (Q : A -> Prop) (p : prog W A) : Prop :=
  match p with
  | Ret a => Q a
  | Act f k => forall w, I w -> I (fst (f w)) /\ G w (fst (f w)) /\ keeps Q (k (snd (f w)))
  end.

Lemma keeps_pbind {A B} (Q : A -> Prop) (Q' : B -> Prop) (p : prog W A) k :
  keeps Q p -> (forall a, Q a -> keeps Q' (k a)) -> keeps Q' (pbind p k).
Proof.
  intros Hp Hk. induction p as [a|R f g IH]; simpl in *; [auto|].
  intros w Hw. destruct (Hp w Hw) as (? & ? & ?). auto.
Qed.
Lemma keeps_ret {A} (Q : A -> Prop) (a : A) : Q a -> keeps (on_ok (E:=E) Q) (ret a).
Proof. by intros Ha ? [= <-]. Qed.
Lemma keeps_throw {A} (Q : A -> Prop) (e : E) : keeps (on_ok Q) (throw (A:=A) e).
Proof. by intros ? [=]. Qed.
Lemma keeps_bind {A B} (Q : A -> Prop) (Q' : B -> Prop) (m : prog W (outcome E A)) k :
  keeps (on_ok Q) m -> (forall a, Q a -> keeps (on_ok Q') (k a)) -> keeps (on_ok Q') (bind m k).
Proof.
  intros Hm Hk. eapply keeps_pbind; [exact Hm|].
  intros [a|e|s] Ho; simpl; [by apply Hk, Ho| |]; by intros ? [=].
Qed.
Lemma keeps_then {A B} (Q : A -> Prop) (Q' : B -> Prop) (m : prog W (outcome E A)) k :
  keeps (on_ok Q) m -> (forall a, keeps (on_ok Q') (k a)) -> keeps (on_ok Q') (bind m k).
Proof. intros Hm Hk. eapply keeps_bind; [exact Hm|]. intros a _. apply Hk. Qed.
Lemma keeps_mapErr {A} (Q : A -> Prop) g (m : prog W (outcome E A)) :
  keeps (on_ok Q) m -> keeps (on_ok Q) (mapErr g m).
Proof.
  intros Hm. eapply keeps_pbind; [exact Hm|].
  intros [a|e|s] Ho; simpl; [exact Ho| |]; by intros ? [=].
Qed.
Lemma keeps_try {A} (Q : A -> Prop) (m : prog W (outcome E A)) :
  keeps (on_ok Q) m -> keeps (on_ok (fun r => forall a, r = inr a -> Q a)) (try m).
Proof.
  intros Hm. eapply keeps_pbind; [exact Hm|].
  intros [a|e|s] Ho; simpl; intros r [= <-] b [= <-]. by apply Ho.
Qed.
Lemma keeps_ignore {A} (Q : A -> Prop) (m : prog W (outcome E A)) :
  keeps (on_ok Q) m -> keeps (on_ok (fun _ => True)) (ignore m).
Proof. intros Hm. eapply keeps_then; [by apply keeps_try|]. intros r. by apply keeps_ret. Qed.
Lemma keeps_mono {A} (Q Q' : A -> Prop) (p : prog W A) :
  (forall a, Q a -> Q' a) -> keeps Q p -> keeps Q' p.
Proof.
  intros HQ. induction p as [a|R f g IH]; simpl; [apply HQ|].
  intros Hp w Hw. destruct (Hp w Hw) as (? & ? & ?). auto.
Qed.
End keeps.

(** Results of several kinds at once. *)
Lemma keeps_forall {W A} (I : W -> Prop) (G : W -> W -> Prop) {T : Type} (Q : T -> A -> Prop) p :
  keeps I G (fun _ => True) p -> (forall x, keeps I G (Q x) p) -> keeps I G (fun a => forall x, Q x a) p.
Proof.
  induction p as [a|R f g IH]; simpl; [done|]. intros Hp HQ w Hw.
  destruct (Hp w Hw) as (? & ? & ?). split_and!; [done..|]. apply IH; [done|]. intros x. by apply HQ.
Qed.

Lemma keeps_and {W A} (I : W -> Prop) (G : W -> W -> Prop) (Q Q' : A -> Prop) p :
  keeps I G Q p -> keeps I G Q' p -> keeps I G (fun a => Q a /\ Q' a) p.
Proof.
  induction p as [a|R f g IH]; simpl; [done|]. intros HQ HQ' w Hw.
  destruct (HQ w Hw) as (? & ? & ?), (HQ' w Hw) as (_ & _ & ?). auto.
Qed.

(** What every action of a program does whatever the world is, it does under
    the invariant. *)
Lemma keeps_guar {W A} (I : W -> Prop) (G0 G : W -> W -> Prop) (Q : A -> Prop) p :
  (forall w w', I w -> G0 w w' -> I w' /\ G w w') -> guar G0 Q p -> keeps I G Q p.
Proof.
  intros HG. induction p as [a|R f g IH]; simpl; [done|].
  intros Hp w Hw. destruct (Hp w) as [Hf Hg]. destruct (HG _ _ Hw Hf). auto.
Qed.

Lemma keeps_weaken {W A} (I : W -> Prop) (G G' : W -> W -> Prop) (Q : A -> Prop) p :
  (forall w w', G w w' -> G' w w') -> keeps I G Q p -> keeps I G' Q p.
Proof.
  intros HG. induction p as [a|R f g IH]; simpl; [done|].
  intros Hp w Hw. destruct (Hp w Hw) as (? & ? & ?). auto.
Qed.

(** [rely I G p]: [p] keeps [I] and stays in [G], whatever it returns. *)
Section rely.
Context {W E : Type} (I : W -> Prop) (G : W -> W -> Prop).

Definition rely {A} (p : prog W A) : Prop := keeps I G (fun _ => True) p.

Lemma rely_keeps {A} (Q : A -> Prop) (p : prog W A) : keeps I G Q p -> rely p.
Proof. by apply keeps_mono. Qed.
Lemma rely_elim {A} (p : prog W A) : rely p -> keeps I G (fun _ => True) p.
Proof. done. Qed.
Lemma rely_on_ok {A} (m : prog W (outcome E A)) : rely m -> keeps I G (on_ok (fun _ => True)) m.
Proof. apply keeps_mono. by intros o _ a _. Qed.
Lemma rely_steps_in {A} (G0 : W -> W -> Prop) (p : prog W A) :
  (forall w w', I w -> G0 w w' -> I w' /\ G w w') -> steps_in G0 p -> rely p.
Proof. apply keeps_guar. Qed.

Lemma rely_Ret {A} (a : A) : rely (Ret a).
Proof. done. Qed.
Lemma rely_ret {A} (a : A) : rely (ret (E:=E) a).
Proof. done. Qed.
Lemma rely_throw {A} (e : E) : rely (throw (A:=A) e).
Proof. done. Qed.
Lemma rely_pbind_post {A B} (Q : A -> Prop) (p : prog W A) (k : A -> prog W B) :
  keeps I G Q p -> (forall a, Q a -> rely (k a)) -> rely (pbind p k).
Proof. apply keeps_pbind. Qed.
Lemma rely_pbind {A B} (p : prog W A) (k : A -> prog W B) :
  rely p -> (forall a, rely (k a)) -> rely (pbind p k).
Proof. intros Hp Hk. eapply rely_pbind_post; [exact Hp|]. intros a _. apply Hk. Qed.
Lemma rely_bind {A B} (m : prog W (outcome E A)) (k : A -> prog W (outcome E B)) :
  rely m -> (forall a, rely (k a)) -> rely (bind m k).
Proof. intros Hm Hk. apply rely_pbind; [done|]. intros [a|e|s]; [apply Hk|done..]. Qed.
Lemma rely_mapErr {A} g (m : prog W (outcome E A)) : rely m -> rely (mapErr g m).
Proof. intros Hm. by apply rely_pbind. Qed.
Lemma rely_try {A} (m : prog W (outcome E A)) : rely m -> rely (try m).
Proof. intros Hm. by apply rely_pbind. Qed.
Lemma rely_ignore {A} (m : prog W (outcome E A)) : rely m -> rely (ignore m).
Proof. intros Hm. apply rely_bind; [by apply rely_try|done]. Qed.
End rely.

Create HintDb steps.
#[global] Opaque steps_in rely.
#[export] Hint Resolve steps_in_Ret steps_in_ret steps_in_throw steps_in_panic steps_in_mapErr
  steps_in_try steps_in_ignore steps_in_mapM : steps.

(** Walk a program's structure, closing its known parts with the hints. *)
Ltac steps_walk :=
  repeat first
    [ solve [eauto with steps]
    | apply steps_in_bind; [|intros ?]
    | apply steps_in_mapErr | apply steps_in_try | apply steps_in_ignore
    | apply steps_in_mapM; intros ?
    | case_match
    | case_decide ].

(** ** Interleaving programs

    A pool runs several programs over one world: at each step one of them
    performs its next action.  The trace records who moved and from which
    world to which. *)

Section pool.
Context {W A : Type}.
Implicit Types (w : W) (ps : list (prog W A)).

Inductive pool_steps : W -> list (prog W A) -> list (nat * W * W) ->
    W -> list (prog W A) -> Prop :=
| pool_done w ps : pool_steps w ps [] w ps
| pool_move {R} i (f : W -> W * R) k r w w1 ps tr w' ps' :
    ps !! i = Some (Act f k) ->
    f w = (w1, r) ->
    pool_steps w1 (<[i := k r]> ps) tr w' ps' ->
    pool_steps w ps ((i, w, w1) :: tr) w' ps'.

(** The executable form: follow a schedule, skipping a program that is done. *)
Fixpoint run_sched (sched : list nat) w ps : W * list (prog W A) :=
  match sched with
  | [] => (w, ps)
  | i :: sched =>
    match ps !! i with
    | Some (Act f k) => let '(w1, r) := f w in run_sched sched w1 (<[i := k r]> ps)
    | _ => run_sched sched w ps
    end
  end.

Lemma run_sched_steps sched w ps :
  exists tr, pool_steps w ps tr (fst (run_sched sched w ps)) (snd (run_sched sched w ps)).
Proof.
  revert w ps. induction sched as [|i sched IH]; intros w ps; simpl.
  { exists []. constructor. }
  destruct (ps !! i) as [[a|R f k]|] eqn:Hi; [apply IH| |apply IH].
  destruct (f w) as [w1 r] eqn:Hf. destruct (IH w1 (<[i:=k r]> ps)) as [tr Htr].
  exists ((i, w, w1) :: tr). by econstructor.
Qed.

(** A guarantee of every program of the pool is a guarantee of the pool. *)
Lemma pool_guarantee (G : W -> W -> Prop) `{!PreOrder G} w ps tr w' ps' :
  pool_steps w ps tr w' ps' ->
  Forall (steps_in G) ps ->
  G w w' /\ Forall (steps_in G) ps'.
Proof.
  induction 1 as [w ps|R i f k r w w1 ps tr w' ps' Hi Hf _ IH]; intros Hps; [done|].
  destruct (Forall_lookup_1 _ _ _ _ Hps Hi w) as [Hact Hk]. rewrite Hf in Hact, Hk.
  destruct IH as [HG ?]; [by apply Forall_insert|]. split; [|done].
  by etrans; [|exact HG].
Qed.

(** *** One-shot resources

    [armed w] says that a resource is available, in worlds that satisfy the
    invariant [Inv].  A program that [must_disarm] cannot finish in [P] unless
    one of its own actions takes the resource; a program whose actions are in
    [spends] never makes it available again. *)

Definition spends (Inv : W -> Prop) (armed : W -> bool) : W -> W -> Prop :=
  fun w w' => Inv w -> Inv w' /\ (armed w = false -> armed w' = false).

#[export] Instance spends_preorder Inv armed : PreOrder (spends Inv armed).
Proof.
  split; unfold spends; [by intros w|]. intros x y z Hxy Hyz Hx.
  destruct (Hxy Hx) as [Hy ?], (Hyz Hy) as [Hz ?]. auto.
Qed.

Fixpoint must_disarm (Inv : W -> Prop) (armed : W -> bool) (P : A -> Prop) (p : prog W A) : Prop :=
  match p with
  | Ret a => ~ P a
  | Act f k => forall w, Inv w ->
      (armed w = true /\ armed (fst (f w)) = false) \/
      must_disarm Inv armed P (k (snd (f w)))
  end.

Lemma disarmed_no_winner Inv armed P w ps tr w' ps' j p a :
  pool_steps w ps tr w' ps' ->
  Forall (steps_in (spends Inv armed)) ps ->
  Inv w -> armed w = false ->
  ps !! j = Some p -> must_disarm Inv armed P p ->
  ps' !! j = Some (Ret a) -> ~ P a.
Proof.
  intros Hsteps. revert p.
  induction Hsteps as [w ps|R i f k r w w1 ps tr w' ps' Hi Hf _ IH];
    intros p Hps Hinv Hw Hj Hp Ha.
  { rewrite Hj in Ha. by simplify_eq/=. }
  destruct (Forall_lookup_1 _ _ _ _ Hps Hi w) as [Hact Hk]. rewrite Hf in Hact, Hk.
  destruct (Hact Hinv) as [Hinv1 Hw1]. specialize (Hw1 Hw).
  assert (Forall (steps_in (spends Inv armed)) (<[i:=k r]> ps)) by by apply Forall_insert.
  destruct (decide (i = j)) as [->|Hne].
  - rewrite Hi in Hj. injection Hj as <-. simpl in Hp.
    destruct (Hp w Hinv) as [[? _]|Hp']; [congruence|]. rewrite Hf in Hp'. simpl in Hp'.
    eapply IH; [done|done|done| |exact Hp'|done].
    apply list_lookup_insert_eq. by eapply lookup_lt_Some.
  - eapply IH; [done|done|done| |exact Hp|done]. by rewrite list_lookup_insert_ne.
Qed.

(** Of two programs that must take the resource, at most one succeeds. *)
Lemma one_winner Inv armed P w ps tr w' ps' i j p q a b :
  pool_steps w ps tr w' ps' ->
  Forall (steps_in (spends Inv armed)) ps -> Inv w ->
  i <> j ->
  ps !! i = Some p -> must_disarm Inv armed P p ->
  ps !! j = Some q -> must_disarm Inv armed P q ->
  ps' !! i = Some (Ret a) -> ps' !! j = Some (Ret b) ->
  ~ (P a /\ P b).
Proof.
  intros Hsteps. revert p q.
  induction Hsteps as [w ps|R l f k r w w1 ps tr w' ps' Hl Hf Hrest IH];
    intros p q Hps Hinv Hij Hi Hp Hj Hq Ha Hb [Pa Pb].
  { rewrite Hi in Ha. by simplify_eq/=. }
  destruct (Forall_lookup_1 _ _ _ _ Hps Hl w) as [Hact Hk]. rewrite Hf in Hact, Hk.
  destruct (Hact Hinv) as [Hinv1 _].
  assert (Forall (steps_in (spends Inv armed)) (<[l:=k r]> ps)) as Hps' by by apply Forall_insert.
  assert (forall n pn, ps !! n = Some pn -> must_disarm Inv armed P pn ->
    (armed w1 = false /\ n = l) \/
    (exists pn', <[l:=k r]> ps !! n = Some pn' /\ must_disarm Inv armed P pn'))
    as Hkeep.
  { intros n pn Hn Hpn. destruct (decide (n = l)) as [->|Hne].
    - rewrite Hl in Hn. injection Hn as <-. simpl in Hpn.
      destruct (Hpn w Hinv) as [[_ Hw1]|Hpn']; rewrite Hf in *; simpl in *; [by left|].
      right. eexists. split; [|exact Hpn'].
      apply list_lookup_insert_eq. by eapply lookup_lt_Some.
    - right. exists pn. by rewrite list_lookup_insert_ne. }
  destruct (Hkeep i p Hi Hp) as [[Hw1 ->]|(p' & Hi' & Hp')].
  { eapply (disarmed_no_winner Inv armed P w1 _ tr w' ps' j q b); eauto.
    by rewrite list_lookup_insert_ne. }
  destruct (Hkeep j q Hj Hq) as [[Hw1 ->]|(q' & Hj' & Hq')].
  { eapply (disarmed_no_winner Inv armed P w1 _ tr w' ps' i p a); eauto.
    by rewrite list_lookup_insert_ne. }
  eapply IH; eauto.
Qed.
End pool.

Section must_disarm.
Context {W E : Type} (Inv : W -> Prop) (armed : W -> bool).

(** Finishing without error. *)
Definition is_ok {A} (o : outcome E A) : Prop := exists a, o = Ok a.

(** Every result reached through worlds of the invariant is in [Q]. *)
Fixpoint yields {A} (Q : A -> Prop) (p : prog W A) : Prop :=
  match p with
  | Ret a => Q a
  | Act f k => forall w, Inv w -> yields Q (k (snd (f w)))
  end.

Lemma yields_True {A} (Q : A -> Prop) p : (forall a, Q a) -> yields Q p.
Proof. intros HQ. induction p as [a|R f g IH]; simpl; auto. Qed.
Lemma yields_pbind {A B} (Q : A -> Prop) (Q' : B -> Prop) (p : prog W A) k :
  yields Q p -> (forall a, Q a -> yields Q' (k a)) -> yields Q' (pbind p k).
Proof. intros Hp Hk. induction p as [a|R f g IH]; simpl in *; auto. Qed.
Lemma yields_mapErr {A} (Q : A -> Prop) g (m : prog W (outcome E A)) :
  yields (on_ok Q) m -> yields (on_ok Q) (mapErr g m).
Proof.
  intros Hm. eapply yields_pbind; [exact Hm|].
  intros [a|e|s] Ho; simpl; [exact Ho| |]; by intros ? [=].
Qed.
Lemma yields_then {A B} (Q : B -> Prop) (m : prog W (outcome E A)) k :
  (forall a, yields (on_ok Q) (k a)) -> yields (on_ok Q) (bind m k).
Proof.
  intros Hk. eapply yields_pbind; [by apply (yields_True (fun _ => True))|].
  intros [a|e|s] _; simpl; [apply Hk| |]; by intros ? [=].
Qed.

Lemma must_disarm_pbind {A B} P Q (p : prog W A) (k : A -> prog W B) :
  must_disarm Inv armed P p ->
  (forall a, ~ P a -> must_disarm Inv armed Q (k a)) ->
  must_disarm Inv armed Q (pbind p k).
Proof.
  intros Hp Hk. induction p as [a|R f g IH]; simpl in *; [auto|].
  intros w Hw. destruct (Hp w Hw) as [?|Hg]; [by left|right; auto].
Qed.

Lemma must_disarm_here {A B} (m : prog W (outcome E A)) (k : A -> prog W (outcome E B)) :
  must_disarm Inv armed is_ok m -> must_disarm Inv armed is_ok (bind m k).
Proof.
  intros Hm. eapply must_disarm_pbind; [exact Hm|].
  intros [a|e|s] Hn; simpl; [by destruct Hn; exists a| |]; intros [? [=]].
Qed.

Lemma must_disarm_after {A B} (Q : A -> Prop) (m : prog W (outcome E A))
    (k : A -> prog W (outcome E B)) :
  yields (on_ok Q) m ->
  (forall a, Q a -> must_disarm Inv armed is_ok (k a)) ->
  must_disarm Inv armed is_ok (bind m k).
Proof.
  intros Hm Hk. unfold bind. induction m as [o|R f g IH]; simpl in *; [|right; auto].
  destruct o as [a|e|s]; [by apply Hk, Hm| |]; intros [? [=]].
Qed.

Lemma must_disarm_later {A B} (m : prog W (outcome E A)) (k : A -> prog W (outcome E B)) :
  (forall a, must_disarm Inv armed is_ok (k a)) -> must_disarm Inv armed is_ok (bind m k).
Proof.
  intros Hk. apply (must_disarm_after (fun _ => True)); [|auto].
  apply yields_True. by intros o a _.
Qed.

Lemma must_disarm_mapErr {A} g (m : prog W (outcome E A)) :
  must_disarm Inv armed is_ok m -> must_disarm Inv armed is_ok (mapErr g m).
Proof.
  intros Hm. eapply must_disarm_pbind; [exact Hm|].
  intros [a|e|s] Hn; simpl; intros [? [=]]. destruct Hn. by eexists.
Qed.
End must_disarm.

(** A program that keeps an invariant ends in what it yields under it. *)
Lemma keeps_yields {W A} (I : W -> Prop) (G : W -> W -> Prop) (Q : A -> Prop) p :
  keeps I G (fun _ => True) p -> yields I Q p -> keeps I G Q p.
Proof.
  induction p as [a|R f g IH]; simpl; [done|].
  intros Hp HQ w Hw. destruct (Hp w Hw) as (? & ? & ?). auto.
Qed.

(** Programs that keep an invariant keep it together, in any interleaving. *)
Lemma pool_keeps {W A} (I : W -> Prop) (G : W -> W -> Prop) `{!PreOrder G}
    (Q : nat -> A -> Prop) w ps tr w' ps' :
  pool_steps w ps tr w' ps' -> I w ->
  (forall i p, ps !! i = Some p -> keeps I G (Q i) p) ->
  I w' /\ G w w' /\ forall i p, ps' !! i = Some p -> keeps I G (Q i) p.
Proof.
  induction 1 as [w ps|R i f k r w w1 ps tr w' ps' Hi Hf _ IH]; intros Hw Hps; [done|].
  destruct (Hps i _ Hi w Hw) as (Hw1 & HG & Hk). rewrite Hf in Hw1, HG, Hk. simpl in *.
  destruct IH as (? & HG' & ?); [done| |].
  - intros j p Hj. destruct (decide (j = i)) as [->|Hne].
    + rewrite list_lookup_insert_eq in Hj by by eapply lookup_lt_Some. by simplify_eq.
    + rewrite list_lookup_insert_ne in Hj by done. by apply Hps.
  - split; [done|]. split; [|done]. by etrans.
Qed.

Lemma pool_rely {W A} (I : W -> Prop) (G : W -> W -> Prop) `{!PreOrder G} sched w
    (ps : list (prog W A)) :
  I w -> Forall (rely I G) ps -> I (fst (run_sched sched w ps)) /\ G w (fst (run_sched sched w ps)).
Proof.
  intros Hw Hps. destruct (run_sched_steps sched w ps) as [tr Htr].
  eapply (pool_keeps I G (fun _ _ => True)) in Htr as (? & ? & _); [done|done|].
  intros i m Hm. by apply rely_elim, (Forall_lookup_1 _ _ _ _ Hps Hm).
Qed.
