(* ===== verification/Bytes.v ===== *)
(** * Bytes: the parts of Go's standard library that work on byte strings

    Go strings are [string] (a sequence of 8-bit characters), byte slices are
    lists of [Byte.byte]; a slice that may be nil is an option of such a list.
    This file models what the sources use of [strings], [encoding/base64] and
    of the hexadecimal verb of [fmt], with the round trips the components rely on. *)

From Stdlib Require Import ZArith Lia Ascii String.
From Stdlib.Strings Require Import Byte.
From stdpp Require Import base list strings gmap numbers.
From S2P Require Import Prelude.
Open Scope Z_scope.

Abbreviation bytes := (list Byte.byte).

#[export] Instance byte_eq_decision : EqDecision Byte.byte := Byte.byte_eq_dec.

(** ** A byte as an 8-bit integer *)

Definition byte_to_Z (b : Byte.byte) : Z := Z.of_N (Byte.to_N b).
Definition byte_of_Z (z : Z) : Byte.byte :=
  match Byte.of_N (Z.to_N (z `mod` 256)) with Some b => b | None => Byte.x00 end.

Lemma byte_to_Z_range b : 0 <= byte_to_Z b < 256.
Proof. unfold byte_to_Z. pose proof (Byte.to_N_bounded b). lia. Qed.

Lemma byte_of_to_Z b : byte_of_Z (byte_to_Z b) = b.
Proof.
  unfold byte_of_Z. rewrite Z.mod_small by apply byte_to_Z_range.
  unfold byte_to_Z. by rewrite N2Z.id, Byte.of_to_N.
Qed.

Lemma byte_to_of_Z z : 0 <= z < 256 -> byte_to_Z (byte_of_Z z) = z.
Proof.
  intros Hz. unfold byte_of_Z, byte_to_Z. rewrite Z.mod_small by done.
  destruct (Byte.of_N (Z.to_N z)) as [b|] eqn:Hb.
  - apply Byte.to_of_N in Hb. lia.
  - apply Byte.of_N_None_iff in Hb. lia.
Qed.

(** [string(b)] and [[]byte(s)]. *)
Definition b2s (b : bytes) : string := String.string_of_list_byte b.
Definition s2b (s : string) : bytes := String.list_byte_of_string s.

Lemma b2s_s2b s : b2s (s2b s) = s.
Proof. apply String.string_of_list_byte_of_string. Qed.
Lemma s2b_b2s b : s2b (b2s b) = b.
Proof. apply String.list_byte_of_string_of_list_byte. Qed.

#[export] Instance b2s_inj : Inj (=) (=) b2s.
Proof. intros a b H. by rewrite <-(s2b_b2s a), H, s2b_b2s. Qed.

Lemma b2s_cons x a : b2s (x :: a) = String (ascii_of_byte x) (b2s a).
Proof. done. Qed.

Lemma b2s_app a b : b2s (a ++ b) = (b2s a +:+ b2s b)%string.
Proof. induction a as [|x a IH]; [done|]. cbn [app]. by rewrite !b2s_cons, IH. Qed.

Lemma length_b2s b : String.length (b2s b) = List.length b.
Proof. induction b as [|x b IH]; [done|]. rewrite b2s_cons. simpl. by rewrite IH. Qed.

(** ** Go's len of a possibly nil slice *)

Definition slice : Type := option bytes.
Definition slice_bytes (s : slice) : bytes := default [] s.
Definition len (s : slice) : Z := Z.of_nat (List.length (slice_bytes s)).

(** ** Go's operations on pointers and slices, which panic

    A pointer is an option, [nil] being [None].  An expression [s[lo:hi]] is
    bounded by the capacity of [s]; slices are taken to have no room beyond
    their length, so an expression past the length is a panic. *)

Section partial.
Context {E A : Type}.

Definition not_nil (p : option A) : bool := match p with Some _ => true | None => false end.
(** [*p] *)
Definition deref (p : option A) : outcome E A :=
  match p with
  | Some a => Ok a
  | None => Panic "runtime error: invalid memory address or nil pointer dereference"
  end.

(** [s[i]] *)
Definition index (s : list A) (i : Z) : outcome E A :=
  match (if 0 <=? i then s !! Z.to_nat i else None) with
  | Some a => Ok a
  | None => Panic "runtime error: index out of range"
  end.

Definition in_bounds (s : list A) (lo hi : Z) : bool :=
  (0 <=? lo) && (lo <=? hi) && (hi <=? Z.of_nat (List.length s)).
(** [s[lo:hi]] *)
Definition subslice (s : list A) (lo hi : Z) : outcome E (list A) :=
  if in_bounds s lo hi then Ok (drop (Z.to_nat lo) (take (Z.to_nat hi) s))
  else Panic "runtime error: slice bounds out of range".
(** [copy(dst[lo:hi], src)]: the destination afterwards. *)
Definition copy_into (dst : list A) (lo hi : Z) (src : list A) : outcome E (list A) :=
  if in_bounds dst lo hi then
    let src := take (Z.to_nat (hi - lo)) src in
    Ok (take (Z.to_nat lo) dst ++ src ++ drop (Z.to_nat lo + List.length src) dst)%list
  else Panic "runtime error: slice bounds out of range".

Lemma subslice_to s (n : nat) : (n <= List.length s)%nat -> subslice s 0 (Z.of_nat n) = Ok (take n s).
Proof.
  intros Hn. unfold subslice, in_bounds.
  rewrite !(proj2 (Z.leb_le _ _)) by lia. by rewrite Nat2Z.id.
Qed.
Lemma subslice_from s (n : nat) :
  (n <= List.length s)%nat -> subslice s (Z.of_nat n) (Z.of_nat (List.length s)) = Ok (drop n s).
Proof.
  intros Hn. unfold subslice, in_bounds. rewrite !(proj2 (Z.leb_le _ _)) by lia.
  by rewrite !Nat2Z.id, take_ge.
Qed.
(** Filling the front and the back of a slice. *)
Lemma copy_front dst src : (List.length src <= List.length dst)%nat ->
  copy_into dst 0 (Z.of_nat (List.length src)) src = Ok (src ++ drop (List.length src) dst)%list.
Proof.
  intros Hn. unfold copy_into, in_bounds. rewrite !(proj2 (Z.leb_le _ _)) by lia.
  rewrite Z.sub_0_r, !Nat2Z.id. by rewrite (take_ge src) by lia.
Qed.
Lemma copy_back dst src (n : nat) : (n + List.length src = List.length dst)%nat ->
  copy_into dst (Z.of_nat n) (Z.of_nat (List.length dst)) src = Ok (take n dst ++ src)%list.
Proof.
  intros Hn. unfold copy_into, in_bounds. rewrite !(proj2 (Z.leb_le _ _)) by lia.
  rewrite Nat2Z.id, (take_ge src) by lia. rewrite drop_ge by lia. by rewrite app_nil_r.
Qed.
End partial.

(** ** [strings.Split] with a one-character separator, [HasPrefix], [TrimPrefix] *)

Fixpoint split (sep : ascii) (s : string) : list string :=
  match s with
  | EmptyString => [EmptyString]
  | String c s' =>
    if Ascii.eqb c sep then EmptyString :: split sep s'
    else match split sep s' with
         | p :: ps => String c p :: ps
         | [] => [String c EmptyString]
         end
  end.

Fixpoint no_char (c : ascii) (s : string) : bool :=
  match s with
  | EmptyString => true
  | String x s => negb (Ascii.eqb x c) && no_char c s
  end.

Lemma split_nonempty sep s : split sep s <> [].
Proof. destruct s as [|c s]; simpl; [done|]. case_match; [done|]. by case_match. Qed.

Lemma split_no_char sep s : no_char sep s = true -> split sep s = [s].
Proof.
  induction s as [|c s IH]; simpl; [done|].
  intros [Hc Hs]%andb_prop. apply negb_true_iff in Hc. by rewrite Hc, IH.
Qed.

Lemma split_app sep a b :
  no_char sep a = true -> split sep (a +:+ String sep b) = a :: split sep b.
Proof.
  induction a as [|c a IH]; simpl; [by rewrite Ascii.eqb_refl|].
  intros [Hc Ha]%andb_prop. apply negb_true_iff in Hc. by rewrite Hc, IH.
Qed.

Lemma no_char_app c a b : no_char c (a +:+ b) = no_char c a && no_char c b.
Proof. induction a as [|x a IH]; simpl; [done|]. by rewrite IH, andb_assoc. Qed.

(** Texts without a NUL, which PostgreSQL's types text and jsonb accept. *)
Definition no_nul (s : string) : bool := no_char "000" s.

(** [utf8.ValidString]. *)
Fixpoint valid_utf8 (s : string) : bool :=
  let code c := Z.of_N (N_of_ascii c) in
  let within lo hi c := (lo <=? code c) && (code c <=? hi) in
  match s with
  | EmptyString => true
  | String a s =>
    if code a <? 128 then valid_utf8 s else
    match s with
    | EmptyString => false
    | String b s =>
      if within 194 223 a then within 128 191 b && valid_utf8 s else
      match s with
      | EmptyString => false
      | String c s =>
        let second := if code a =? 224 then within 160 191 b
                      else if code a =? 237 then within 128 159 b else within 128 191 b in
        if within 224 239 a then second && within 128 191 c && valid_utf8 s else
        match s with
        | EmptyString => false
        | String d s =>
          let second := if code a =? 240 then within 144 191 b
                        else if code a =? 244 then within 128 143 b else within 128 191 b in
          within 240 244 a && second && within 128 191 c && within 128 191 d && valid_utf8 s
        end
      end
    end
  end.

(** ASCII texts are valid. *)
Fixpoint is_ascii (s : string) : bool :=
  match s with
  | EmptyString => true
  | String c s => (Z.of_N (N_of_ascii c) <? 128) && is_ascii s
  end.
Lemma is_ascii_app a b : is_ascii (a +:+ b) = is_ascii a && is_ascii b.
Proof. induction a as [|c a IH]; simpl; [done|]. by rewrite IH, andb_assoc. Qed.
Lemma valid_utf8_ascii s : is_ascii s = true -> valid_utf8 s = true.
Proof. induction s as [|c s IH]; [done|]. simpl. intros [-> Hs]%andb_prop. by apply IH. Qed.

(** Joining with the separator undoes the split. *)
Fixpoint join (sep : ascii) (l : list string) : string :=
  match l with
  | [] => EmptyString
  | [s] => s
  | s :: l => s +:+ String sep (join sep l)
  end.

Lemma join_split sep s : join sep (split sep s) = s.
Proof.
  induction s as [|c s IH]; simpl; [done|].
  pose proof (split_nonempty sep s) as Hne.
  destruct (Ascii.eqb_spec c sep) as [->|Hc].
  - destruct (split sep s) eqn:Hs; [done|]. simpl in *. by rewrite IH.
  - destruct (split sep s) as [|p [|q ps]] eqn:Hs; simpl in *; [done| |]; by rewrite <-IH.
Qed.

Definition HasPrefix (s p : string) : bool := String.prefix p s.
Fixpoint drop_string (n : nat) (s : string) : string :=
  match n, s with
  | S n, String _ s => drop_string n s
  | _, _ => s
  end.
Definition TrimPrefix (s p : string) : string :=
  if HasPrefix s p then drop_string (String.length p) s else s.

Lemma append_cons c a b : String c a +:+ b = String c (a +:+ b).
Proof. done. Qed.
Lemma append_assoc a b c : (a +:+ b) +:+ c = a +:+ b +:+ c.
Proof. induction a as [|d a IH]; [done|]. by rewrite !append_cons, IH. Qed.
Lemma append_nil a : a +:+ "" = a.
Proof. induction a as [|d a IH]; [done|]. by rewrite append_cons, IH. Qed.

Lemma prefix_app p s : String.prefix p (p +:+ s) = true.
Proof.
  induction p as [|c p IH]; simpl; [by destruct s|].
  destruct (ascii_dec c c) as [_|n]; [apply IH|by destruct n].
Qed.

Lemma drop_string_app p s : drop_string (String.length p) (p +:+ s) = s.
Proof. induction p as [|c p IH]; simpl; [by destruct s|apply IH]. Qed.

Lemma TrimPrefix_app p s : TrimPrefix (p +:+ s) p = s.
Proof. unfold TrimPrefix, HasPrefix. by rewrite prefix_app, drop_string_app. Qed.

(** ** The verb %x on a byte slice: two lowercase digits per byte *)

Definition hex_digit (z : Z) : ascii :=
  ascii_of_N (Z.to_N (if z <? 10 then 48 + z else 87 + z)).

Fixpoint hex (b : bytes) : string :=
  match b with
  | [] => EmptyString
  | x :: b => String (hex_digit (byte_to_Z x / 16))
               (String (hex_digit (byte_to_Z x mod 16)) (hex b))
  end.

Lemma length_hex b : String.length (hex b) = (2 * List.length b)%nat.
Proof. induction b as [|x b IH]; simpl; lia. Qed.

Lemma hex_digit_ascii z : 0 <= z < 16 -> (Z.of_N (N_of_ascii (hex_digit z)) <? 128) = true.
Proof.
  intros Hz. apply Z.ltb_lt. unfold hex_digit.
  rewrite N_ascii_embedding; destruct (Z.ltb_spec z 10); lia.
Qed.
Lemma is_ascii_hex b : is_ascii (hex b) = true.
Proof.
  induction b as [|x b IH]; simpl; [done|]. pose proof (byte_to_Z_range x) as Hx.
  rewrite IH, !hex_digit_ascii; [done| |].
  - by apply Z.mod_pos_bound.
  - split; [apply Z.div_pos; lia|apply Z.div_lt_upper_bound; lia].
Qed.

(** ** [encoding/base64] without padding

    The encoders turn three bytes into four 6-bit digits of an alphabet; the
    decoders skip carriage returns and newlines, refuse every character
    outside the alphabet and a last quantum of one character, and drop the
    unused low bits of a short last quantum. *)

Fixpoint sextets (l : list Z) : list Z :=
  match l with
  | a :: b :: c :: l =>
    a / 4 :: (a mod 4) * 16 + b / 16 :: (b mod 16) * 4 + c / 64 :: c mod 64 :: sextets l
  | [a; b] => [a / 4; (a mod 4) * 16 + b / 16; (b mod 16) * 4]
  | [a] => [a / 4; (a mod 4) * 16]
  | [] => []
  end.

Fixpoint unsextets (l : list Z) : option (list Z) :=
  match l with
  | a :: b :: c :: d :: l =>
    r ← unsextets l;
    Some (a * 4 + b / 16 :: (b mod 16) * 16 + c / 4 :: (c mod 4) * 64 + d :: r)
  | [a; b; c] => Some [a * 4 + b / 16; (b mod 16) * 16 + c / 4]
  | [a; b] => Some [a * 4 + b / 16]
  | [_] => None
  | [] => Some []
  end.

Lemma list_ind3 {A} (P : list A -> Prop) :
  P [] -> (forall a, P [a]) -> (forall a b, P [a; b]) ->
  (forall a b c l, P l -> P (a :: b :: c :: l)) -> forall l, P l.
Proof.
  intros H0 H1 H2 H3. fix IH 1. intros [|a [|b [|c l]]]; [done|done|done|]. apply H3, IH.
Qed.

Ltac euclid := Z.to_euclidean_division_equations; lia.

Lemma unsextets_sextets l :
  Forall (fun z => 0 <= z < 256) l -> unsextets (sextets l) = Some l.
Proof.
  induction l as [|a|a b|a b c l IH] using list_ind3; intros Hl;
    rewrite ?list.Forall_cons in Hl; destruct_and?; cbn [sextets unsextets]; [done| | |];
    [| |rewrite IH by assumption; cbn [mbind option_bind]];
    repeat f_equal; euclid.
Qed.

Lemma sextets_range l :
  Forall (fun z => 0 <= z < 256) l -> Forall (fun z => 0 <= z < 64) (sextets l).
Proof.
  induction l as [|a|a b|a b c l IH] using list_ind3; intros Hl;
    rewrite ?list.Forall_cons in Hl; destruct_and?; cbn [sextets];
    rewrite ?list.Forall_cons; split_and?; try euclid; auto using Forall_nil_2.
Qed.

(** The two alphabets differ in their last two digits. *)
Record alphabet := mkAlphabet { digit62 : ascii; digit63 : ascii }.
Definition urlAlphabet : alphabet := mkAlphabet "-" "_".
Definition stdAlphabet : alphabet := mkAlphabet "+" "/".

Definition b64_digit (al : alphabet) (z : Z) : ascii :=
  if z <? 26 then ascii_of_N (Z.to_N (65 + z))
  else if z <? 52 then ascii_of_N (Z.to_N (71 + z))
  else if z <? 62 then ascii_of_N (Z.to_N (z - 4))
  else if z =? 62 then digit62 al else digit63 al.

Definition b64_value (al : alphabet) (c : ascii) : option Z :=
  let n := Z.of_N (N_of_ascii c) in
  if (65 <=? n) && (n <=? 90) then Some (n - 65)
  else if (97 <=? n) && (n <=? 122) then Some (n - 71)
  else if (48 <=? n) && (n <=? 57) then Some (n + 4)
  else if Ascii.eqb c (digit62 al) then Some 62
  else if Ascii.eqb c (digit63 al) then Some 63
  else None.

Definition is_newline (c : ascii) : bool := Ascii.eqb c "010" || Ascii.eqb c "013".

Fixpoint string_map (f : Z -> ascii) (l : list Z) : string :=
  match l with [] => EmptyString | z :: l => String (f z) (string_map f l) end.

Fixpoint b64_values (al : alphabet) (s : string) : option (list Z) :=
  match s with
  | EmptyString => Some []
  | String c s =>
    if is_newline c then b64_values al s
    else v ← b64_value al c; vs ← b64_values al s; Some (v :: vs)
  end.

Definition RawEncode (al : alphabet) (b : bytes) : string :=
  string_map (b64_digit al) (sextets (byte_to_Z <$> b)).
Definition RawDecode (al : alphabet) (s : string) : option bytes :=
  match b64_values al s with
  | Some l => fmap (M:=list) byte_of_Z <$> unsextets l
  | None => None
  end.

(** A property of the 64 digits, by evaluation. *)
Definition digits : list Z := seqZ 0 64.

Lemma digit_ok (P : Z -> bool) z : 0 <= z < 64 -> forallb P digits = true -> P z = true.
Proof.
  intros Hz Hall. rewrite forallb_forall in Hall. apply Hall.
  apply list_elem_of_In, elem_of_seqZ. lia.
Qed.

Definition alphabet_ok (al : alphabet) : bool :=
  forallb (fun z => bool_decide (b64_value al (b64_digit al z) = Some z)
                    && negb (is_newline (b64_digit al z))
                    && negb (Ascii.eqb (b64_digit al z) ".")
                    && negb (Ascii.eqb (b64_digit al z) "$")
                    && negb (Ascii.eqb (b64_digit al z) "000")) digits.

Lemma alphabet_digit al z :
  alphabet_ok al = true -> 0 <= z < 64 ->
  b64_value al (b64_digit al z) = Some z /\ is_newline (b64_digit al z) = false /\
  b64_digit al z <> "."%char /\ b64_digit al z <> "$"%char /\ b64_digit al z <> "000"%char.
Proof.
  intros Hal Hz. pose proof (digit_ok _ z Hz Hal) as H. simpl in H.
  rewrite !andb_true_iff, !negb_true_iff, bool_decide_eq_true in H.
  destruct H as [[[[H1 H2] H3] H4] H5].
  split_and!; [done|done|..]; by apply Ascii.eqb_neq.
Qed.

Lemma b64_values_map al l :
  alphabet_ok al = true -> Forall (fun z => 0 <= z < 64) l ->
  b64_values al (string_map (b64_digit al) l) = Some l.
Proof.
  intros Hal. induction l as [|z l IH]; simpl; [done|]. intros [Hz Hl]%list.Forall_cons.
  destruct (alphabet_digit al z Hal Hz) as (Hv & Hn & _).
  by rewrite Hn, Hv, IH.
Qed.

Lemma bytes_range (b : bytes) : Forall (fun z => 0 <= z < 256) (byte_to_Z <$> b).
Proof. apply Forall_fmap, Forall_true. apply byte_to_Z_range. Qed.

Theorem RawDecode_RawEncode al b :
  alphabet_ok al = true -> RawDecode al (RawEncode al b) = Some b.
Proof.
  intros Hal. unfold RawDecode, RawEncode.
  rewrite b64_values_map by (auto using sextets_range, bytes_range). simpl.
  rewrite unsextets_sextets by apply bytes_range. simpl. f_equal.
  induction b as [|x b IH]; [done|]. cbn. f_equal; [apply byte_of_to_Z|apply IH].
Qed.

Lemma RawEncode_no_char al b c :
  alphabet_ok al = true -> c ∈ ["."; "$"; "000"]%char -> no_char c (RawEncode al b) = true.
Proof.
  intros Hal Hc. unfold RawEncode. pose proof (sextets_range _ (bytes_range b)) as Hr.
  induction Hr as [|z l Hz _ IH]; simpl; [done|].
  rewrite IH, andb_true_r. apply negb_true_iff, Ascii.eqb_neq.
  destruct (alphabet_digit al z Hal Hz) as (_ & _ & Hd & Hs & H0).
  set_solver.
Qed.

Lemma urlAlphabet_ok : alphabet_ok urlAlphabet = true.
Proof. by vm_compute. Qed.
Lemma stdAlphabet_ok : alphabet_ok stdAlphabet = true.
Proof. by vm_compute. Qed.
#[export] Hint Resolve urlAlphabet_ok stdAlphabet_ok : core.
