(* ===== verification/Errors.v ===== *)
(** * Errors: [internal/identity/errors.go], [svc_helpers.go] and the sentinels
    of the packages store and auth

    A Go [error] is a value of [error]: a sentinel, one of the three wrapping
    structs of errors.go, an error built by [fmt.Errorf] around another one, or
    an error of a driver.  [errors_Is] is [errors.Is], which follows [Unwrap]
    and asks each layer's [Is] method. *)

From Stdlib Require Import ZArith Lia Ascii String.
From stdpp Require Import base list strings numbers decidable.
From S2P Require Import Prelude Bytes.
Open Scope string_scope.

(** ** Sentinels *)

Inductive sentinel :=
| ErrNotFound | ErrAlreadyExists | ErrInvalidInput | ErrVersionConflict
| ErrIdentityInactive | ErrIdentityTerminal
| ErrKeyNotFound | ErrKeyNotUsable | ErrKeyCompromised | ErrNoPrimaryKey
| ErrCredentialNotFound | ErrCredentialInactive | ErrCredentialConsumed
| ErrRecoveryNotFound | ErrRecoveryNotUsable
| ErrTenantNotFound | ErrTenantInactive
| ErrUnauthorized | ErrEncryption | ErrInvalidHandle | ErrHandleTaken
(* package store *)
| ErrChallengeNotFound | ErrSessionNotFound
(* package auth *)
| ErrTokenExpired | ErrTokenInvalid | ErrCloneDetected
(* drivers: pgx.ErrNoRows and redis.Nil *)
| PgxErrNoRows | RedisNil.

#[export] Instance sentinel_eq_dec : EqDecision sentinel.
Proof. solve_decision. Defined.

Definition sentinel_text (s : sentinel) : string :=
  match s with
  | ErrNotFound => "identity: not found"
  | ErrAlreadyExists => "identity: already exists"
  | ErrInvalidInput => "identity: invalid input"
  | ErrVersionConflict => "identity: version conflict"
  | ErrIdentityInactive => "identity: identity is not active"
  | ErrIdentityTerminal => "identity: identity is in a terminal state"
  | ErrKeyNotFound => "identity: key not found"
  | ErrKeyNotUsable => "identity: key is not usable"
  | ErrKeyCompromised => "identity: key is compromised"
  | ErrNoPrimaryKey => "identity: no primary key set"
  | ErrCredentialNotFound => "identity: credential not found"
  | ErrCredentialInactive => "identity: credential is not active"
  | ErrCredentialConsumed => "identity: credential already consumed"
  | ErrRecoveryNotFound => "identity: recovery method not found"
  | ErrRecoveryNotUsable => "identity: recovery method is not usable"
  | ErrTenantNotFound => "identity: tenant not found"
  | ErrTenantInactive => "identity: tenant is not active"
  | ErrUnauthorized => "identity: unauthorized"
  | ErrEncryption => "identity: encryption failure"
  | ErrInvalidHandle => "identity: invalid handle format"
  | ErrHandleTaken => "identity: handle already taken"
  | ErrChallengeNotFound => "store: challenge not found or already consumed"
  | ErrSessionNotFound => "store: session not found or expired"
  | ErrTokenExpired => "auth: token expired"
  | ErrTokenInvalid => "auth: token invalid"
  | ErrCloneDetected => "auth: authenticator clone detected — sign count regression"
  | PgxErrNoRows => "no rows in result set"
  | RedisNil => "redis: nil"
  end.

(** ** Error values *)

Inductive error :=
| ESentinel (s : sentinel)
| NotFoundError (EntityType ID : string)
| ValidationError (Field Message : string)
| VersionConflictError (EntityType ID : string) (ExpectedVersion ActualVersion : Z)
| EWrap (prefix : string) (inner : error)   (* fmt.Errorf("prefix: %w", inner) *)
| ENew (msg : string)                       (* errors.New, fmt.Errorf without %w *)
| EPg (code msg : string).                  (* *pgconn.PgError, with its SQLSTATE *)

#[export] Instance error_eq_dec : EqDecision error.
Proof. solve_decision. Defined.

Coercion ESentinel : sentinel >-> error.

(** The methods [Error()]. *)
Fixpoint Error (e : error) : string :=
  match e with
  | ESentinel s => sentinel_text s
  | NotFoundError t i => "identity: " +:+ t +:+ " not found: " +:+ i
  | ValidationError f m => "identity: validation failed on field '" +:+ f +:+ "': " +:+ m
  | VersionConflictError t i _ _ => "identity: version conflict on " +:+ t +:+ " " +:+ i
  | EWrap p e => p +:+ ": " +:+ Error e
  | ENew m => m
  | EPg _ m => m
  end.

(** The methods [Is] of the struct errors and the identity test of sentinels. *)
Definition NotFoundError_Is (target : sentinel) : bool := bool_decide (target = ErrNotFound).
Definition ValidationError_Is (target : sentinel) : bool := bool_decide (target = ErrInvalidInput).
Definition VersionConflictError_Is (target : sentinel) : bool :=
  bool_decide (target = ErrVersionConflict).

Fixpoint errors_Is (e : error) (target : sentinel) : bool :=
  match e with
  | ESentinel s => bool_decide (s = target)
  | NotFoundError _ _ => NotFoundError_Is target
  | ValidationError _ _ => ValidationError_Is target
  | VersionConflictError _ _ _ _ => VersionConflictError_Is target
  | EWrap _ e => errors_Is e target
  | ENew _ => false
  | EPg _ _ => false
  end.

(** [wrapRepoError], called with a non-nil error. *)
Definition wrapRepoError (op : string) (err : error) : error :=
  if errors_Is err ErrNotFound ||
     errors_Is err ErrTenantNotFound ||
     errors_Is err ErrAlreadyExists ||
     errors_Is err ErrHandleTaken ||
     errors_Is err ErrTenantInactive ||
     errors_Is err ErrIdentityTerminal ||
     errors_Is err ErrIdentityInactive ||
     errors_Is err ErrVersionConflict ||
     errors_Is err ErrKeyNotFound ||
     errors_Is err ErrKeyNotUsable
  then err
  else EWrap op err.

(** ** Helper lemmas *)

(** Every error answers yes to at most one sentinel. *)
Lemma errors_Is_unique e s t :
  errors_Is e s = true -> errors_Is e t = true -> s = t.
Proof.
  induction e as [r|?|?|?|p e IH|?|?]; simpl; [| | | |exact IH|done|done];
    unfold NotFoundError_Is, ValidationError_Is, VersionConflictError_Is;
    rewrite !bool_decide_eq_true; congruence.
Qed.

Lemma errors_Is_wrapRepoError op e t : errors_Is (wrapRepoError op e) t = errors_Is e t.
Proof. unfold wrapRepoError. by case_match. Qed.

(** Error-tracking programs over a world [W]. *)
Abbreviation M W A := (prog W (outcome error A)).

(** [if err := e; err != nil { return err }]. *)
Definition check {W A} (e : error + A) : M W A :=
  match e with inl err => throw err | inr a => ret a end.

#[export] Hint Rewrite errors_Is_wrapRepoError : run.
