(* ===== verification/Model.v ===== *)
(** * Model: [internal/identity/enums.go] and [internal/identity/model.go]

    The enums of enums.go are Go string types: nothing stops a caller from
    building a value outside the constants (the HTTP gateway converts request
    strings directly), so they are strings here too, with the constants named
    as in the source.  Instants ([time.Time]) are nanoseconds since Go's zero
    time, so [IsZero] is equality with 0.  A nullable field is an option. *)

From Stdlib Require Import ZArith Lia Ascii String.
From stdpp Require Import base list strings numbers gmap.
From S2P Require Import Prelude Bytes.
Open Scope string_scope.
Open Scope Z_scope.
Local Open Scope prog_scope.

(** ** enums.go *)

Abbreviation TenantTier := string (only parsing).
Definition TenantTierStandard : TenantTier := "standard".
Definition TenantTierProfessional : TenantTier := "professional".
Definition TenantTierEnterprise : TenantTier := "enterprise".

Abbreviation TenantStatus := string (only parsing).
Definition TenantStatusActive : TenantStatus := "active".
Definition TenantStatusSuspended : TenantStatus := "suspended".
Definition TenantStatusDeactivated : TenantStatus := "deactivated".

Abbreviation IdentityType := string (only parsing).
Definition IdentityTypeHuman : IdentityType := "human".
Definition IdentityTypeOrg : IdentityType := "org".
Definition IdentityTypeDevice : IdentityType := "device".
Definition IdentityTypeService : IdentityType := "service".
Definition IdentityTypeMachine : IdentityType := "machine".
Definition IdentityTypeAIAgent : IdentityType := "ai_agent".

Abbreviation IdentityStatus := string (only parsing).
Definition IdentityStatusPending : IdentityStatus := "pending".
Definition IdentityStatusActive : IdentityStatus := "active".
Definition IdentityStatusSuspended : IdentityStatus := "suspended".
Definition IdentityStatusDeactivated : IdentityStatus := "deactivated".
Definition IdentityStatusArchived : IdentityStatus := "archived".

Definition IdentityStatus_IsActive (s : IdentityStatus) : bool :=
  String.eqb s IdentityStatusActive.
Definition IdentityStatus_IsTerminal (s : IdentityStatus) : bool :=
  String.eqb s IdentityStatusDeactivated || String.eqb s IdentityStatusArchived.

Abbreviation KeyType := string (only parsing).
Definition KeyTypeEd25519 : KeyType := "ed25519".
Definition KeyTypeECDSAP256 : KeyType := "ecdsa_p256".
Definition KeyTypeECDSAP384 : KeyType := "ecdsa_p384".
Definition KeyTypeRSA4096 : KeyType := "rsa_4096".

Abbreviation KeyPurpose := string (only parsing).
Definition KeyPurposeSigning : KeyPurpose := "signing".
Definition KeyPurposeEncryption : KeyPurpose := "encryption".
Definition KeyPurposeAuthentication : KeyPurpose := "authentication".
Definition KeyPurposeRecovery : KeyPurpose := "recovery".

Abbreviation KeyStatus := string (only parsing).
Definition KeyStatusActive : KeyStatus := "active".
Definition KeyStatusRotated : KeyStatus := "rotated".
Definition KeyStatusRevoked : KeyStatus := "revoked".
Definition KeyStatusCompromised : KeyStatus := "compromised".

Definition KeyStatus_IsTrusted (s : KeyStatus) : bool :=
  String.eqb s KeyStatusActive || String.eqb s KeyStatusRotated.

Abbreviation CredentialType := string (only parsing).
Definition CredentialTypePasskey : CredentialType := "passkey".
Definition CredentialTypeTOTP : CredentialType := "totp".
Definition CredentialTypeHardwareToken : CredentialType := "hardware_token".
Definition CredentialTypeRecoveryCode : CredentialType := "recovery_code".
Definition CredentialTypeAPIKey : CredentialType := "api_key".
Definition CredentialTypeMTLSCert : CredentialType := "mtls_cert".
Definition CredentialTypeBiometric : CredentialType := "biometric".

Abbreviation CredentialStatus := string (only parsing).
Definition CredentialStatusActive : CredentialStatus := "active".
Definition CredentialStatusRevoked : CredentialStatus := "revoked".
Definition CredentialStatusExpired : CredentialStatus := "expired".

Abbreviation RecoveryType := string (only parsing).
Definition RecoveryTypeRecoveryCodes : RecoveryType := "recovery_codes".
Definition RecoveryTypeBackupKey : RecoveryType := "backup_key".
Definition RecoveryTypeTrustedContact : RecoveryType := "trusted_contact".
Definition RecoveryTypeHardwareBackup : RecoveryType := "hardware_backup".

Abbreviation RecoveryStatus := string (only parsing).
Definition RecoveryStatusActive : RecoveryStatus := "active".
Definition RecoveryStatusConsumed : RecoveryStatus := "consumed".
Definition RecoveryStatusRevoked : RecoveryStatus := "revoked".
Definition RecoveryStatusExpired : RecoveryStatus := "expired".

Abbreviation ActorType := string (only parsing).
Definition ActorTypeHuman : ActorType := "human".
Definition ActorTypeService : ActorType := "service".
Definition ActorTypeSystem : ActorType := "system".
Definition ActorTypeAIAgent : ActorType := "ai_agent".

(** ** Dynamic values ([map[string]any]) *)

Inductive any :=
| AString (s : string)
| ANumber (literal : string)
| ABool (b : bool)
| ANull
| AList (l : list any)
| AMap (l : list (string * any)).

Abbreviation attributes := (gmap string any).

Abbreviation time := Z (only parsing).
Definition IsZero (t : time) : bool := t =? 0.
(** [t.Before(u)] and [t.After(u)]. *)
Definition Before (t u : time) : bool := t <? u.
Definition After (t u : time) : bool := u <? t.
(** [t.Unix()]: whole seconds since 1970, which is 62135596800 seconds after
    the zero time. *)
Definition unixToInternal : Z := 62135596800.
Definition second : Z := 1000000000.
Definition Unix (t : time) : Z := t / second - unixToInternal.

(** ** model.go *)

Record Tenant := mkTenant {
  t_ID : string; t_Name : string; t_Slug : string;
  t_Tier : TenantTier; t_Status : TenantStatus;
  t_Settings : slice; t_DataRegion : string;
  t_CreatedAt : time; t_UpdatedAt : time }.

Definition Tenant_IsActive (t : Tenant) : bool := String.eqb (t_Status t) TenantStatusActive.

Record Identity := mkIdentity {
  i_ID : string; i_TenantID : string; i_Type : IdentityType;
  i_DisplayName : string; i_Handle : string; i_Status : IdentityStatus;
  i_PrimaryKeyID : option string;
  i_Attributes : slice; i_DecryptedAttributes : attributes;
  i_CreatedBy : option string; i_Version : Z;
  i_CreatedAt : time; i_UpdatedAt : time; i_DeactivatedAt : option time }.

Definition Identity_IsActive (i : Identity) : bool := IdentityStatus_IsActive (i_Status i).
Definition IsHuman (i : Identity) : bool := String.eqb (i_Type i) IdentityTypeHuman.
Definition IsNonHuman (i : Identity) : bool :=
  negb (IsHuman i) && negb (String.eqb (i_Type i) IdentityTypeOrg).

Record IdentityKey := mkIdentityKey {
  k_ID : string; k_IdentityID : string; k_TenantID : string;
  k_KeyType : KeyType; k_Purpose : KeyPurpose; k_Algorithm : string;
  k_PublicKey : slice; k_PublicKeyJWK : slice; k_KeyRef : string;
  k_Fingerprint : string; k_Status : KeyStatus;
  k_ValidFrom : time; k_ValidUntil : option time;
  k_RotatedAt : option time; k_RotatedTo : option string; k_CreatedAt : time }.

(** [IsUsable], with the reading of [time.Now()] as an argument. *)
Definition IdentityKey_IsUsable {E} (k : IdentityKey) (now : time) : outcome E bool :=
  if negb (KeyStatus_IsTrusted (k_Status k)) then Ok false
  else if Before now (k_ValidFrom k) then Ok false
  else
    let! over := andalso (not_nil (k_ValidUntil k))
                   (let! until := deref (k_ValidUntil k) in Ok (After now until)) in
    if over then Ok false else Ok true.

Record Credential := mkCredential {
  c_ID : string; c_IdentityID : string; c_TenantID : string;
  c_KeyID : option string; c_Type : CredentialType; c_Status : CredentialStatus;
  c_Data : slice; c_DataIV : slice; c_AAGUID : option string;
  c_CredentialID : slice; c_SignCount : Z;
  c_Name : option string; c_DeviceInfo : slice;
  c_LastUsedAt : option time; c_CreatedAt : time; c_ExpiresAt : option time }.

Definition Credential_IsActive {E} (c : Credential) (now : time) : outcome E bool :=
  if negb (String.eqb (c_Status c) CredentialStatusActive) then Ok false
  else
    let! over := andalso (not_nil (c_ExpiresAt c))
                   (let! expires := deref (c_ExpiresAt c) in Ok (After now expires)) in
    if over then Ok false else Ok true.

Definition IsWebAuthn (c : Credential) : bool :=
  String.eqb (c_Type c) CredentialTypePasskey ||
  String.eqb (c_Type c) CredentialTypeHardwareToken.

Record RecoveryMethod := mkRecoveryMethod {
  r_ID : string; r_IdentityID : string; r_TenantID : string;
  r_Type : RecoveryType; r_Status : RecoveryStatus;
  r_Data : slice; r_DataIV : slice; r_IsConsumed : bool;
  r_UsedAt : option time; r_CreatedAt : time; r_ExpiresAt : option time }.

Definition RecoveryMethod_IsUsable {E} (r : RecoveryMethod) (now : time) : outcome E bool :=
  if negb (String.eqb (r_Status r) RecoveryStatusActive) then Ok false
  else if r_IsConsumed r then Ok false
  else
    let! over := andalso (not_nil (r_ExpiresAt r))
                   (let! expires := deref (r_ExpiresAt r) in Ok (After now expires)) in
    if over then Ok false else Ok true.

Record AuditEvent := mkAuditEvent {
  a_ID : string; a_TenantID : string; a_EventType : string;
  a_EntityType : string; a_EntityID : string;
  a_ActorID : option string; a_ActorType : option ActorType;
  a_IPAddress : option string; a_UserAgent : option string;
  a_SessionID : option string; a_RequestID : option string;
  a_BeforeState : slice; a_AfterState : slice; a_Metadata : slice;
  a_Success : bool; a_ErrorCode : option string; a_OccurredAt : time }.

(** The struct literals of the services: the fields they do not set have
    their zero value. *)
Definition auditEvent (TenantID EventType EntityType EntityID : string)
    (ActorID : option string) (Success : bool) : AuditEvent :=
  mkAuditEvent "" TenantID EventType EntityType EntityID ActorID None None None
    None None None None None Success None 0.

Record IdentityWithKeys := mkIdentityWithKeys {
  iwk_Identity : Identity; iwk_Keys : list IdentityKey }.
(** The code has no user of the latter. *)
Record IdentityWithCredentials := mkIdentityWithCredentials {
  iwc_Identity : Identity; iwc_Credentials : list Credential }.

(** Assignments to a field of a struct. *)
Definition set_i_PrimaryKeyID v (i : Identity) : Identity :=
  mkIdentity (i_ID i) (i_TenantID i) (i_Type i) (i_DisplayName i) (i_Handle i) (i_Status i)
    v (i_Attributes i) (i_DecryptedAttributes i) (i_CreatedBy i) (i_Version i)
    (i_CreatedAt i) (i_UpdatedAt i) (i_DeactivatedAt i).
Definition set_i_Status v (i : Identity) : Identity :=
  mkIdentity (i_ID i) (i_TenantID i) (i_Type i) (i_DisplayName i) (i_Handle i) v
    (i_PrimaryKeyID i) (i_Attributes i) (i_DecryptedAttributes i) (i_CreatedBy i) (i_Version i)
    (i_CreatedAt i) (i_UpdatedAt i) (i_DeactivatedAt i).
Definition set_i_Attributes v (i : Identity) : Identity :=
  mkIdentity (i_ID i) (i_TenantID i) (i_Type i) (i_DisplayName i) (i_Handle i) (i_Status i)
    (i_PrimaryKeyID i) v (i_DecryptedAttributes i) (i_CreatedBy i) (i_Version i)
    (i_CreatedAt i) (i_UpdatedAt i) (i_DeactivatedAt i).
Definition set_i_DecryptedAttributes v (i : Identity) : Identity :=
  mkIdentity (i_ID i) (i_TenantID i) (i_Type i) (i_DisplayName i) (i_Handle i) (i_Status i)
    (i_PrimaryKeyID i) (i_Attributes i) v (i_CreatedBy i) (i_Version i)
    (i_CreatedAt i) (i_UpdatedAt i) (i_DeactivatedAt i).
Definition set_i_DisplayName v (i : Identity) : Identity :=
  mkIdentity (i_ID i) (i_TenantID i) (i_Type i) v (i_Handle i) (i_Status i)
    (i_PrimaryKeyID i) (i_Attributes i) (i_DecryptedAttributes i) (i_CreatedBy i) (i_Version i)
    (i_CreatedAt i) (i_UpdatedAt i) (i_DeactivatedAt i).
Definition set_i_Version v (i : Identity) : Identity :=
  mkIdentity (i_ID i) (i_TenantID i) (i_Type i) (i_DisplayName i) (i_Handle i) (i_Status i)
    (i_PrimaryKeyID i) (i_Attributes i) (i_DecryptedAttributes i) (i_CreatedBy i) v
    (i_CreatedAt i) (i_UpdatedAt i) (i_DeactivatedAt i).
Definition set_c_ID_CreatedAt id at_ (c : Credential) : Credential :=
  mkCredential id (c_IdentityID c) (c_TenantID c) (c_KeyID c) (c_Type c) (c_Status c)
    (c_Data c) (c_DataIV c) (c_AAGUID c) (c_CredentialID c) (c_SignCount c) (c_Name c)
    (c_DeviceInfo c) (c_LastUsedAt c) at_ (c_ExpiresAt c).
Definition set_a_ID v (a : AuditEvent) : AuditEvent :=
  mkAuditEvent v (a_TenantID a) (a_EventType a) (a_EntityType a) (a_EntityID a)
    (a_ActorID a) (a_ActorType a) (a_IPAddress a) (a_UserAgent a) (a_SessionID a)
    (a_RequestID a) (a_BeforeState a) (a_AfterState a) (a_Metadata a) (a_Success a)
    (a_ErrorCode a) (a_OccurredAt a).
Definition set_a_OccurredAt v (a : AuditEvent) : AuditEvent :=
  mkAuditEvent (a_ID a) (a_TenantID a) (a_EventType a) (a_EntityType a) (a_EntityID a)
    (a_ActorID a) (a_ActorType a) (a_IPAddress a) (a_UserAgent a) (a_SessionID a)
    (a_RequestID a) (a_BeforeState a) (a_AfterState a) (a_Metadata a) (a_Success a)
    (a_ErrorCode a) v.
Definition set_a_Metadata v (a : AuditEvent) : AuditEvent :=
  mkAuditEvent (a_ID a) (a_TenantID a) (a_EventType a) (a_EntityType a) (a_EntityID a)
    (a_ActorID a) (a_ActorType a) (a_IPAddress a) (a_UserAgent a) (a_SessionID a)
    (a_RequestID a) (a_BeforeState a) (a_AfterState a) v (a_Success a)
    (a_ErrorCode a) (a_OccurredAt a).

(** Audit event types. *)
Definition AuditEventTenantCreated : string := "tenant.created".
Definition AuditEventTenantSuspended : string := "tenant.suspended".
Definition AuditEventTenantDeactivated : string := "tenant.deactivated".
Definition AuditEventIdentityCreated : string := "identity.created".
Definition AuditEventIdentityActivated : string := "identity.activated".
Definition AuditEventIdentitySuspended : string := "identity.suspended".
Definition AuditEventIdentityDeactivated : string := "identity.deactivated".
Definition AuditEventIdentityArchived : string := "identity.archived".
Definition AuditEventKeyCreated : string := "key.created".
Definition AuditEventKeyRotated : string := "key.rotated".
Definition AuditEventKeyRevoked : string := "key.revoked".
Definition AuditEventKeyCompromised : string := "key.compromised".
Definition AuditEventCredentialCreated : string := "credential.created".
Definition AuditEventCredentialRevoked : string := "credential.revoked".
Definition AuditEventCredentialExpired : string := "credential.expired".
Definition AuditEventAuthSuccess : string := "auth.success".
Definition AuditEventAuthFailure : string := "auth.failure".
Definition AuditEventRecoveryInitiated : string := "recovery.initiated".
Definition AuditEventRecoveryCompleted : string := "recovery.completed".
Definition AuditEventRecoveryFailed : string := "recovery.failed".
