(* ===== verification/Repository.v ===== *)
(** * Repository: [internal/identity/repository.go] and the interface of
    [internal/crypto/service.go]

    A Go interface is a record of operations over an abstract world [W]; the
    services of the package identity are written against these records, and
    file Postgres and file Crypto build the implementations. *)

From Stdlib Require Import ZArith Lia Ascii String.
From stdpp Require Import base list strings numbers gmap.
From S2P Require Import Prelude Bytes Errors Model.
Open Scope Z_scope.

Record TenantFilter := mkTenantFilter {
  tf_Status : option TenantStatus; tf_Tier : option TenantTier;
  tf_Limit : Z; tf_Offset : Z }.

Record IdentityFilter := mkIdentityFilter {
  if_Type : option IdentityType; if_Status : option IdentityStatus;
  if_Limit : Z; if_Offset : Z; if_OrderBy : string; if_Desc : bool }.

Record AuditFilter := mkAuditFilter {
  af_EventType : option string; af_EntityType : option string;
  af_ActorID : option string; af_Success : option bool;
  af_Since : option time; af_Until : option time;
  af_Limit : Z; af_Offset : Z }.

Record TenantRepository (W : Type) := mkTenantRepository {
  Tenants_Create : Tenant -> M W Tenant;
  Tenants_GetByID : string -> M W Tenant;
  Tenants_GetBySlug : string -> M W Tenant;
  Tenants_Update : Tenant -> M W Tenant;
  Tenants_UpdateStatus : string -> TenantStatus -> M W unit;
  Tenants_List : TenantFilter -> M W (list Tenant) }.

Record IdentityRepository (W : Type) := mkIdentityRepository {
  Identities_Create : Identity -> M W Identity;
  Identities_GetByID : string -> string -> M W Identity;
  Identities_GetByHandle : string -> string -> M W Identity;
  Identities_Update : Identity -> M W Identity;
  Identities_UpdateStatus : string -> string -> IdentityStatus -> M W unit;
  Identities_SetPrimaryKey : string -> string -> string -> M W unit;
  Identities_List : string -> IdentityFilter -> M W (list Identity);
  Identities_Count : string -> IdentityFilter -> M W Z }.

Record IdentityKeyRepository (W : Type) := mkIdentityKeyRepository {
  Keys_Create : IdentityKey -> M W IdentityKey;
  Keys_GetByID : string -> string -> M W IdentityKey;
  Keys_GetByFingerprint : string -> string -> M W IdentityKey;
  Keys_GetActiveByPurpose : string -> string -> KeyPurpose -> M W IdentityKey;
  Keys_ListByIdentity : string -> string -> option KeyStatus -> M W (list IdentityKey);
  Keys_Rotate : string -> string -> string -> M W unit;
  Keys_Revoke : string -> string -> M W unit;
  Keys_MarkCompromised : string -> string -> M W unit }.

Record CredentialRepository (W : Type) := mkCredentialRepository {
  Credentials_Create : Credential -> M W Credential;
  Credentials_GetByID : string -> string -> M W Credential;
  Credentials_GetWebAuthnByCredentialID : string -> slice -> M W Credential;
  Credentials_ListByIdentity :
    string -> string -> option CredentialStatus -> M W (list Credential);
  Credentials_UpdateSignCount : string -> string -> Z -> M W unit;
  Credentials_UpdateLastUsed : string -> string -> time -> M W unit;
  Credentials_Revoke : string -> string -> M W unit }.

Record AuditRepository (W : Type) := mkAuditRepository {
  Audit_Insert : AuditEvent -> M W unit;
  Audit_GetByID : string -> string -> M W AuditEvent;
  Audit_ListByEntity : string -> string -> string -> Z -> Z -> M W (list AuditEvent);
  Audit_ListByActor : string -> string -> Z -> Z -> M W (list AuditEvent);
  Audit_ListByTenant : string -> AuditFilter -> M W (list AuditEvent) }.

Record RecoveryRepository (W : Type) := mkRecoveryRepository {
  Recovery_Create : RecoveryMethod -> M W RecoveryMethod;
  Recovery_GetByID : string -> string -> M W RecoveryMethod;
  Recovery_ListByIdentity : string -> string -> M W (list RecoveryMethod);
  Recovery_MarkConsumed : string -> string -> M W unit;
  Recovery_Revoke : string -> string -> M W unit }.

(** The aggregate.  [Recovery] is an interface value that may be nil; the
    program leaves it nil. *)
Record Repositories (W : Type) := mkRepositories {
  Tenants : TenantRepository W;
  Identities : IdentityRepository W;
  Keys : IdentityKeyRepository W;
  Credentials : CredentialRepository W;
  Recovery : option (RecoveryRepository W);
  Audit : AuditRepository W }.

(** The operating system's clock and random source, as the package functions
    [time.Now] and [rand.Read] give them to every component. *)
Record Sys (W : Type) := mkSys {
  Now : M W time;
  RandRead : nat -> M W bytes }.

(** What the generators of a key pair return:
    [(publicKeyDER, jwk, keyRef, fingerprint)]. *)
Record KeyMaterial := mkKeyMaterial {
  km_PublicKeyDER : slice; km_JWK : slice; km_KeyRef : string; km_Fingerprint : string }.

Record CryptoService (W : Type) := mkCryptoService {
  GenerateEd25519Key : string -> M W KeyMaterial;
  GenerateECDSAP256Key : string -> M W KeyMaterial;
  Encrypt : bytes -> M W (bytes * bytes);
  Decrypt : bytes -> bytes -> M W bytes;
  HashRecoveryCode : string -> M W string;
  VerifyRecoveryCode : string -> string -> M W bool;
  Fingerprint : bytes -> string;
  Sign : string -> bytes -> M W bytes }.

Arguments Tenants_Create {W}. Arguments Tenants_GetByID {W}.
Arguments Tenants_GetBySlug {W}. Arguments Tenants_Update {W}.
Arguments Tenants_UpdateStatus {W}. Arguments Tenants_List {W}.
Arguments Identities_Create {W}. Arguments Identities_GetByID {W}.
Arguments Identities_GetByHandle {W}. Arguments Identities_Update {W}.
Arguments Identities_UpdateStatus {W}. Arguments Identities_SetPrimaryKey {W}.
Arguments Identities_List {W}. Arguments Identities_Count {W}.
Arguments Keys_Create {W}. Arguments Keys_GetByID {W}.
Arguments Keys_GetByFingerprint {W}. Arguments Keys_GetActiveByPurpose {W}.
Arguments Keys_ListByIdentity {W}. Arguments Keys_Rotate {W}.
Arguments Keys_Revoke {W}. Arguments Keys_MarkCompromised {W}.
Arguments Credentials_Create {W}. Arguments Credentials_GetByID {W}.
Arguments Credentials_GetWebAuthnByCredentialID {W}.
Arguments Credentials_ListByIdentity {W}. Arguments Credentials_UpdateSignCount {W}.
Arguments Credentials_UpdateLastUsed {W}. Arguments Credentials_Revoke {W}.
Arguments Audit_Insert {W}. Arguments Audit_GetByID {W}.
Arguments Audit_ListByEntity {W}. Arguments Audit_ListByActor {W}.
Arguments Audit_ListByTenant {W}.
Arguments Tenants {W}. Arguments Identities {W}. Arguments Keys {W}.
Arguments Credentials {W}. Arguments Recovery {W}. Arguments Audit {W}.
Arguments Now {W}. Arguments RandRead {W}.
Arguments GenerateEd25519Key {W}. Arguments GenerateECDSAP256Key {W}.
Arguments Encrypt {W}. Arguments Decrypt {W}. Arguments HashRecoveryCode {W}.
Arguments VerifyRecoveryCode {W}. Arguments Fingerprint {W}. Arguments Sign {W}.
