(* ===== verification/World.v ===== *)
(** * World: the shared state, the environment and the primitive actions

    The world holds the database, the private keys of the in-memory key store
    and, in [w_ext], the state of the services that are not part of the
    sources (the Redis server, the WebAuthn library).  Each reading of the
    environment draws the next entry of its streams, counted by [w_tick]. *)

From Stdlib Require Import ZArith Lia Ascii String.
From stdpp Require Import base list strings numbers gmap.
From S2P Require Import Prelude Bytes Errors Model Repository.
Open Scope Z_scope.

(** ** The database: the tables of internal/db/migrations *)

(** A row of [identities].  The other tables have the columns of the model's
    structs, so their rows are these structs. *)
Record IdentityRow := mkIdentityRow {
  ir_id : string; ir_tenant_id : string; ir_type : string;
  ir_display_name : string; ir_handle : string; ir_status : string;
  ir_primary_key_id : option string;
  ir_attributes : bytes; ir_attributes_iv : bytes;
  ir_created_by : option string; ir_version : Z;
  ir_created_at : time; ir_updated_at : time; ir_deactivated_at : option time }.

Record DB := mkDB {
  db_tenants : gmap string Tenant;
  db_identities : gmap string IdentityRow;
  db_keys : gmap string IdentityKey;
  db_credentials : gmap string Credential;
  db_audit : list AuditEvent            (* oldest first *) }.

(** ** The environment *)

Record Env := mkEnv {
  (* the operating system *)
  clock : nat -> time;                       (* time.Now() *)
  entropy : nat -> nat -> option bytes;      (* crypto/rand: the n-th read of so many bytes *)
  (* PostgreSQL and its driver *)
  pg_fault : nat -> option string;           (* the n-th command is not carried out: the error's text *)
  pg_lost : nat -> option string;            (* it is carried out and its answer is lost: likewise *)
  pg_text : string -> string;                (* text of a server error, by SQLSTATE *)
  pg_uuid : nat -> string;                   (* uuid_generate_v4() *)
  pg_now : nat -> time;                      (* now() *)
  uuid_in : string -> option string;         (* input of type uuid, canonical form *)
  jsonb_in : bytes -> option bytes;          (* input of type jsonb, normal form *)
  timestamptz_in : time -> time;             (* microsecond precision *)
  citext_fold : string -> string;            (* case folding of type citext *)
  text_le : string -> string -> bool;        (* collation order *)
  order_other : string -> IdentityRow -> IdentityRow -> bool
                                             (* ORDER BY on any other expression *) }.

(** What the code relies on in the environment. *)
Class EnvOk (env : Env) : Prop := {
  entropy_length : forall n k b, entropy env n k = Some b -> List.length b = k;
  clock_set : forall n, clock env n <> 0;          (* later than the zero time *)
  pg_fault_text : forall n t, pg_fault env n = Some t -> t <> "no rows in result set"%string;
  pg_lost_text : forall n t, pg_lost env n = Some t -> t <> "no rows in result set"%string;
  pg_text_text : forall c, pg_text env c <> "no rows in result set"%string;
  uuid_in_empty : uuid_in env ""%string = None;
  uuid_in_idem : forall s u, uuid_in env s = Some u -> uuid_in env u = Some u;
  uuid_in_text : forall s u, uuid_in env s = Some u -> no_nul s = true;
  pg_uuid_in : forall n, uuid_in env (pg_uuid env n) = Some (pg_uuid env n);
  pg_uuid_inj : forall m n, pg_uuid env m = pg_uuid env n -> m = n }.

(** [encoding/json] on the values the program marshals; [None] is an error. *)
Record Codec := mkCodec {
  marshal_strings : list (string * string) -> bytes;     (* a map of strings *)
  marshal_attributes : attributes -> option bytes;
  unmarshal_attributes : bytes -> option attributes }.

(** Attributes that came from a JSON document, as those of a request do. *)
Definition decoded (json : Codec) (a : attributes) : Prop :=
  exists b, unmarshal_attributes json b = Some a.

(** Marshalled texts without NUL are a valid document for PostgreSQL, and
    decoded attributes are unmarshalled from the text they are marshalled to. *)
Class CodecOk (env : Env) (json : Codec) : Prop := {
  jsonb_marshalled : forall l,
    Forall (fun kv => no_nul kv.1 = true /\ no_nul kv.2 = true) l ->
    is_Some (jsonb_in env (marshal_strings json l));
  jsonb_empty : is_Some (jsonb_in env (s2b "{}"));
  unmarshal_marshal : forall a b, decoded json a -> marshal_attributes json a = Some b ->
    unmarshal_attributes json b = Some a }.

(** ** The world *)

(** [gocrypto.PrivateKey] is any value; the key store distinguishes two types. *)
Inductive PrivateKey :=
| Ed25519PrivateKey (key : bytes)
| EcdsaPrivateKey (key : bytes)
| OtherPrivateKey (typename : string).

Record World (X : Type) := mkWorld {
  w_db : DB;
  w_keys : gmap string PrivateKey;
  w_tick : nat;
  w_ext : X }.
Arguments mkWorld {X}. Arguments w_db {X}. Arguments w_keys {X}.
Arguments w_tick {X}. Arguments w_ext {X}.

Section primitives.
Context {X : Type} (env : Env).
Local Open Scope prog_scope.

Definition set_db (db : DB) (w : World X) : World X :=
  mkWorld db (w_keys w) (w_tick w) (w_ext w).
Definition set_keys ks (w : World X) : World X :=
  mkWorld (w_db w) ks (w_tick w) (w_ext w).
Definition set_ext x (w : World X) : World X :=
  mkWorld (w_db w) (w_keys w) (w_tick w) x.
Definition bump (w : World X) : World X :=
  mkWorld (w_db w) (w_keys w) (S (w_tick w)) (w_ext w).

Definition time_Now : M (World X) time :=
  act (fun w => (bump w, clock env (w_tick w))).

(** [io.ReadFull(rand.Reader, b)] and [rand.Read(b)] on a slice of [k] bytes. *)
Definition rand_Read (k : nat) : M (World X) bytes :=
  actO (fun w => (bump w, match entropy env (w_tick w) k with
                          | Some b => Ok b
                          | None => Err (ENew "crypto/rand: read failed")
                          end)).

Definition system : Sys (World X) := mkSys _ time_Now rand_Read.

(** The answer of the server to the n-th command, unless the connection is lost. *)
Definition answer {A} (n : nat) (r : A) : outcome error A :=
  match pg_lost env n with Some t => Err (ENew t) | None => Ok r end.

(** One command sent to the database server.  A command that the server refuses,
    or that does not get there, leaves the tables unchanged; one whose answer
    is lost is an error too, with its effect on the tables. *)
Definition pg_command {R} (f : nat -> DB -> error + (DB * R)) : M (World X) R :=
  actO (fun w =>
    match pg_fault env (w_tick w) with
    | Some t => (bump w, Err (ENew t))
    | None =>
      match f (w_tick w) (w_db w) with
      | inl e => (bump w, Err e)
      | inr (db, r) => (bump (set_db db w), answer (w_tick w) r)
      end
    end).

End primitives.

(** A property of the database that every action of a program keeps; the
    program does not touch the state of the outside services, and the readings
    of the environment go forward. *)
Definition db_steps {X} (G : DB -> DB -> Prop) : World X -> World X -> Prop :=
  fun w w' => G (w_db w) (w_db w') /\ w_ext w' = w_ext w /\ (w_tick w <= w_tick w')%nat.

#[export] Instance db_steps_preorder {X} G `{!PreOrder G} : PreOrder (@db_steps X G).
Proof.
  split; unfold db_steps; [by intros w|]. intros w1 w2 w3 (? & ? & ?) (? & ? & ?).
  split; [by etrans|]. split; [congruence|lia].
Qed.

Lemma db_steps_mono {X} (G G' : DB -> DB -> Prop) (w w' : World X) :
  (forall db db', G db db' -> G' db db') -> db_steps G w w' -> db_steps G' w w'.
Proof. intros HG (? & ? & ?). split; auto. Qed.

(** An action that leaves the tables alone. *)
Lemma db_steps_same {X} G `{!Reflexive G} (w w' : World X) :
  w_db w' = w_db w -> w_ext w' = w_ext w -> (w_tick w <= w_tick w')%nat -> db_steps G w w'.
Proof. intros Hdb Hx Ht. split; [by rewrite Hdb|done]. Qed.

Section primitive_lemmas.
Context {X : Type} (env : Env) (G : DB -> DB -> Prop) `{!Reflexive G}.

Lemma time_Now_steps : steps_in (db_steps G) (time_Now (X:=X) env).
Proof. apply steps_in_act. intros w. apply db_steps_same; simpl; auto with arith. Qed.

Lemma rand_Read_steps k : steps_in (db_steps G) (rand_Read (X:=X) env k).
Proof. apply steps_in_actO. intros w. apply db_steps_same; simpl; auto with arith. Qed.

Lemma pg_command_steps {R} (f : nat -> DB -> error + (DB * R)) :
  (forall n db db' r, f n db = inr (db', r) -> G db db') ->
  steps_in (db_steps G) (pg_command (X:=X) env f).
Proof.
  intros Hf. apply steps_in_actO. intros w.
  destruct (pg_fault _ _); simpl; [apply db_steps_same; simpl; auto with arith|].
  destruct (f _ _) as [e|[db' r]] eqn:Hr; simpl; [apply db_steps_same; simpl; auto with arith|].
  split; [by eapply Hf|]. simpl. auto with arith.
Qed.
End primitive_lemmas.
#[export] Hint Resolve time_Now_steps rand_Read_steps : steps.
