(* ===== verification/Schema.v ===== *)
(** * Schema: the SQL of internal/identity/postgres over the tables of
    internal/db/migrations

    Each SQL statement of the repositories is a function from the number of
    the command (which selects the generated id and the server's time) and the
    tables to an error or the new tables and the result.  The order of the
    checks is PostgreSQL's: conversion of the parameters, NOT NULL, unique
    indexes, foreign keys.  The application role is taken to own the tables, as
    the roles of docker-compose.yml do, so row security does not filter rows. *)

From Stdlib Require Import ZArith Lia Ascii String.
From stdpp Require Import base list sorting strings numbers gmap.
From S2P Require Import Prelude Bytes Errors Model Repository World.
Open Scope Z_scope.

(** ** Enumerated types *)

Definition tenant_tier : list string := ["standard"; "professional"; "enterprise"]%string.
Definition tenant_status : list string := ["active"; "suspended"; "deactivated"]%string.
Definition identity_type : list string :=
  ["human"; "org"; "device"; "service"; "machine"; "ai_agent"]%string.
Definition identity_status : list string :=
  ["pending"; "active"; "suspended"; "deactivated"; "archived"]%string.
Definition key_type : list string := ["ed25519"; "ecdsa_p256"; "ecdsa_p384"; "rsa_4096"]%string.
Definition key_purpose : list string :=
  ["signing"; "encryption"; "authentication"; "recovery"]%string.
Definition key_status : list string := ["active"; "rotated"; "revoked"; "compromised"]%string.
Definition credential_type : list string :=
  ["passkey"; "totp"; "hardware_token"; "recovery_code"; "api_key"; "mtls_cert"; "biometric"]%string.
Definition credential_status : list string := ["active"; "revoked"; "expired"]%string.

Definition int64_max : Z := 2 ^ 63 - 1.

Section schema.
Context (env : Env).
Local Open Scope prog_scope.

(** ** Conversions and constraints *)

Definition pgerr (code : string) : error := EPg code (pg_text env code).

Definition enum_in (labels : list string) (s : string) : error + string :=
  if bool_decide (s ∈ labels) then inr s else inl (pgerr "22P02").
Definition uuid_col (s : string) : error + string := some_or (uuid_in env s) (pgerr "22P02").
Definition uuid_opt (o : option string) : error + option string :=
  match o with None => inr None | Some s => let? u := uuid_col s in inr (Some u) end.
Definition jsonb_opt (s : slice) : error + slice :=
  match s with
  | None => inr None
  | Some b => let? b := some_or (jsonb_in env b) (pgerr "22P02") in inr (Some b)
  end.
Definition not_null {A} (o : option A) : error + A := some_or o (pgerr "23502").
Definition unique (b : bool) : error + unit := guard_or b (pgerr "23505").
Definition references {A} (m : gmap string A) (id : string) : error + unit :=
  guard_or (bool_decide (is_Some (m !! id))) (pgerr "23503").
Definition references_opt {A} (m : gmap string A) (id : option string) : error + unit :=
  match id with None => inr tt | Some id => references m id end.

(** ** Selecting rows *)

(** Rows of a table that satisfy a WHERE clause, in heap order. *)
Definition rows_where {A} (P : A -> bool) (m : gmap string A) : list A :=
  filter (fun r => Is_true (P r)) (snd <$> map_to_list m).

Definition order_by {A} (le : A -> A -> bool) (l : list A) : list A :=
  merge_sort (fun x y => Is_true (le x y)) l.
Definition desc {A} (le : A -> A -> bool) : A -> A -> bool := fun x y => le y x.
(** LIMIT and OFFSET as the list queries add them: only when positive. *)
Definition limit_offset {A} (lim off : Z) (l : list A) : list A :=
  let l := if 0 <? off then drop (Z.to_nat off) l else l in
  if 0 <? lim then take (Z.to_nat lim) l else l.
(** LIMIT and OFFSET always present: a negative one is an error. *)
Definition limit_offset_strict {A} (lim off : Z) (l : list A) : error + list A :=
  let? _ := guard_or (0 <=? lim) (pgerr "2201W") in
  let? _ := guard_or (0 <=? off) (pgerr "2201X") in
  inr (take (Z.to_nat lim) (drop (Z.to_nat off) l)).

Definition opt_eqb (o : option string) (s : string) : bool :=
  match o with Some x => String.eqb x s | None => false end.
(** [AND col = $n], present when the filter's pointer is not nil. *)
Definition if_eq (o : option string) (s : string) : bool :=
  match o with Some x => String.eqb x s | None => true end.

(** ** Table updates *)

Definition set_tenants t (db : DB) : DB :=
  mkDB t (db_identities db) (db_keys db) (db_credentials db) (db_audit db).
Definition set_identities i (db : DB) : DB :=
  mkDB (db_tenants db) i (db_keys db) (db_credentials db) (db_audit db).
Definition set_keys_table k (db : DB) : DB :=
  mkDB (db_tenants db) (db_identities db) k (db_credentials db) (db_audit db).
Definition set_credentials c (db : DB) : DB :=
  mkDB (db_tenants db) (db_identities db) (db_keys db) c (db_audit db).
Definition add_audit a (db : DB) : DB :=
  mkDB (db_tenants db) (db_identities db) (db_keys db) (db_credentials db) (db_audit db ++ [a]).

(** ** tenants *)

Definition slug_free (slug : string) (m : gmap string Tenant) : Prop :=
  map_Forall (fun _ t => citext_fold env (t_Slug t) <> citext_fold env slug) m.

Definition sqlTenantInsert (name slug tier status : string) (settings : slice) (region : string)
    (n : nat) (db : DB) : error + (DB * Tenant) :=
  let? tier := enum_in tenant_tier tier in
  let? status := enum_in tenant_status status in
  let? settings := jsonb_opt settings in
  let? settings := not_null settings in
  let id := pg_uuid env n in
  let row := mkTenant id name slug tier status (Some settings) region (pg_now env n) (pg_now env n) in
  let? _ := unique (bool_decide (db_tenants db !! id = None)) in
  let? _ := unique (bool_decide (slug_free slug (db_tenants db))) in
  inr (set_tenants (<[id := row]> (db_tenants db)) db, row).

Definition sqlTenantGetByID (id : string) (n : nat) (db : DB) : error + (DB * option Tenant) :=
  let? id := uuid_col id in
  inr (db, db_tenants db !! id).

Definition sqlTenantGetBySlug (slug : string) (n : nat) (db : DB) : error + (DB * option Tenant) :=
  inr (db, head (rows_where
    (fun t => String.eqb (citext_fold env (t_Slug t)) (citext_fold env slug)) (db_tenants db))).

Definition sqlTenantUpdate (id name tier : string) (settings : slice) (region : string)
    (n : nat) (db : DB) : error + (DB * option Tenant) :=
  let? id := uuid_col id in
  let? tier := enum_in tenant_tier tier in
  let? settings := jsonb_opt settings in
  match db_tenants db !! id with
  | None => inr (db, None)
  | Some t =>
    let? settings := not_null settings in
    let row := mkTenant (t_ID t) name (t_Slug t) tier (t_Status t) (Some settings) region
                 (t_CreatedAt t) (pg_now env n) in
    inr (set_tenants (<[id := row]> (db_tenants db)) db, Some row)
  end.

Definition sqlTenantUpdateStatus (id status : string) (n : nat) (db : DB) : error + (DB * unit) :=
  let? id := uuid_col id in
  let? status := enum_in tenant_status status in
  match db_tenants db !! id with
  | None => inr (db, tt)
  | Some t =>
    let row := mkTenant (t_ID t) (t_Name t) (t_Slug t) (t_Tier t) status (t_Settings t)
                 (t_DataRegion t) (t_CreatedAt t) (pg_now env n) in
    inr (set_tenants (<[id := row]> (db_tenants db)) db, tt)
  end.

Definition sqlTenantList (f : TenantFilter) (n : nat) (db : DB) : error + (DB * list Tenant) :=
  let? _ := match tf_Status f with None => inr ""%string | Some s => enum_in tenant_status s end in
  let? _ := match tf_Tier f with None => inr ""%string | Some s => enum_in tenant_tier s end in
  let rows := rows_where (fun t => if_eq (tf_Status f) (t_Status t) && if_eq (tf_Tier f) (t_Tier t))
                (db_tenants db) in
  let rows := order_by (desc (fun x y => t_CreatedAt x <=? t_CreatedAt y)) rows in
  inr (db, limit_offset (tf_Limit f) (tf_Offset f) rows).

(** ** identities *)

Definition find_identity (db : DB) (tenant id : string) : option IdentityRow :=
  match db_identities db !! id with
  | Some r => if String.eqb (ir_tenant_id r) tenant then Some r else None
  | None => None
  end.

Definition handle_free (tenant handle : string) (m : gmap string IdentityRow) : Prop :=
  map_Forall (fun _ r => ~ (ir_tenant_id r = tenant /\
    citext_fold env (ir_handle r) = citext_fold env handle)) m.

Definition sqlIdentityInsert (tenant typ display_name handle status : string)
    (attrs iv : slice) (created_by : option string)
    (n : nat) (db : DB) : error + (DB * IdentityRow) :=
  let? tenant := uuid_col tenant in
  let? typ := enum_in identity_type typ in
  let? status := enum_in identity_status status in
  let? created_by := uuid_opt created_by in
  let? attrs := not_null attrs in
  let? iv := not_null iv in
  let id := pg_uuid env n in
  let row := mkIdentityRow id tenant typ display_name handle status None attrs iv
               created_by 1 (pg_now env n) (pg_now env n) None in
  let? _ := unique (bool_decide (db_identities db !! id = None)) in
  let? _ := unique (bool_decide (handle_free tenant handle (db_identities db))) in
  let? _ := references (db_tenants db) tenant in
  let? _ := references_opt (<[id := row]> (db_identities db)) created_by in
  inr (set_identities (<[id := row]> (db_identities db)) db, row).

Definition sqlIdentityGetByID (tenant id : string) (n : nat) (db : DB)
    : error + (DB * option IdentityRow) :=
  let? tenant := uuid_col tenant in
  let? id := uuid_col id in
  inr (db, find_identity db tenant id).

Definition sqlIdentityGetByHandle (tenant handle : string) (n : nat) (db : DB)
    : error + (DB * option IdentityRow) :=
  let? tenant := uuid_col tenant in
  inr (db, head (rows_where (fun r => String.eqb (ir_tenant_id r) tenant &&
    String.eqb (citext_fold env (ir_handle r)) (citext_fold env handle)) (db_identities db))).

Definition sqlIdentityUpdate (tenant id display_name : string) (attrs iv : slice) (version : Z)
    (n : nat) (db : DB) : error + (DB * option IdentityRow) :=
  let? tenant := uuid_col tenant in
  let? id := uuid_col id in
  match find_identity db tenant id with
  | None => inr (db, None)
  | Some r =>
    if negb (ir_version r =? version) then inr (db, None) else
    let? _ := guard_or (ir_version r <? int64_max) (pgerr "22003") in
    let? attrs := not_null attrs in
    let? iv := not_null iv in
    let row := mkIdentityRow (ir_id r) (ir_tenant_id r) (ir_type r) display_name (ir_handle r)
                 (ir_status r) (ir_primary_key_id r) attrs iv (ir_created_by r)
                 (ir_version r + 1) (ir_created_at r) (pg_now env n) (ir_deactivated_at r) in
    inr (set_identities (<[id := row]> (db_identities db)) db, Some row)
  end.

Definition sqlIdentityUpdateStatus (tenant id status : string) (n : nat) (db : DB)
    : error + (DB * unit) :=
  let? tenant := uuid_col tenant in
  let? id := uuid_col id in
  let? status := enum_in identity_status status in
  match find_identity db tenant id with
  | None => inr (db, tt)
  | Some r =>
    let deactivated_at :=
      if bool_decide (status ∈ ["deactivated"; "archived"]%string)
      then Some (pg_now env n) else ir_deactivated_at r in
    let row := mkIdentityRow (ir_id r) (ir_tenant_id r) (ir_type r) (ir_display_name r)
                 (ir_handle r) status (ir_primary_key_id r) (ir_attributes r)
                 (ir_attributes_iv r) (ir_created_by r) (ir_version r) (ir_created_at r)
                 (pg_now env n) deactivated_at in
    inr (set_identities (<[id := row]> (db_identities db)) db, tt)
  end.

Definition sqlIdentitySetPrimaryKey (tenant id key : string) (n : nat) (db : DB)
    : error + (DB * unit) :=
  let? tenant := uuid_col tenant in
  let? id := uuid_col id in
  let? key := uuid_col key in
  match find_identity db tenant id with
  | None => inr (db, tt)
  | Some r =>
    let row := mkIdentityRow (ir_id r) (ir_tenant_id r) (ir_type r) (ir_display_name r)
                 (ir_handle r) (ir_status r) (Some key) (ir_attributes r)
                 (ir_attributes_iv r) (ir_created_by r) (ir_version r) (ir_created_at r)
                 (pg_now env n) (ir_deactivated_at r) in
    let? _ := references (db_keys db) key in
    inr (set_identities (<[id := row]> (db_identities db)) db, tt)
  end.

(** [ORDER BY order dir], where [order] is spliced into the statement. *)
Definition identity_le (order : string) (x y : IdentityRow) : bool :=
  if String.eqb order "created_at" then ir_created_at x <=? ir_created_at y
  else if String.eqb order "updated_at" then ir_updated_at x <=? ir_updated_at y
  else if String.eqb order "display_name" then text_le env (ir_display_name x) (ir_display_name y)
  else order_other env order x y.

Definition sqlIdentityList (tenant : string) (f : IdentityFilter) (order : string) (dsc : bool)
    (n : nat) (db : DB) : error + (DB * list IdentityRow) :=
  let? tenant := uuid_col tenant in
  let? _ := match if_Type f with None => inr ""%string | Some s => enum_in identity_type s end in
  let? _ := match if_Status f with None => inr ""%string | Some s => enum_in identity_status s end in
  let rows := rows_where (fun r => String.eqb (ir_tenant_id r) tenant &&
                if_eq (if_Type f) (ir_type r) && if_eq (if_Status f) (ir_status r))
                (db_identities db) in
  let le := identity_le order in
  let rows := order_by (if dsc then desc le else le) rows in
  inr (db, limit_offset (if_Limit f) (if_Offset f) rows).

Definition sqlIdentityCount (tenant : string) (n : nat) (db : DB) : error + (DB * Z) :=
  let? tenant := uuid_col tenant in
  inr (db, Z.of_nat (List.length (rows_where (fun r => String.eqb (ir_tenant_id r) tenant)
             (db_identities db)))).

(** ** identity_keys *)

Definition find_key (db : DB) (tenant id : string) : option IdentityKey :=
  match db_keys db !! id with
  | Some k => if String.eqb (k_TenantID k) tenant then Some k else None
  | None => None
  end.

(** The partial unique index [identity_keys_active_purpose_unique]. *)
Definition active_purpose_free (identity purpose : string) (m : gmap string IdentityKey) : Prop :=
  map_Forall (fun _ k => ~ (k_Status k = "active"%string /\
    k_IdentityID k = identity /\ k_Purpose k = purpose)) m.

Definition sqlKeyInsert (k : IdentityKey) (n : nat) (db : DB) : error + (DB * IdentityKey) :=
  let? identity := uuid_col (k_IdentityID k) in
  let? tenant := uuid_col (k_TenantID k) in
  let? kt := enum_in key_type (k_KeyType k) in
  let? purpose := enum_in key_purpose (k_Purpose k) in
  let? jwk := jsonb_opt (k_PublicKeyJWK k) in
  let? status := enum_in key_status (k_Status k) in
  let? public_key := not_null (k_PublicKey k) in
  let? jwk := not_null jwk in
  let id := pg_uuid env n in
  let row := mkIdentityKey id identity tenant kt purpose (k_Algorithm k) (Some public_key)
               (Some jwk) (k_KeyRef k) (k_Fingerprint k) status
               (timestamptz_in env (k_ValidFrom k)) (timestamptz_in env <$> k_ValidUntil k)
               None None (pg_now env n) in
  let? _ := unique (bool_decide (db_keys db !! id = None)) in
  let? _ := unique (negb (String.eqb status "active") ||
                    bool_decide (active_purpose_free identity purpose (db_keys db))) in
  let? _ := references (db_identities db) identity in
  let? _ := references (db_tenants db) tenant in
  inr (set_keys_table (<[id := row]> (db_keys db)) db, row).

Definition sqlKeyGetByID (tenant id : string) (n : nat) (db : DB)
    : error + (DB * option IdentityKey) :=
  let? tenant := uuid_col tenant in
  let? id := uuid_col id in
  inr (db, find_key db tenant id).

Definition sqlKeyGetByFingerprint (tenant fp : string) (n : nat) (db : DB)
    : error + (DB * option IdentityKey) :=
  let? tenant := uuid_col tenant in
  inr (db, head (rows_where (fun k => String.eqb (k_TenantID k) tenant &&
                  String.eqb (k_Fingerprint k) fp) (db_keys db))).

Definition sqlKeyGetActiveByPurpose (tenant identity purpose : string) (n : nat) (db : DB)
    : error + (DB * option IdentityKey) :=
  let? tenant := uuid_col tenant in
  let? identity := uuid_col identity in
  let? purpose := enum_in key_purpose purpose in
  inr (db, head (rows_where (fun k => String.eqb (k_TenantID k) tenant &&
                  String.eqb (k_IdentityID k) identity && String.eqb (k_Purpose k) purpose &&
                  String.eqb (k_Status k) "active") (db_keys db))).

Definition sqlKeyListByIdentity (tenant identity : string) (status : option string)
    (n : nat) (db : DB) : error + (DB * list IdentityKey) :=
  let? tenant := uuid_col tenant in
  let? identity := uuid_col identity in
  let? _ := match status with None => inr ""%string | Some s => enum_in key_status s end in
  let rows := rows_where (fun k => String.eqb (k_TenantID k) tenant &&
                String.eqb (k_IdentityID k) identity && if_eq status (k_Status k)) (db_keys db) in
  inr (db, order_by (desc (fun x y => k_CreatedAt x <=? k_CreatedAt y)) rows).

Definition set_key_status (status : string) (rotated_at : option time) (rotated_to : option string)
    (k : IdentityKey) : IdentityKey :=
  mkIdentityKey (k_ID k) (k_IdentityID k) (k_TenantID k) (k_KeyType k) (k_Purpose k)
    (k_Algorithm k) (k_PublicKey k) (k_PublicKeyJWK k) (k_KeyRef k) (k_Fingerprint k) status
    (k_ValidFrom k) (k_ValidUntil k) rotated_at rotated_to (k_CreatedAt k).

Definition sqlKeyRotate (tenant id new : string) (n : nat) (db : DB) : error + (DB * unit) :=
  let? tenant := uuid_col tenant in
  let? id := uuid_col id in
  let? new := uuid_col new in
  match find_key db tenant id with
  | None => inr (db, tt)
  | Some k =>
    let? _ := references (db_keys db) new in
    inr (set_keys_table (<[id := set_key_status "rotated" (Some (pg_now env n)) (Some new) k]>
          (db_keys db)) db, tt)
  end.

Definition sqlKeySetStatus (status tenant id : string) (n : nat) (db : DB) : error + (DB * unit) :=
  let? tenant := uuid_col tenant in
  let? id := uuid_col id in
  match find_key db tenant id with
  | None => inr (db, tt)
  | Some k =>
    inr (set_keys_table (<[id := set_key_status status (k_RotatedAt k) (k_RotatedTo k) k]>
          (db_keys db)) db, tt)
  end.
Definition sqlKeyRevoke := sqlKeySetStatus "revoked".
Definition sqlKeyMarkCompromised := sqlKeySetStatus "compromised".

(** ** credentials *)

Definition find_credential (db : DB) (tenant id : string) : option Credential :=
  match db_credentials db !! id with
  | Some c => if String.eqb (c_TenantID c) tenant then Some c else None
  | None => None
  end.

Definition credential_id_free (tenant : string) (cid : slice) (m : gmap string Credential) : Prop :=
  map_Forall (fun _ c => ~ (c_TenantID c = tenant /\ cid <> None /\ c_CredentialID c = cid)) m.

Definition sqlCredentialInsert (c : Credential) (n : nat) (db : DB)
    : error + (DB * (string * time)) :=
  let? identity := uuid_col (c_IdentityID c) in
  let? tenant := uuid_col (c_TenantID c) in
  let? key := uuid_opt (c_KeyID c) in
  let? typ := enum_in credential_type (c_Type c) in
  let? status := enum_in credential_status (c_Status c) in
  let? aaguid := uuid_opt (c_AAGUID c) in
  let? device := jsonb_opt (c_DeviceInfo c) in
  let? data := not_null (c_Data c) in
  let? data_iv := not_null (c_DataIV c) in
  let id := pg_uuid env n in
  let row := mkCredential id identity tenant key typ status (Some data) (Some data_iv) aaguid
               (c_CredentialID c) (c_SignCount c) (c_Name c) device None (pg_now env n) None in
  let? _ := unique (bool_decide (db_credentials db !! id = None)) in
  let? _ := unique (bool_decide (credential_id_free tenant (c_CredentialID c) (db_credentials db))) in
  let? _ := references (db_identities db) identity in
  let? _ := references (db_tenants db) tenant in
  let? _ := references_opt (db_keys db) key in
  inr (set_credentials (<[id := row]> (db_credentials db)) db, (id, pg_now env n)).

Definition sqlCredentialGetByID (tenant id : string) (n : nat) (db : DB)
    : error + (DB * option Credential) :=
  let? id := uuid_col id in
  let? tenant := uuid_col tenant in
  inr (db, find_credential db tenant id).

(** [credential_id=$1] holds of no row when the parameter is NULL. *)
Definition sqlCredentialGetWebAuthn (tenant : string) (cid : slice) (n : nat) (db : DB)
    : error + (DB * option Credential) :=
  let? tenant := uuid_col tenant in
  inr (db, head (rows_where (fun c => String.eqb (c_TenantID c) tenant &&
                  bool_decide (cid <> None /\ c_CredentialID c = cid)) (db_credentials db))).

Definition sqlCredentialListByIdentity (tenant identity : string) (status : option string)
    (n : nat) (db : DB) : error + (DB * list Credential) :=
  let? identity := uuid_col identity in
  let? tenant := uuid_col tenant in
  let? _ := match status with None => inr ""%string | Some s => enum_in credential_status s end in
  inr (db, rows_where (fun c => String.eqb (c_IdentityID c) identity &&
             String.eqb (c_TenantID c) tenant && if_eq status (c_Status c)) (db_credentials db)).

Definition update_credential (f : Credential -> Credential) (tenant id : string)
    (n : nat) (db : DB) : error + (DB * unit) :=
  let? id := uuid_col id in
  let? tenant := uuid_col tenant in
  match find_credential db tenant id with
  | None => inr (db, tt)
  | Some c => inr (set_credentials (<[id := f c]> (db_credentials db)) db, tt)
  end.

Definition set_sign_count (count : Z) (c : Credential) : Credential :=
  mkCredential (c_ID c) (c_IdentityID c) (c_TenantID c) (c_KeyID c) (c_Type c) (c_Status c)
    (c_Data c) (c_DataIV c) (c_AAGUID c) (c_CredentialID c) count (c_Name c)
    (c_DeviceInfo c) (c_LastUsedAt c) (c_CreatedAt c) (c_ExpiresAt c).
Definition set_last_used (t : time) (c : Credential) : Credential :=
  mkCredential (c_ID c) (c_IdentityID c) (c_TenantID c) (c_KeyID c) (c_Type c) (c_Status c)
    (c_Data c) (c_DataIV c) (c_AAGUID c) (c_CredentialID c) (c_SignCount c) (c_Name c)
    (c_DeviceInfo c) (Some t) (c_CreatedAt c) (c_ExpiresAt c).
Definition set_revoked (c : Credential) : Credential :=
  mkCredential (c_ID c) (c_IdentityID c) (c_TenantID c) (c_KeyID c) (c_Type c) "revoked"
    (c_Data c) (c_DataIV c) (c_AAGUID c) (c_CredentialID c) (c_SignCount c) (c_Name c)
    (c_DeviceInfo c) (c_LastUsedAt c) (c_CreatedAt c) (c_ExpiresAt c).

(** ** audit_events *)

Definition sqlAuditInsert (a : AuditEvent) (n : nat) (db : DB) : error + (DB * string) :=
  let? tenant := uuid_col (a_TenantID a) in
  let? entity := uuid_col (a_EntityID a) in
  let? actor := uuid_opt (a_ActorID a) in
  let? session := uuid_opt (a_SessionID a) in
  let? before := jsonb_opt (a_BeforeState a) in
  let? after := jsonb_opt (a_AfterState a) in
  let? metadata := jsonb_opt (a_Metadata a) in
  let? metadata := not_null metadata in
  let id := pg_uuid env n in
  let row := mkAuditEvent id tenant (a_EventType a) (a_EntityType a) entity actor (a_ActorType a)
               (a_IPAddress a) (a_UserAgent a) session (a_RequestID a) before after
               (Some metadata) (a_Success a) (a_ErrorCode a)
               (timestamptz_in env (a_OccurredAt a)) in
  let? _ := unique (bool_decide (id ∉ a_ID <$> db_audit db)) in
  let? _ := references (db_tenants db) tenant in
  inr (add_audit row db, id).

Definition newest_first : AuditEvent -> AuditEvent -> bool :=
  desc (fun x y => a_OccurredAt x <=? a_OccurredAt y).

Definition audit_where (P : AuditEvent -> bool) (db : DB) : list AuditEvent :=
  order_by newest_first (filter (fun a => Is_true (P a)) (db_audit db)).

Definition sqlAuditGetByID (tenant id : string) (n : nat) (db : DB)
    : error + (DB * option AuditEvent) :=
  let? tenant := uuid_col tenant in
  let? id := uuid_col id in
  inr (db, head (filter (fun a => Is_true (String.eqb (a_TenantID a) tenant &&
                          String.eqb (a_ID a) id)) (db_audit db))).

Definition sqlAuditListByEntity (tenant etype entity : string) (lim off : Z)
    (n : nat) (db : DB) : error + (DB * list AuditEvent) :=
  let? tenant := uuid_col tenant in
  let? entity := uuid_col entity in
  let? rows := limit_offset_strict lim off (audit_where (fun a =>
    String.eqb (a_TenantID a) tenant && String.eqb (a_EntityType a) etype &&
    String.eqb (a_EntityID a) entity) db) in
  inr (db, rows).

Definition sqlAuditListByActor (tenant actor : string) (lim off : Z)
    (n : nat) (db : DB) : error + (DB * list AuditEvent) :=
  let? tenant := uuid_col tenant in
  let? actor := uuid_col actor in
  let? rows := limit_offset_strict lim off (audit_where (fun a =>
    String.eqb (a_TenantID a) tenant && opt_eqb (a_ActorID a) actor) db) in
  inr (db, rows).

Definition sqlAuditListByTenant (tenant : string) (f : AuditFilter)
    (n : nat) (db : DB) : error + (DB * list AuditEvent) :=
  let? tenant := uuid_col tenant in
  let rows := audit_where (fun a => String.eqb (a_TenantID a) tenant &&
    if_eq (af_EventType f) (a_EventType a) && if_eq (af_EntityType f) (a_EntityType a) &&
    match af_Since f with Some t => timestamptz_in env t <=? a_OccurredAt a | None => true end &&
    match af_Until f with Some t => a_OccurredAt a <=? timestamptz_in env t | None => true end) db in
  inr (db, limit_offset (af_Limit f) (af_Offset f) rows).

End schema.
