(* ===== verification/Postgres.v ===== *)
(** * Postgres: the repositories of internal/identity/postgres

    Each repository method is the program of its commands: acquiring a
    connection, setting the tenant of the session, the statement itself (a
    function of file Schema), and the mapping of the driver's errors to the
    errors of the domain. *)

From Stdlib Require Import ZArith Lia Ascii String.
From stdpp Require Import base list strings numbers gmap pretty.
From S2P Require Import Prelude Bytes Errors Model Repository World Schema.
Open Scope string_scope.
Open Scope Z_scope.

(** ** db.go *)

Record Config := mkConfig {
  cfg_Host : string; cfg_Database : string; cfg_User : string;
  cfg_Password : string; cfg_SSLMode : string; cfg_Port : Z;
  cfg_MaxOpenConns : Z; cfg_MaxIdleConns : Z; cfg_ConnMaxLifetime : Z }.

Definition DSN (c : Config) : string :=
  "host=" +:+ cfg_Host c +:+ " port=" +:+ pretty (cfg_Port c) +:+ " dbname=" +:+ cfg_Database c +:+
  " user=" +:+ cfg_User c +:+ " password=" +:+ cfg_Password c +:+ " sslmode=" +:+ cfg_SSLMode c.

Definition DefaultConfig : Config :=
  mkConfig "localhost" "verion" "verion" "verion_dev_secret" "disable" 5432 25 5 (300 * second).

(** [containsPGCode]: the first layer with an SQLSTATE decides. *)
Fixpoint containsPGCode (err : error) (code : string) : bool :=
  match err with
  | EPg c _ => String.eqb c code
  | EWrap _ e => containsPGCode e code
  | _ => false
  end.
Definition isUniqueViolation (err : error) : bool := containsPGCode err "23505".
Definition isNotFound (err : error) : bool := String.eqb (Error err) "no rows in result set".

(** A connection, with the setting [app.current_tenant_id] of its session: the
    value of the session, the local value that ends with the transaction in
    progress, and whether a transaction block is open. *)
Record Conn := mkConn {
  cn_session : option string; cn_local : option string; cn_in_block : bool }.

(** [current_setting('app.current_tenant_id', true)] *)
Definition current_tenant (conn : Conn) : option string :=
  match cn_local conn with Some v => Some v | None => cn_session conn end.

(** BEGIN, and the end of a transaction, which drops the local value. *)
Definition begin_block (conn : Conn) : Conn := mkConn (cn_session conn) (cn_local conn) true.
Definition end_block (conn : Conn) : Conn := mkConn (cn_session conn) None false.

(** A statement outside a transaction block is a transaction of its own. *)
Definition statement (f : Conn -> Conn) (conn : Conn) : Conn :=
  if cn_in_block conn then f conn else end_block (f (begin_block conn)).

(** [SELECT set_config('app.current_tenant_id', value, is_local)] *)
Definition set_config (value : string) (is_local : bool) : Conn -> Conn :=
  statement (fun conn =>
    if is_local then mkConn (cn_session conn) (Some value) (cn_in_block conn)
    else mkConn (Some value) (cn_local conn) (cn_in_block conn)).

(** A connection of the pool: nothing sets the value of a session. *)
Definition acquired : Conn := mkConn None None false.

Section postgres.
Context {X : Type} (env : Env) (json : Codec).
Local Open Scope prog_scope.

Definition command : M (World X) unit := pg_command env (fun _ db => inr (db, tt)).

Definition withTenantConn {A} (tenantID : string) (fn : Conn -> M (World X) A) : M (World X) A :=
  mapErr (EWrap "postgres: acquire connection") command ;;;
  mapErr (EWrap "postgres: set tenant context") command ;;;
  fn (set_config tenantID true acquired).

(** COMMIT, of a transaction that began with the tables [before]. *)
Definition commit (before : DB) : M (World X) unit :=
  actO (fun w =>
    match pg_fault env (w_tick w) with
    | Some t => (bump (set_db before w), Err (ENew t))
    | None => (bump w, answer env (w_tick w) tt)
    end).

(** A transaction is one action: it keeps the effects of its commands on the
    tables only if they end without error and it is committed. *)
Definition transaction {A} (m : M (World X) A) : M (World X) A :=
  actO (fun w =>
    let '(w', o) := exec m w in
    match o with
    | Ok r => exec (mapErr (EWrap "postgres: commit") (commit (w_db w)) ;;; ret r) w'
    | _ => (set_db (w_db w) w', o)
    end).

Definition withTenantTx {A} (tenantID : string) (fn : Conn -> M (World X) A) : M (World X) A :=
  mapErr (EWrap "postgres: acquire connection") command ;;;
  transaction (
    mapErr (EWrap "postgres: begin transaction") command ;;;
    mapErr (EWrap "postgres: set tenant context in tx") command ;;;
    fn (set_config tenantID true (begin_block acquired))).

(** [QueryRow(...).Scan(...)] and [Exec]. *)
Definition QueryRow {R A} (stmt : nat -> DB -> error + (DB * option R)) (scan : R -> A)
    : M (World X) A :=
  let* o := pg_command env stmt in
  match o with
  | None => throw (ESentinel PgxErrNoRows)
  | Some r => ret (scan r)
  end.
Definition Returning {R} (stmt : nat -> DB -> error + (DB * R)) : M (World X) R :=
  pg_command env stmt.
Definition Exec (stmt : nat -> DB -> error + (DB * unit)) : M (World X) unit :=
  pg_command env stmt.

(** ** tenant_repo.go *)

Definition scanTenant (t : Tenant) : Tenant :=
  mkTenant (t_ID t) (t_Name t) (t_Slug t) (t_Tier t) (t_Status t) (t_Settings t)
    (t_DataRegion t) (t_CreatedAt t) (t_UpdatedAt t).

Definition TenantRepo_Create (t : Tenant) : M (World X) Tenant :=
  let settings := match t_Settings t with None => Some (s2b "{}") | s => s end in
  mapErr (fun err => if isUniqueViolation err then ESentinel ErrAlreadyExists
                     else EWrap "postgres: create tenant" err)
    (let* r := Returning (sqlTenantInsert env (t_Name t) (t_Slug t) (t_Tier t) (t_Status t)
                            settings (t_DataRegion t)) in
     ret (scanTenant r)).

Definition TenantRepo_GetByID (id : string) : M (World X) Tenant :=
  mapErr (fun err => if isNotFound err then NotFoundError "tenant" id
                     else EWrap "postgres: get tenant" err)
    (QueryRow (sqlTenantGetByID env id) scanTenant).

Definition TenantRepo_GetBySlug (slug : string) : M (World X) Tenant :=
  mapErr (fun err => if isNotFound err then NotFoundError "tenant" slug
                     else EWrap "postgres: get tenant by slug" err)
    (QueryRow (sqlTenantGetBySlug env slug) scanTenant).

Definition TenantRepo_Update (t : Tenant) : M (World X) Tenant :=
  mapErr (fun err => if isNotFound err then NotFoundError "tenant" (t_ID t)
                     else EWrap "postgres: update tenant" err)
    (QueryRow (sqlTenantUpdate env (t_ID t) (t_Name t) (t_Tier t) (t_Settings t) (t_DataRegion t))
       scanTenant).

Definition TenantRepo_UpdateStatus (id status : string) : M (World X) unit :=
  mapErr (EWrap "postgres: update tenant status") (Exec (sqlTenantUpdateStatus env id status)).

Definition TenantRepo_List (filter : TenantFilter) : M (World X) (list Tenant) :=
  let* rows := mapErr (EWrap "postgres: list tenants") (Returning (sqlTenantList env filter)) in
  ret (scanTenant <$> rows).

Definition TenantRepo : TenantRepository (World X) :=
  mkTenantRepository _ TenantRepo_Create TenantRepo_GetByID TenantRepo_GetBySlug
    TenantRepo_Update TenantRepo_UpdateStatus TenantRepo_List.

(** ** audit_key_repo.go: AuditRepo *)

Definition insert_event (event : AuditEvent) : M (World X) unit :=
  let* event := (if IsZero (a_OccurredAt event)
                 then let* now := time_Now env in ret (set_a_OccurredAt now event)
                 else ret event) in
  let event := match a_Metadata event with
               | None => set_a_Metadata (Some (s2b "{}")) event
               | Some _ => event
               end in
  Returning (sqlAuditInsert env event) ;;;
  ret tt.
Definition insertConn (conn : Conn) (event : AuditEvent) : M (World X) unit := insert_event event.
Definition insertTx (tx : Conn) (event : AuditEvent) : M (World X) unit := insert_event event.

Definition AuditRepo_Insert (event : AuditEvent) : M (World X) unit :=
  withTenantConn (a_TenantID event) (fun conn => insertConn conn event).

Definition scanAuditEvent (e : AuditEvent) : AuditEvent :=
  mkAuditEvent (a_ID e) (a_TenantID e) (a_EventType e) (a_EntityType e) (a_EntityID e)
    (a_ActorID e) (a_ActorType e) (a_IPAddress e) (a_UserAgent e) (a_SessionID e)
    (a_RequestID e) (a_BeforeState e) (a_AfterState e) (a_Metadata e) (a_Success e)
    (a_ErrorCode e) (a_OccurredAt e).

Definition AuditRepo_GetByID (tenantID id : string) : M (World X) AuditEvent :=
  withTenantConn tenantID (fun _ => QueryRow (sqlAuditGetByID env tenantID id) scanAuditEvent).

Definition queryEvents (tenantID : string) (q : nat -> DB -> error + (DB * list AuditEvent))
    : M (World X) (list AuditEvent) :=
  withTenantConn tenantID (fun _ =>
    let* rows := Returning q in ret (scanAuditEvent <$> rows)).

Definition AuditRepo_ListByEntity (tenantID entityType entityID : string) (limit offset : Z)
    : M (World X) (list AuditEvent) :=
  queryEvents tenantID (sqlAuditListByEntity env tenantID entityType entityID limit offset).
Definition AuditRepo_ListByActor (tenantID actorID : string) (limit offset : Z)
    : M (World X) (list AuditEvent) :=
  queryEvents tenantID (sqlAuditListByActor env tenantID actorID limit offset).
Definition AuditRepo_ListByTenant (tenantID : string) (filter : AuditFilter)
    : M (World X) (list AuditEvent) :=
  queryEvents tenantID (sqlAuditListByTenant env tenantID filter).

Definition AuditRepo : AuditRepository (World X) :=
  mkAuditRepository _ AuditRepo_Insert AuditRepo_GetByID AuditRepo_ListByEntity
    AuditRepo_ListByActor AuditRepo_ListByTenant.

(** ** audit_key_repo.go: KeyRepo *)

Definition scanKey (k : IdentityKey) : IdentityKey :=
  mkIdentityKey (k_ID k) (k_IdentityID k) (k_TenantID k) (k_KeyType k) (k_Purpose k)
    (k_Algorithm k) (k_PublicKey k) (k_PublicKeyJWK k) (k_KeyRef k) (k_Fingerprint k)
    (k_Status k) (k_ValidFrom k) (k_ValidUntil k) (k_RotatedAt k) (k_RotatedTo k)
    (k_CreatedAt k).

Definition KeyRepo_Create (key : IdentityKey) : M (World X) IdentityKey :=
  withTenantConn (k_TenantID key) (fun _ =>
    mapErr (EWrap "postgres: insert key")
      (let* r := Returning (sqlKeyInsert env key) in ret (scanKey r))).

Definition getKey (tenantID : string) (q : nat -> DB -> error + (DB * option IdentityKey))
    : M (World X) IdentityKey :=
  withTenantConn tenantID (fun _ =>
    mapErr (fun err => if isNotFound err then ESentinel ErrKeyNotFound else err)
      (QueryRow q scanKey)).

Definition KeyRepo_GetByID (tenantID id : string) : M (World X) IdentityKey :=
  getKey tenantID (sqlKeyGetByID env tenantID id).
Definition KeyRepo_GetByFingerprint (tenantID fp : string) : M (World X) IdentityKey :=
  getKey tenantID (sqlKeyGetByFingerprint env tenantID fp).
Definition KeyRepo_GetActiveByPurpose (tenantID identityID purpose : string)
    : M (World X) IdentityKey :=
  getKey tenantID (sqlKeyGetActiveByPurpose env tenantID identityID purpose).

Definition KeyRepo_ListByIdentity (tenantID identityID : string) (status : option KeyStatus)
    : M (World X) (list IdentityKey) :=
  withTenantConn tenantID (fun _ =>
    let* rows := Returning (sqlKeyListByIdentity env tenantID identityID status) in
    ret (scanKey <$> rows)).

Definition KeyRepo_Rotate (tenantID oldKeyID newKeyID : string) : M (World X) unit :=
  withTenantConn tenantID (fun _ => Exec (sqlKeyRotate env tenantID oldKeyID newKeyID)).
Definition KeyRepo_Revoke (tenantID keyID : string) : M (World X) unit :=
  withTenantConn tenantID (fun _ => Exec (sqlKeyRevoke env tenantID keyID)).
Definition KeyRepo_MarkCompromised (tenantID keyID : string) : M (World X) unit :=
  withTenantConn tenantID (fun _ => Exec (sqlKeyMarkCompromised env tenantID keyID)).

Definition KeyRepo : IdentityKeyRepository (World X) :=
  mkIdentityKeyRepository _ KeyRepo_Create KeyRepo_GetByID KeyRepo_GetByFingerprint
    KeyRepo_GetActiveByPurpose KeyRepo_ListByIdentity KeyRepo_Rotate KeyRepo_Revoke
    KeyRepo_MarkCompromised.

(** ** identity_repo.go *)

(** [scanIdentity]: [row.Scan] assigns the columns to the destinations in
    order; the columns [attributes] and [attributes_iv] have the same
    destination [&ident.Attributes]. *)
Definition scanIdentity (r : IdentityRow) : Identity :=
  let ident := mkIdentity (ir_id r) (ir_tenant_id r) "" (ir_display_name r) (ir_handle r) ""
                 (ir_primary_key_id r) None ∅ (ir_created_by r) (ir_version r) 0 0
                 (ir_deactivated_at r) in
  let ident := set_i_Attributes (Some (ir_attributes r)) ident in
  let ident := set_i_Attributes (Some (ir_attributes_iv r)) ident in
  mkIdentity (i_ID ident) (i_TenantID ident) (ir_type r) (i_DisplayName ident) (i_Handle ident)
    (ir_status r) (i_PrimaryKeyID ident) (i_Attributes ident) (i_DecryptedAttributes ident)
    (i_CreatedBy ident) (i_Version ident) (ir_created_at r) (ir_updated_at r)
    (i_DeactivatedAt ident).

Definition IdentityRepo_Create (ident : Identity) : M (World X) Identity :=
  withTenantTx (i_TenantID ident) (fun tx =>
    let attrs := match i_Attributes ident with None => Some [] | a => a end in
    let* result :=
      mapErr (fun err => if isUniqueViolation err then ESentinel ErrHandleTaken
                         else EWrap "postgres: insert identity" err)
        (let* r := Returning (sqlIdentityInsert env (i_TenantID ident) (i_Type ident)
                     (i_DisplayName ident) (i_Handle ident) (i_Status ident) attrs (Some [])
                     (i_CreatedBy ident)) in
         ret (scanIdentity r)) in
    let afterJSON := marshal_strings json
      [("id", i_ID result); ("type", i_Type result); ("display_name", i_DisplayName result);
       ("handle", i_Handle result); ("status", i_Status result)] in
    let* now := time_Now env in
    insertTx tx (mkAuditEvent "" (i_TenantID ident) AuditEventIdentityCreated "identity"
      (i_ID result) (i_CreatedBy ident) None None None None None None (Some afterJSON)
      (Some (s2b "{}")) true None now) ;;;
    ret result).

Definition IdentityRepo_GetByID (tenantID id : string) : M (World X) Identity :=
  withTenantConn tenantID (fun _ =>
    mapErr (fun err => if isNotFound err then NotFoundError "identity" id
                       else EWrap "postgres: get identity" err)
      (QueryRow (sqlIdentityGetByID env tenantID id) scanIdentity)).

Definition IdentityRepo_GetByHandle (tenantID handle : string) : M (World X) Identity :=
  withTenantConn tenantID (fun _ =>
    mapErr (fun err => if isNotFound err then NotFoundError "identity" handle
                       else EWrap "postgres: get identity by handle" err)
      (QueryRow (sqlIdentityGetByHandle env tenantID handle) scanIdentity)).

Definition IdentityRepo_Update (ident : Identity) : M (World X) Identity :=
  withTenantConn (i_TenantID ident) (fun _ =>
    mapErr (fun err => if isNotFound err
                       then VersionConflictError "identity" (i_ID ident) (i_Version ident) 0
                       else EWrap "postgres: update identity" err)
      (QueryRow (sqlIdentityUpdate env (i_TenantID ident) (i_ID ident) (i_DisplayName ident)
                   (i_Attributes ident) (Some []) (i_Version ident)) scanIdentity)).

Definition IdentityRepo_UpdateStatus (tenantID id status : string) : M (World X) unit :=
  withTenantConn tenantID (fun _ => Exec (sqlIdentityUpdateStatus env tenantID id status)).

Definition IdentityRepo_SetPrimaryKey (tenantID identityID keyID : string) : M (World X) unit :=
  withTenantConn tenantID (fun _ => Exec (sqlIdentitySetPrimaryKey env tenantID identityID keyID)).

Definition IdentityRepo_List (tenantID : string) (filter : IdentityFilter)
    : M (World X) (list Identity) :=
  let order := if String.eqb (if_OrderBy filter) "" then "created_at" else if_OrderBy filter in
  withTenantConn tenantID (fun _ =>
    let* rows := mapErr (EWrap "postgres: list identities")
      (Returning (sqlIdentityList env tenantID filter order (if_Desc filter))) in
    ret (scanIdentity <$> rows)).

(** The filter is not used. *)
Definition IdentityRepo_Count (tenantID : string) (filter : IdentityFilter) : M (World X) Z :=
  withTenantConn tenantID (fun _ => Returning (sqlIdentityCount env tenantID)).

Definition IdentityRepo : IdentityRepository (World X) :=
  mkIdentityRepository _ IdentityRepo_Create IdentityRepo_GetByID IdentityRepo_GetByHandle
    IdentityRepo_Update IdentityRepo_UpdateStatus IdentityRepo_SetPrimaryKey
    IdentityRepo_List IdentityRepo_Count.

(** ** credential_repo.go *)

Definition CredentialRepo_Create (cred : Credential) : M (World X) Credential :=
  mapErr (fun err => if isUniqueViolation err then ESentinel ErrAlreadyExists
                     else EWrap "credential repo: create" err)
    (let* (id, at_) := withTenantConn (c_TenantID cred) (fun _ =>
       Returning (sqlCredentialInsert env cred)) in
     ret (set_c_ID_CreatedAt id at_ cred)).

Definition scanCredential (c : Credential) : Credential :=
  mkCredential (c_ID c) (c_IdentityID c) (c_TenantID c) (c_KeyID c) (c_Type c) (c_Status c)
    (c_Data c) (c_DataIV c) (c_AAGUID c) (c_CredentialID c) (c_SignCount c) (c_Name c)
    (c_DeviceInfo c) (c_LastUsedAt c) (c_CreatedAt c) (c_ExpiresAt c).

Definition CredentialRepo_GetByID (tenantID id : string) : M (World X) Credential :=
  mapErr (fun err => if isNotFound err then ESentinel ErrCredentialNotFound
                     else EWrap "credential repo: get by id" err)
    (withTenantConn tenantID (fun _ =>
       QueryRow (sqlCredentialGetByID env tenantID id) scanCredential)).

Definition CredentialRepo_GetWebAuthnByCredentialID (tenantID : string) (credentialID : slice)
    : M (World X) Credential :=
  mapErr (fun err => if isNotFound err then ESentinel ErrCredentialNotFound
                     else EWrap "credential repo: get webauthn by credential id" err)
    (withTenantConn tenantID (fun _ =>
       QueryRow (sqlCredentialGetWebAuthn env tenantID credentialID) scanCredential)).

Definition CredentialRepo_ListByIdentity (tenantID identityID : string)
    (status : option CredentialStatus) : M (World X) (list Credential) :=
  let* rows := mapErr (EWrap "credential repo: list by identity")
    (Returning (sqlCredentialListByIdentity env tenantID identityID status)) in
  ret (scanCredential <$> rows).

Definition CredentialRepo_UpdateSignCount (tenantID credentialID : string) (newCount : Z)
    : M (World X) unit :=
  mapErr (EWrap "credential repo: update sign count")
    (Exec (update_credential env (set_sign_count newCount) tenantID credentialID)).

Definition CredentialRepo_UpdateLastUsed (tenantID credentialID : string) (at_ : time)
    : M (World X) unit :=
  mapErr (EWrap "credential repo: update last used")
    (Exec (update_credential env (set_last_used (timestamptz_in env at_)) tenantID credentialID)).

Definition CredentialRepo_Revoke (tenantID credentialID : string) : M (World X) unit :=
  mapErr (EWrap "credential repo: revoke")
    (Exec (update_credential env set_revoked tenantID credentialID)).

Definition CredentialRepo : CredentialRepository (World X) :=
  mkCredentialRepository _ CredentialRepo_Create CredentialRepo_GetByID
    CredentialRepo_GetWebAuthnByCredentialID CredentialRepo_ListByIdentity
    CredentialRepo_UpdateSignCount CredentialRepo_UpdateLastUsed CredentialRepo_Revoke.

(** The aggregate built by [main]. *)
Definition PostgresRepositories : Repositories (World X) :=
  mkRepositories _ TenantRepo IdentityRepo KeyRepo CredentialRepo None AuditRepo.

End postgres.
