(* ===== verification/TenantService.v ===== *)
(** * TenantService: [internal/identity/tenant_service.go] *)

From Stdlib Require Import ZArith Lia Ascii String.
From stdpp Require Import base list strings numbers gmap.
From S2P Require Import Prelude Bytes Errors Model Repository.
Open Scope string_scope.

Record CreateTenantInput := mkCreateTenantInput {
  ct_Name : string; ct_Slug : string; ct_Tier : TenantTier; ct_DataRegion : string }.

(** The character class of [slugRegexp], [^[a-z0-9-]+$]. *)
Definition slug_char (c : ascii) : bool :=
  let n := N_of_ascii c in
  (N.leb 97 n && N.leb n 122) || (N.leb 48 n && N.leb n 57) || N.eqb n 45.

Fixpoint all_chars (P : ascii -> bool) (s : string) : bool :=
  match s with
  | EmptyString => true
  | String c s => P c && all_chars P s
  end.

Definition slugRegexp_MatchString (s : string) : bool :=
  negb (String.eqb s "") && all_chars slug_char s.

Definition validateCreateTenantInput (input : CreateTenantInput) : error + unit :=
  if String.eqb (ct_Name input) "" then inl (ValidationError "name" "must not be empty")
  else if String.eqb (ct_Slug input) "" then inl (ValidationError "slug" "must not be empty")
  else if negb (slugRegexp_MatchString (ct_Slug input))
  then inl (ValidationError "slug" "must match ^[a-z0-9-]+$")
  else inr tt.

Section service.
Context {W : Type} (repos : Repositories W).
Local Open Scope prog_scope.

Definition CreateTenant (input : CreateTenantInput) : M W Tenant :=
  check (validateCreateTenantInput input) ;;;
  let DataRegion := if String.eqb (ct_DataRegion input) "" then "global" else ct_DataRegion input in
  let tenant := mkTenant "" (ct_Name input) (ct_Slug input) (ct_Tier input) TenantStatusActive
                  None DataRegion 0 0 in
  let* created := mapErr (wrapRepoError "create tenant") (Tenants_Create (Tenants repos) tenant) in
  mapErr (EWrap "write audit event")
    (Audit_Insert (Audit repos)
      (auditEvent (t_ID created) AuditEventTenantCreated "tenant" (t_ID created) None true)) ;;;
  ret created.

Definition GetTenant (id : string) : M W Tenant :=
  mapErr (wrapRepoError "get tenant") (Tenants_GetByID (Tenants repos) id).

Definition GetTenantBySlug (slug : string) : M W Tenant :=
  mapErr (wrapRepoError "get tenant by slug") (Tenants_GetBySlug (Tenants repos) slug).

Definition SuspendTenant (id : string) : M W unit :=
  let* t := mapErr (wrapRepoError "get tenant for suspend") (Tenants_GetByID (Tenants repos) id) in
  if negb (String.eqb (t_Status t) TenantStatusActive) then throw (ESentinel ErrTenantInactive) else
  mapErr (wrapRepoError "suspend tenant")
    (Tenants_UpdateStatus (Tenants repos) id TenantStatusSuspended) ;;;
  mapErr (EWrap "write audit event")
    (Audit_Insert (Audit repos) (auditEvent id AuditEventTenantSuspended "tenant" id None true)).

Definition ActivateTenant (id : string) : M W unit :=
  let* t := mapErr (wrapRepoError "get tenant for activate") (Tenants_GetByID (Tenants repos) id) in
  if String.eqb (t_Status t) TenantStatusDeactivated then throw (ESentinel ErrTenantInactive) else
  mapErr (wrapRepoError "activate tenant")
    (Tenants_UpdateStatus (Tenants repos) id TenantStatusActive).

End service.
