(* ===== verification/IdentityService.v ===== *)
(** * IdentityService: [internal/identity/identity_service.go] *)

From Stdlib Require Import ZArith Lia Ascii String.
From stdpp Require Import base list strings numbers gmap.
From S2P Require Import Prelude Bytes Errors Model Repository World TenantService.
Open Scope string_scope.

Record CreateIdentityInput := mkCreateIdentityInput {
  ci_TenantID : string; ci_Type : IdentityType; ci_DisplayName : string;
  ci_Handle : string; ci_CreatedBy : option string; ci_Attributes : attributes }.

Record UpdateIdentityInput := mkUpdateIdentityInput {
  ui_TenantID : string; ui_ID : string; ui_DisplayName : string;
  ui_Attributes : attributes; ui_Version : Z; ui_ActorID : option string }.

Definition validateCreateIdentityInput (input : CreateIdentityInput) : error + unit :=
  if String.eqb (ci_TenantID input) "" then inl (ValidationError "tenant_id" "must not be empty")
  else if String.eqb (ci_Handle input) "" then inl (ValidationError "handle" "must not be empty")
  else if (64 <? String.length (ci_Handle input))%nat
  then inl (ValidationError "handle" "must be 64 characters or fewer")
  else if negb (all_chars (fun r => negb (Ascii.eqb r " ")) (ci_Handle input))
  then inl (ValidationError "handle" "must not contain spaces")
  else if String.eqb (ci_DisplayName input) ""
  then inl (ValidationError "display_name" "must not be empty")
  else if (128 <? String.length (ci_DisplayName input))%nat
  then inl (ValidationError "display_name" "must be 128 characters or fewer")
  else inr tt.

Definition ivLen : nat := 12.

Section service.
Context {W : Type} (repos : Repositories W) (crypto : CryptoService W) (json : Codec).
Local Open Scope prog_scope.

(** [encryptAttributes]: nil for no attributes, otherwise the nonce followed by
    the ciphertext of the JSON text. *)
Definition encryptAttributes (attrs : attributes) : M W slice :=
  if Nat.eqb (size attrs) 0 then ret None else
  let* plaintext := check (some_or (marshal_attributes json attrs)
                             (EWrap "marshal attributes" (ENew "json: unsupported value"))) in
  let* (ciphertext, iv) := mapErr (EWrap "encrypt") (Encrypt crypto plaintext) in
  let combined := replicate (List.length iv + List.length ciphertext) Byte.x00 in
  let* combined := Ret (copy_into combined 0 (Z.of_nat (List.length iv)) iv) in
  let* combined := Ret (copy_into combined (Z.of_nat (List.length iv))
                          (Z.of_nat (List.length combined)) ciphertext) in
  ret (Some combined).

(** [decryptAttributes] assigns [identity.DecryptedAttributes]; the identity it
    leaves is the result here. *)
Definition decryptAttributes (identity : Identity) : M W Identity :=
  let attrs := slice_bytes (i_Attributes identity) in
  if Nat.eqb (List.length attrs) 0 then ret identity else
  if (List.length attrs <? ivLen)%nat then throw (ENew "encrypted attributes too short") else
  let* iv := Ret (subslice attrs 0 (Z.of_nat ivLen)) in
  let* ciphertext := Ret (subslice attrs (Z.of_nat ivLen) (Z.of_nat (List.length attrs))) in
  let* plaintext := mapErr (EWrap "decrypt") (Decrypt crypto ciphertext iv) in
  let* decoded := check (some_or (unmarshal_attributes json plaintext)
                           (EWrap "unmarshal attributes" (ENew "json: cannot unmarshal"))) in
  ret (set_i_DecryptedAttributes decoded identity).

Definition CreateIdentity (input : CreateIdentityInput) : M W IdentityWithKeys :=
  (* Step 1 *)
  check (validateCreateIdentityInput input) ;;;
  (* Step 2 *)
  let* tenant := mapErr (wrapRepoError "get tenant")
                   (Tenants_GetByID (Tenants repos) (ci_TenantID input)) in
  if negb (String.eqb (t_Status tenant) TenantStatusActive)
  then throw (ESentinel ErrTenantInactive) else
  let* encryptedAttrs := mapErr (EWrap "encrypt attributes")
                           (encryptAttributes (ci_Attributes input)) in
  (* Step 3 *)
  let identity := mkIdentity "" (ci_TenantID input) (ci_Type input) (ci_DisplayName input)
                    (ci_Handle input) IdentityStatusPending None encryptedAttrs ∅
                    (ci_CreatedBy input) 0 0 0 None in
  let* created := mapErr (wrapRepoError "create identity")
                    (Identities_Create (Identities repos) identity) in
  (* Step 4 *)
  let* km := mapErr (EWrap "generate ed25519 key") (GenerateEd25519Key crypto (i_ID created)) in
  (* Step 5 *)
  let key := mkIdentityKey "" (i_ID created) (ci_TenantID input) KeyTypeEd25519 KeyPurposeSigning
               "EdDSA" (km_PublicKeyDER km) (km_JWK km) (km_KeyRef km) (km_Fingerprint km)
               KeyStatusActive 0 None None None 0 in
  let* createdKey := mapErr (wrapRepoError "create identity key") (Keys_Create (Keys repos) key) in
  (* Step 6 *)
  mapErr (wrapRepoError "set primary key")
    (Identities_SetPrimaryKey (Identities repos) (ci_TenantID input) (i_ID created) (k_ID createdKey)) ;;;
  let created := set_i_PrimaryKeyID (Some (k_ID createdKey)) created in
  (* Step 7 *)
  mapErr (wrapRepoError "activate identity")
    (Identities_UpdateStatus (Identities repos) (ci_TenantID input) (i_ID created)
       IdentityStatusActive) ;;;
  let created := set_i_Status IdentityStatusActive created in
  (* Step 8: the literal sets no EventType *)
  mapErr (EWrap "write audit event")
    (Audit_Insert (Audit repos)
      (auditEvent (ci_TenantID input) "" "identity" (i_ID created) (ci_CreatedBy input) true)) ;;;
  (* Step 9 *)
  ret (mkIdentityWithKeys created [createdKey]).

Definition GetIdentity (tenantID id : string) : M W Identity :=
  let* identity := mapErr (wrapRepoError "get identity")
                     (Identities_GetByID (Identities repos) tenantID id) in
  mapErr (EWrap "decrypt attributes") (decryptAttributes identity).

Definition GetIdentityByHandle (tenantID handle : string) : M W Identity :=
  let* identity := mapErr (wrapRepoError "get identity by handle")
                     (Identities_GetByHandle (Identities repos) tenantID handle) in
  mapErr (EWrap "decrypt attributes") (decryptAttributes identity).

Definition ListIdentities (tenantID : string) (filter : IdentityFilter) : M W (list Identity) :=
  let* identities := mapErr (wrapRepoError "list identities")
                       (Identities_List (Identities repos) tenantID filter) in
  mapM (fun identity => mapErr (EWrap ("decrypt attributes for " +:+ i_ID identity))
                          (decryptAttributes identity)) identities.

Definition UpdateIdentity (input : UpdateIdentityInput) : M W Identity :=
  if String.eqb (ui_DisplayName input) ""
  then throw (ValidationError "display_name" "must not be empty") else
  let* existing := mapErr (wrapRepoError "get identity for update")
                     (Identities_GetByID (Identities repos) (ui_TenantID input) (ui_ID input)) in
  let* encryptedAttrs := mapErr (EWrap "encrypt attributes")
                           (encryptAttributes (ui_Attributes input)) in
  let existing := set_i_DisplayName (ui_DisplayName input) existing in
  let existing := set_i_Attributes encryptedAttrs existing in
  let existing := set_i_Version (ui_Version input) existing in
  let* updated := mapErr (wrapRepoError "update identity")
                    (Identities_Update (Identities repos) existing) in
  mapErr (EWrap "decrypt attributes") (decryptAttributes updated).

(** The actor of an audit event: nil for the empty string. *)
Definition actorPtr (actorID : string) : option string :=
  if String.eqb actorID "" then None else Some actorID.

Definition DeactivateIdentity (tenantID id actorID : string) : M W unit :=
  let* identity := mapErr (wrapRepoError "get identity for deactivate")
                     (Identities_GetByID (Identities repos) tenantID id) in
  if IdentityStatus_IsTerminal (i_Status identity) then throw (ESentinel ErrIdentityTerminal) else
  mapErr (wrapRepoError "deactivate identity")
    (Identities_UpdateStatus (Identities repos) tenantID id IdentityStatusDeactivated) ;;;
  mapErr (EWrap "write audit event")
    (Audit_Insert (Audit repos)
      (auditEvent tenantID AuditEventIdentityDeactivated "identity" id (actorPtr actorID) true)).

Definition SuspendIdentity (tenantID id actorID : string) : M W unit :=
  let* identity := mapErr (wrapRepoError "get identity for suspend")
                     (Identities_GetByID (Identities repos) tenantID id) in
  if IdentityStatus_IsTerminal (i_Status identity) then throw (ESentinel ErrIdentityTerminal) else
  mapErr (wrapRepoError "suspend identity")
    (Identities_UpdateStatus (Identities repos) tenantID id IdentityStatusSuspended) ;;;
  mapErr (EWrap "write audit event")
    (Audit_Insert (Audit repos)
      (auditEvent tenantID AuditEventIdentitySuspended "identity" id (actorPtr actorID) true)).

Definition ReactivateIdentity (tenantID id actorID : string) : M W unit :=
  let* identity := mapErr (wrapRepoError "get identity for reactivate")
                     (Identities_GetByID (Identities repos) tenantID id) in
  if IdentityStatus_IsTerminal (i_Status identity) then throw (ESentinel ErrIdentityTerminal) else
  mapErr (wrapRepoError "reactivate identity")
    (Identities_UpdateStatus (Identities repos) tenantID id IdentityStatusActive) ;;;
  mapErr (EWrap "write audit event")
    (Audit_Insert (Audit repos)
      (auditEvent tenantID AuditEventIdentityActivated "identity" id (actorPtr actorID) true)).

End service.
