(* ===== verification/KeyService.v ===== *)
(** * KeyService: [internal/identity/key_service.go] *)

From Stdlib Require Import ZArith Lia Ascii String.
From stdpp Require Import base list strings numbers gmap.
From S2P Require Import Prelude Bytes Errors Model Repository.
Open Scope string_scope.

Record GenerateKeyInput := mkGenerateKeyInput {
  gk_TenantID : string; gk_IdentityID : string;
  gk_KeyType : KeyType; gk_Purpose : KeyPurpose; gk_ActorID : option string }.

(** The identifier under which a key pair's private key is stored. *)
Definition cryptoKeyID (tenantID identityID keyType : string) : string :=
  tenantID +:+ "/" +:+ identityID +:+ "/" +:+ keyType.

Section service.
Context {W : Type} (repos : Repositories W) (crypto : CryptoService W) (sys : Sys W).
Local Open Scope prog_scope.

Definition generateKeyPair (tenantID identityID keyType purpose : string) : M W IdentityKey :=
  let id := cryptoKeyID tenantID identityID keyType in
  let build algorithm km :=
    mkIdentityKey "" identityID tenantID keyType purpose algorithm (km_PublicKeyDER km)
      (km_JWK km) (km_KeyRef km) (km_Fingerprint km) KeyStatusActive 0 None None None 0 in
  let wrap := EWrap ("generate " +:+ keyType +:+ " key") in
  if String.eqb keyType KeyTypeEd25519 then
    let* km := mapErr wrap (GenerateEd25519Key crypto id) in ret (build "EdDSA" km)
  else if String.eqb keyType KeyTypeECDSAP256 then
    let* km := mapErr wrap (GenerateECDSAP256Key crypto id) in ret (build "ES256" km)
  else throw (ValidationError "key_type" ("unsupported key type: " +:+ keyType)).

Definition GenerateKey (input : GenerateKeyInput) : M W IdentityKey :=
  let* identity := mapErr (wrapRepoError "get identity for key generation")
    (Identities_GetByID (Identities repos) (gk_TenantID input) (gk_IdentityID input)) in
  if negb (String.eqb (i_Status identity) IdentityStatusActive)
  then throw (ESentinel ErrIdentityInactive) else
  let* key := generateKeyPair (gk_TenantID input) (gk_IdentityID input) (gk_KeyType input)
                (gk_Purpose input) in
  let* createdKey := mapErr (wrapRepoError "create key") (Keys_Create (Keys repos) key) in
  mapErr (EWrap "write audit event")
    (Audit_Insert (Audit repos)
      (auditEvent (gk_TenantID input) AuditEventKeyCreated "key" (k_ID createdKey)
         (gk_ActorID input) true)) ;;;
  ret createdKey.

Definition GetKey (tenantID keyID : string) : M W IdentityKey :=
  mapErr (wrapRepoError "get key") (Keys_GetByID (Keys repos) tenantID keyID).

Definition ListKeys (tenantID identityID : string) : M W (list IdentityKey) :=
  mapErr (wrapRepoError "list keys") (Keys_ListByIdentity (Keys repos) tenantID identityID None).

(** [oldKey.IsUsable()], which reads the clock. *)
Definition keyIsUsable (k : IdentityKey) : M W bool :=
  let* now := Now sys in Ret (IdentityKey_IsUsable k now).

Definition RotateKey (tenantID identityID oldKeyID actorID : string) : M W IdentityKey :=
  let* oldKey := mapErr (wrapRepoError "get old key for rotation")
                   (Keys_GetByID (Keys repos) tenantID oldKeyID) in
  let* usable := keyIsUsable oldKey in
  if negb usable then throw (ESentinel ErrKeyNotUsable) else
  let* newKey := generateKeyPair tenantID identityID (k_KeyType oldKey) (k_Purpose oldKey) in
  let* createdKey := mapErr (wrapRepoError "create rotated key") (Keys_Create (Keys repos) newKey) in
  mapErr (wrapRepoError "mark old key as rotated")
    (Keys_Rotate (Keys repos) tenantID oldKeyID (k_ID createdKey)) ;;;
  let* identity := mapErr (wrapRepoError "get identity for primary key update")
                     (Identities_GetByID (Identities repos) tenantID identityID) in
  let* primary := Ret (andalso (not_nil (i_PrimaryKeyID identity))
                        (let! id := deref (i_PrimaryKeyID identity) in Ok (String.eqb id oldKeyID))) in
  (if primary then
     mapErr (wrapRepoError "update primary key after rotation")
       (Identities_SetPrimaryKey (Identities repos) tenantID identityID (k_ID createdKey))
   else ret tt) ;;;
  mapErr (EWrap "write audit event")
    (Audit_Insert (Audit repos)
      (auditEvent tenantID AuditEventKeyRotated "key" (k_ID createdKey) (Some actorID) true)) ;;;
  ret createdKey.

Definition RevokeKey (tenantID keyID actorID : string) : M W unit :=
  mapErr (wrapRepoError "get key for revocation") (Keys_GetByID (Keys repos) tenantID keyID) ;;;
  mapErr (wrapRepoError "revoke key") (Keys_Revoke (Keys repos) tenantID keyID) ;;;
  mapErr (EWrap "write audit event")
    (Audit_Insert (Audit repos)
      (auditEvent tenantID AuditEventKeyRevoked "key" keyID (Some actorID) true)).

End service.
