(* ===== verification/Crypto.v ===== *)
(** * Crypto: [internal/crypto/aes.go], [keys.go], [service.go] and
    [internal/crypto/local/keystore.go]

    The primitives of Go's crypto packages are arguments ([Prims]) with the
    laws the code relies on ([PrimsOk]).  The file models what the sources do
    around them: the checks on lengths, the drawing of nonces, the encoding of
    public keys, and the in-memory store of private keys. *)

From Stdlib Require Import ZArith Lia Ascii String.
From stdpp Require Import base list strings numbers gmap pretty.
From S2P Require Import Prelude Bytes Errors Model Repository World.
Open Scope string_scope.

(** ** Primitives

    The functions of AES-GCM are given to keys that [aes.NewCipher] accepts and
    to nonces of the standard size only. *)

Record Prims := mkPrims {
  gcm_Seal : bytes -> bytes -> bytes -> bytes;           (* key, nonce, plaintext *)
  gcm_Open : bytes -> bytes -> bytes -> option bytes;    (* key, nonce, ciphertext *)
  ed25519_GenerateKey : bytes -> bytes * bytes;          (* random bytes; (public, private) *)
  ed25519_Sign : bytes -> bytes -> bytes;                (* private key, message *)
  ed25519_Verify : bytes -> bytes -> bytes -> bool;      (* public key, message, signature *)
  p256_GenerateKey : bytes -> option (bytes * Z * Z);    (* (private, X, Y) *)
  ecdsa_SignASN1 : bytes -> bytes -> bytes -> option bytes; (* random, private key, digest *)
  pkix_ed25519 : bytes -> option bytes;                  (* x509.MarshalPKIXPublicKey *)
  pkix_p256 : Z -> Z -> option bytes;
  sha256_Sum256 : bytes -> bytes }.

Class PrimsOk (p : Prims) : Prop := {
  gcm_Open_Seal : forall key iv pt, List.length key = 32%nat -> List.length iv = 12%nat ->
    gcm_Open p key iv (gcm_Seal p key iv pt) = Some pt;
  ed25519_Verify_Sign : forall seed msg,
    let '(pub, priv) := ed25519_GenerateKey p seed in
    ed25519_Verify p pub msg (ed25519_Sign p priv msg) = true;
  pkix_ed25519_total : forall seed, is_Some (pkix_ed25519 p (fst (ed25519_GenerateKey p seed)));
  p256_coordinates : forall seed d x y, p256_GenerateKey p seed = Some (d, x, y) ->
    (0 <= x < 2 ^ 256 /\ 0 <= y < 2 ^ 256)%Z;
  sha256_length : forall m, List.length (sha256_Sum256 p m) = 32%nat }.

(** ** keys.go: encoding *)

(** [big.Int.Bytes]: the big-endian bytes of a non-negative integer, without
    leading zeros.  The fuel is the number of bits, at least the number of bytes. *)
Fixpoint big_bytes_fuel (fuel : nat) (z : Z) : bytes :=
  match fuel with
  | O => []
  | S fuel => if (z =? 0)%Z then [] else (big_bytes_fuel fuel (z / 256) ++ [byte_of_Z z])%list
  end.
Definition big_Bytes (z : Z) : bytes := big_bytes_fuel (Z.to_nat (Z.log2 z + 1)) z.

Definition zeroPad {E} (b : bytes) (n : nat) : outcome E bytes :=
  if (n <=? List.length b)%nat then Ok b else
  let padded := replicate n Byte.x00 in
  copy_into padded (Z.of_nat n - Z.of_nat (List.length b)) (Z.of_nat (List.length padded)) b.

Definition p256_byteLen : nat := Z.to_nat ((256 + 7) / 8).

Definition fingerprintDER (p : Prims) (publicKeyDER : bytes) : string :=
  hex (sha256_Sum256 p publicKeyDER).

Definition p256_jwk {E} (x y : Z) (keyID : string) : outcome E (list (string * string)) :=
  (let! xBytes := zeroPad (big_Bytes x) p256_byteLen in
  let! yBytes := zeroPad (big_Bytes y) p256_byteLen in
  Ok [("kty", "EC"); ("crv", "P-256"); ("x", RawEncode urlAlphabet xBytes);
      ("y", RawEncode urlAlphabet yBytes); ("kid", keyID)])%prog.

Definition ed25519_jwk (pubKey : bytes) (keyID : string) : list (string * string) :=
  [("kty", "OKP"); ("crv", "Ed25519"); ("x", RawEncode urlAlphabet pubKey); ("kid", keyID)].

(** ** aes.go *)

Definition aesNonceSize : nat := 12.

(** [aes.NewCipher]: the block cipher of a key, given by the key. *)
Definition aes_NewCipher (key : bytes) : error + bytes :=
  let k := List.length key in
  if Nat.eqb k 16 || Nat.eqb k 24 || Nat.eqb k 32 then inr key
  else inl (ENew ("crypto/aes: invalid key size " +:+ pretty k)).

(** [cipher.NewGCM], which accepts any block cipher of AES, and the methods of
    its result on nonces of the standard size; on others they panic. *)
Definition AEAD_Seal (p : Prims) (block nonce plaintext : bytes) : outcome error bytes :=
  if Nat.eqb (List.length nonce) 12 then Ok (gcm_Seal p block nonce plaintext)
  else Panic "crypto/cipher: incorrect nonce length given to GCM".
Definition AEAD_Open (p : Prims) (block nonce ciphertext : bytes) : outcome error (option bytes) :=
  if Nat.eqb (List.length nonce) 12 then Ok (gcm_Open p block nonce ciphertext)
  else Panic "crypto/cipher: incorrect nonce length given to GCM".

(** ** service.go: the KeyStore interface *)

Record KeyStore (W : Type) := mkKeyStore {
  KeyStore_Store : string -> PrivateKey -> M W string;
  KeyStore_Sign : string -> bytes -> M W bytes;
  KeyStore_Delete : string -> M W unit }.
Arguments KeyStore_Store {W}. Arguments KeyStore_Sign {W}. Arguments KeyStore_Delete {W}.

Record CryptoConfig := mkCryptoConfig {
  MasterKey : bytes;
  Argon2Time : Z; Argon2Memory : Z; Argon2Threads : Z; Argon2KeyLen : Z }.

(** crypto.DefaultConfig *)
Definition DefaultCryptoConfig (masterKey : bytes) : CryptoConfig :=
  mkCryptoConfig masterKey 1 (64 * 1024) 4 32.

Section crypto.
Context {W : Type} (p : Prims) (sys : Sys W) (json : Codec).
Local Open Scope prog_scope.

Definition aesEncrypt (key plaintext : bytes) : M W (bytes * bytes) :=
  if negb (Nat.eqb (List.length key) 32)
  then throw (ENew ("aes encrypt: master key must be 32 bytes, got " +:+
                    pretty (List.length key))) else
  let* block := mapErr (EWrap "aes encrypt: create cipher") (check (aes_NewCipher key)) in
  let* iv := mapErr (EWrap "aes encrypt: generate iv") (RandRead sys aesNonceSize) in
  let* ciphertext := Ret (AEAD_Seal p block iv plaintext) in
  ret (ciphertext, iv).

Definition aesDecrypt (key ciphertext iv : bytes) : M W bytes :=
  if negb (Nat.eqb (List.length key) 32)
  then throw (ENew ("aes decrypt: master key must be 32 bytes, got " +:+
                    pretty (List.length key))) else
  if negb (Nat.eqb (List.length iv) aesNonceSize)
  then throw (ENew ("aes decrypt: iv must be " +:+ pretty aesNonceSize +:+ " bytes, got " +:+
                    pretty (List.length iv))) else
  let* block := mapErr (EWrap "aes decrypt: create cipher") (check (aes_NewCipher key)) in
  let* opened := Ret (AEAD_Open p block iv ciphertext) in
  match opened with
  | None => throw (ENew "aes decrypt: authentication failed")
  | Some plaintext => ret plaintext
  end.

Definition generateEd25519Key (store : KeyStore W) (keyID : string) : M W KeyMaterial :=
  let* seed := mapErr (EWrap "generate ed25519 key") (RandRead sys 32) in
  let '(pubKey, privKey) := ed25519_GenerateKey p seed in
  match pkix_ed25519 p pubKey with
  | None => throw (EWrap "marshal ed25519 public key" (ENew "x509: unsupported public key type"))
  | Some publicKeyDER =>
    let* keyRef := mapErr (EWrap "store ed25519 private key")
                     (KeyStore_Store store keyID (Ed25519PrivateKey privKey)) in
    let jwk := marshal_strings json (ed25519_jwk pubKey keyID) in
    ret (mkKeyMaterial (Some publicKeyDER) (Some jwk) keyRef (fingerprintDER p publicKeyDER))
  end.

Definition generateECDSAP256Key (store : KeyStore W) (keyID : string) : M W KeyMaterial :=
  let* seed := mapErr (EWrap "generate ecdsa p256 key") (RandRead sys 32) in
  match p256_GenerateKey p seed with
  | None => throw (EWrap "generate ecdsa p256 key" (ENew "ecdsa: key generation failed"))
  | Some (privKey, X, Y) =>
    match pkix_p256 p X Y with
    | None => throw (EWrap "marshal ecdsa p256 public key" (ENew "x509: invalid point"))
    | Some publicKeyDER =>
      let* keyRef := mapErr (EWrap "store ecdsa p256 private key")
                       (KeyStore_Store store keyID (EcdsaPrivateKey privKey)) in
      let* jwkMap := Ret (p256_jwk X Y keyID) in
      let jwk := marshal_strings json jwkMap in
      ret (mkKeyMaterial (Some publicKeyDER) (Some jwk) keyRef (fingerprintDER p publicKeyDER))
    end
  end.

End crypto.

(** ** local/keystore.go: the in-memory store of private keys *)

Definition keyRefPrefix : string := "local://".

(** The verb %q on a text with nothing to escape. *)
Definition quoted (s : string) : string :=
  let q := String (ascii_of_nat 34) EmptyString in q +:+ s +:+ q.

Section local.
Context {X : Type} (env : Env) (p : Prims).
Local Open Scope prog_scope.

Definition local_Store (keyID : string) (privateKey : PrivateKey) : M (World X) string :=
  if String.eqb keyID "" then throw (ENew "local keystore: keyID must not be empty") else
  let keyRef := keyRefPrefix +:+ keyID in
  act (fun w => (set_keys (<[keyRef := privateKey]> (w_keys w)) w, tt)) ;;;
  ret keyRef.

Definition local_Sign (keyRef : string) (data : bytes) : M (World X) bytes :=
  if negb (HasPrefix keyRef keyRefPrefix)
  then throw (ENew ("local keystore: unrecognised key_ref format: " +:+ quoted keyRef)) else
  let* val := act (fun w => (w, w_keys w !! keyRef)) in
  match val with
  | None => throw (ENew ("local keystore: key not found: " +:+ quoted keyRef))
  | Some (Ed25519PrivateKey privKey) => ret (ed25519_Sign p privKey data)
  | Some (EcdsaPrivateKey privKey) =>
    if negb (Nat.eqb (List.length data) 32)
    then throw (ENew ("local keystore: ecdsa sign: data must be a 32-byte SHA-256 digest, got " +:+
                      pretty (List.length data) +:+ " bytes")) else
    let* rnd := mapErr (EWrap "local keystore: ecdsa sign") (rand_Read env 32) in
    match ecdsa_SignASN1 p rnd privKey data with
    | Some sig => ret sig
    | None => throw (EWrap "local keystore: ecdsa sign" (ENew "ecdsa: signing failed"))
    end
  | Some (OtherPrivateKey t) => throw (ENew ("local keystore: unsupported key type " +:+ t))
  end.

Definition local_Delete (keyRef : string) : M (World X) unit :=
  if negb (HasPrefix keyRef keyRefPrefix)
  then throw (ENew ("local keystore: unrecognised key_ref format: " +:+ quoted keyRef)) else
  act (fun w => (set_keys (delete keyRef (w_keys w)) w, tt)).

Definition local_KeyStore : KeyStore (World X) :=
  mkKeyStore _ local_Store local_Sign local_Delete.
End local.
