(* ===== verification/Argon2.v ===== *)
(** * Argon2: [internal/crypto/hash.go]

    The encoded form of an Argon2id hash, printed with [fmt.Sprintf] and read
    back with [strings.Split] and [fmt.Sscanf].  The model of [Sscanf] covers
    ASCII input: blanks are skipped before a number, a newline is an error,
    and input left over after the format is ignored. *)

From Stdlib Require Import ZArith Lia Ascii String.
From stdpp Require Import base list strings numbers gmap.
From S2P Require Import Prelude Bytes Errors Model Repository World Crypto.
Open Scope string_scope.
Open Scope Z_scope.

(** ** Decimal numbers *)

Definition digit_char (z : Z) : ascii := ascii_of_N (Z.to_N (48 + z)).
Definition digit_val (c : ascii) : Z := Z.of_N (N_of_ascii c) - 48.
Definition is_digit (c : ascii) : bool := (0 <=? digit_val c) && (digit_val c <=? 9).

(** The verb %d of Sprintf on a non-negative integer; the fuel is the number
    of bits, at least the number of digits. *)
Fixpoint decimal_fuel (fuel : nat) (z : Z) (acc : string) : string :=
  match fuel with
  | O => acc
  | S fuel => if z <? 10 then String (digit_char z) acc
              else decimal_fuel fuel (z / 10) (String (digit_char (z mod 10)) acc)
  end.
Definition decimal (z : Z) : string := decimal_fuel (Z.to_nat (Z.log2 z + 1)) z "".

Fixpoint span_digits (s : string) : string * string :=
  match s with
  | String c s' => if is_digit c then let '(d, r) := span_digits s' in (String c d, r) else ("", s)
  | EmptyString => ("", "")
  end.
Fixpoint decimal_value (acc : Z) (s : string) : Z :=
  match s with
  | EmptyString => acc
  | String c s => decimal_value (acc * 10 + digit_val c) s
  end.

(** ** [fmt.Sscanf] *)

Inductive directive := Literal (s : string) | ScanInt | ScanUint32.

(** Skip blanks; a newline is an error. *)
Fixpoint SkipSpace (s : string) : option string :=
  match s with
  | EmptyString => Some s
  | String c s' =>
    let n := N_of_ascii c in
    if N.eqb n 10 then None
    else if N.eqb n 32 || (N.leb 9 n && N.leb n 13) then SkipSpace s'
    else Some s
  end.

(** [int] has 64 bits. *)
Definition scan_int (s : string) : option (Z * string) :=
  s ← SkipSpace s;
  let '(neg, s) := match s with
                   | String c s' => if Ascii.eqb c "-" then (true, s')
                                    else if Ascii.eqb c "+" then (false, s') else (false, s)
                   | EmptyString => (false, s)
                   end in
  let '(d, r) := span_digits s in
  if String.eqb d "" then None else
  let v := if neg : bool then - decimal_value 0 d else decimal_value 0 d in
  if (- 2 ^ 63 <=? v) && (v <? 2 ^ 63) then Some (v, r) else None.

Definition scan_uint32 (s : string) : option (Z * string) :=
  s ← SkipSpace s;
  let '(d, r) := span_digits s in
  if String.eqb d "" then None else
  let v := decimal_value 0 d in
  if v <? 2 ^ 32 then Some (v, r) else None.

Fixpoint Sscanf (s : string) (format : list directive) : option (list Z) :=
  match format with
  | [] => Some []
  | Literal l :: f =>
    if HasPrefix s l then Sscanf (drop_string (String.length l) s) f else None
  | ScanInt :: f => '(v, s) ← scan_int s; vs ← Sscanf s f; Some (v :: vs)
  | ScanUint32 :: f => '(v, s) ← scan_uint32 s; vs ← Sscanf s f; Some (v :: vs)
  end.

(** ** hash.go *)

Definition argon2SaltLen : nat := 16.
Definition argon2_Version : Z := 19.

Record argon2Params := mkArgon2Params { ap_time : Z; ap_memory : Z; ap_threads : Z }.

(** [argon2.IDKey(password, salt, time, memory, threads, keyLen)]: a key, or the
    text of a panic, which it ends in for no pass, no thread or an empty key
    (of which BLAKE2b makes no digest). *)
Abbreviation idkey := (bytes -> bytes -> Z -> Z -> Z -> Z -> bytes + string) (only parsing).

Class Argon2Ok (IDKey : idkey) : Prop := {
  IDKey_key : forall pw salt t m p n, 1 <= t -> 1 <= p -> 1 <= n ->
    exists k, IDKey pw salt t m p n = inl k /\ Z.of_nat (List.length k) = n;
  IDKey_panic : forall pw salt t m p n, t < 1 \/ p < 1 \/ n < 1 ->
    exists msg, IDKey pw salt t m p n = inr msg }.

Definition encodeArgon2 (memory time threads : Z) (salt hash : bytes) : string :=
  "$argon2id$v=" +:+ decimal argon2_Version +:+ "$m=" +:+ decimal memory +:+
  ",t=" +:+ decimal time +:+ ",p=" +:+ decimal threads +:+
  "$" +:+ RawEncode stdAlphabet salt +:+ "$" +:+ RawEncode stdAlphabet hash.

Definition parseArgon2idHash (encoded : string) : error + (argon2Params * bytes * bytes) :=
  match split "$" encoded with
  | [p0; p1; p2; p3; p4; p5] =>
    if negb (String.eqb p1 "argon2id") then inl (ENew "invalid hash format: not argon2id") else
    match Sscanf p2 [Literal "v="; ScanInt] with
    | Some [version] =>
      if negb (version =? argon2_Version)
      then inl (ENew "invalid hash format: unsupported argon2 version") else
      match Sscanf p3 [Literal "m="; ScanUint32; Literal ",t="; ScanUint32;
                       Literal ",p="; ScanUint32] with
      | Some [mem; t; p] =>
        let params := mkArgon2Params t mem (p mod 256) in
        match RawDecode stdAlphabet p4 with
        | None => inl (EWrap "invalid hash format: bad salt" (ENew "illegal base64 data"))
        | Some salt =>
          match RawDecode stdAlphabet p5 with
          | None => inl (EWrap "invalid hash format: bad hash" (ENew "illegal base64 data"))
          | Some hash => inr (params, salt, hash)
          end
        end
      | _ => inl (EWrap "invalid hash format: bad params" (ENew "scan error"))
      end
    | _ => inl (EWrap "invalid hash format: bad version" (ENew "scan error"))
    end
  | _ => inl (ENew "invalid hash format: expected 6 segments")
  end.

Section argon2.
Context {W : Type} (IDKey : idkey) (sys : Sys W).
Local Open Scope prog_scope.

Definition argon2_IDKey (pw salt : bytes) (t m p n : Z) : M W bytes :=
  match IDKey pw salt t m p n with inl k => ret k | inr msg => panic msg end.

Definition hashArgon2id (code : string) (cfg : CryptoConfig) : M W string :=
  let* salt := mapErr (EWrap "argon2id hash: generate salt") (RandRead sys argon2SaltLen) in
  let* hash := argon2_IDKey (s2b code) salt (Argon2Time cfg) (Argon2Memory cfg)
                 (Argon2Threads cfg) (Argon2KeyLen cfg) in
  ret (encodeArgon2 (Argon2Memory cfg) (Argon2Time cfg) (Argon2Threads cfg) salt hash).

Definition verifyArgon2id (code hashStr : string) : M W bool :=
  match parseArgon2idHash hashStr with
  | inl err => throw (EWrap "argon2id verify" err)
  | inr (params, salt, expectedHash) =>
    let* actualHash := argon2_IDKey (s2b code) salt (ap_time params) (ap_memory params)
                         (ap_threads params) (Z.of_nat (List.length expectedHash) mod 2 ^ 32) in
    ret (bool_decide (actualHash = expectedHash))
  end.

(** ** service.go: the implementation of CryptoService *)

Definition Service (p : Prims) (json : Codec) (cfg : CryptoConfig) (store : KeyStore W)
    : CryptoService W :=
  mkCryptoService _
    (generateEd25519Key p sys json store)
    (generateECDSAP256Key p sys json store)
    (aesEncrypt p sys (MasterKey cfg))
    (aesDecrypt p (MasterKey cfg))
    (fun code => hashArgon2id code cfg)
    verifyArgon2id
    (fingerprintDER p)
    (KeyStore_Sign store).
End argon2.
