(* ===== verification/SchemaFacts.v ===== *)
(** * SchemaFacts: the integrity of the tables, and how statements may change them

    [db_ok] is the well-formedness that the migrations ask of the tables:
    enumerated columns hold labels, the unique indexes hold, foreign keys point
    at rows.  [evolves] is what every statement of the program guarantees: it
    keeps [db_ok], only appends to the audit log, deletes no row, and leaves the
    identifying columns of a row alone.  [isolates T] adds that rows of tenants
    other than [T] do not change.  Both are preorders, so they hold of any
    interleaving of programs whose actions they hold of. *)

From Stdlib Require Import ZArith Lia Ascii String.
From stdpp Require Import base list sorting strings numbers gmap.
From S2P Require Import Prelude Bytes Errors Model Repository World Schema.
Open Scope Z_scope.

(** ** Indexes and references *)

(** No two rows are related by the index's collision relation. *)
Definition indexed {A} (R : A -> A -> Prop) (m : gmap string A) : Prop :=
  forall i j x y, m !! i = Some x -> m !! j = Some y -> R x y -> i = j.

Lemma indexed_insert {A} (R : A -> A -> Prop) (m : gmap string A) i x :
  (forall y z, R y z -> R z y) ->
  indexed R m ->
  (forall j y, j <> i -> m !! j = Some y -> ~ R x y) ->
  indexed R (<[i := x]> m).
Proof.
  intros Hsym Hm Hx j k y z Hj Hk HR.
  apply lookup_insert_Some in Hj as [[-> ->]|[Hji Hj]], Hk as [[-> ->]|[Hki Hk]].
  - done.
  - exfalso. by eapply Hx.
  - exfalso. eapply Hx; [by apply not_eq_sym|exact Hj|by apply Hsym].
  - by apply (Hm j k y z).
Qed.

(** A row that collides with no more rows than the one it replaces. *)
Lemma indexed_update {A} (R : A -> A -> Prop) (m : gmap string A) i x x' :
  (forall y z, R y z -> R z y) ->
  m !! i = Some x -> (forall y, R x' y -> R x y) ->
  indexed R m -> indexed R (<[i := x']> m).
Proof.
  intros Hsym Hi Hx Hm. apply indexed_insert; [done..|].
  intros j y Hji Hj HR. apply Hji. symmetry. apply (Hm i j x y); auto.
Qed.

(** [known m id]: the foreign key [id] points at a row of [m]. *)
Definition known {A} (m : gmap string A) (id : string) : Prop := is_Some (m !! id).
Definition known_opt {A} (m : gmap string A) (o : option string) : Prop :=
  forall id, o = Some id -> known m id.
Definition grows {A} (m m' : gmap string A) : Prop := forall id, known m id -> known m' id.

Lemma grows_refl {A} (m : gmap string A) : grows m m.
Proof. by intros id. Qed.
Lemma grows_insert {A} (m : gmap string A) i x : grows m (<[i := x]> m).
Proof. intros id. unfold known. rewrite lookup_insert_is_Some. destruct (decide (i = id)); auto. Qed.
Lemma known_opt_grows {A} (m m' : gmap string A) o : grows m m' -> known_opt m o -> known_opt m' o.
Proof. intros Hg Ho id Hid. apply Hg. by apply Ho. Qed.
Lemma known_opt_None {A} (m : gmap string A) : known_opt m None.
Proof. by intros id. Qed.
Lemma known_opt_Some {A} (m : gmap string A) id : known m id -> known_opt m (Some id).
Proof. by intros Hid ? [= <-]. Qed.
#[export] Hint Resolve grows_refl grows_insert known_opt_grows known_opt_None known_opt_Some : steps.

(** ** Well-formed tables *)

Section integrity.
Context (env : Env).

Definition tenant_ok (id : string) (t : Tenant) : Prop :=
  t_ID t = id /\ t_Tier t ∈ tenant_tier /\ t_Status t ∈ tenant_status /\ is_Some (t_Settings t).

Record identity_ok (db : DB) (id : string) (r : IdentityRow) : Prop := {
  ido_id : ir_id r = id;
  ido_type : ir_type r ∈ identity_type;
  ido_status : ir_status r ∈ identity_status;
  ido_tenant : known (db_tenants db) (ir_tenant_id r);
  ido_primary_key : known_opt (db_keys db) (ir_primary_key_id r);
  ido_created_by : known_opt (db_identities db) (ir_created_by r);
  ido_version : 1 <= ir_version r <= int64_max }.

Record key_ok (db : DB) (id : string) (k : IdentityKey) : Prop := {
  ko_id : k_ID k = id;
  ko_type : k_KeyType k ∈ key_type;
  ko_purpose : k_Purpose k ∈ key_purpose;
  ko_status : k_Status k ∈ key_status;
  ko_tenant : known (db_tenants db) (k_TenantID k);
  ko_identity : known (db_identities db) (k_IdentityID k);
  ko_rotated_to : known_opt (db_keys db) (k_RotatedTo k);
  ko_public_key : is_Some (k_PublicKey k) /\ is_Some (k_PublicKeyJWK k) }.

Record credential_ok (db : DB) (id : string) (c : Credential) : Prop := {
  co_id : c_ID c = id;
  co_type : c_Type c ∈ credential_type;
  co_status : c_Status c ∈ credential_status;
  co_tenant : known (db_tenants db) (c_TenantID c);
  co_identity : known (db_identities db) (c_IdentityID c);
  co_key : known_opt (db_keys db) (c_KeyID c);
  co_data : is_Some (c_Data c) /\ is_Some (c_DataIV c) }.

(** The collision relations of the unique indexes. *)
Definition same_slug (t u : Tenant) : Prop :=
  citext_fold env (t_Slug t) = citext_fold env (t_Slug u).
Definition same_handle (r s : IdentityRow) : Prop :=
  ir_tenant_id r = ir_tenant_id s /\
  citext_fold env (ir_handle r) = citext_fold env (ir_handle s).
Definition same_active_purpose (k l : IdentityKey) : Prop :=
  k_Status k = "active"%string /\ k_Status l = "active"%string /\
  k_IdentityID k = k_IdentityID l /\ k_Purpose k = k_Purpose l.
Definition same_credential_id (c d : Credential) : Prop :=
  c_TenantID c = c_TenantID d /\ c_CredentialID c <> None /\ c_CredentialID c = c_CredentialID d.

Record db_ok (db : DB) : Prop := {
  ok_tenants : map_Forall tenant_ok (db_tenants db);
  ok_identities : map_Forall (identity_ok db) (db_identities db);
  ok_keys : map_Forall (key_ok db) (db_keys db);
  ok_credentials : map_Forall (credential_ok db) (db_credentials db);
  ok_slug : indexed same_slug (db_tenants db);
  ok_handle : indexed same_handle (db_identities db);
  ok_active_purpose : indexed same_active_purpose (db_keys db);
  ok_credential_id : indexed same_credential_id (db_credentials db);
  ok_audit : NoDup (a_ID <$> db_audit db) /\
             Forall (fun a => known (db_tenants db) (a_TenantID a)) (db_audit db) }.

(** Rows stay valid when the tables they refer to grow. *)
Lemma identity_ok_grows db db' id r :
  grows (db_tenants db) (db_tenants db') -> grows (db_identities db) (db_identities db') ->
  grows (db_keys db) (db_keys db') -> identity_ok db id r -> identity_ok db' id r.
Proof. intros ??? []; split; eauto with steps. Qed.
Lemma key_ok_grows db db' id r :
  grows (db_tenants db) (db_tenants db') -> grows (db_identities db) (db_identities db') ->
  grows (db_keys db) (db_keys db') -> key_ok db id r -> key_ok db' id r.
Proof. intros ??? []; split; eauto with steps. Qed.
Lemma credential_ok_grows db db' id r :
  grows (db_tenants db) (db_tenants db') -> grows (db_identities db) (db_identities db') ->
  grows (db_keys db) (db_keys db') -> credential_ok db id r -> credential_ok db' id r.
Proof. intros ??? []; split; eauto with steps. Qed.

(** The rows of a table that did not change stay valid. *)
Ltac rows_stay grows_lemma :=
  eapply map_Forall_impl; [eassumption|];
  intros ???; eapply grows_lemma; [..|eassumption]; simpl; auto with steps.

Ltac rows_valid :=
  try rows_stay identity_ok_grows; try rows_stay key_ok_grows;
  try rows_stay credential_ok_grows.

(** The four ways a statement changes a table keep the whole database well
    formed when the new row is. *)
Lemma db_ok_insert_tenant db id t :
  tenant_ok id t ->
  (forall j u, j <> id -> db_tenants db !! j = Some u -> ~ same_slug t u) ->
  db_ok db -> db_ok (set_tenants (<[id := t]> (db_tenants db)) db).
Proof.
  intros Ht Hu []. split; simpl; rows_valid; try done.
  - by apply map_Forall_insert_2.
  - apply indexed_insert; [|done..]. unfold same_slug. congruence.
  - destruct ok_audit0 as [? Ha]. split; [done|].
    eapply list.Forall_impl; [exact Ha|]. simpl. intros a Hk. by apply grows_insert.
Qed.

Lemma db_ok_insert_identity db id r :
  identity_ok (set_identities (<[id := r]> (db_identities db)) db) id r ->
  (forall j s, j <> id -> db_identities db !! j = Some s -> ~ same_handle r s) ->
  db_ok db -> db_ok (set_identities (<[id := r]> (db_identities db)) db).
Proof.
  intros Hr Hu []. split; simpl; rows_valid; try done.
  - apply map_Forall_insert_2; [done|rows_stay identity_ok_grows].
  - apply indexed_insert; [|done..]. unfold same_handle. intuition congruence.
Qed.

Lemma db_ok_insert_key db id k :
  key_ok (set_keys_table (<[id := k]> (db_keys db)) db) id k ->
  (forall j l, j <> id -> db_keys db !! j = Some l -> ~ same_active_purpose k l) ->
  db_ok db -> db_ok (set_keys_table (<[id := k]> (db_keys db)) db).
Proof.
  intros Hk Hu []. split; simpl; rows_valid; try done.
  - apply map_Forall_insert_2; [done|rows_stay key_ok_grows].
  - apply indexed_insert; [|done..]. unfold same_active_purpose. intuition congruence.
Qed.

Lemma db_ok_insert_credential db id c :
  credential_ok db id c ->
  (forall j d, j <> id -> db_credentials db !! j = Some d -> ~ same_credential_id c d) ->
  db_ok db -> db_ok (set_credentials (<[id := c]> (db_credentials db)) db).
Proof.
  intros Hc Hu []. split; simpl; rows_valid; try done.
  - apply map_Forall_insert_2; [|rows_stay credential_ok_grows].
    eapply credential_ok_grows; [..|exact Hc]; simpl; auto with steps.
  - apply indexed_insert; [|done..]. unfold same_credential_id. intuition congruence.
Qed.

Lemma db_ok_add_audit db a :
  a_ID a ∉ a_ID <$> db_audit db -> known (db_tenants db) (a_TenantID a) ->
  db_ok db -> db_ok (add_audit a db).
Proof.
  intros Hid Ht []. split; simpl; rows_valid; try done.
  destruct ok_audit0 as [Hnd Ha]. split.
  - rewrite fmap_app. apply NoDup_app. split; [done|]. split; [|by apply NoDup_singleton].
    intros x Hx Hx'. apply list_elem_of_singleton in Hx'. by subst.
  - apply Forall_app. split; [done|]. by constructor.
Qed.

(** ** What a statement may change *)

Definition tenant_frozen (t t' : Tenant) : Prop :=
  t_ID t' = t_ID t /\ t_Slug t' = t_Slug t /\ t_CreatedAt t' = t_CreatedAt t.

(** The columns the statements assign are the display name, the attributes,
    the status, the primary key and the timestamps; the display name and the
    attributes change only with the version, which never decreases. *)
Record identity_frozen (r r' : IdentityRow) : Prop := {
  if_id : ir_id r' = ir_id r;
  if_tenant : ir_tenant_id r' = ir_tenant_id r;
  if_type : ir_type r' = ir_type r;
  if_handle : ir_handle r' = ir_handle r;
  if_created_by : ir_created_by r' = ir_created_by r;
  if_created_at : ir_created_at r' = ir_created_at r;
  if_version : ir_version r <= ir_version r';
  if_content : ir_version r' = ir_version r ->
    ir_display_name r' = ir_display_name r /\ ir_attributes r' = ir_attributes r /\
    ir_attributes_iv r' = ir_attributes_iv r }.

Definition key_frozen (k k' : IdentityKey) : Prop :=
  exists status rotated_at rotated_to,
    k' = set_key_status status rotated_at rotated_to k.

Record credential_frozen (c c' : Credential) : Prop := {
  cf_id : c_ID c' = c_ID c;
  cf_identity : c_IdentityID c' = c_IdentityID c;
  cf_tenant : c_TenantID c' = c_TenantID c;
  cf_type : c_Type c' = c_Type c;
  cf_data : c_Data c' = c_Data c;
  cf_credential_id : c_CredentialID c' = c_CredentialID c;
  cf_status : c_Status c' = c_Status c \/ c_Status c' = "revoked"%string }.

(** Every row of [m] is still in [m'], related by [R]. *)
Definition rows_kept {A} (R : A -> A -> Prop) (m m' : gmap string A) : Prop :=
  forall id x, m !! id = Some x -> exists x', m' !! id = Some x' /\ R x x'.

Record evolves (db db' : DB) : Prop := {
  ev_ok : db_ok db -> db_ok db';
  ev_tenants : rows_kept tenant_frozen (db_tenants db) (db_tenants db');
  ev_identities : rows_kept identity_frozen (db_identities db) (db_identities db');
  ev_keys : rows_kept key_frozen (db_keys db) (db_keys db');
  ev_credentials : rows_kept credential_frozen (db_credentials db) (db_credentials db');
  ev_audit : db_audit db `prefix_of` db_audit db' }.

#[export] Instance tenant_frozen_preorder : PreOrder tenant_frozen.
Proof. split; unfold tenant_frozen; [by intros|]. intros x y z. intuition congruence. Qed.
#[export] Instance identity_frozen_preorder : PreOrder identity_frozen.
Proof.
  split; [by intros r; split|]. intros x y z [] []. split; try congruence; [lia|].
  intros Hv. assert (ir_version y = ir_version x) as Hy by lia.
  assert (ir_version z = ir_version y) as Hz by lia.
  destruct (if_content0 Hy) as (?&?&?), (if_content1 Hz) as (?&?&?). intuition congruence.
Qed.
#[export] Instance key_frozen_preorder : PreOrder key_frozen.
Proof.
  split.
  - intros k. by exists (k_Status k), (k_RotatedAt k), (k_RotatedTo k); destruct k.
  - intros k1 k2 k3 (s&a&b&->) (s'&a'&b'&->). by exists s', a', b'.
Qed.
#[export] Instance credential_frozen_preorder : PreOrder credential_frozen.
Proof.
  split; [intros c; split; auto|]. intros x y z [] []. split; try congruence.
  destruct cf_status0 as [Hs|Hs], cf_status1 as [Hs'|Hs']; rewrite ?Hs, ?Hs'; auto.
Qed.
#[export] Instance rows_kept_preorder {A} (R : A -> A -> Prop) `{!PreOrder R} :
  PreOrder (rows_kept R).
Proof.
  split; [intros m id x Hx; by exists x|].
  intros m1 m2 m3 H12 H23 id x Hx. destruct (H12 id x Hx) as (y & Hy & HR).
  destruct (H23 id y Hy) as (z & Hz & HR'). exists z. split; [done|]. by etrans.
Qed.
#[export] Instance evolves_preorder : PreOrder evolves.
Proof.
  split; [by intros db; split|].
  intros x y z [] []. split; [auto|by etrans..].
Qed.

Lemma rows_kept_insert {A} (R : A -> A -> Prop) `{!PreOrder R} (m : gmap string A) id x :
  (forall y, m !! id = Some y -> R y x) -> rows_kept R m (<[id := x]> m).
Proof.
  intros Hx j y Hj. destruct (decide (j = id)) as [->|Hne].
  - exists x. rewrite lookup_insert_eq. auto.
  - exists y. rewrite lookup_insert_ne by done. done.
Qed.

(** ** Tenant isolation *)

(** Rows of a table that belong to a tenant other than [T] are the same
    before and after, and none appears. *)
Definition others_kept {A} (tenant : A -> string) (T : string) (m m' : gmap string A) : Prop :=
  forall id x, tenant x <> T -> (m !! id = Some x <-> m' !! id = Some x).

(** The audit log gains events of [T] only. *)
Definition audit_of (T : string) (l l' : list AuditEvent) : Prop :=
  exists new, (l' = l ++ new)%list /\ Forall (fun a => a_TenantID a = T) new.

Record isolates (T : string) (db db' : DB) : Prop := {
  iso_tenants : db_tenants db' = db_tenants db;
  iso_identities : others_kept ir_tenant_id T (db_identities db) (db_identities db');
  iso_keys : others_kept k_TenantID T (db_keys db) (db_keys db');
  iso_credentials : others_kept c_TenantID T (db_credentials db) (db_credentials db');
  iso_audit : audit_of T (db_audit db) (db_audit db') }.

#[export] Instance others_kept_preorder {A} (tenant : A -> string) T :
  PreOrder (others_kept tenant T).
Proof. split; [by intros m id x|]. intros a b c H1 H2 id x Hx. by rewrite (H1 id x Hx), (H2 id x Hx). Qed.
#[export] Instance audit_of_preorder T : PreOrder (audit_of T).
Proof.
  split; [intros l; exists []; by rewrite app_nil_r|].
  intros l1 l2 l3 (n & -> & Hn) (n' & -> & Hn'). exists (n ++ n')%list. rewrite app_assoc.
  split; [done|]. by apply Forall_app.
Qed.
#[export] Instance isolates_preorder T : PreOrder (isolates T).
Proof. split; [by intros db; split|]. intros x y z [] []. split; [congruence|by etrans..]. Qed.

Lemma others_kept_insert {A} (tenant : A -> string) T (m : gmap string A) id x :
  tenant x = T -> (forall y, m !! id = Some y -> tenant y = T) ->
  others_kept tenant T m (<[id := x]> m).
Proof.
  intros Hx Hm j y Hy. destruct (decide (j = id)) as [->|Hne].
  - rewrite lookup_insert_eq. split; [|congruence]. intros Hj. by destruct Hy; auto.
  - by rewrite lookup_insert_ne.
Qed.
End integrity.
