(* ===== verification/StatementFacts.v ===== *)
(** * StatementFacts: every SQL statement evolves the tables

    One lemma per statement that writes: it keeps the integrity of the tables
    and the history ([evolves]) and, for a statement scoped to a tenant, leaves
    the other tenants alone ([isolates]).  The statements that only read leave
    the tables as they are. *)

From Stdlib Require Import ZArith Lia Ascii String.
From stdpp Require Import base list sorting strings numbers gmap.
From S2P Require Import Prelude Bytes Errors Model Repository World Schema SchemaFacts.
Open Scope Z_scope.

(** Invert the checks of a statement that succeeded. *)
Ltac stmt_inv H :=
  repeat match type of H with
  | rbind _ _ = inr _ => let a := fresh "v" in let E := fresh "E" in
      apply rbind_inr in H as (a & E & H)
  end.
Lemma references_inr env {A} (m : gmap string A) id u :
  references env m id = inr u <-> known m id.
Proof. unfold references, known. rewrite guard_or_inr. apply bool_decide_eq_true. Qed.
Lemma references_opt_inr env {A} (m : gmap string A) o u :
  references_opt env m o = inr u <-> known_opt m o.
Proof.
  destruct o as [id|], u; simpl; [rewrite references_inr|];
    unfold known_opt; naive_solver.
Qed.
Ltac stmt_checks :=
  unfold enum_in, uuid_col, uuid_opt, not_null, unique in *;
  repeat match goal with
  | H : guard_or _ _ = inr _ |- _ => apply guard_or_inr in H
  | H : some_or _ _ = inr _ |- _ => apply some_or_inr in H
  | H : (if bool_decide ?P then inr _ else inl _) = inr _ |- _ =>
      destruct (decide P); [rewrite (bool_decide_eq_true_2 P) in H by done
                           |rewrite (bool_decide_eq_false_2 P) in H by done; discriminate H]
  | H : inr _ = inr _ |- _ => apply (inj inr) in H; try (apply (inj2 pair) in H as [? ?]); subst
  | H : bool_decide _ = true |- _ => apply bool_decide_eq_true in H
  | H : references _ _ _ = inr _ |- _ => apply references_inr in H
  | H : references_opt _ _ _ = inr _ |- _ => apply references_opt_inr in H
  end.

Section statements.
Context (env : Env).

(** ** One changed table *)

Lemma evolves_tenants db id t :
  (db_ok env db -> db_ok env (set_tenants (<[id := t]> (db_tenants db)) db)) ->
  (forall y, db_tenants db !! id = Some y -> tenant_frozen y t) ->
  evolves env db (set_tenants (<[id := t]> (db_tenants db)) db).
Proof. intros Hok Hf. split; simpl; try done. apply rows_kept_insert; [apply _|done]. Qed.

Lemma evolves_identities db id r :
  (db_ok env db -> db_ok env (set_identities (<[id := r]> (db_identities db)) db)) ->
  (forall y, db_identities db !! id = Some y -> identity_frozen y r) ->
  evolves env db (set_identities (<[id := r]> (db_identities db)) db).
Proof. intros Hok Hf. split; simpl; try done. apply rows_kept_insert; [apply _|done]. Qed.

Lemma evolves_keys db id k :
  (db_ok env db -> db_ok env (set_keys_table (<[id := k]> (db_keys db)) db)) ->
  (forall y, db_keys db !! id = Some y -> key_frozen y k) ->
  evolves env db (set_keys_table (<[id := k]> (db_keys db)) db).
Proof. intros Hok Hf. split; simpl; try done. apply rows_kept_insert; [apply _|done]. Qed.

Lemma evolves_credentials db id c :
  (db_ok env db -> db_ok env (set_credentials (<[id := c]> (db_credentials db)) db)) ->
  (forall y, db_credentials db !! id = Some y -> credential_frozen y c) ->
  evolves env db (set_credentials (<[id := c]> (db_credentials db)) db).
Proof. intros Hok Hf. split; simpl; try done. apply rows_kept_insert; [apply _|done]. Qed.

(** Replacing a row by one with the same place in the indexes. *)
Lemma identity_update_evolves db id r r' :
  db_identities db !! id = Some r -> identity_frozen r r' ->
  (identity_ok db id r -> identity_ok db id r') ->
  evolves env db (set_identities (<[id := r']> (db_identities db)) db).
Proof.
  intros Hr Hf Hok. apply evolves_identities; [|intros y Hy; by simplify_eq].
  intros Hdb. pose proof Hdb as []. apply db_ok_insert_identity; [| |done].
  - eapply identity_ok_grows; [..|apply Hok; by apply ok_identities]; simpl; auto with steps.
  - intros j s Hj Hs [Ht Hh]. destruct Hf. apply Hj. symmetry.
    apply (ok_handle id j r s); [done..|]. split; congruence.
Qed.

Lemma key_update_evolves db id k status rotated_at rotated_to :
  db_keys db !! id = Some k -> status ∈ key_status ->
  known_opt (db_keys db) rotated_to \/ rotated_to = k_RotatedTo k ->
  (status = "active"%string -> k_Status k = "active"%string) ->
  evolves env db
    (set_keys_table (<[id := set_key_status status rotated_at rotated_to k]> (db_keys db)) db).
Proof.
  intros Hk Hs Hrot Hact. apply evolves_keys;
    [|intros y Hy; simplify_eq; by exists status, rotated_at, rotated_to].
  intros Hdb. pose proof Hdb as []. apply db_ok_insert_key; [| |done].
  - destruct (ok_keys id k Hk). split; simpl; eauto with steps.
    destruct Hrot as [| ->]; eauto with steps.
  - intros j l Hj Hl (Ha & Hl' & Hi & Hp). simpl in *. apply Hj. symmetry.
    apply (ok_active_purpose id j k l); [done..|]. repeat split; auto.
Qed.

Lemma find_identity_Some db T id r :
  find_identity db T id = Some r <-> db_identities db !! id = Some r /\ ir_tenant_id r = T.
Proof.
  unfold find_identity. destruct (db_identities db !! id) as [s|]; [|naive_solver].
  destruct (String.eqb_spec (ir_tenant_id s) T); naive_solver.
Qed.
Lemma find_key_Some db T id k :
  find_key db T id = Some k <-> db_keys db !! id = Some k /\ k_TenantID k = T.
Proof.
  unfold find_key. destruct (db_keys db !! id) as [s|]; [|naive_solver].
  destruct (String.eqb_spec (k_TenantID s) T); naive_solver.
Qed.
Lemma find_credential_Some db T id c :
  find_credential db T id = Some c <-> db_credentials db !! id = Some c /\ c_TenantID c = T.
Proof.
  unfold find_credential. destruct (db_credentials db !! id) as [s|]; [|naive_solver].
  destruct (String.eqb_spec (c_TenantID s) T); naive_solver.
Qed.

(** ** tenants *)

Lemma sqlTenantInsert_evolves name slug tier status settings region n db db' r :
  sqlTenantInsert env name slug tier status settings region n db = inr (db', r) ->
  evolves env db db'.
Proof.
  unfold sqlTenantInsert. intros H. stmt_inv H. stmt_checks.
  apply evolves_tenants; [|congruence]. apply db_ok_insert_tenant; [done|].
  intros j u _ Hu Hs. eapply map_Forall_lookup_1 in Hu; [|eassumption]. by apply Hu.
Qed.

Lemma tenant_update_evolves db id t t' :
  db_tenants db !! id = Some t -> tenant_frozen t t' ->
  (tenant_ok id t -> tenant_ok id t') ->
  evolves env db (set_tenants (<[id := t']> (db_tenants db)) db).
Proof.
  intros Ht (Hid & Hslug & Hat) Hok.
  apply evolves_tenants; [|intros y Hy; by simplify_eq].
  intros Hdb. pose proof Hdb as []. apply db_ok_insert_tenant; [| |done].
  - apply Hok. by apply ok_tenants.
  - intros j u Hj Hu Hs. apply Hj. symmetry. apply (ok_slug id j t u); [done..|].
    unfold same_slug in *. congruence.
Qed.

Lemma sqlTenantUpdate_evolves id name tier settings region n db db' r :
  sqlTenantUpdate env id name tier settings region n db = inr (db', r) ->
  evolves env db db'.
Proof.
  unfold sqlTenantUpdate. intros H. stmt_inv H. case_match eqn:Ht; [|stmt_checks; reflexivity].
  stmt_inv H. stmt_checks. eapply tenant_update_evolves; [exact Ht|done|].
  intros (?&?&?&?). repeat split; simpl; eauto.
Qed.

Lemma sqlTenantUpdateStatus_evolves id status n db db' r :
  sqlTenantUpdateStatus env id status n db = inr (db', r) -> evolves env db db'.
Proof.
  unfold sqlTenantUpdateStatus. intros H. stmt_inv H.
  case_match eqn:Ht; stmt_checks; [|reflexivity].
  eapply tenant_update_evolves; [exact Ht|done|]. intros (?&?&?&?). repeat split; simpl; eauto.
Qed.

(** ** identities *)

Lemma sqlIdentityInsert_evolves tenant typ dn h st attrs iv cb n db db' r :
  sqlIdentityInsert env tenant typ dn h st attrs iv cb n db = inr (db', r) ->
  evolves env db db'.
Proof.
  unfold sqlIdentityInsert. intros H. stmt_inv H. stmt_checks.
  apply evolves_identities; [|congruence]. apply db_ok_insert_identity.
  - split; simpl; auto with steps. unfold int64_max; lia.
  - intros j s _ Hs [Hst Hsh]. simpl in *. eapply map_Forall_lookup_1 in Hs; [|eassumption].
    by apply Hs.
Qed.

Lemma sqlIdentityUpdate_evolves tenant id dn attrs iv v n db db' r :
  sqlIdentityUpdate env tenant id dn attrs iv v n db = inr (db', r) -> evolves env db db'.
Proof.
  unfold sqlIdentityUpdate. intros H. stmt_inv H.
  case_match eqn:Hr; [|stmt_checks; reflexivity].
  case_match; [stmt_checks; reflexivity|]. stmt_inv H. stmt_checks.
  apply find_identity_Some in Hr as [Hr _].
  match goal with Hv : (_ <? _) = true |- _ => apply Z.ltb_lt in Hv end.
  eapply identity_update_evolves; [exact Hr| |].
  - split; simpl; (done || lia).
  - intros []. split; simpl; try done. lia.
Qed.

Lemma sqlIdentityUpdateStatus_evolves tenant id status n db db' r :
  sqlIdentityUpdateStatus env tenant id status n db = inr (db', r) -> evolves env db db'.
Proof.
  unfold sqlIdentityUpdateStatus. intros H. stmt_inv H.
  case_match eqn:Hr; stmt_checks; [|reflexivity]. apply find_identity_Some in Hr as [Hr _].
  eapply identity_update_evolves; [exact Hr|by split|]. intros []. by split.
Qed.

Lemma sqlIdentitySetPrimaryKey_evolves tenant id key n db db' r :
  sqlIdentitySetPrimaryKey env tenant id key n db = inr (db', r) -> evolves env db db'.
Proof.
  unfold sqlIdentitySetPrimaryKey. intros H. stmt_inv H.
  case_match eqn:Hr; [|stmt_checks; reflexivity]. stmt_inv H. stmt_checks.
  apply find_identity_Some in Hr as [Hr _].
  eapply identity_update_evolves; [exact Hr|by split|].
  intros []. split; simpl; try done. by intros ? [= <-].
Qed.

(** ** identity_keys *)

Lemma sqlKeyInsert_evolves k n db db' r :
  sqlKeyInsert env k n db = inr (db', r) -> evolves env db db'.
Proof.
  unfold sqlKeyInsert. intros H. stmt_inv H. stmt_checks.
  apply evolves_keys; [|congruence]. apply db_ok_insert_key.
  - split; simpl; eauto with steps.
  - intros j l _ Hl (Ha & Hl' & Hi & Hp). simpl in *.
    match goal with Hu : _ || _ = true |- _ => rename Hu into Hu0 end.
    rewrite Ha in Hu0. simpl in Hu0. apply bool_decide_eq_true in Hu0.
    eapply map_Forall_lookup_1 in Hl; [|eassumption]. by apply Hl.
Qed.

Lemma sqlKeyRotate_evolves tenant id new n db db' r :
  sqlKeyRotate env tenant id new n db = inr (db', r) -> evolves env db db'.
Proof.
  unfold sqlKeyRotate. intros H. stmt_inv H.
  case_match eqn:Hk; [|stmt_checks; reflexivity]. stmt_inv H. stmt_checks.
  apply find_key_Some in Hk as [Hk _].
  apply key_update_evolves; [done|set_solver| |done]. left. by intros ? [= <-].
Qed.

Lemma sqlKeySetStatus_evolves status tenant id n db db' r :
  status ∈ key_status -> status <> "active"%string ->
  sqlKeySetStatus env status tenant id n db = inr (db', r) -> evolves env db db'.
Proof.
  intros Hs Hna. unfold sqlKeySetStatus. intros H. stmt_inv H.
  case_match eqn:Hk; stmt_checks; [|reflexivity].
  apply find_key_Some in Hk as [Hk _]. apply key_update_evolves; auto. done.
Qed.

(** ** credentials *)

Lemma sqlCredentialInsert_evolves c n db db' r :
  sqlCredentialInsert env c n db = inr (db', r) -> evolves env db db'.
Proof.
  unfold sqlCredentialInsert. intros H. stmt_inv H. stmt_checks.
  apply evolves_credentials; [|congruence]. apply db_ok_insert_credential.
  - split; simpl; eauto.
  - intros j l _ Hl (Ht & Hn & Hc). simpl in *.
    eapply map_Forall_lookup_1 in Hl; [|eassumption]. by apply Hl.
Qed.

Lemma update_credential_evolves f tenant id n db db' r :
  (forall c, credential_frozen c (f c) /\ c_KeyID (f c) = c_KeyID c /\ c_DataIV (f c) = c_DataIV c) ->
  update_credential env f tenant id n db = inr (db', r) -> evolves env db db'.
Proof.
  intros Hf. unfold update_credential. intros H. stmt_inv H.
  case_match eqn:Hc; stmt_checks; [|reflexivity]. apply find_credential_Some in Hc as [Hc _].
  destruct (Hf c) as ([] & Hk & Hiv).
  apply evolves_credentials; [|intros y Hy; simplify_eq; by apply Hf].
  intros Hdb. pose proof Hdb as []. apply db_ok_insert_credential; [| |done].
  - destruct (ok_credentials _ c Hc).
    split; rewrite ?cf_id, ?cf_type, ?cf_tenant, ?cf_identity, ?Hk, ?cf_data, ?Hiv; try done.
    destruct cf_status as [->| ->]; [done|set_solver].
  - intros j d Hj Hd (Ht & Hn & Hcid). apply Hj. symmetry.
    eapply (ok_credential_id _ j c d); [done..|]. repeat split; congruence.
Qed.

(** ** audit_events *)

Lemma sqlAuditInsert_evolves a n db db' r :
  sqlAuditInsert env a n db = inr (db', r) -> evolves env db db'.
Proof.
  unfold sqlAuditInsert. intros H. stmt_inv H. stmt_checks.
  split; simpl; try done; [|by eexists]. by apply db_ok_add_audit.
Qed.

(** ** Isolation *)

(** A statement whose tenant parameter reads as [T], if it reads at all. *)
Definition reads_as (tenant T : string) : Prop :=
  forall T', uuid_in env tenant = Some T' -> T' = T.

Lemma isolates_identity db T id r :
  ir_tenant_id r = T ->
  (forall y, db_identities db !! id = Some y -> ir_tenant_id y = T) ->
  isolates T db (set_identities (<[id := r]> (db_identities db)) db).
Proof. intros. split; simpl; try done. by apply others_kept_insert. Qed.
Lemma isolates_key db T id k :
  k_TenantID k = T -> (forall y, db_keys db !! id = Some y -> k_TenantID y = T) ->
  isolates T db (set_keys_table (<[id := k]> (db_keys db)) db).
Proof. intros. split; simpl; try done. by apply others_kept_insert. Qed.
Lemma isolates_credential db T id c :
  c_TenantID c = T -> (forall y, db_credentials db !! id = Some y -> c_TenantID y = T) ->
  isolates T db (set_credentials (<[id := c]> (db_credentials db)) db).
Proof. intros. split; simpl; try done. by apply others_kept_insert. Qed.

(** Find the row the statement selected, or the identifier it found free. *)
Ltac isolate :=
  stmt_checks;
  repeat match goal with
  | H : find_identity _ _ _ = Some _ |- _ => apply find_identity_Some in H as [? ?]
  | H : find_key _ _ _ = Some _ |- _ => apply find_key_Some in H as [? ?]
  | H : find_credential _ _ _ = Some _ |- _ => apply find_credential_Some in H as [? ?]
  | Hr : reads_as ?t _, H : uuid_in env ?t = Some _ |- _ => apply Hr in H; subst
  end;
  first [ reflexivity
        | apply isolates_identity | apply isolates_key | apply isolates_credential ];
  simpl; intros; simplify_eq; done.

Lemma sqlIdentityInsert_isolates T tenant typ dn h st attrs iv cb n db db' r :
  reads_as tenant T ->
  sqlIdentityInsert env tenant typ dn h st attrs iv cb n db = inr (db', r) -> isolates T db db'.
Proof. unfold sqlIdentityInsert. intros ? H. stmt_inv H. isolate. Qed.

Lemma sqlIdentityUpdate_isolates T tenant id dn attrs iv v n db db' r :
  reads_as tenant T ->
  sqlIdentityUpdate env tenant id dn attrs iv v n db = inr (db', r) -> isolates T db db'.
Proof.
  unfold sqlIdentityUpdate. intros ? H. stmt_inv H. case_match; [|isolate].
  case_match; [isolate|]. stmt_inv H. isolate.
Qed.

Lemma sqlIdentityUpdateStatus_isolates T tenant id status n db db' r :
  reads_as tenant T ->
  sqlIdentityUpdateStatus env tenant id status n db = inr (db', r) -> isolates T db db'.
Proof. unfold sqlIdentityUpdateStatus. intros ? H. stmt_inv H. case_match; isolate. Qed.

Lemma sqlIdentitySetPrimaryKey_isolates T tenant id key n db db' r :
  reads_as tenant T ->
  sqlIdentitySetPrimaryKey env tenant id key n db = inr (db', r) -> isolates T db db'.
Proof.
  unfold sqlIdentitySetPrimaryKey. intros ? H. stmt_inv H. case_match; [|isolate].
  stmt_inv H. isolate.
Qed.

Lemma sqlKeyInsert_isolates T k n db db' r :
  reads_as (k_TenantID k) T ->
  sqlKeyInsert env k n db = inr (db', r) -> isolates T db db'.
Proof. unfold sqlKeyInsert. intros ? H. stmt_inv H. isolate. Qed.

Lemma sqlKeyRotate_isolates T tenant id new n db db' r :
  reads_as tenant T ->
  sqlKeyRotate env tenant id new n db = inr (db', r) -> isolates T db db'.
Proof. unfold sqlKeyRotate. intros ? H. stmt_inv H. case_match; [stmt_inv H|]; isolate. Qed.

Lemma sqlKeySetStatus_isolates T status tenant id n db db' r :
  reads_as tenant T ->
  sqlKeySetStatus env status tenant id n db = inr (db', r) -> isolates T db db'.
Proof. unfold sqlKeySetStatus. intros ? H. stmt_inv H. case_match; isolate. Qed.

Lemma sqlCredentialInsert_isolates T c n db db' r :
  reads_as (c_TenantID c) T ->
  sqlCredentialInsert env c n db = inr (db', r) -> isolates T db db'.
Proof. unfold sqlCredentialInsert. intros ? H. stmt_inv H. isolate. Qed.

Lemma update_credential_isolates T f tenant id n db db' r :
  reads_as tenant T -> (forall c, c_TenantID (f c) = c_TenantID c) ->
  update_credential env f tenant id n db = inr (db', r) -> isolates T db db'.
Proof.
  unfold update_credential. intros ? Hf H. stmt_inv H. case_match; [|isolate].
  rename select Credential into c. specialize (Hf c). isolate.
Qed.

Lemma sqlAuditInsert_isolates T a n db db' r :
  reads_as (a_TenantID a) T ->
  sqlAuditInsert env a n db = inr (db', r) -> isolates T db db'.
Proof.
  unfold sqlAuditInsert. intros Ht H. stmt_inv H. stmt_checks.
  split; simpl; try done. eexists. split; [done|]. constructor; simpl; auto.
Qed.

End statements.

