(* ===== verification/Guarantees.v ===== *)
(** * Guarantees: what the components promise each other about their actions

    [RepositoriesSteps], [TenantWrites], [CredentialWrites], [CryptoSteps] and
    [SysSteps] are the interfaces: every action of every operation of the component moves the
    world inside [G].  The services are proved against them, for any relation
    [G]; files Integrity and CryptoFacts discharge them for the
    implementations.  [scope] restricts the tenants the repositories are called
    for. *)

From Stdlib Require Import ZArith Lia Ascii String.
From stdpp Require Import base list strings numbers gmap.
From S2P Require Import Prelude Bytes Errors Model Repository World TenantService IdentityService.
From S2P Require Import KeyService.

Class RepositoriesSteps {W} (G : W -> W -> Prop) (scope : string -> Prop)
    (repos : Repositories W) : Prop := {
  rs_Tenants_GetByID id : steps_in G (Tenants_GetByID (Tenants repos) id);
  rs_Tenants_GetBySlug s : steps_in G (Tenants_GetBySlug (Tenants repos) s);
  rs_Tenants_List f : steps_in G (Tenants_List (Tenants repos) f);
  rs_Identities_Create i : scope (i_TenantID i) ->
    steps_in G (Identities_Create (Identities repos) i);
  rs_Identities_GetByID t id : steps_in G (Identities_GetByID (Identities repos) t id);
  rs_Identities_GetByID_scope t id : scope t ->
    guar G (on_ok (fun i => scope (i_TenantID i))) (Identities_GetByID (Identities repos) t id);
  rs_Identities_GetByHandle t h : steps_in G (Identities_GetByHandle (Identities repos) t h);
  rs_Identities_Update i : scope (i_TenantID i) ->
    steps_in G (Identities_Update (Identities repos) i);
  rs_Identities_UpdateStatus t id s : scope t ->
    steps_in G (Identities_UpdateStatus (Identities repos) t id s);
  rs_Identities_SetPrimaryKey t id k : scope t ->
    steps_in G (Identities_SetPrimaryKey (Identities repos) t id k);
  rs_Identities_List t f : steps_in G (Identities_List (Identities repos) t f);
  rs_Keys_Create k : scope (k_TenantID k) -> steps_in G (Keys_Create (Keys repos) k);
  rs_Keys_GetByID t id : steps_in G (Keys_GetByID (Keys repos) t id);
  rs_Keys_ListByIdentity t id s : steps_in G (Keys_ListByIdentity (Keys repos) t id s);
  rs_Keys_Rotate t o n : scope t -> steps_in G (Keys_Rotate (Keys repos) t o n);
  rs_Keys_Revoke t id : scope t -> steps_in G (Keys_Revoke (Keys repos) t id);
  rs_Keys_MarkCompromised t id : scope t ->
    steps_in G (Keys_MarkCompromised (Keys repos) t id);
  rs_Credentials_GetByID t id : steps_in G (Credentials_GetByID (Credentials repos) t id);
  rs_Credentials_GetWebAuthn t c :
    steps_in G (Credentials_GetWebAuthnByCredentialID (Credentials repos) t c);
  rs_Credentials_ListByIdentity t id s :
    steps_in G (Credentials_ListByIdentity (Credentials repos) t id s);
  rs_Credentials_UpdateSignCount t id n : scope t ->
    steps_in G (Credentials_UpdateSignCount (Credentials repos) t id n);
  rs_Credentials_UpdateLastUsed t id n : scope t ->
    steps_in G (Credentials_UpdateLastUsed (Credentials repos) t id n);
  rs_Credentials_Revoke t id : scope t -> steps_in G (Credentials_Revoke (Credentials repos) t id);
  rs_Audit_Insert a : scope (a_TenantID a) -> steps_in G (Audit_Insert (Audit repos) a) }.

(** The operations that write the table of tenants. *)
Class TenantWrites {W} (G : W -> W -> Prop) (repos : Repositories W) : Prop := {
  tw_Create t : steps_in G (Tenants_Create (Tenants repos) t);
  tw_Update t : steps_in G (Tenants_Update (Tenants repos) t);
  tw_UpdateStatus id s : steps_in G (Tenants_UpdateStatus (Tenants repos) id s);
  tw_Audit_Insert a : steps_in G (Audit_Insert (Audit repos) a) }.

(** The operation that adds a credential, which only registrations perform. *)
Class CredentialWrites {W} (G : W -> W -> Prop) (scope : string -> Prop)
    (repos : Repositories W) : Prop := {
  cw_Create c : scope (c_TenantID c) -> steps_in G (Credentials_Create (Credentials repos) c) }.

Class CryptoSteps {W} (G : W -> W -> Prop) (crypto : CryptoService W) : Prop := {
  cs_GenerateEd25519Key id : steps_in G (GenerateEd25519Key crypto id);
  cs_GenerateECDSAP256Key id : steps_in G (GenerateECDSAP256Key crypto id);
  cs_Encrypt b : steps_in G (Encrypt crypto b);
  cs_Decrypt c iv : steps_in G (Decrypt crypto c iv);
  cs_HashRecoveryCode c : steps_in G (HashRecoveryCode crypto c);
  cs_VerifyRecoveryCode c h : steps_in G (VerifyRecoveryCode crypto c h);
  cs_Sign k d : steps_in G (Sign crypto k d) }.

Class SysSteps {W} (G : W -> W -> Prop) (sys : Sys W) : Prop := {
  ss_Now : steps_in G (Now sys);
  ss_RandRead n : steps_in G (RandRead sys n) }.

#[export] Hint Resolve rs_Tenants_GetByID rs_Tenants_GetBySlug rs_Tenants_List
  rs_Identities_Create rs_Identities_GetByID rs_Identities_GetByHandle
  rs_Identities_Update rs_Identities_UpdateStatus rs_Identities_SetPrimaryKey
  rs_Identities_List rs_Keys_Create rs_Keys_GetByID rs_Keys_ListByIdentity
  rs_Keys_Rotate rs_Keys_Revoke rs_Keys_MarkCompromised
  rs_Credentials_GetByID rs_Credentials_GetWebAuthn
  rs_Credentials_ListByIdentity rs_Credentials_UpdateSignCount
  rs_Credentials_UpdateLastUsed rs_Credentials_Revoke rs_Audit_Insert
  cw_Create tw_Create tw_Update tw_UpdateStatus tw_Audit_Insert
  cs_GenerateEd25519Key cs_GenerateECDSAP256Key cs_Encrypt cs_Decrypt
  cs_HashRecoveryCode cs_VerifyRecoveryCode cs_Sign ss_Now ss_RandRead : steps.

Section services.
Context {W : Type} (G : W -> W -> Prop) (scope : string -> Prop).
Context (repos : Repositories W) (crypto : CryptoService W) (sys : Sys W) (json : Codec).

Lemma check_steps {A} (e : error + A) : steps_in G (check (W:=W) e).
Proof. by destruct e. Qed.
#[local] Hint Resolve check_steps : steps.

(** *** Tenants *)
Section tenants.
Context `{!RepositoriesSteps G scope repos, !TenantWrites G repos}.

Lemma CreateTenant_steps input : steps_in G (CreateTenant repos input).
Proof. unfold CreateTenant. steps_walk. Qed.
Lemma GetTenant_steps id : steps_in G (GetTenant repos id).
Proof. unfold GetTenant. steps_walk. Qed.
Lemma GetTenantBySlug_steps slug : steps_in G (GetTenantBySlug repos slug).
Proof. unfold GetTenantBySlug. steps_walk. Qed.
Lemma SuspendTenant_steps id : steps_in G (SuspendTenant repos id).
Proof. unfold SuspendTenant. steps_walk. Qed.
Lemma ActivateTenant_steps id : steps_in G (ActivateTenant repos id).
Proof. unfold ActivateTenant. steps_walk. Qed.
End tenants.

(** *** Identities *)
Section identities.
Context `{!RepositoriesSteps G scope repos, !CryptoSteps G crypto}.

Lemma encryptAttributes_steps attrs : steps_in G (encryptAttributes crypto json attrs).
Proof. unfold encryptAttributes. steps_walk. Qed.
Lemma decryptAttributes_steps i : steps_in G (decryptAttributes crypto json i).
Proof. unfold decryptAttributes. steps_walk. Qed.
#[local] Hint Resolve encryptAttributes_steps decryptAttributes_steps : steps.

Lemma CreateIdentity_steps input : scope (ci_TenantID input) ->
  steps_in G (CreateIdentity repos crypto json input).
Proof. intros. unfold CreateIdentity. steps_walk. Qed.
Lemma GetIdentity_steps t id : steps_in G (GetIdentity repos crypto json t id).
Proof. unfold GetIdentity. steps_walk. Qed.
Lemma GetIdentityByHandle_steps t h : steps_in G (GetIdentityByHandle repos crypto json t h).
Proof. unfold GetIdentityByHandle. steps_walk. Qed.
Lemma ListIdentities_steps t f : steps_in G (ListIdentities repos crypto json t f).
Proof. unfold ListIdentities. steps_walk. Qed.
Lemma UpdateIdentity_steps input : scope (ui_TenantID input) ->
  steps_in G (UpdateIdentity repos crypto json input).
Proof.
  intros Ht. unfold UpdateIdentity. case_match; [steps_walk|].
  eapply steps_in_bind_post; [by apply guar_mapErr, rs_Identities_GetByID_scope|].
  intros existing Hs. simpl in Hs. steps_walk.
Qed.
Lemma DeactivateIdentity_steps t id actor : scope t ->
  steps_in G (DeactivateIdentity repos t id actor).
Proof. intros. unfold DeactivateIdentity. steps_walk. Qed.
Lemma SuspendIdentity_steps t id actor : scope t ->
  steps_in G (SuspendIdentity repos t id actor).
Proof. intros. unfold SuspendIdentity. steps_walk. Qed.
Lemma ReactivateIdentity_steps t id actor : scope t ->
  steps_in G (ReactivateIdentity repos t id actor).
Proof. intros. unfold ReactivateIdentity. steps_walk. Qed.
End identities.

(** *** Keys *)
Section keys.
Context `{!RepositoriesSteps G scope repos, !CryptoSteps G crypto, !SysSteps G sys}.

Lemma built {A B} (Q : B -> Prop) wrap (m : M W A) (f : A -> B) :
  steps_in G m -> (forall a, Q (f a)) ->
  guar G (on_ok Q) (bind (mapErr wrap m) (fun a => ret (f a))).
Proof.
  intros Hm Hf. apply guar_then.
  - by apply steps_in_mapErr.
  - intros a b [= <-]. apply Hf.
  - by intros e ? [=].
  - by intros e ? [=].
Qed.
(** The key that a generated pair is recorded in. *)
Definition key_for (t i kt p : string) (k : IdentityKey) : Prop :=
  k_TenantID k = t /\ k_IdentityID k = i /\ k_KeyType k = kt /\ k_Purpose k = p /\
  k_Status k = KeyStatusActive.
Lemma generateKeyPair_steps t i kt p :
  guar G (on_ok (key_for t i kt p)) (generateKeyPair crypto t i kt p).
Proof.
  unfold generateKeyPair. repeat case_match; [apply built|apply built|by intros ? [=]].
  all: eauto with steps; intros km; split_and!; reflexivity.
Qed.
Lemma GenerateKey_steps input : scope (gk_TenantID input) ->
  steps_in G (GenerateKey repos crypto input).
Proof.
  intros Ht. unfold GenerateKey. apply steps_in_bind; [steps_walk|intros identity].
  case_match; [steps_walk|].
  eapply steps_in_bind_post; [apply generateKeyPair_steps|intros k (Hk & _)].
  assert (scope (k_TenantID k)) by by rewrite Hk. steps_walk.
Qed.
Lemma GetKey_steps t id : steps_in G (GetKey repos t id).
Proof. unfold GetKey. steps_walk. Qed.
Lemma ListKeys_steps t id : steps_in G (ListKeys repos t id).
Proof. unfold ListKeys. steps_walk. Qed.
Lemma RotateKey_steps t i old actor : scope t ->
  steps_in G (RotateKey repos crypto sys t i old actor).
Proof.
  intros Ht. unfold RotateKey, keyIsUsable. apply steps_in_bind; [steps_walk|intros oldKey].
  apply steps_in_bind; [steps_walk|intros usable]. case_match; [steps_walk|].
  eapply steps_in_bind_post; [apply generateKeyPair_steps|intros k (Hk & _)].
  assert (scope (k_TenantID k)) by by rewrite Hk. steps_walk.
Qed.
Lemma RevokeKey_steps t id actor : scope t -> steps_in G (RevokeKey repos t id actor).
Proof. intros Ht. unfold RevokeKey. steps_walk. Qed.
End keys.
End services.
