(* ===== verification/Integrity.v ===== *)
(** * Integrity: what every action of the PostgreSQL repositories guarantees

    [PostgresRepositories] discharges the interface [RepositoriesSteps] of file
    Guarantees for the relation [evolves] (integrity and history of the tables)
    and, tenant by tenant, for [isolates]. *)

From Stdlib Require Import ZArith Lia Ascii String.
From stdpp Require Import base list sorting strings numbers gmap.
From S2P Require Import Prelude Bytes Errors Model Repository World Schema Postgres SchemaFacts.
From S2P Require Import StatementFacts Guarantees TenantService IdentityService KeyService.
Open Scope Z_scope.

(** A relation on the tables that every writing statement stays in, with the
    parameters the repositories pass (an empty [attributes_iv], for one). *)
Class Statements (env : Env) (G : DB -> DB -> Prop) (scope : string -> Prop) : Prop := {
  st_IdentityInsert tenant typ dn h st attrs cb n db db' r : scope tenant ->
    sqlIdentityInsert env tenant typ dn h st attrs (Some []) cb n db = inr (db', r) -> G db db';
  st_IdentityUpdate tenant id dn attrs v n db db' r : scope tenant ->
    sqlIdentityUpdate env tenant id dn attrs (Some []) v n db = inr (db', r) -> G db db';
  st_IdentityUpdateStatus tenant id s n db db' r : scope tenant ->
    sqlIdentityUpdateStatus env tenant id s n db = inr (db', r) -> G db db';
  st_IdentitySetPrimaryKey tenant id k n db db' r : scope tenant ->
    sqlIdentitySetPrimaryKey env tenant id k n db = inr (db', r) -> G db db';
  st_KeyInsert k n db db' r : scope (k_TenantID k) ->
    sqlKeyInsert env k n db = inr (db', r) -> G db db';
  st_KeyRotate tenant id new n db db' r : scope tenant ->
    sqlKeyRotate env tenant id new n db = inr (db', r) -> G db db';
  st_KeyRevoke tenant id n db db' r : scope tenant ->
    sqlKeyRevoke env tenant id n db = inr (db', r) -> G db db';
  st_KeyMarkCompromised tenant id n db db' r : scope tenant ->
    sqlKeyMarkCompromised env tenant id n db = inr (db', r) -> G db db';
  st_set_sign_count v tenant id n db db' r : scope tenant ->
    update_credential env (set_sign_count v) tenant id n db = inr (db', r) -> G db db';
  st_set_last_used v tenant id n db db' r : scope tenant ->
    update_credential env (set_last_used v) tenant id n db = inr (db', r) -> G db db';
  st_set_revoked tenant id n db db' r : scope tenant ->
    update_credential env set_revoked tenant id n db = inr (db', r) -> G db db';
  st_AuditInsert a n db db' r : scope (a_TenantID a) ->
    sqlAuditInsert env a n db = inr (db', r) -> G db db';
  (* a row found for a tenant in scope has a tenant in scope *)
  st_found db tenant id n r : scope tenant ->
    sqlIdentityGetByID env tenant id n db = inr (db, Some r) -> scope (ir_tenant_id r) }.

Class CredentialStatements (env : Env) (G : DB -> DB -> Prop) (scope : string -> Prop) : Prop := {
  st_CredentialInsert c n db db' r : scope (c_TenantID c) ->
    sqlCredentialInsert env c n db = inr (db', r) -> G db db' }.

(** A statement that only reads. *)
Definition reads {R} (f : nat -> DB -> error + (DB * R)) : Prop :=
  forall n db db' r, f n db = inr (db', r) -> db' = db.
Ltac head_of t := lazymatch t with ?f _ => head_of f | _ => t end.
Ltac read_inv H :=
  lazymatch type of H with ?t = _ => let h := head_of t in try unfold h in H end;
  stmt_inv H; stmt_checks; reflexivity.
Ltac reads_tac :=
  intros n db db' r H; read_inv H.

Section repositories.
Context {X : Type} (env : Env) (json : Codec).
Context (G : DB -> DB -> Prop) `{!PreOrder G}.

Lemma reads_steps {R} (f : nat -> DB -> error + (DB * R)) :
  reads f -> steps_in (db_steps G) (pg_command (X:=X) env f).
Proof. intros Hf. apply pg_command_steps; [apply _|]. intros n db db' r H. by rewrite (Hf _ _ _ _ H). Qed.

Lemma QueryRow_steps {R A} (f : nat -> DB -> error + (DB * option R)) (scan : R -> A) :
  steps_in (db_steps G) (pg_command (X:=X) env f) ->
  steps_in (db_steps G) (QueryRow (X:=X) env f scan).
Proof. intros Hf. unfold QueryRow. steps_walk. Qed.

Lemma withTenantConn_steps {A} tenantID (fn : Conn -> M (World X) A) :
  (forall c, steps_in (db_steps G) (fn c)) ->
  steps_in (db_steps G) (withTenantConn env tenantID fn).
Proof.
  intros Hf. unfold withTenantConn, command.
  repeat (apply steps_in_bind; [apply steps_in_mapErr, reads_steps; reads_tac|intros _]). apply Hf.
Qed.

Lemma transaction_steps {A} (m : M (World X) A) :
  steps_in (db_steps G) m -> steps_in (db_steps G) (transaction env m).
Proof.
  intros Hm. apply steps_in_actO. intros w.
  pose proof (steps_in_exec (db_steps G) m w Hm) as HG.
  destruct (exec m w) as [w' [a|e|s]]; [|apply db_steps_same; [apply _|done|apply HG|apply HG]..].
  rewrite exec_bind, exec_mapErr. unfold commit. rewrite exec_actO. destruct HG as (HG & Hx & Ht).
  unfold answer. repeat case_match; simpl in *; simplify_eq/=;
    (split; [first [reflexivity|done]|]; split; [done|unfold bump, set_db; simpl; lia]).
Qed.

Lemma withTenantTx_steps {A} tenantID (fn : Conn -> M (World X) A) :
  (forall c, steps_in (db_steps G) (fn c)) ->
  steps_in (db_steps G) (withTenantTx env tenantID fn).
Proof.
  intros Hf. unfold withTenantTx, command.
  apply steps_in_bind; [apply steps_in_mapErr, reads_steps; reads_tac|intros _].
  apply transaction_steps.
  repeat (apply steps_in_bind; [apply steps_in_mapErr, reads_steps; reads_tac|intros _]).
  apply Hf.
Qed.

Lemma insert_event_steps a :
  (forall a' n db db' r, a_TenantID a' = a_TenantID a ->
     sqlAuditInsert env a' n db = inr (db', r) -> G db db') ->
  steps_in (db_steps G) (insert_event (X:=X) env a).
Proof.
  intros Ha. unfold insert_event.
  eapply steps_in_bind_post with (Q := fun a' => a_TenantID a' = a_TenantID a).
  - destruct (IsZero _); [|by intros ? [= <-]].
    apply guar_then; try by intros ? ? [=].
    + apply (time_Now_steps env G).
    + by intros now ? [= <-].
  - intros a' Ha'. simpl in Ha'. apply steps_in_bind; [|intros; apply steps_in_ret].
    apply pg_command_steps; [apply _|]. intros n db db' r. apply Ha. by case_match.
Qed.

#[local] Hint Resolve reads_steps QueryRow_steps withTenantConn_steps withTenantTx_steps : steps.

Ltac repo_walk :=
  repeat first
    [ apply withTenantConn_steps; intros ?
    | apply withTenantTx_steps; intros ?
    | apply QueryRow_steps
    | apply insert_event_steps; intros; simpl in *
    | apply pg_command_steps; [apply _|intros ? ? ? ? ?]
    | apply steps_in_bind; [|intros ?]
    | apply steps_in_mapErr
    | apply steps_in_ret
    | apply (time_Now_steps env G)
    | case_match ].
Ltac repo_read := repo_walk; match goal with H : _ = inr _ |- _ => read_inv H end.

Ltac in_scope :=
  first [ eassumption
        | match goal with H : a_TenantID ?x = _ |- _ (a_TenantID ?x) => rewrite H; eassumption end ].

Section scoped.
Context (scope : string -> Prop) `{!Statements env G scope}.

Lemma IdentityRepo_Create_steps i : scope (i_TenantID i) ->
  steps_in (db_steps G) (IdentityRepo_Create (X:=X) env json i).
Proof.
  intros Hs. unfold IdentityRepo_Create, Returning, insertTx. repo_walk.
  all: first [ eapply st_IdentityInsert; [|eassumption] | eapply st_AuditInsert; [|eassumption] ].
  all: in_scope.
Qed.

Ltac write lemma := repo_walk; (eapply lemma; [|eassumption]); in_scope.

Lemma IdentityRepo_GetByID_scope t id : scope t ->
  guar (db_steps G) (on_ok (fun i => scope (i_TenantID i))) (IdentityRepo_GetByID (X:=X) env t id).
Proof.
  intros Hs. unfold IdentityRepo_GetByID, withTenantConn, command.
  do 2 (apply guar_then;
    [apply steps_in_mapErr, reads_steps; reads_tac|intros _|by intros ? ? [=]..]).
  apply guar_mapErr. unfold QueryRow.
  eapply guar_bind with (Q := fun o => forall r, o = Some r -> scope (ir_tenant_id r));
    try by intros ? ? [=].
  - apply guar_actO. intros w.
    destruct (pg_fault _ _); [by split; [apply db_steps_same; simpl; (done || auto with arith || apply _)|intros ? [=]]|].
    destruct (sqlIdentityGetByID _ _ _ _ _) as [e|[db1 o1]] eqn:Hr;
      [by split; [apply db_steps_same; simpl; (done || auto with arith || apply _)|intros ? [=]]|].
    assert (reads (sqlIdentityGetByID env t id)) as Hrd by reads_tac.
    pose proof (Hrd _ _ _ _ Hr) as ->.
    split; [apply db_steps_same; simpl; (done || auto with arith || apply _)|]. intros o Ho r' ->.
    unfold answer in Ho. case_match; [done|]. injection Ho as ->. by eapply st_found.
  - intros [r|] Ho; [|by intros ? [=]]. intros i [= <-]. simpl. by apply Ho.
Qed.

#[export] Instance postgres_credential_writes `{!CredentialStatements env G scope} :
  CredentialWrites (db_steps G) scope (PostgresRepositories (X:=X) env json).
Proof.
  split; simpl; intros c Hs. unfold CredentialRepo_Create, Returning. apply steps_in_mapErr.
  apply steps_in_bind; [|by intros []]. write st_CredentialInsert.
Qed.

#[export] Instance postgres_steps :
  RepositoriesSteps (db_steps G) scope (PostgresRepositories (X:=X) env json).
Proof.
  split; simpl; intros.
  - unfold TenantRepo_GetByID. repo_read.
  - unfold TenantRepo_GetBySlug. repo_read.
  - unfold TenantRepo_List, Returning. repo_read.
  - by apply IdentityRepo_Create_steps.
  - unfold IdentityRepo_GetByID. repo_read.
  - by apply IdentityRepo_GetByID_scope.
  - unfold IdentityRepo_GetByHandle. repo_read.
  - unfold IdentityRepo_Update. write st_IdentityUpdate.
  - unfold IdentityRepo_UpdateStatus, Exec. write st_IdentityUpdateStatus.
  - unfold IdentityRepo_SetPrimaryKey, Exec. write st_IdentitySetPrimaryKey.
  - unfold IdentityRepo_List, Returning. repo_read.
  - unfold KeyRepo_Create, Returning. write st_KeyInsert.
  - unfold KeyRepo_GetByID, getKey. repo_read.
  - unfold KeyRepo_ListByIdentity, Returning. repo_read.
  - unfold KeyRepo_Rotate, Exec. write st_KeyRotate.
  - unfold KeyRepo_Revoke, Exec. write st_KeyRevoke.
  - unfold KeyRepo_MarkCompromised, Exec. write st_KeyMarkCompromised.
  - unfold CredentialRepo_GetByID. repo_read.
  - unfold CredentialRepo_GetWebAuthnByCredentialID. repo_read.
  - unfold CredentialRepo_ListByIdentity, Returning. repo_read.
  - unfold CredentialRepo_UpdateSignCount, Exec. write st_set_sign_count.
  - unfold CredentialRepo_UpdateLastUsed, Exec. write st_set_last_used.
  - unfold CredentialRepo_Revoke, Exec. write st_set_revoked.
  - unfold AuditRepo_Insert, insertConn. write st_AuditInsert.
Qed.
End scoped.
End repositories.

(** ** The two relations *)

Section instances.
Context (env : Env).

#[export] Instance evolves_statements : Statements env (evolves env) (fun _ => True).
Proof.
  split; intros; try done.
  - by eapply sqlIdentityInsert_evolves.
  - by eapply sqlIdentityUpdate_evolves.
  - by eapply sqlIdentityUpdateStatus_evolves.
  - by eapply sqlIdentitySetPrimaryKey_evolves.
  - by eapply sqlKeyInsert_evolves.
  - by eapply sqlKeyRotate_evolves.
  - apply (sqlKeySetStatus_evolves env "revoked" tenant id n db db' r); [set_solver|done|done].
  - apply (sqlKeySetStatus_evolves env "compromised" tenant id n db db' r); [set_solver|done|done].
  - eapply update_credential_evolves; [|eassumption]. intros c. split; [split|]; auto.
  - eapply update_credential_evolves; [|eassumption]. intros c. split; [split|]; auto.
  - eapply update_credential_evolves; [|eassumption]. intros c. split; [split|]; auto.
  - by eapply sqlAuditInsert_evolves.
Qed.

#[export] Instance evolves_credential_statements : CredentialStatements env (evolves env) (fun _ => True).
Proof. split; intros. by eapply sqlCredentialInsert_evolves. Qed.

#[export] Instance isolates_statements `{!EnvOk env} T :
  Statements env (isolates T) (fun t => reads_as env t T).
Proof.
  split; intros.
  - by eapply sqlIdentityInsert_isolates.
  - by eapply sqlIdentityUpdate_isolates.
  - by eapply sqlIdentityUpdateStatus_isolates.
  - by eapply sqlIdentitySetPrimaryKey_isolates.
  - by eapply sqlKeyInsert_isolates.
  - by eapply sqlKeyRotate_isolates.
  - by apply (sqlKeySetStatus_isolates env T "revoked" tenant id n db db' r).
  - by apply (sqlKeySetStatus_isolates env T "compromised" tenant id n db db' r).
  - eapply update_credential_isolates; [eassumption| |eassumption]. done.
  - eapply update_credential_isolates; [eassumption| |eassumption]. done.
  - eapply update_credential_isolates; [eassumption| |eassumption]. done.
  - by eapply sqlAuditInsert_isolates.
  - rename select (reads_as _ _ _) into Ht. rename select (_ = inr _) into H.
    unfold sqlIdentityGetByID in H. stmt_inv H. stmt_checks.
    rename select (find_identity _ _ _ = _) into Hf. apply find_identity_Some in Hf as [_ ->].
    rename select (uuid_in env tenant = _) into Hu.
    intros T' HT'. apply Ht. rewrite Hu, <- HT'. symmetry. by eapply uuid_in_idem.
Qed.

#[export] Instance isolates_credential_statements T :
  CredentialStatements env (isolates T) (fun t => reads_as env t T).
Proof. split; intros. by eapply sqlCredentialInsert_isolates. Qed.

(** The statements on tenants. *)
Class TenantStatements (G : DB -> DB -> Prop) : Prop := {
  st_TenantInsert name slug tier status settings region n db db' r :
    sqlTenantInsert env name slug tier status settings region n db = inr (db', r) -> G db db';
  st_TenantUpdate id name tier settings region n db db' r :
    sqlTenantUpdate env id name tier settings region n db = inr (db', r) -> G db db';
  st_TenantUpdateStatus id status n db db' r :
    sqlTenantUpdateStatus env id status n db = inr (db', r) -> G db db' }.

#[export] Instance postgres_tenant_writes {X} (json : Codec) G
    `{!PreOrder G, !Statements env G (fun _ => True), !TenantStatements G} :
  TenantWrites (db_steps G) (PostgresRepositories (X:=X) env json).
Proof.
  split; simpl; intros.
  - unfold TenantRepo_Create, Returning. apply steps_in_mapErr, steps_in_bind; [|done].
    apply pg_command_steps; [apply _|]. intros ????. apply st_TenantInsert.
  - unfold TenantRepo_Update. apply steps_in_mapErr, QueryRow_steps.
    apply pg_command_steps; [apply _|]. intros ????. apply st_TenantUpdate.
  - unfold TenantRepo_UpdateStatus, Exec. apply steps_in_mapErr.
    apply pg_command_steps; [apply _|]. intros ????. apply st_TenantUpdateStatus.
  - exact (rs_Audit_Insert (repos := PostgresRepositories env json)
             (scope := fun _ => True) a I).
Qed.

#[export] Instance evolves_tenant_statements : TenantStatements (evolves env).
Proof.
  split; intros.
  - by eapply sqlTenantInsert_evolves.
  - by eapply sqlTenantUpdate_evolves.
  - by eapply sqlTenantUpdateStatus_evolves.
Qed.

(** The column [attributes_iv] is empty in every row. *)
Definition no_ivs (db : DB) : Prop :=
  map_Forall (fun _ r => ir_attributes_iv r = []) (db_identities db).
Record keeps_no_ivs (db db' : DB) : Prop := { kept_no_ivs : no_ivs db -> no_ivs db' }.

#[export] Instance keeps_no_ivs_preorder : PreOrder keeps_no_ivs.
Proof. split; [by intros db|]. intros x y z [] []. split. auto. Qed.

Lemma no_ivs_put db id r :
  ir_attributes_iv r = [] -> no_ivs db -> no_ivs (set_identities (<[id := r]> (db_identities db)) db).
Proof. intros Hr Hdb. by apply map_Forall_insert_2. Qed.

Ltac no_ivs_tac :=
  match goal with H : ?t = inr _ |- keeps_no_ivs _ _ =>
    let h := head_of t in try unfold h in H;
    try (match type of H with ?t' = _ => let h' := head_of t' in try unfold h' in H end);
    stmt_inv H; repeat (case_match; stmt_inv H); stmt_checks; simplify_eq;
    split; let Hdb := fresh in intro Hdb;
    first [ exact Hdb
          | apply no_ivs_put; [|exact Hdb]; simpl;
            first [ reflexivity
                  | match goal with Hr : find_identity _ _ _ = Some _ |- _ =>
                      apply find_identity_Some in Hr as [Hr _];
                      exact (map_Forall_lookup_1 _ _ _ _ Hdb Hr) end ] ]
  end.

#[export] Instance no_ivs_statements : Statements env keeps_no_ivs (fun _ => True).
Proof. split; intros; try done; no_ivs_tac. Qed.
#[export] Instance no_ivs_tenant_statements : TenantStatements keeps_no_ivs.
Proof. split; intros; no_ivs_tac. Qed.
End instances.
