(* ===== verification/Runs.v ===== *)
(** * Runs: the repositories as functions of the tables

    Run alone, with the database answering, each repository operation is a
    function from the tables to its result and the new tables.  [ticks n w] is
    [w] after [n] readings of the environment. *)

From Stdlib Require Import ZArith Lia Ascii String.
From stdpp Require Import base list sorting strings numbers gmap.
From S2P Require Import Prelude Bytes Errors Model Repository World Schema Postgres SchemaFacts.
From S2P Require Import StatementFacts Guarantees Integrity.
Open Scope Z_scope.

Definition ticks {X} (n : nat) (w : World X) : World X :=
  mkWorld (w_db w) (w_keys w) (n + w_tick w)%nat (w_ext w).

Lemma bump_ticks {X} (w : World X) : bump w = ticks 1 w.
Proof. done. Qed.
Lemma ticks_0 {X} (w : World X) : ticks 0 w = w.
Proof. by destruct w. Qed.
Lemma ticks_ticks {X} m n (w : World X) : ticks m (ticks n w) = ticks (m + n)%nat w.
Proof. unfold ticks. simpl. f_equal. lia. Qed.
Lemma ticks_set_db {X} n db (w : World X) : set_db db (ticks n w) = ticks n (set_db db w).
Proof. done. Qed.
Lemma set_db_set_db {X} db db' (w : World X) : set_db db (set_db db' w) = set_db db w.
Proof. done. Qed.
Lemma set_db_same {X} (w : World X) : set_db (w_db w) w = w.
Proof. by destruct w. Qed.
Lemma w_db_ticks {X} n (w : World X) : w_db (ticks n w) = w_db w.
Proof. done. Qed.
Lemma w_tick_ticks {X} n (w : World X) : w_tick (ticks n w) = (n + w_tick w)%nat.
Proof. done. Qed.
Lemma w_db_set_db {X} db (w : World X) : w_db (set_db db w) = db.
Proof. done. Qed.
Lemma w_tick_set_db {X} db (w : World X) : w_tick (set_db db w) = w_tick w.
Proof. done. Qed.
Lemma ticks_set_keys {X} n ks (w : World X) : set_keys ks (ticks n w) = ticks n (set_keys ks w).
Proof. done. Qed.
Lemma set_db_set_keys {X} db ks (w : World X) : set_db db (set_keys ks w) = set_keys ks (set_db db w).
Proof. done. Qed.
Lemma w_db_set_keys {X} ks (w : World X) : w_db (set_keys ks w) = w_db w.
Proof. done. Qed.
Lemma w_tick_set_keys {X} ks (w : World X) : w_tick (set_keys ks w) = w_tick w.
Proof. done. Qed.
Lemma w_keys_ticks {X} n (w : World X) : w_keys (ticks n w) = w_keys w.
Proof. done. Qed.
Lemma w_keys_set_db {X} db (w : World X) : w_keys (set_db db w) = w_keys w.
Proof. done. Qed.
Create Rewrite HintDb world.
#[export] Hint Rewrite @ticks_ticks @ticks_set_db @set_db_set_db @w_db_ticks @w_tick_ticks
  @w_db_set_db @w_tick_set_db @ticks_set_keys @set_db_set_keys @w_db_set_keys
  @w_tick_set_keys @w_keys_ticks @w_keys_set_db : world.
(** Read a component of a world, or bring it to the form
    [ticks n (set_keys ks (set_db db w))]. *)
Ltac world_simpl := repeat (progress (autorewrite with world; simpl (_ + _)%nat)).
#[global] Opaque ticks.

(** The database and the random source answer every request. *)
Class Reliable (env : Env) : Prop := {
  no_fault : forall n, pg_fault env n = None;
  no_loss : forall n, pg_lost env n = None;
  no_entropy_fault : forall n k, is_Some (entropy env n k) }.

(** Identifiers not drawn yet are not in use. *)
Definition unused (env : Env) (n : nat) (db : DB) : Prop :=
  forall m, (n <= m)%nat ->
    db_tenants db !! pg_uuid env m = None /\ db_identities db !! pg_uuid env m = None /\
    db_keys db !! pg_uuid env m = None /\ db_credentials db !! pg_uuid env m = None /\
    pg_uuid env m ∉ a_ID <$> db_audit db.

(** ** Whatever fails

    A command that fails does so with or without its effect; one that changes
    nothing leaves the tables as they are in any case. *)
Section any_failure.
Context {X : Type} (env : Env).
Implicit Types w : World X.

Lemma pg_command_cases {R} (f : nat -> DB -> error + (DB * R)) w :
  exists w', (exec (pg_command env f) w = (w', match f (w_tick w) (w_db w) with
                                               | inl e => Err e
                                               | inr (_, r) => Ok r
                                               end) \/
              exists e, exec (pg_command env f) w = (w', Err e)) /\
    (w_db w' = w_db w \/ exists r, f (w_tick w) (w_db w) = inr (w_db w', r)).
Proof.
  unfold pg_command, answer. rewrite exec_actO. destruct (pg_fault _ _) as [t|]; [eauto 6|].
  destruct (f _ _) as [e|[db r]]; [eauto 6|]. destruct (pg_lost _ _); eauto 7.
Qed.

Lemma pg_command_reads {R} (f : nat -> DB -> error + (DB * R)) w :
  reads f -> exists w', w_db w' = w_db w /\
    ((exists e, exec (pg_command env f) w = (w', Err e)) \/
     exists r, f (w_tick w) (w_db w) = inr (w_db w, r) /\ exec (pg_command env f) w = (w', Ok r)).
Proof.
  intros Hf. destruct (pg_command_cases f w) as (w' & He & Hdb). exists w'. split.
  - destruct Hdb as [?|[r Hr]]; [done|]. by apply Hf in Hr.
  - destruct He as [He|[e He]]; [|eauto]. destruct (f _ _) as [e|[db r]] eqn:Hr; [eauto|].
    apply Hf in Hr as Hdb'. subst db. eauto.
Qed.

Lemma command_leaves_tables (g : error -> error) w :
  exists w2, w_db w2 = w_db w /\
    ((exists e, exec (mapErr g (command env)) w = (w2, Err e)) \/
     exec (mapErr g (command env)) w = (w2, Ok tt)).
Proof.
  unfold command. rewrite exec_mapErr.
  destruct (pg_command_reads (fun _ db => inr (db, tt)) w) as (w2 & Hdb & [[e ->]|([] & _ & ->)]);
    [by intros ???? [= <-]|exists w2; split; eauto..].
Qed.

(** Acquiring a connection leaves the tables as they are, and fails or runs the
    callback. *)
Lemma conn_runs {A} tenant (fn : Conn -> M (World X) A) w :
  exists w2, w_db w2 = w_db w /\
    ((exists e, exec (withTenantConn env tenant fn) w = (w2, Err e)) \/
     exec (withTenantConn env tenant fn) w = exec (fn (set_config tenant true acquired)) w2).
Proof.
  unfold withTenantConn. rewrite exec_bind.
  destruct (command_leaves_tables (EWrap "postgres: acquire connection") w) as (w1 & H1 & [[e ->]| ->]);
    [exists w1; eauto|].
  rewrite exec_bind.
  destruct (command_leaves_tables (EWrap "postgres: set tenant context") w1) as (w2 & H2 & [[e ->]| ->]);
    exists w2; (split; [congruence|]); eauto.
Qed.

Lemma sqlIdentityGetByID_reads t id : reads (sqlIdentityGetByID env t id).
Proof. reads_tac. Qed.
Lemma sqlKeyGetByID_reads t id : reads (sqlKeyGetByID env t id).
Proof. reads_tac. Qed.

(** Reading a row on a connection. *)
Lemma conn_reads {R A} tenant g (f : nat -> DB -> error + (DB * option R)) (scan : R -> A) w :
  reads f -> exists w2, w_db w2 = w_db w /\
    ((exists e, exec (withTenantConn env tenant (fun _ => mapErr g (QueryRow env f scan))) w = (w2, Err e)) \/
     exists n r, f n (w_db w) = inr (w_db w, Some r) /\
       exec (withTenantConn env tenant (fun _ => mapErr g (QueryRow env f scan))) w = (w2, Ok (scan r))).
Proof.
  intros Hf. destruct (conn_runs tenant (fun _ => mapErr g (QueryRow env f scan)) w) as (w1 & H1 & [[e ->]| ->]);
    [eauto|].
  unfold QueryRow. rewrite exec_mapErr, exec_bind.
  destruct (pg_command_reads f w1 Hf) as (w2 & H2 & [[e ->]|([r|] & Hr & ->)]);
    exists w2; (split; [congruence|]); [eauto| |eauto].
  right. rewrite H1 in Hr. eexists _, r. split; [exact Hr|done].
Qed.
End any_failure.

Section runs.
Context {X : Type} (env : Env) (json : Codec) `{!Reliable env}.
Implicit Types w : World X.

Lemma exec_pg_command {R} (f : nat -> DB -> error + (DB * R)) w :
  exec (pg_command env f) w =
  match f (w_tick w) (w_db w) with
  | inl e => (ticks 1 w, Err e)
  | inr (db, r) => (ticks 1 (set_db db w), Ok r)
  end.
Proof.
  unfold pg_command, answer. rewrite exec_actO, no_fault, no_loss.
  by destruct (f _ _) as [|[]].
Qed.

Lemma exec_command w : exec (command env) w = (ticks 1 w, Ok tt).
Proof. unfold command. rewrite exec_pg_command. by destruct w. Qed.

Lemma exec_withTenantConn {A} tenantID (fn : Conn -> M (World X) A) w :
  exec (withTenantConn env tenantID fn) w = exec (fn (set_config tenantID true acquired)) (ticks 2 w).
Proof.
  unfold withTenantConn. rewrite exec_bind, exec_mapErr, exec_command.
  by rewrite exec_bind, exec_mapErr, exec_command, ticks_ticks.
Qed.

Lemma exec_withTenantTx {A} tenantID (fn : Conn -> M (World X) A) w :
  exec (withTenantTx env tenantID fn) w =
  let '(w', o) := exec (fn (set_config tenantID true (begin_block acquired))) (ticks 3 w) in
  match o with
  | Ok _ => (ticks 1 w', o)
  | _ => (set_db (w_db w) w', o)
  end.
Proof.
  unfold withTenantTx. rewrite exec_bind, exec_mapErr, exec_command.
  unfold transaction. rewrite exec_actO.
  rewrite exec_bind, exec_mapErr, exec_command, exec_bind, exec_mapErr, exec_command.
  rewrite !ticks_ticks. simpl (_ + _)%nat.
  destruct (exec (fn _) _) as [w' [a|e|s]]; [|by rewrite w_db_ticks..].
  rewrite exec_bind, exec_mapErr. unfold commit, answer. rewrite exec_actO, no_fault, no_loss. done.
Qed.

Lemma exec_QueryRow {R A} (f : nat -> DB -> error + (DB * option R)) (scan : R -> A) w :
  exec (QueryRow env f scan) w =
  match f (w_tick w) (w_db w) with
  | inl e => (ticks 1 w, Err e)
  | inr (db, Some r) => (ticks 1 (set_db db w), Ok (scan r))
  | inr (db, None) => (ticks 1 (set_db db w), Err (ESentinel PgxErrNoRows))
  end.
Proof.
  unfold QueryRow. rewrite exec_bind, exec_pg_command.
  by destruct (f _ _) as [|[? []]].
Qed.

Lemma exec_time_Now w : exec (time_Now env) w = (ticks 1 w, Ok (clock env (w_tick w))).
Proof. done. Qed.

(** ** Operations *)

Lemma exec_IdentityRepo_GetByID t T id I w :
  uuid_in env t = Some T -> uuid_in env id = Some I ->
  exec (IdentityRepo_GetByID env t id) w =
  (ticks 3 w, match find_identity (w_db w) T I with
              | Some r => Ok (scanIdentity r)
              | None => Err (NotFoundError "identity" id)
              end).
Proof.
  intros Ht Hid. unfold IdentityRepo_GetByID.
  rewrite exec_withTenantConn, exec_mapErr, exec_QueryRow.
  unfold sqlIdentityGetByID, uuid_col. rewrite Ht, Hid. simpl.
  rewrite w_db_ticks. destruct (find_identity _ _ _); by destruct w.
Qed.

Lemma exec_TenantRepo_GetByID id I w :
  uuid_in env id = Some I ->
  exec (TenantRepo_GetByID env id) w =
  (ticks 1 w, match db_tenants (w_db w) !! I with
              | Some t => Ok (scanTenant t)
              | None => Err (NotFoundError "tenant" id)
              end).
Proof.
  intros Hid. unfold TenantRepo_GetByID. rewrite exec_mapErr, exec_QueryRow.
  unfold sqlTenantGetByID, uuid_col. rewrite Hid. simpl.
  destruct (db_tenants _ !! _); by destruct w.
Qed.

(** The row after a status change by the command of tick [n]. *)
Definition with_status (status : string) (n : nat) (r : IdentityRow) : IdentityRow :=
  mkIdentityRow (ir_id r) (ir_tenant_id r) (ir_type r) (ir_display_name r)
    (ir_handle r) status (ir_primary_key_id r) (ir_attributes r)
    (ir_attributes_iv r) (ir_created_by r) (ir_version r) (ir_created_at r)
    (pg_now env n)
    (if bool_decide (status ∈ ["deactivated"; "archived"]%string)
     then Some (pg_now env n) else ir_deactivated_at r).

Definition put_identity (r : IdentityRow) (db : DB) : DB :=
  set_identities (<[ir_id r := r]> (db_identities db)) db.

Lemma exec_IdentityRepo_UpdateStatus t T id I s r w :
  uuid_in env t = Some T -> uuid_in env id = Some I -> s ∈ identity_status ->
  find_identity (w_db w) T I = Some r -> ir_id r = I ->
  exec (IdentityRepo_UpdateStatus env t id s) w =
  (ticks 3 (set_db (put_identity (with_status s (2 + w_tick w) r) (w_db w)) w), Ok tt).
Proof.
  intros Ht Hid Hs Hr Hri. unfold IdentityRepo_UpdateStatus, Exec.
  rewrite exec_withTenantConn, exec_pg_command.
  unfold sqlIdentityUpdateStatus, uuid_col, enum_in. rewrite Ht, Hid. simpl.
  rewrite (bool_decide_eq_true_2 (s ∈ _)) by done. simpl. rewrite w_db_ticks, Hr, w_tick_ticks.
  unfold put_identity, with_status. simpl. rewrite Hri.
  by rewrite ticks_set_db, ticks_ticks.
Qed.

(** The row of an audit event inserted by the command of tick [n]: an event
    without a time gets the reading of the clock one tick earlier. *)
Definition audit_row (T entity : string) (actor : option string) (a : AuditEvent) (n : nat)
    (metadata : bytes) : AuditEvent :=
  mkAuditEvent (pg_uuid env n) T (a_EventType a) (a_EntityType a) entity actor (a_ActorType a)
    None None None None None None (Some metadata) (a_Success a) None
    (timestamptz_in env (clock env (n - 1))).

(** The events the services write set only their names, actor and success. *)
Lemma exec_AuditRepo_Insert t T etype entity_type id I actor actor' success metadata w :
  uuid_in env t = Some T -> uuid_in env id = Some I ->
  uuid_opt env actor = inr actor' ->
  jsonb_in env (s2b "{}") = Some metadata ->
  pg_uuid env (3 + w_tick w) ∉ a_ID <$> db_audit (w_db w) -> known (db_tenants (w_db w)) T ->
  let a := auditEvent t etype entity_type id actor success in
  exec (AuditRepo_Insert env a) w =
  (ticks 4 (set_db (add_audit (audit_row T I actor' a (3 + w_tick w) metadata) (w_db w)) w), Ok tt).
Proof.
  intros Ht Hid Hactor Hjson Hfresh Hknown a. unfold AuditRepo_Insert, insertConn, insert_event.
  rewrite exec_withTenantConn.
  change (IsZero (a_OccurredAt a)) with true. cbv iota.
  rewrite exec_bind, exec_bind, exec_time_Now, exec_ret, exec_bind.
  unfold Returning. rewrite exec_pg_command. unfold sqlAuditInsert, uuid_col. simpl.
  rewrite Ht, Hid. simpl. rewrite Hactor. simpl. rewrite Hjson. simpl.
  rewrite !ticks_ticks, w_db_ticks, w_tick_ticks. simpl (1 + 2 + _)%nat.
  unfold unique, references.
  rewrite !bool_decide_eq_true_2 by done. simpl.
  by rewrite ticks_set_db, ticks_ticks, w_tick_ticks.
Qed.
End runs.

(** ** Inserting an identity, a key, and choosing a primary key *)

Section inserts.
Context {X : Type} (env : Env) (json : Codec).
Context `{!Reliable env, !EnvOk env, !CodecOk env json}.
Implicit Types w : World X.

Definition jsonb (b : bytes) : bytes := default [] (jsonb_in env b).
Lemma jsonb_in_marshalled l :
  Forall (fun kv => no_nul kv.1 = true /\ no_nul kv.2 = true) l ->
  jsonb_in env (marshal_strings json l) = Some (jsonb (marshal_strings json l)).
Proof. intros Hl. unfold jsonb. by destruct (jsonb_marshalled l Hl) as [? ->]. Qed.
Lemma jsonb_in_empty : jsonb_in env (s2b "{}") = Some (jsonb (s2b "{}")).
Proof. unfold jsonb. by destruct (jsonb_empty (env:=env) (json:=json)) as [? ->]. Qed.

(** The row inserted for a new identity by the command of tick [n]. *)
Definition identity_row (T : string) (i : Identity) (attrs : bytes) (created_by : option string)
    (n : nat) : IdentityRow :=
  mkIdentityRow (pg_uuid env n) T (i_Type i) (i_DisplayName i) (i_Handle i) (i_Status i) None
    attrs [] created_by 1 (pg_now env n) (pg_now env n) None.

(** The labels of the enums have no NUL. *)
Lemma label_text (s : string) l : forallb no_nul l = true -> s ∈ l -> no_nul s = true.
Proof. intros Hl Hs. rewrite forallb_forall in Hl. by apply Hl, list_elem_of_In. Qed.
Lemma pg_uuid_text n : no_nul (pg_uuid env n) = true.
Proof. eapply uuid_in_text, pg_uuid_in. Qed.

(** The audit event written with it, by the command of tick [n]. *)
Definition created_json (r : IdentityRow) : bytes :=
  marshal_strings json
    [("id", ir_id r); ("type", ir_type r); ("display_name", ir_display_name r);
     ("handle", ir_handle r); ("status", ir_status r)]%string.
Lemma created_json_text T i attrs cb n :
  i_Type i ∈ identity_type -> i_Status i ∈ identity_status ->
  no_nul (i_DisplayName i) = true -> no_nul (i_Handle i) = true ->
  let r := identity_row T i attrs cb n in
  Forall (fun kv => no_nul kv.1 = true /\ no_nul kv.2 = true)
    [("id", ir_id r); ("type", ir_type r); ("display_name", ir_display_name r);
     ("handle", ir_handle r); ("status", ir_status r)]%string.
Proof.
  intros Hty Hst Hd Hh r. repeat (apply list.Forall_cons; split); simpl; [split..|done]; try done.
  - apply pg_uuid_text.
  - by eapply label_text, Hty.
  - by eapply label_text, Hst.
Qed.
Definition created_event (T : string) (r : IdentityRow) (n : nat) : AuditEvent :=
  mkAuditEvent (pg_uuid env n) T AuditEventIdentityCreated "identity" (ir_id r)
    (ir_created_by r) None None None None None None (Some (jsonb (created_json r)))
    (Some (jsonb (s2b "{}"))) true None (timestamptz_in env (clock env (n - 1))).

Lemma uuid_opt_idem o o' : uuid_opt env o = inr o' -> uuid_opt env o' = inr o'.
Proof.
  destruct o as [s|]; simpl; [|by intros [= <-]]. unfold uuid_col.
  destruct (uuid_in env s) as [u|] eqn:Hu; simpl; [|done]. intros [= <-]. simpl.
  unfold uuid_col. by rewrite (uuid_in_idem _ _ Hu).
Qed.

Lemma exec_insertTx c a w u :
  uuid_in env (a_TenantID a) = Some u -> known (db_tenants (w_db w)) u ->
  IsZero (a_OccurredAt a) = false -> a_Metadata a = Some (s2b "{}") ->
  a_SessionID a = None -> a_BeforeState a = None ->
  forall e actor' after, uuid_in env (a_EntityID a) = Some e ->
  uuid_opt env (a_ActorID a) = inr actor' -> jsonb_opt env (a_AfterState a) = inr after ->
  pg_uuid env (w_tick w) ∉ a_ID <$> db_audit (w_db w) ->
  exec (insertTx env c a) w =
  (ticks 1 (set_db (add_audit (mkAuditEvent (pg_uuid env (w_tick w)) u (a_EventType a)
     (a_EntityType a) e actor' (a_ActorType a) (a_IPAddress a) (a_UserAgent a) None
     (a_RequestID a) None after (Some (jsonb (s2b "{}"))) (a_Success a) (a_ErrorCode a)
     (timestamptz_in env (a_OccurredAt a))) (w_db w)) w), Ok tt).
Proof.
  intros Hu Hk Hz Hm Hs Hb e actor' after He Ha Haf Hf. unfold insertTx, insert_event.
  rewrite Hz, exec_bind, exec_ret, Hm, exec_bind. unfold Returning. rewrite (exec_pg_command env).
  unfold sqlAuditInsert, uuid_col. rewrite Hu, He. simpl. rewrite Ha. simpl.
  rewrite Hs, Hb. simpl. rewrite Haf. simpl. rewrite Hm. simpl. rewrite jsonb_in_empty. simpl.
  unfold unique, references. by rewrite !bool_decide_eq_true_2 by done.
Qed.

Lemma exec_IdentityRepo_Create T i cb w :
  db_ok env (w_db w) -> unused env (w_tick w) (w_db w) ->
  uuid_in env (i_TenantID i) = Some T -> known (db_tenants (w_db w)) T ->
  i_Type i ∈ identity_type -> i_Status i ∈ identity_status ->
  no_nul (i_DisplayName i) = true -> no_nul (i_Handle i) = true ->
  uuid_opt env (i_CreatedBy i) = inr cb -> known_opt (db_identities (w_db w)) cb ->
  handle_free env T (i_Handle i) (db_identities (w_db w)) ->
  let r := identity_row T i (slice_bytes (i_Attributes i)) cb (3 + w_tick w) in
  exec (IdentityRepo_Create env json i) w =
  (ticks 7 (set_db (add_audit (created_event T r (5 + w_tick w))
              (put_identity r (w_db w))) w), Ok (scanIdentity r)).
Proof.
  intros Hok Hfree HT Hknown Hty Hst Hdn Hhn Hcb Hcbk Hh r. unfold IdentityRepo_Create.
  rewrite (exec_withTenantTx env), exec_bind, exec_mapErr, exec_bind.
  unfold Returning. rewrite (exec_pg_command env).
  unfold sqlIdentityInsert, uuid_col, enum_in. rewrite HT. simpl.
  rewrite !bool_decide_eq_true_2 by done. simpl. rewrite Hcb. simpl.
  rewrite w_db_ticks, w_tick_ticks. simpl (3 + _)%nat.
  destruct (Hfree (S (S (S (w_tick w))))) as (_ & Hi & _ & _ & Ha); [lia|].
  assert (not_null env match i_Attributes i with None => Some [] | a => a end =
          inr (slice_bytes (i_Attributes i))) as -> by by destruct (i_Attributes i).
  simpl. unfold unique, references.
  rewrite (bool_decide_eq_true_2 (_ = None)) by done.
  rewrite (bool_decide_eq_true_2 (handle_free _ _ _ _)) by done.
  rewrite (bool_decide_eq_true_2 (is_Some _)) by done. simpl.
  fold (identity_row T i (slice_bytes (i_Attributes i)) cb (S (S (S (w_tick w))))).
  change (identity_row T i (slice_bytes (i_Attributes i)) cb (S (S (S (w_tick w))))) with r.
  change (pg_uuid env (S (S (S (w_tick w))))) with (ir_id r).
  assert (references_opt env (<[ir_id r := r]> (db_identities (w_db w))) cb = inr tt) as Hr.
  { apply references_opt_inr. eapply known_opt_grows; [apply grows_insert|done]. }
  rewrite Hr. simpl. clear Hr.
  change (set_identities _ (w_db w)) with (put_identity r (w_db w)).
  rewrite exec_bind, bump_ticks, ticks_set_db, !ticks_ticks, w_tick_ticks, w_tick_set_db.
  simpl (_ + _)%nat.
  rewrite (exec_insertTx _ _ _ T) with (e := ir_id r) (actor' := cb)
    (after := Some (jsonb (created_json r))); simpl; try done.
  - apply Z.eqb_neq, clock_set.
  - apply pg_uuid_in.
  - rewrite jsonb_in_marshalled; [done|]. by apply (created_json_text T i (slice_bytes (i_Attributes i)) cb (3 + w_tick w)).
  - rewrite w_tick_ticks, w_db_ticks. simpl. apply Hfree. lia.
Qed.

(** The row inserted for a new key by the command of tick [n]. *)
Definition key_row (T I : string) (k : IdentityKey) (jwk : bytes) (n : nat) : IdentityKey :=
  mkIdentityKey (pg_uuid env n) I T (k_KeyType k) (k_Purpose k) (k_Algorithm k)
    (k_PublicKey k) (Some jwk) (k_KeyRef k) (k_Fingerprint k) (k_Status k)
    (timestamptz_in env (k_ValidFrom k)) (timestamptz_in env <$> k_ValidUntil k) None None
    (pg_now env n).
Definition put_key (k : IdentityKey) (db : DB) : DB :=
  set_keys_table (<[k_ID k := k]> (db_keys db)) db.

Lemma exec_KeyRepo_Create T I k jwk jwk' der w :
  unused env (w_tick w) (w_db w) ->
  uuid_in env (k_TenantID k) = Some T -> known (db_tenants (w_db w)) T ->
  uuid_in env (k_IdentityID k) = Some I -> known (db_identities (w_db w)) I ->
  k_KeyType k ∈ key_type -> k_Purpose k ∈ key_purpose -> k_Status k ∈ key_status ->
  k_PublicKey k = Some der -> k_PublicKeyJWK k = Some jwk -> jsonb_in env jwk = Some jwk' ->
  (k_Status k = "active"%string -> active_purpose_free I (k_Purpose k) (db_keys (w_db w))) ->
  let r := key_row T I k jwk' (2 + w_tick w) in
  exec (KeyRepo_Create env k) w = (ticks 3 (set_db (put_key r (w_db w)) w), Ok r).
Proof.
  intros Hfree HT Hknown HI HIk Hkt Hp Hs Hder Hjwk Hjwk' Hact r. unfold KeyRepo_Create.
  rewrite (exec_withTenantConn env), exec_mapErr, exec_bind. unfold Returning.
  rewrite (exec_pg_command env). unfold sqlKeyInsert, uuid_col, enum_in.
  rewrite HI. simpl. rewrite HT. simpl. rewrite !bool_decide_eq_true_2 by done. simpl.
  rewrite Hjwk. simpl. rewrite Hjwk'. simpl. rewrite Hder. simpl.
  rewrite w_tick_ticks, w_db_ticks. simpl (2 + _)%nat.
  unfold unique, references.
  rewrite (bool_decide_eq_true_2 (_ = None)) by (apply Hfree; lia).
  rewrite !(bool_decide_eq_true_2 (is_Some _)) by done.
  assert (negb (String.eqb (k_Status k) "active") ||
    bool_decide (active_purpose_free I (k_Purpose k) (db_keys (w_db w))) = true) as ->.
  { destruct (String.eqb_spec (k_Status k) "active"); [|done].
    simpl. apply bool_decide_eq_true_2. auto. }
  simpl. unfold r, key_row. rewrite Hder. simpl. by rewrite ticks_set_db, ticks_ticks.
Qed.

(** The row after the primary key is chosen by the command of tick [n]. *)
Definition with_primary_key (key : string) (n : nat) (r : IdentityRow) : IdentityRow :=
  mkIdentityRow (ir_id r) (ir_tenant_id r) (ir_type r) (ir_display_name r) (ir_handle r)
    (ir_status r) (Some key) (ir_attributes r) (ir_attributes_iv r) (ir_created_by r)
    (ir_version r) (ir_created_at r) (pg_now env n) (ir_deactivated_at r).

Lemma exec_IdentityRepo_SetPrimaryKey t T id I k K r w :
  uuid_in env t = Some T -> uuid_in env id = Some I -> uuid_in env k = Some K ->
  find_identity (w_db w) T I = Some r -> ir_id r = I -> known (db_keys (w_db w)) K ->
  exec (IdentityRepo_SetPrimaryKey env t id k) w =
  (ticks 3 (set_db (put_identity (with_primary_key K (2 + w_tick w) r) (w_db w)) w), Ok tt).
Proof.
  intros Ht Hid Hk Hr Hri HK. unfold IdentityRepo_SetPrimaryKey, Exec.
  rewrite (exec_withTenantConn env), (exec_pg_command env).
  unfold sqlIdentitySetPrimaryKey, uuid_col. rewrite Ht, Hid, Hk. simpl.
  rewrite w_db_ticks, Hr, w_tick_ticks. unfold references.
  rewrite (bool_decide_eq_true_2 (is_Some _)) by done. simpl.
  unfold put_identity, with_primary_key. simpl. rewrite Hri.
  by rewrite ticks_set_db, ticks_ticks.
Qed.

(** Identifiers stay unused as rows take the ones drawn before. *)
Lemma unused_put_identity n m db r :
  unused env n db -> (n <= m)%nat -> (forall j, (m <= j)%nat -> pg_uuid env j <> ir_id r) ->
  unused env m (put_identity r db).
Proof.
  intros Hu Hm Hr j Hj. destruct (Hu j) as (?&?&?&?&?); [lia|]. split_and!; try done.
  simpl. rewrite lookup_insert_ne; [done|]. intros He. by destruct (Hr j Hj).
Qed.
Lemma unused_put_key n m db k :
  unused env n db -> (n <= m)%nat -> (forall j, (m <= j)%nat -> pg_uuid env j <> k_ID k) ->
  unused env m (put_key k db).
Proof.
  intros Hu Hm Hr j Hj. destruct (Hu j) as (?&?&?&?&?); [lia|]. split_and!; try done.
  simpl. rewrite lookup_insert_ne; [done|]. intros He. by destruct (Hr j Hj).
Qed.
Lemma unused_add_audit n m db a :
  unused env n db -> (n <= m)%nat -> (forall j, (m <= j)%nat -> pg_uuid env j <> a_ID a) ->
  unused env m (add_audit a db).
Proof.
  intros Hu Hm Hr j Hj. destruct (Hu j) as (?&?&?&?&?); [lia|]. split_and!; try done.
  simpl. rewrite fmap_app. simpl. apply not_elem_of_app. split; [done|].
  intros Hin. apply list_elem_of_singleton in Hin. by destruct (Hr j Hj).
Qed.
Lemma unused_mono n m db : unused env n db -> (n <= m)%nat -> unused env m db.
Proof. intros Hu Hm j Hj. apply Hu. lia. Qed.
Lemma pg_uuid_later m n : (m < n)%nat -> pg_uuid env n <> pg_uuid env m.
Proof. intros Hlt He. apply pg_uuid_inj in He. lia. Qed.
End inserts.

(** ** Keys *)

Section key_runs.
Context {X : Type} (env : Env) `{!Reliable env}.
Implicit Types w : World X.

Lemma exec_KeyRepo_GetByID t T id I w :
  uuid_in env t = Some T -> uuid_in env id = Some I ->
  exec (KeyRepo_GetByID env t id) w =
  (ticks 3 w, match find_key (w_db w) T I with
              | Some k => Ok (scanKey k)
              | None => Err (ESentinel ErrKeyNotFound)
              end).
Proof.
  intros Ht Hid. unfold KeyRepo_GetByID, getKey.
  rewrite (exec_withTenantConn env), exec_mapErr, (exec_QueryRow env).
  unfold sqlKeyGetByID, uuid_col. rewrite Ht, Hid. simpl.
  rewrite w_db_ticks. destruct (find_key _ _ _); world_simpl; by rewrite set_db_same.
Qed.

Lemma exec_KeyRepo_Revoke t T id I k w :
  uuid_in env t = Some T -> uuid_in env id = Some I ->
  find_key (w_db w) T I = Some k ->
  exec (KeyRepo_Revoke env t id) w =
  (ticks 3 (set_db (set_keys_table (<[I := set_key_status "revoked" (k_RotatedAt k) (k_RotatedTo k) k]>
                      (db_keys (w_db w))) (w_db w)) w), Ok tt).
Proof.
  intros Ht Hid Hk. unfold KeyRepo_Revoke, Exec.
  rewrite (exec_withTenantConn env), (exec_pg_command env).
  unfold sqlKeyRevoke, sqlKeySetStatus, uuid_col. rewrite Ht, Hid. simpl.
  rewrite w_db_ticks, Hk. by world_simpl.
Qed.

(** An audit event whose actor is not a UUID is refused by the server. *)
Lemma exec_AuditRepo_Insert_bad_actor t T etype entity_type id I actor success w :
  uuid_in env t = Some T -> uuid_in env id = Some I -> uuid_in env actor = None ->
  exec (AuditRepo_Insert env (auditEvent t etype entity_type id (Some actor) success)) w =
  (ticks 4 w, Err (pgerr env "22P02")).
Proof.
  intros Ht Hid Hactor. unfold AuditRepo_Insert, insertConn, insert_event.
  rewrite (exec_withTenantConn env).
  change (IsZero (a_OccurredAt _)) with true. cbv iota.
  rewrite exec_bind, exec_bind, (exec_time_Now env), exec_ret, exec_bind.
  unfold Returning. rewrite (exec_pg_command env). unfold sqlAuditInsert, uuid_col. simpl.
  rewrite Ht, Hid. simpl. unfold uuid_col. rewrite Hactor. simpl. by world_simpl.
Qed.
End key_runs.
