(* ===== verification/System.v ===== *)
(** * System: the services over PostgreSQL and the in-memory key store

    The wiring of [cmd/verion/main.go] for the three services, one constructor
    of [call] per service operation the transports can reach, and the theorems
    about any number of calls interleaved in any order. *)

From Stdlib Require Import ZArith Lia Ascii String.
From stdpp Require Import base list strings numbers gmap.
From S2P Require Import Prelude Bytes Errors Model Repository World Schema Postgres TenantService.
From S2P Require Import IdentityService KeyService Crypto Argon2 SchemaFacts StatementFacts.
From S2P Require Import Guarantees Integrity.
Open Scope Z_scope.

(** The operations of TenantService, IdentityService and KeyService. *)
Inductive call :=
| CallCreateTenant (input : CreateTenantInput)
| CallGetTenant (id : string)
| CallGetTenantBySlug (slug : string)
| CallSuspendTenant (id : string)
| CallActivateTenant (id : string)
| CallCreateIdentity (input : CreateIdentityInput)
| CallGetIdentity (tenantID id : string)
| CallGetIdentityByHandle (tenantID handle : string)
| CallListIdentities (tenantID : string) (filter : IdentityFilter)
| CallUpdateIdentity (input : UpdateIdentityInput)
| CallDeactivateIdentity (tenantID id actorID : string)
| CallSuspendIdentity (tenantID id actorID : string)
| CallReactivateIdentity (tenantID id actorID : string)
| CallGenerateKey (input : GenerateKeyInput)
| CallGetKey (tenantID keyID : string)
| CallListKeys (tenantID identityID : string)
| CallRotateKey (tenantID identityID oldKeyID actorID : string)
| CallRevokeKey (tenantID keyID actorID : string).

(** The tenant a call acts for; none for the operations on tenants. *)
Definition call_tenant (c : call) : option string :=
  match c with
  | CallCreateTenant _ | CallGetTenant _ | CallGetTenantBySlug _
  | CallSuspendTenant _ | CallActivateTenant _ => None
  | CallCreateIdentity input => Some (ci_TenantID input)
  | CallUpdateIdentity input => Some (ui_TenantID input)
  | CallGenerateKey input => Some (gk_TenantID input)
  | CallGetIdentity t _ | CallGetIdentityByHandle t _ | CallListIdentities t _
  | CallDeactivateIdentity t _ _ | CallSuspendIdentity t _ _ | CallReactivateIdentity t _ _
  | CallGetKey t _ | CallListKeys t _ | CallRotateKey t _ _ _ | CallRevokeKey t _ _ => Some t
  end.

Section system.
Context {X : Type} (env : Env) (p : Prims) (IDKey : idkey) (json : Codec) (cfg : CryptoConfig).
Local Open Scope prog_scope.

Definition repos : Repositories (World X) := PostgresRepositories env json.
Definition sys : Sys (World X) := system env.
Definition keyStore : KeyStore (World X) := local_KeyStore env p.
Definition cryptoSvc : CryptoService (World X) := Service IDKey sys p json cfg keyStore.

(** A call, with its result reduced to whether it succeeded. *)
Definition finish {A} (m : M (World X) A) : M (World X) unit := let* _ := m in ret tt.
Definition run_call (c : call) : M (World X) unit :=
  match c with
  | CallCreateTenant input => finish (CreateTenant repos input)
  | CallGetTenant id => finish (GetTenant repos id)
  | CallGetTenantBySlug slug => finish (GetTenantBySlug repos slug)
  | CallSuspendTenant id => SuspendTenant repos id
  | CallActivateTenant id => ActivateTenant repos id
  | CallCreateIdentity input => finish (CreateIdentity repos cryptoSvc json input)
  | CallGetIdentity t id => finish (GetIdentity repos cryptoSvc json t id)
  | CallGetIdentityByHandle t h => finish (GetIdentityByHandle repos cryptoSvc json t h)
  | CallListIdentities t f => finish (ListIdentities repos cryptoSvc json t f)
  | CallUpdateIdentity input => finish (UpdateIdentity repos cryptoSvc json input)
  | CallDeactivateIdentity t id a => DeactivateIdentity repos t id a
  | CallSuspendIdentity t id a => SuspendIdentity repos t id a
  | CallReactivateIdentity t id a => ReactivateIdentity repos t id a
  | CallGenerateKey input => finish (GenerateKey repos cryptoSvc input)
  | CallGetKey t id => finish (GetKey repos t id)
  | CallListKeys t id => finish (ListKeys repos t id)
  | CallRotateKey t i old a => finish (RotateKey repos cryptoSvc sys t i old a)
  | CallRevokeKey t id a => RevokeKey repos t id a
  end.

(** The crypto service and the system draw on the environment and the key
    store, not on the tables. *)
Section crypto.
Context (G : DB -> DB -> Prop) `{!PreOrder G}.

#[export] Instance system_steps : SysSteps (db_steps G) sys.
Proof. split; simpl; intros; [apply (time_Now_steps env G)|apply (rand_Read_steps env G)]. Qed.

Lemma local_Store_steps id k : steps_in (db_steps G) (local_Store (X:=X) id k).
Proof.
  unfold local_Store. case_match; [steps_walk|]. apply steps_in_bind; [|steps_walk].
  apply steps_in_act. intros w. apply db_steps_same; simpl; (done || auto with arith || apply _).
Qed.
Lemma local_Sign_steps r d : steps_in (db_steps G) (local_Sign (X:=X) env p r d).
Proof.
  unfold local_Sign. case_match; [steps_walk|]. apply steps_in_bind.
  - apply steps_in_act. intros w. apply db_steps_same; simpl; (done || auto with arith || apply _).
  - intros [[]|]; steps_walk. apply (rand_Read_steps env G).
Qed.
#[local] Hint Resolve local_Store_steps local_Sign_steps : steps.

#[export] Instance service_steps : CryptoSteps (db_steps G) cryptoSvc.
Proof.
  pose proof (fun n => rand_Read_steps (X:=X) env G n).
  split; simpl; intros.
  - unfold generateEd25519Key. simpl. steps_walk.
  - unfold generateECDSAP256Key. simpl. steps_walk.
  - unfold aesEncrypt, check. simpl. steps_walk.
  - unfold aesDecrypt, check. steps_walk.
  - unfold hashArgon2id, argon2_IDKey. simpl. steps_walk.
  - unfold verifyArgon2id, argon2_IDKey. steps_walk.
  - steps_walk.
Qed.
End crypto.
End system.
