(* ===== verification/Services.v ===== *)
(** * Services: the interfaces of [internal/identity] and their constructors

    What the transports hold is an interface per service, which the constructor
    fills with the operations of files TenantService, IdentityService and
    KeyService over the repositories and the crypto service.  A [call] is one
    operation of one interface: [dispatch] runs it against any implementation,
    and the wired services run it as [run_call] does. *)

From Stdlib Require Import ZArith Lia Ascii String.
From stdpp Require Import base list strings numbers gmap.
From S2P Require Import Prelude Bytes Errors Model Repository World Schema Postgres TenantService.
From S2P Require Import IdentityService KeyService Crypto Argon2 SchemaFacts StatementFacts.
From S2P Require Import Guarantees Integrity System.
Open Scope Z_scope.

Section interfaces.
Context (W : Type).
Local Open Scope prog_scope.

(** tenant_service.go *)
Record ITenantService := mkTenantService {
  svc_CreateTenant : CreateTenantInput -> M W Tenant;
  svc_GetTenant : string -> M W Tenant;
  svc_GetTenantBySlug : string -> M W Tenant;
  svc_SuspendTenant : string -> M W unit;
  svc_ActivateTenant : string -> M W unit }.

(** identity_service.go *)
Record IIdentityService := mkIdentityService {
  svc_CreateIdentity : CreateIdentityInput -> M W IdentityWithKeys;
  svc_GetIdentity : string -> string -> M W Identity;
  svc_GetIdentityByHandle : string -> string -> M W Identity;
  svc_ListIdentities : string -> IdentityFilter -> M W (list Identity);
  svc_UpdateIdentity : UpdateIdentityInput -> M W Identity;
  svc_DeactivateIdentity : string -> string -> string -> M W unit;
  svc_SuspendIdentity : string -> string -> string -> M W unit;
  svc_ReactivateIdentity : string -> string -> string -> M W unit }.

(** key_service.go *)
Record IKeyService := mkKeyService {
  svc_GenerateKey : GenerateKeyInput -> M W IdentityKey;
  svc_GetKey : string -> string -> M W IdentityKey;
  svc_ListKeys : string -> string -> M W (list IdentityKey);
  svc_RotateKey : string -> string -> string -> string -> M W IdentityKey;
  svc_RevokeKey : string -> string -> string -> M W unit }.
End interfaces.
Arguments mkTenantService {W}. Arguments mkIdentityService {W}. Arguments mkKeyService {W}.
Arguments svc_CreateTenant {W}. Arguments svc_GetTenant {W}. Arguments svc_GetTenantBySlug {W}.
Arguments svc_SuspendTenant {W}. Arguments svc_ActivateTenant {W}.
Arguments svc_CreateIdentity {W}. Arguments svc_GetIdentity {W}.
Arguments svc_GetIdentityByHandle {W}. Arguments svc_ListIdentities {W}.
Arguments svc_UpdateIdentity {W}. Arguments svc_DeactivateIdentity {W}.
Arguments svc_SuspendIdentity {W}. Arguments svc_ReactivateIdentity {W}.
Arguments svc_GenerateKey {W}. Arguments svc_GetKey {W}. Arguments svc_ListKeys {W}.
Arguments svc_RotateKey {W}. Arguments svc_RevokeKey {W}.

Section constructors.
Context {W : Type} (repos : Repositories W) (crypto : CryptoService W).
(** [crypto/rand], [time.Now] and [encoding/json], which the services import. *)
Context (sys : Sys W) (json : Codec).

Definition NewTenantService : ITenantService W :=
  mkTenantService (CreateTenant repos) (GetTenant repos) (GetTenantBySlug repos)
    (SuspendTenant repos) (ActivateTenant repos).
Definition NewIdentityService : IIdentityService W :=
  mkIdentityService (CreateIdentity repos crypto json) (GetIdentity repos crypto json)
    (GetIdentityByHandle repos crypto json) (ListIdentities repos crypto json)
    (UpdateIdentity repos crypto json) (DeactivateIdentity repos) (SuspendIdentity repos)
    (ReactivateIdentity repos).
Definition NewKeyService : IKeyService W :=
  mkKeyService (GenerateKey repos crypto) (GetKey repos) (ListKeys repos)
    (RotateKey repos crypto sys) (RevokeKey repos).
End constructors.

(** A call against any implementation of the interfaces. *)
Definition dispatch {X} (ts : ITenantService (World X)) (is_ : IIdentityService (World X))
    (ks : IKeyService (World X)) (c : call) : M (World X) unit :=
  match c with
  | CallCreateTenant input => finish (svc_CreateTenant ts input)
  | CallGetTenant id => finish (svc_GetTenant ts id)
  | CallGetTenantBySlug slug => finish (svc_GetTenantBySlug ts slug)
  | CallSuspendTenant id => svc_SuspendTenant ts id
  | CallActivateTenant id => svc_ActivateTenant ts id
  | CallCreateIdentity input => finish (svc_CreateIdentity is_ input)
  | CallGetIdentity t id => finish (svc_GetIdentity is_ t id)
  | CallGetIdentityByHandle t h => finish (svc_GetIdentityByHandle is_ t h)
  | CallListIdentities t f => finish (svc_ListIdentities is_ t f)
  | CallUpdateIdentity input => finish (svc_UpdateIdentity is_ input)
  | CallDeactivateIdentity t id a => svc_DeactivateIdentity is_ t id a
  | CallSuspendIdentity t id a => svc_SuspendIdentity is_ t id a
  | CallReactivateIdentity t id a => svc_ReactivateIdentity is_ t id a
  | CallGenerateKey input => finish (svc_GenerateKey ks input)
  | CallGetKey t id => finish (svc_GetKey ks t id)
  | CallListKeys t id => finish (svc_ListKeys ks t id)
  | CallRotateKey t i old a => finish (svc_RotateKey ks t i old a)
  | CallRevokeKey t id a => svc_RevokeKey ks t id a
  end.

(** The services of the program run a call as the theorems about calls have it. *)
Lemma dispatch_wired {X} env p IDKey json cfg c :
  dispatch (NewTenantService (repos (X:=X) env json))
    (NewIdentityService (repos env json) (cryptoSvc env p IDKey json cfg) json)
    (NewKeyService (repos env json) (cryptoSvc env p IDKey json cfg) (sys env)) c =
  run_call env p IDKey json cfg c.
Proof. by destruct c. Qed.
