(* ===== verification/Demo.v ===== *)
(** * Demo: a concrete environment

    Concrete functions for every parameter of the model, with the laws the code
    relies on, so that the theorems are exercised on inputs that evaluate. *)

From Stdlib Require Import ZArith Lia Ascii String.
From stdpp Require Import base list sorting strings numbers gmap countable pretty.
From S2P Require Import Prelude Bytes Errors Model Repository World Schema Crypto Argon2.
From S2P Require Import SchemaFacts Runs System.
Open Scope Z_scope.

(** ** The environment *)

(** The year 2024, one second a reading. *)
Definition demo_epoch : Z := (unixToInternal + 1704067200) * second.
Definition demo_clock (n : nat) : time := demo_epoch + Z.of_nat n * second.
Definition demo_uuid (n : nat) : string := ("id-" +:+ pretty n)%string.
Definition demo_uuid_in (s : string) : option string :=
  if String.eqb s "" || negb (no_nul s) then None else Some s.

Definition demo_env : Env :=
  mkEnv demo_clock (fun n k => Some (replicate k (byte_of_Z (Z.of_nat n))))
    (fun _ => None) (fun _ => None) (fun c => ("SQLSTATE " +:+ c)%string) demo_uuid demo_clock demo_uuid_in
    Some (fun t => t) (fun s => s) (fun _ _ => true) (fun _ _ _ => true).

(** The same, with the command of one tick failing. *)
Definition demo_env_fault (at_ : nat) : Env :=
  mkEnv demo_clock (fun n k => Some (replicate k (byte_of_Z (Z.of_nat n))))
    (fun n => if Nat.eqb n at_ then Some "connection reset"%string else None) (fun _ => None)
    (fun c => ("SQLSTATE " +:+ c)%string) demo_uuid demo_clock demo_uuid_in
    Some (fun t => t) (fun s => s) (fun _ _ => true) (fun _ _ _ => true).

Lemma pretty_no_nul (n : nat) : no_nul (pretty n) = true.
Proof.
  unfold pretty, pretty_nat, pretty, pretty_N, no_nul. case_decide; [done|].
  assert (forall m s, no_char "000" s = true -> no_char "000" (pretty_N_go m s) = true) as Hgo; [|by apply Hgo].
  intros m. induction (N.lt_wf_0 m) as [m _ IH]. intros s Hs.
  destruct (decide (0 < m)%N) as [Hm|Hm].
  - rewrite pretty_N_go_step by done. apply IH; [apply N.div_lt; lia|]. simpl. rewrite Hs, andb_true_r.
    apply negb_true_iff, Ascii.eqb_neq. unfold pretty_N_char. by repeat case_match.
  - by replace m with 0%N by lia.
Qed.
Lemma demo_uuid_text n : demo_uuid_in (demo_uuid n) = Some (demo_uuid n).
Proof.
  unfold demo_uuid_in, demo_uuid, no_nul. rewrite no_char_app.
  fold (no_nul (pretty n)). by rewrite pretty_no_nul.
Qed.

#[export] Instance demo_env_ok : EnvOk demo_env.
Proof.
  split; simpl.
  - intros n k b [= <-]. by rewrite length_replicate.
  - intros n. unfold demo_clock, demo_epoch, unixToInternal, second. lia.
  - done.
  - done.
  - intros c H. discriminate H.
  - done.
  - unfold demo_uuid_in. intros s u. destruct (_ || _) eqn:Hs; [done|].
    intros [= ->]. by rewrite Hs.
  - unfold demo_uuid_in. intros s u. destruct (no_nul s); [done|]. by rewrite orb_true_r.
  - apply demo_uuid_text.
  - intros m n H. unfold demo_uuid in H. by simplify_eq.
Qed.

(** ** JSON *)

(** The text of a map of strings: its canonical encoding, written bit by bit. *)
Fixpoint bits (q : positive) : bytes :=
  match q with
  | xH => []
  | xO q => Byte.x00 :: bits q
  | xI q => Byte.x01 :: bits q
  end.
Fixpoint unbits (b : bytes) : option positive :=
  match b with
  | [] => Some xH
  | c :: b => q ← unbits b;
    if Byte.eqb c Byte.x00 then Some (xO q) else if Byte.eqb c Byte.x01 then Some (xI q) else None
  end.
Lemma unbits_bits q : unbits (bits q) = Some q.
Proof. induction q as [q IH|q IH|]; simpl; [by rewrite IH..|done]. Qed.

Fixpoint string_pairs (l : list (string * any)) : option (list (string * string)) :=
  match l with
  | [] => Some []
  | (k, AString s) :: l => l ← string_pairs l; Some ((k, s) :: l)
  | _ => None
  end.
Definition strings_of (a : attributes) : option (list (string * string)) :=
  string_pairs (map_to_list a).
Definition of_strings (l : list (string * string)) : attributes :=
  list_to_map (prod_map id AString <$> l).

Lemma of_strings_of a l : strings_of a = Some l -> of_strings l = a.
Proof.
  unfold strings_of, of_strings. intros H.
  rewrite <- (list_to_map_to_list a). f_equal. revert l H.
  induction (map_to_list a) as [|[k v] m IH]; simpl; intros l H; [by simplify_eq|].
  destruct v; simplify_option_eq. cbn. f_equal. by apply IH.
Qed.

Definition demo_marshal (l : list (string * string)) : bytes := bits (encode l).
Definition demo_json : Codec :=
  mkCodec demo_marshal
    (fun a => demo_marshal <$> strings_of a)
    (fun b => of_strings <$> (unbits b ≫= decode)).

#[export] Instance demo_json_ok : CodecOk demo_env demo_json.
Proof.
  split; simpl; eauto. unfold demo_marshal. intros a b _ Hb.
  apply fmap_Some in Hb as (l & Hl & ->). rewrite unbits_bits. simpl.
  rewrite decode_encode. simpl. f_equal. by apply of_strings_of.
Qed.

(** ** Cryptography *)

Definition strip (p b : bytes) : option bytes :=
  if bool_decide (take (List.length p) b = p) then Some (drop (List.length p) b) else None.
Definition demo_prims : Prims :=
  mkPrims (fun key iv pt => (key ++ iv ++ pt)%list)
    (fun key iv ct => strip key ct ≫= strip iv)
    (fun seed => (seed, seed)) (fun priv msg => (priv ++ msg)%list)
    (fun pub msg sig => bool_decide (sig = (pub ++ msg)%list))
    (fun seed => Some (seed, 1, 2)) (fun _ priv msg => Some (priv ++ msg)%list)
    Some (fun x y => Some [byte_of_Z x; byte_of_Z y])
    (fun m => replicate 32 (byte_of_Z (Z.of_nat (List.length m)))).

Lemma strip_app p b : strip p (p ++ b)%list = Some b.
Proof. unfold strip. by rewrite take_app_length, bool_decide_eq_true_2, drop_app_length. Qed.

#[export] Instance demo_prims_ok : PrimsOk demo_prims.
Proof.
  split; simpl.
  - intros. by rewrite strip_app; simpl; rewrite strip_app.
  - intros. by apply bool_decide_eq_true_2.
  - eauto.
  - intros ???? [= _ <- <-]. lia.
  - done.
Qed.

(** A key derivation that accepts what Argon2 accepts. *)
Definition demo_IDKey (pw salt : bytes) (t m p n : Z) : bytes + string :=
  if (1 <=? t) && (1 <=? p) && (1 <=? n)
  then inl (take (Z.to_nat n) (pw ++ salt) ++
            replicate (Z.to_nat n - List.length (pw ++ salt)) Byte.x00)%list
  else inr "argon2: invalid parameters"%string.

#[export] Instance demo_IDKey_ok : Argon2Ok demo_IDKey.
Proof.
  split; unfold demo_IDKey; intros pw salt t m p n.
  - intros Ht Hp Hn. rewrite (proj2 (Z.leb_le 1 t) Ht), (proj2 (Z.leb_le 1 p) Hp), (proj2 (Z.leb_le 1 n) Hn). simpl.
    eexists. split; [done|]. rewrite length_app, length_take, length_replicate. lia.
  - intros Hlt. destruct (Z.leb_spec 1 t), (Z.leb_spec 1 p), (Z.leb_spec 1 n); simpl; [lia|by eexists..].
Qed.

Definition demo_key : bytes := replicate 32 Byte.x2a.

(** ** A database with two tenants, each with an identity and its key *)

Definition demo_tenant (id slug status : string) : Tenant :=
  mkTenant id slug slug "standard" status (Some []) "global" demo_epoch demo_epoch.
Definition demo_identity (id tenant handle status key : string) : IdentityRow :=
  mkIdentityRow id tenant "human" handle handle status (Some key) [] [] None 1
    demo_epoch demo_epoch None.
Definition demo_idkey (id identity tenant purpose status : string) : IdentityKey :=
  mkIdentityKey id identity tenant "ed25519" purpose "EdDSA" (Some [Byte.x01]) (Some [Byte.x02])
    ("local://" +:+ id)%string "fp" status 0 None None None demo_epoch.

Definition demo_db (alice_status key_status : string) : DB :=
  mkDB (list_to_map [("t1", demo_tenant "t1" "acme" "active");
                     ("t2", demo_tenant "t2" "globex" "active")]%string)
    (list_to_map [("alice", demo_identity "alice" "t1" "alice" alice_status "k1");
                  ("bob", demo_identity "bob" "t2" "bob" "active" "k2")]%string)
    (list_to_map [("k1", demo_idkey "k1" "alice" "t1" "signing" key_status);
                  ("k2", demo_idkey "k2" "bob" "t2" "signing" "active")]%string)
    ∅ [].

Definition demo_world (alice_status key_status : string) : World unit :=
  mkWorld (demo_db alice_status key_status) ∅ 0 tt.

Definition demo_repos : Repositories (World unit) := repos demo_env demo_json.
Definition demo_cfg : CryptoConfig := DefaultCryptoConfig demo_key.
Definition demo_crypto : CryptoService (World unit) :=
  cryptoSvc demo_env demo_prims demo_IDKey demo_json demo_cfg.
Definition demo_sys : Sys (World unit) := sys demo_env.

(** The tables are well formed, whatever labels the two statuses are. *)

Lemma forall_entries {A} (P : string -> A -> Prop) (l : list (string * A)) :
  Forall (fun kv => P kv.1 kv.2) l -> map_Forall P (list_to_map l : gmap string A).
Proof.
  intros Hl i x Hi. apply elem_of_list_to_map_2 in Hi.
  by apply (proj1 (list.Forall_forall _ _) Hl) in Hi.
Qed.

Lemma indexed_entries {A} (R : A -> A -> Prop) (l : list (string * A)) :
  Forall (fun kv => Forall (fun kv' => R kv.2 kv'.2 -> kv.1 = kv'.1) l) l ->
  indexed R (list_to_map l : gmap string A).
Proof.
  intros Hl i j x y Hi Hj HR. apply elem_of_list_to_map_2 in Hi, Hj.
  apply (proj1 (list.Forall_forall _ _) Hl) in Hi.
  by apply (proj1 (list.Forall_forall _ _) Hi _ Hj).
Qed.

Ltac demo_row :=
  simpl; first
    [ done | exact (known_opt_None _) | by eexists | apply known_opt_Some; by eexists
    | split; by eexists | unfold int64_max; lia | set_solver ].

(** Alice's status and her key's are any labels. *)
Lemma demo_db_ok alice_status key_status :
  alice_status ∈ identity_status -> key_status ∈ Schema.key_status ->
  db_ok demo_env (demo_db alice_status key_status).
Proof.
  intros Ha Hk. unfold demo_db.
  split; cbn [db_tenants db_identities db_keys db_credentials db_audit].
  - apply forall_entries. repeat (apply list.Forall_cons; split); [..|done]; repeat split; demo_row.
  - apply forall_entries. repeat (apply list.Forall_cons; split); [..|done]; split; demo_row.
  - apply forall_entries. repeat (apply list.Forall_cons; split); [..|done]; split; demo_row.
  - done.
  - apply indexed_entries. repeat constructor; vm_compute; done.
  - apply indexed_entries. repeat constructor; vm_compute; intuition discriminate.
  - apply indexed_entries. repeat constructor; simpl; unfold same_active_purpose; simpl;
      intuition discriminate.
  - done.
  - split; constructor.
Qed.

#[export] Instance demo_env_reliable : Reliable demo_env.
Proof. split; simpl; eauto. Qed.

Lemma demo_uuid_neq n s : String.prefix "id-" s = false -> demo_uuid n <> s.
Proof. unfold demo_uuid. intros H <-. by rewrite prefix_app in H. Qed.

Lemma demo_unused alice_status key_status n :
  unused demo_env n (demo_db alice_status key_status).
Proof.
  intros m _. cbn [pg_uuid demo_env].
  assert (forall {A} (l : list (string * A)),
    Forall (fun kv => String.prefix "id-" kv.1 = false) l ->
    (list_to_map l : gmap string A) !! demo_uuid m = None) as Hnone.
  { intros A l Hl. apply not_elem_of_list_to_map_1. intros Hin.
    apply list_elem_of_fmap in Hin as ([k x] & Hk & Hin). simpl in Hk.
    apply (proj1 (list.Forall_forall _ _) Hl) in Hin. by eapply demo_uuid_neq. }
  split_and!; try (apply Hnone; repeat constructor); [done|set_solver].
Qed.
