(* ===== verification/SystemFacts.v ===== *)
(** * SystemFacts: any number of service calls, in any interleaving

    The theorems about the whole service layer: whatever calls run, and however
    their database commands interleave, the tables keep their integrity, the
    history is only extended, and a tenant's calls leave the others alone. *)

From Stdlib Require Import ZArith Lia Ascii String.
From stdpp Require Import base list sorting strings numbers gmap.
From S2P Require Import Prelude Bytes Errors Model Repository World Schema Postgres TenantService.
From S2P Require Import IdentityService KeyService Crypto Argon2 SchemaFacts StatementFacts.
From S2P Require Import Guarantees Integrity System Demo.
Open Scope Z_scope.

Section calls.
Context {X : Type} (env : Env) (p : Prims) (IDKey : idkey) (json : Codec) (cfg : CryptoConfig).
Abbreviation run_call := (run_call (X:=X) env p IDKey json cfg).

Lemma finish_steps {A} G (m : M (World X) A) : steps_in G m -> steps_in G (finish m).
Proof. intros. unfold finish. steps_walk. Qed.

Lemma call_steps G scope `{!PreOrder G, !Statements env G scope} c t :
  call_tenant c = Some t -> scope t -> steps_in (db_steps G) (run_call c).
Proof.
  pose proof (postgres_steps (X:=X) env json G scope) as Hr.
  pose proof (service_steps (X:=X) env p IDKey json cfg G) as Hc.
  pose proof (system_steps (X:=X) env G) as Hs.
  intros Ht Hscope. destruct c; simpl in *; simplify_eq; try apply finish_steps.
  - by eapply CreateIdentity_steps.
  - by eapply GetIdentity_steps.
  - by eapply GetIdentityByHandle_steps.
  - by eapply ListIdentities_steps.
  - by eapply UpdateIdentity_steps.
  - by eapply DeactivateIdentity_steps.
  - by eapply SuspendIdentity_steps.
  - by eapply ReactivateIdentity_steps.
  - by eapply GenerateKey_steps.
  - by eapply GetKey_steps.
  - by eapply ListKeys_steps.
  - by eapply RotateKey_steps.
  - by eapply RevokeKey_steps.
Qed.

(** A relation for every call, those on tenants included. *)
Lemma call_steps_all G `{!PreOrder G, !Statements env G (fun _ => True),
    !TenantWrites (db_steps G) (PostgresRepositories (X:=X) env json)} c :
  steps_in (db_steps G) (run_call c).
Proof.
  destruct (call_tenant c) as [t|] eqn:Ht; [by eapply (call_steps G (fun _ => True))|].
  pose proof (postgres_steps (X:=X) env json G (fun _ => True)).
  destruct c; simpl in *; try discriminate Ht; try apply finish_steps.
  - by eapply CreateTenant_steps.
  - by eapply GetTenant_steps.
  - by eapply GetTenantBySlug_steps.
  - by eapply SuspendTenant_steps.
  - by eapply ActivateTenant_steps.
Qed.

Lemma call_evolves c : steps_in (db_steps (evolves env)) (run_call c).
Proof. apply (call_steps_all (evolves env)). Qed.

(** A relation every call of a pool stays in is a relation of the pool's run. *)
Lemma pool_run (G : World X -> World X -> Prop) `{!PreOrder G} calls sched w :
  Forall (fun c => steps_in G (run_call c)) calls ->
  G w (fst (run_sched sched w (run_call <$> calls))).
Proof.
  intros Hc. destruct (run_sched_steps sched w (run_call <$> calls)) as [tr Htr].
  eapply pool_guarantee; [done|exact Htr|]. by apply Forall_fmap.
Qed.

Lemma pool_evolves calls sched w :
  evolves env (w_db w) (w_db (fst (run_sched sched w (run_call <$> calls)))).
Proof. apply (pool_run (db_steps (evolves env))), list.Forall_true, call_evolves. Qed.

(** However many service calls run concurrently, and however their
    database commands interleave, they take well-formed tables to well-formed
    tables: enumerated columns hold their labels, references point at existing
    rows, a slug, a handle within its tenant, a credential id within its tenant
    and an active key of a purpose within its identity are unique. *)
Theorem calls_keep_integrity calls sched w :
  db_ok env (w_db w) ->
  db_ok env (w_db (fst (run_sched sched w (run_call <$> calls)))).
Proof. apply ev_ok, pool_evolves. Qed.

(** In any interleaving of service calls the audit log only grows, no row
    disappears, an identity keeps its tenant, type, handle and creator, its
    version never decreases and its name and attributes change only with the
    version; a key keeps everything but its status and rotation columns. *)
Theorem calls_preserve_history calls sched w :
  let db := w_db w in
  let db' := w_db (fst (run_sched sched w (run_call <$> calls))) in
  db_audit db `prefix_of` db_audit db' /\
  rows_kept tenant_frozen (db_tenants db) (db_tenants db') /\
  rows_kept identity_frozen (db_identities db) (db_identities db') /\
  rows_kept key_frozen (db_keys db) (db_keys db') /\
  rows_kept credential_frozen (db_credentials db) (db_credentials db').
Proof. intros db db'. by destruct (pool_evolves calls sched w). Qed.

(** C2. Tenant isolation: in any interleaving of calls that act for tenant [T],
    every identity, key and credential row of another tenant is unchanged, none
    appears, the table of tenants is unchanged, and the audit log gains events
    of [T] only. *)
Theorem calls_isolate_tenants `{!EnvOk env} T calls sched w :
  Forall (fun c => exists t, call_tenant c = Some t /\ uuid_in env t = Some T) calls ->
  isolates T (w_db w) (w_db (fst (run_sched sched w (run_call <$> calls)))).
Proof.
  intros Hc. apply (pool_run (db_steps (isolates T))).
  eapply list.Forall_impl; [exact Hc|]. intros c (t & Ht & Hu).
  eapply (call_steps (isolates T) (fun s => reads_as env s T)); [done|].
  intros T' HT'. congruence.
Qed.
End calls.

(** ** The theorems on a concrete database *)

Definition demo_calls : list call :=
  [CallRotateKey "t1" "alice" "k1" "alice"; CallDeactivateIdentity "t1" "alice" "bob";
   CallUpdateIdentity (mkUpdateIdentityInput "t1" "alice" "Alice" ∅ 1 None);
   CallRevokeKey "t1" "k1" "alice"].

Lemma calls_keep_integrity_witness :
  let w := demo_world "active" "active" in
  db_ok demo_env (w_db w) /\
  db_ok demo_env (w_db (fst (run_sched [0; 1; 2; 1; 1; 0; 3; 0; 1]%nat w
    (run_call demo_env demo_prims demo_IDKey demo_json demo_cfg <$> demo_calls)))).
Proof.
  intros w. assert (db_ok demo_env (w_db w)) as Hw by (apply demo_db_ok; set_solver).
  split; [exact Hw|]. exact (calls_keep_integrity _ _ _ _ _ _ _ _ Hw).
Defined.

Lemma calls_isolate_tenants_witness :
  let w := demo_world "active" "active" in
  isolates "t1" (w_db w) (w_db (fst (run_sched [0; 1; 2; 1; 1; 0; 3; 0; 1]%nat w
    (run_call demo_env demo_prims demo_IDKey demo_json demo_cfg <$> demo_calls)))).
Proof.
  apply calls_isolate_tenants; [apply _|].
  repeat constructor; by eexists.
Defined.
