(* ===== verification/LifecycleFacts.v ===== *)
(** * LifecycleFacts: the life cycle of an identity

    [lifecycle] is the abstract machine the service documents: an operation
    moves an identity to its target status unless the identity is terminal.
    Run alone, the operations of the service refine it on every branch.  Two
    calls that interleave do not: the check and the update are two commands. *)

From Stdlib Require Import ZArith Lia Ascii String.
From stdpp Require Import base list sorting strings numbers gmap.
From S2P Require Import Prelude Bytes Errors Model Repository World Schema Postgres TenantService.
From S2P Require Import IdentityService KeyService Crypto Argon2 SchemaFacts StatementFacts.
From S2P Require Import Guarantees Integrity Runs System Demo.
Open Scope Z_scope.

(** ** The abstract machine *)

Inductive status_op := OpDeactivate | OpSuspend | OpReactivate.

Definition op_target (o : status_op) : IdentityStatus :=
  match o with
  | OpDeactivate => IdentityStatusDeactivated
  | OpSuspend => IdentityStatusSuspended
  | OpReactivate => IdentityStatusActive
  end.
Definition op_event (o : status_op) : string :=
  match o with
  | OpDeactivate => AuditEventIdentityDeactivated
  | OpSuspend => AuditEventIdentitySuspended
  | OpReactivate => AuditEventIdentityActivated
  end.

Definition lifecycle (s : IdentityStatus) (o : status_op) : option IdentityStatus :=
  if IdentityStatus_IsTerminal s then None else Some (op_target o).

Lemma op_target_ok o : op_target o ∈ identity_status.
Proof. destruct o; set_solver. Qed.

(** ** The operations *)

Section lifecycle.
Context {X : Type} (env : Env) (json : Codec).
Implicit Types w : World X.

Definition run_op (o : status_op) (t id actor : string) : M (World X) unit :=
  match o with
  | OpDeactivate => DeactivateIdentity (repos env json) t id actor
  | OpSuspend => SuspendIdentity (repos env json) t id actor
  | OpReactivate => ReactivateIdentity (repos env json) t id actor
  end.

(** What the operations have in common, with the name of each step. *)
Lemma run_op_eq o t id actor :
  exists get set,
    run_op o t id actor =
    bind (mapErr (wrapRepoError get) (IdentityRepo_GetByID env t id)) (fun identity =>
      if IdentityStatus_IsTerminal (i_Status identity) then throw (ESentinel ErrIdentityTerminal) else
      bind (mapErr (wrapRepoError set) (IdentityRepo_UpdateStatus env t id (op_target o))) (fun _ =>
        mapErr (EWrap "write audit event")
          (AuditRepo_Insert env (auditEvent t (op_event o) "identity" id (actorPtr actor) true)))).
Proof. destruct o; by eexists _, _. Qed.

Section reliable.
Context `{!Reliable env} (t T id I actor : string) (actor' : option string) (metadata : bytes).
Context (Ht : uuid_in env t = Some T) (Hid : uuid_in env id = Some I).
Context (Hactor : uuid_opt env (actorPtr actor) = inr actor').
Context (Hjson : jsonb_in env (s2b "{}") = Some metadata).

(** The tables after a change of status by the command of tick [n] and its
    event, written by the command of tick [m]. *)
Definition moved (o : status_op) (r : IdentityRow) (n m : nat) (db : DB) : DB :=
  let a := auditEvent t (op_event o) "identity" id (actorPtr actor) true in
  add_audit (audit_row env T I actor' a m metadata)
    (put_identity (with_status env (op_target o) n r) db).

(** C4. Deactivate, Suspend and Reactivate, run alone, implement the life
    cycle: an unknown identity is not found; a terminal one is refused with
    ErrIdentityTerminal; in both cases the tables do not change.  Otherwise the
    operation succeeds, the row has the target status (with deactivated_at set
    for a terminal one) and one audit event names the operation. *)
Theorem status_ops_refine_lifecycle o w :
  db_ok env (w_db w) ->
  unused env (w_tick w) (w_db w) ->
  exists w', exec (run_op o t id actor) w =
  match find_identity (w_db w) T I with
  | None => (w', Err (NotFoundError "identity" id))
  | Some r => match lifecycle (ir_status r) o with
              | None => (w', Err (ESentinel ErrIdentityTerminal))
              | Some _ => (w', Ok tt)
              end
  end /\
  w_db w' =
  match find_identity (w_db w) T I with
  | Some r => if lifecycle (ir_status r) o
              then moved o r (5 + w_tick w) (9 + w_tick w) (w_db w)
              else w_db w
  | None => w_db w
  end.
Proof.
  intros Hok Hfree. destruct (run_op_eq o t id actor) as (get & set & ->).
  rewrite exec_bind, exec_mapErr, (exec_IdentityRepo_GetByID env t T id I) by done.
  destruct (find_identity (w_db w) T I) as [r|] eqn:Hr; [|by eexists].
  unfold lifecycle. simpl. destruct (IdentityStatus_IsTerminal (ir_status r)); [by eexists|].
  pose proof (proj1 (find_identity_Some _ _ _ _) Hr) as [HrI HrT].
  pose proof (ok_identities _ _ Hok _ _ HrI) as [Hri _ _ HT _ _ _].
  rewrite exec_bind, exec_mapErr,
    (exec_IdentityRepo_UpdateStatus env t T id I _ r) by (done || apply op_target_ok).
  rewrite exec_mapErr, (exec_AuditRepo_Insert env t T _ _ id I _ actor' _ metadata); try done.
  - eexists. split; [done|]. unfold moved.
    by rewrite ?w_tick_ticks, ?w_db_ticks, ?w_db_set_db, ?w_tick_set_db.
  - rewrite ?w_tick_ticks, ?w_db_ticks, ?w_db_set_db, ?w_tick_set_db, ?w_tick_ticks. simpl.
    apply Hfree. lia.
  - simpl. by rewrite <- HrT.
Qed.
End reliable.

(** C16. A terminal identity stays terminal: whatever fails on the way, none of
    the three operations changes the tables or succeeds on it. *)
Theorem terminal_is_final o t T id I actor w r :
  uuid_in env t = Some T -> uuid_in env id = Some I ->
  find_identity (w_db w) T I = Some r ->
  IdentityStatus_IsTerminal (ir_status r) = true ->
  let '(w', res) := exec (run_op o t id actor) w in
  w_db w' = w_db w /\ exists e, res = Err e.
Proof.
  intros Ht Hid Hr Hterm. destruct (run_op_eq o t id actor) as (get & set & ->).
  rewrite exec_bind, exec_mapErr. unfold IdentityRepo_GetByID.
  match goal with |- context [withTenantConn env t (fun _ => mapErr ?g (QueryRow env ?f ?scan))] =>
    destruct (conn_reads env t g f scan w) as (w2 & Hdb & [[e ->]|(n & r' & Hr' & ->)]) end;
    [apply sqlIdentityGetByID_reads|simpl; eauto|].
  unfold sqlIdentityGetByID, uuid_col in Hr'. rewrite Ht, Hid in Hr'. simpl in Hr'. rewrite Hr in Hr'.
  injection Hr' as <-. simpl. rewrite Hterm. simpl. eauto.
Qed.
End lifecycle.

(** ** On concrete tables *)

Lemma status_ops_refine_lifecycle_witness :
  let w := demo_world "active" "active" in
  exists w', exec (run_op demo_env demo_json OpSuspend "t1" "alice" "bob") w = (w', Ok tt).
Proof.
  intros w. pose proof (status_ops_refine_lifecycle (X:=unit) demo_env demo_json
    "t1" "t1" "alice" "alice" "bob" (Some "bob"%string) (s2b "{}")
    eq_refl eq_refl eq_refl eq_refl OpSuspend w) as H.
  destruct H as (w' & H & _); [apply demo_db_ok; set_solver|apply demo_unused|].
  exists w'. exact H.
Defined.

Lemma terminal_is_final_witness :
  let '(w', res) := exec (run_op demo_env demo_json OpReactivate "t1" "alice" "")
                      (demo_world "archived" "active") in
  w_db w' = demo_db "archived" "active" /\ exists e, res = Err e.
Proof.
  apply (terminal_is_final demo_env demo_json OpReactivate "t1" "t1" "alice" "alice" ""
    (demo_world "archived" "active") (demo_identity "alice" "t1" "alice" "archived" "k1"));
    reflexivity.
Defined.

(** The life cycle is not safe under concurrency: the check of the status
    and the update are separate commands.  In this interleaving a deactivation
    and a reactivation of the same active identity both succeed, and the
    identity ends active although it was deactivated, a state documented as
    irreversible; the row still carries its deactivation time. *)
Theorem reactivation_race :
  let w := demo_world "active" "active" in
  let '(w', ps) := run_sched (replicate 3 0%nat ++ replicate 3 1%nat ++
                                replicate 7 0%nat ++ replicate 7 1%nat)%list w
    [run_op demo_env demo_json OpDeactivate "t1" "alice" "";
     run_op demo_env demo_json OpReactivate "t1" "alice" ""] in
  ps = [Ret (Ok tt); Ret (Ok tt)] /\
  (fun r => (ir_status r, bool_decide (ir_deactivated_at r = None))) <$>
    find_identity (w_db w') "t1" "alice" = Some ("active"%string, false) /\
  a_EventType <$> db_audit (w_db w') = ["identity.deactivated"; "identity.activated"]%string.
Proof.
  vm_compute. repeat split.
Qed.
