(* ===== verification/IdentityFacts.v ===== *)
(** * IdentityFacts: creating identities, and their encrypted attributes *)

From Stdlib Require Import ZArith Lia Ascii String.
From stdpp Require Import base list sorting strings numbers gmap.
From S2P Require Import Prelude Bytes Errors Model Repository World Schema Postgres TenantService.
From S2P Require Import IdentityService KeyService Crypto Argon2 SchemaFacts StatementFacts.
From S2P Require Import Guarantees Integrity Runs System Demo SystemFacts.
Open Scope Z_scope.

(** ** Validation *)

(** What an input must satisfy, in the words of the error messages. *)
Record valid_identity_input (input : CreateIdentityInput) : Prop := {
  vi_tenant : ci_TenantID input <> ""%string;
  vi_handle : ci_Handle input <> ""%string;
  vi_handle_length : (String.length (ci_Handle input) <= 64)%nat;
  vi_handle_spaces : no_char " " (ci_Handle input) = true;
  vi_name : ci_DisplayName input <> ""%string;
  vi_name_length : (String.length (ci_DisplayName input) <= 128)%nat }.

Lemma all_chars_no_char c s : all_chars (fun r => negb (Ascii.eqb r c)) s = no_char c s.
Proof. induction s as [|d s IH]; simpl; [done|]. by rewrite IH. Qed.

Lemma validate_identity_ok input :
  validateCreateIdentityInput input = inr tt <-> valid_identity_input input.
Proof.
  unfold validateCreateIdentityInput. rewrite all_chars_no_char.
  split.
  - repeat (case_match; [done|]). intros _.
    repeat match goal with
    | H : String.eqb _ _ = false |- _ => apply String.eqb_neq in H
    | H : (_ <? _)%nat = false |- _ => apply Nat.ltb_ge in H
    | H : negb _ = false |- _ => apply negb_false_iff in H
    end. by split.
  - intros []. rewrite !(proj2 (String.eqb_neq _ _)) by done.
    rewrite !(proj2 (Nat.ltb_ge _ _)) by done. by rewrite vi_handle_spaces0.
Qed.

Lemma validate_identity_error input e :
  validateCreateIdentityInput input = inl e -> exists field msg, e = ValidationError field msg.
Proof. unfold validateCreateIdentityInput. repeat (case_match; [intros [= <-]; eauto|]). done. Qed.

Record valid_tenant_input (input : CreateTenantInput) : Prop := {
  vt_name : ct_Name input <> ""%string;
  vt_slug : ct_Slug input <> ""%string;
  vt_slug_chars : all_chars slug_char (ct_Slug input) = true }.

Lemma validate_tenant_ok input :
  validateCreateTenantInput input = inr tt <-> valid_tenant_input input.
Proof.
  unfold validateCreateTenantInput, slugRegexp_MatchString.
  destruct (String.eqb_spec (ct_Name input) ""); [by split; [|intros []]|].
  destruct (String.eqb_spec (ct_Slug input) ""); [by split; [|intros []]|]. simpl.
  destruct (all_chars _ _) eqn:Hc; simpl; split; [by intros _; split|done|done|].
  intros []. congruence.
Qed.

Lemma validate_tenant_error input e :
  validateCreateTenantInput input = inl e -> exists field msg, e = ValidationError field msg.
Proof. unfold validateCreateTenantInput. repeat (case_match; [intros [= <-]; eauto|]). done. Qed.

Section validation.
Context {W : Type} (repos : Repositories W) (crypto : CryptoService W) (json : Codec).

(** Creating a tenant or an identity from an invalid input does nothing at
    all: the program performs no action and returns a ValidationError, which
    is an ErrInvalidInput. *)
Theorem invalid_input_has_no_effect :
  (forall input, ~ valid_identity_input input -> exists field msg,
     CreateIdentity repos crypto json input = Ret (Err (ValidationError field msg))) /\
  (forall input, ~ valid_tenant_input input -> exists field msg,
     CreateTenant repos input = Ret (Err (ValidationError field msg))) /\
  (forall field msg, errors_Is (ValidationError field msg) ErrInvalidInput = true).
Proof.
  split_and!; [| |done].
  - intros input Hn. destruct (validateCreateIdentityInput input) as [e|[]] eqn:He.
    + destruct (validate_identity_error _ _ He) as (f & m & ->). exists f, m.
      unfold CreateIdentity. by rewrite He.
    + by apply validate_identity_ok in He.
  - intros input Hn. destruct (validateCreateTenantInput input) as [e|[]] eqn:He.
    + destruct (validate_tenant_error _ _ He) as (f & m & ->). exists f, m.
      unfold CreateTenant. by rewrite He.
    + by apply validate_tenant_ok in He.
Qed.
End validation.

(** ** Attributes and creation *)

Section create.
Context {X : Type} (env : Env) (p : Prims) (IDKey : idkey) (json : Codec) (cfg : CryptoConfig).
Context `{!Reliable env, !EnvOk env, !CodecOk env json, !PrimsOk p}.
Context (Hkey : List.length (MasterKey cfg) = 32%nat).
Implicit Types w : World X.
Abbreviation crypto := (cryptoSvc (X:=X) env p IDKey json cfg).

(** The random bytes drawn at tick [n]. *)
Definition drawn (n k : nat) : bytes := default [] (entropy env n k).

Lemma exec_rand_Read k w : exec (rand_Read env k) w = (ticks 1 w, Ok (drawn (w_tick w) k)).
Proof.
  unfold rand_Read, drawn. rewrite exec_actO, bump_ticks.
  by destruct (no_entropy_fault (w_tick w) k) as [? ->].
Qed.
Lemma drawn_length n k : List.length (drawn n k) = k.
Proof.
  unfold drawn. destruct (no_entropy_fault n k) as [b Hb]. rewrite Hb. by eapply entropy_length.
Qed.

Lemma exec_Encrypt pt w :
  exec (Encrypt crypto pt) w =
  (ticks 1 w, Ok (gcm_Seal p (MasterKey cfg) (drawn (w_tick w) 12) pt, drawn (w_tick w) 12)).
Proof.
  simpl. unfold aesEncrypt, aes_NewCipher, AEAD_Seal. rewrite Hkey. simpl (negb _). cbv iota.
  rewrite exec_bind, exec_mapErr. simpl check. rewrite exec_ret. cbv iota beta.
  rewrite exec_bind, exec_mapErr. simpl RandRead. rewrite exec_rand_Read. cbv iota beta.
  by rewrite drawn_length.
Qed.

(** The column written for some attributes by an encryption at tick [n]. *)
Definition sealed (n : nat) (attrs : attributes) : slice :=
  if Nat.eqb (size attrs) 0 then None
  else pt ← marshal_attributes json attrs;
       Some (drawn n 12 ++ gcm_Seal p (MasterKey cfg) (drawn n 12) pt)%list.

(** The two copies of encryptAttributes are in bounds and join their sources. *)
Lemma exec_combine {A} (iv ct : bytes) (k : bytes -> M (World X) A) w :
  exec (bind (Ret (copy_into (replicate (List.length iv + List.length ct) Byte.x00) 0
                     (Z.of_nat (List.length iv)) iv))
          (fun c => bind (Ret (copy_into c (Z.of_nat (List.length iv))
                                 (Z.of_nat (List.length c)) ct)) k)) w =
  exec (k (iv ++ ct)%list) w.
Proof.
  rewrite exec_bind, exec_Ret, copy_front by (rewrite length_replicate; lia). cbv iota beta.
  rewrite exec_bind, exec_Ret, drop_replicate, copy_back by (rewrite length_app, length_replicate; lia).
  by rewrite take_app_length.
Qed.

Lemma exec_encryptAttributes attrs w :
  size attrs = 0%nat \/ is_Some (marshal_attributes json attrs) ->
  exists n, exec (encryptAttributes crypto json attrs) w =
            (ticks n w, Ok (sealed (w_tick w) attrs)).
Proof.
  intros Ha. unfold encryptAttributes, sealed.
  destruct (Nat.eqb_spec (size attrs) 0) as [Hs|Hs].
  { exists 0%nat. rewrite exec_ret. destruct w. done. }
  destruct Ha as [?|[pt Hpt]]; [done|]. rewrite Hpt. simpl some_or. unfold check.
  exists 1%nat. rewrite exec_bind, exec_ret, exec_bind, exec_mapErr, exec_Encrypt. cbv iota beta.
  by rewrite exec_combine.
Qed.

(** C28. Attributes survive encryption: what encryptAttributes stores (nothing
    for no attributes, otherwise the 12-byte nonce followed by the ciphertext
    of their JSON) is decrypted by decryptAttributes to the same attributes,
    whatever random nonce was drawn, for attributes decoded from JSON. *)
Theorem attributes_round_trip attrs i w :
  attrs <> ∅ -> decoded json attrs -> is_Some (marshal_attributes json attrs) ->
  exists w' stored,
    exec (encryptAttributes crypto json attrs) w = (w', Ok (Some stored)) /\
    (12 <= List.length stored)%nat /\
    exec (decryptAttributes crypto json (set_i_Attributes (Some stored) i)) w' =
      (w', Ok (set_i_DecryptedAttributes attrs (set_i_Attributes (Some stored) i))).
Proof.
  intros Hne Hdec Hm. destruct (exec_encryptAttributes attrs w) as [n Hn]; [auto|].
  destruct Hm as [pt Hpt]. unfold sealed in Hn. rewrite Hpt in Hn.
  assert (Nat.eqb (size attrs) 0 = false) as Hs
    by by apply Nat.eqb_neq, map_size_non_empty_iff.
  rewrite Hs in Hn. simpl in Hn. set (iv := drawn (w_tick w) 12) in *.
  assert (List.length iv = 12%nat) as Hiv by apply drawn_length.
  set (ct := gcm_Seal p (MasterKey cfg) iv pt) in *.
  eexists _, _. split; [exact Hn|]. split; [rewrite length_app; lia|].
  unfold decryptAttributes. simpl i_Attributes. simpl slice_bytes.
  assert (ivLen <= List.length (iv ++ ct))%nat as Hlen by (rewrite length_app; unfold ivLen; lia).
  rewrite (proj2 (Nat.eqb_neq _ 0)), (proj2 (Nat.ltb_ge _ ivLen)) by (unfold ivLen in *; lia).
  rewrite exec_bind, exec_Ret, subslice_to by done. cbv iota beta.
  rewrite exec_bind, exec_Ret, subslice_from by done. cbv iota beta.
  rewrite take_app_length', drop_app_length' by done. rewrite exec_bind, exec_mapErr.
  simpl Decrypt. unfold aesDecrypt, aes_NewCipher, AEAD_Open. rewrite Hkey, Hiv. simpl (negb _).
  cbv iota. simpl check. rewrite exec_bind, exec_mapErr, exec_ret. cbv iota beta.
  rewrite exec_bind, exec_Ret. simpl (Nat.eqb _ _). cbv iota beta.
  unfold ct. rewrite gcm_Open_Seal by done. simpl. by rewrite (unmarshal_marshal _ _ Hdec Hpt).
Qed.

(** The key pair generated from the random bytes of tick [n]. *)
Definition pair (n : nat) : bytes * bytes := ed25519_GenerateKey p (drawn n 32).
Definition material (n : nat) (id : string) : KeyMaterial :=
  let der := default [] (pkix_ed25519 p (fst (pair n))) in
  mkKeyMaterial (Some der) (Some (marshal_strings json (ed25519_jwk (fst (pair n)) id)))
    (keyRefPrefix +:+ id) (fingerprintDER p der).

Lemma exec_GenerateEd25519Key id w :
  id <> ""%string ->
  exec (GenerateEd25519Key crypto id) w =
  (ticks 1 (set_keys (<[keyRefPrefix +:+ id := Ed25519PrivateKey (snd (pair (w_tick w)))]>
              (w_keys w)) w), Ok (material (w_tick w) id)).
Proof.
  intros Hid.
  change (GenerateEd25519Key crypto id)
    with (generateEd25519Key (W:=World X) p (sys env) json (keyStore env p) id).
  unfold generateEd25519Key. rewrite exec_bind, exec_mapErr.
  change (RandRead (sys env) 32) with (rand_Read (X:=X) env 32). rewrite exec_rand_Read. fold (pair (w_tick w)). unfold material.
  destruct (pkix_ed25519_total (p:=p) (drawn (w_tick w) 32)) as [der Hder].
  fold (pair (w_tick w)) in Hder.
  destruct (pair (w_tick w)) as [pub priv]. cbn [fst snd] in *. rewrite Hder. cbn [default].
  rewrite exec_bind, exec_mapErr.
  change (KeyStore_Store (keyStore env p)) with (local_Store (X:=X)). unfold local_Store.
  rewrite (proj2 (String.eqb_neq _ _)) by done. done.
Qed.

Section success.
Context (input : CreateIdentityInput) (T : string) (tenant : Tenant) (cb : option string) (w : World X).
Context (Hvalid : valid_identity_input input) (HT : uuid_in env (ci_TenantID input) = Some T).
Context (Htype : ci_Type input ∈ identity_type).
Context (Hcb : uuid_opt env (ci_CreatedBy input) = inr cb).
Context (Hattrs : size (ci_Attributes input) = 0%nat \/
                  is_Some (marshal_attributes json (ci_Attributes input))).
Context (Hok : db_ok env (w_db w)) (Hfree : unused env (w_tick w) (w_db w)).
Context (Htenant : db_tenants (w_db w) !! T = Some tenant).
Context (Hactive : t_Status tenant = TenantStatusActive).
Context (Hcbk : known_opt (db_identities (w_db w)) cb).
Context (Hname : no_nul (ci_DisplayName input) = true) (Hhandle_text : no_nul (ci_Handle input) = true).
Context (Hhandle : handle_free env T (ci_Handle input) (db_identities (w_db w))).

(** The rows that a successful creation writes, with the numbers of the
    commands that wrote them: [n] is the first tick after the attributes were
    encrypted. *)
Definition pending_identity : Identity :=
  mkIdentity "" (ci_TenantID input) (ci_Type input) (ci_DisplayName input)
    (ci_Handle input) IdentityStatusPending None (sealed (1 + w_tick w) (ci_Attributes input)) ∅
    (ci_CreatedBy input) 0 0 0 None.
Definition new_identity (n : nat) : IdentityRow :=
  identity_row env T pending_identity (slice_bytes (i_Attributes pending_identity)) cb (3 + n).
Definition active_key (n : nat) : IdentityKey :=
  let id := ir_id (new_identity n) in
  let km := material (7 + n) id in
  mkIdentityKey "" id (ci_TenantID input) KeyTypeEd25519 KeyPurposeSigning "EdDSA"
    (km_PublicKeyDER km) (km_JWK km) (km_KeyRef km) (km_Fingerprint km)
    KeyStatusActive 0 None None None 0.
Definition new_key (n : nat) : IdentityKey :=
  key_row env T (ir_id (new_identity n)) (active_key n)
    (jsonb env (slice_bytes (k_PublicKeyJWK (active_key n)))) (10 + n).
Definition keyed_identity (n : nat) : IdentityRow :=
  with_primary_key env (k_ID (new_key n)) (13 + n) (new_identity n).
Definition final_identity (n : nat) : IdentityRow :=
  with_status env IdentityStatusActive (16 + n) (keyed_identity n).
Definition final_event (n : nat) : AuditEvent :=
  audit_row env T (ir_id (new_identity n)) cb
    (auditEvent (ci_TenantID input) "" "identity" (ir_id (new_identity n)) (ci_CreatedBy input) true)
    (20 + n) (jsonb env (s2b "{}")).

(** The tables after each step. *)
Definition db1 (n : nat) : DB :=
  add_audit (created_event env json T (new_identity n) (5 + n)) (put_identity (new_identity n) (w_db w)).
Definition db2 (n : nat) : DB := put_key (new_key n) (db1 n).
Definition db3 (n : nat) : DB := put_identity (keyed_identity n) (db2 n).
Definition db4 (n : nat) : DB := put_identity (final_identity n) (db3 n).
Definition db5 (n : nat) : DB := add_audit (final_event n) (db4 n).
Definition new_keys (n : nat) : gmap string PrivateKey :=
  <[keyRefPrefix +:+ ir_id (new_identity n) := Ed25519PrivateKey (snd (pair (7 + n)))]> (w_keys w).

Lemma tenant_known db : db_tenants db = db_tenants (w_db w) -> known (db_tenants db) T.
Proof. intros ->. unfold known. by rewrite Htenant. Qed.

Lemma pg_uuid_nonempty n : pg_uuid env n <> ""%string.
Proof. intros He. pose proof (pg_uuid_in (env:=env) n) as Hu. by rewrite He, uuid_in_empty in Hu. Qed.

Section steps.
Context (n : nat) (Hn : (w_tick w <= n)%nat).

Lemma unused_at m : (w_tick w <= m)%nat -> unused env m (w_db w).
Proof. intros. by eapply unused_mono. Qed.
Ltac later := first [lia | intros j Hj; simpl; apply (pg_uuid_later env); lia].
Lemma unused_db1 : unused env (7 + n) (db1 n).
Proof.
  apply unused_add_audit with (7 + n)%nat; [|later..].
  apply unused_put_identity with (7 + n)%nat; [|later..]. apply unused_at. lia.
Qed.
Lemma unused_db4 : unused env (17 + n) (db4 n).
Proof.
  apply unused_put_identity with (17 + n)%nat; [|later..].
  apply unused_put_identity with (17 + n)%nat; [|later..].
  apply unused_put_key with (17 + n)%nat; [|later..].
  eapply unused_mono; [apply unused_db1|lia].
Qed.

(** No key can belong to an identity that does not exist yet. *)
Lemma no_key_yet purpose : active_purpose_free (ir_id (new_identity n)) purpose (db_keys (w_db w)).
Proof.
  intros id k Hk (_ & Hi & _). destruct (ok_keys _ _ Hok id k Hk) as [_ _ _ _ _ Hid _ _].
  rewrite Hi in Hid. destruct Hid as [x Hx]. simpl in Hx.
  destruct (Hfree (3 + n)%nat) as (_ & Hnone & _); [lia|]. simpl in Hnone. congruence.
Qed.

Lemma create_step1 (base : World X) : w_tick base = n -> w_db base = w_db w ->
  exec (IdentityRepo_Create env json pending_identity) base =
  (ticks 7 (set_db (db1 n) base), Ok (scanIdentity (new_identity n))).
Proof.
  intros Hb Hdb. unfold db1. rewrite <- Hdb. unfold new_identity. rewrite <- Hb.
  apply exec_IdentityRepo_Create; rewrite ?Hdb, ?Hb; try done; try (by repeat constructor).
  - by eapply unused_mono.
  - by apply tenant_known.
Qed.

Lemma create_step3 (w1 : World X) : w_tick w1 = (8 + n)%nat -> w_db w1 = db1 n ->
  exec (KeyRepo_Create env (active_key n)) w1 = (ticks 3 (set_db (db2 n) w1), Ok (new_key n)).
Proof.
  intros Hb Hdb. unfold db2. rewrite <- Hdb.
  pose proof (exec_KeyRepo_Create (X:=X) env T (ir_id (new_identity n)) (active_key n)
    (slice_bytes (k_PublicKeyJWK (active_key n)))
    (jsonb env (slice_bytes (k_PublicKeyJWK (active_key n))))
    (slice_bytes (k_PublicKey (active_key n))) w1) as H.
  rewrite Hb, Hdb in H. rewrite Hdb. apply H; try done; try (by repeat constructor).
  - eapply unused_mono; [apply unused_db1|lia].
  - by apply tenant_known.
  - apply pg_uuid_in.
  - unfold db1, known. simpl. rewrite lookup_insert_eq. by eexists.
  - apply (jsonb_in_marshalled env json). repeat (apply list.Forall_cons; split); [split..|done]; try done.
    + apply RawEncode_no_char; [auto|set_solver].
    + apply (pg_uuid_text env).
  - intros _. apply no_key_yet.
Qed.

Lemma create_step4 (w1 : World X) : w_tick w1 = (11 + n)%nat -> w_db w1 = db2 n ->
  exec (IdentityRepo_SetPrimaryKey env (ci_TenantID input) (ir_id (new_identity n)) (k_ID (new_key n))) w1 =
  (ticks 3 (set_db (db3 n) w1), Ok tt).
Proof.
  intros Hb Hdb. rewrite (exec_IdentityRepo_SetPrimaryKey env _ T _ (ir_id (new_identity n)) _
    (k_ID (new_key n)) (new_identity n)); rewrite ?Hdb, ?Hb; try done; try apply (pg_uuid_in (env:=env)).
  - apply find_identity_Some. split; [apply lookup_insert_eq|done].
  - unfold db2, known. simpl. rewrite lookup_insert_eq. by eexists.
Qed.

Lemma create_step5 (w1 : World X) : w_tick w1 = (14 + n)%nat -> w_db w1 = db3 n ->
  exec (IdentityRepo_UpdateStatus env (ci_TenantID input) (ir_id (new_identity n)) IdentityStatusActive) w1 =
  (ticks 3 (set_db (db4 n) w1), Ok tt).
Proof.
  intros Hb Hdb. rewrite (exec_IdentityRepo_UpdateStatus env _ T _ (ir_id (new_identity n)) _
    (keyed_identity n)); rewrite ?Hdb, ?Hb; try done; try apply (pg_uuid_in (env:=env)).
  - set_solver.
  - apply find_identity_Some. split; [apply lookup_insert_eq|done].
Qed.

Lemma create_step6 (w1 : World X) : w_tick w1 = (17 + n)%nat -> w_db w1 = db4 n ->
  exec (AuditRepo_Insert env (auditEvent (ci_TenantID input) "" "identity" (ir_id (new_identity n))
          (ci_CreatedBy input) true)) w1 = (ticks 4 (set_db (db5 n) w1), Ok tt).
Proof.
  intros Hb Hdb.
  rewrite (exec_AuditRepo_Insert env _ T _ _ _ (ir_id (new_identity n)) _ cb _ (jsonb env (s2b "{}")));
    rewrite ?Hdb, ?Hb; try done; try apply (pg_uuid_in (env:=env)).
  - by apply (jsonb_in_empty env json).
  - apply unused_db4. simpl. lia.
  - by apply tenant_known.
Qed.
End steps.

(** The run of a creation that meets its preconditions, [d] ticks after the
    start when the attributes have been encrypted. *)
Lemma exec_create :
  exists d, let n := (d + w_tick w)%nat in
    exec (CreateIdentity (repos env json) crypto json input) w =
    (ticks (21 + d) (set_keys (new_keys n) (set_db (db5 n) w)),
     Ok (mkIdentityWithKeys
       (set_i_Status IdentityStatusActive
         (set_i_PrimaryKeyID (Some (k_ID (new_key n))) (scanIdentity (new_identity n))))
       [new_key n])).
Proof.
  unfold CreateIdentity. rewrite (proj2 (validate_identity_ok _) Hvalid).
  rewrite exec_bind. unfold check at 1. rewrite exec_ret. cbv iota.
  rewrite exec_bind, exec_mapErr. simpl Tenants_GetByID.
  rewrite (exec_TenantRepo_GetByID env _ T) by done. rewrite Htenant.
  simpl t_Status. rewrite Hactive. simpl (negb _). cbv iota.
  rewrite exec_bind, exec_mapErr.
  destruct (exec_encryptAttributes (ci_Attributes input) (ticks 1 w) Hattrs) as [m Hm].
  rewrite Hm, ticks_ticks, w_tick_ticks. cbv iota. clear Hm.
  exists (m + 1)%nat. cbv zeta. set (n := (m + 1 + w_tick w)%nat). assert (w_tick w <= n)%nat as Hle by (subst n; lia).
  assert (w_tick (ticks (m + 1) w) = n) as Hn by by rewrite w_tick_ticks.
  rewrite exec_bind, exec_mapErr. simpl Identities_Create.
  fold pending_identity. rewrite (create_step1 n Hle) by done. cbv iota beta.
  rewrite exec_bind, exec_mapErr. rewrite exec_GenerateEd25519Key by apply pg_uuid_nonempty.
  cbv iota beta. rewrite exec_bind, exec_mapErr.
  world_simpl. fold n. simpl Keys_Create. simpl i_ID.
  change (ir_id (new_identity n)) with (ir_id (new_identity n)).
  fold (new_keys n). fold (active_key n).
  rewrite (create_step3 n Hle) by (by world_simpl). cbv iota beta.
  rewrite exec_bind, exec_mapErr. simpl Identities_SetPrimaryKey.
  rewrite (create_step4 n) by (by world_simpl). cbv iota beta.
  rewrite exec_bind, exec_mapErr. simpl Identities_UpdateStatus.
  rewrite (create_step5 n) by (by world_simpl). cbv iota beta.
  rewrite exec_bind, exec_mapErr. simpl Audit_Insert.
  rewrite (create_step6 n Hle) by (by world_simpl). cbv iota beta.
  rewrite exec_ret. world_simpl. done.
Qed.

(** C15. A creation that meets its preconditions (valid input in texts without NUL,
    active tenant, free handle, known creator) succeeds.  It adds exactly one identity row,
    active, of version 1, with the handle asked for, and exactly one key row,
    active, for signing, of that identity; the identity's primary key is that
    key; the key store gains one private key under the key's reference, whose
    signatures verify with the public key recorded; and two audit events are
    appended, the second without an event type. *)
Theorem CreateIdentity_succeeds :
  exists w' res row key pub priv e1 e2,
    exec (CreateIdentity (repos env json) crypto json input) w = (w', Ok res) /\
    (iwk_Keys res = [key] /\ i_ID (iwk_Identity res) = ir_id row /\
     i_Status (iwk_Identity res) = IdentityStatusActive /\
     i_PrimaryKeyID (iwk_Identity res) = Some (k_ID key)) /\
    (db_identities (w_db w') = <[ir_id row := row]> (db_identities (w_db w)) /\
     db_identities (w_db w) !! ir_id row = None /\
     ir_tenant_id row = T /\ ir_handle row = ci_Handle input /\ ir_type row = ci_Type input /\
     ir_status row = IdentityStatusActive /\ ir_version row = 1 /\
     ir_primary_key_id row = Some (k_ID key)) /\
    (db_keys (w_db w') = <[k_ID key := key]> (db_keys (w_db w)) /\
     db_keys (w_db w) !! k_ID key = None /\
     k_IdentityID key = ir_id row /\ k_TenantID key = T /\
     k_Status key = KeyStatusActive /\ k_Purpose key = KeyPurposeSigning) /\
    (w_keys w' = <[k_KeyRef key := Ed25519PrivateKey priv]> (w_keys w) /\
     pkix_ed25519 p pub = k_PublicKey key /\
     forall msg, ed25519_Verify p pub msg (ed25519_Sign p priv msg) = true) /\
    (db_audit (w_db w') = (db_audit (w_db w) ++ [e1; e2])%list /\
     a_EventType e1 = AuditEventIdentityCreated /\ a_EventType e2 = ""%string /\
     a_EntityID e1 = ir_id row /\ a_EntityID e2 = ir_id row).
Proof.
  destruct exec_create as [d Hd]. cbv zeta in Hd. set (n := (d + w_tick w)%nat) in *.
  eexists _, _, (final_identity n), (new_key n), (fst (pair (7 + n))), (snd (pair (7 + n))),
    (created_event env json T (new_identity n) (5 + n)), (final_event n).
  split; [exact Hd|]. world_simpl. split_and!; try done.
  - cbn [db5 db4 db3 db2 db1 add_audit put_identity set_identities put_key set_keys_table db_identities].
    simpl ir_id. by rewrite !insert_insert_eq.
  - apply Hfree. lia.
  - simpl. apply Hfree. lia.
  - simpl. destruct (pkix_ed25519_total (p:=p) (drawn (7 + n) 32)) as [der Hder].
    unfold pair. simpl in Hder. by rewrite Hder.
  - intros msg. pose proof (ed25519_Verify_Sign (p:=p) (drawn (7 + n) 32) msg) as H.
    change (ed25519_GenerateKey p (drawn (7 + n) 32)) with (pair (S (S (S (S (S (S (S n)))))))) in H.
    by destruct (pair _).
  - simpl. by rewrite <- app_assoc.
Qed.
End success.
End create.

(** ** On concrete tables *)

Definition demo_attributes : attributes := <["email" := AString "carol@acme.test"]> ∅.
Definition demo_create : CreateIdentityInput :=
  mkCreateIdentityInput "t1" "human" "Carol" "carol" None demo_attributes.

Lemma demo_marshals : is_Some (marshal_attributes demo_json demo_attributes).
Proof. vm_compute. by eexists. Defined.

Lemma demo_decoded : decoded demo_json demo_attributes.
Proof. exists (demo_marshal [("email", "carol@acme.test")]). vm_compute. reflexivity. Qed.

Lemma attributes_round_trip_witness :
  let w := demo_world "active" "active" in
  exists w' stored,
    exec (encryptAttributes demo_crypto demo_json demo_attributes) w = (w', Ok (Some stored)) /\
    i_DecryptedAttributes (set_i_DecryptedAttributes demo_attributes
      (scanIdentity (demo_identity "alice" "t1" "alice" "active" "k1"))) = demo_attributes.
Proof.
  intros w.
  destruct (attributes_round_trip (X:=unit) demo_env demo_prims demo_IDKey demo_json demo_cfg
    eq_refl demo_attributes (scanIdentity (demo_identity "alice" "t1" "alice" "active" "k1")) w)
    as (w' & stored & He & _); [by vm_compute|apply demo_decoded|apply demo_marshals|].
  exists w', stored. split; [exact He|reflexivity].
Defined.

Lemma demo_carol_free : handle_free demo_env "t1" "carol" (db_identities (demo_db "active" "active")).
Proof. apply forall_entries. repeat constructor; vm_compute; intuition discriminate. Qed.

Lemma CreateIdentity_succeeds_witness :
  exists w' res,
    exec (CreateIdentity demo_repos demo_crypto demo_json demo_create)
      (demo_world "active" "active") = (w', Ok res) /\
    i_Status (iwk_Identity res) = IdentityStatusActive.
Proof.
  destruct (CreateIdentity_succeeds (X:=unit) demo_env demo_prims demo_IDKey demo_json demo_cfg
    eq_refl demo_create "t1" (demo_tenant "t1" "acme" "active") None
    (demo_world "active" "active"))
    as (w' & res & row & key & pub & priv & e1 & e2 & He & (_ & _ & Hs & _) & _).
  - split; simpl; try done; lia.
  - done.
  - set_solver.
  - done.
  - right. apply demo_marshals.
  - apply demo_db_ok; set_solver.
  - apply demo_unused.
  - done.
  - done.
  - apply known_opt_None.
  - done.
  - done.
  - exact demo_carol_free.
  - exists w', res. split; [exact He|exact Hs].
Defined.

(** Creating an identity is not atomic: when the insertion of its key fails
    (here the command of tick 11 does), the call returns an error, yet the
    identity stays in the table, pending, without a key and with its handle
    taken, so that the same request retried is refused with ErrHandleTaken. *)
Theorem CreateIdentity_leaves_partial_state :
  let input := mkCreateIdentityInput "t1" "human" "Carol" "carol" None ∅ in
  let env := demo_env_fault 11 in
  let run := exec (CreateIdentity (repos env demo_json)
    (cryptoSvc env demo_prims demo_IDKey demo_json demo_cfg) demo_json input) in
  let '(w', res) := run (demo_world "active" "active") in
  let '(w'', res') := run w' in
  (exists e, res = Err e) /\
  (fun r => (ir_handle r, ir_status r, ir_primary_key_id r)) <$>
    db_identities (w_db w') !! "id-4"%string = Some ("carol", "pending", None)%string /\
  res' = Err (ESentinel ErrHandleTaken) /\
  db_identities (w_db w'') = db_identities (w_db w').
Proof. vm_compute. split; [by eexists|]. repeat split. Qed.
