(* ===== verification/UpdateFacts.v ===== *)
(** * UpdateFacts: updating an identity under optimistic locking *)

From Stdlib Require Import ZArith Lia Ascii String.
From stdpp Require Import base list sorting strings numbers gmap.
From S2P Require Import Prelude Bytes Errors Model Repository World Schema Postgres TenantService.
From S2P Require Import IdentityService KeyService Crypto Argon2 SchemaFacts StatementFacts.
From S2P Require Import Guarantees Integrity Runs System Demo SystemFacts IdentityFacts.
Open Scope Z_scope.

Section locking.
Context {X : Type} (env : Env) (p : Prims) (IDKey : idkey) (json : Codec) (cfg : CryptoConfig).
Context `{!EnvOk env}.
Implicit Types w : World X.
Abbreviation run_call := (run_call (X:=X) env p IDKey json cfg).

Section row.
Context (I : string) (v : Z).

(** Version [v] of identity [I] may still be updated. *)
Definition version_open (w : World X) : bool :=
  match db_identities (w_db w) !! I with
  | Some r => ir_version r <=? v
  | None => true
  end.
Definition row_exists (w : World X) : Prop :=
  db_ok env (w_db w) /\ known (db_identities (w_db w)) I.

Lemma evolves_spends w w' :
  db_steps (evolves env) w w' -> spends row_exists version_open w w'.
Proof.
  intros [[Hok _ Hid _ _ _] _] [Hdb [r Hr]]. destruct (Hid _ _ Hr) as (r' & Hr' & Hf).
  split; [split; [auto|by exists r']|].
  unfold version_open. rewrite Hr, Hr'. rewrite !Z.leb_gt. destruct Hf. lia.
Qed.

Lemma GetByID_yields t id :
  uuid_in env id = Some I ->
  yields row_exists (on_ok (fun i => uuid_in env (i_ID i) = Some I))
    (IdentityRepo_GetByID (X:=X) env t id).
Proof.
  intros Hid. unfold IdentityRepo_GetByID, withTenantConn.
  apply yields_then; intros _. apply yields_then; intros _. apply yields_mapErr.
  intros w [Hok _]. simpl. destruct (pg_fault _ _); simpl; [by intros ? [=]|].
  unfold sqlIdentityGetByID, uuid_col. rewrite Hid.
  destruct (uuid_in env t) as [T|]; simpl; [|by intros ? [=]].
  unfold answer. destruct (pg_lost _ _); simpl; [by intros ? [=]|].
  destruct (find_identity _ T I) as [r|] eqn:Hr; simpl; [|by intros ? [=]].
  intros i [= <-]. simpl. apply find_identity_Some in Hr as [Hr _].
  destruct (ok_identities _ _ Hok _ _ Hr) as [-> _ _ _ _ _ _]. by eapply uuid_in_idem.
Qed.

(** The update finds no row, whether the answer arrives or not. *)
Ltac no_row := right; unfold answer; try destruct (pg_lost _ _); simpl; by intros [? [=]].

Lemma Update_disarms i :
  uuid_in env (i_ID i) = Some I -> i_Version i = v ->
  must_disarm row_exists version_open is_ok (IdentityRepo_Update (X:=X) env i).
Proof.
  intros Hi Hv. unfold IdentityRepo_Update, withTenantConn.
  apply must_disarm_later; intros _. apply must_disarm_later; intros _.
  apply must_disarm_mapErr. unfold QueryRow.
  intros w _. simpl. destruct (pg_fault _ _); simpl; [no_row|].
  unfold sqlIdentityUpdate, uuid_col. rewrite Hi.
  destruct (uuid_in env (i_TenantID i)) as [T|]; simpl; [|no_row].
  destruct (find_identity _ T I) as [r|] eqn:Hr; simpl; [|no_row].
  apply find_identity_Some in Hr as [Hr _].
  destruct (Z.eqb_spec (ir_version r) (i_Version i)) as [He|]; simpl; [|no_row].
  destruct (_ <? int64_max); simpl; [|no_row].
  destruct (i_Attributes i) as [a|]; simpl; [|no_row].
  left. unfold version_open. simpl. rewrite Hr, lookup_insert_eq. simpl.
  rewrite Z.leb_le, Z.leb_gt. lia.
Qed.

Lemma UpdateIdentity_disarms input :
  uuid_in env (ui_ID input) = Some I -> ui_Version input = v ->
  must_disarm row_exists version_open is_ok (run_call (CallUpdateIdentity input)).
Proof.
  intros Hid Hv. simpl. unfold finish, UpdateIdentity. apply must_disarm_here.
  case_match; [by intros [? [=]]|].
  eapply must_disarm_after; [by apply yields_mapErr, GetByID_yields|].
  intros i Hi. apply must_disarm_later. intros attrs.
  apply must_disarm_here, must_disarm_mapErr. by apply Update_disarms.
Qed.
End row.

(** C5. Optimistic locking is safe under concurrency: of two updates of the
    same identity that carry the same version, at most one succeeds, whatever
    other calls run with them and however all of them interleave. *)
Theorem one_update_per_version calls sched w i j in1 in2 I :
  db_ok env (w_db w) -> is_Some (db_identities (w_db w) !! I) ->
  i <> j ->
  calls !! i = Some (CallUpdateIdentity in1) -> calls !! j = Some (CallUpdateIdentity in2) ->
  uuid_in env (ui_ID in1) = Some I -> uuid_in env (ui_ID in2) = Some I ->
  ui_Version in1 = ui_Version in2 ->
  let ps := snd (run_sched sched w (run_call <$> calls)) in
  ~ (ps !! i = Some (Ret (Ok tt)) /\ ps !! j = Some (Ret (Ok tt))).
Proof.
  intros Hok Hrow Hij Hi Hj H1 H2 Hv ps [Hpi Hpj].
  destruct (run_sched_steps sched w (run_call <$> calls)) as [tr Htr].
  eapply (one_winner (row_exists I) (version_open I (ui_Version in1)) is_ok);
    [exact Htr| |by split|exact Hij|by rewrite list_lookup_fmap, Hi
    |by apply UpdateIdentity_disarms|by rewrite list_lookup_fmap, Hj
    |by apply UpdateIdentity_disarms|exact Hpi|exact Hpj|by split; eexists].
  apply Forall_fmap, list.Forall_true. intros c. simpl.
  eapply steps_in_mono; [|apply call_evolves]. apply evolves_spends.
Qed.
End locking.

(** ** Reading attributes back *)

Section attributes.
Context {X : Type} (env : Env) (p : Prims) (IDKey : idkey) (json : Codec) (cfg : CryptoConfig).
Implicit Types w : World X.
Abbreviation run_call := (run_call (X:=X) env p IDKey json cfg).
Abbreviation crypto := (cryptoSvc (X:=X) env p IDKey json cfg).

Lemma calls_keep_no_ivs calls sched w :
  no_ivs (w_db w) -> no_ivs (w_db (fst (run_sched sched w (run_call <$> calls)))).
Proof.
  apply kept_no_ivs, (pool_run env p IDKey json cfg (db_steps keeps_no_ivs)), list.Forall_true.
  intros c. apply call_steps_all; apply _.
Qed.

Lemma exec_GetByID_Ok t id w w' i :
  exec (IdentityRepo_GetByID env t id) w = (w', Ok i) ->
  exists r I, db_identities (w_db w) !! I = Some r /\ i = scanIdentity r.
Proof.
  unfold IdentityRepo_GetByID.
  match goal with |- context [withTenantConn env t (fun _ => mapErr ?g (QueryRow env ?f ?scan))] =>
    destruct (conn_reads env t g f scan w) as (w2 & _ & [[e ->]|(n & r & Hr & ->)]) end;
    [apply sqlIdentityGetByID_reads|done|].
  intros [= _ <-]. unfold sqlIdentityGetByID, uuid_col in Hr.
  destruct (uuid_in env t) as [T|]; [|done]. destruct (uuid_in env id) as [I|]; [|done].
  simpl in Hr. injection Hr as Hr. apply find_identity_Some in Hr as [Hr _]. eauto.
Qed.

Lemma decrypt_empty i w :
  i_Attributes i = Some [] -> exec (decryptAttributes crypto json i) w = (w, Ok i).
Proof. intros Hi. unfold decryptAttributes. by rewrite Hi. Qed.

(** C38. Attributes are written but never read back: the scan of an identity
    puts the column attributes_iv, which no operation fills, over the column
    attributes.  So from tables without such values, after any calls however
    interleaved, whatever attributes were stored, an identity that GetIdentity
    returns has no decrypted attributes. *)
Theorem attributes_never_read_back calls sched w t id w' i :
  no_ivs (w_db w) ->
  exec (GetIdentity (repos env json) crypto json t id)
       (fst (run_sched sched w (run_call <$> calls))) = (w', Ok i) ->
  i_DecryptedAttributes i = ∅ /\ i_Attributes i = Some [].
Proof.
  intros Hw. apply (calls_keep_no_ivs calls sched) in Hw. revert Hw.
  generalize (fst (run_sched sched w (run_call <$> calls))). intros w1 Hw1.
  unfold GetIdentity. rewrite exec_bind, exec_mapErr. simpl Identities_GetByID.
  destruct (exec (IdentityRepo_GetByID env t id) w1) as [w2 [j|e|s]] eqn:Hget; [|done..].
  apply exec_GetByID_Ok in Hget as (r & I & Hr & ->).
  apply (map_Forall_lookup_1 _ _ _ _ Hw1) in Hr. simpl in Hr.
  rewrite exec_mapErr, decrypt_empty by (simpl; by rewrite Hr).
  intros [= _ <-]. simpl. by rewrite Hr.
Qed.
End attributes.

(** ** An update run alone *)

Section update.
Context {X : Type} (env : Env) (p : Prims) (IDKey : idkey) (json : Codec) (cfg : CryptoConfig).
Context `{!Reliable env, !EnvOk env, !CodecOk env json, !PrimsOk p}.
Context (Hkey : List.length (MasterKey cfg) = 32%nat).
Implicit Types w : World X.
Abbreviation crypto := (cryptoSvc (X:=X) env p IDKey json cfg).

Lemma server_error_found code : isNotFound (pgerr env code) = false.
Proof. unfold isNotFound, pgerr. simpl. apply String.eqb_neq, pg_text_text. Qed.

(** The row after an update by the command of tick [n]. *)
Definition updated_row (i : Identity) (attrs : bytes) (n : nat) (r : IdentityRow) : IdentityRow :=
  mkIdentityRow (ir_id r) (ir_tenant_id r) (ir_type r) (i_DisplayName i) (ir_handle r)
    (ir_status r) (ir_primary_key_id r) attrs [] (ir_created_by r)
    (ir_version r + 1) (ir_created_at r) (pg_now env n) (ir_deactivated_at r).

Lemma exec_IdentityRepo_Update i T I r w :
  uuid_in env (i_TenantID i) = Some T -> uuid_in env (i_ID i) = Some I ->
  find_identity (w_db w) T I = Some r -> ir_id r = I -> ir_version r < int64_max ->
  exec (IdentityRepo_Update env i) w =
  if ir_version r =? i_Version i then
    match i_Attributes i with
    | None => (ticks 3 w, Err (EWrap "postgres: update identity" (pgerr env "23502")))
    | Some attrs =>
      let r' := updated_row i attrs (2 + w_tick w) r in
      (ticks 3 (set_db (put_identity r' (w_db w)) w), Ok (scanIdentity r'))
    end
  else (ticks 3 w, Err (VersionConflictError "identity" (i_ID i) (i_Version i) 0)).
Proof.
  intros HT HI Hr Hri Hv. unfold IdentityRepo_Update.
  rewrite (exec_withTenantConn env), exec_mapErr, (exec_QueryRow env).
  unfold sqlIdentityUpdate, uuid_col. rewrite HT, HI. simpl. rewrite w_db_ticks, Hr.
  destruct (ir_version r =? i_Version i) eqn:He; simpl.
  - rewrite (proj2 (Z.ltb_lt _ _)) by done. simpl.
    destruct (i_Attributes i) as [a|]; simpl.
    + rewrite w_tick_ticks. unfold put_identity, updated_row. simpl. rewrite Hri.
      by rewrite ticks_set_db, ticks_ticks.
    + by rewrite server_error_found, ticks_ticks.
  - world_simpl. by rewrite set_db_same.
Qed.

(** C19. UpdateIdentity run alone, on every branch.  An unknown identity is not
    found; a stale version is a version conflict; an update without attributes
    of an identity that exists always fails, because nil attributes reach a NOT
    NULL column; in these cases no table changes.  An update with attributes
    and the current version stores the name and the sealed attributes in that
    row, increments its version and changes nothing else. *)
Theorem UpdateIdentity_branches input T I w :
  ui_DisplayName input <> ""%string ->
  uuid_in env (ui_TenantID input) = Some T -> uuid_in env (ui_ID input) = Some I ->
  db_ok env (w_db w) ->
  size (ui_Attributes input) = 0%nat \/ is_Some (marshal_attributes json (ui_Attributes input)) ->
  (forall r, find_identity (w_db w) T I = Some r -> ir_version r < int64_max) ->
  exists w' n, exec (UpdateIdentity (repos env json) crypto json input) w =
  match find_identity (w_db w) T I with
  | None => (w', Err (NotFoundError "identity" (ui_ID input)))
  | Some r =>
    if negb (ir_version r =? ui_Version input)
    then (w', Err (VersionConflictError "identity" I (ui_Version input) 0))
    else match sealed env p json cfg (3 + w_tick w) (ui_Attributes input) with
         | None => (w', Err (EWrap "update identity"
                              (EWrap "postgres: update identity" (pgerr env "23502"))))
         | Some attrs =>
           (w', Ok (scanIdentity (updated_row (set_i_DisplayName (ui_DisplayName input)
                      (scanIdentity r)) attrs n r)))
         end
  end /\
  w_db w' =
  match find_identity (w_db w) T I, sealed env p json cfg (3 + w_tick w) (ui_Attributes input) with
  | Some r, Some attrs =>
    if ir_version r =? ui_Version input
    then put_identity (updated_row (set_i_DisplayName (ui_DisplayName input) (scanIdentity r))
           attrs n r) (w_db w)
    else w_db w
  | _, _ => w_db w
  end.
Proof.
  intros Hname HT HI Hok Hattrs Hmax. unfold UpdateIdentity.
  rewrite (proj2 (String.eqb_neq _ _) Hname), exec_bind, exec_mapErr. simpl Identities_GetByID.
  rewrite (exec_IdentityRepo_GetByID env _ T _ I) by done.
  destruct (find_identity (w_db w) T I) as [r|] eqn:Hr; [|by eexists _, 0%nat].
  pose proof (proj1 (find_identity_Some _ _ _ _) Hr) as [HrI HrT].
  destruct (ok_identities _ _ Hok _ _ HrI) as [Hri _ _ _ _ _ _].
  rewrite exec_bind, exec_mapErr.
  destruct (exec_encryptAttributes env p IDKey json cfg Hkey (ui_Attributes input) (ticks 3 w) Hattrs)
    as [m Hm]. rewrite Hm, ticks_ticks, w_tick_ticks. cbv iota beta.
  rewrite exec_bind, exec_mapErr. simpl Identities_Update.
  rewrite (exec_IdentityRepo_Update _ T I r); [|simpl..].
  2:{ rewrite HrT. by eapply uuid_in_idem. }
  2:{ rewrite Hri. by eapply uuid_in_idem. }
  2-4: by auto.
  cbn [i_Version i_Attributes set_i_Version set_i_Attributes set_i_DisplayName].
  destruct (ir_version r =? ui_Version input) eqn:Hv; simpl negb; cbv iota.
  - destruct (sealed _ _ _ _ _ _) as [attrs|]; [|by eexists _, 0%nat].
    rewrite exec_mapErr, decrypt_empty by done. rewrite w_tick_ticks.
    eexists _, (2 + (m + 3 + w_tick w))%nat. split; [done|]. by world_simpl.
  - simpl i_ID. rewrite Hri. eexists _, 0%nat. split; [done|]. by destruct (sealed _ _ _ _ _ _).
Qed.
End update.

(** ** On concrete tables *)

Definition demo_update (name : string) : UpdateIdentityInput :=
  mkUpdateIdentityInput "t1" "alice" name demo_attributes 1 None.

Lemma one_update_per_version_witness :
  let ps := snd (run_sched (replicate 4 0%nat ++ replicate 12 1%nat ++ replicate 12 0%nat)%list
    (demo_world "active" "active")
    (run_call demo_env demo_prims demo_IDKey demo_json demo_cfg <$>
       [CallUpdateIdentity (demo_update "A"); CallUpdateIdentity (demo_update "B")])) in
  ~ (ps !! 0%nat = Some (Ret (Ok tt)) /\ ps !! 1%nat = Some (Ret (Ok tt))).
Proof.
  refine (one_update_per_version demo_env demo_prims demo_IDKey demo_json demo_cfg
    _ _ _ 0%nat 1%nat (demo_update "A") (demo_update "B") "alice" _ _ _ _ _ _ _ _).
  - apply demo_db_ok; set_solver.
  - vm_compute. by eexists.
  - done.
  - reflexivity.
  - reflexivity.
  - reflexivity.
  - reflexivity.
  - reflexivity.
Defined.

Lemma demo_no_ivs alice_status key_status : no_ivs (demo_db alice_status key_status).
Proof. apply forall_entries. repeat constructor. Qed.

Lemma attributes_never_read_back_witness :
  let w := demo_world "active" "active" in
  let calls := [CallUpdateIdentity (demo_update "Alice B")] in
  let w1 := fst (run_sched (replicate 12 0%nat) w
    (run_call demo_env demo_prims demo_IDKey demo_json demo_cfg <$> calls)) in
  (ir_version <$> db_identities (w_db w1) !! "alice"%string) = Some 2 /\
  exists w' i, exec (GetIdentity demo_repos demo_crypto demo_json "t1" "alice") w1 = (w', Ok i) /\
    i_DecryptedAttributes i = ∅.
Proof.
  intros w calls w1. split; [vm_compute; reflexivity|].
  destruct (exec (GetIdentity demo_repos demo_crypto demo_json "t1" "alice") w1) as [w' [i|e|s]] eqn:He;
    [|exfalso; revert He; vm_compute; discriminate..].
  exists w', i. split; [reflexivity|].
  apply (attributes_never_read_back demo_env demo_prims demo_IDKey demo_json demo_cfg
    calls (replicate 12 0%nat) w "t1" "alice" w' i (demo_no_ivs _ _) He).
Defined.

Lemma demo_find_alice :
  find_identity (w_db (demo_world "active" "active")) "t1" "alice" =
  Some (demo_identity "alice" "t1" "alice" "active" "k1").
Proof. vm_compute. reflexivity. Qed.

Lemma UpdateIdentity_branches_witness :
  exists w' i, exec (UpdateIdentity demo_repos demo_crypto demo_json (demo_update "Alice B"))
    (demo_world "active" "active") = (w', Ok i) /\ i_Version i = 2.
Proof.
  destruct (UpdateIdentity_branches (X:=unit) demo_env demo_prims demo_IDKey demo_json demo_cfg
    eq_refl (demo_update "Alice B") "t1" "alice" (demo_world "active" "active")) as (w' & n & He & _).
  - done.
  - done.
  - done.
  - apply demo_db_ok; set_solver.
  - right. apply demo_marshals.
  - intros r Hr. rewrite demo_find_alice in Hr. injection Hr as <-. reflexivity.
  - rewrite demo_find_alice in He.
    simpl negb in He. cbv iota in He.
    destruct (sealed _ _ _ _ _ _) eqn:Hs; [|exfalso; revert Hs; vm_compute; discriminate].
    eexists w', _. split; [exact He|reflexivity].
Defined.
