(* ===== verification/ListFacts.v ===== *)
(** * ListFacts: listing identities

    The query of [ListIdentities] (filter, order, limit and offset) against a
    declarative page: the selected rows, each once, sorted, cut out at the
    requested place. *)

From Stdlib Require Import ZArith Lia Ascii String.
From stdpp Require Import base list sorting strings numbers gmap.
From S2P Require Import Prelude Bytes Errors Model Repository World Schema Postgres TenantService.
From S2P Require Import IdentityService KeyService Crypto Argon2 SchemaFacts StatementFacts.
From S2P Require Import Guarantees Integrity Runs System Demo UpdateFacts.
Open Scope Z_scope.

(** ** The parts of a list query *)

Lemma elem_of_rows_where {A} (P : A -> bool) (m : gmap string A) x :
  x ∈ rows_where P m <-> P x = true /\ exists id : string, m !! id = Some x.
Proof.
  unfold rows_where. rewrite list_elem_of_filter, Is_true_true, list_elem_of_fmap. split.
  - intros [? ([id y] & -> & Hin%elem_of_map_to_list)]. eauto.
  - intros [? [id Hid]]. split; [done|]. exists (id, x). split; [done|]. by apply elem_of_map_to_list.
Qed.

Lemma NoDup_rows_where {A} (P : A -> bool) (m : gmap string A) (id_of : A -> string) :
  map_Forall (fun id x => id_of x = id) m -> NoDup (id_of <$> rows_where P m).
Proof.
  intros Hm. unfold rows_where.
  assert (id_of <$> (snd <$> map_to_list m) = fst <$> map_to_list m) as Hfst.
  { rewrite <- list_fmap_compose. apply list_fmap_ext. intros i [k x] Hk. simpl.
    apply Hm, elem_of_map_to_list. by eapply list_elem_of_lookup_2. }
  apply (sublist_NoDup _ (id_of <$> (snd <$> map_to_list m))).
  - rewrite Hfst. apply NoDup_fst_map_to_list.
  - apply fmap_sublist, sublist_filter.
Qed.

(** Sorting by an instant. *)
Section by_time.
Context {A} (at_ : A -> time).
Definition earlier (dsc : bool) (x y : A) : Prop := if dsc then at_ y <= at_ x else at_ x <= at_ y.

Lemma order_by_spec (dsc : bool) (l : list A) :
  let le (x y : A) := at_ x <=? at_ y in
  let sorted := order_by (if dsc then desc le else le) l in
  sorted ≡ₚ l /\ StronglySorted (earlier dsc) sorted.
Proof.
  intros le sorted. unfold sorted, order_by. split; [apply merge_sort_Permutation|].
  set (R := fun x y => Is_true ((if dsc then desc le else le) x y)).
  assert (forall x y, R x y <-> earlier dsc x y) as HR.
  { intros x y. unfold R, earlier, desc, le. rewrite Is_true_true. destruct dsc; apply Z.leb_le. }
  assert (Transitive R) by (intros x y z; rewrite !HR; unfold earlier; destruct dsc; lia).
  assert (Total R) by (intros x y; rewrite !HR; unfold earlier; destruct dsc; lia).
  assert (StronglySorted R (merge_sort R l)) as Hs by by apply (StronglySorted_merge_sort R).
  clear -HR Hs. induction Hs as [|x xs _ IH Hall]; constructor; [done|].
  eapply list.Forall_impl; [exact Hall|]. intros y. apply HR.
Qed.
End by_time.

Lemma limit_offset_page {A} lim off (l : list A) :
  limit_offset lim off l =
  let rest := drop (Z.to_nat off) l in if 0 <? lim then take (Z.to_nat lim) rest else rest.
Proof.
  unfold limit_offset. destruct (Z.ltb_spec 0 off); [done|].
  by replace (Z.to_nat off) with 0%nat by lia.
Qed.

Lemma elem_of_page {A} lim off (l : list A) x : x ∈ limit_offset lim off l -> x ∈ l.
Proof.
  rewrite limit_offset_page. cbv zeta. case_match; intros Hx.
  - by eapply subseteq_drop, subseteq_take.
  - by eapply subseteq_drop.
Qed.

(** ** The service *)

(** What a filter asks of a row of the tenant. *)
Definition selected (T : string) (f : IdentityFilter) (r : IdentityRow) : Prop :=
  ir_tenant_id r = T /\ (forall s, if_Type f = Some s -> ir_type r = s) /\
  (forall s, if_Status f = Some s -> ir_status r = s).
(** The labels it names exist. *)
Definition filter_ok (f : IdentityFilter) : Prop :=
  (forall s, if_Type f = Some s -> s ∈ identity_type) /\
  (forall s, if_Status f = Some s -> s ∈ identity_status).

Lemma if_eq_true o s : if_eq o s = true <-> forall x, o = Some x -> s = x.
Proof.
  destruct o as [x|]; simpl; [|by split]. rewrite String.eqb_eq. split.
  - by intros <- ? [= <-].
  - intros H. symmetry. by apply H.
Qed.

Section list.
Context {X : Type} (env : Env) (p : Prims) (IDKey : idkey) (json : Codec) (cfg : CryptoConfig).
Context `{!Reliable env}.
Implicit Types w : World X.
Abbreviation crypto := (cryptoSvc (X:=X) env p IDKey json cfg).
Abbreviation repos := (repos (X:=X) env json).

Lemma enum_filter labels o :
  (forall s, o = Some s -> s ∈ labels) ->
  exists s, match o with None => inr ""%string | Some s => enum_in env labels s end = inr s.
Proof.
  intros Ho. destruct o as [s|]; [|by eexists]. exists s. unfold enum_in.
  by rewrite bool_decide_eq_true_2 by by apply Ho.
Qed.

(** Rows without stored vectors decrypt to themselves. *)
Lemma exec_decrypt_all (rows : list IdentityRow) w :
  Forall (fun r => ir_attributes_iv r = []) rows ->
  exec (mapM (fun i => mapErr (EWrap ("decrypt attributes for " +:+ i_ID i))
                         (decryptAttributes crypto json i)) (scanIdentity <$> rows)) w =
  (w, Ok (scanIdentity <$> rows)).
Proof.
  induction 1 as [|r rows Hr _ IH]; [done|]. rewrite fmap_cons. cbn [mapM].
  rewrite exec_bind, exec_mapErr, decrypt_empty by (simpl; by rewrite Hr).
  cbv iota beta. by rewrite exec_bind, IH.
Qed.

(** C20. Listing identities.  ListIdentities in the order the transports ask for
    returns one page of the tenant's identities that the filter selects, each
    once, ordered by creation time, oldest first unless Desc is set: the page
    starts after [Offset] of them and has as many of the rest as [Limit]
    allows; a Limit or Offset of zero or less is no bound.  The tables do not
    change. *)
Theorem ListIdentities_page t T f w :
  uuid_in env t = Some T -> filter_ok f -> no_ivs (w_db w) -> if_OrderBy f = ""%string ->
  exists rows,
    (forall r, r ∈ rows <-> selected T f r /\ exists id, db_identities (w_db w) !! id = Some r) /\
    (map_Forall (fun id r => ir_id r = id) (db_identities (w_db w)) -> NoDup (ir_id <$> rows)) /\
    StronglySorted (earlier ir_created_at (if_Desc f)) rows /\
    let rest := drop (Z.to_nat (if_Offset f)) rows in
    let page := if 0 <? if_Limit f then take (Z.to_nat (if_Limit f)) rest else rest in
    exec (ListIdentities repos crypto json t f) w = (ticks 3 w, Ok (scanIdentity <$> page)).
Proof.
  intros Ht [Hty Hst] Hno Hord.
  set (P := fun r => String.eqb (ir_tenant_id r) T && if_eq (if_Type f) (ir_type r) &&
    if_eq (if_Status f) (ir_status r)).
  destruct (order_by_spec ir_created_at (if_Desc f) (rows_where P (db_identities (w_db w)))) as [Hp Hs].
  eexists. split; [|split; [|split; [exact Hs|]]].
  - intros r. rewrite Hp, elem_of_rows_where. unfold P, selected.
    rewrite !andb_true_iff, String.eqb_eq, !if_eq_true. tauto.
  - intros Hids. rewrite Hp. by apply NoDup_rows_where.
  - intros rest page. unfold ListIdentities. rewrite exec_bind, exec_mapErr.
    simpl Identities_List. unfold IdentityRepo_List. rewrite Hord. simpl String.eqb. cbv iota.
    rewrite (exec_withTenantConn env), exec_bind, exec_mapErr. unfold Returning.
    rewrite (exec_pg_command env). unfold sqlIdentityList, uuid_col. rewrite Ht.
    destruct (enum_filter identity_type (if_Type f) Hty) as [s1 Hs1].
    destruct (enum_filter identity_status (if_Status f) Hst) as [s2 Hs2].
    simpl rbind. rewrite Hs1. simpl rbind. rewrite Hs2. simpl rbind. cbv iota beta.
    rewrite exec_ret. cbv iota beta. fold P.
    match goal with |- context [limit_offset ?a ?b ?c] => change c with
      (order_by (if if_Desc f then desc (fun x y => ir_created_at x <=? ir_created_at y)
                 else (fun x y => ir_created_at x <=? ir_created_at y))
         (rows_where P (db_identities (w_db w)))) end.
    rewrite limit_offset_page. fold rest. fold page. rewrite (exec_decrypt_all page).
    + by rewrite set_db_same, ticks_ticks.
    + apply list.Forall_forall. intros r Hr.
      assert (r ∈ rows_where P (db_identities (w_db w))) as Hin.
      { rewrite <- Hp. apply (elem_of_page (if_Limit f) (if_Offset f)). rewrite limit_offset_page.
        exact Hr. }
      apply elem_of_rows_where in Hin as [_ [id Hid]]. exact (Hno id r Hid).
Qed.
End list.

(** The first page of one identity of the demo tenant, newest first. *)
Lemma ListIdentities_page_witness :
  exists rows,
    let w := demo_world "active" "active" in
    let f := mkIdentityFilter None None 1 0 "" true in
    (forall r, r ∈ rows <-> selected "t1" f r /\ exists id, db_identities (w_db w) !! id = Some r) /\
    exec (ListIdentities (repos demo_env demo_json)
      (cryptoSvc demo_env demo_prims demo_IDKey demo_json demo_cfg) demo_json "t1" f) w =
    (ticks 3 w, Ok (scanIdentity <$> take 1 rows)).
Proof.
  destruct (ListIdentities_page demo_env demo_prims demo_IDKey demo_json demo_cfg "t1" "t1"
    (mkIdentityFilter None None 1 0 "" true) (demo_world "active" "active"))
    as (rows & Hrows & _ & _ & Hexec).
  - reflexivity.
  - split; intros s; discriminate.
  - apply map_Forall_to_list. vm_compute. repeat constructor.
  - reflexivity.
  - exists rows. split; [exact Hrows|exact Hexec].
Defined.
