(* ===== verification/TenantFacts.v ===== *)
(** * TenantFacts: creating tenants, finding them, and their status

    [tenant_machine] is the abstract machine of a tenant's status.  Run alone,
    SuspendTenant and ActivateTenant refine it on every branch, and a tenant
    that CreateTenant made is the one that the lookups return. *)

From Stdlib Require Import ZArith Lia Ascii String.
From stdpp Require Import base list sorting strings numbers gmap.
From S2P Require Import Prelude Bytes Errors Model Repository World Schema Postgres TenantService.
From S2P Require Import Crypto Argon2 SchemaFacts StatementFacts Runs System Demo.
From S2P Require Import IdentityFacts ListFacts.
Open Scope Z_scope.

(** ** The abstract machine *)

Inductive tenant_op := TenantSuspend | TenantActivate.

Definition tenant_machine (status : TenantStatus) (o : tenant_op) : option TenantStatus :=
  match o with
  | TenantSuspend =>
    if String.eqb status TenantStatusActive then Some TenantStatusSuspended else None
  | TenantActivate =>
    if String.eqb status TenantStatusDeactivated then None else Some TenantStatusActive
  end.

Section tenants.
Context {X : Type} (env : Env) (json : Codec).
Context `{!Reliable env, !EnvOk env, !CodecOk env json}.
Implicit Types w : World X.
Abbreviation repos := (repos (X:=X) env json).

Definition run_tenant_op (o : tenant_op) (id : string) : M (World X) unit :=
  match o with
  | TenantSuspend => SuspendTenant repos id
  | TenantActivate => ActivateTenant repos id
  end.

(** ** The tables after a command *)

Definition put_tenant (t : Tenant) (db : DB) : DB :=
  set_tenants (<[t_ID t := t]> (db_tenants db)) db.

(** The row inserted for a new tenant by the command of tick [n]. *)
Definition tenant_row (name slug tier status region : string) (n : nat) : Tenant :=
  mkTenant (pg_uuid env n) name slug tier status (Some (jsonb env (s2b "{}"))) region
    (pg_now env n) (pg_now env n).

(** The row after a status change by the command of tick [n]. *)
Definition with_tenant_status (status : string) (n : nat) (t : Tenant) : Tenant :=
  mkTenant (t_ID t) (t_Name t) (t_Slug t) (t_Tier t) status (t_Settings t) (t_DataRegion t)
    (t_CreatedAt t) (pg_now env n).

Lemma exec_TenantRepo_Create name slug tier status region w :
  unused env (w_tick w) (w_db w) -> slug_free env slug (db_tenants (w_db w)) ->
  tier ∈ tenant_tier -> status ∈ tenant_status ->
  let r := tenant_row name slug tier status region (w_tick w) in
  exec (TenantRepo_Create env (mkTenant "" name slug tier status None region 0 0)) w =
  (ticks 1 (set_db (put_tenant r (w_db w)) w), Ok r).
Proof.
  intros Hfree Hslug Htier Hstatus r. unfold TenantRepo_Create. cbn [t_Settings].
  rewrite exec_mapErr, exec_bind. unfold Returning. rewrite (exec_pg_command env).
  unfold sqlTenantInsert, enum_in, jsonb_opt, unique.
  cbn [t_Name t_Slug t_Tier t_Status t_DataRegion].
  rewrite !bool_decide_eq_true_2 by (done || by apply (Hfree (w_tick w))).
  simpl rbind. rewrite (jsonb_in_empty env json). simpl. done.
Qed.

Lemma exec_TenantRepo_Create_taken t w :
  ~ slug_free env (t_Slug t) (db_tenants (w_db w)) -> t_Settings t = None ->
  t_Tier t ∈ tenant_tier -> t_Status t ∈ tenant_status ->
  exec (TenantRepo_Create env t) w = (ticks 1 w, Err (ESentinel ErrAlreadyExists)).
Proof.
  intros Hslug Hset Htier Hstatus. unfold TenantRepo_Create. rewrite Hset.
  rewrite exec_mapErr, exec_bind. unfold Returning. rewrite (exec_pg_command env).
  unfold sqlTenantInsert, enum_in, jsonb_opt, unique.
  rewrite (bool_decide_eq_true_2 (t_Tier t ∈ _)), (bool_decide_eq_true_2 (t_Status t ∈ _)) by done.
  simpl rbind. rewrite (jsonb_in_empty env json). simpl.
  rewrite (bool_decide_eq_false_2 (slug_free _ _ _)) by done.
  by destruct (bool_decide _).
Qed.

Lemma exec_TenantRepo_UpdateStatus id I status t w :
  uuid_in env id = Some I -> status ∈ tenant_status ->
  db_tenants (w_db w) !! I = Some t -> t_ID t = I ->
  exec (TenantRepo_UpdateStatus env id status) w =
  (ticks 1 (set_db (put_tenant (with_tenant_status status (w_tick w) t) (w_db w)) w), Ok tt).
Proof.
  intros Hid Hs Ht HI. unfold TenantRepo_UpdateStatus, Exec.
  rewrite exec_mapErr, (exec_pg_command env).
  unfold sqlTenantUpdateStatus, uuid_col, enum_in. rewrite Hid. simpl.
  rewrite bool_decide_eq_true_2 by done. simpl. rewrite Ht. unfold put_tenant, with_tenant_status. simpl.
  by rewrite HI.
Qed.

(** Slugs are compared without case, and at most one row matches. *)
Lemma head_unique {A} (l : list A) x : x ∈ l -> (forall y, y ∈ l -> y = x) -> head l = Some x.
Proof.
  destruct l as [|y l]; [by intros ?%elem_of_nil|]. intros _ Hall. simpl.
  by rewrite (Hall y (list_elem_of_here _ _)).
Qed.
Lemma exec_TenantRepo_GetBySlug slug id t w :
  indexed (same_slug env) (db_tenants (w_db w)) ->
  db_tenants (w_db w) !! id = Some t -> citext_fold env (t_Slug t) = citext_fold env slug ->
  exec (TenantRepo_GetBySlug env slug) w = (ticks 1 w, Ok (scanTenant t)).
Proof.
  intros Hidx Ht Hslug. unfold TenantRepo_GetBySlug.
  rewrite exec_mapErr, (exec_QueryRow env). unfold sqlTenantGetBySlug.
  rewrite (head_unique _ t).
  - by rewrite set_db_same.
  - apply elem_of_rows_where. split; [by apply String.eqb_eq|by eexists].
  - intros y [Hy%String.eqb_eq [j Hj]]%elem_of_rows_where.
    assert (j = id) as -> by (eapply (Hidx j id y t); [done..|]; congruence). congruence.
Qed.

Lemma unused_put_tenant n db t :
  (forall m, (n <= m)%nat -> t_ID t <> pg_uuid env m) -> unused env n db ->
  unused env n (put_tenant t db).
Proof.
  intros Ht Hfree k Hk. destruct (Hfree k Hk) as (? & ? & ? & ? & ?). split_and!; try done. simpl.
  rewrite lookup_insert_ne; [done|]. by apply Ht.
Qed.
Lemma unused_not_tenant n db id t :
  unused env n db -> db_tenants db !! id = Some t -> forall m, (n <= m)%nat -> id <> pg_uuid env m.
Proof. intros Hfree Ht m Hm ->. destruct (Hfree m Hm) as [Hnone _]. congruence. Qed.
Lemma known_put_tenant t db : known (db_tenants (put_tenant t db)) (t_ID t).
Proof. unfold known, put_tenant. simpl. rewrite lookup_insert_eq. by eexists. Qed.

(** ** The services *)

(** The event of a tenant [I], written by the command of tick [n]. *)
Definition tenant_event (etype I id : string) (n : nat) : AuditEvent :=
  audit_row env I I None (auditEvent id etype "tenant" id None true) n (jsonb env (s2b "{}")).

Lemma exec_tenant_event etype id I w :
  uuid_in env id = Some I -> unused env (w_tick w) (w_db w) -> known (db_tenants (w_db w)) I ->
  exec (AuditRepo_Insert env (auditEvent id etype "tenant" id None true)) w =
  (ticks 4 (set_db (add_audit (tenant_event etype I id (3 + w_tick w)) (w_db w)) w), Ok tt).
Proof.
  intros Hid Hfree Hknown.
  apply (exec_AuditRepo_Insert env id I etype "tenant" id I None None true); try done.
  - apply (jsonb_in_empty env json).
  - apply Hfree. lia.
Qed.

(** The tables after an operation that takes the tenant to [status]. *)
Definition tenant_moved (o : tenant_op) (status id I : string) (t : Tenant) (n : nat) (db : DB) : DB :=
  let db' := put_tenant (with_tenant_status status (1 + n) t) db in
  match o with
  | TenantSuspend => add_audit (tenant_event AuditEventTenantSuspended I id (5 + n)) db'
  | TenantActivate => db'
  end.

(** C17. SuspendTenant and ActivateTenant, run alone, implement the machine of a
    tenant's status: an unknown tenant is not found; a tenant whose status does
    not allow the operation is refused with ErrTenantInactive; in both cases
    the tables do not change.  Otherwise the operation succeeds, the row has
    the new status and the time of the update and keeps everything else, no
    other row changes, and a suspension is recorded in the audit log. *)
Theorem tenant_ops_refine_machine o id I w :
  uuid_in env id = Some I -> db_ok env (w_db w) -> unused env (w_tick w) (w_db w) ->
  exists w', exec (run_tenant_op o id) w =
  match db_tenants (w_db w) !! I with
  | None => (w', Err (NotFoundError "tenant" id))
  | Some t => match tenant_machine (t_Status t) o with
              | None => (w', Err (ESentinel ErrTenantInactive))
              | Some _ => (w', Ok tt)
              end
  end /\
  w_db w' =
  match db_tenants (w_db w) !! I with
  | Some t => match tenant_machine (t_Status t) o with
              | Some status => tenant_moved o status id I t (w_tick w) (w_db w)
              | None => w_db w
              end
  | None => w_db w
  end.
Proof.
  intros Hid Hok Hfree.
  assert (HtI : forall t, db_tenants (w_db w) !! I = Some t -> t_ID t = I)
    by (intros t Ht; apply (ok_tenants _ _ Hok I t Ht)).
  destruct o; unfold run_tenant_op, SuspendTenant, ActivateTenant; simpl Tenants_GetByID;
    rewrite exec_bind, exec_mapErr, (exec_TenantRepo_GetByID env id I) by done;
    destruct (db_tenants (w_db w) !! I) as [t|] eqn:Ht; [|by eexists| |by eexists]; simpl tenant_machine;
    specialize (HtI t eq_refl); simpl t_Status.
  - destruct (String.eqb _ _); [|by eexists]. simpl negb. cbv iota.
    rewrite exec_bind, exec_mapErr. simpl Tenants_UpdateStatus.
    rewrite (exec_TenantRepo_UpdateStatus id I _ t) by (done || by repeat constructor).
    rewrite exec_mapErr. simpl Audit_Insert.
    rewrite (exec_tenant_event AuditEventTenantSuspended id I).
    + eexists. split; [done|]. by world_simpl.
    + done.
    + world_simpl. apply unused_put_tenant; [|by eapply unused_mono; [exact Hfree|lia]].
      intros m Hm. simpl. rewrite HtI. eapply unused_not_tenant; [exact Hfree|exact Ht|lia].
    + world_simpl. rewrite <- HtI. apply (known_put_tenant (with_tenant_status _ _ t)).
  - destruct (String.eqb _ _); [by eexists|].
    rewrite exec_mapErr. simpl Tenants_UpdateStatus.
    rewrite (exec_TenantRepo_UpdateStatus id I _ t) by (done || by repeat constructor).
    eexists. split; [done|]. by world_simpl.
Qed.

(** What a valid creation asks of the tables. *)
Definition creatable (input : CreateTenantInput) : Prop :=
  valid_tenant_input input /\ ct_Tier input ∈ tenant_tier.

(** The row of a created tenant: the caller's name, slug and tier, active, in
    the region "global" unless another is given. *)
Definition created_tenant (input : CreateTenantInput) (n : nat) : Tenant :=
  tenant_row (ct_Name input) (ct_Slug input) (ct_Tier input) TenantStatusActive
    (if String.eqb (ct_DataRegion input) "" then "global" else ct_DataRegion input)%string n.

Lemma exec_CreateTenant input w :
  creatable input -> unused env (w_tick w) (w_db w) ->
  slug_free env (ct_Slug input) (db_tenants (w_db w)) ->
  let t := created_tenant input (w_tick w) in
  exec (CreateTenant repos input) w =
  (ticks 5 (set_db (add_audit (tenant_event AuditEventTenantCreated (t_ID t) (t_ID t) (4 + w_tick w))
     (put_tenant t (w_db w))) w), Ok t).
Proof.
  intros [Hvalid Htier] Hfree Hslug t. unfold CreateTenant.
  rewrite (proj2 (validate_tenant_ok input) Hvalid). simpl check. rewrite exec_bind, exec_ret.
  cbv iota beta. rewrite exec_bind, exec_mapErr. simpl Tenants_Create.
  rewrite exec_TenantRepo_Create by (done || by repeat constructor).
  rewrite exec_bind, exec_mapErr. simpl Audit_Insert.
  rewrite (exec_tenant_event AuditEventTenantCreated _ (t_ID t)).
  - rewrite exec_ret. by world_simpl.
  - apply pg_uuid_in.
  - world_simpl. apply unused_put_tenant; [|by eapply unused_mono; [exact Hfree|lia]].
    intros m Hm Heq. apply (pg_uuid_inj _ _) in Heq. lia.
  - world_simpl. apply (known_put_tenant t).
Qed.

Lemma exec_CreateTenant_taken input w :
  creatable input -> ~ slug_free env (ct_Slug input) (db_tenants (w_db w)) ->
  exec (CreateTenant repos input) w = (ticks 1 w, Err (ESentinel ErrAlreadyExists)).
Proof.
  intros [Hvalid Htier] Hslug. unfold CreateTenant.
  rewrite (proj2 (validate_tenant_ok input) Hvalid). simpl check. rewrite exec_bind, exec_ret.
  cbv iota beta. rewrite exec_bind, exec_mapErr. simpl Tenants_Create.
  by rewrite exec_TenantRepo_Create_taken by (done || by repeat constructor).
Qed.

Lemma slug_not_free id t slug (m : gmap string Tenant) :
  m !! id = Some t -> citext_fold env (t_Slug t) = citext_fold env slug -> ~ slug_free env slug m.
Proof. intros Ht Heq Hfree. exact (Hfree id t Ht Heq). Qed.

(** C18. Creating a tenant.  With a valid input and a slug that no tenant has (in
    any case), CreateTenant succeeds and returns an active tenant with the
    caller's name, slug, tier and region; GetTenant by its id and
    GetTenantBySlug by its slug in any case then return the same tenant, and
    a further creation under the slug is refused with ErrAlreadyExists and
    leaves the tables as they are. *)
Theorem CreateTenant_then_lookup input w :
  creatable input -> db_ok env (w_db w) -> unused env (w_tick w) (w_db w) ->
  slug_free env (ct_Slug input) (db_tenants (w_db w)) ->
  exists w' t, exec (CreateTenant repos input) w = (w', Ok t) /\
    t = created_tenant input (w_tick w) /\
    exec (GetTenant repos (t_ID t)) w' = (ticks 1 w', Ok t) /\
    (forall slug, citext_fold env slug = citext_fold env (ct_Slug input) ->
       exec (GetTenantBySlug repos slug) w' = (ticks 1 w', Ok t) /\
       forall input', ct_Slug input' = slug -> creatable input' ->
         exec (CreateTenant repos input') w' = (ticks 1 w', Err (ESentinel ErrAlreadyExists))).
Proof.
  intros Hin Hok Hfree Hslug. eexists _, _. split; [by apply exec_CreateTenant|].
  set (t := created_tenant input (w_tick w)). set (w' := ticks 5 _). split; [done|].
  assert (Ht : db_tenants (w_db w') !! t_ID t = Some t)
    by (unfold w'; world_simpl; apply lookup_insert_eq).
  assert (Hidx : indexed (same_slug env) (db_tenants (w_db w'))).
  { unfold w'. world_simpl. apply indexed_insert; [by intros x y|apply Hok|].
    intros j y Hj Hy Heq. by destruct (Hslug j y Hy). }
  split; [|intros slug Hs; split].
  - unfold GetTenant. simpl Tenants_GetByID.
    rewrite exec_mapErr, (exec_TenantRepo_GetByID env (t_ID t) (t_ID t)) by apply pg_uuid_in.
    by rewrite Ht.
  - unfold GetTenantBySlug. simpl Tenants_GetBySlug.
    rewrite exec_mapErr, (exec_TenantRepo_GetBySlug slug (t_ID t) t); done.
  - intros input' <- Hin'. apply exec_CreateTenant_taken; [done|].
    by apply (slug_not_free (t_ID t) t).
Qed.
End tenants.

(** ** On concrete tables *)

Definition demo_new_tenant : CreateTenantInput :=
  mkCreateTenantInput "Initech" "initech" "standard" "".

Lemma CreateTenant_then_lookup_witness :
  exists w' t, exec (CreateTenant demo_repos demo_new_tenant) (demo_world "active" "active") = (w', Ok t) /\
    t_Status t = TenantStatusActive /\ t_DataRegion t = "global"%string /\
    exec (GetTenantBySlug demo_repos "initech") w' = (ticks 1 w', Ok t) /\
    exec (CreateTenant demo_repos demo_new_tenant) w' = (ticks 1 w', Err (ESentinel ErrAlreadyExists)).
Proof.
  assert (Hin : creatable demo_new_tenant) by (split; [by split|by repeat constructor]).
  destruct (CreateTenant_then_lookup (X:=unit) demo_env demo_json demo_new_tenant
    (demo_world "active" "active")) as (w' & t & Hc & Ht & _ & Hslug).
  - exact Hin.
  - apply demo_db_ok; repeat constructor.
  - apply demo_unused.
  - apply map_Forall_to_list. vm_compute. repeat constructor; discriminate.
  - destruct (Hslug "initech"%string eq_refl) as [Hget Hagain].
    exists w', t. split; [exact Hc|]. split; [by rewrite Ht|]. split; [by rewrite Ht|].
    split; [exact Hget|]. by apply Hagain.
Defined.

(** A suspended tenant cannot be suspended again, and can be activated. *)
Lemma tenant_ops_refine_machine_witness :
  exists w1 w2 w3,
    exec (run_tenant_op demo_env demo_json TenantSuspend "t1") (demo_world "active" "active") = (w1, Ok tt) /\
    exec (run_tenant_op demo_env demo_json TenantSuspend "t1") w1 = (w2, Err (ESentinel ErrTenantInactive)) /\
    exec (run_tenant_op demo_env demo_json TenantActivate "t1") w2 = (w3, Ok tt) /\
    t_Status <$> db_tenants (w_db w3) !! "t1"%string = Some TenantStatusActive.
Proof.
  destruct (tenant_ops_refine_machine (X:=unit) demo_env demo_json TenantSuspend "t1" "t1"
    (demo_world "active" "active")) as (w1 & H1 & _); [reflexivity| |apply demo_unused|].
  - apply demo_db_ok; repeat constructor.
  - assert (w1 = fst (exec (run_tenant_op demo_env demo_json TenantSuspend "t1")
      (demo_world "active" "active"))) as -> by (by rewrite H1).
    eexists _, _, _. split; [exact H1|]. split; [vm_compute; reflexivity|].
    split; vm_compute; reflexivity.
Defined.
