(* ===== verification/AuditFacts.v ===== *)
(** * AuditFacts: what the audit log records

    [appends l m]: when [m], run alone, returns a value, it has appended to the
    audit log events of the types [l], all marked successful.  The rules follow
    the structure of programs, so that the log of a service call is read off
    its text. *)

From Stdlib Require Import ZArith Lia Ascii String.
From stdpp Require Import base list sorting strings numbers gmap.
From S2P Require Import Prelude Bytes Errors Model Repository World Schema Postgres TenantService.
From S2P Require Import IdentityService KeyService Crypto Argon2 SchemaFacts StatementFacts.
From S2P Require Import Guarantees Integrity Runs System Demo.
Open Scope Z_scope.

Section appends.
Context {X : Type}.
Implicit Types w : World X.

Definition logged (l : list string) (db db' : DB) : Prop :=
  exists evs, db_audit db' = (db_audit db ++ evs)%list /\
    a_EventType <$> evs = l /\ Forall (fun e => a_Success e = true) evs.

Lemma logged_nil db db' : db_audit db' = db_audit db -> logged [] db db'.
Proof. intros H. exists []. by rewrite H, app_nil_r. Qed.
Lemma logged_app l1 l2 db1 db2 db3 :
  logged l1 db1 db2 -> logged l2 db2 db3 -> logged (l1 ++ l2) db1 db3.
Proof.
  intros (e1 & H1 & <- & Hs1) (e2 & H2 & <- & Hs2). exists (e1 ++ e2)%list.
  rewrite H2, H1, fmap_app, (assoc_L (++)%list). split; [done|]. split; [done|].
  by apply Forall_app_2.
Qed.

Definition appends {A} (l : list string) (m : M (World X) A) : Prop :=
  forall w w' a, exec m w = (w', Ok a) -> logged l (w_db w) (w_db w').

Lemma appends_ret {A} (a : A) : appends [] (ret a).
Proof. intros w w' b. rewrite exec_ret. intros [= <- _]. by apply logged_nil. Qed.
Lemma appends_Ret {A} (o : outcome error A) : appends [] (Ret o).
Proof. intros w w' b. rewrite exec_Ret. intros [= <- _]. by apply logged_nil. Qed.
Lemma appends_throw {A} l e : appends l (throw (A:=A) e).
Proof. intros w w' b. by rewrite exec_throw. Qed.
Lemma appends_mapErr {A} l g (m : M (World X) A) : appends l m -> appends l (mapErr g m).
Proof.
  intros Hm w w' a. rewrite exec_mapErr. destruct (exec m w) as [w1 [b|e|s]] eqn:He; [|done..].
  intros [= <- _]. by eapply Hm.
Qed.
Lemma appends_bind {A B} l1 l2 (m : M (World X) A) (k : A -> M (World X) B) :
  appends l1 m -> (forall a, appends l2 (k a)) -> appends (l1 ++ l2) (bind m k).
Proof.
  intros Hm Hk w w' b. rewrite exec_bind. destruct (exec m w) as [w1 [a|e|s]] eqn:He; [|done..].
  intros Hr. eapply logged_app; [by eapply Hm|by eapply Hk].
Qed.
Lemma appends_quiet {A B} l (m : M (World X) A) (k : A -> M (World X) B) :
  appends [] m -> (forall a, appends l (k a)) -> appends l (bind m k).
Proof. apply (appends_bind []). Qed.
Lemma appends_last {A B} l (m : M (World X) A) (k : A -> M (World X) B) :
  appends l m -> (forall a, appends [] (k a)) -> appends l (bind m k).
Proof. intros Hm Hk. rewrite <- (app_nil_r l). by apply appends_bind. Qed.
Lemma appends_mapM {A B} (f : A -> M (World X) B) l :
  (forall x, appends [] (f x)) -> appends [] (mapM f l).
Proof.
  intros Hf. induction l as [|x l IH]; simpl; [apply appends_ret|].
  apply appends_quiet; [done|]. intros y. apply appends_quiet; [done|]. intros ys. apply appends_ret.
Qed.

(** Programs that leave the tables as they are. *)
Lemma appends_steps {A} (m : M (World X) A) : steps_in (db_steps eq) m -> appends [] m.
Proof.
  intros Hm w w' a He. apply (steps_in_exec (db_steps eq) m w) in Hm. rewrite He in Hm.
  apply logged_nil. by rewrite (proj1 Hm).
Qed.

Lemma appends_pg_command env {R} l (f : nat -> DB -> error + (DB * R)) :
  (forall n db db' r, f n db = inr (db', r) -> logged l db db') -> appends l (pg_command env f).
Proof.
  intros Hf w w' r. unfold pg_command. rewrite exec_actO. destruct (pg_fault env (w_tick w)); [done|].
  destruct (f (w_tick w) (w_db w)) as [e|[db' r']] eqn:He; [done|].
  unfold answer. case_match; [done|]. intros [= <- _]. by eapply Hf.
Qed.
Lemma appends_transaction env {A} l (m : M (World X) A) : appends l m -> appends l (transaction env m).
Proof.
  intros Hm w w' a. unfold transaction. rewrite exec_actO.
  destruct (exec m w) as [w1 [b|e|s]] eqn:He; [|done..]. rewrite exec_bind, exec_mapErr.
  unfold commit. rewrite exec_actO. unfold answer. repeat case_match; simpl; try done; simplify_eq/=.
  intros [= <- _]. exact (Hm _ _ _ He).
Qed.
End appends.

Create HintDb appends.
#[export] Hint Resolve appends_ret appends_Ret appends_throw : appends.

(** Walks a program to its last insertion. *)
Ltac appends_walk :=
  solve
    [ eauto with appends typeclass_instances
    | simple apply appends_mapErr; appends_walk
    | simple apply appends_quiet; [appends_walk|intros ?; appends_walk]
    | simple apply appends_last; [appends_walk|intros ?; appends_walk]
    | simple apply appends_mapM; intros ?; appends_walk
    | case_match; appends_walk ].

Section repositories.
Context {X : Type} (env : Env) (json : Codec).
Abbreviation quiet f := (forall n db db' r, f n db = inr (db', r) -> db_audit db' = db_audit db).

Lemma appends_Returning {R} (f : nat -> DB -> error + (DB * R)) :
  quiet f -> appends (X:=X) [] (Returning env f).
Proof. intros Hf. apply appends_pg_command. intros. by eapply logged_nil, Hf. Qed.
Lemma appends_Exec (f : nat -> DB -> error + (DB * unit)) :
  quiet f -> appends (X:=X) [] (Exec env f).
Proof. apply appends_Returning. Qed.
Lemma appends_QueryRow {R A} (f : nat -> DB -> error + (DB * option R)) (scan : R -> A) :
  quiet f -> appends (X:=X) [] (QueryRow env f scan).
Proof. intros Hf. apply appends_quiet; [by apply appends_Returning|]. intros [r|]; appends_walk. Qed.
Lemma appends_command : appends (X:=X) [] (command env).
Proof. apply appends_Returning. by intros n db db' r [= <- _]. Qed.
#[local] Hint Resolve appends_command : appends.

Lemma appends_withTenantConn {A} l t (fn : Conn -> M (World X) A) :
  (forall c, appends l (fn c)) -> appends l (withTenantConn env t fn).
Proof. intros Hf. unfold withTenantConn. by do 2 (apply appends_quiet; [appends_walk|intros _]). Qed.
Lemma appends_withTenantTx {A} l t (fn : Conn -> M (World X) A) :
  (forall c, appends l (fn c)) -> appends l (withTenantTx env t fn).
Proof.
  intros Hf. unfold withTenantTx. apply appends_quiet; [appends_walk|intros _].
  apply appends_transaction. by do 2 (apply appends_quiet; [appends_walk|intros _]).
Qed.
Lemma appends_time_Now : appends (X:=X) [] (time_Now env).
Proof. apply appends_steps, (time_Now_steps env eq). Qed.
#[local] Hint Resolve appends_time_Now : appends.

Ltac quiet_stmt := intros ?n ?db ?db' ?r ?H; stmt_inv H; stmt_checks; repeat case_match; stmt_inv H;
  stmt_checks; simplify_eq/=; try done.

Lemma appends_insert_event ev :
  a_Success ev = true -> appends (X:=X) [a_EventType ev] (insert_event env ev).
Proof.
  intros Hs. unfold insert_event.
  assert (forall ev', a_EventType ev' = a_EventType ev -> a_Success ev' = true ->
    appends (X:=X) [a_EventType ev] (let* _ := Returning env (sqlAuditInsert env ev') in ret tt)%prog) as Hins.
  { intros ev' Ht Hs'. apply appends_last; [|intros ?; apply appends_ret]. apply appends_pg_command.
    intros n db db' r H. unfold sqlAuditInsert in H. stmt_inv H. stmt_checks.
    eexists [_]. split; [reflexivity|]. simpl. rewrite Ht, Hs'. by repeat constructor. }
  intros w w' u He. rewrite exec_bind in He.
  destruct (IsZero (a_OccurredAt ev)).
  - rewrite exec_bind in He. unfold time_Now in He. rewrite exec_act, exec_ret in He.
    apply (Hins _) in He; [exact He|by case_match..].
  - rewrite exec_ret in He. apply (Hins _) in He; [exact He|by case_match..].
Qed.
Lemma appends_AuditRepo_Insert ev :
  a_Success ev = true -> appends (X:=X) [a_EventType ev] (AuditRepo_Insert env ev).
Proof. intros Hs. apply appends_withTenantConn. intros c. by apply appends_insert_event. Qed.

Lemma appends_IdentityRepo_Create i :
  appends (X:=X) [AuditEventIdentityCreated] (IdentityRepo_Create env json i).
Proof.
  unfold IdentityRepo_Create. apply appends_withTenantTx. intros tx. apply appends_quiet.
  - apply appends_mapErr, appends_quiet; [|intros r; appends_walk].
    apply appends_Returning. unfold sqlIdentityInsert. quiet_stmt.
  - intros r. apply appends_quiet; [appends_walk|]. intros now.
    apply appends_last; [|intros _; appends_walk]. unfold insertTx.
    by apply (appends_insert_event (mkAuditEvent _ _ _ _ _ _ _ _ _ _ _ _ _ _ _ _ _)).
Qed.

(** The other operations the services use append nothing. *)
#[local] Hint Unfold sqlTenantInsert sqlTenantGetByID sqlTenantGetBySlug sqlTenantUpdateStatus
  sqlIdentityGetByID sqlIdentityGetByHandle sqlIdentityUpdate sqlIdentityUpdateStatus
  sqlIdentitySetPrimaryKey sqlIdentityList sqlKeyInsert sqlKeyGetByID sqlKeyListByIdentity
  sqlKeyRotate sqlKeyRevoke sqlKeySetStatus limit_offset_strict : sql.
Ltac quiet_repo :=
  repeat first
    [ apply appends_withTenantConn; intros ?
    | apply appends_mapErr
    | apply appends_QueryRow
    | apply appends_Exec
    | apply appends_Returning
    | apply appends_quiet; [|intros ?; apply appends_ret] ];
  autounfold with sql; quiet_stmt.

Lemma appends_TenantRepo_Create t : appends (X:=X) [] (TenantRepo_Create env t).
Proof. unfold TenantRepo_Create. quiet_repo. Qed.
Lemma appends_TenantRepo_GetByID id : appends (X:=X) [] (TenantRepo_GetByID env id).
Proof. unfold TenantRepo_GetByID. quiet_repo. Qed.
Lemma appends_TenantRepo_GetBySlug s : appends (X:=X) [] (TenantRepo_GetBySlug env s).
Proof. unfold TenantRepo_GetBySlug. quiet_repo. Qed.
Lemma appends_TenantRepo_UpdateStatus id s : appends (X:=X) [] (TenantRepo_UpdateStatus env id s).
Proof. unfold TenantRepo_UpdateStatus. quiet_repo. Qed.
Lemma appends_IdentityRepo_GetByID t i : appends (X:=X) [] (IdentityRepo_GetByID env t i).
Proof. unfold IdentityRepo_GetByID. quiet_repo. Qed.
Lemma appends_IdentityRepo_GetByHandle t h : appends (X:=X) [] (IdentityRepo_GetByHandle env t h).
Proof. unfold IdentityRepo_GetByHandle. quiet_repo. Qed.
Lemma appends_IdentityRepo_Update i : appends (X:=X) [] (IdentityRepo_Update env i).
Proof. unfold IdentityRepo_Update. quiet_repo. Qed.
Lemma appends_IdentityRepo_UpdateStatus t i s :
  appends (X:=X) [] (IdentityRepo_UpdateStatus env t i s).
Proof. unfold IdentityRepo_UpdateStatus. quiet_repo. Qed.
Lemma appends_IdentityRepo_SetPrimaryKey t i k :
  appends (X:=X) [] (IdentityRepo_SetPrimaryKey env t i k).
Proof. unfold IdentityRepo_SetPrimaryKey. quiet_repo. Qed.
Lemma appends_IdentityRepo_List t f : appends (X:=X) [] (IdentityRepo_List env t f).
Proof. unfold IdentityRepo_List. quiet_repo. Qed.
Lemma appends_KeyRepo_Create k : appends (X:=X) [] (KeyRepo_Create env k).
Proof. unfold KeyRepo_Create. quiet_repo. Qed.
Lemma appends_KeyRepo_GetByID t i : appends (X:=X) [] (KeyRepo_GetByID env t i).
Proof. unfold KeyRepo_GetByID, getKey. quiet_repo. Qed.
Lemma appends_KeyRepo_ListByIdentity t i s : appends (X:=X) [] (KeyRepo_ListByIdentity env t i s).
Proof. unfold KeyRepo_ListByIdentity. quiet_repo. Qed.
Lemma appends_KeyRepo_Rotate t i k : appends (X:=X) [] (KeyRepo_Rotate env t i k).
Proof. unfold KeyRepo_Rotate. quiet_repo. Qed.
Lemma appends_KeyRepo_Revoke t i : appends (X:=X) [] (KeyRepo_Revoke env t i).
Proof. unfold KeyRepo_Revoke. quiet_repo. Qed.
End repositories.

(** What the services rely on: the insertion of an identity logs its creation,
    and otherwise only the insertion of an event adds one. *)
Class AuditTrail {X} (repos : Repositories (World X)) : Prop := {
  at_Tenants_Create t : appends [] (Tenants_Create (Tenants repos) t);
  at_Tenants_GetByID id : appends [] (Tenants_GetByID (Tenants repos) id);
  at_Tenants_GetBySlug s : appends [] (Tenants_GetBySlug (Tenants repos) s);
  at_Tenants_UpdateStatus id s : appends [] (Tenants_UpdateStatus (Tenants repos) id s);
  at_Identities_Create i :
    appends [AuditEventIdentityCreated] (Identities_Create (Identities repos) i);
  at_Identities_GetByID t i : appends [] (Identities_GetByID (Identities repos) t i);
  at_Identities_GetByHandle t h : appends [] (Identities_GetByHandle (Identities repos) t h);
  at_Identities_Update i : appends [] (Identities_Update (Identities repos) i);
  at_Identities_UpdateStatus t i s : appends [] (Identities_UpdateStatus (Identities repos) t i s);
  at_Identities_SetPrimaryKey t i k : appends [] (Identities_SetPrimaryKey (Identities repos) t i k);
  at_Identities_List t f : appends [] (Identities_List (Identities repos) t f);
  at_Keys_Create k : appends [] (Keys_Create (Keys repos) k);
  at_Keys_GetByID t i : appends [] (Keys_GetByID (Keys repos) t i);
  at_Keys_ListByIdentity t i s : appends [] (Keys_ListByIdentity (Keys repos) t i s);
  at_Keys_Rotate t i k : appends [] (Keys_Rotate (Keys repos) t i k);
  at_Keys_Revoke t i : appends [] (Keys_Revoke (Keys repos) t i);
  at_Audit_Insert t ty et ei actor :
    appends [ty] (Audit_Insert (Audit repos) (auditEvent t ty et ei actor true)) }.
#[export] Hint Resolve at_Tenants_Create at_Tenants_GetByID at_Tenants_GetBySlug
  at_Tenants_UpdateStatus at_Identities_Create at_Identities_GetByID at_Identities_GetByHandle
  at_Identities_Update at_Identities_UpdateStatus at_Identities_SetPrimaryKey at_Identities_List
  at_Keys_Create at_Keys_GetByID at_Keys_ListByIdentity at_Keys_Rotate at_Keys_Revoke
  at_Audit_Insert : appends.

#[export] Instance postgres_trail {X} env json : AuditTrail (repos (X:=X) env json).
Proof.
  split; intros; simpl.
  - apply appends_TenantRepo_Create.
  - apply appends_TenantRepo_GetByID.
  - apply appends_TenantRepo_GetBySlug.
  - apply appends_TenantRepo_UpdateStatus.
  - apply appends_IdentityRepo_Create.
  - apply appends_IdentityRepo_GetByID.
  - apply appends_IdentityRepo_GetByHandle.
  - apply appends_IdentityRepo_Update.
  - apply appends_IdentityRepo_UpdateStatus.
  - apply appends_IdentityRepo_SetPrimaryKey.
  - apply appends_IdentityRepo_List.
  - apply appends_KeyRepo_Create.
  - apply appends_KeyRepo_GetByID.
  - apply appends_KeyRepo_ListByIdentity.
  - apply appends_KeyRepo_Rotate.
  - apply appends_KeyRepo_Revoke.
  - by apply (appends_AuditRepo_Insert env (auditEvent t ty et ei actor true)).
Qed.

(** ** The services *)

(** The events that a successful call leaves. *)
Definition audited (c : call) : list string :=
  match c with
  | CallCreateTenant _ => [AuditEventTenantCreated]
  | CallSuspendTenant _ => [AuditEventTenantSuspended]
  | CallCreateIdentity _ => [AuditEventIdentityCreated; ""%string]
  | CallDeactivateIdentity _ _ _ => [AuditEventIdentityDeactivated]
  | CallSuspendIdentity _ _ _ => [AuditEventIdentitySuspended]
  | CallReactivateIdentity _ _ _ => [AuditEventIdentityActivated]
  | CallGenerateKey _ => [AuditEventKeyCreated]
  | CallRotateKey _ _ _ _ => [AuditEventKeyRotated]
  | CallRevokeKey _ _ _ => [AuditEventKeyRevoked]
  | CallActivateTenant _ | CallUpdateIdentity _
  | CallGetTenant _ | CallGetTenantBySlug _ | CallGetIdentity _ _ | CallGetIdentityByHandle _ _
  | CallListIdentities _ _ | CallGetKey _ _ | CallListKeys _ _ => []
  end.

Section services.
Context {X : Type} (env : Env) (p : Prims) (IDKey : idkey) (json : Codec) (cfg : CryptoConfig).
Abbreviation repos := (repos (X:=X) env json).
Abbreviation crypto := (cryptoSvc (X:=X) env p IDKey json cfg).

Lemma appends_crypto :
  (forall id, appends [] (GenerateEd25519Key crypto id)) /\
  (forall id, appends [] (GenerateECDSAP256Key crypto id)) /\
  (forall b, appends [] (Encrypt crypto b)) /\
  (forall c iv, appends [] (Decrypt crypto c iv)).
Proof.
  pose proof (service_steps (X:=X) env p IDKey json cfg eq) as [].
  split_and!; intros; by apply appends_steps.
Qed.

Lemma appends_check {A} (e : error + A) : appends (X:=X) [] (check e).
Proof. destruct e; simpl; auto with appends. Qed.
#[local] Hint Resolve appends_check : appends.
Hint Extern 1 (appends [] (GenerateEd25519Key _ _)) => apply appends_crypto : appends.
Hint Extern 1 (appends [] (GenerateECDSAP256Key _ _)) => apply appends_crypto : appends.
Hint Extern 1 (appends [] (Encrypt _ _)) => apply appends_crypto : appends.
Hint Extern 1 (appends [] (Decrypt _ _ _)) => apply appends_crypto : appends.

Lemma appends_encryptAttributes a : appends [] (encryptAttributes crypto json a).
Proof. unfold encryptAttributes. appends_walk. Qed.
Lemma appends_decryptAttributes i : appends [] (decryptAttributes crypto json i).
Proof. unfold decryptAttributes. appends_walk. Qed.
Lemma appends_generateKeyPair t i kt u : appends [] (generateKeyPair crypto t i kt u).
Proof. unfold generateKeyPair. appends_walk. Qed.
Lemma appends_keyIsUsable k : appends (X:=X) [] (keyIsUsable (sys env) k).
Proof. apply appends_quiet; [apply appends_time_Now|intros now; apply appends_Ret]. Qed.
#[local] Hint Resolve appends_encryptAttributes appends_decryptAttributes appends_generateKeyPair
  appends_keyIsUsable : appends.

Lemma appends_CreateIdentity input :
  appends [AuditEventIdentityCreated; ""%string] (CreateIdentity repos crypto json input).
Proof.
  unfold CreateIdentity. apply appends_quiet; [appends_walk|intros _].
  apply appends_quiet; [appends_walk|intros t]. destruct (negb _); [appends_walk|].
  apply appends_quiet; [appends_walk|intros a].
  apply (appends_bind [_] [_]); [appends_walk|intros created]. cbv beta zeta. appends_walk.
Qed.

Lemma appends_run_call c : appends (X:=X) (audited c) (run_call env p IDKey json cfg c).
Proof.
  destruct c; simpl audited; unfold run_call, finish;
    try (apply appends_last; [|intros ?; apply appends_ret]);
    unfold CreateTenant, GetTenant, GetTenantBySlug, SuspendTenant, ActivateTenant, GetIdentity,
      GetIdentityByHandle, ListIdentities, UpdateIdentity, DeactivateIdentity, SuspendIdentity,
      ReactivateIdentity, GenerateKey, GetKey, ListKeys, RotateKey, RevokeKey;
    try apply appends_CreateIdentity; appends_walk.
Qed.

(** C3. The audit trail of every service call.  A call that succeeds has appended
    to the audit log exactly the events of its kind, in order, all marked
    successful: one for each change of a tenant, an identity's status or a key,
    two for the creation of an identity (the repository's, and a second one
    without a type), and none for reading, for updating an identity and for
    activating a tenant. *)
Theorem calls_are_audited c w w' :
  exec (run_call (X:=X) env p IDKey json cfg c) w = (w', Ok tt) ->
  exists evs, db_audit (w_db w') = (db_audit (w_db w) ++ evs)%list /\
    a_EventType <$> evs = audited c /\ Forall (fun e => a_Success e = true) evs.
Proof. apply appends_run_call. Qed.
End services.

(** Suspending a tenant leaves one event; updating an identity none, although
    its row changes. *)
Lemma calls_are_audited_witness :
  let w := demo_world "active" "active" in
  (exists w' ev, exec (run_call demo_env demo_prims demo_IDKey demo_json demo_cfg
     (CallSuspendTenant "t1")) w = (w', Ok tt) /\ db_audit (w_db w') = [ev] /\
     a_EventType ev = AuditEventTenantSuspended) /\
  (exists w', exec (run_call demo_env demo_prims demo_IDKey demo_json demo_cfg
     (CallUpdateIdentity (mkUpdateIdentityInput "t1" "alice" "Alice" {["k"%string := AString "v"]} 1 None))) w =
       (w', Ok tt) /\ db_audit (w_db w') = [] /\
     ir_display_name <$> db_identities (w_db w') !! "alice"%string = Some "Alice"%string).
Proof.
  intros w. split.
  - destruct (exec (run_call demo_env demo_prims demo_IDKey demo_json demo_cfg
      (CallSuspendTenant "t1")) w) as [w' o] eqn:He.
    assert (o = Ok tt) as -> by (apply (f_equal snd) in He; vm_compute in He; by rewrite <- He).
    destruct (calls_are_audited demo_env demo_prims demo_IDKey demo_json demo_cfg
      (CallSuspendTenant "t1") w w' He) as (evs & Ha & Ht & _).
    destruct evs as [|ev [|? ?]]; try discriminate Ht. exists w', ev.
    split; [done|]. split; [exact Ha|]. by injection Ht.
  - eexists. split; [vm_compute; reflexivity|]. split; vm_compute; reflexivity.
Defined.
