(* ===== verification/KeyFacts.v ===== *)
(** * KeyFacts: rotation, revocation, and where private keys are kept *)

From Stdlib Require Import ZArith Lia Ascii String.
From stdpp Require Import base list sorting strings numbers gmap.
From S2P Require Import Prelude Bytes Errors Model Repository World Schema Postgres TenantService.
From S2P Require Import IdentityService KeyService Crypto Argon2 SchemaFacts StatementFacts.
From S2P Require Import Guarantees Integrity Runs System Demo SystemFacts IdentityFacts.
Open Scope Z_scope.

Section keys.
Context {X : Type} (env : Env) (p : Prims) (IDKey : idkey) (json : Codec) (cfg : CryptoConfig).
Implicit Types w : World X.
Abbreviation repos := (repos (X:=X) env json).
Abbreviation crypto := (cryptoSvc (X:=X) env p IDKey json cfg).
Abbreviation sys := (sys (X:=X) env).

(** A run that writes no table. *)
Lemma reads_exec {A} (Q : outcome error A -> Prop) (m : M (World X) A) w :
  guar (db_steps eq) Q m -> w_db (fst (exec m w)) = w_db w /\ Q (snd (exec m w)).
Proof. intros Hm. apply (guar_exec (db_steps eq)) with (w := w) in Hm as [[He _] ?]. by split. Qed.

Lemma getKey_reads t q : reads q -> steps_in (db_steps eq) (getKey (X:=X) env t q).
Proof.
  intros Hq. unfold getKey. apply withTenantConn_steps; [apply _|]. intros c.
  apply steps_in_mapErr, QueryRow_steps, reads_steps; [apply _|done].
Qed.

Lemma exec_KeyRepo_GetByID_Ok t id w w' k :
  exec (KeyRepo_GetByID env t id) w = (w', Ok k) ->
  w_db w' = w_db w /\ exists T I, uuid_in env t = Some T /\ uuid_in env id = Some I /\
    find_key (w_db w) T I = Some k.
Proof.
  unfold KeyRepo_GetByID, getKey.
  match goal with |- context [withTenantConn env t (fun _ => mapErr ?g (QueryRow env ?f ?scan))] =>
    destruct (conn_reads env t g f scan w) as (w2 & Hdb & [[e ->]|(n & r & Hr & ->)]) end;
    [apply sqlKeyGetByID_reads|done|].
  intros [= <- <-]. split; [done|]. unfold sqlKeyGetByID, uuid_col in Hr.
  destruct (uuid_in env t) as [T|]; [|done]. destruct (uuid_in env id) as [I|]; [|done].
  simpl in Hr. injection Hr as Hr. exists T, I. split_and!; [done..|]. rewrite Hr. by destruct r.
Qed.

(** Inserting an active key of a purpose whose place is taken. *)
Lemma exec_KeyRepo_Create_taken k I j l w :
  uuid_in env (k_IdentityID k) = Some I -> k_Status k = KeyStatusActive ->
  db_keys (w_db w) !! j = Some l -> k_Status l = KeyStatusActive ->
  k_IdentityID l = I -> k_Purpose l = k_Purpose k ->
  let '(w', res) := exec (KeyRepo_Create env k) w in w_db w' = w_db w /\ exists e, res = Err e.
Proof.
  intros HI Hs Hl Hls Hli Hlp.
  unfold KeyRepo_Create.
  match goal with |- context [withTenantConn env ?t ?fn] =>
    destruct (conn_runs env t fn w) as (w2 & Hw2 & [[e ->]| ->]) end; [by eauto|].
  rewrite <- Hw2 in *. clear w Hw2.
  rewrite exec_mapErr, exec_bind. unfold Returning.
  assert (forall n db' r, sqlKeyInsert env k n (w_db w2) <> inr (db', r)) as Hno.
  { intros n db' r Hins. unfold sqlKeyInsert in Hins. stmt_inv Hins. stmt_checks. simplify_eq/=.
    rename select (_ || _ = true) into Hu. rewrite Hs in Hu. simpl in Hu.
    apply bool_decide_eq_true in Hu. apply (map_Forall_lookup_1 _ _ _ _ Hu) in Hl.
    by apply Hl. }
  destruct (pg_command_cases env (sqlKeyInsert env k) w2) as (w3 & He & [Hdb|[r Hr]]);
    [|by apply Hno in Hr].
  destruct He as [->|[e ->]]; [|by eauto].
  destruct (sqlKeyInsert env k (w_tick w2) (w_db w2)) as [e|[db' r]] eqn:Hins; [by eauto|].
  by apply Hno in Hins.
Qed.

Lemma reads_run {A} (m : M (World X) A) w :
  steps_in (db_steps eq) m -> w_db (fst (exec m w)) = w_db w.
Proof. intros Hm. apply (steps_in_exec (db_steps eq)) with (w := w) in Hm as [He _]. done. Qed.

(** C29. A rotation on behalf of an identity that has an active key of the old
    key's purpose never succeeds: the new key is inserted before the old one is
    marked, and an identity has at most one active key of a purpose.  Whatever
    else fails or not, no table changes and no key is returned, although the
    interface documents a new key as the result.  So an active key cannot be
    rotated on behalf of the identity that it belongs to (take it for the
    active key). *)
Theorem RotateKey_of_active_key_fails tenant identity oldKey actor T I k J k' w :
  uuid_in env tenant = Some T -> uuid_in env oldKey = Some I ->
  find_key (w_db w) T I = Some k ->
  uuid_in env identity = Some (k_IdentityID k') ->
  db_keys (w_db w) !! J = Some k' -> k_Status k' = KeyStatusActive -> k_Purpose k' = k_Purpose k ->
  let '(w', res) := exec (RotateKey repos crypto sys tenant identity oldKey actor) w in
  w_db w' = w_db w /\ ~ is_ok res.
Proof.
  intros HT HI Hk Hid Hk' Hs Hp. unfold RotateKey. rewrite exec_bind, exec_mapErr. simpl Keys_GetByID.
  pose proof (reads_run (KeyRepo_GetByID (X:=X) env tenant oldKey) w
    (getKey_reads _ _ (sqlKeyGetByID_reads _ _ _))) as Hdb.
  destruct (exec (KeyRepo_GetByID env tenant oldKey) w) as [w1 [k1|e|s]] eqn:Hget; simpl in Hdb;
    [|split; [done|by intros [? [=]]]..].
  apply exec_KeyRepo_GetByID_Ok in Hget as (_ & T' & I' & ? & ? & ?). simplify_eq.
  rewrite exec_bind. unfold keyIsUsable. rewrite exec_bind. simpl Now. rewrite (exec_time_Now env), exec_Ret.
  destruct (IdentityKey_IsUsable _ _) as [[]|e|s]; simpl negb; cbv iota;
    [|simpl; (split; [by rewrite w_db_ticks|by intros [? [=]]])..].
  rewrite exec_bind.
  pose proof (service_steps (X:=X) env p IDKey json cfg eq).
  destruct (guar_exec (db_steps eq) _ _ (ticks 1 w1)
    (generateKeyPair_steps (db_steps eq) crypto tenant identity (k_KeyType k) (k_Purpose k)))
    as [[Hdb' _] Hpost].
  destruct (exec (generateKeyPair _ _ _ _ _) _) as [w2 [k2|e|s]]; simpl in Hdb', Hpost;
    rewrite w_db_ticks in Hdb'; [|split; [congruence|by intros [? [=]]]..].
  destruct (Hpost k2 eq_refl) as (_ & Hi2 & _ & Hp2 & Hs2).
  pose proof (exec_KeyRepo_Create_taken k2 (k_IdentityID k') J k' w2) as Htaken.
  rewrite exec_bind, exec_mapErr. simpl Keys_Create.
  destruct (exec (KeyRepo_Create env k2) w2) as [w3 res].
  destruct Htaken as [Hdb3 [e ->]]; [congruence..|].
  split; [congruence|by intros [? [=]]].
Qed.

(** ** Revocation *)

Section reliable.
Context `{!Reliable env, !EnvOk env, !CodecOk env json, !PrimsOk p}.

Definition revoked (I : string) (k : IdentityKey) (db : DB) : DB :=
  set_keys_table (<[I := set_key_status KeyStatusRevoked (k_RotatedAt k) (k_RotatedTo k) k]>
    (db_keys db)) db.

(** C30. Revoking a key, run alone, on every branch: an unknown key is
    ErrKeyNotFound and nothing changes.  A known key ends up revoked whatever
    its status was, so that a mark of compromise is lost.  With an actor that
    is not a UUID (the empty string is not) the audit event is refused: the
    call returns an error, although the key has been revoked, and no event
    records it. *)
Theorem RevokeKey_branches tenant keyID actor T I w :
  uuid_in env tenant = Some T -> uuid_in env keyID = Some I ->
  db_ok env (w_db w) -> unused env (w_tick w) (w_db w) ->
  exists w' event, exec (RevokeKey repos tenant keyID actor) w =
    (w', match find_key (w_db w) T I, uuid_in env actor with
         | None, _ => Err (ESentinel ErrKeyNotFound)
         | Some k, None => Err (EWrap "write audit event" (pgerr env "22P02"))
         | Some k, Some _ => Ok tt
         end) /\
  w_db w' = match find_key (w_db w) T I, uuid_in env actor with
            | None, _ => w_db w
            | Some k, None => revoked I k (w_db w)
            | Some k, Some _ => add_audit event (revoked I k (w_db w))
            end /\
  a_EventType event = AuditEventKeyRevoked /\ a_ActorID event = uuid_in env actor.
Proof.
  intros HT HI Hok Hfree. unfold RevokeKey. rewrite exec_bind, exec_mapErr. simpl Keys_GetByID.
  pose (ev := fun n => audit_row env T I (uuid_in env actor)
    (auditEvent tenant AuditEventKeyRevoked "key" keyID (Some actor) true) n (jsonb env (s2b "{}"))).
  rewrite (exec_KeyRepo_GetByID env _ T _ I) by done.
  destruct (find_key (w_db w) T I) as [k|] eqn:Hk; [|by eexists _, (ev 0%nat)].
  rewrite exec_bind, exec_mapErr. simpl Keys_Revoke.
  rewrite (exec_KeyRepo_Revoke env _ T _ I k) by done. cbv iota beta.
  rewrite exec_mapErr. simpl Audit_Insert.
  destruct (uuid_in env actor) as [a|] eqn:Ha.
  - rewrite (exec_AuditRepo_Insert env _ T _ _ _ I _ (Some a) _ (jsonb env (s2b "{}"))); try done.
    + eexists _, (ev (9 + w_tick w)%nat). split; [done|]. split; [by world_simpl|done].
    + simpl. unfold uuid_col. by rewrite Ha.
    + by apply (jsonb_in_empty env json).
    + world_simpl. apply Hfree. lia.
    + world_simpl. apply find_key_Some in Hk as [Hk <-]. by apply (ok_keys _ _ Hok _ _ Hk).
  - rewrite (exec_AuditRepo_Insert_bad_actor env _ T _ _ _ I) by done.
    eexists _, (ev 0%nat). split; [done|]. split; [by world_simpl|done].
Qed.

(** ** Private keys *)

(** The key pair recorded from the random bytes of tick [n]. *)
Definition recorded (tenant identity purpose : string) (n : nat) : IdentityKey :=
  let km := material env p json n (cryptoKeyID tenant identity KeyTypeEd25519) in
  mkIdentityKey "" identity tenant KeyTypeEd25519 purpose "EdDSA" (km_PublicKeyDER km)
    (km_JWK km) (km_KeyRef km) (km_Fingerprint km) KeyStatusActive 0 None None None 0.

Lemma cryptoKeyID_nonempty t i kt : cryptoKeyID t i kt <> ""%string.
Proof. unfold cryptoKeyID. destruct t; [by destruct i|done]. Qed.

Lemma exec_generateKeyPair tenant identity purpose w :
  exec (generateKeyPair crypto tenant identity KeyTypeEd25519 purpose) w =
  (ticks 1 (set_keys (<[keyRefPrefix +:+ cryptoKeyID tenant identity KeyTypeEd25519 :=
              Ed25519PrivateKey (snd (pair env p (w_tick w)))]> (w_keys w)) w),
   Ok (recorded tenant identity purpose (w_tick w))).
Proof.
  unfold generateKeyPair. simpl (String.eqb KeyTypeEd25519 _). cbv iota.
  rewrite exec_bind, exec_mapErr.
  rewrite (exec_GenerateEd25519Key env p IDKey json cfg) by apply cryptoKeyID_nonempty. done.
Qed.

(** The reference of a private key is made of the tenant, the identity and
    the key type only.  Generating a second Ed25519 key for an identity, for
    whatever purposes, gives it the reference of the first one and replaces the
    first private key: afterwards the reference of the first key signs with the
    second private key.  (So a failed rotation also replaces the private key of
    the key that stays in use.) *)
Theorem second_key_replaces_first tenant identity purpose1 purpose2 msg w :
  exists w1 w2 k1 k2 pub1 pub2 priv2,
    exec (generateKeyPair crypto tenant identity KeyTypeEd25519 purpose1) w = (w1, Ok k1) /\
    exec (generateKeyPair crypto tenant identity KeyTypeEd25519 purpose2) w1 = (w2, Ok k2) /\
    k_PublicKey k1 = pkix_ed25519 p pub1 /\ k_PublicKey k2 = pkix_ed25519 p pub2 /\
    k_KeyRef k1 = k_KeyRef k2 /\
    exec (Sign crypto (k_KeyRef k1) msg) w2 = (w2, Ok (ed25519_Sign p priv2 msg)) /\
    ed25519_Verify p pub2 msg (ed25519_Sign p priv2 msg) = true.
Proof.
  eexists _, _, _, _, (fst (pair env p (w_tick w))), (fst (pair env p (S (w_tick w)))),
    (snd (pair env p (S (w_tick w)))).
  split; [apply exec_generateKeyPair|]. split; [apply exec_generateKeyPair|]. world_simpl.
  split_and!.
  - simpl. destruct (pkix_ed25519_total (p:=p) (drawn env (w_tick w) 32)) as [der Hder].
    unfold pair. by rewrite Hder.
  - simpl. destruct (pkix_ed25519_total (p:=p) (drawn env (S (w_tick w)) 32)) as [der Hder].
    unfold pair. by rewrite Hder.
  - done.
  - change (Sign crypto) with (local_Sign (X:=X) env p).
    change (k_KeyRef _) with (keyRefPrefix +:+ cryptoKeyID tenant identity KeyTypeEd25519).
    unfold local_Sign, HasPrefix. rewrite prefix_app. simpl (negb _). cbv iota.
    rewrite exec_bind, exec_act. simpl w_keys.
    rewrite w_keys_ticks. simpl w_keys. rewrite lookup_insert_eq. by rewrite exec_ret.
  - pose proof (ed25519_Verify_Sign (p:=p) (drawn env (S (w_tick w)) 32) msg) as H.
    unfold pair. by destruct (ed25519_GenerateKey p (drawn env (S (w_tick w)) 32)).
Qed.
End reliable.
End keys.

(** ** On concrete tables *)

Lemma RotateKey_of_active_key_fails_witness :
  let '(w', res) := exec (RotateKey demo_repos demo_crypto demo_sys "t1" "alice" "k1" "alice")
                      (demo_world "active" "active") in
  w_db w' = demo_db "active" "active" /\ ~ is_ok res.
Proof.
  apply (RotateKey_of_active_key_fails demo_env demo_prims demo_IDKey demo_json demo_cfg
    "t1" "alice" "k1" "alice" "t1" "k1" (demo_idkey "k1" "alice" "t1" "signing" "active")
    "k1" (demo_idkey "k1" "alice" "t1" "signing" "active") (demo_world "active" "active")); reflexivity.
Defined.

Lemma RevokeKey_branches_witness :
  exists w', exec (RevokeKey demo_repos "t1" "k1" "") (demo_world "active" "compromised") =
    (w', Err (EWrap "write audit event" (EPg "22P02" "SQLSTATE 22P02"))) /\
  k_Status <$> db_keys (w_db w') !! "k1"%string = Some KeyStatusRevoked.
Proof.
  destruct (RevokeKey_branches (X:=unit) demo_env demo_json "t1" "k1" "" "t1" "k1"
    (demo_world "active" "compromised") eq_refl eq_refl) as (w' & ev & He & Hdb & _).
  - apply demo_db_ok; set_solver.
  - apply demo_unused.
  - exists w'. split; [exact He|]. rewrite Hdb. reflexivity.
Defined.

Lemma second_key_replaces_first_witness :
  exists w1 w2 k1 k2,
    exec (generateKeyPair demo_crypto "t1" "alice" KeyTypeEd25519 "signing")
      (demo_world "active" "active") = (w1, Ok k1) /\
    exec (generateKeyPair demo_crypto "t1" "alice" KeyTypeEd25519 "recovery") w1 = (w2, Ok k2) /\
    k_KeyRef k1 = k_KeyRef k2.
Proof.
  destruct (second_key_replaces_first (X:=unit) demo_env demo_prims demo_IDKey demo_json demo_cfg
    "t1" "alice" "signing" "recovery" [] (demo_world "active" "active"))
    as (w1 & w2 & k1 & k2 & _ & _ & _ & H1 & H2 & _ & _ & Href & _).
  exists w1, w2, k1, k2. split; [exact H1|]. split; [exact H2|exact Href].
Defined.

(** A key that has been rotated already is rotated again: IsUsable accepts
    it, although the interface documents ErrKeyNotUsable for it.  A new
    active key appears for the identity's purpose, the primary key moves to it,
    and the old key stays rotated. *)
Theorem RotateKey_accepts_rotated_key :
  let w := demo_world "active" "rotated" in
  let '(w', res) := exec (RotateKey demo_repos demo_crypto demo_sys "t1" "alice" "k1" "alice") w in
  IdentityKey_IsUsable (E:=error) (demo_idkey "k1" "alice" "t1" "signing" "rotated") demo_epoch = Ok true /\
  (exists k, res = Ok k /\ k_Status k = KeyStatusActive /\
     ir_primary_key_id <$> db_identities (w_db w') !! "alice"%string = Some (Some (k_ID k))) /\
  k_Status <$> db_keys (w_db w') !! "k1"%string = Some KeyStatusRotated.
Proof. vm_compute. split; [done|]. split; [eexists; repeat split|done]. Qed.

(** RotateKey does not check that the key is one of the identity it is called
    for.  With an identity "dave" that has no key, the active key of alice is
    marked as rotated, its successor belongs to dave, and alice is left with a
    primary key that is not active. *)
Theorem RotateKey_for_another_identity :
  let dave := mkIdentityRow "dave" "t1" "human" "dave" "dave" "active" None [] [] None 1
                demo_epoch demo_epoch None in
  let db := demo_db "active" "active" in
  let w := World.set_db (mkDB (db_tenants db) (<["dave" := dave]> (db_identities db)) (db_keys db)
                     (db_credentials db) (db_audit db)) (demo_world "active" "active") in
  let '(w', res) := exec (RotateKey demo_repos demo_crypto demo_sys "t1" "dave" "k1" "alice") w in
  (exists k, res = Ok k /\ k_IdentityID k = "dave" /\ k_Status k = KeyStatusActive /\
     k_RotatedTo <$> db_keys (w_db w') !! "k1" = Some (Some (k_ID k))) /\
  k_Status <$> db_keys (w_db w') !! "k1" = Some KeyStatusRotated /\
  ir_primary_key_id <$> db_identities (w_db w') !! "alice" = Some (Some "k1").
Proof. vm_compute. split; [eexists; repeat split|done]. Qed.
