(* ===== verification/CryptoFacts.v ===== *)
(** * CryptoFacts: encodings of keys and password hashes *)

From Stdlib Require Import ZArith Lia Ascii String.
From stdpp Require Import base list strings numbers gmap pretty.
From S2P Require Import Prelude Bytes Errors Model Repository World Schema Crypto Argon2.
From S2P Require Import SchemaFacts Runs System Demo IdentityFacts.
Open Scope string_scope.
Open Scope Z_scope.

(** ** Big-endian integers *)

Definition big_endian (b : bytes) : Z := fold_left (fun acc c => acc * 256 + byte_to_Z c) b 0.

Lemma big_endian_snoc b c : big_endian (b ++ [c])%list = big_endian b * 256 + byte_to_Z c.
Proof. unfold big_endian. by rewrite fold_left_app. Qed.

Lemma big_endian_zeros n b : big_endian (replicate n Byte.x00 ++ b)%list = big_endian b.
Proof. induction n as [|n IH]; [done|]. exact IH. Qed.

Lemma byte_to_of_Z_mod z : byte_to_Z (byte_of_Z z) = z mod 256.
Proof.
  rewrite <- (byte_to_of_Z (z mod 256)) by (apply Z.mod_pos_bound; lia).
  f_equal. unfold byte_of_Z. by rewrite Z.mod_mod.
Qed.

Lemma big_bytes_fuel_value fuel z :
  0 <= z < 2 ^ Z.of_nat fuel -> big_endian (big_bytes_fuel fuel z) = z.
Proof.
  revert z. induction fuel as [|fuel IH]; intros z Hz; simpl.
  { simpl in Hz. unfold big_endian. simpl. lia. }
  destruct (Z.eqb_spec z 0) as [->|Hne]; [done|].
  rewrite big_endian_snoc, IH, byte_to_of_Z_mod.
  - pose proof (Z.div_mod z 256). lia.
  - rewrite Nat2Z.inj_succ, Z.pow_succ_r in Hz by lia.
    split; [apply Z.div_pos; lia|]. apply Z.div_lt_upper_bound; lia.
Qed.

Lemma log2_fuel z : 0 <= z -> z < 2 ^ Z.of_nat (Z.to_nat (Z.log2 z + 1)).
Proof.
  intros Hz. pose proof (Z.log2_nonneg z). rewrite Z2Nat.id by lia.
  destruct (Z.eq_dec z 0) as [->|]; [done|]. apply Z.log2_spec. lia.
Qed.

Lemma big_Bytes_value z : 0 <= z -> big_endian (big_Bytes z) = z.
Proof. intros Hz. apply big_bytes_fuel_value. split; [done|]. by apply log2_fuel. Qed.

Lemma big_bytes_fuel_length n fuel z :
  0 <= z < 256 ^ Z.of_nat n -> (List.length (big_bytes_fuel fuel z) <= n)%nat.
Proof.
  revert n z. induction fuel as [|fuel IH]; intros n z Hz; simpl; [lia|].
  destruct (Z.eqb_spec z 0) as [->|Hne]; [simpl; lia|].
  destruct n as [|n]; [simpl in Hz; lia|].
  rewrite length_app. simpl. rewrite Nat2Z.inj_succ, Z.pow_succ_r in Hz by lia.
  assert (0 <= z / 256 < 256 ^ Z.of_nat n) as Hd
    by (split; [apply Z.div_pos; lia|apply Z.div_lt_upper_bound; lia]).
  specialize (IH n _ Hd). lia.
Qed.

(** The copy of zeroPad is in bounds, because of the test before it. *)
Lemma zeroPad_pads {E} b n :
  (List.length b <= n)%nat ->
  zeroPad (E:=E) b n = Ok (replicate (n - List.length b) Byte.x00 ++ b)%list.
Proof.
  intros Hb. unfold zeroPad. destruct (Nat.leb_spec n (List.length b)).
  - by replace (n - List.length b)%nat with 0%nat by lia.
  - rewrite <-Nat2Z.inj_sub by done. rewrite copy_back by (rewrite length_replicate; lia).
    by rewrite take_replicate, Nat.min_l by lia.
Qed.

(** A coordinate of the curve, as the JWK writes it. *)
Lemma coordinate_ok x :
  0 <= x < 2 ^ 256 ->
  exists b, zeroPad (E:=error) (big_Bytes x) p256_byteLen = Ok b /\
    List.length b = 32%nat /\ big_endian b = x.
Proof.
  intros Hx. assert (p256_byteLen = 32%nat) as -> by reflexivity.
  assert (List.length (big_Bytes x) <= 32)%nat as Hlen by by apply big_bytes_fuel_length.
  eexists. split; [by apply zeroPad_pads|]. split.
  - rewrite length_app, length_replicate. lia.
  - rewrite big_endian_zeros. apply big_Bytes_value, Hx.
Qed.

(** C33. The JWK of a P-256 key carries each coordinate of the public point in
    exactly 32 bytes, big endian and padded with zeros, in unpadded base64url:
    decoding the members x and y of the generated JWK gives the coordinates
    back, whatever their leading zeros. *)
Theorem p256_jwk_coordinates (p : Prims) `{!PrimsOk p} seed d x y keyID :
  p256_GenerateKey p seed = Some (d, x, y) ->
  exists xs ys bx by_,
    p256_jwk (E:=error) x y keyID =
      Ok [("kty", "EC"); ("crv", "P-256"); ("x", xs); ("y", ys); ("kid", keyID)] /\
    RawDecode urlAlphabet xs = Some bx /\ List.length bx = 32%nat /\ big_endian bx = x /\
    RawDecode urlAlphabet ys = Some by_ /\ List.length by_ = 32%nat /\ big_endian by_ = y.
Proof.
  intros Hk. destruct (p256_coordinates _ _ _ _ Hk) as [Hx Hy].
  destruct (coordinate_ok x Hx) as (bx & Hbx & Hlx & Hvx).
  destruct (coordinate_ok y Hy) as (b2 & Hby & Hly & Hvy).
  eexists _, _, bx, b2. split; [unfold p256_jwk; rewrite Hbx, Hby; reflexivity|].
  split_and!; try done; apply RawDecode_RawEncode, urlAlphabet_ok.
Qed.

Lemma p256_jwk_coordinates_witness :
  exists xs ys bx by_,
    p256_jwk (E:=error) 1 2 "k" =
      Ok [("kty", "EC"); ("crv", "P-256"); ("x", xs); ("y", ys); ("kid", "k")] /\
    RawDecode urlAlphabet xs = Some bx /\ List.length bx = 32%nat /\ big_endian bx = 1 /\
    RawDecode urlAlphabet ys = Some by_ /\ List.length by_ = 32%nat /\ big_endian by_ = 2.
Proof. exact (p256_jwk_coordinates demo_prims [] [] 1 2 "k" eq_refl). Defined.

(** ** Decimal numbers *)

Lemma digit_val_char z : 0 <= z < 10 -> digit_val (digit_char z) = z.
Proof.
  intros Hz. unfold digit_val, digit_char. rewrite N_ascii_embedding by lia. lia.
Qed.
Lemma is_digit_char z : 0 <= z < 10 -> is_digit (digit_char z) = true.
Proof. intros Hz. unfold is_digit. rewrite digit_val_char by done. lia. Qed.

#[local] Arguments is_digit : simpl never.
#[local] Arguments digit_val : simpl never.
#[local] Arguments digit_char : simpl never.

Definition digits_only (s : string) : Prop := span_digits s = (s, "").

(** Texts that start with something other than a digit. *)
Definition no_digit (s : string) : Prop :=
  match s with String c _ => is_digit c = false | EmptyString => True end.

Lemma span_digits_app d r :
  digits_only d -> no_digit r -> span_digits (d +:+ r) = (d, r).
Proof.
  unfold digits_only. intros Hd Hr. induction d as [|c d IH].
  { simpl. destruct r as [|c r]; simpl in *; [done|by rewrite Hr]. }
  simpl in *. destruct (is_digit c); [|done].
  destruct (span_digits d) as [d' r'] eqn:Hsp. injection Hd as -> ->. by rewrite IH.
Qed.

Lemma decimal_value_app acc s t : decimal_value acc (s +:+ t) = decimal_value (decimal_value acc s) t.
Proof. revert acc. induction s as [|c s IH]; intros acc; simpl; [done|apply IH]. Qed.

Lemma decimal_fuel_spec fuel z acc :
  (0 < fuel)%nat -> 0 <= z < 2 ^ Z.of_nat fuel -> digits_only acc ->
  digits_only (decimal_fuel fuel z acc) /\ decimal_fuel fuel z acc <> "" /\
  exists pre, decimal_fuel fuel z acc = pre +:+ acc /\ decimal_value 0 pre = z.
Proof.
  unfold digits_only. revert z acc. induction fuel as [|fuel IH]; intros z acc Hf Hz Hacc; [lia|].
  simpl. destruct (Z.ltb_spec z 10) as [Hlt|Hge].
  - simpl. rewrite is_digit_char, Hacc by lia. split_and!; [done..|].
    exists (String (digit_char z) ""). split; [done|]. simpl. by rewrite digit_val_char by lia.
  - assert (0 <= z mod 10 < 10) as Hm by (apply Z.mod_pos_bound; lia).
    rewrite Nat2Z.inj_succ, Z.pow_succ_r in Hz by lia.
    assert (0 <= z / 10 < 2 ^ Z.of_nat fuel) as Hd
      by (split; [apply Z.div_pos; lia|apply Z.div_lt_upper_bound; lia]).
    assert (0 < fuel)%nat as Hf' by (destruct fuel; [simpl in Hz; lia|lia]).
    destruct (IH (z / 10) (String (digit_char (z mod 10)) acc) Hf' Hd) as (H1 & H2 & pre & H3 & H4).
    { simpl. by rewrite is_digit_char, Hacc by lia. }
    split_and!; [done..|]. exists (pre +:+ String (digit_char (z mod 10)) "").
    rewrite H3. split.
    + by rewrite append_assoc.
    + rewrite decimal_value_app, H4. simpl. rewrite digit_val_char by lia.
      pose proof (Z.div_mod z 10). lia.
Qed.

Lemma decimal_spec z :
  0 <= z -> digits_only (decimal z) /\ decimal z <> "" /\ decimal_value 0 (decimal z) = z.
Proof.
  intros Hz. pose proof (Z.log2_nonneg z).
  destruct (decimal_fuel_spec (Z.to_nat (Z.log2 z + 1)) z "") as (H1 & H2 & pre & H3 & H4);
    [lia|by split; [|apply log2_fuel]|done|].
  unfold decimal. split_and!; [done..|]. rewrite H3.
  by rewrite append_nil.
Qed.

Lemma SkipSpace_decimal z r : 0 <= z -> SkipSpace (decimal z +:+ r) = Some (decimal z +:+ r).
Proof.
  intros Hz. destruct (decimal_spec z Hz) as (Hd & Hne & _).
  unfold digits_only in Hd. destruct (decimal z) as [|c s]; [done|]. simpl in *.
  destruct (is_digit c) eqn:Hc; [|done].
  unfold is_digit, digit_val in Hc. apply andb_true_iff in Hc as [Hl Hu].
  apply Z.leb_le in Hl, Hu.
  assert (48 <= N_of_ascii c <= 57)%N as [? ?] by lia.
  replace (N.eqb (N_of_ascii c) 10) with false by (symmetry; apply N.eqb_neq; lia).
  replace (N.eqb (N_of_ascii c) 32) with false by (symmetry; apply N.eqb_neq; lia).
  replace (N.leb (N_of_ascii c) 13) with false by (symmetry; apply N.leb_gt; lia).
  by rewrite andb_false_r.
Qed.

Lemma scan_uint32_decimal z r :
  0 <= z < 2 ^ 32 -> no_digit r -> scan_uint32 (decimal z +:+ r) = Some (z, r).
Proof.
  intros Hz Hr. destruct (decimal_spec z) as (Hd & Hne & Hv); [lia|].
  unfold scan_uint32. rewrite SkipSpace_decimal by lia. simpl.
  rewrite span_digits_app by done. rewrite (proj2 (String.eqb_neq _ _)) by done.
  rewrite Hv. by rewrite (proj2 (Z.ltb_lt _ _)) by lia.
Qed.

(** ** Argon2 hashes *)

Lemma Sscanf_literal l s f : Sscanf (l +:+ s) (Literal l :: f) = Sscanf s f.
Proof. simpl. unfold HasPrefix. by rewrite prefix_app, drop_string_app. Qed.

Lemma Sscanf_uint32 z r f :
  0 <= z < 2 ^ 32 -> no_digit r ->
  Sscanf (decimal z +:+ r) (ScanUint32 :: f) = (vs ← Sscanf r f; Some (z :: vs)).
Proof. intros Hz Hr. simpl. by rewrite scan_uint32_decimal. Qed.

Lemma decimal_no_dollar z : 0 <= z -> no_char "$" (decimal z) = true.
Proof.
  intros Hz. destruct (decimal_spec z Hz) as (Hd & _ & _). unfold digits_only in Hd.
  induction (decimal z) as [|c s IH]; [done|]. simpl in *.
  destruct (is_digit c) eqn:Hc; [|done].
  destruct (span_digits s) as [d r] eqn:Hs. injection Hd as -> ->. rewrite IH by done.
  rewrite andb_true_r. apply negb_true_iff, Ascii.eqb_neq. intros ->. by vm_compute in Hc.
Qed.

Definition params_text (m t p : Z) : string :=
  "m=" +:+ decimal m +:+ ",t=" +:+ decimal t +:+ ",p=" +:+ decimal p.

Lemma encodeArgon2_segments m t p salt hash :
  0 <= m -> 0 <= t -> 0 <= p ->
  split "$" (encodeArgon2 m t p salt hash) =
  [""; "argon2id"; "v=19"; params_text m t p; RawEncode stdAlphabet salt; RawEncode stdAlphabet hash].
Proof.
  intros Hm Ht Hp.
  assert (encodeArgon2 m t p salt hash =
    "" +:+ String "$" ("argon2id" +:+ String "$" ("v=19" +:+ String "$"
      (params_text m t p +:+ String "$" (RawEncode stdAlphabet salt +:+ String "$"
        (RawEncode stdAlphabet hash)))))) as ->.
  { unfold encodeArgon2, params_text. change (decimal argon2_Version) with "19".
    rewrite !append_assoc. reflexivity. }
  rewrite !split_app; try done.
  - rewrite split_no_char; [done|]. apply RawEncode_no_char; [auto|set_solver].
  - apply RawEncode_no_char; [auto|set_solver].
  - unfold params_text. rewrite !no_char_app, !decimal_no_dollar by done. done.
Qed.

Lemma scan_params m t p :
  0 <= m < 2 ^ 32 -> 0 <= t < 2 ^ 32 -> 0 <= p < 2 ^ 32 ->
  Sscanf (params_text m t p) [Literal "m="; ScanUint32; Literal ",t="; ScanUint32;
                              Literal ",p="; ScanUint32] = Some [m; t; p].
Proof.
  intros Hm Ht Hp. unfold params_text.
  rewrite Sscanf_literal, Sscanf_uint32 by done.
  rewrite Sscanf_literal, Sscanf_uint32 by done.
  rewrite Sscanf_literal. rewrite <- (append_nil (decimal p)), Sscanf_uint32 by done. done.
Qed.

(** Argon2id hashes in encoded form: parsing what hashing prints gives back
    the parameters, the salt and the hash, for every value the parameters'
    types can hold (uint32 memory and time, uint8 threads). *)
Theorem argon2_parse_encode m t p salt hash :
  0 <= m < 2 ^ 32 -> 0 <= t < 2 ^ 32 -> 0 <= p < 256 ->
  parseArgon2idHash (encodeArgon2 m t p salt hash) = inr (mkArgon2Params t m p, salt, hash).
Proof.
  intros Hm Ht Hp. unfold parseArgon2idHash. rewrite encodeArgon2_segments by lia.
  change (Sscanf "v=19" [Literal "v="; ScanInt]) with (Some [19]).
  rewrite scan_params by lia. simpl.
  rewrite !RawDecode_RawEncode by auto. by rewrite Z.mod_small.
Qed.

Lemma argon2_parse_encode_witness :
  parseArgon2idHash (encodeArgon2 65536 1 4 [Byte.x01; Byte.xff] [Byte.x02]) =
  inr (mkArgon2Params 1 65536 4, [Byte.x01; Byte.xff], [Byte.x02]).
Proof. apply argon2_parse_encode; lia. Defined.

Section verification.
Context {X : Type} (env : Env) (IDKey : idkey) `{!Reliable env, !EnvOk env, !Argon2Ok IDKey}.
Implicit Types w : World X.

(** The key derived from a code. *)
Definition derived (code : string) (salt : bytes) (cfg : CryptoConfig) : bytes :=
  match IDKey (s2b code) salt (Argon2Time cfg) (Argon2Memory cfg) (Argon2Threads cfg)
          (Argon2KeyLen cfg) with
  | inl k => k
  | inr _ => []
  end.

(** C32. Recovery codes: with parameters in the range of their types, at least
    one pass, one thread and one byte of key, hashing a code succeeds, and verifying any code
    against that hash answers whether the two codes derive the same key from
    the salt; in particular the hashed code itself is accepted. *)
Theorem recovery_code_round_trip code code' cfg w :
  1 <= Argon2Time cfg < 2 ^ 32 -> 0 <= Argon2Memory cfg < 2 ^ 32 ->
  1 <= Argon2Threads cfg < 256 -> 1 <= Argon2KeyLen cfg < 2 ^ 32 ->
  exists w' hash salt,
    exec (hashArgon2id IDKey (system env) code cfg) w = (w', Ok hash) /\
    exec (verifyArgon2id (W:=World X) IDKey code' hash) w' =
      (w', Ok (bool_decide (derived code' salt cfg = derived code salt cfg))).
Proof.
  intros Ht Hm Hp Hn. unfold hashArgon2id. rewrite exec_bind, exec_mapErr.
  change (RandRead (system env) argon2SaltLen) with (rand_Read (X:=X) env 16).
  rewrite (exec_rand_Read env). set (salt := drawn env (w_tick w) 16).
  assert (forall c, exists k, IDKey (s2b c) salt (Argon2Time cfg) (Argon2Memory cfg)
    (Argon2Threads cfg) (Argon2KeyLen cfg) = inl k /\ Z.of_nat (List.length k) = Argon2KeyLen cfg)
    as Hkey by (intros c; apply IDKey_key; lia).
  destruct (Hkey code) as (k & Hk & Hlen), (Hkey code') as (k' & Hk' & Hlen').
  unfold argon2_IDKey. rewrite Hk, exec_bind, !exec_ret.
  eexists _, _, salt. split; [done|].
  unfold verifyArgon2id. rewrite argon2_parse_encode by lia.
  cbn [ap_time ap_memory ap_threads]. rewrite Hlen, Z.mod_small by lia.
  unfold argon2_IDKey, derived. rewrite Hk', Hk, exec_bind, !exec_ret.
  done.
Qed.

(** A stored hash that is well formed but out of the domain of Argon2 makes
    verification panic instead of returning an error: zero passes, a number of
    threads that the conversion to uint8 turns into zero, as 256 does, or an
    empty hash. *)
Theorem verify_panics_on_bad_parameters code m t p salt hash w :
  0 <= m < 2 ^ 32 -> 0 <= t < 2 ^ 32 -> 0 <= p < 2 ^ 32 ->
  t = 0 \/ p mod 256 = 0 \/ hash = [] ->
  exists msg,
    exec (verifyArgon2id (W:=World X) IDKey code (encodeArgon2 m t p salt hash)) w = (w, Panic msg).
Proof.
  intros Hm Ht Hp Hbad. unfold verifyArgon2id, parseArgon2idHash.
  rewrite encodeArgon2_segments by lia.
  change (Sscanf "v=19" [Literal "v="; ScanInt]) with (Some [19]).
  rewrite scan_params by lia. simpl. rewrite !RawDecode_RawEncode by auto.
  cbn [ap_time ap_memory ap_threads]. unfold argon2_IDKey.
  destruct (IDKey_panic (IDKey:=IDKey) (s2b code) salt t m (p mod 256)
    (Z.of_nat (List.length hash) mod 2 ^ 32)) as [msg ->].
  { destruct Hbad as [?|[?| ->]]; [lia..|]. right. right. reflexivity. }
  exists msg. by rewrite exec_bind, exec_panic.
Qed.
End verification.

Lemma recovery_code_round_trip_witness :
  exists w' hash,
    exec (hashArgon2id demo_IDKey (system demo_env) "ABCD-EFGH" demo_cfg) (demo_world "active" "active")
      = (w', Ok hash) /\
    exec (verifyArgon2id (W:=World unit) demo_IDKey "ABCD-EFGH" hash) w' = (w', Ok true).
Proof.
  destruct (recovery_code_round_trip (X:=unit) demo_env demo_IDKey "ABCD-EFGH" "ABCD-EFGH" demo_cfg
    (demo_world "active" "active")) as (w' & hash & salt & Hh & Hv); [simpl; lia..|].
  exists w', hash. split; [exact Hh|]. rewrite Hv. by rewrite bool_decide_eq_true_2.
Defined.

Lemma verify_panics_on_bad_parameters_witness :
  exists msg, exec (verifyArgon2id (W:=World unit) demo_IDKey "ABCD-EFGH"
    (encodeArgon2 65536 1 256 [] [])) (demo_world "active" "active") =
    (demo_world "active" "active", Panic msg).
Proof. apply (verify_panics_on_bad_parameters demo_IDKey); [lia..|]. right. left. reflexivity. Defined.
