(* ===== verification/Store.v ===== *)
(** * Store: [internal/store/redis.go] and [internal/store/session.go]

    The Redis client is an argument ([RedisClient]): one operation per command
    the sources send, each a single action.  [RedisOk] states the documented
    meaning of the commands on the logical content of the server: a map from
    keys to a string or a set, with an expiry time; a key whose time has come
    is absent. *)

From Stdlib Require Import ZArith Lia Ascii String.
From stdpp Require Import base list strings numbers gmap.
From S2P Require Import Prelude Bytes Errors Model Repository World.
Open Scope string_scope.
Open Scope Z_scope.

(** ** The client *)

Record RedisClient (W : Type) := mkRedisClient {
  Redis_Set : string -> bytes -> Z -> M W unit;          (* SET key value PX ttl *)
  Redis_Get : string -> M W bytes;                       (* GET, redis.Nil when absent *)
  Redis_GetDel : string -> M W bytes;                    (* GETDEL *)
  Redis_Del : string -> M W unit;                        (* DEL *)
  Redis_SAdd : string -> string -> M W unit;             (* SADD *)
  Redis_SRem : string -> string -> M W unit;             (* SREM *)
  Redis_Expire : string -> Z -> M W unit;                (* EXPIRE *)
  Redis_SMembers : string -> M W (list string) }.        (* SMEMBERS *)
Arguments Redis_Set {W}. Arguments Redis_Get {W}. Arguments Redis_GetDel {W}.
Arguments Redis_Del {W}. Arguments Redis_SAdd {W}. Arguments Redis_SRem {W}.
Arguments Redis_Expire {W}. Arguments Redis_SMembers {W}.

(** ** The meaning of the commands *)

Inductive rvalue := RString (b : bytes) | RSet (s : gset string).
Record rentry := mkEntry { re_value : rvalue; re_expiry : option time }.
Abbreviation rcontent := (gmap string rentry).

(** The entry of a key at a time, when it has not expired. *)
Definition live (now : time) (d : rcontent) (key : string) : option rentry :=
  match d !! key with
  | Some e => match re_expiry e with
              | Some t => if now <? t then Some e else None
              | None => Some e
              end
  | None => None
  end.

Definition wrongtype : error :=
  ENew "WRONGTYPE Operation against a key holding the wrong kind of value".

(** A command on the content at a time: the new content and the reply. *)
Abbreviation rcommand R := (time -> rcontent -> rcontent * outcome error R).

Definition cmdSet (key : string) (v : bytes) (ttl : Z) : rcommand unit := fun now d =>
  (<[key := mkEntry (RString v) (if 0 <? ttl then Some (now + ttl) else None)]> d, Ok tt).

Definition cmdGet (key : string) : rcommand bytes := fun now d =>
  (d, match live now d key with
      | None => Err (ESentinel RedisNil)
      | Some (mkEntry (RString b) _) => Ok b
      | Some (mkEntry (RSet _) _) => Err wrongtype
      end).

Definition cmdGetDel (key : string) : rcommand bytes := fun now d =>
  match live now d key with
  | None => (d, Err (ESentinel RedisNil))
  | Some (mkEntry (RString b) _) => (delete key d, Ok b)
  | Some (mkEntry (RSet _) _) => (d, Err wrongtype)
  end.

Definition cmdDel (key : string) : rcommand unit := fun now d => (delete key d, Ok tt).

Definition cmdSAdd (key member : string) : rcommand unit := fun now d =>
  match live now d key with
  | None => (<[key := mkEntry (RSet {[member]}) None]> d, Ok tt)
  | Some (mkEntry (RSet s) t) => (<[key := mkEntry (RSet ({[member]} ∪ s)) t]> d, Ok tt)
  | Some (mkEntry (RString _) _) => (d, Err wrongtype)
  end.

(** A set that becomes empty is removed. *)
Definition cmdSRem (key member : string) : rcommand unit := fun now d =>
  match live now d key with
  | None => (d, Ok tt)
  | Some (mkEntry (RSet s) t) =>
    let s' := s ∖ {[member]} in
    (if bool_decide (s' = ∅) then delete key d else <[key := mkEntry (RSet s') t]> d, Ok tt)
  | Some (mkEntry (RString _) _) => (d, Err wrongtype)
  end.

Definition cmdExpire (key : string) (ttl : Z) : rcommand unit := fun now d =>
  match live now d key with
  | None => (d, Ok tt)
  | Some e => (<[key := mkEntry (re_value e) (Some (now + ttl))]> d, Ok tt)
  end.

Definition cmdSMembers (key : string) : rcommand (list string) := fun now d =>
  (d, match live now d key with
      | None => Ok []
      | Some (mkEntry (RSet s) _) => Ok (elements s)
      | Some (mkEntry (RString _) _) => Err wrongtype
      end).

(** ** What the code relies on *)

Section laws.
Context {X : Type}.

(** [runs m cmd]: [m] sends the command [cmd].  It either reports an error of
    the connection, after which the command may or may not have been done, or
    it returns the reply.  [content] and [clock] are the server's. *)
Definition runs (content : X -> rcontent) (clock : nat -> time) (fault : nat -> bool)
    {R} (m : M (World X) R) (cmd : rcommand R) : Prop :=
  exists f, m = actO f /\ forall w,
    let '(w', o) := f w in
    w_db w' = w_db w /\ w_keys w' = w_keys w /\ w_tick w' = S (w_tick w) /\
    let '(d', reply) := cmd (clock (w_tick w)) (content (w_ext w)) in
    if fault (w_tick w)
    then (content (w_ext w') = content (w_ext w) \/ content (w_ext w') = d') /\
         exists msg, o = Err (ENew msg)
    else content (w_ext w') = d' /\ o = reply.

Class RedisOk (client : RedisClient (World X)) (content : X -> rcontent)
    (clock : nat -> time) (fault : nat -> bool) : Prop := {
  redis_Set k v t : runs content clock fault (Redis_Set client k v t) (cmdSet k v t);
  redis_Get k : runs content clock fault (Redis_Get client k) (cmdGet k);
  redis_GetDel k : runs content clock fault (Redis_GetDel client k) (cmdGetDel k);
  redis_Del k : runs content clock fault (Redis_Del client k) (cmdDel k);
  redis_SAdd k m : runs content clock fault (Redis_SAdd client k m) (cmdSAdd k m);
  redis_SRem k m : runs content clock fault (Redis_SRem client k m) (cmdSRem k m);
  redis_Expire k t : runs content clock fault (Redis_Expire client k t) (cmdExpire k t);
  redis_SMembers k : runs content clock fault (Redis_SMembers client k) (cmdSMembers k) }.
End laws.

(** ** redis.go *)

Definition challengeKeyPrefix : string := "webauthn:challenge:".

Section challenges.
Context {W : Type} (client : RedisClient W).
Local Open Scope prog_scope.

Definition SetChallenge (challengeID : string) (data : bytes) (ttl : Z) : M W unit :=
  let key := challengeKeyPrefix +:+ challengeID in
  mapErr (EWrap "store: set challenge") (Redis_Set client key data ttl).

Definition GetChallenge (challengeID : string) : M W bytes :=
  let key := challengeKeyPrefix +:+ challengeID in
  mapErr (fun err => if errors_Is err RedisNil then ESentinel ErrChallengeNotFound
                     else EWrap "store: get challenge" err)
    (Redis_GetDel client key).
End challenges.

(** ** session.go *)

Record SessionData := mkSessionData {
  sd_SessionID : string; sd_IdentityID : string; sd_TenantID : string; sd_Handle : string;
  sd_CreatedAt : time; sd_LastSeenAt : time; sd_DeviceInfo : string; sd_IPAddress : string }.

Definition set_LastSeenAt (t : time) (d : SessionData) : SessionData :=
  mkSessionData (sd_SessionID d) (sd_IdentityID d) (sd_TenantID d) (sd_Handle d)
    (sd_CreatedAt d) t (sd_DeviceInfo d) (sd_IPAddress d).

(** [encoding/json] on session data; marshalling fails on a year past 9999. *)
Record SessionCodec := mkSessionCodec {
  marshal_session : SessionData -> option bytes;
  unmarshal_session : bytes -> option SessionData }.

Definition session_utf8 (d : SessionData) : bool :=
  forallb valid_utf8 [sd_SessionID d; sd_IdentityID d; sd_TenantID d; sd_Handle d;
                      sd_DeviceInfo d; sd_IPAddress d].

(** Data whose texts are valid UTF-8 survive (invalid bytes are replaced). *)
Class SessionCodecOk (sj : SessionCodec) : Prop :=
  unmarshal_marshal_session : forall d b, session_utf8 d = true ->
    marshal_session sj d = Some b -> unmarshal_session sj b = Some d.

Section sessions.
Context {W : Type} (client : RedisClient W) (sys : Sys W) (sj : SessionCodec) (ttl : Z).
Local Open Scope prog_scope.

Definition marshal_error : error := ENew "json: error calling MarshalJSON for type time.Time".
Definition unmarshal_error : error := ENew "json: cannot unmarshal".

Definition key (sessionID : string) : string := "session:" +:+ sessionID.
Definition indexKey (identityID : string) : string := "sessions:identity:" +:+ identityID.

(** [pipe.Exec]: the queued commands are sent together and run one after the
    other, other clients' commands between them; the first error is returned.
    A failed command does not stop the ones after it. *)
Fixpoint pipe_Exec (queue : list (M W unit)) : M W unit :=
  match queue with
  | [] => ret tt
  | m :: queue =>
    let* r := try m in
    let* rest := try (pipe_Exec queue) in
    match r, rest with
    | inl e, _ => throw e
    | inr _, inl e => throw e
    | inr _, inr _ => ret tt
    end
  end.

Definition Create (data : SessionData) : M W unit :=
  match marshal_session sj data with
  | None => throw (EWrap "session store: marshal" marshal_error)
  | Some b =>
    mapErr (EWrap "session store: create")
      (pipe_Exec [Redis_Set client (key (sd_SessionID data)) b ttl;
                  Redis_SAdd client (indexKey (sd_IdentityID data)) (sd_SessionID data);
                  Redis_Expire client (indexKey (sd_IdentityID data)) ttl])
  end.

Definition notFoundOr (op : string) (err : error) : error :=
  if errors_Is err RedisNil then ESentinel ErrSessionNotFound else EWrap op err.

Definition Get (sessionID : string) : M W SessionData :=
  let* b := mapErr (notFoundOr "session store: get") (Redis_Get client (key sessionID)) in
  match unmarshal_session sj b with
  | None => throw (EWrap "session store: unmarshal" unmarshal_error)
  | Some data =>
    let* now := Now sys in
    let data := set_LastSeenAt now data in
    (match marshal_session sj data with
     | Some updated => ignore (Redis_Set client (key sessionID) updated ttl)
     | None => ret tt
     end) ;;;
    ret data
  end.

Definition Delete (sessionID : string) : M W unit :=
  let* b := mapErr (notFoundOr "session store: delete get") (Redis_Get client (key sessionID)) in
  match unmarshal_session sj b with
  | None => throw (EWrap "session store: delete unmarshal" unmarshal_error)
  | Some data =>
    mapErr (EWrap "session store: delete")
      (pipe_Exec [Redis_Del client (key sessionID);
                  Redis_SRem client (indexKey (sd_IdentityID data)) sessionID])
  end.

Definition DeleteAll (identityID : string) : M W unit :=
  let* sessionIDs := mapErr (EWrap "session store: delete all: list sessions")
                       (Redis_SMembers client (indexKey identityID)) in
  if Nat.eqb (List.length sessionIDs) 0 then ret tt else
  mapErr (EWrap "session store: delete all")
    (pipe_Exec (((fun sid => Redis_Del client (key sid)) <$> sessionIDs) ++
                [Redis_Del client (indexKey identityID)])%list).

(** The loop of ListByIdentity. *)
Fixpoint list_sessions (identityID : string) (sessionIDs : list string) : M W (list SessionData) :=
  match sessionIDs with
  | [] => ret []
  | sid :: sessionIDs =>
    let* r := try (Redis_Get client (key sid)) in
    match r with
    | inl err =>
      if errors_Is err RedisNil then
        ignore (Redis_SRem client (indexKey identityID) sid) ;;;
        list_sessions identityID sessionIDs
      else throw (EWrap ("session store: list get " +:+ sid) err)
    | inr b =>
      let* rest := list_sessions identityID sessionIDs in
      match unmarshal_session sj b with
      | None => ret rest
      | Some data => ret (data :: rest)
      end
    end
  end.

Definition ListByIdentity (identityID : string) : M W (list SessionData) :=
  let* sessionIDs := mapErr (EWrap "session store: list")
                       (Redis_SMembers client (indexKey identityID)) in
  list_sessions identityID sessionIDs.
End sessions.
