(* ===== verification/StoreFacts.v ===== *)
(** * StoreFacts: challenges are used once, sessions live as long as they are used *)

From Stdlib Require Import ZArith Lia Ascii String.
From stdpp Require Import base list sorting strings numbers gmap countable.
From S2P Require Import Prelude Bytes Errors Model Repository World Schema Store Runs Demo.
Open Scope string_scope.
Open Scope Z_scope.

(** ** Keys do not collide *)

Lemma challenge_key_inj a b : challengeKeyPrefix +:+ a = challengeKeyPrefix +:+ b -> a = b.
Proof. intros H. by simplify_eq. Qed.
Lemma key_inj a b : key a = key b -> a = b.
Proof. unfold key. intros H. by simplify_eq. Qed.
Lemma key_indexKey a b : key a <> indexKey b.
Proof. unfold key, indexKey. discriminate. Qed.

(** ** Challenges *)

Section challenges.
Context {X : Type} (client : RedisClient (World X)) (content : X -> rcontent).
Context (rclock : nat -> time) (fault : nat -> bool).
Context `{!RedisOk client content rclock fault}.
Implicit Types w : World X.

(** A challenge is stored (whether or not it has expired). *)
Definition stored (challengeID : string) (w : World X) : bool :=
  bool_decide (is_Some (content (w_ext w) !! (challengeKeyPrefix +:+ challengeID))).

Lemma stored_false id w :
  stored id w = false <-> content (w_ext w) !! (challengeKeyPrefix +:+ id) = None.
Proof. unfold stored. rewrite bool_decide_eq_false. by rewrite eq_None_not_Some. Qed.

Lemma cmdGetDel_spec k now d :
  exists o, (cmdGetDel k now d = (d, o) /\ ~ is_ok o) \/
            (cmdGetDel k now d = (delete k d, o) /\ is_Some (d !! k)).
Proof.
  unfold cmdGetDel, live. destruct (d !! k) as [[v t]|] eqn:Hk.
  - destruct t as [t|]; simpl; [destruct (now <? t)|]; destruct v; eexists;
      first [right; split; [done|by eexists] | left; split; [done|by intros [? [=]]]].
  - eexists. left. split; [done|by intros [? [=]]].
Qed.

(** A consuming read never stores a challenge, and succeeds only on one that
    it removes. *)
Lemma GetChallenge_spends id id' :
  steps_in (spends (fun _ => True) (stored id)) (GetChallenge client id').
Proof.
  unfold GetChallenge. apply steps_in_mapErr.
  destruct (redis_GetDel (RedisOk:=_) (challengeKeyPrefix +:+ id')) as (f & -> & Hf).
  apply steps_in_actO. intros w _. split; [done|]. rewrite !stored_false. intros Hnone.
  specialize (Hf w). destruct (f w) as [w' o]. destruct Hf as (_ & _ & _ & Hf). simpl.
  destruct (cmdGetDel_spec (challengeKeyPrefix +:+ id') (rclock (w_tick w)) (content (w_ext w)))
    as (r & [[He _]|[He _]]); rewrite He in Hf; destruct (fault _);
    destruct Hf as [Hf _]; try destruct Hf as [Hf|Hf]; rewrite Hf; rewrite ?lookup_delete_None; auto.
Qed.

Lemma GetChallenge_disarms id :
  must_disarm (fun _ => True) (stored id) is_ok (GetChallenge client id).
Proof.
  unfold GetChallenge. apply must_disarm_mapErr.
  destruct (redis_GetDel (RedisOk:=_) (challengeKeyPrefix +:+ id)) as (f & -> & Hf).
  intros w _. specialize (Hf w). destruct (f w) as [w' o]. destruct Hf as (_ & _ & _ & Hf). simpl.
  destruct (cmdGetDel_spec (challengeKeyPrefix +:+ id) (rclock (w_tick w)) (content (w_ext w)))
    as (r & [[He Hr]|[He Hr]]); rewrite He in Hf; destruct (fault _).
  - destruct Hf as [_ [msg ->]]. right. by intros [? [=]].
  - destruct Hf as [_ ->]. by right.
  - destruct Hf as [_ [msg ->]]. right. by intros [? [=]].
  - destruct Hf as [Hf _]. left. unfold stored. rewrite Hf.
    rewrite bool_decide_eq_true, bool_decide_eq_false. split; [done|].
    rewrite lookup_delete_eq. by intros [? [=]].
Qed.

(** A challenge is used at most once: of two concurrent requests that fetch
    the same challenge, at most one gets it, whatever other programs that do
    not store that challenge run, in any interleaving, and whatever
    connections fail. *)
Theorem challenge_used_once id sched w ps i j a b :
  i <> j ->
  ps !! i = Some (GetChallenge client id) -> ps !! j = Some (GetChallenge client id) ->
  Forall (steps_in (spends (fun _ => True) (stored id))) ps ->
  let ps' := snd (run_sched sched w ps) in
  ~ (ps' !! i = Some (Ret (Ok a)) /\ ps' !! j = Some (Ret (Ok b))).
Proof.
  intros Hij Hi Hj Hps ps' [Ha Hb].
  destruct (run_sched_steps sched w ps) as [tr Htr].
  eapply (one_winner (fun _ => True) (stored id) is_ok); [exact Htr|exact Hps|done|exact Hij
    |exact Hi|apply GetChallenge_disarms|exact Hj|apply GetChallenge_disarms
    |exact Ha|exact Hb|by split; eexists].
Qed.
End challenges.

(** ** Sessions *)

(** The keys of sessions hold strings and those of indexes sets, which are
    never empty in Redis. *)
Definition well_typed (d : rcontent) : Prop :=
  (forall id e, d !! indexKey id = Some e -> exists s, re_value e = RSet s /\ s <> ∅) /\
  (forall id e, d !! key id = Some e -> exists b, re_value e = RString b).

Lemma live_Some now d k e : live now d k = Some e -> d !! k = Some e.
Proof. unfold live. destruct (d !! k) as [[v [t|]]|]; simpl; [destruct (now <? t)|..]; congruence. Qed.

(** A session entry: the text, live before [t]. *)
Definition session_entry (b : bytes) (t : time) : rentry := mkEntry (RString b) (Some t).

Lemma live_session now d id b t :
  d !! key id = Some (session_entry b t) ->
  live now d (key id) = if now <? t then Some (session_entry b t) else None.
Proof. unfold live. by intros ->. Qed.

Lemma well_typed_insert_session sid b t d :
  well_typed d -> well_typed (<[key sid := session_entry b t]> d).
Proof.
  intros [Hi Hk]. split; intros id e.
  - rewrite lookup_insert_ne by apply key_indexKey. apply Hi.
  - rewrite lookup_insert_Some. intros [[_ <-]|[_ He]]; [by eexists|by eapply Hk].
Qed.

(** The ids in a live index. *)
Definition indexed_ids (now : time) (d : rcontent) (id : string) : gset string :=
  match live now d (indexKey id) with
  | Some (mkEntry (RSet s) _) => s
  | _ => ∅
  end.

(** Adding a session to an index that is absent or a set. *)
Lemma cmdSAdd_index id sid now d :
  well_typed d ->
  exists t, cmdSAdd (indexKey id) sid now d =
    (<[indexKey id := mkEntry (RSet ({[sid]} ∪ indexed_ids now d id)) t]> d, Ok tt) /\
    match t with Some t => now <? t | None => true end = true.
Proof.
  intros [Hset _]. unfold cmdSAdd, indexed_ids, live.
  destruct (d !! indexKey id) as [[v t]|] eqn:Hi.
  - destruct (Hset _ _ Hi) as (s & Hs & _). simpl in Hs. subst v. simpl.
    destruct t as [t|]; [destruct (now <? t) eqn:Ht|].
    + by exists (Some t).
    + exists None. by rewrite (right_id_L ∅ (∪)).
    + by exists None.
  - exists None. by rewrite (right_id_L ∅ (∪)).
Qed.

(** Removing a session from an index that is absent or a set. *)
Lemma cmdSRem_index id sid now d :
  well_typed d ->
  exists d', cmdSRem (indexKey id) sid now d = (d', Ok tt) /\
    indexed_ids now d' id = indexed_ids now d id ∖ {[sid]} /\
    forall k, k <> indexKey id -> d' !! k = d !! k.
Proof.
  intros [Hset _]. unfold cmdSRem, indexed_ids.
  destruct (live now d (indexKey id)) as [[v t]|] eqn:Hl.
  - pose proof (live_Some _ _ _ _ Hl) as Hd. destruct (Hset _ _ Hd) as (s & Hs & _).
    simpl in Hs. subst v. eexists. split; [done|].
    unfold live in Hl. rewrite Hd in Hl. simpl in Hl.
    case_bool_decide as He; unfold live.
    + rewrite lookup_delete_eq, He. split; [done|]. intros k Hk. by rewrite lookup_delete_ne.
    + rewrite lookup_insert_eq. simpl. split; [|intros k Hk; by rewrite lookup_insert_ne].
      destruct t as [t|]; [|done]. by destruct (now <? t).
  - exists d. split; [done|]. rewrite Hl. split; [set_solver|done].
Qed.

Section sessions.
Context {X : Type} (env : Env) (client : RedisClient (World X)) (content : X -> rcontent).
Context (rclock : nat -> time) `{!RedisOk client content rclock (fun _ => false)}.
Implicit Types w : World X.
Abbreviation sys := (system (X:=X) env).

(** [later n d w w']: [w'] follows [w] by [n] ticks, with content [d] and the
    tables and private keys of [w]. *)
Definition later (n : nat) (d : rcontent) (w w' : World X) : Prop :=
  w_tick w' = (n + w_tick w)%nat /\ content (w_ext w') = d /\
  w_db w' = w_db w /\ w_keys w' = w_keys w.

Lemma exec_runs {R} (m : M (World X) R) (cmd : rcommand R) w d o :
  runs content rclock (fun _ => false) m cmd ->
  cmd (rclock (w_tick w)) (content (w_ext w)) = (d, o) ->
  exists w', exec m w = (w', o) /\ later 1 d w w'.
Proof.
  intros (f & -> & Hf) Hc. specialize (Hf w). rewrite exec_actO.
  destruct (f w) as [w' o']. rewrite Hc in Hf. destruct Hf as (? & ? & ? & ? & ->).
  exists w'. split; [done|]. by split_and!.
Qed.

Lemma later_trans m n d d' w w' w'' : later m d w w' -> later n d' w' w'' -> later (n + m) d' w w''.
Proof.
  intros (?&?&?&?) (?&?&?&?). split_and!; [lia|done|congruence..].
Qed.

Lemma exec_Now w : exec (Now sys) w = (ticks 1 w, Ok (clock env (w_tick w))).
Proof. done. Qed.
Lemma later_ticks n w : later n (content (w_ext w)) w (ticks n w).
Proof. done. Qed.

(** The content after the commands of a pipeline that all succeed. *)
Lemma exec_pipe_cons (m : M (World X) unit) queue w w' d :
  exec m w = (w', Ok tt) -> later 1 d w w' ->
  exec (pipe_Exec (m :: queue)) w = exec (pipe_Exec queue) w'.
Proof.
  intros Hm _. simpl. rewrite exec_bind, exec_try, Hm, exec_bind, exec_try.
  destruct (exec (pipe_Exec queue) w') as [w'' [[]|e|s]]; done.
Qed.

(** EXPIRE never fails and touches only its key. *)
Lemma cmdExpire_Ok k t now d : cmdExpire k t now d = ((cmdExpire k t now d).1, Ok tt).
Proof. unfold cmdExpire. by case_match. Qed.
Lemma cmdExpire_other k t now d k' : k' <> k -> (cmdExpire k t now d).1 !! k' = d !! k'.
Proof. intros Hk. unfold cmdExpire. case_match; simpl; by rewrite ?lookup_insert_ne. Qed.

Lemma exec_pipe_dels ks w :
  exists w', exec (pipe_Exec (Redis_Del client <$> ks)) w = (w', Ok tt) /\
    forall k, content (w_ext w') !! k = if bool_decide (k ∈ ks) then None else content (w_ext w) !! k.
Proof.
  revert w. induction ks as [|k0 ks IH]; intros w.
  { exists w. split; [done|]. intros k. by rewrite bool_decide_eq_false_2 by set_solver. }
  destruct (exec_runs _ _ w (delete k0 (content (w_ext w))) (Ok tt) (redis_Del (RedisOk:=_) k0) eq_refl)
    as (w1 & He1 & Hl1). destruct (IH w1) as (w2 & He2 & Hc2).
  exists w2. rewrite fmap_cons. erewrite exec_pipe_cons by eassumption. split; [done|].
  intros k. rewrite Hc2, (proj1 (proj2 Hl1)).
  destruct (decide (k ∈ ks)) as [Hin|Hin].
  - by rewrite !bool_decide_eq_true_2 by set_solver.
  - rewrite bool_decide_eq_false_2 by done. destruct (decide (k = k0)) as [->|Hne].
    + rewrite bool_decide_eq_true_2 by set_solver. apply lookup_delete_eq.
    + rewrite bool_decide_eq_false_2 by set_solver. by rewrite lookup_delete_ne.
Qed.

(** Without a live index DeleteAll finds nothing to delete. *)
Lemma DeleteAll_no_index identity w :
  live (rclock (w_tick w)) (content (w_ext w)) (indexKey identity) = None ->
  exists w', exec (DeleteAll client identity) w = (w', Ok tt) /\
    content (w_ext w') = content (w_ext w).
Proof.
  intros Hnone. unfold DeleteAll. rewrite exec_bind, exec_mapErr.
  destruct (exec_runs _ _ w (content (w_ext w)) (Ok []) (redis_SMembers (RedisOk:=_) (indexKey identity)))
    as (w1 & He1 & Hl1); [unfold cmdSMembers; by rewrite Hnone|].
  rewrite He1. exists w1. split; [done|]. apply Hl1.
Qed.

(** Logging out of all devices deletes every session of the index and the
    index itself, and no other key, when the index is live; when it is not, the
    call succeeds without deleting anything. *)
Theorem DeleteAll_deletes_indexed identity w :
  well_typed (content (w_ext w)) ->
  exists w', exec (DeleteAll client identity) w = (w', Ok tt) /\
  match live (rclock (w_tick w)) (content (w_ext w)) (indexKey identity) with
  | None => content (w_ext w') = content (w_ext w)
  | Some e => exists s, re_value e = RSet s /\
      forall k, content (w_ext w') !! k =
        if bool_decide (k = indexKey identity \/ k ∈ key <$> elements s)
        then None else content (w_ext w) !! k
  end.
Proof.
  intros [Hset _]. destruct (live _ _ _) as [e|] eqn:Hlive; [|by apply DeleteAll_no_index].
  unfold DeleteAll. rewrite exec_bind, exec_mapErr.
  set (reply := snd (cmdSMembers (indexKey identity) (rclock (w_tick w)) (content (w_ext w)))).
  destruct (exec_runs _ _ w (content (w_ext w)) reply
    (redis_SMembers (RedisOk:=_) (indexKey identity)) eq_refl) as (w1 & He1 & Hl1).
  rewrite He1. pose proof Hl1 as (_ & Hd1 & _). subst reply. unfold cmdSMembers. rewrite Hlive. simpl.
  apply live_Some, Hset in Hlive as (s & Hs & Hne).
  destruct e as [v t]. simpl in Hs. subst v. simpl.
  destruct (Nat.eqb_spec (List.length (elements s)) 0) as [Hz|_].
  { exfalso. apply Hne. by apply leibniz_equiv, elements_empty_iff, nil_length_inv. }
  rewrite exec_mapErr.
  replace ((fun sid => Redis_Del client (key sid)) <$> elements s)
    with (Redis_Del client <$> (key <$> elements s)) by by rewrite <- list_fmap_compose.
  change [Redis_Del client (indexKey identity)] with (Redis_Del client <$> [indexKey identity]).
  rewrite <- fmap_app.
  destruct (exec_pipe_dels ((key <$> elements s) ++ [indexKey identity]) w1) as (w2 & -> & Hc).
  exists w2. split; [done|]. exists s. split; [done|]. intros k. rewrite Hc, Hd1.
  rewrite (bool_decide_ext (k ∈ ((key <$> elements s) ++ [indexKey identity])%list)
    (k = indexKey identity \/ k ∈ key <$> elements s)); [done|]. set_solver.
Qed.

(** An index is not kept as long as its sessions: reading a session renews
    the session's expiry but not the index's.  From a session created at one
    time and still being used, once the index has expired, logging out of all
    devices succeeds and leaves the session live. *)
Theorem DeleteAll_misses_renewed_session data b expiry index_expiry w :
  content (w_ext w) !! key (sd_SessionID data) = Some (session_entry b expiry) ->
  re_expiry <$> content (w_ext w) !! indexKey (sd_IdentityID data) = Some (Some index_expiry) ->
  index_expiry <= rclock (w_tick w) -> rclock (1 + w_tick w) < expiry ->
  exists w', exec (DeleteAll client (sd_IdentityID data)) w = (w', Ok tt) /\
  live (rclock (1 + w_tick w)) (content (w_ext w')) (key (sd_SessionID data)) =
    Some (session_entry b expiry).
Proof.
  intros Hk Hix Hle Hlt.
  assert (live (rclock (w_tick w)) (content (w_ext w)) (indexKey (sd_IdentityID data)) = None) as Hnone.
  { unfold live. destruct (content _ !! indexKey _) as [[v t]|]; [|done]. simpl in Hix.
    simplify_eq. simpl. by rewrite (proj2 (Z.ltb_ge _ _)). }
  destruct (DeleteAll_no_index (sd_IdentityID data) w Hnone) as (w' & He & Hc).
  exists w'. split; [done|]. rewrite Hc, (live_session _ _ _ _ _ Hk).
  by rewrite (proj2 (Z.ltb_lt _ _)).
Qed.
(** *** Sessions as stored *)

Section stored.
Context (sj : SessionCodec) `{!SessionCodecOk sj}.

(** Deleting a live session removes its key, takes its id out of the
    identity's index and changes no other key. *)
Theorem Delete_removes_session sid data b expiry w :
  session_utf8 data = true -> marshal_session sj data = Some b ->
  content (w_ext w) !! key sid = Some (session_entry b expiry) ->
  rclock (w_tick w) < expiry -> well_typed (content (w_ext w)) ->
  let now := rclock (2 + w_tick w) in
  exists w', exec (Delete client sj sid) w = (w', Ok tt) /\
    content (w_ext w') !! key sid = None /\
    indexed_ids now (content (w_ext w')) (sd_IdentityID data) =
      indexed_ids now (content (w_ext w)) (sd_IdentityID data) ∖ {[sid]} /\
    forall k, k <> key sid -> k <> indexKey (sd_IdentityID data) ->
      content (w_ext w') !! k = content (w_ext w) !! k.
Proof.
  intros Hutf Hb Hk Hlt Hwt now. unfold Delete. rewrite exec_bind, exec_mapErr.
  destruct (exec_runs _ _ w (content (w_ext w)) (Ok b) (redis_Get (RedisOk:=_) (key sid))) as (w1 & -> & Hl1).
  { unfold cmdGet. rewrite (live_session _ _ _ _ _ Hk). by rewrite (proj2 (Z.ltb_lt _ _) Hlt). }
  cbv iota beta. rewrite (unmarshal_marshal_session _ _ Hutf Hb), exec_mapErr.
  pose proof Hl1 as (Ht1 & Hd1 & _).
  destruct (exec_runs _ _ w1 (delete (key sid) (content (w_ext w))) (Ok tt)
    (redis_Del (RedisOk:=_) (key sid))) as (w2 & He2 & Hl2); [by rewrite Hd1|].
  pose proof Hl2 as (Ht2 & Hd2 & _).
  destruct (cmdSRem_index (sd_IdentityID data) sid now (delete (key sid) (content (w_ext w))))
    as (d' & Hc & Hids & Hother).
  { destruct Hwt as [Hi Hs]. split; intros i e; rewrite lookup_delete_Some; intros [_ ?]; eauto. }
  destruct (exec_runs _ _ w2 d' (Ok tt) (redis_SRem (RedisOk:=_) (indexKey (sd_IdentityID data)) sid))
    as (w3 & He3 & Hl3); [by rewrite Ht2, Ht1, Hd2|].
  erewrite exec_pipe_cons by eassumption. erewrite exec_pipe_cons by eassumption.
  exists w3. pose proof Hl3 as (_ & Hd3 & _). rewrite Hd3.
  split; [done|]. split; [|split].
  - rewrite Hother by apply key_indexKey. apply lookup_delete_eq.
  - rewrite Hids. f_equal. unfold indexed_ids, live.
    by rewrite lookup_delete_ne by apply key_indexKey.
  - intros k Hk1 Hk2. by rewrite Hother, lookup_delete_ne.
Qed.

Context (ttl : Z) (Httl : 0 < ttl).

(** What Create leaves: the session's entry in any case, and the index, unless
    one that was there expires between SADD and EXPIRE. *)
Lemma exec_Create data b w :
  marshal_session sj data = Some b -> well_typed (content (w_ext w)) ->
  let entry := session_entry b (rclock (w_tick w) + ttl) in
  let ids := indexed_ids (rclock (1 + w_tick w)) (content (w_ext w)) (sd_IdentityID data) in
  exists w' d, exec (Create client sj ttl data) w = (w', Ok tt) /\ later 3 d w w' /\
    d !! key (sd_SessionID data) = Some entry /\
    (rclock (2 + w_tick w) = rclock (1 + w_tick w) ->
     d = <[indexKey (sd_IdentityID data) :=
             mkEntry (RSet ({[sd_SessionID data]} ∪ ids)) (Some (rclock (2 + w_tick w) + ttl))]>
           (<[key (sd_SessionID data) := entry]> (content (w_ext w)))).
Proof.
  intros Hb Hwt entry ids. unfold Create. rewrite Hb, exec_mapErr.
  set (d1 := <[key (sd_SessionID data) := entry]> (content (w_ext w))).
  destruct (exec_runs _ _ w d1 (Ok tt) (redis_Set (RedisOk:=_) (key (sd_SessionID data)) b ttl))
    as (w1 & He1 & Hl1).
  { unfold cmdSet. by rewrite (proj2 (Z.ltb_lt _ _) Httl). }
  pose proof Hl1 as (Ht1 & Hd1 & _).
  assert (well_typed d1) as Hwt1 by by apply well_typed_insert_session.
  destruct (cmdSAdd_index (sd_IdentityID data) (sd_SessionID data) (rclock (1 + w_tick w)) d1 Hwt1)
    as (t & Hadd & Hlive).
  replace (indexed_ids _ d1 _) with ids in Hadd; cycle 1.
  { unfold ids, indexed_ids, live, d1. by rewrite lookup_insert_ne by apply key_indexKey. }
  destruct (exec_runs _ _ w1 _ (Ok tt) (redis_SAdd (RedisOk:=_) (indexKey (sd_IdentityID data))
    (sd_SessionID data)) ltac:(rewrite Ht1, Hd1; exact Hadd)) as (w2 & He2 & Hl2).
  pose proof Hl2 as (Ht2 & Hd2 & _).
  destruct (exec_runs _ _ w2 _ (Ok tt) (redis_Expire (RedisOk:=_) (indexKey (sd_IdentityID data)) ttl)
    (cmdExpire_Ok _ _ _ _)) as (w3 & He3 & Hl3).
  eexists w3, _. split; [by do 3 (erewrite exec_pipe_cons by eassumption)|].
  split; [exact (later_trans 2 1 _ _ _ _ _ (later_trans 1 1 _ _ _ _ _ Hl1 Hl2) Hl3)|].
  rewrite Hd2, Ht2, Ht1. change (1 + (1 + w_tick w))%nat with (2 + w_tick w)%nat. split.
  - rewrite cmdExpire_other by apply key_indexKey.
    rewrite lookup_insert_ne by apply not_eq_sym, key_indexKey. apply lookup_insert_eq.
  - intros Hclk. unfold cmdExpire, live. rewrite lookup_insert_eq. cbn [re_expiry re_value].
    rewrite Hclk. destruct t as [t|]; [rewrite Hlive|]; by rewrite insert_insert_eq.
Qed.

(** Creating a session writes its text, to be kept until [ttl] after that
    command, whatever becomes of the index; it puts its id into the identity's
    index, which is kept until [ttl] after the last command, and changes no
    other key.  The index keeps the ids it had: an index that expires between
    SADD and EXPIRE is excluded by the hypothesis on the server's clock. *)
Theorem Create_stores_and_indexes data b w :
  marshal_session sj data = Some b -> well_typed (content (w_ext w)) ->
  let now := rclock (2 + w_tick w) in
  let ids := indexed_ids (rclock (1 + w_tick w)) (content (w_ext w)) (sd_IdentityID data) in
  exists w', exec (Create client sj ttl data) w = (w', Ok tt) /\ w_db w' = w_db w /\
    content (w_ext w') !! key (sd_SessionID data) =
      Some (session_entry b (rclock (w_tick w) + ttl)) /\
    (now = rclock (1 + w_tick w) ->
     indexed_ids now (content (w_ext w')) (sd_IdentityID data) = {[sd_SessionID data]} ∪ ids /\
     re_expiry <$> content (w_ext w') !! indexKey (sd_IdentityID data) = Some (Some (now + ttl)) /\
     forall k, k <> key (sd_SessionID data) -> k <> indexKey (sd_IdentityID data) ->
       content (w_ext w') !! k = content (w_ext w) !! k).
Proof.
  intros Hb Hwt now ids.
  destruct (exec_Create data b w Hb Hwt) as (w' & d & He & (_ & Hd & Hdb & _) & Hkey & Hix).
  exists w'. rewrite Hd. split_and!; [done..|]. intros Hclk. rewrite (Hix Hclk). fold ids now.
  unfold indexed_ids, live. rewrite lookup_insert_eq. cbn [re_expiry].
  rewrite (proj2 (Z.ltb_lt now (now + ttl))) by lia. split; [done|]. split; [done|].
  intros k H1 H2. by rewrite !lookup_insert_ne by done.
Qed.

(** Get of a live session, and of one that has expired. *)
Lemma exec_Get_live sid data b expiry w :
  session_utf8 data = true -> marshal_session sj data = Some b ->
  content (w_ext w) !! key sid = Some (session_entry b expiry) -> rclock (w_tick w) < expiry ->
  let seen := set_LastSeenAt (clock env (1 + w_tick w)) data in
  exists w', exec (Get client sys sj ttl sid) w = (w', Ok seen) /\
  content (w_ext w') =
    match marshal_session sj seen with
    | Some b' => <[key sid := session_entry b' (rclock (2 + w_tick w) + ttl)]> (content (w_ext w))
    | None => content (w_ext w)
    end /\
  w_tick w' = (match marshal_session sj seen with Some _ => 3 | None => 2 end + w_tick w)%nat.
Proof.
  intros Hutf Hb Hk Hlt seen. unfold Get. rewrite exec_bind, exec_mapErr.
  destruct (exec_runs _ _ w (content (w_ext w)) (Ok b) (redis_Get (RedisOk:=_) (key sid)))
    as (w1 & He1 & Hl1).
  { unfold cmdGet. by rewrite (live_session _ _ _ _ _ Hk), (proj2 (Z.ltb_lt _ _) Hlt). }
  rewrite He1. pose proof Hl1 as (Ht1 & Hd1 & _).
  rewrite (unmarshal_marshal_session _ _ Hutf Hb), exec_bind, exec_Now, Ht1. fold seen.
  rewrite exec_bind. destruct (marshal_session sj seen) as [b'|] eqn:Hb'.
  - rewrite exec_ignore.
    destruct (exec_runs _ _ (ticks 1 w1) (<[key sid := session_entry b' (rclock (2 + w_tick w) + ttl)]>
      (content (w_ext w))) (Ok tt) (redis_Set (RedisOk:=_) (key sid) b' ttl)) as (w2 & He2 & Hl2).
    { unfold cmdSet. rewrite (proj2 (Z.ltb_lt _ _) Httl), w_tick_ticks, Ht1.
      by rewrite (proj1 (proj2 (later_ticks 1 w1))), Hd1. }
    rewrite He2. exists w2. pose proof Hl2 as (Ht2 & Hd2 & _). split; [done|]. split; [done|].
    rewrite Ht2, w_tick_ticks, Ht1. done.
  - rewrite exec_ret. eexists. split; [done|]. rewrite w_tick_ticks, Ht1.
    by rewrite (proj1 (proj2 (later_ticks 1 w1))).
Qed.

Lemma exec_Get_absent sid w :
  live (rclock (w_tick w)) (content (w_ext w)) (key sid) = None ->
  exists w', exec (Get client sys sj ttl sid) w = (w', Err (ESentinel ErrSessionNotFound)) /\
    content (w_ext w') = content (w_ext w).
Proof.
  intros Hnone. unfold Get. rewrite exec_bind, exec_mapErr.
  destruct (exec_runs _ _ w (content (w_ext w)) (Err (ESentinel RedisNil))
    (redis_Get (RedisOk:=_) (key sid))) as (w1 & -> & Hl1); [by unfold cmdGet; rewrite Hnone|].
  exists w1. split; [done|]. apply Hl1.
Qed.

(** C35. Reading a session slides its expiry.  While the session is live, Get
    returns it with the current time as LastSeenAt and rewrites it to expire
    [ttl] after this use; from its expiry on, and when it was never stored, Get
    returns ErrSessionNotFound and changes nothing. *)
Theorem Get_slides_expiry sid data b expiry w :
  session_utf8 data = true -> marshal_session sj data = Some b ->
  let now := rclock (w_tick w) in
  let seen := set_LastSeenAt (clock env (1 + w_tick w)) data in
  let stored_entry := content (w_ext w) !! key sid in
  stored_entry = Some (session_entry b expiry) \/ stored_entry = None ->
  exists w', 
  if bool_decide (is_Some stored_entry) && (now <? expiry)
  then exec (Get client sys sj ttl sid) w = (w', Ok seen) /\
    content (w_ext w') =
      match marshal_session sj seen with
      | Some b' => <[key sid := session_entry b' (rclock (2 + w_tick w) + ttl)]> (content (w_ext w))
      | None => content (w_ext w)
      end
  else exec (Get client sys sj ttl sid) w = (w', Err (ESentinel ErrSessionNotFound)) /\
    content (w_ext w') = content (w_ext w).
Proof.
  intros Hutf Hb now seen stored_entry Hk.
  destruct (bool_decide (is_Some stored_entry) && (now <? expiry)) eqn:Hcase.
  - apply andb_true_iff in Hcase as [Hsome%bool_decide_eq_true_1 Hlt%Z.ltb_lt].
    destruct Hk as [Hk|Hk]; [|by rewrite Hk in Hsome; destruct Hsome].
    destruct (exec_Get_live sid data b expiry w Hutf Hb Hk Hlt) as (w' & He & Hc & _). by exists w'.
  - apply exec_Get_absent. destruct Hk as [Hk|Hk]; [|by unfold live; fold stored_entry; rewrite Hk].
    rewrite bool_decide_eq_true_2 in Hcase by by eexists. simpl in Hcase.
    rewrite (live_session _ _ _ _ _ Hk). fold now. by rewrite Hcase.
Qed.

End stored.
End sessions.

(** ** A concrete server *)

Section demo.
Context (rclock : nat -> time) (fault : nat -> bool).

Definition demo_command {R} (cmd : rcommand R) : M (World rcontent) R :=
  actO (fun w =>
    let '(d, o) := cmd (rclock (w_tick w)) (w_ext w) in
    if fault (w_tick w) then (bump w, Err (ENew "redis: connection refused"))
    else (bump (set_ext d w), o)).

Definition demo_redis : RedisClient (World rcontent) :=
  mkRedisClient _ (fun k v t => demo_command (cmdSet k v t)) (fun k => demo_command (cmdGet k))
    (fun k => demo_command (cmdGetDel k)) (fun k => demo_command (cmdDel k))
    (fun k m => demo_command (cmdSAdd k m)) (fun k m => demo_command (cmdSRem k m))
    (fun k t => demo_command (cmdExpire k t)) (fun k => demo_command (cmdSMembers k)).

Lemma demo_command_runs {R} (cmd : rcommand R) : runs id rclock fault (demo_command cmd) cmd.
Proof.
  eexists. split; [reflexivity|]. intros w. simpl.
  destruct (cmd _ _) as [d o]. destruct (fault (w_tick w)) eqn:Hf; simpl;
    split_and!; eauto.
Qed.
#[export] Instance demo_redis_ok : RedisOk demo_redis id rclock fault.
Proof. split; intros; apply demo_command_runs. Qed.
End demo.

(** The text of a session: the canonical encoding of its fields. *)
Definition session_fields (d : SessionData) : list string * (Z * Z) :=
  ([sd_SessionID d; sd_IdentityID d; sd_TenantID d; sd_Handle d; sd_DeviceInfo d; sd_IPAddress d],
   (sd_CreatedAt d, sd_LastSeenAt d)).
Definition of_session_fields (f : list string * (Z * Z)) : option SessionData :=
  match f with
  | ([s; i; t; h; dev; ip], (c, l)) => Some (mkSessionData s i t h c l dev ip)
  | _ => None
  end.
Definition demo_sj : SessionCodec :=
  mkSessionCodec (fun d => Some (bits (encode (session_fields d))))
    (fun b => match unbits b with
              | Some q => match (decode q : option (list string * (Z * Z))) with
                          | Some f => of_session_fields f
                          | None => None
                          end
              | None => None
              end).
#[export] Instance demo_sj_ok : SessionCodecOk demo_sj.
Proof.
  intros d b _. simpl. intros [= <-]. rewrite unbits_bits. simpl.
  rewrite decode_encode. by destruct d.
Qed.

Definition demo_session : SessionData :=
  mkSessionData "s1" "alice" "t1" "alice" 0 0 "browser" "10.0.0.1".
Definition demo_store (d : rcontent) : World rcontent := mkWorld (demo_db "active" "active") ∅ 0 d.
Definition hour : Z := 3600 * second.
Definition day : Z := 24 * hour.
Definition demo_text (d : SessionData) : bytes := bits (encode (session_fields d)).

(** One second a command, and no connection fails. *)
Definition ticking (n : nat) : time := Z.of_nat n * second.
Definition redis1 : RedisClient (World rcontent) := demo_redis ticking (fun _ => false).

Definition with_challenge : rcontent :=
  {[challengeKeyPrefix +:+ "c" := mkEntry (RString [Byte.x01]) (Some day)]}.

Lemma challenge_used_once_witness :
  let ps' := snd (run_sched [0; 1]%nat (demo_store with_challenge)
                    [GetChallenge redis1 "c"; GetChallenge redis1 "c"]) in
  ~ (ps' !! 0%nat = Some (Ret (Ok [Byte.x01])) /\ ps' !! 1%nat = Some (Ret (Ok [Byte.x01]))).
Proof.
  apply (challenge_used_once redis1 id ticking (fun _ => false) "c" _ _ _ 0%nat 1%nat);
    [discriminate|reflexivity|reflexivity|].
  repeat constructor; apply (GetChallenge_spends redis1 id ticking (fun _ => false)).
Defined.

(** The session of the identity alice, live until [t], with its index. *)
Definition with_session (t ti : time) : rcontent :=
  <[key "s1" := session_entry (demo_text demo_session) t]>
    {[indexKey "alice" := mkEntry (RSet {["s1"]}) (Some ti)]}.

Lemma with_session_well_typed t ti : well_typed (with_session t ti).
Proof.
  unfold with_session. split; intros id e.
  - rewrite lookup_insert_ne by apply key_indexKey. rewrite lookup_singleton_Some.
    intros [_ <-]. eexists. split; [reflexivity|set_solver].
  - rewrite lookup_insert_Some, lookup_singleton_Some.
    intros [[_ <-]|[_ [H _]]]; [by eexists|]. by apply eq_sym, key_indexKey in H.
Qed.

(** A clock that stands still over one pipeline. *)
Definition slow (n : nat) : time := if Nat.ltb n 10 then 0 else Z.of_nat n * second.

Lemma Create_stores_and_indexes_witness :
  exists w', exec (Create (demo_redis slow (fun _ => false)) demo_sj day demo_session)
    (demo_store (with_session hour hour)) = (w', Ok tt) /\
    w_ext w' !! key "s1" = Some (session_entry (demo_text demo_session) day).
Proof.
  destruct (Create_stores_and_indexes (X:=rcontent) (demo_redis slow (fun _ => false)) id slow
    demo_sj day eq_refl demo_session (demo_text demo_session)
    (demo_store (with_session hour hour)) eq_refl (with_session_well_typed _ _))
    as (w' & He & _ & Hd & _).
  exists w'. split; [exact He|exact Hd].
Defined.

Lemma Get_slides_expiry_witness :
  exists w', exec (Get redis1 (system demo_env) demo_sj day "s1") (demo_store (with_session hour hour)) =
    (w', Ok (set_LastSeenAt (demo_clock 1) demo_session)).
Proof.
  destruct (Get_slides_expiry (X:=rcontent) demo_env redis1 id ticking demo_sj day eq_refl "s1"
    demo_session (demo_text demo_session) hour (demo_store (with_session hour hour)) eq_refl eq_refl)
    as (w' & He); [left; apply lookup_insert_eq|].
  rewrite bool_decide_eq_true_2 in He by (eexists; apply lookup_insert_eq).
  exists w'. exact (proj1 He).
Defined.

Lemma Delete_removes_session_witness :
  exists w', exec (Delete redis1 demo_sj "s1") (demo_store (with_session hour hour)) = (w', Ok tt) /\
    w_ext w' !! key "s1" = None.
Proof.
  destruct (Delete_removes_session (X:=rcontent) redis1 id ticking demo_sj "s1"
    demo_session (demo_text demo_session) hour (demo_store (with_session hour hour)) eq_refl eq_refl)
    as (w' & He & Hn & _); [apply lookup_insert_eq|reflexivity|apply with_session_well_typed|].
  exists w'. split; [exact He|exact Hn].
Defined.

Lemma DeleteAll_deletes_indexed_witness :
  exists w', exec (DeleteAll redis1 "alice") (demo_store (with_session hour hour)) = (w', Ok tt) /\
    w_ext w' !! key "s1" = None.
Proof.
  destruct (DeleteAll_deletes_indexed (X:=rcontent) redis1 id ticking "alice"
    (demo_store (with_session hour hour)) (with_session_well_typed _ _)) as (w' & He & Hc).
  exists w'. split; [exact He|].
  assert (live (ticking 0) (with_session hour hour) (indexKey "alice") =
          Some (mkEntry (RSet {["s1"]}) (Some hour))) as Hl by (vm_compute; reflexivity).
  change (id (w_ext (demo_store (with_session hour hour)))) with (with_session hour hour) in Hc.
  change (w_tick (demo_store (with_session hour hour))) with 0%nat in Hc.
  rewrite Hl in Hc. destruct Hc as (s & [= <-] & Hc). specialize (Hc (key "s1")).
  rewrite bool_decide_eq_true_2 in Hc; [exact Hc|]. right. rewrite elements_singleton. apply list_elem_of_here.
Defined.

Lemma DeleteAll_misses_renewed_session_witness :
  exists w', exec (DeleteAll redis1 "alice") (demo_store (with_session day 0)) = (w', Ok tt) /\
    live (ticking 1) (w_ext w') (key "s1") = Some (session_entry (demo_text demo_session) day).
Proof.
  apply (DeleteAll_misses_renewed_session (X:=rcontent) redis1 id ticking demo_session
    (demo_text demo_session) day 0 (demo_store (with_session day 0)));
    [apply lookup_insert_eq|vm_compute; reflexivity|vm_compute; discriminate|reflexivity].
Defined.

(** A request in flight resurrects a session: Get reads the session, a
    logout deletes it and succeeds, and then the write that slides the expiry
    stores it again, live for another [ttl] and no longer in the index. *)
Theorem Get_resurrects_deleted_session :
  let '(w', ps) := run_sched [0; 1; 1; 1; 0; 0]%nat (demo_store (with_session day day))
    [let* _ := Get redis1 (system demo_env) demo_sj day "s1" in ret tt;
     Delete redis1 demo_sj "s1"]%prog in
  ps = [Ret (Ok tt); Ret (Ok tt)] /\
  bool_decide (is_Some (live (ticking 6) (w_ext w') (key "s1"))) = true /\
  w_ext w' !! indexKey "alice" = None.
Proof. vm_compute. repeat split. Qed.
