(* ===== verification/SessionFacts.v ===== *)
(** * SessionFacts: the session store under concurrency

    Any number of operations of files redis.go and session.go run at once, their
    Redis commands in any order, and any command may fail on the way.  [owner]
    is the identity for which a session id was drawn (the ids are random and
    used once, by the login that creates the session).  [sessions_ok] is the
    invariant of the server's content, which every program relies on (the logic
    [keeps] of file Prelude). *)

From Stdlib Require Import ZArith Lia Ascii String.
From stdpp Require Import base list sorting strings numbers gmap countable.
From S2P Require Import Prelude Bytes Errors Model Repository World Schema Store Runs Demo.
From S2P Require Import StoreFacts.
Open Scope string_scope.
Open Scope Z_scope.

(** ** The invariant of the store *)

Section store.
Context {X : Type} (env : Env) (client : RedisClient (World X)) (content : X -> rcontent).
Context (rclock : nat -> time) (fault : nat -> bool).
Context `{!RedisOk client content rclock fault}.
Context (sj : SessionCodec) `{!SessionCodecOk sj} (ttl : Z) (Httl : 0 < ttl).
Context (owner : string -> string).
Implicit Types w : World X.
Abbreviation sys := (system (X:=X) env).

(** The data of session [sid]: its own, and of the identity that owns it. *)
Definition data_ok (sid : string) (data : SessionData) : Prop :=
  sd_SessionID data = sid /\ sd_IdentityID data = owner sid /\ session_utf8 data = true.
Definition text_ok (sid : string) (b : bytes) : Prop :=
  exists data, unmarshal_session sj b = Some data /\ data_ok sid data.

(** Every session key holds the text of its own session and expires; every
    index holds a non-empty set of ids that its identity owns. *)
Record sessions_ok (d : rcontent) : Prop := {
  so_session : forall sid e, d !! key sid = Some e ->
    exists b t, e = session_entry b t /\ text_ok sid b;
  so_index : forall id e, d !! indexKey id = Some e ->
    exists s, re_value e = RSet s /\ s <> ∅ /\ forall sid, sid ∈ s -> owner sid = id }.

(** The keys of identity [u] are as they were. *)
Definition undisturbed (u : string) (d d' : rcontent) : Prop :=
  d' !! indexKey u = d !! indexKey u /\
  forall sid, owner sid = u -> d' !! key sid = d !! key sid.
#[export] Instance undisturbed_preorder u : PreOrder (undisturbed u).
Proof.
  split; [by intros d|]. intros x y z [Hi Hs] [Hi' Hs']. split; [congruence|].
  intros sid Hsid. rewrite Hs', Hs; done.
Qed.

(** Only keys of [o] change, and none when there is no such identity. *)
Definition only (o : option string) (d d' : rcontent) : Prop :=
  forall u, o <> Some u -> undisturbed u d d'.
Lemma only_refl o d : only o d d.
Proof. by intros u _. Qed.

Abbreviation I := (fun w => sessions_ok (content (w_ext w))).
Abbreviation within o := (fun w w' : World X => only o (content (w_ext w)) (content (w_ext w'))).

(** ** Commands *)

(** What a command does to a content that satisfies the invariant. *)
Definition safe {R} (o : option string) (Q : R -> Prop) (cmd : rcommand R) : Prop :=
  forall now d, sessions_ok d ->
    sessions_ok (fst (cmd now d)) /\ only o d (fst (cmd now d)) /\ on_ok Q (snd (cmd now d)).

Lemma keeps_cmd {R} o (Q : R -> Prop) (m : M (World X) R) (cmd : rcommand R) :
  runs content rclock fault m cmd -> safe o Q cmd -> keeps I (within o) (on_ok Q) m.
Proof.
  intros (f & -> & Hf) Hcmd w Hw. specialize (Hf w). destruct (f w) as [w' r].
  destruct (Hcmd (rclock (w_tick w)) _ Hw) as (Hok & Honly & HQ).
  destruct Hf as (_ & _ & _ & Hf). destruct (cmd _ _) as [d' reply]. simpl in *.
  destruct (fault _).
  - destruct Hf as [[->| ->] [msg ->]]; (split; [done|]); (split; [try done; by apply only_refl|]);
      by intros ? [=].
  - destruct Hf as [-> ->]. by split_and!.
Qed.

Lemma sessions_ok_delete k d : sessions_ok d -> sessions_ok (delete k d).
Proof. intros [Hs Hi]. split; intros ? ? [_ He]%lookup_delete_Some; eauto. Qed.
Lemma only_delete_session sid d : only (Some (owner sid)) d (delete (key sid) d).
Proof.
  intros u Hu. split; [by rewrite lookup_delete_ne by apply key_indexKey|].
  intros sid' <-. rewrite lookup_delete_ne; [done|]. intros <-%key_inj. done.
Qed.
Lemma indexKey_inj a b : indexKey a = indexKey b -> a = b.
Proof. unfold indexKey. intros H. by simplify_eq. Qed.
Lemma only_index id d d' :
  (forall k, k <> indexKey id -> d' !! k = d !! k) -> only (Some id) d d'.
Proof.
  intros Hd u Hu. split.
  - apply Hd. intros ->%indexKey_inj. done.
  - intros sid _. apply Hd, key_indexKey.
Qed.
Lemma sessions_ok_index id s t d :
  s <> ∅ -> (forall sid, sid ∈ s -> owner sid = id) -> sessions_ok d ->
  sessions_ok (<[indexKey id := mkEntry (RSet s) t]> d).
Proof.
  intros Hne Hs [Hse Hin]. split.
  - intros sid e. rewrite lookup_insert_ne by (apply not_eq_sym, key_indexKey). apply Hse.
  - intros id' e [[<-%indexKey_inj <-]|[_ He]]%lookup_insert_Some; [by exists s|eauto].
Qed.

Lemma safe_Set sid b : text_ok sid b -> safe (Some (owner sid)) (fun _ => True) (cmdSet (key sid) b ttl).
Proof.
  intros Hb now d [Hs Hi]. unfold cmdSet. rewrite (proj2 (Z.ltb_lt _ _) Httl). simpl.
  split; [split|split; [|done]].
  - intros sid' e [[<-%key_inj <-]|[_ He]]%lookup_insert_Some; [by eexists _, _|eauto].
  - intros id e. rewrite lookup_insert_ne by apply key_indexKey. apply Hi.
  - intros u Hu. split; [by rewrite lookup_insert_ne by apply key_indexKey|].
    intros sid' <-. rewrite lookup_insert_ne; [done|]. intros <-%key_inj. done.
Qed.
Lemma safe_Get sid o : safe o (text_ok sid) (cmdGet (key sid)).
Proof.
  intros now d Hd. split; [done|]. split; [apply only_refl|]. simpl.
  destruct (live now d (key sid)) as [e|] eqn:He; [|by intros ? [=]].
  apply live_Some, (so_session d Hd) in He as (b & t & -> & Hb). by intros ? [= <-].
Qed.
Lemma safe_Del sid : safe (Some (owner sid)) (fun _ => True) (cmdDel (key sid)).
Proof.
  intros now d Hd. split; [by apply sessions_ok_delete|]. split; [apply only_delete_session|done].
Qed.
Lemma safe_Del_index id : safe (Some id) (fun _ => True) (cmdDel (indexKey id)).
Proof.
  intros now d Hd. split; [by apply sessions_ok_delete|]. split; [|done].
  apply only_index. intros k Hk. by apply lookup_delete_ne.
Qed.
Lemma safe_SAdd sid : safe (Some (owner sid)) (fun _ => True) (cmdSAdd (indexKey (owner sid)) sid).
Proof.
  intros now d Hd. unfold cmdSAdd.
  destruct (live now d _) as [[[b|s] t]|] eqn:He; simpl; (split; [|split; [|done]]);
    try done; try (apply only_index; intros k Hk; by rewrite ?lookup_insert_ne).
  - apply live_Some, (so_index d Hd) in He as (s' & [= <-] & _ & Hs).
    apply sessions_ok_index; [set_solver|set_solver|done].
  - apply sessions_ok_index; [set_solver|set_solver|done].
Qed.
Lemma safe_SRem id sid : safe (Some id) (fun _ => True) (cmdSRem (indexKey id) sid).
Proof.
  intros now d Hd. unfold cmdSRem.
  destruct (live now d _) as [[[b|s] t]|] eqn:He; simpl; (split; [|split; [|done]]);
    try done; try case_bool_decide;
    try (apply only_index; intros k Hk; by rewrite ?lookup_insert_ne, ?lookup_delete_ne).
  - by apply sessions_ok_delete.
  - apply live_Some, (so_index d Hd) in He as (s' & [= <-] & _ & Hs).
    apply sessions_ok_index; [done|set_solver|done].
Qed.
Lemma safe_Expire id : safe (Some id) (fun _ => True) (cmdExpire (indexKey id) ttl).
Proof.
  intros now d Hd. unfold cmdExpire.
  destruct (live now d _) as [e|] eqn:He; simpl; (split; [|split; [|done]]);
    try done; try (apply only_index; intros k Hk; by rewrite ?lookup_insert_ne).
  apply live_Some, (so_index d Hd) in He as (s & -> & Hne & Hs). by apply sessions_ok_index.
Qed.
Lemma safe_SMembers id o :
  safe o (Forall (fun sid => owner sid = id)) (cmdSMembers (indexKey id)).
Proof.
  intros now d Hd. split; [done|]. split; [apply only_refl|]. simpl.
  destruct (live now d _) as [[v t]|] eqn:He; [|by intros ? [= <-]; constructor].
  apply live_Some, (so_index d Hd) in He as (s & Hv & _ & Hs). simpl in Hv. subst v.
  intros ? [= <-]. apply list.Forall_forall. intros sid Hsid%elem_of_elements. by apply Hs.
Qed.

(** Challenges have keys of their own. *)
Lemma challenge_not_session id sid : challengeKeyPrefix +:+ id <> key sid.
Proof. unfold challengeKeyPrefix, key. discriminate. Qed.
Lemma challenge_not_index id id' : challengeKeyPrefix +:+ id <> indexKey id'.
Proof. unfold challengeKeyPrefix, indexKey. discriminate. Qed.
Lemma sessions_ok_other k e d :
  (forall sid, k <> key sid) -> (forall id, k <> indexKey id) -> sessions_ok d ->
  sessions_ok (<[k := e]> d).
Proof.
  intros Hk Hi [Hs Hx]. split; intros x e' [[Heq _]|[_ He]]%lookup_insert_Some; eauto.
  - by destruct (Hk x).
  - by destruct (Hi x).
Qed.
Lemma safe_SetChallenge id b t : safe None (fun _ => True) (cmdSet (challengeKeyPrefix +:+ id) b t).
Proof.
  intros now d Hd. split; [|split; [|done]].
  - apply sessions_ok_other; [apply challenge_not_session|apply challenge_not_index|done].
  - intros u _. unfold cmdSet. cbn [fst]. split; [|intros sid _]; apply lookup_insert_ne;
      [apply challenge_not_index|apply challenge_not_session].
Qed.
Lemma safe_GetDel_challenge id : safe None (fun _ => True) (cmdGetDel (challengeKeyPrefix +:+ id)).
Proof.
  intros now d Hd.
  destruct (cmdGetDel_spec (challengeKeyPrefix +:+ id) now d) as (r & [[He _]|[He _]]); rewrite He; simpl.
  - split; [done|]. split; [apply only_refl|done].
  - split; [by apply sessions_ok_delete|]. split; [|done].
    intros u _. split; [|intros sid _]; apply lookup_delete_ne;
      [apply challenge_not_index|apply challenge_not_session].
Qed.

(** ** Operations *)

Abbreviation keeps_in o := (keeps I (within o)).

Lemma keeps_Now o : keeps_in o (on_ok (fun _ => True)) (Now sys).
Proof. intros w Hw. split; [done|]. split; [apply only_refl|done]. Qed.

Lemma keeps_pipe o queue :
  Forall (keeps_in o (on_ok (fun _ => True))) queue ->
  keeps_in o (on_ok (fun _ => True)) (pipe_Exec queue).
Proof.
  induction 1 as [|m queue Hm _ IH]; cbn [pipe_Exec]; [by apply keeps_ret|].
  eapply keeps_then; [by apply keeps_try|]. intros r.
  eapply keeps_then; [by apply keeps_try|]. intros rest.
  destruct r, rest; first [apply keeps_throw|by apply keeps_ret].
Qed.

Lemma keeps_Redis_Get o sid : keeps_in o (on_ok (text_ok sid)) (Redis_Get client (key sid)).
Proof. eapply keeps_cmd; [apply redis_Get|apply safe_Get]. Qed.

Definition creatable (data : SessionData) : Prop := data_ok (sd_SessionID data) data.

Lemma text_ok_marshal data b :
  creatable data -> marshal_session sj data = Some b -> text_ok (sd_SessionID data) b.
Proof.
  intros Hdata Hb. exists data. split; [|done].
  apply unmarshal_marshal_session; [apply Hdata|done].
Qed.
Lemma data_ok_seen sid data t : data_ok sid data -> data_ok sid (set_LastSeenAt t data).
Proof. by intros (? & ? & ?). Qed.

Lemma keeps_Create data :
  creatable data ->
  keeps_in (Some (sd_IdentityID data)) (on_ok (fun _ => True)) (Create client sj ttl data).
Proof.
  intros Hdata. unfold Create. pose proof Hdata as (_ & Hown & _).
  destruct (marshal_session sj data) as [b|] eqn:Hb; [|apply keeps_throw].
  apply keeps_mapErr, keeps_pipe. rewrite Hown. repeat constructor.
  - eapply keeps_cmd; [apply redis_Set|]. by apply safe_Set, text_ok_marshal.
  - eapply keeps_cmd; [apply redis_SAdd|apply safe_SAdd].
  - eapply keeps_cmd; [apply redis_Expire|apply safe_Expire].
Qed.

Lemma keeps_Get sid :
  keeps_in (Some (owner sid)) (on_ok (data_ok sid)) (Get client sys sj ttl sid).
Proof.
  unfold Get. eapply keeps_bind; [apply keeps_mapErr, keeps_Redis_Get|].
  intros b (data & -> & Hdata). eapply keeps_then; [apply keeps_Now|]. intros now.
  pose proof (data_ok_seen sid data now Hdata) as Hseen. set (seen := set_LastSeenAt now data) in *.
  apply (keeps_then _ _ (fun _ => True)); [|intros []; by apply keeps_ret].
  destruct (marshal_session sj seen) as [updated|] eqn:Hb; [|by apply keeps_ret].
  eapply keeps_ignore, keeps_cmd; [apply redis_Set|]. apply safe_Set.
  exists seen. split; [|done]. apply unmarshal_marshal_session; [apply Hseen|done].
Qed.

Lemma keeps_Delete sid :
  keeps_in (Some (owner sid)) (on_ok (fun _ => True)) (Delete client sj sid).
Proof.
  unfold Delete. eapply keeps_bind; [apply keeps_mapErr, keeps_Redis_Get|].
  intros b (data & -> & _ & Hown & _). rewrite Hown. apply keeps_mapErr, keeps_pipe.
  repeat constructor; (eapply keeps_cmd; [apply RedisOk0|]); [apply safe_Del|apply safe_SRem].
Qed.

Lemma keeps_Redis_SMembers o id :
  keeps_in o (on_ok (Forall (fun sid => owner sid = id))) (Redis_SMembers client (indexKey id)).
Proof. eapply keeps_cmd; [apply redis_SMembers|apply safe_SMembers]. Qed.

Lemma keeps_DeleteAll id : keeps_in (Some id) (on_ok (fun _ => True)) (DeleteAll client id).
Proof.
  unfold DeleteAll. eapply keeps_bind; [apply keeps_mapErr, keeps_Redis_SMembers|].
  intros sids Hsids. destruct (Nat.eqb _ _); [by apply keeps_ret|].
  apply keeps_mapErr, keeps_pipe, Forall_app_2.
  - apply list.Forall_fmap. eapply list.Forall_impl; [exact Hsids|]. intros sid <-.
    eapply keeps_cmd; [apply redis_Del|apply safe_Del].
  - repeat constructor. eapply keeps_cmd; [apply redis_Del|apply safe_Del_index].
Qed.

(** Data of a session that [id] owns. *)
Definition of_identity (id : string) (data : SessionData) : Prop :=
  data_ok (sd_SessionID data) data /\ sd_IdentityID data = id.

Lemma keeps_ListByIdentity id :
  keeps_in (Some id) (on_ok (Forall (of_identity id))) (ListByIdentity client sj id).
Proof.
  unfold ListByIdentity. eapply keeps_bind; [apply keeps_mapErr, keeps_Redis_SMembers|].
  intros sids. induction 1 as [|sid sids Hown Hsids IH]; cbn [list_sessions].
  { apply keeps_ret. constructor. }
  eapply keeps_bind; [apply keeps_try, keeps_Redis_Get|]. intros [err|b] Hb.
  - destruct (errors_Is err RedisNil); [|apply keeps_throw].
    eapply keeps_then; [|intros _; exact IH].
    eapply keeps_ignore, keeps_cmd; [apply redis_SRem|apply safe_SRem].
  - eapply keeps_bind; [exact IH|]. intros rest Hrest.
    destruct (Hb b eq_refl) as (data & -> & Hdata). apply keeps_ret. constructor; [|done].
    destruct Hdata as (Hid & Hdid & Hutf). split; [by rewrite Hid|congruence].
Qed.

(** ** Any operations, in any order *)

Inductive session_op :=
| OpCreate (data : SessionData)
| OpGet (sessionID : string)
| OpDelete (sessionID : string)
| OpDeleteAll (identityID : string)
| OpListByIdentity (identityID : string)
| OpSetChallenge (challengeID : string) (data : bytes) (ttl : Z)
| OpGetChallenge (challengeID : string).

Inductive session_reply :=
| Done
| Session (data : SessionData)
| Sessions (l : list SessionData)
| Challenge (data : bytes).

Definition run_session_op (op : session_op) : M (World X) session_reply :=
  match op with
  | OpCreate data => bind (Create client sj ttl data) (fun _ => ret Done)
  | OpGet sid => bind (Get client sys sj ttl sid) (fun d => ret (Session d))
  | OpDelete sid => bind (Delete client sj sid) (fun _ => ret Done)
  | OpDeleteAll id => bind (DeleteAll client id) (fun _ => ret Done)
  | OpListByIdentity id => bind (ListByIdentity client sj id) (fun l => ret (Sessions l))
  | OpSetChallenge id b t => bind (SetChallenge client id b t) (fun _ => ret Done)
  | OpGetChallenge id => bind (GetChallenge client id) (fun b => ret (Challenge b))
  end.

(** The identity an operation is about. *)
Definition op_identity (op : session_op) : option string :=
  match op with
  | OpCreate data => Some (sd_IdentityID data)
  | OpGet sid | OpDelete sid => Some (owner sid)
  | OpDeleteAll id | OpListByIdentity id => Some id
  | OpSetChallenge _ _ _ | OpGetChallenge _ => None
  end.

Definition allowed (op : session_op) : Prop :=
  match op with OpCreate data => creatable data | _ => True end.

(** What a value returned by an operation is. *)
Definition promised (op : session_op) (r : session_reply) : Prop :=
  match op, r with
  | OpGet sid, Session data => data_ok sid data
  | OpListByIdentity id, Sessions l => Forall (of_identity id) l
  | OpGetChallenge _, Challenge _ => True
  | (OpCreate _ | OpDelete _ | OpDeleteAll _ | OpSetChallenge _ _ _), Done => True
  | _, _ => False
  end.

Lemma keeps_session_op op :
  allowed op -> keeps_in (op_identity op) (on_ok (promised op)) (run_session_op op).
Proof.
  destruct op; simpl; intros Hallowed;
    (eapply keeps_bind; [|intros ? ?; apply keeps_ret; simpl; try done; eassumption]);
    rewrite ?(proj1 Hallowed).
  - by apply keeps_Create.
  - apply keeps_Get.
  - apply keeps_Delete.
  - apply keeps_DeleteAll.
  - apply keeps_ListByIdentity.
  - eapply keeps_mapErr, keeps_cmd; [apply redis_Set|apply safe_SetChallenge].
  - eapply keeps_mapErr, keeps_cmd; [apply redis_GetDel|apply safe_GetDel_challenge].
Qed.

Lemma pool_session_ops (G : World X -> World X -> Prop) `{!PreOrder G} ops sched w :
  sessions_ok (content (w_ext w)) -> Forall allowed ops ->
  (forall op w1 w2, op ∈ ops -> within (op_identity op) w1 w2 -> G w1 w2) ->
  let r := run_sched sched w (run_session_op <$> ops) in
  sessions_ok (content (w_ext (fst r))) /\ G w (fst r) /\
  forall i op o, ops !! i = Some op -> snd r !! i = Some (Ret o) -> on_ok (promised op) o.
Proof.
  intros Hw Hops HG r. destruct (run_sched_steps sched w (run_session_op <$> ops)) as [tr Htr].
  apply (pool_keeps I G (fun i o => forall op, ops !! i = Some op -> on_ok (promised op) o))
    in Htr as (Hw' & Hrel & Hres); [|done|].
  - split; [exact Hw'|]. split; [exact Hrel|]. intros i op o Hi Ho. exact (Hres i _ Ho op Hi).
  - intros i p Hi. rewrite list_lookup_fmap in Hi.
    destruct (ops !! i) as [op|] eqn:Hop; [|done]. injection Hi as <-.
    eapply keeps_mono; [intros o Ho op' [= <-]; exact Ho|].
    eapply keeps_weaken; [intros w1 w2 H12; eapply (HG op); [by eapply list_elem_of_lookup_2|exact H12]|].
    by apply keeps_session_op, (Forall_lookup_1 _ _ _ _ Hops Hop).
Qed.

(** C6. The session store stays consistent.  Any number of operations of the
    store run at once, their commands in any order, and connections may fail
    at any of them.  Every session key still holds the data of its own session
    and expires, and every index still names sessions of its own identity
    only.  Get returns the session it was asked for, ListByIdentity sessions
    of the identity it was asked for, and the sessions and the index of an
    identity that no operation is about are as they were: a logout of all
    devices never touches another identity. *)
Theorem session_store_consistent ops sched w :
  sessions_ok (content (w_ext w)) -> Forall allowed ops ->
  let '(w', ps') := run_sched sched w (run_session_op <$> ops) in
  sessions_ok (content (w_ext w')) /\
  (forall i op r, ops !! i = Some op -> ps' !! i = Some (Ret (Ok r)) -> promised op r) /\
  (forall u, Forall (fun op => op_identity op <> Some u) ops ->
     undisturbed u (content (w_ext w)) (content (w_ext w'))).
Proof.
  intros Hw Hops. destruct (run_sched _ _ _) as [w' ps'] eqn:Hrun.
  assert (PreOrder (fun _ _ : World X => True)) by by split.
  destruct (pool_session_ops (fun _ _ => True) ops sched w Hw Hops) as (Hok & _ & Hres); [done|].
  rewrite Hrun in Hok, Hres. split; [done|]. split.
  - intros i op r Hi Hr. by apply (Hres i op (Ok r) Hi Hr).
  - intros u Hu.
    assert (PreOrder (fun w1 w2 : World X => undisturbed u (content (w_ext w1)) (content (w_ext w2)))).
    { split; [by intros w1|]. intros w1 w2 w3. apply (transitivity (R:=undisturbed u)). }
    destruct (pool_session_ops (fun w1 w2 => undisturbed u (content (w_ext w1)) (content (w_ext w2)))
      ops sched w Hw Hops) as (_ & Hund & _); [|by rewrite Hrun in Hund].
    intros op w1 w2 Hop Honly. apply Honly. exact (proj1 (list.Forall_forall _ _) Hu op Hop).
Qed.
End store.

(** ** On a concrete server *)

Definition demo_owner (sid : string) : string := if String.eqb sid "s1" then "alice" else "bob".
Definition bob_session : SessionData :=
  mkSessionData "s2" "bob" "t2" "bob" 0 0 "phone" "10.0.0.2".

(** Bob logs in, reads the session and logs out everywhere, all at once, over a
    server whose sixth command fails; alice's session stays. *)
Lemma session_store_consistent_witness :
  let '(w', ps') := run_sched [0; 1; 2; 0; 1; 0; 2; 1; 2; 2]%nat (demo_store (with_session hour hour))
    (run_session_op demo_env (demo_redis ticking (fun n => Nat.eqb n 5)) demo_sj day <$>
       [OpCreate bob_session; OpGet "s2"; OpDeleteAll "bob"]) in
  sessions_ok demo_sj demo_owner (w_ext w') /\
  w_ext w' !! key "s1" = Some (session_entry (demo_text demo_session) hour).
Proof.
  pose proof (session_store_consistent demo_env (demo_redis ticking (fun n => Nat.eqb n 5)) id ticking
    (fun n => Nat.eqb n 5) demo_sj day eq_refl demo_owner
    [OpCreate bob_session; OpGet "s2"; OpDeleteAll "bob"] [0; 1; 2; 0; 1; 0; 2; 1; 2; 2]%nat
    (demo_store (with_session hour hour))) as H.
  destruct (run_sched _ _ _) as [w' ps']. destruct H as (Hok & _ & Hund).
  - split; [intros sid e|intros ident e]; unfold with_session; simpl.
    + intros [[<-%key_inj <-]|[_ [Hk _]%lookup_singleton_Some]]%lookup_insert_Some;
        [|by apply eq_sym, key_indexKey in Hk].
      eexists _, _. split; [reflexivity|]. exists demo_session.
      split; [|split; [reflexivity|by split; vm_compute]].
      apply (unmarshal_marshal_session demo_session _ eq_refl). reflexivity.
    + rewrite lookup_insert_ne by apply key_indexKey.
      intros [<-%(indexKey_inj _ ident) <-]%lookup_singleton_Some.
      eexists. split; [reflexivity|]. split; [set_solver|]. by intros sid ->%elem_of_singleton.
  - repeat constructor.
  - split; [exact Hok|]. destruct (Hund "alice") as [_ Hsame].
    + repeat constructor; discriminate.
    + etrans; [exact (Hsame "s1" eq_refl)|apply lookup_insert_eq].
Defined.
