(* ===== verification/Jwt.v ===== *)
(** * Jwt: [internal/auth/jwt.go]

    The tokens of the service: an Ed25519 signature over the base64url texts
    of a header and of the claims.  [encoding/json] on the claims is an
    argument ([ClaimsCodec]); the signature scheme is that of file Crypto. *)

From Stdlib Require Import ZArith Lia Ascii String.
From stdpp Require Import base list strings numbers gmap.
From S2P Require Import Prelude Bytes Errors Model Repository World Crypto.
Open Scope string_scope.
Open Scope Z_scope.

Record Claims := mkClaims {
  Subject : string; IssuedAt : Z; ExpiresAt : Z; Issuer : string;
  cl_TenantID : string; cl_Handle : string; cl_Type : string; cl_SessionID : string }.

(** A marshalled claim set is a JSON object; unmarshalling also accepts
    documents that marshalling does not produce. *)
Record ClaimsCodec := mkClaimsCodec {
  marshal_claims : Claims -> bytes;
  unmarshal_claims : bytes -> option Claims }.

Definition claims_utf8 (c : Claims) : bool :=
  forallb valid_utf8 [Subject c; Issuer c; cl_TenantID c; cl_Handle c; cl_Type c; cl_SessionID c].

Class ClaimsCodecOk (cj : ClaimsCodec) : Prop :=
  unmarshal_marshal_claims : forall c, claims_utf8 c = true ->
    unmarshal_claims cj (marshal_claims cj c) = Some c.

Record TokenConfig := mkTokenConfig { TTL : Z; cfg_Issuer : string }.

Definition DefaultTokenConfig : TokenConfig := mkTokenConfig (3600 * second) "verion".

Record TokenService := mkTokenService {
  ts_cfg : TokenConfig; ts_privateKey : bytes; ts_publicKey : bytes }.

Definition jwtBase64 (b : bytes) : string := RawEncode urlAlphabet b.

Section jwt.
Context {W : Type} (p : Prims) (sys : Sys W) (json : Codec) (cj : ClaimsCodec).
Local Open Scope prog_scope.

Definition Claims_Valid (c : Claims) : M W unit :=
  let* now := Now sys in
  if ExpiresAt c <? Unix now then throw (ESentinel ErrTokenExpired) else
  if String.eqb (Subject c) "" || String.eqb (cl_TenantID c) ""
  then throw (ESentinel ErrTokenInvalid) else
  ret tt.

(** [ed25519.GenerateKey] reads a seed from the random source. *)
Definition NewTokenService (cfg : TokenConfig) : M W TokenService :=
  let* seed := RandRead sys 32 in
  let '(pub, priv) := ed25519_GenerateKey p seed in
  ret (mkTokenService cfg priv pub).

(** The header and the claims that are signed. *)
Definition signingInput (claims : Claims) : string :=
  let header := jwtBase64 (marshal_strings json [("alg", "EdDSA"); ("typ", "JWT")]) in
  let payload := jwtBase64 (marshal_claims cj claims) in
  header +:+ "." +:+ payload.

(** The claims are the caller's object: Issue writes four of its fields. *)
Definition Issue (s : TokenService) (claims : Claims) (sessionID : string)
  : M W (string * Claims) :=
  let* now := Now sys in
  let claims := mkClaims (Subject claims) (Unix now) (Unix (now + TTL (ts_cfg s)))
                  (cfg_Issuer (ts_cfg s)) (cl_TenantID claims) (cl_Handle claims)
                  (cl_Type claims) sessionID in
  let input := signingInput claims in
  let sig := ed25519_Sign p (ts_privateKey s) (s2b input) in
  ret (input +:+ "." +:+ jwtBase64 sig, claims).

Definition Verify (s : TokenService) (token : string) : M W Claims :=
  match split "." token with
  | [header; payload; signature] =>
    let signingInput := header +:+ "." +:+ payload in
    match RawDecode urlAlphabet signature with
    | None => throw (ESentinel ErrTokenInvalid)
    | Some sig =>
      if negb (ed25519_Verify p (ts_publicKey s) (s2b signingInput) sig)
      then throw (ESentinel ErrTokenInvalid) else
      match RawDecode urlAlphabet payload with
      | None => throw (ESentinel ErrTokenInvalid)
      | Some payloadJSON =>
        match unmarshal_claims cj payloadJSON with
        | None => throw (ESentinel ErrTokenInvalid)
        | Some claims =>
          Claims_Valid claims ;;;
          ret claims
        end
      end
    end
  | _ => throw (ESentinel ErrTokenInvalid)
  end.
End jwt.
