(* ===== verification/JwtFacts.v ===== *)
(** * JwtFacts: what a token is worth *)

From Stdlib Require Import ZArith Lia Ascii String.
From stdpp Require Import base list strings numbers gmap countable.
From S2P Require Import Prelude Bytes Errors Model Repository World Schema Crypto Runs System Demo.
From S2P Require Import Jwt.
Open Scope string_scope.
Open Scope Z_scope.

Section jwt.
Context {X : Type} (env : Env) (p : Prims) (json : Codec) (cj : ClaimsCodec).
Context `{!PrimsOk p, !ClaimsCodecOk cj}.
Implicit Types w : World X.
Abbreviation sys := (system (X:=X) env).
Abbreviation Verify := (Verify (W:=World X) p sys cj).
Abbreviation Issue := (Issue (W:=World X) p sys json cj).

Lemma jwtBase64_no_dot b : no_char "." (jwtBase64 b) = true.
Proof. apply RawEncode_no_char; [auto|set_solver]. Qed.

Lemma split_token a b c :
  no_char "." a = true -> no_char "." b = true -> no_char "." c = true ->
  split "." ((a +:+ "." +:+ b) +:+ "." +:+ c) = [a; b; c].
Proof.
  intros Ha Hb Hc. change ("." +:+ b) with (String "." b). change ("." +:+ c) with (String "." c).
  rewrite append_assoc, append_cons. rewrite !split_app by done. by rewrite split_no_char.
Qed.

(** The answer of [Claims.Valid] at an instant. *)
Definition validity (c : Claims) (now : time) : outcome error Claims :=
  if ExpiresAt c <? Unix now then Err (ESentinel ErrTokenExpired)
  else if String.eqb (Subject c) "" || String.eqb (cl_TenantID c) ""
       then Err (ESentinel ErrTokenInvalid)
       else Ok c.

Lemma exec_valid c w :
  exec (let* _ := Claims_Valid sys c in ret c)%prog w =
  (ticks 1 w, validity c (clock env (w_tick w))).
Proof.
  unfold Claims_Valid, validity. rewrite !exec_bind. simpl Now. unfold time_Now.
  rewrite exec_act. repeat case_match; rewrite ?exec_throw, ?exec_ret in *; by simplify_eq.
Qed.

(** The claims that a token carries, if the service's key signed them. *)
Definition token_claims (s : TokenService) (token : string) : option Claims :=
  match split "." token with
  | [header; payload; signature] =>
    sig ← RawDecode urlAlphabet signature;
    if ed25519_Verify p (ts_publicKey s) (s2b (header +:+ "." +:+ payload)) sig
    then RawDecode urlAlphabet payload ≫= unmarshal_claims cj
    else None
  | _ => None
  end.

(** Verify decides on these claims and on the time. *)
Lemma exec_Verify s token w :
  exec (Verify s token) w =
  match token_claims s token with
  | Some c => (ticks 1 w, validity c (clock env (w_tick w)))
  | None => (w, Err (ESentinel ErrTokenInvalid))
  end.
Proof.
  unfold Jwt.Verify, token_claims.
  destruct (split "." token) as [|h [|pl [|sg [|? ?]]]]; try done.
  destruct (RawDecode urlAlphabet sg) as [sig|]; [|done]. simpl.
  destruct (ed25519_Verify _ _ _ _); [|done]. cbn [negb].
  destruct (RawDecode urlAlphabet pl) as [pj|]; [|done]. simpl.
  destruct (unmarshal_claims cj pj) as [c|]; [|done]. apply exec_valid.
Qed.

(** The claims that [Issue] signs. *)
Definition stamped (s : TokenService) (c : Claims) (sid : string) (now : time) : Claims :=
  mkClaims (Subject c) (Unix now) (Unix (now + TTL (ts_cfg s))) (cfg_Issuer (ts_cfg s))
    (cl_TenantID c) (cl_Handle c) (cl_Type c) sid.

Lemma exec_Issue s c sid w :
  let c' := stamped s c sid (clock env (w_tick w)) in
  exec (Issue s c sid) w =
  (ticks 1 w, Ok (signingInput json cj c' +:+ "." +:+
                  jwtBase64 (ed25519_Sign p (ts_privateKey s) (s2b (signingInput json cj c'))), c')).
Proof. reflexivity. Qed.

Lemma token_claims_issued s c seed :
  ed25519_GenerateKey p seed = (ts_publicKey s, ts_privateKey s) ->
  claims_utf8 c = true ->
  token_claims s (signingInput json cj c +:+ "." +:+
    jwtBase64 (ed25519_Sign p (ts_privateKey s) (s2b (signingInput json cj c)))) = Some c.
Proof.
  intros Hk Hc. unfold token_claims.
  replace (split _ _) with [jwtBase64 (marshal_strings json [("alg", "EdDSA"); ("typ", "JWT")]);
    jwtBase64 (marshal_claims cj c);
    jwtBase64 (ed25519_Sign p (ts_privateKey s) (s2b (signingInput json cj c)))]
    by (symmetry; apply split_token; apply jwtBase64_no_dot).
  fold (signingInput json cj c). unfold jwtBase64 at 1. rewrite RawDecode_RawEncode by auto.
  cbn [mbind option_bind]. fold (signingInput json cj c).
  pose proof (ed25519_Verify_Sign (p:=p) seed (s2b (signingInput json cj c))) as Hv.
  rewrite Hk in Hv. unfold jwtBase64. rewrite RawDecode_RawEncode by auto.
  cbn [mbind option_bind]. rewrite Hv.
  apply unmarshal_marshal_claims, Hc.
Qed.

(** C21. Tokens: with the key pair that NewTokenService made, what Issue returns
    for some claims is a token that Verify maps to these claims (stamped with
    the issuer, the issue time, the expiry [TTL] later and the session) at any
    later time up to the expiry; after it Verify answers ErrTokenExpired, and
    it answers ErrTokenInvalid at once when subject or tenant is empty. *)
Theorem Issue_then_Verify cfg s c sid w0 w0' w :
  exec (NewTokenService (W:=World X) p sys cfg) w0 = (w0', Ok s) ->
  let now := clock env (w_tick w) in
  let issued := stamped s c sid now in
  claims_utf8 issued = true ->
  exists token, exec (Issue s c sid) w = (ticks 1 w, Ok (token, issued)) /\
  ExpiresAt issued = Unix (now + TTL cfg) /\ cl_SessionID issued = sid /\
  forall w1,
    let at_ := Unix (clock env (w_tick w1)) in
    exec (Verify s token) w1 =
    (ticks 1 w1,
     if ExpiresAt issued <? at_ then Err (ESentinel ErrTokenExpired)
     else if String.eqb (Subject c) "" || String.eqb (cl_TenantID c) ""
          then Err (ESentinel ErrTokenInvalid)
          else Ok issued).
Proof.
  intros Hnew now issued Hutf. eexists. split; [apply exec_Issue|].
  unfold NewTokenService in Hnew. rewrite exec_bind in Hnew.
  destruct (exec (RandRead sys 32) w0) as [w1 [seed|e|m]]; [|discriminate..].
  destruct (ed25519_GenerateKey p seed) as [pub priv] eqn:Hk.
  rewrite exec_ret in Hnew. injection Hnew as <- <-.
  split; [done|]. split; [done|]. intros w'.
  rewrite exec_Verify. by rewrite (token_claims_issued _ issued seed).
Qed.

Lemma split_three sep s a b c :
  split sep s = [a; b; c] -> s = a +:+ String sep (b +:+ String sep c).
Proof. intros H. by rewrite <- (join_split sep s), H. Qed.

(** C22. Verify accepts nothing else: when it returns claims, the token is
    [header.payload.signature] where the signature verifies, under the service's
    public key, over exactly the text before the last dot; the claims are those
    of the payload, not expired, with a subject and a tenant.  Every other token
    is refused with ErrTokenInvalid or ErrTokenExpired, and no token makes
    Verify do more than read the clock once. *)
Theorem Verify_sound s token w :
  exists n o, exec (Verify s token) w = (ticks n w, o) /\ (n <= 1)%nat /\
  match o with
  | Ok c => exists header payload signature sig,
      token = (header +:+ "." +:+ payload) +:+ "." +:+ signature /\
      RawDecode urlAlphabet signature = Some sig /\
      ed25519_Verify p (ts_publicKey s) (s2b (header +:+ "." +:+ payload)) sig = true /\
      (RawDecode urlAlphabet payload ≫= unmarshal_claims cj) = Some c /\
      Unix (clock env (w_tick w)) <= ExpiresAt c /\ Subject c <> "" /\ cl_TenantID c <> ""
  | Err e => e = ESentinel ErrTokenInvalid \/ e = ESentinel ErrTokenExpired
  | Panic _ => False
  end.
Proof.
  rewrite exec_Verify. unfold token_claims.
  assert (forall Q : Claims -> Prop, exists n o,
    (w, Err (ESentinel ErrTokenInvalid)) = (ticks n w, o) /\ (n <= 1)%nat /\
      match o with
      | Ok c => Q c
      | Err e => e = ESentinel ErrTokenInvalid \/ e = ESentinel ErrTokenExpired
      | Panic _ => False
      end) as Hthrow.
  { intros Q. exists 0%nat, (Err (ESentinel ErrTokenInvalid)).
    rewrite ticks_0. split; [done|]. split; [lia|]. by left. }
  destruct (split "." token) as [|h [|pl [|sg [|? ?]]]] eqn:Hs; try apply Hthrow.
  destruct (RawDecode urlAlphabet sg) as [sig|] eqn:Hsig; simpl; [|apply Hthrow].
  destruct (ed25519_Verify _ _ _ _) eqn:Hv; [|apply Hthrow].
  destruct (RawDecode urlAlphabet pl) as [pj|] eqn:Hpl; simpl; [|apply Hthrow].
  destruct (unmarshal_claims cj pj) as [c|] eqn:Hc; [|apply Hthrow].
  exists 1%nat, (validity c (clock env (w_tick w))). split; [done|]. split; [lia|].
  unfold validity. destruct (Z.ltb_spec (ExpiresAt c) (Unix (clock env (w_tick w)))); [by right|].
  destruct (String.eqb_spec (Subject c) ""); [by left|].
  destruct (String.eqb_spec (cl_TenantID c) ""); [by left|]. simpl.
  exists h, pl, sg, sig. apply split_three in Hs.
  split_and!; try done; [|by rewrite Hpl].
  rewrite Hs. by rewrite append_assoc.
Qed.
End jwt.

(** ** A concrete codec *)

Definition claims_fields (c : Claims) : list string * (Z * Z) :=
  ([Subject c; Issuer c; cl_TenantID c; cl_Handle c; cl_Type c; cl_SessionID c],
   (IssuedAt c, ExpiresAt c)).
Definition of_claims_fields (f : list string * (Z * Z)) : option Claims :=
  match f with
  | ([s; i; t; h; ty; sid], (iat, exp)) => Some (mkClaims s iat exp i t h ty sid)
  | _ => None
  end.
Definition demo_cj : ClaimsCodec :=
  mkClaimsCodec (fun c => bits (encode (claims_fields c)))
    (fun b => match unbits b with
              | Some q => match (decode q : option (list string * (Z * Z))) with
                          | Some f => of_claims_fields f
                          | None => None
                          end
              | None => None
              end).
#[export] Instance demo_cj_ok : ClaimsCodecOk demo_cj.
Proof. intros c _. simpl. rewrite unbits_bits, decode_encode. by destruct c. Qed.

Definition demo_claims : Claims := mkClaims "alice" 0 0 "" "t1" "alice" "human" "".
Definition demo_tokens : TokenService :=
  let kp := ed25519_GenerateKey demo_prims (replicate 32 Byte.x00) in
  mkTokenService DefaultTokenConfig (snd kp) (fst kp).

Lemma Issue_then_Verify_witness :
  let w := demo_world "active" "active" in
  exists token c, exec (Issue demo_prims demo_sys demo_json demo_cj demo_tokens demo_claims "s1") w =
    (ticks 1 w, Ok (token, c)) /\
  exec (Verify demo_prims demo_sys demo_cj demo_tokens token) w = (ticks 1 w, Ok c).
Proof.
  intros w.
  destruct (Issue_then_Verify (X:=unit) demo_env demo_prims demo_json demo_cj DefaultTokenConfig
    demo_tokens demo_claims "s1" w (ticks 1 w) w eq_refl eq_refl) as (token & Hi & _ & _ & Hv).
  exists token. eexists. split; [exact Hi|]. exact (Hv w).
Defined.
