(* ===== verification/Grpc.v ===== *)
(** * Grpc: [internal/transport/grpc] and the messages of [api/gen/go/verion/v1]

    The gRPC handlers translate a request into a call of a service and its
    result into a response or a status.  A protobuf enum is an int32, kept as
    an integer: a client may send a number without a name. *)

From Stdlib Require Import ZArith Lia Ascii String.
From stdpp Require Import base list strings numbers gmap.
From S2P Require Import Prelude Bytes Errors Model Repository World TenantService IdentityService.
From S2P Require Import KeyService.
Open Scope string_scope.
Open Scope Z_scope.

(** ** types.pb.go: enums *)

Definition IdentityType_IDENTITY_TYPE_UNSPECIFIED : Z := 0.
Definition IdentityType_IDENTITY_TYPE_HUMAN : Z := 1.
Definition IdentityType_IDENTITY_TYPE_ORG : Z := 2.
Definition IdentityType_IDENTITY_TYPE_DEVICE : Z := 3.
Definition IdentityType_IDENTITY_TYPE_SERVICE : Z := 4.
Definition IdentityType_IDENTITY_TYPE_MACHINE : Z := 5.
Definition IdentityType_IDENTITY_TYPE_AI_AGENT : Z := 6.

Definition IdentityStatus_IDENTITY_STATUS_UNSPECIFIED : Z := 0.
Definition IdentityStatus_IDENTITY_STATUS_PENDING : Z := 1.
Definition IdentityStatus_IDENTITY_STATUS_ACTIVE : Z := 2.
Definition IdentityStatus_IDENTITY_STATUS_SUSPENDED : Z := 3.
Definition IdentityStatus_IDENTITY_STATUS_DEACTIVATED : Z := 4.
Definition IdentityStatus_IDENTITY_STATUS_ARCHIVED : Z := 5.

Definition KeyType_KEY_TYPE_UNSPECIFIED : Z := 0.
Definition KeyType_KEY_TYPE_ED25519 : Z := 1.
Definition KeyType_KEY_TYPE_ECDSA_P256 : Z := 2.
Definition KeyType_KEY_TYPE_ECDSA_P384 : Z := 3.
Definition KeyType_KEY_TYPE_RSA_4096 : Z := 4.

Definition KeyPurpose_KEY_PURPOSE_UNSPECIFIED : Z := 0.
Definition KeyPurpose_KEY_PURPOSE_SIGNING : Z := 1.
Definition KeyPurpose_KEY_PURPOSE_ENCRYPTION : Z := 2.
Definition KeyPurpose_KEY_PURPOSE_AUTHENTICATION : Z := 3.
Definition KeyPurpose_KEY_PURPOSE_RECOVERY : Z := 4.

Definition KeyStatus_KEY_STATUS_UNSPECIFIED : Z := 0.
Definition KeyStatus_KEY_STATUS_ACTIVE : Z := 1.
Definition KeyStatus_KEY_STATUS_ROTATED : Z := 2.
Definition KeyStatus_KEY_STATUS_REVOKED : Z := 3.
Definition KeyStatus_KEY_STATUS_COMPROMISED : Z := 4.

Definition TenantTier_TENANT_TIER_UNSPECIFIED : Z := 0.
Definition TenantTier_TENANT_TIER_STANDARD : Z := 1.
Definition TenantTier_TENANT_TIER_PROFESSIONAL : Z := 2.
Definition TenantTier_TENANT_TIER_ENTERPRISE : Z := 3.

(** ** Messages *)

(** [timestamppb.New]. *)
Record Timestamp := mkTimestamp { Seconds : Z; Nanos : Z }.
Definition timestamppb_New (t : time) : Timestamp := mkTimestamp (Unix t) (t mod second).

Record TenantMsg := mkTenantMsg {
  tm_Id : string; tm_Name : string; tm_Slug : string; tm_Tier : Z; tm_Status : string;
  tm_DataRegion : string; tm_CreatedAt : Timestamp; tm_UpdatedAt : Timestamp }.

Record IdentityMsg := mkIdentityMsg {
  im_Id : string; im_TenantId : string; im_Type : Z; im_DisplayName : string;
  im_Handle : string; im_Status : Z; im_PrimaryKeyId : string;
  im_Attributes : gmap string string; im_Version : Z;
  im_CreatedAt : Timestamp; im_UpdatedAt : Timestamp }.

Record IdentityKeyMsg := mkIdentityKeyMsg {
  km_Id : string; km_IdentityId : string; km_TenantId : string; km_KeyType : Z;
  km_Purpose : Z; km_Algorithm : string; km_PublicKey : slice; km_Fingerprint : string;
  km_Status : Z; km_CreatedAt : Timestamp; km_ValidFrom : Timestamp;
  km_ValidUntil : option Timestamp }.

Record CreateTenantRequest := mkCreateTenantRequest {
  ctr_Name : string; ctr_Slug : string; ctr_Tier : Z; ctr_DataRegion : string }.
Record CreateIdentityRequest := mkCreateIdentityRequest {
  cir_TenantId : string; cir_Type : Z; cir_DisplayName : string; cir_Handle : string;
  cir_CreatedBy : string; cir_Attributes : gmap string string }.
Record ListIdentitiesRequest := mkListIdentitiesRequest {
  lir_TenantId : string; lir_Type : string; lir_Status : string; lir_Limit : Z; lir_Offset : Z }.
Record UpdateIdentityRequest := mkUpdateIdentityRequest {
  uir_TenantId : string; uir_Id : string; uir_DisplayName : string;
  uir_Attributes : gmap string string; uir_Version : Z; uir_ActorId : string }.
Record GenerateKeyRequest := mkGenerateKeyRequest {
  gkr_TenantId : string; gkr_IdentityId : string; gkr_KeyType : Z; gkr_Purpose : Z;
  gkr_ActorId : string }.

(** ** Enum mappers *)

Definition identityTypeFromProto (t : Z) : IdentityType :=
  if t =? IdentityType_IDENTITY_TYPE_HUMAN then IdentityTypeHuman
  else if t =? IdentityType_IDENTITY_TYPE_ORG then IdentityTypeOrg
  else if t =? IdentityType_IDENTITY_TYPE_DEVICE then IdentityTypeDevice
  else if t =? IdentityType_IDENTITY_TYPE_SERVICE then IdentityTypeService
  else if t =? IdentityType_IDENTITY_TYPE_MACHINE then IdentityTypeMachine
  else if t =? IdentityType_IDENTITY_TYPE_AI_AGENT then IdentityTypeAIAgent
  else IdentityTypeHuman.

Definition tenantTierFromProto (t : Z) : TenantTier :=
  if t =? TenantTier_TENANT_TIER_PROFESSIONAL then TenantTierProfessional
  else if t =? TenantTier_TENANT_TIER_ENTERPRISE then TenantTierEnterprise
  else TenantTierStandard.

Definition keyTypeFromProto (t : Z) : KeyType :=
  if t =? KeyType_KEY_TYPE_ED25519 then KeyTypeEd25519
  else if t =? KeyType_KEY_TYPE_ECDSA_P256 then KeyTypeECDSAP256
  else if t =? KeyType_KEY_TYPE_ECDSA_P384 then KeyTypeECDSAP384
  else if t =? KeyType_KEY_TYPE_RSA_4096 then KeyTypeRSA4096
  else KeyTypeEd25519.

Definition keyPurposeFromProto (p : Z) : KeyPurpose :=
  if p =? KeyPurpose_KEY_PURPOSE_SIGNING then KeyPurposeSigning
  else if p =? KeyPurpose_KEY_PURPOSE_ENCRYPTION then KeyPurposeEncryption
  else if p =? KeyPurpose_KEY_PURPOSE_AUTHENTICATION then KeyPurposeAuthentication
  else if p =? KeyPurpose_KEY_PURPOSE_RECOVERY then KeyPurposeRecovery
  else KeyPurposeSigning.

Definition identityTypeToProto (t : IdentityType) : Z :=
  if String.eqb t IdentityTypeHuman then IdentityType_IDENTITY_TYPE_HUMAN
  else if String.eqb t IdentityTypeOrg then IdentityType_IDENTITY_TYPE_ORG
  else if String.eqb t IdentityTypeDevice then IdentityType_IDENTITY_TYPE_DEVICE
  else if String.eqb t IdentityTypeService then IdentityType_IDENTITY_TYPE_SERVICE
  else if String.eqb t IdentityTypeMachine then IdentityType_IDENTITY_TYPE_MACHINE
  else if String.eqb t IdentityTypeAIAgent then IdentityType_IDENTITY_TYPE_AI_AGENT
  else IdentityType_IDENTITY_TYPE_UNSPECIFIED.

Definition identityStatusToProto (s : IdentityStatus) : Z :=
  if String.eqb s IdentityStatusPending then IdentityStatus_IDENTITY_STATUS_PENDING
  else if String.eqb s IdentityStatusActive then IdentityStatus_IDENTITY_STATUS_ACTIVE
  else if String.eqb s IdentityStatusSuspended then IdentityStatus_IDENTITY_STATUS_SUSPENDED
  else if String.eqb s IdentityStatusDeactivated then IdentityStatus_IDENTITY_STATUS_DEACTIVATED
  else if String.eqb s IdentityStatusArchived then IdentityStatus_IDENTITY_STATUS_ARCHIVED
  else IdentityStatus_IDENTITY_STATUS_UNSPECIFIED.

Definition tenantTierToProto (t : TenantTier) : Z :=
  if String.eqb t TenantTierStandard then TenantTier_TENANT_TIER_STANDARD
  else if String.eqb t TenantTierProfessional then TenantTier_TENANT_TIER_PROFESSIONAL
  else if String.eqb t TenantTierEnterprise then TenantTier_TENANT_TIER_ENTERPRISE
  else TenantTier_TENANT_TIER_UNSPECIFIED.

Definition keyTypeToProto (t : KeyType) : Z :=
  if String.eqb t KeyTypeEd25519 then KeyType_KEY_TYPE_ED25519
  else if String.eqb t KeyTypeECDSAP256 then KeyType_KEY_TYPE_ECDSA_P256
  else KeyType_KEY_TYPE_UNSPECIFIED.

Definition keyPurposeToProto (p : KeyPurpose) : Z :=
  if String.eqb p KeyPurposeSigning then KeyPurpose_KEY_PURPOSE_SIGNING
  else if String.eqb p KeyPurposeEncryption then KeyPurpose_KEY_PURPOSE_ENCRYPTION
  else if String.eqb p KeyPurposeAuthentication then KeyPurpose_KEY_PURPOSE_AUTHENTICATION
  else if String.eqb p KeyPurposeRecovery then KeyPurpose_KEY_PURPOSE_RECOVERY
  else KeyPurpose_KEY_PURPOSE_UNSPECIFIED.

Definition keyStatusToProto (s : KeyStatus) : Z :=
  if String.eqb s KeyStatusActive then KeyStatus_KEY_STATUS_ACTIVE
  else if String.eqb s KeyStatusRotated then KeyStatus_KEY_STATUS_ROTATED
  else if String.eqb s KeyStatusRevoked then KeyStatus_KEY_STATUS_REVOKED
  else if String.eqb s KeyStatusCompromised then KeyStatus_KEY_STATUS_COMPROMISED
  else KeyStatus_KEY_STATUS_UNSPECIFIED.

(** ** Attributes

    [fmt_v] is the verb %v on a value that is not a string. *)

Definition stringMapToAny (m : gmap string string) : attributes := AString <$> m.

Definition anyMapToString (fmt_v : any -> string) (m : attributes) : gmap string string :=
  (fun v => match v with AString s => s | v => fmt_v v end) <$> m.

(** ** Domain to message *)

Local Open Scope prog_scope.

Definition tenantToProto (t : Tenant) : TenantMsg :=
  mkTenantMsg (t_ID t) (t_Name t) (t_Slug t) (tenantTierToProto (t_Tier t)) (t_Status t)
    (t_DataRegion t) (timestamppb_New (t_CreatedAt t)) (timestamppb_New (t_UpdatedAt t)).

Definition identityToProto {E} (fmt_v : any -> string) (i : Identity) : outcome E IdentityMsg :=
  let! PrimaryKeyId := if not_nil (i_PrimaryKeyID i) then deref (i_PrimaryKeyID i) else Ok "" in
  Ok (mkIdentityMsg (i_ID i) (i_TenantID i) (identityTypeToProto (i_Type i)) (i_DisplayName i)
    (i_Handle i) (identityStatusToProto (i_Status i)) PrimaryKeyId
    (anyMapToString fmt_v (i_DecryptedAttributes i)) (i_Version i)
    (timestamppb_New (i_CreatedAt i)) (timestamppb_New (i_UpdatedAt i))).

Definition identityKeyToProto {E} (k : IdentityKey) : outcome E IdentityKeyMsg :=
  let! ValidUntil := if not_nil (k_ValidUntil k)
                     then (let! u := deref (k_ValidUntil k) in Ok (Some (timestamppb_New u)))
                     else Ok None in
  Ok (mkIdentityKeyMsg (k_ID k) (k_IdentityID k) (k_TenantID k) (keyTypeToProto (k_KeyType k))
    (keyPurposeToProto (k_Purpose k)) (k_Algorithm k) (k_PublicKey k) (k_Fingerprint k)
    (keyStatusToProto (k_Status k)) (timestamppb_New (k_CreatedAt k))
    (timestamppb_New (k_ValidFrom k)) ValidUntil).

(** ** server.go: errors *)

Inductive code :=
| NotFound | AlreadyExists | InvalidArgument | Aborted | FailedPrecondition
| PermissionDenied | Internal | Unimplemented.
#[export] Instance code_eq_dec : EqDecision code.
Proof. solve_decision. Defined.

(** [status.Error]. *)
Record status := mkStatus { st_code : code; st_message : string }.

Definition toGRPCError (err : error) : status :=
  if errors_Is err ErrNotFound || errors_Is err ErrKeyNotFound ||
     errors_Is err ErrTenantNotFound || errors_Is err ErrCredentialNotFound ||
     errors_Is err ErrRecoveryNotFound
  then mkStatus NotFound (Error err)
  else if errors_Is err ErrAlreadyExists || errors_Is err ErrHandleTaken
  then mkStatus AlreadyExists (Error err)
  else if errors_Is err ErrInvalidInput || errors_Is err ErrInvalidHandle
  then mkStatus InvalidArgument (Error err)
  else if errors_Is err ErrVersionConflict
  then mkStatus Aborted (Error err)
  else if errors_Is err ErrIdentityInactive || errors_Is err ErrIdentityTerminal ||
     errors_Is err ErrTenantInactive || errors_Is err ErrKeyNotUsable ||
     errors_Is err ErrKeyCompromised || errors_Is err ErrCredentialInactive ||
     errors_Is err ErrCredentialConsumed || errors_Is err ErrRecoveryNotUsable ||
     errors_Is err ErrNoPrimaryKey
  then mkStatus FailedPrecondition (Error err)
  else if errors_Is err ErrUnauthorized
  then mkStatus PermissionDenied (Error err)
  else mkStatus Internal "internal error".

(** What a handler returns: a response or a status. *)
Abbreviation H W A := (prog W (outcome status A)).

(** [if err != nil { return nil, toGRPCError(err) }]. *)
Definition orStatus {W A} (m : M W A) : H W A :=
  pbind m (fun o => Ret (match o with
                         | Ok a => Ok a
                         | Err e => Err (toGRPCError e)
                         | Panic s => Panic s
                         end)).

(** [if s != "" { p = &s }]. *)
Definition ptrUnlessEmpty (s : string) : option string :=
  if String.eqb s "" then None else Some s.

(** ** Handlers; a request of one or two fields is given by its fields *)

Section handlers.
Context {W : Type} (repos : Repositories W) (crypto : CryptoService W) (sys : Sys W).
Context (json : Codec) (fmt_v : any -> string).
Local Open Scope prog_scope.

Definition rpcCreateTenant (req : CreateTenantRequest) : H W TenantMsg :=
  let* tenant := orStatus (CreateTenant repos
    (mkCreateTenantInput (ctr_Name req) (ctr_Slug req) (tenantTierFromProto (ctr_Tier req))
       (ctr_DataRegion req))) in
  ret (tenantToProto tenant).

Definition rpcGetTenant (Id : string) : H W TenantMsg :=
  let* tenant := orStatus (GetTenant repos Id) in
  ret (tenantToProto tenant).

Definition rpcSuspendTenant (Id : string) : H W unit := orStatus (SuspendTenant repos Id).
Definition rpcActivateTenant (Id : string) : H W unit := orStatus (ActivateTenant repos Id).

Definition rpcCreateIdentity (req : CreateIdentityRequest)
  : H W (IdentityMsg * option IdentityKeyMsg) :=
  let input := mkCreateIdentityInput (cir_TenantId req) (identityTypeFromProto (cir_Type req))
    (cir_DisplayName req) (cir_Handle req) (ptrUnlessEmpty (cir_CreatedBy req))
    (stringMapToAny (cir_Attributes req)) in
  let* result := orStatus (CreateIdentity repos crypto json input) in
  let* id := Ret (identityToProto fmt_v (iwk_Identity result)) in
  let* key := Ret (if 0 <? Z.of_nat (List.length (iwk_Keys result))
                   then (let! key := index (iwk_Keys result) 0 in
                         let! key := identityKeyToProto key in Ok (Some key))
                   else Ok None) in
  ret (id, key).

Definition rpcGetIdentity (TenantId Id : string) : H W IdentityMsg :=
  let* id := orStatus (GetIdentity repos crypto json TenantId Id) in
  Ret (identityToProto fmt_v id).

Definition rpcGetIdentityByHandle (TenantId Handle : string) : H W IdentityMsg :=
  let* id := orStatus (GetIdentityByHandle repos crypto json TenantId Handle) in
  Ret (identityToProto fmt_v id).

Definition rpcListIdentities (req : ListIdentitiesRequest) : H W (list IdentityMsg * Z) :=
  let filter := mkIdentityFilter (ptrUnlessEmpty (lir_Type req)) (ptrUnlessEmpty (lir_Status req))
    (lir_Limit req) (lir_Offset req) "" false in
  let* identities := orStatus (ListIdentities repos crypto json (lir_TenantId req) filter) in
  let* protos := mapM (fun id => Ret (identityToProto fmt_v id)) identities in
  ret (protos, Z.of_nat (List.length protos)).

Definition rpcUpdateIdentity (req : UpdateIdentityRequest) : H W IdentityMsg :=
  let input := mkUpdateIdentityInput (uir_TenantId req) (uir_Id req) (uir_DisplayName req)
    (stringMapToAny (uir_Attributes req)) (uir_Version req) (ptrUnlessEmpty (uir_ActorId req)) in
  let* updated := orStatus (UpdateIdentity repos crypto json input) in
  Ret (identityToProto fmt_v updated).

Definition rpcSuspendIdentity (TenantId Id ActorId : string) : H W unit :=
  orStatus (SuspendIdentity repos TenantId Id ActorId).
Definition rpcReactivateIdentity (TenantId Id ActorId : string) : H W unit :=
  orStatus (ReactivateIdentity repos TenantId Id ActorId).
Definition rpcDeactivateIdentity (TenantId Id ActorId : string) : H W unit :=
  orStatus (DeactivateIdentity repos TenantId Id ActorId).

(** *** keys_server.go *)

Definition rpcGenerateKey (req : GenerateKeyRequest) : H W IdentityKeyMsg :=
  let input := mkGenerateKeyInput (gkr_TenantId req) (gkr_IdentityId req)
    (keyTypeFromProto (gkr_KeyType req)) (keyPurposeFromProto (gkr_Purpose req))
    (ptrUnlessEmpty (gkr_ActorId req)) in
  let* key := orStatus (GenerateKey repos crypto input) in
  Ret (identityKeyToProto key).

Definition rpcGetKey (TenantId KeyId : string) : H W IdentityKeyMsg :=
  let* key := orStatus (GetKey repos TenantId KeyId) in
  Ret (identityKeyToProto key).

Definition rpcListKeys (TenantId IdentityId : string) : H W (list IdentityKeyMsg) :=
  let* keys := orStatus (ListKeys repos TenantId IdentityId) in
  mapM (fun k => Ret (identityKeyToProto k)) keys.

Definition rpcRotateKey (TenantId IdentityId KeyId ActorId : string) : H W IdentityKeyMsg :=
  let* newKey := orStatus (RotateKey repos crypto sys TenantId IdentityId KeyId ActorId) in
  Ret (identityKeyToProto newKey).

Definition rpcRevokeKey (TenantId KeyId ActorId : string) : H W unit :=
  orStatus (RevokeKey repos TenantId KeyId ActorId).
End handlers.
