(* ===== verification/Rpc.v ===== *)
(** * Rpc: the descriptors and stubs of [api/gen/go/verion/v1/*_grpc.pb.go] and
    [internal/transport/grpc/server.go]

    A message is a value of the type its name stands for ([msg]); [interface{}]
    is a message with its name.  A message of one field is given by the field,
    one of a few fields by their tuple.  The protobuf codec and the library's
    server ([grpc.Server]) are arguments. *)

From Stdlib Require Import ZArith Lia Ascii String.
From stdpp Require Import base list strings numbers gmap.
From S2P Require Import Prelude Bytes Errors Model Repository World TenantService IdentityService.
From S2P Require Import KeyService Grpc.
Open Scope string_scope.
Open Scope Z_scope.

(** ** Messages *)

Inductive MsgType :=
| TCreateTenantRequest | TCreateTenantResponse | TGetTenantRequest | TGetTenantResponse
| TSuspendTenantRequest | TSuspendTenantResponse | TActivateTenantRequest | TActivateTenantResponse
| TCreateIdentityRequest | TCreateIdentityResponse | TGetIdentityRequest | TGetIdentityResponse
| TGetIdentityByHandleRequest | TListIdentitiesRequest | TListIdentitiesResponse
| TUpdateIdentityRequest | TUpdateIdentityResponse | TSuspendIdentityRequest
| TSuspendIdentityResponse | TReactivateIdentityRequest | TReactivateIdentityResponse
| TDeactivateIdentityRequest | TDeactivateIdentityResponse | TGenerateKeyRequest
| TGenerateKeyResponse | TGetKeyRequest | TGetKeyResponse | TListKeysRequest | TListKeysResponse
| TRotateKeyRequest | TRotateKeyResponse | TRevokeKeyRequest | TRevokeKeyResponse.
#[export] Instance MsgType_eq_dec : EqDecision MsgType.
Proof. solve_decision. Defined.

Definition msg (T : MsgType) : Type :=
  match T with
  | TCreateTenantRequest => CreateTenantRequest
  | TCreateTenantResponse | TGetTenantResponse => TenantMsg
  | TGetTenantRequest | TSuspendTenantRequest | TActivateTenantRequest => string
  | TSuspendTenantResponse | TActivateTenantResponse | TSuspendIdentityResponse
  | TReactivateIdentityResponse | TDeactivateIdentityResponse | TRevokeKeyResponse => unit
  | TCreateIdentityRequest => CreateIdentityRequest
  | TCreateIdentityResponse => (IdentityMsg * option IdentityKeyMsg)%type
  | TGetIdentityRequest | TGetIdentityByHandleRequest | TGetKeyRequest | TListKeysRequest => (string * string)%type
  | TGetIdentityResponse | TUpdateIdentityResponse => IdentityMsg
  | TListIdentitiesRequest => ListIdentitiesRequest
  | TListIdentitiesResponse => (list IdentityMsg * Z)%type
  | TUpdateIdentityRequest => UpdateIdentityRequest
  | TSuspendIdentityRequest | TReactivateIdentityRequest | TDeactivateIdentityRequest
  | TRevokeKeyRequest => (string * string * string)%type
  | TGenerateKeyRequest => GenerateKeyRequest
  | TGenerateKeyResponse | TGetKeyResponse | TRotateKeyResponse => IdentityKeyMsg
  | TListKeysResponse => list IdentityKeyMsg
  | TRotateKeyRequest => (string * string * string * string)%type
  end.

(** [interface{}] holding a message, and the type assertion [m.( *T)]. *)
Definition anymsg : Type := sigT msg.
Definition pack {T} (m : msg T) : anymsg := existT T m.
Definition assert_type (T : MsgType) (m : anymsg) : option (msg T) :=
  match decide (projT1 m = T) with
  | left e => Some (eq_rect _ msg (projT2 m) _ e)
  | right _ => None
  end.

(** [ProtoReflect], by which the protobuf library gets at a message: that of
    every message returns nil. *)
Definition ProtoReflect {D : Type} (T : MsgType) : option D := None.

(** The library's codec of protobuf messages.  It reads and fills a message
    through what its ProtoReflect returns, a value of the library's type
    [Reflection]; it may refuse, and it may panic. *)
Record GrpcCodec := mkGrpcCodec {
  Reflection : Type;
  Marshal : forall T, option Reflection -> msg T -> outcome string bytes;
  Unmarshal : forall T, option Reflection -> bytes -> outcome string (msg T) }.

(** The codec calls methods of what ProtoReflect returned before anything else
    ([proto.Unmarshal] resets [m.Interface()], [proto.Marshal] asks for
    [m.ProtoMethods()]): on nil it panics, whatever the bytes. *)
Class ProtoCodecOk (codec : GrpcCodec) : Prop := {
  Marshal_nil : forall T m, exists msg, Marshal codec T None m = Panic msg;
  Unmarshal_nil : forall T b, exists msg, Unmarshal codec T None b = Panic msg }.

(** ** Server interfaces *)

Section rpc.
Context {W : Type}.
Local Open Scope prog_scope.

Record IdentityServiceServer := mkIdentityServiceServer {
  srv_CreateTenant : msg TCreateTenantRequest -> H W (msg TCreateTenantResponse);
  srv_GetTenant : msg TGetTenantRequest -> H W (msg TGetTenantResponse);
  srv_SuspendTenant : msg TSuspendTenantRequest -> H W (msg TSuspendTenantResponse);
  srv_ActivateTenant : msg TActivateTenantRequest -> H W (msg TActivateTenantResponse);
  srv_CreateIdentity : msg TCreateIdentityRequest -> H W (msg TCreateIdentityResponse);
  srv_GetIdentity : msg TGetIdentityRequest -> H W (msg TGetIdentityResponse);
  srv_GetIdentityByHandle : msg TGetIdentityByHandleRequest -> H W (msg TGetIdentityResponse);
  srv_ListIdentities : msg TListIdentitiesRequest -> H W (msg TListIdentitiesResponse);
  srv_UpdateIdentity : msg TUpdateIdentityRequest -> H W (msg TUpdateIdentityResponse);
  srv_SuspendIdentity : msg TSuspendIdentityRequest -> H W (msg TSuspendIdentityResponse);
  srv_ReactivateIdentity : msg TReactivateIdentityRequest -> H W (msg TReactivateIdentityResponse);
  srv_DeactivateIdentity : msg TDeactivateIdentityRequest -> H W (msg TDeactivateIdentityResponse) }.

Record KeyServiceServer := mkKeyServiceServer {
  srv_GenerateKey : msg TGenerateKeyRequest -> H W (msg TGenerateKeyResponse);
  srv_GetKey : msg TGetKeyRequest -> H W (msg TGetKeyResponse);
  srv_ListKeys : msg TListKeysRequest -> H W (msg TListKeysResponse);
  srv_RotateKey : msg TRotateKeyRequest -> H W (msg TRotateKeyResponse);
  srv_RevokeKey : msg TRevokeKeyRequest -> H W (msg TRevokeKeyResponse) }.

(** [status.Errorf(codes.Unimplemented, ...)]. *)
Definition unimplemented {A} (method : string) : H W A :=
  throw (mkStatus Unimplemented ("method " +:+ method +:+ " not implemented")).

Definition UnimplementedIdentityServiceServer : IdentityServiceServer :=
  mkIdentityServiceServer
    (fun _ => unimplemented "CreateTenant")
    (fun _ => unimplemented "GetTenant")
    (fun _ => unimplemented "SuspendTenant")
    (fun _ => unimplemented "ActivateTenant")
    (fun _ => unimplemented "CreateIdentity")
    (fun _ => unimplemented "GetIdentity")
    (fun _ => unimplemented "GetIdentityByHandle")
    (fun _ => unimplemented "ListIdentities")
    (fun _ => unimplemented "UpdateIdentity")
    (fun _ => unimplemented "SuspendIdentity")
    (fun _ => unimplemented "ReactivateIdentity")
    (fun _ => unimplemented "DeactivateIdentity").

Definition UnimplementedKeyServiceServer : KeyServiceServer :=
  mkKeyServiceServer
    (fun _ => unimplemented "GenerateKey")
    (fun _ => unimplemented "GetKey")
    (fun _ => unimplemented "ListKeys")
    (fun _ => unimplemented "RotateKey")
    (fun _ => unimplemented "RevokeKey").

(** ** Handlers *)

(** An interceptor gets the request, the full name of the method and the call. *)
Definition UnaryServerInterceptor : Type :=
  anymsg -> string -> (anymsg -> H W anymsg) -> H W anymsg.

(** What every generated handler does: decode the request, call the server's
    method, directly or through the interceptor. *)
Definition unary_handler {T R : MsgType} (FullMethod : string) (method : msg T -> H W (msg R))
    (dec : forall T, outcome status (msg T)) (interceptor : option UnaryServerInterceptor)
    : H W anymsg :=
  match dec T with
  | Panic msg => panic msg
  | Err err => throw err
  | Ok in_ =>
    match interceptor with
    | None => let* out := method in_ in ret (pack out)
    | Some interceptor =>
      let handler req :=
        match assert_type T req with
        | Some req => let* out := method req in ret (pack out)
        | None => panic "interface conversion"
        end in
      interceptor (pack in_) FullMethod handler
    end
  end.
Abbreviation MethodHandler :=
  ((forall T, outcome status (msg T)) -> option UnaryServerInterceptor -> H W anymsg).

Definition IdentityService_CreateTenant_Handler (srv : IdentityServiceServer) : MethodHandler :=
  unary_handler "/verion.v1.IdentityService/CreateTenant" (srv_CreateTenant srv).
Definition IdentityService_GetTenant_Handler (srv : IdentityServiceServer) : MethodHandler :=
  unary_handler "/verion.v1.IdentityService/GetTenant" (srv_GetTenant srv).
Definition IdentityService_SuspendTenant_Handler (srv : IdentityServiceServer) : MethodHandler :=
  unary_handler "/verion.v1.IdentityService/SuspendTenant" (srv_SuspendTenant srv).
Definition IdentityService_ActivateTenant_Handler (srv : IdentityServiceServer) : MethodHandler :=
  unary_handler "/verion.v1.IdentityService/ActivateTenant" (srv_ActivateTenant srv).
Definition IdentityService_CreateIdentity_Handler (srv : IdentityServiceServer) : MethodHandler :=
  unary_handler "/verion.v1.IdentityService/CreateIdentity" (srv_CreateIdentity srv).
Definition IdentityService_GetIdentity_Handler (srv : IdentityServiceServer) : MethodHandler :=
  unary_handler "/verion.v1.IdentityService/GetIdentity" (srv_GetIdentity srv).
Definition IdentityService_GetIdentityByHandle_Handler (srv : IdentityServiceServer) : MethodHandler :=
  unary_handler "/verion.v1.IdentityService/GetIdentityByHandle" (srv_GetIdentityByHandle srv).
Definition IdentityService_ListIdentities_Handler (srv : IdentityServiceServer) : MethodHandler :=
  unary_handler "/verion.v1.IdentityService/ListIdentities" (srv_ListIdentities srv).
Definition IdentityService_UpdateIdentity_Handler (srv : IdentityServiceServer) : MethodHandler :=
  unary_handler "/verion.v1.IdentityService/UpdateIdentity" (srv_UpdateIdentity srv).
Definition IdentityService_SuspendIdentity_Handler (srv : IdentityServiceServer) : MethodHandler :=
  unary_handler "/verion.v1.IdentityService/SuspendIdentity" (srv_SuspendIdentity srv).
Definition IdentityService_ReactivateIdentity_Handler (srv : IdentityServiceServer) : MethodHandler :=
  unary_handler "/verion.v1.IdentityService/ReactivateIdentity" (srv_ReactivateIdentity srv).
Definition IdentityService_DeactivateIdentity_Handler (srv : IdentityServiceServer) : MethodHandler :=
  unary_handler "/verion.v1.IdentityService/DeactivateIdentity" (srv_DeactivateIdentity srv).

Definition KeyService_GenerateKey_Handler (srv : KeyServiceServer) : MethodHandler :=
  unary_handler "/verion.v1.KeyService/GenerateKey" (srv_GenerateKey srv).
Definition KeyService_GetKey_Handler (srv : KeyServiceServer) : MethodHandler :=
  unary_handler "/verion.v1.KeyService/GetKey" (srv_GetKey srv).
Definition KeyService_ListKeys_Handler (srv : KeyServiceServer) : MethodHandler :=
  unary_handler "/verion.v1.KeyService/ListKeys" (srv_ListKeys srv).
Definition KeyService_RotateKey_Handler (srv : KeyServiceServer) : MethodHandler :=
  unary_handler "/verion.v1.KeyService/RotateKey" (srv_RotateKey srv).
Definition KeyService_RevokeKey_Handler (srv : KeyServiceServer) : MethodHandler :=
  unary_handler "/verion.v1.KeyService/RevokeKey" (srv_RevokeKey srv).

(** ** Service descriptors *)

Record MethodDesc (S : Type) := mkMethodDesc {
  md_MethodName : string; md_Handler : S -> MethodHandler }.
Arguments mkMethodDesc {S}. Arguments md_MethodName {S}. Arguments md_Handler {S}.
Record ServiceDesc (S : Type) := mkServiceDesc {
  sd_ServiceName : string; sd_Methods : list (MethodDesc S) }.
Arguments mkServiceDesc {S}. Arguments sd_ServiceName {S}. Arguments sd_Methods {S}.

Definition IdentityService_ServiceDesc : ServiceDesc IdentityServiceServer :=
  mkServiceDesc "verion.v1.IdentityService"
    [mkMethodDesc "CreateTenant" IdentityService_CreateTenant_Handler;
     mkMethodDesc "GetTenant" IdentityService_GetTenant_Handler;
     mkMethodDesc "SuspendTenant" IdentityService_SuspendTenant_Handler;
     mkMethodDesc "ActivateTenant" IdentityService_ActivateTenant_Handler;
     mkMethodDesc "CreateIdentity" IdentityService_CreateIdentity_Handler;
     mkMethodDesc "GetIdentity" IdentityService_GetIdentity_Handler;
     mkMethodDesc "GetIdentityByHandle" IdentityService_GetIdentityByHandle_Handler;
     mkMethodDesc "ListIdentities" IdentityService_ListIdentities_Handler;
     mkMethodDesc "UpdateIdentity" IdentityService_UpdateIdentity_Handler;
     mkMethodDesc "SuspendIdentity" IdentityService_SuspendIdentity_Handler;
     mkMethodDesc "ReactivateIdentity" IdentityService_ReactivateIdentity_Handler;
     mkMethodDesc "DeactivateIdentity" IdentityService_DeactivateIdentity_Handler].

Definition KeyService_ServiceDesc : ServiceDesc KeyServiceServer :=
  mkServiceDesc "verion.v1.KeyService"
    [mkMethodDesc "GenerateKey" KeyService_GenerateKey_Handler;
     mkMethodDesc "GetKey" KeyService_GetKey_Handler;
     mkMethodDesc "ListKeys" KeyService_ListKeys_Handler;
     mkMethodDesc "RotateKey" KeyService_RotateKey_Handler;
     mkMethodDesc "RevokeKey" KeyService_RevokeKey_Handler].

(** The services of a [grpc.Server]: what RegisterService records. *)
Record registered := mkRegistered { rg_Name : string; rg_Methods : list (string * MethodHandler) }.
Definition RegisterService {S} (sd : ServiceDesc S) (srv : S) (s : list registered)
    : list registered :=
  (s ++ [mkRegistered (sd_ServiceName sd)
           ((fun md => (md_MethodName md, md_Handler md srv)) <$> sd_Methods sd)])%list.

Definition RegisterIdentityServiceServer (s : list registered) (srv : IdentityServiceServer) :=
  RegisterService IdentityService_ServiceDesc srv s.
Definition RegisterKeyServiceServer (s : list registered) (srv : KeyServiceServer) :=
  RegisterService KeyService_ServiceDesc srv s.

(** ** Client stubs *)

(** [grpc.ClientConnInterface.Invoke], which fills a message of type [R]. *)
Definition ClientConn : Type := forall R : MsgType, string -> anymsg -> H W (msg R).
Section stubs.
Context (cc : ClientConn).

Definition identityServiceClient_CreateTenant (in_ : msg TCreateTenantRequest) : H W (msg TCreateTenantResponse) :=
  cc TCreateTenantResponse "/verion.v1.IdentityService/CreateTenant" (pack in_).
Definition identityServiceClient_GetTenant (in_ : msg TGetTenantRequest) : H W (msg TGetTenantResponse) :=
  cc TGetTenantResponse "/verion.v1.IdentityService/GetTenant" (pack in_).
Definition identityServiceClient_SuspendTenant (in_ : msg TSuspendTenantRequest) : H W (msg TSuspendTenantResponse) :=
  cc TSuspendTenantResponse "/verion.v1.IdentityService/SuspendTenant" (pack in_).
Definition identityServiceClient_ActivateTenant (in_ : msg TActivateTenantRequest) : H W (msg TActivateTenantResponse) :=
  cc TActivateTenantResponse "/verion.v1.IdentityService/ActivateTenant" (pack in_).
Definition identityServiceClient_CreateIdentity (in_ : msg TCreateIdentityRequest) : H W (msg TCreateIdentityResponse) :=
  cc TCreateIdentityResponse "/verion.v1.IdentityService/CreateIdentity" (pack in_).
Definition identityServiceClient_GetIdentity (in_ : msg TGetIdentityRequest) : H W (msg TGetIdentityResponse) :=
  cc TGetIdentityResponse "/verion.v1.IdentityService/GetIdentity" (pack in_).
Definition identityServiceClient_GetIdentityByHandle (in_ : msg TGetIdentityByHandleRequest) : H W (msg TGetIdentityResponse) :=
  cc TGetIdentityResponse "/verion.v1.IdentityService/GetIdentityByHandle" (pack in_).
Definition identityServiceClient_ListIdentities (in_ : msg TListIdentitiesRequest) : H W (msg TListIdentitiesResponse) :=
  cc TListIdentitiesResponse "/verion.v1.IdentityService/ListIdentities" (pack in_).
Definition identityServiceClient_UpdateIdentity (in_ : msg TUpdateIdentityRequest) : H W (msg TUpdateIdentityResponse) :=
  cc TUpdateIdentityResponse "/verion.v1.IdentityService/UpdateIdentity" (pack in_).
Definition identityServiceClient_SuspendIdentity (in_ : msg TSuspendIdentityRequest) : H W (msg TSuspendIdentityResponse) :=
  cc TSuspendIdentityResponse "/verion.v1.IdentityService/SuspendIdentity" (pack in_).
Definition identityServiceClient_ReactivateIdentity (in_ : msg TReactivateIdentityRequest) : H W (msg TReactivateIdentityResponse) :=
  cc TReactivateIdentityResponse "/verion.v1.IdentityService/ReactivateIdentity" (pack in_).
Definition identityServiceClient_DeactivateIdentity (in_ : msg TDeactivateIdentityRequest) : H W (msg TDeactivateIdentityResponse) :=
  cc TDeactivateIdentityResponse "/verion.v1.IdentityService/DeactivateIdentity" (pack in_).

Definition keyServiceClient_GenerateKey (in_ : msg TGenerateKeyRequest) : H W (msg TGenerateKeyResponse) :=
  cc TGenerateKeyResponse "/verion.v1.KeyService/GenerateKey" (pack in_).
Definition keyServiceClient_GetKey (in_ : msg TGetKeyRequest) : H W (msg TGetKeyResponse) :=
  cc TGetKeyResponse "/verion.v1.KeyService/GetKey" (pack in_).
Definition keyServiceClient_ListKeys (in_ : msg TListKeysRequest) : H W (msg TListKeysResponse) :=
  cc TListKeysResponse "/verion.v1.KeyService/ListKeys" (pack in_).
Definition keyServiceClient_RotateKey (in_ : msg TRotateKeyRequest) : H W (msg TRotateKeyResponse) :=
  cc TRotateKeyResponse "/verion.v1.KeyService/RotateKey" (pack in_).
Definition keyServiceClient_RevokeKey (in_ : msg TRevokeKeyRequest) : H W (msg TRevokeKeyResponse) :=
  cc TRevokeKeyResponse "/verion.v1.KeyService/RevokeKey" (pack in_).

End stubs.

(** ** server.go, identity_server.go, keys_server.go *)

Section server.
Context (repos : Repositories W) (crypto : CryptoService W) (sys : Sys W).
Context (json : Codec) (fmt_v : any -> string).

Definition newIdentityServer : IdentityServiceServer :=
  mkIdentityServiceServer
    (rpcCreateTenant repos) (rpcGetTenant repos) (rpcSuspendTenant repos) (rpcActivateTenant repos)
    (rpcCreateIdentity repos crypto json fmt_v)
    (fun '(TenantId, Id) => rpcGetIdentity repos crypto json fmt_v TenantId Id)
    (fun '(TenantId, Handle) => rpcGetIdentityByHandle repos crypto json fmt_v TenantId Handle)
    (rpcListIdentities repos crypto json fmt_v) (rpcUpdateIdentity repos crypto json fmt_v)
    (fun '(TenantId, Id, ActorId) => rpcSuspendIdentity repos TenantId Id ActorId)
    (fun '(TenantId, Id, ActorId) => rpcReactivateIdentity repos TenantId Id ActorId)
    (fun '(TenantId, Id, ActorId) => rpcDeactivateIdentity repos TenantId Id ActorId).

Definition newKeyServer : KeyServiceServer :=
  mkKeyServiceServer
    (rpcGenerateKey repos crypto)
    (fun '(TenantId, KeyId) => rpcGetKey repos TenantId KeyId)
    (fun '(TenantId, IdentityId) => rpcListKeys repos TenantId IdentityId)
    (fun '(TenantId, IdentityId, KeyId, ActorId) =>
       rpcRotateKey repos crypto sys TenantId IdentityId KeyId ActorId)
    (fun '(TenantId, KeyId, ActorId) => rpcRevokeKey repos TenantId KeyId ActorId).

(** [grpc.NewServer()] is given no interceptor. *)
Definition New : list registered :=
  RegisterKeyServiceServer (RegisterIdentityServiceServer [] newIdentityServer) newKeyServer.
End server.

(** ** The library's server *)

(** The handler of a full method name [/service/method]. *)
Definition find_method (s : list registered) (path : string) : option MethodHandler :=
  snd <$> List.find (fun m => String.eqb m.1 path)
    (s ≫= fun rg => (fun m => ("/" +:+ rg_Name rg +:+ "/" +:+ m.1, m.2)) <$> rg_Methods rg).

(** How the server answers a call whose message [b] it has received: an unknown
    name is Unimplemented; a request or a reply that the codec refuses is an
    internal error; a panic, of the codec or of the method, is not recovered from. *)
Class GrpcServerOk (codec : GrpcCodec)
    (serve : list registered -> string -> bytes -> H W bytes) : Prop := {
  serve_unknown s path b : find_method s path = None ->
    exists msg, serve s path b = throw (mkStatus Unimplemented msg);
  serve_method s path h b : find_method s path = Some h ->
    exists undecodable unencodable : string,
    serve s path b =
      (let* out := h (fun T => match Unmarshal codec T (ProtoReflect T) b with
                               | Ok m => Ok m
                               | Err _ => Err (mkStatus Internal undecodable)
                               | Panic msg => Panic msg
                               end) None in
       match Marshal codec (projT1 out) (ProtoReflect (projT1 out)) (projT2 out) with
       | Ok b => ret b
       | Err _ => throw (mkStatus Internal unencodable)
       | Panic msg => panic msg
       end) }.
End rpc.
Arguments IdentityServiceServer : clear implicits.
Arguments KeyServiceServer : clear implicits.
Arguments registered : clear implicits.
Arguments ClientConn : clear implicits.
