(* ===== verification/RpcFacts.v ===== *)
(** * RpcFacts: the gRPC server as a front of the services

    [rpc] is a call of a method with its request, on the client's side or on the
    server's.  A method is one call of a service, with its error mapped to a
    status; but no request gets to a method through the library's server, whose
    codec panics on the messages. *)

From Stdlib Require Import ZArith Lia Ascii String.
From stdpp Require Import base list sorting strings numbers gmap.
From S2P Require Import Prelude Bytes Errors Model Repository World Schema Postgres TenantService.
From S2P Require Import IdentityService KeyService Crypto Argon2 SchemaFacts Guarantees Integrity.
From S2P Require Import Runs System Demo Grpc Rpc.
Open Scope string_scope.
Open Scope Z_scope.

Inductive rpc :=
| RpcCreateTenant (req : msg TCreateTenantRequest)
| RpcGetTenant (req : msg TGetTenantRequest)
| RpcSuspendTenant (req : msg TSuspendTenantRequest)
| RpcActivateTenant (req : msg TActivateTenantRequest)
| RpcCreateIdentity (req : msg TCreateIdentityRequest)
| RpcGetIdentity (req : msg TGetIdentityRequest)
| RpcGetIdentityByHandle (req : msg TGetIdentityByHandleRequest)
| RpcListIdentities (req : msg TListIdentitiesRequest)
| RpcUpdateIdentity (req : msg TUpdateIdentityRequest)
| RpcSuspendIdentity (req : msg TSuspendIdentityRequest)
| RpcReactivateIdentity (req : msg TReactivateIdentityRequest)
| RpcDeactivateIdentity (req : msg TDeactivateIdentityRequest)
| RpcGenerateKey (req : msg TGenerateKeyRequest)
| RpcGetKey (req : msg TGetKeyRequest)
| RpcListKeys (req : msg TListKeysRequest)
| RpcRotateKey (req : msg TRotateKeyRequest)
| RpcRevokeKey (req : msg TRevokeKeyRequest).

(** The type of the reply. *)
Definition reply (r : rpc) : MsgType :=
  match r with
  | RpcCreateTenant _ => TCreateTenantResponse
  | RpcGetTenant _ => TGetTenantResponse
  | RpcSuspendTenant _ => TSuspendTenantResponse
  | RpcActivateTenant _ => TActivateTenantResponse
  | RpcCreateIdentity _ => TCreateIdentityResponse
  | RpcGetIdentity _ => TGetIdentityResponse
  | RpcGetIdentityByHandle _ => TGetIdentityResponse
  | RpcListIdentities _ => TListIdentitiesResponse
  | RpcUpdateIdentity _ => TUpdateIdentityResponse
  | RpcSuspendIdentity _ => TSuspendIdentityResponse
  | RpcReactivateIdentity _ => TReactivateIdentityResponse
  | RpcDeactivateIdentity _ => TDeactivateIdentityResponse
  | RpcGenerateKey _ => TGenerateKeyResponse
  | RpcGetKey _ => TGetKeyResponse
  | RpcListKeys _ => TListKeysResponse
  | RpcRotateKey _ => TRotateKeyResponse
  | RpcRevokeKey _ => TRevokeKeyResponse
  end.

(** The full name of the method, as the stubs give it. *)
Definition full_method (r : rpc) : string :=
  match r with
  | RpcCreateTenant _ => "/verion.v1.IdentityService/CreateTenant"
  | RpcGetTenant _ => "/verion.v1.IdentityService/GetTenant"
  | RpcSuspendTenant _ => "/verion.v1.IdentityService/SuspendTenant"
  | RpcActivateTenant _ => "/verion.v1.IdentityService/ActivateTenant"
  | RpcCreateIdentity _ => "/verion.v1.IdentityService/CreateIdentity"
  | RpcGetIdentity _ => "/verion.v1.IdentityService/GetIdentity"
  | RpcGetIdentityByHandle _ => "/verion.v1.IdentityService/GetIdentityByHandle"
  | RpcListIdentities _ => "/verion.v1.IdentityService/ListIdentities"
  | RpcUpdateIdentity _ => "/verion.v1.IdentityService/UpdateIdentity"
  | RpcSuspendIdentity _ => "/verion.v1.IdentityService/SuspendIdentity"
  | RpcReactivateIdentity _ => "/verion.v1.IdentityService/ReactivateIdentity"
  | RpcDeactivateIdentity _ => "/verion.v1.IdentityService/DeactivateIdentity"
  | RpcGenerateKey _ => "/verion.v1.KeyService/GenerateKey"
  | RpcGetKey _ => "/verion.v1.KeyService/GetKey"
  | RpcListKeys _ => "/verion.v1.KeyService/ListKeys"
  | RpcRotateKey _ => "/verion.v1.KeyService/RotateKey"
  | RpcRevokeKey _ => "/verion.v1.KeyService/RevokeKey"
  end.

Section rpc.
Context {W : Type}.
Local Open Scope prog_scope.

Definition client_call (cc : ClientConn W) (r : rpc) : H W (msg (reply r)) :=
  match r with
  | RpcCreateTenant req => identityServiceClient_CreateTenant cc req
  | RpcGetTenant req => identityServiceClient_GetTenant cc req
  | RpcSuspendTenant req => identityServiceClient_SuspendTenant cc req
  | RpcActivateTenant req => identityServiceClient_ActivateTenant cc req
  | RpcCreateIdentity req => identityServiceClient_CreateIdentity cc req
  | RpcGetIdentity req => identityServiceClient_GetIdentity cc req
  | RpcGetIdentityByHandle req => identityServiceClient_GetIdentityByHandle cc req
  | RpcListIdentities req => identityServiceClient_ListIdentities cc req
  | RpcUpdateIdentity req => identityServiceClient_UpdateIdentity cc req
  | RpcSuspendIdentity req => identityServiceClient_SuspendIdentity cc req
  | RpcReactivateIdentity req => identityServiceClient_ReactivateIdentity cc req
  | RpcDeactivateIdentity req => identityServiceClient_DeactivateIdentity cc req
  | RpcGenerateKey req => keyServiceClient_GenerateKey cc req
  | RpcGetKey req => keyServiceClient_GetKey cc req
  | RpcListKeys req => keyServiceClient_ListKeys cc req
  | RpcRotateKey req => keyServiceClient_RotateKey cc req
  | RpcRevokeKey req => keyServiceClient_RevokeKey cc req
  end.

Definition server_call (ids : IdentityServiceServer W) (ks : KeyServiceServer W) (r : rpc)
    : H W (msg (reply r)) :=
  match r with
  | RpcCreateTenant req => srv_CreateTenant ids req
  | RpcGetTenant req => srv_GetTenant ids req
  | RpcSuspendTenant req => srv_SuspendTenant ids req
  | RpcActivateTenant req => srv_ActivateTenant ids req
  | RpcCreateIdentity req => srv_CreateIdentity ids req
  | RpcGetIdentity req => srv_GetIdentity ids req
  | RpcGetIdentityByHandle req => srv_GetIdentityByHandle ids req
  | RpcListIdentities req => srv_ListIdentities ids req
  | RpcUpdateIdentity req => srv_UpdateIdentity ids req
  | RpcSuspendIdentity req => srv_SuspendIdentity ids req
  | RpcReactivateIdentity req => srv_ReactivateIdentity ids req
  | RpcDeactivateIdentity req => srv_DeactivateIdentity ids req
  | RpcGenerateKey req => srv_GenerateKey ks req
  | RpcGetKey req => srv_GetKey ks req
  | RpcListKeys req => srv_ListKeys ks req
  | RpcRotateKey req => srv_RotateKey ks req
  | RpcRevokeKey req => srv_RevokeKey ks req
  end.

End rpc.

(** ** The methods as calls of the services *)

(** The service operation behind a method. *)
Definition call_of (r : rpc) : call :=
  match r with
  | RpcCreateTenant req => CallCreateTenant
      (mkCreateTenantInput (ctr_Name req) (ctr_Slug req) (tenantTierFromProto (ctr_Tier req))
         (ctr_DataRegion req))
  | RpcGetTenant id => CallGetTenant id
  | RpcSuspendTenant id => CallSuspendTenant id
  | RpcActivateTenant id => CallActivateTenant id
  | RpcCreateIdentity req => CallCreateIdentity
      (mkCreateIdentityInput (cir_TenantId req) (identityTypeFromProto (cir_Type req))
         (cir_DisplayName req) (cir_Handle req) (ptrUnlessEmpty (cir_CreatedBy req))
         (stringMapToAny (cir_Attributes req)))
  | RpcGetIdentity (t, id) => CallGetIdentity t id
  | RpcGetIdentityByHandle (t, h) => CallGetIdentityByHandle t h
  | RpcListIdentities req => CallListIdentities (lir_TenantId req)
      (mkIdentityFilter (ptrUnlessEmpty (lir_Type req)) (ptrUnlessEmpty (lir_Status req))
         (lir_Limit req) (lir_Offset req) "" false)
  | RpcUpdateIdentity req => CallUpdateIdentity
      (mkUpdateIdentityInput (uir_TenantId req) (uir_Id req) (uir_DisplayName req)
         (stringMapToAny (uir_Attributes req)) (uir_Version req) (ptrUnlessEmpty (uir_ActorId req)))
  | RpcSuspendIdentity (t, id, a) => CallSuspendIdentity t id a
  | RpcReactivateIdentity (t, id, a) => CallReactivateIdentity t id a
  | RpcDeactivateIdentity (t, id, a) => CallDeactivateIdentity t id a
  | RpcGenerateKey req => CallGenerateKey
      (mkGenerateKeyInput (gkr_TenantId req) (gkr_IdentityId req) (keyTypeFromProto (gkr_KeyType req))
         (keyPurposeFromProto (gkr_Purpose req)) (ptrUnlessEmpty (gkr_ActorId req)))
  | RpcGetKey (t, k) => CallGetKey t k
  | RpcListKeys (t, i) => CallListKeys t i
  | RpcRotateKey (t, i, k, a) => CallRotateKey t i k a
  | RpcRevokeKey (t, k, a) => CallRevokeKey t k a
  end.

Section calls.
Context {X : Type} (env : Env) (p : Prims) (IDKey : idkey) (json : Codec) (cfg : CryptoConfig).
Context (fmt_v : any -> string).
Implicit Types w : World X.
Abbreviation repos := (repos (X:=X) env json).
Abbreviation crypto := (cryptoSvc (X:=X) env p IDKey json cfg).
Abbreviation run_call := (run_call (X:=X) env p IDKey json cfg).
Abbreviation method :=
  (server_call (newIdentityServer repos crypto json fmt_v) (newKeyServer repos crypto (sys env))).

(** Two runs that differ in their values only, and in errors by the mapping to
    a status. *)
Definition same_run {A B} (m : H (World X) A) (c : M (World X) B) : Prop :=
  forall w, fst (exec m w) = fst (exec c w) /\
  match snd (exec c w) with
  | Ok _ => is_ok (snd (exec m w))
  | Err e => snd (exec m w) = Err (toGRPCError e)
  | Panic s => snd (exec m w) = Panic s
  end.

(** Conversions to a message return. *)
Lemma identityToProto_ok {E} i : is_ok (E:=E) (identityToProto fmt_v i).
Proof. unfold identityToProto. destruct (i_PrimaryKeyID i); by eexists. Qed.
Lemma identityKeyToProto_ok {E} k : is_ok (E:=E) (identityKeyToProto k).
Proof. unfold identityKeyToProto. destruct (k_ValidUntil k); by eexists. Qed.
Definition returns {A} (m : H (World X) A) : Prop := forall w, exists a, exec m w = (w, Ok a).
Lemma returns_ret {A} (a : A) : returns (ret a).
Proof. intros w. by eexists. Qed.
Lemma returns_Ret {A} (o : outcome status A) : is_ok o -> returns (Ret o).
Proof. intros [a ->] w. by exists a. Qed.
Lemma returns_bind {A B} (m : H (World X) A) (k : A -> H (World X) B) :
  returns m -> (forall a, returns (k a)) -> returns (bind m k).
Proof. intros Hm Hk w. destruct (Hm w) as [a Ha]. rewrite exec_bind, Ha. apply Hk. Qed.
Lemma returns_mapM {A B} (f : A -> H (World X) B) l : (forall a, returns (f a)) -> returns (mapM f l).
Proof.
  intros Hf. induction l as [|a l IH]; [apply returns_ret|]. cbn [mapM].
  do 2 (apply returns_bind; [done|intros ?]). apply returns_ret.
Qed.
(** The first key of a created identity, if there is one. *)
Lemma first_key_ok (keys : list IdentityKey) :
  is_ok (E:=status) (if 0 <? Z.of_nat (List.length keys)
                     then obind (index keys 0) (fun key => obind (identityKeyToProto key) (fun key => Ok (Some key)))
                     else Ok None).
Proof.
  destruct keys as [|k keys]; [by eexists|]. simpl.
  destruct (identityKeyToProto_ok (E:=status) k) as [m ->]. by eexists.
Qed.

Lemma same_run_finish {A B} (m : M (World X) A) (k : A -> H (World X) B) :
  (forall a, returns (k a)) -> same_run (bind (orStatus m) k) (finish m).
Proof.
  intros Hk w. unfold finish, orStatus. rewrite !exec_bind, exec_pbind.
  destruct (exec m w) as [w' [a|e|s]]; simpl; [|by split..].
  destruct (Hk a w') as [b ->]. split; [done|by eexists].
Qed.
Lemma same_run_unit (m : M (World X) unit) : same_run (orStatus m) m.
Proof.
  intros w. unfold orStatus. rewrite exec_pbind.
  destruct (exec m w) as [w' [a|e|s]]; simpl; split; by try eexists.
Qed.

Lemma method_runs_call r : same_run (method r) (run_call (call_of r)).
Proof.
  destruct r; simpl in req; repeat match goal with x : _ * _ |- _ => destruct x end;
    simpl server_call; simpl run_call; [..];
    first [apply same_run_unit | eapply same_run_finish; intros ?];
    repeat first
      [ apply returns_ret | apply returns_Ret, identityToProto_ok | apply returns_Ret, identityKeyToProto_ok
      | apply returns_Ret, first_key_ok | apply returns_mapM; intros ? | apply returns_bind; [|intros ?] ].
Qed.
End calls.
