(* ===== verification/Proto.v ===== *)
(** * Proto: the protocol of [api/proto/verion/v1] and the messages of
    [api/gen/go/verion/v1]

    The message structs are written by hand in place of the output of
    protoc-gen-go.  This file has the protocol, the structs with the tags that
    give their encoding, and what the generator makes of a protocol: theorem
    structs_follow_protocol says that the structs are what it would make of
    this one, and services_follow_protocol the same of the method tables and
    the stubs of file Rpc.  It also relates the enums to the labels of the
    domain, and says what becomes of the requests that the server receives. *)

From Stdlib Require Import ZArith Lia Ascii String.
From stdpp Require Import base list strings numbers pretty.
From S2P Require Import Prelude Bytes Errors Model Repository World TenantService IdentityService.
From S2P Require Import Schema KeyService Grpc Rpc.
Open Scope string_scope.
Open Scope Z_scope.

(** ** Protocols *)

Inductive ptype :=
| PString | PInt32 | PInt64 | PBytes | PTimestamp
| PEnum (name : string) | PMessage (name : string) | PMap (key value : ptype).
Inductive cardinality := Singular | Repeated.
Record pfield := mkField {
  pf_card : cardinality; pf_name : string; pf_number : Z; pf_type : ptype }.
Record pmessage := mkMessage { pm_name : string; pm_fields : list pfield }.
Record penum := mkEnum { pe_name : string; pe_values : list (string * Z) }.
Record prpc := mkRpc { rpc_name : string; rpc_request : string; rpc_response : string }.
Record pservice := mkService { ps_name : string; ps_rpcs : list prpc }.

Definition proto_package : string := "verion.v1".

(** types.proto, identity.proto and keys.proto. *)
Definition proto_enums : list penum :=
  [mkEnum "IdentityType"
     [("IDENTITY_TYPE_UNSPECIFIED", 0);
      ("IDENTITY_TYPE_HUMAN", 1);
      ("IDENTITY_TYPE_ORG", 2);
      ("IDENTITY_TYPE_DEVICE", 3);
      ("IDENTITY_TYPE_SERVICE", 4);
      ("IDENTITY_TYPE_MACHINE", 5);
      ("IDENTITY_TYPE_AI_AGENT", 6)];
   mkEnum "IdentityStatus"
     [("IDENTITY_STATUS_UNSPECIFIED", 0);
      ("IDENTITY_STATUS_PENDING", 1);
      ("IDENTITY_STATUS_ACTIVE", 2);
      ("IDENTITY_STATUS_SUSPENDED", 3);
      ("IDENTITY_STATUS_DEACTIVATED", 4);
      ("IDENTITY_STATUS_ARCHIVED", 5)];
   mkEnum "KeyType"
     [("KEY_TYPE_UNSPECIFIED", 0);
      ("KEY_TYPE_ED25519", 1);
      ("KEY_TYPE_ECDSA_P256", 2);
      ("KEY_TYPE_ECDSA_P384", 3);
      ("KEY_TYPE_RSA_4096", 4)];
   mkEnum "KeyPurpose"
     [("KEY_PURPOSE_UNSPECIFIED", 0);
      ("KEY_PURPOSE_SIGNING", 1);
      ("KEY_PURPOSE_ENCRYPTION", 2);
      ("KEY_PURPOSE_AUTHENTICATION", 3);
      ("KEY_PURPOSE_RECOVERY", 4)];
   mkEnum "KeyStatus"
     [("KEY_STATUS_UNSPECIFIED", 0);
      ("KEY_STATUS_ACTIVE", 1);
      ("KEY_STATUS_ROTATED", 2);
      ("KEY_STATUS_REVOKED", 3);
      ("KEY_STATUS_COMPROMISED", 4)];
   mkEnum "TenantTier"
     [("TENANT_TIER_UNSPECIFIED", 0);
      ("TENANT_TIER_STANDARD", 1);
      ("TENANT_TIER_PROFESSIONAL", 2);
      ("TENANT_TIER_ENTERPRISE", 3)]].

Definition types_proto : list pmessage :=
  [mkMessage "Tenant"
     [mkField Singular "id" 1 PString;
      mkField Singular "name" 2 PString;
      mkField Singular "slug" 3 PString;
      mkField Singular "tier" 4 (PEnum "TenantTier");
      mkField Singular "status" 5 PString;
      mkField Singular "data_region" 6 PString;
      mkField Singular "created_at" 7 PTimestamp;
      mkField Singular "updated_at" 8 PTimestamp];
   mkMessage "Identity"
     [mkField Singular "id" 1 PString;
      mkField Singular "tenant_id" 2 PString;
      mkField Singular "type" 3 (PEnum "IdentityType");
      mkField Singular "display_name" 4 PString;
      mkField Singular "handle" 5 PString;
      mkField Singular "status" 6 (PEnum "IdentityStatus");
      mkField Singular "primary_key_id" 7 PString;
      mkField Singular "attributes" 8 (PMap PString PString);
      mkField Singular "version" 9 PInt64;
      mkField Singular "created_at" 10 PTimestamp;
      mkField Singular "updated_at" 11 PTimestamp];
   mkMessage "IdentityKey"
     [mkField Singular "id" 1 PString;
      mkField Singular "identity_id" 2 PString;
      mkField Singular "tenant_id" 3 PString;
      mkField Singular "key_type" 4 (PEnum "KeyType");
      mkField Singular "purpose" 5 (PEnum "KeyPurpose");
      mkField Singular "algorithm" 6 PString;
      mkField Singular "public_key" 7 PBytes;
      mkField Singular "fingerprint" 8 PString;
      mkField Singular "status" 9 (PEnum "KeyStatus");
      mkField Singular "created_at" 10 PTimestamp;
      mkField Singular "valid_from" 11 PTimestamp;
      mkField Singular "valid_until" 12 PTimestamp]].

Definition identity_proto : list pmessage :=
  [mkMessage "CreateTenantRequest"
     [mkField Singular "name" 1 PString;
      mkField Singular "slug" 2 PString;
      mkField Singular "tier" 3 (PEnum "TenantTier");
      mkField Singular "data_region" 4 PString];
   mkMessage "CreateTenantResponse"
     [mkField Singular "tenant" 1 (PMessage "Tenant")];
   mkMessage "GetTenantRequest"
     [mkField Singular "id" 1 PString];
   mkMessage "GetTenantResponse"
     [mkField Singular "tenant" 1 (PMessage "Tenant")];
   mkMessage "SuspendTenantRequest"
     [mkField Singular "id" 1 PString];
   mkMessage "SuspendTenantResponse" [];
   mkMessage "ActivateTenantRequest"
     [mkField Singular "id" 1 PString];
   mkMessage "ActivateTenantResponse" [];
   mkMessage "CreateIdentityRequest"
     [mkField Singular "tenant_id" 1 PString;
      mkField Singular "type" 2 (PEnum "IdentityType");
      mkField Singular "display_name" 3 PString;
      mkField Singular "handle" 4 PString;
      mkField Singular "created_by" 5 PString;
      mkField Singular "attributes" 6 (PMap PString PString)];
   mkMessage "CreateIdentityResponse"
     [mkField Singular "identity" 1 (PMessage "Identity");
      mkField Singular "key" 2 (PMessage "IdentityKey")];
   mkMessage "GetIdentityRequest"
     [mkField Singular "tenant_id" 1 PString;
      mkField Singular "id" 2 PString];
   mkMessage "GetIdentityByHandleRequest"
     [mkField Singular "tenant_id" 1 PString;
      mkField Singular "handle" 2 PString];
   mkMessage "GetIdentityResponse"
     [mkField Singular "identity" 1 (PMessage "Identity")];
   mkMessage "ListIdentitiesRequest"
     [mkField Singular "tenant_id" 1 PString;
      mkField Singular "type" 2 PString;
      mkField Singular "status" 3 PString;
      mkField Singular "limit" 4 PInt32;
      mkField Singular "offset" 5 PInt32];
   mkMessage "ListIdentitiesResponse"
     [mkField Repeated "identities" 1 (PMessage "Identity");
      mkField Singular "total" 2 PInt64];
   mkMessage "UpdateIdentityRequest"
     [mkField Singular "tenant_id" 1 PString;
      mkField Singular "id" 2 PString;
      mkField Singular "display_name" 3 PString;
      mkField Singular "attributes" 4 (PMap PString PString);
      mkField Singular "version" 5 PInt64;
      mkField Singular "actor_id" 6 PString];
   mkMessage "UpdateIdentityResponse"
     [mkField Singular "identity" 1 (PMessage "Identity")];
   mkMessage "SuspendIdentityRequest"
     [mkField Singular "tenant_id" 1 PString;
      mkField Singular "id" 2 PString;
      mkField Singular "actor_id" 3 PString];
   mkMessage "SuspendIdentityResponse" [];
   mkMessage "ReactivateIdentityRequest"
     [mkField Singular "tenant_id" 1 PString;
      mkField Singular "id" 2 PString;
      mkField Singular "actor_id" 3 PString];
   mkMessage "ReactivateIdentityResponse" [];
   mkMessage "DeactivateIdentityRequest"
     [mkField Singular "tenant_id" 1 PString;
      mkField Singular "id" 2 PString;
      mkField Singular "actor_id" 3 PString];
   mkMessage "DeactivateIdentityResponse" []].

Definition keys_proto : list pmessage :=
  [mkMessage "GenerateKeyRequest"
     [mkField Singular "tenant_id" 1 PString;
      mkField Singular "identity_id" 2 PString;
      mkField Singular "key_type" 3 (PEnum "KeyType");
      mkField Singular "purpose" 4 (PEnum "KeyPurpose");
      mkField Singular "actor_id" 5 PString];
   mkMessage "GenerateKeyResponse"
     [mkField Singular "key" 1 (PMessage "IdentityKey")];
   mkMessage "GetKeyRequest"
     [mkField Singular "tenant_id" 1 PString;
      mkField Singular "key_id" 2 PString];
   mkMessage "GetKeyResponse"
     [mkField Singular "key" 1 (PMessage "IdentityKey")];
   mkMessage "ListKeysRequest"
     [mkField Singular "tenant_id" 1 PString;
      mkField Singular "identity_id" 2 PString];
   mkMessage "ListKeysResponse"
     [mkField Repeated "keys" 1 (PMessage "IdentityKey")];
   mkMessage "RotateKeyRequest"
     [mkField Singular "tenant_id" 1 PString;
      mkField Singular "identity_id" 2 PString;
      mkField Singular "key_id" 3 PString;
      mkField Singular "actor_id" 4 PString];
   mkMessage "RotateKeyResponse"
     [mkField Singular "new_key" 1 (PMessage "IdentityKey")];
   mkMessage "RevokeKeyRequest"
     [mkField Singular "tenant_id" 1 PString;
      mkField Singular "key_id" 2 PString;
      mkField Singular "actor_id" 3 PString];
   mkMessage "RevokeKeyResponse" []].

Definition proto_services : list pservice :=
  [mkService "IdentityService"
     [mkRpc "CreateTenant" "CreateTenantRequest" "CreateTenantResponse";
      mkRpc "GetTenant" "GetTenantRequest" "GetTenantResponse";
      mkRpc "SuspendTenant" "SuspendTenantRequest" "SuspendTenantResponse";
      mkRpc "ActivateTenant" "ActivateTenantRequest" "ActivateTenantResponse";
      mkRpc "CreateIdentity" "CreateIdentityRequest" "CreateIdentityResponse";
      mkRpc "GetIdentity" "GetIdentityRequest" "GetIdentityResponse";
      mkRpc "GetIdentityByHandle" "GetIdentityByHandleRequest" "GetIdentityResponse";
      mkRpc "ListIdentities" "ListIdentitiesRequest" "ListIdentitiesResponse";
      mkRpc "UpdateIdentity" "UpdateIdentityRequest" "UpdateIdentityResponse";
      mkRpc "SuspendIdentity" "SuspendIdentityRequest" "SuspendIdentityResponse";
      mkRpc "ReactivateIdentity" "ReactivateIdentityRequest" "ReactivateIdentityResponse";
      mkRpc "DeactivateIdentity" "DeactivateIdentityRequest" "DeactivateIdentityResponse"];
   mkService "KeyService"
     [mkRpc "GenerateKey" "GenerateKeyRequest" "GenerateKeyResponse";
      mkRpc "GetKey" "GetKeyRequest" "GetKeyResponse";
      mkRpc "ListKeys" "ListKeysRequest" "ListKeysResponse";
      mkRpc "RotateKey" "RotateKeyRequest" "RotateKeyResponse";
      mkRpc "RevokeKey" "RevokeKeyRequest" "RevokeKeyResponse"]].

(** ** Go declarations *)

Inductive gotype :=
| GoString | GoInt32 | GoInt64 | GoBytes
| GoNamed (name : string) | GoRuntime (name : string) | GoPtr (name : string) | GoSlice (t : gotype) | GoMap (key value : gotype).
#[export] Instance gotype_eq_dec : EqDecision gotype.
Proof. solve_decision. Defined.

(** A field with its tag, as the tag's keys and values. *)
Record gofield := field { gf_name : string; gf_type : gotype; gf_tag : list (string * string) }.
Record gostruct := mkGoStruct { gs_name : string; gs_fields : list gofield }.
Record goenum := mkGoEnum { ge_name : string; ge_constants : list (string * Z) }.

(** Every message starts with the three fields that the runtime keeps. *)
Definition runtime_fields : list gofield :=
  [field "state" (GoRuntime "protoimpl.MessageState") [];
   field "sizeCache" (GoRuntime "protoimpl.SizeCache") [];
   field "unknownFields" (GoRuntime "protoimpl.UnknownFields") []].
Definition message_struct (name : string) (fields : list gofield) : gostruct :=
  mkGoStruct name (runtime_fields ++ fields)%list.

(** *** types.pb.go, identity.pb.go and keys.pb.go *)

Definition Tenant_struct : gostruct :=
  message_struct "Tenant"
    [field "Id" GoString
       [("protobuf", "bytes,1,opt,name=id,proto3");
        ("json", "id,omitempty")];
     field "Name" GoString
       [("protobuf", "bytes,2,opt,name=name,proto3");
        ("json", "name,omitempty")];
     field "Slug" GoString
       [("protobuf", "bytes,3,opt,name=slug,proto3");
        ("json", "slug,omitempty")];
     field "Tier" (GoNamed "TenantTier")
       [("protobuf", "varint,4,opt,name=tier,proto3,enum=verion.v1.TenantTier");
        ("json", "tier,omitempty")];
     field "Status" GoString
       [("protobuf", "bytes,5,opt,name=status,proto3");
        ("json", "status,omitempty")];
     field "DataRegion" GoString
       [("protobuf", "bytes,6,opt,name=data_region,json=dataRegion,proto3");
        ("json", "data_region,omitempty")];
     field "CreatedAt" (GoPtr "timestamppb.Timestamp")
       [("protobuf", "bytes,7,opt,name=created_at,json=createdAt,proto3");
        ("json", "created_at,omitempty")];
     field "UpdatedAt" (GoPtr "timestamppb.Timestamp")
       [("protobuf", "bytes,8,opt,name=updated_at,json=updatedAt,proto3");
        ("json", "updated_at,omitempty")]].

Definition Identity_struct : gostruct :=
  message_struct "Identity"
    [field "Id" GoString
       [("protobuf", "bytes,1,opt,name=id,proto3");
        ("json", "id,omitempty")];
     field "TenantId" GoString
       [("protobuf", "bytes,2,opt,name=tenant_id,json=tenantId,proto3");
        ("json", "tenant_id,omitempty")];
     field "Type" (GoNamed "IdentityType")
       [("protobuf", "varint,3,opt,name=type,proto3,enum=verion.v1.IdentityType");
        ("json", "type,omitempty")];
     field "DisplayName" GoString
       [("protobuf", "bytes,4,opt,name=display_name,json=displayName,proto3");
        ("json", "display_name,omitempty")];
     field "Handle" GoString
       [("protobuf", "bytes,5,opt,name=handle,proto3");
        ("json", "handle,omitempty")];
     field "Status" (GoNamed "IdentityStatus")
       [("protobuf", "varint,6,opt,name=status,proto3,enum=verion.v1.IdentityStatus");
        ("json", "status,omitempty")];
     field "PrimaryKeyId" GoString
       [("protobuf", "bytes,7,opt,name=primary_key_id,json=primaryKeyId,proto3");
        ("json", "primary_key_id,omitempty")];
     field "Attributes" (GoMap GoString GoString)
       [("protobuf", "bytes,8,rep,name=attributes,proto3");
        ("json", "attributes,omitempty");
        ("protobuf_key", "bytes,1,opt,name=key,proto3");
        ("protobuf_val", "bytes,2,opt,name=value,proto3")];
     field "Version" GoInt64
       [("protobuf", "varint,9,opt,name=version,proto3");
        ("json", "version,omitempty")];
     field "CreatedAt" (GoPtr "timestamppb.Timestamp")
       [("protobuf", "bytes,10,opt,name=created_at,json=createdAt,proto3");
        ("json", "created_at,omitempty")];
     field "UpdatedAt" (GoPtr "timestamppb.Timestamp")
       [("protobuf", "bytes,11,opt,name=updated_at,json=updatedAt,proto3");
        ("json", "updated_at,omitempty")]].

Definition IdentityKey_struct : gostruct :=
  message_struct "IdentityKey"
    [field "Id" GoString
       [("protobuf", "bytes,1,opt,name=id,proto3");
        ("json", "id,omitempty")];
     field "IdentityId" GoString
       [("protobuf", "bytes,2,opt,name=identity_id,json=identityId,proto3");
        ("json", "identity_id,omitempty")];
     field "TenantId" GoString
       [("protobuf", "bytes,3,opt,name=tenant_id,json=tenantId,proto3");
        ("json", "tenant_id,omitempty")];
     field "KeyType" (GoNamed "KeyType")
       [("protobuf", "varint,4,opt,name=key_type,json=keyType,proto3,enum=verion.v1.KeyType");
        ("json", "key_type,omitempty")];
     field "Purpose" (GoNamed "KeyPurpose")
       [("protobuf", "varint,5,opt,name=purpose,proto3,enum=verion.v1.KeyPurpose");
        ("json", "purpose,omitempty")];
     field "Algorithm" GoString
       [("protobuf", "bytes,6,opt,name=algorithm,proto3");
        ("json", "algorithm,omitempty")];
     field "PublicKey" GoBytes
       [("protobuf", "bytes,7,opt,name=public_key,json=publicKey,proto3");
        ("json", "public_key,omitempty")];
     field "Fingerprint" GoString
       [("protobuf", "bytes,8,opt,name=fingerprint,proto3");
        ("json", "fingerprint,omitempty")];
     field "Status" (GoNamed "KeyStatus")
       [("protobuf", "varint,9,opt,name=status,proto3,enum=verion.v1.KeyStatus");
        ("json", "status,omitempty")];
     field "CreatedAt" (GoPtr "timestamppb.Timestamp")
       [("protobuf", "bytes,10,opt,name=created_at,json=createdAt,proto3");
        ("json", "created_at,omitempty")];
     field "ValidFrom" (GoPtr "timestamppb.Timestamp")
       [("protobuf", "bytes,11,opt,name=valid_from,json=validFrom,proto3");
        ("json", "valid_from,omitempty")];
     field "ValidUntil" (GoPtr "timestamppb.Timestamp")
       [("protobuf", "bytes,12,opt,name=valid_until,json=validUntil,proto3");
        ("json", "valid_until,omitempty")]].

Definition CreateTenantRequest_struct : gostruct :=
  message_struct "CreateTenantRequest"
    [field "Name" GoString
       [("protobuf", "bytes,1,opt,name=name,proto3");
        ("json", "name,omitempty")];
     field "Slug" GoString
       [("protobuf", "bytes,2,opt,name=slug,proto3");
        ("json", "slug,omitempty")];
     field "Tier" (GoNamed "TenantTier")
       [("protobuf", "varint,3,opt,name=tier,proto3,enum=verion.v1.TenantTier");
        ("json", "tier,omitempty")];
     field "DataRegion" GoString
       [("protobuf", "bytes,4,opt,name=data_region,json=dataRegion,proto3");
        ("json", "data_region,omitempty")]].

Definition CreateTenantResponse_struct : gostruct :=
  message_struct "CreateTenantResponse"
    [field "Tenant" (GoPtr "Tenant")
       [("protobuf", "bytes,1,opt,name=tenant,proto3");
        ("json", "tenant,omitempty")]].

Definition GetTenantRequest_struct : gostruct :=
  message_struct "GetTenantRequest"
    [field "Id" GoString
       [("protobuf", "bytes,1,opt,name=id,proto3");
        ("json", "id,omitempty")]].

Definition GetTenantResponse_struct : gostruct :=
  message_struct "GetTenantResponse"
    [field "Tenant" (GoPtr "Tenant")
       [("protobuf", "bytes,1,opt,name=tenant,proto3");
        ("json", "tenant,omitempty")]].

Definition SuspendTenantRequest_struct : gostruct :=
  message_struct "SuspendTenantRequest"
    [field "Id" GoString
       [("protobuf", "bytes,1,opt,name=id,proto3");
        ("json", "id,omitempty")]].

Definition SuspendTenantResponse_struct : gostruct :=
  message_struct "SuspendTenantResponse" [].

Definition ActivateTenantRequest_struct : gostruct :=
  message_struct "ActivateTenantRequest"
    [field "Id" GoString
       [("protobuf", "bytes,1,opt,name=id,proto3");
        ("json", "id,omitempty")]].

Definition ActivateTenantResponse_struct : gostruct :=
  message_struct "ActivateTenantResponse" [].

Definition CreateIdentityRequest_struct : gostruct :=
  message_struct "CreateIdentityRequest"
    [field "TenantId" GoString
       [("protobuf", "bytes,1,opt,name=tenant_id,json=tenantId,proto3");
        ("json", "tenant_id,omitempty")];
     field "Type" (GoNamed "IdentityType")
       [("protobuf", "varint,2,opt,name=type,proto3,enum=verion.v1.IdentityType");
        ("json", "type,omitempty")];
     field "DisplayName" GoString
       [("protobuf", "bytes,3,opt,name=display_name,json=displayName,proto3");
        ("json", "display_name,omitempty")];
     field "Handle" GoString
       [("protobuf", "bytes,4,opt,name=handle,proto3");
        ("json", "handle,omitempty")];
     field "CreatedBy" GoString
       [("protobuf", "bytes,5,opt,name=created_by,json=createdBy,proto3");
        ("json", "created_by,omitempty")];
     field "Attributes" (GoMap GoString GoString)
       [("protobuf", "bytes,6,rep,name=attributes,proto3");
        ("json", "attributes,omitempty");
        ("protobuf_key", "bytes,1,opt,name=key,proto3");
        ("protobuf_val", "bytes,2,opt,name=value,proto3")]].

Definition CreateIdentityResponse_struct : gostruct :=
  message_struct "CreateIdentityResponse"
    [field "Identity" (GoPtr "Identity")
       [("protobuf", "bytes,1,opt,name=identity,proto3");
        ("json", "identity,omitempty")];
     field "Key" (GoPtr "IdentityKey")
       [("protobuf", "bytes,2,opt,name=key,proto3");
        ("json", "key,omitempty")]].

Definition GetIdentityRequest_struct : gostruct :=
  message_struct "GetIdentityRequest"
    [field "TenantId" GoString
       [("protobuf", "bytes,1,opt,name=tenant_id,json=tenantId,proto3");
        ("json", "tenant_id,omitempty")];
     field "Id" GoString
       [("protobuf", "bytes,2,opt,name=id,proto3");
        ("json", "id,omitempty")]].

Definition GetIdentityByHandleRequest_struct : gostruct :=
  message_struct "GetIdentityByHandleRequest"
    [field "TenantId" GoString
       [("protobuf", "bytes,1,opt,name=tenant_id,json=tenantId,proto3");
        ("json", "tenant_id,omitempty")];
     field "Handle" GoString
       [("protobuf", "bytes,2,opt,name=handle,proto3");
        ("json", "handle,omitempty")]].

Definition GetIdentityResponse_struct : gostruct :=
  message_struct "GetIdentityResponse"
    [field "Identity" (GoPtr "Identity")
       [("protobuf", "bytes,1,opt,name=identity,proto3");
        ("json", "identity,omitempty")]].

Definition ListIdentitiesRequest_struct : gostruct :=
  message_struct "ListIdentitiesRequest"
    [field "TenantId" GoString
       [("protobuf", "bytes,1,opt,name=tenant_id,json=tenantId,proto3");
        ("json", "tenant_id,omitempty")];
     field "Type" GoString
       [("protobuf", "bytes,2,opt,name=type,proto3");
        ("json", "type,omitempty")];
     field "Status" GoString
       [("protobuf", "bytes,3,opt,name=status,proto3");
        ("json", "status,omitempty")];
     field "Limit" GoInt32
       [("protobuf", "varint,4,opt,name=limit,proto3");
        ("json", "limit,omitempty")];
     field "Offset" GoInt32
       [("protobuf", "varint,5,opt,name=offset,proto3");
        ("json", "offset,omitempty")]].

Definition ListIdentitiesResponse_struct : gostruct :=
  message_struct "ListIdentitiesResponse"
    [field "Identities" (GoSlice (GoPtr "Identity"))
       [("protobuf", "bytes,1,rep,name=identities,proto3");
        ("json", "identities,omitempty")];
     field "Total" GoInt64
       [("protobuf", "varint,2,opt,name=total,proto3");
        ("json", "total,omitempty")]].

Definition UpdateIdentityRequest_struct : gostruct :=
  message_struct "UpdateIdentityRequest"
    [field "TenantId" GoString
       [("protobuf", "bytes,1,opt,name=tenant_id,json=tenantId,proto3");
        ("json", "tenant_id,omitempty")];
     field "Id" GoString
       [("protobuf", "bytes,2,opt,name=id,proto3");
        ("json", "id,omitempty")];
     field "DisplayName" GoString
       [("protobuf", "bytes,3,opt,name=display_name,json=displayName,proto3");
        ("json", "display_name,omitempty")];
     field "Attributes" (GoMap GoString GoString)
       [("protobuf", "bytes,4,rep,name=attributes,proto3");
        ("json", "attributes,omitempty");
        ("protobuf_key", "bytes,1,opt,name=key,proto3");
        ("protobuf_val", "bytes,2,opt,name=value,proto3")];
     field "Version" GoInt64
       [("protobuf", "varint,5,opt,name=version,proto3");
        ("json", "version,omitempty")];
     field "ActorId" GoString
       [("protobuf", "bytes,6,opt,name=actor_id,json=actorId,proto3");
        ("json", "actor_id,omitempty")]].

Definition UpdateIdentityResponse_struct : gostruct :=
  message_struct "UpdateIdentityResponse"
    [field "Identity" (GoPtr "Identity")
       [("protobuf", "bytes,1,opt,name=identity,proto3");
        ("json", "identity,omitempty")]].

Definition SuspendIdentityRequest_struct : gostruct :=
  message_struct "SuspendIdentityRequest"
    [field "TenantId" GoString
       [("protobuf", "bytes,1,opt,name=tenant_id,json=tenantId,proto3");
        ("json", "tenant_id,omitempty")];
     field "Id" GoString
       [("protobuf", "bytes,2,opt,name=id,proto3");
        ("json", "id,omitempty")];
     field "ActorId" GoString
       [("protobuf", "bytes,3,opt,name=actor_id,json=actorId,proto3");
        ("json", "actor_id,omitempty")]].

Definition SuspendIdentityResponse_struct : gostruct :=
  message_struct "SuspendIdentityResponse" [].

Definition ReactivateIdentityRequest_struct : gostruct :=
  message_struct "ReactivateIdentityRequest"
    [field "TenantId" GoString
       [("protobuf", "bytes,1,opt,name=tenant_id,json=tenantId,proto3");
        ("json", "tenant_id,omitempty")];
     field "Id" GoString
       [("protobuf", "bytes,2,opt,name=id,proto3");
        ("json", "id,omitempty")];
     field "ActorId" GoString
       [("protobuf", "bytes,3,opt,name=actor_id,json=actorId,proto3");
        ("json", "actor_id,omitempty")]].

Definition ReactivateIdentityResponse_struct : gostruct :=
  message_struct "ReactivateIdentityResponse" [].

Definition DeactivateIdentityRequest_struct : gostruct :=
  message_struct "DeactivateIdentityRequest"
    [field "TenantId" GoString
       [("protobuf", "bytes,1,opt,name=tenant_id,json=tenantId,proto3");
        ("json", "tenant_id,omitempty")];
     field "Id" GoString
       [("protobuf", "bytes,2,opt,name=id,proto3");
        ("json", "id,omitempty")];
     field "ActorId" GoString
       [("protobuf", "bytes,3,opt,name=actor_id,json=actorId,proto3");
        ("json", "actor_id,omitempty")]].

Definition DeactivateIdentityResponse_struct : gostruct :=
  message_struct "DeactivateIdentityResponse" [].

Definition GenerateKeyRequest_struct : gostruct :=
  message_struct "GenerateKeyRequest"
    [field "TenantId" GoString
       [("protobuf", "bytes,1,opt,name=tenant_id,json=tenantId,proto3");
        ("json", "tenant_id,omitempty")];
     field "IdentityId" GoString
       [("protobuf", "bytes,2,opt,name=identity_id,json=identityId,proto3");
        ("json", "identity_id,omitempty")];
     field "KeyType" (GoNamed "KeyType")
       [("protobuf", "varint,3,opt,name=key_type,json=keyType,proto3,enum=verion.v1.KeyType");
        ("json", "key_type,omitempty")];
     field "Purpose" (GoNamed "KeyPurpose")
       [("protobuf", "varint,4,opt,name=purpose,proto3,enum=verion.v1.KeyPurpose");
        ("json", "purpose,omitempty")];
     field "ActorId" GoString
       [("protobuf", "bytes,5,opt,name=actor_id,json=actorId,proto3");
        ("json", "actor_id,omitempty")]].

Definition GenerateKeyResponse_struct : gostruct :=
  message_struct "GenerateKeyResponse"
    [field "Key" (GoPtr "IdentityKey")
       [("protobuf", "bytes,1,opt,name=key,proto3");
        ("json", "key,omitempty")]].

Definition GetKeyRequest_struct : gostruct :=
  message_struct "GetKeyRequest"
    [field "TenantId" GoString
       [("protobuf", "bytes,1,opt,name=tenant_id,json=tenantId,proto3");
        ("json", "tenant_id,omitempty")];
     field "KeyId" GoString
       [("protobuf", "bytes,2,opt,name=key_id,json=keyId,proto3");
        ("json", "key_id,omitempty")]].

Definition GetKeyResponse_struct : gostruct :=
  message_struct "GetKeyResponse"
    [field "Key" (GoPtr "IdentityKey")
       [("protobuf", "bytes,1,opt,name=key,proto3");
        ("json", "key,omitempty")]].

Definition ListKeysRequest_struct : gostruct :=
  message_struct "ListKeysRequest"
    [field "TenantId" GoString
       [("protobuf", "bytes,1,opt,name=tenant_id,json=tenantId,proto3");
        ("json", "tenant_id,omitempty")];
     field "IdentityId" GoString
       [("protobuf", "bytes,2,opt,name=identity_id,json=identityId,proto3");
        ("json", "identity_id,omitempty")]].

Definition ListKeysResponse_struct : gostruct :=
  message_struct "ListKeysResponse"
    [field "Keys" (GoSlice (GoPtr "IdentityKey"))
       [("protobuf", "bytes,1,rep,name=keys,proto3");
        ("json", "keys,omitempty")]].

Definition RotateKeyRequest_struct : gostruct :=
  message_struct "RotateKeyRequest"
    [field "TenantId" GoString
       [("protobuf", "bytes,1,opt,name=tenant_id,json=tenantId,proto3");
        ("json", "tenant_id,omitempty")];
     field "IdentityId" GoString
       [("protobuf", "bytes,2,opt,name=identity_id,json=identityId,proto3");
        ("json", "identity_id,omitempty")];
     field "KeyId" GoString
       [("protobuf", "bytes,3,opt,name=key_id,json=keyId,proto3");
        ("json", "key_id,omitempty")];
     field "ActorId" GoString
       [("protobuf", "bytes,4,opt,name=actor_id,json=actorId,proto3");
        ("json", "actor_id,omitempty")]].

Definition RotateKeyResponse_struct : gostruct :=
  message_struct "RotateKeyResponse"
    [field "NewKey" (GoPtr "IdentityKey")
       [("protobuf", "bytes,1,opt,name=new_key,json=newKey,proto3");
        ("json", "new_key,omitempty")]].

Definition RevokeKeyRequest_struct : gostruct :=
  message_struct "RevokeKeyRequest"
    [field "TenantId" GoString
       [("protobuf", "bytes,1,opt,name=tenant_id,json=tenantId,proto3");
        ("json", "tenant_id,omitempty")];
     field "KeyId" GoString
       [("protobuf", "bytes,2,opt,name=key_id,json=keyId,proto3");
        ("json", "key_id,omitempty")];
     field "ActorId" GoString
       [("protobuf", "bytes,3,opt,name=actor_id,json=actorId,proto3");
        ("json", "actor_id,omitempty")]].

Definition RevokeKeyResponse_struct : gostruct :=
  message_struct "RevokeKeyResponse" [].

Definition types_structs : list gostruct :=
  [Tenant_struct;
   Identity_struct;
   IdentityKey_struct].

Definition identity_structs : list gostruct :=
  [CreateTenantRequest_struct;
   CreateTenantResponse_struct;
   GetTenantRequest_struct;
   GetTenantResponse_struct;
   SuspendTenantRequest_struct;
   SuspendTenantResponse_struct;
   ActivateTenantRequest_struct;
   ActivateTenantResponse_struct;
   CreateIdentityRequest_struct;
   CreateIdentityResponse_struct;
   GetIdentityRequest_struct;
   GetIdentityByHandleRequest_struct;
   GetIdentityResponse_struct;
   ListIdentitiesRequest_struct;
   ListIdentitiesResponse_struct;
   UpdateIdentityRequest_struct;
   UpdateIdentityResponse_struct;
   SuspendIdentityRequest_struct;
   SuspendIdentityResponse_struct;
   ReactivateIdentityRequest_struct;
   ReactivateIdentityResponse_struct;
   DeactivateIdentityRequest_struct;
   DeactivateIdentityResponse_struct].

Definition keys_structs : list gostruct :=
  [GenerateKeyRequest_struct;
   GenerateKeyResponse_struct;
   GetKeyRequest_struct;
   GetKeyResponse_struct;
   ListKeysRequest_struct;
   ListKeysResponse_struct;
   RotateKeyRequest_struct;
   RotateKeyResponse_struct;
   RevokeKeyRequest_struct;
   RevokeKeyResponse_struct].

Definition go_enums : list goenum :=
  [mkGoEnum "IdentityType"
     [("IdentityType_IDENTITY_TYPE_UNSPECIFIED", IdentityType_IDENTITY_TYPE_UNSPECIFIED);
      ("IdentityType_IDENTITY_TYPE_HUMAN", IdentityType_IDENTITY_TYPE_HUMAN);
      ("IdentityType_IDENTITY_TYPE_ORG", IdentityType_IDENTITY_TYPE_ORG);
      ("IdentityType_IDENTITY_TYPE_DEVICE", IdentityType_IDENTITY_TYPE_DEVICE);
      ("IdentityType_IDENTITY_TYPE_SERVICE", IdentityType_IDENTITY_TYPE_SERVICE);
      ("IdentityType_IDENTITY_TYPE_MACHINE", IdentityType_IDENTITY_TYPE_MACHINE);
      ("IdentityType_IDENTITY_TYPE_AI_AGENT", IdentityType_IDENTITY_TYPE_AI_AGENT)];
   mkGoEnum "IdentityStatus"
     [("IdentityStatus_IDENTITY_STATUS_UNSPECIFIED", IdentityStatus_IDENTITY_STATUS_UNSPECIFIED);
      ("IdentityStatus_IDENTITY_STATUS_PENDING", IdentityStatus_IDENTITY_STATUS_PENDING);
      ("IdentityStatus_IDENTITY_STATUS_ACTIVE", IdentityStatus_IDENTITY_STATUS_ACTIVE);
      ("IdentityStatus_IDENTITY_STATUS_SUSPENDED", IdentityStatus_IDENTITY_STATUS_SUSPENDED);
      ("IdentityStatus_IDENTITY_STATUS_DEACTIVATED", IdentityStatus_IDENTITY_STATUS_DEACTIVATED);
      ("IdentityStatus_IDENTITY_STATUS_ARCHIVED", IdentityStatus_IDENTITY_STATUS_ARCHIVED)];
   mkGoEnum "KeyType"
     [("KeyType_KEY_TYPE_UNSPECIFIED", KeyType_KEY_TYPE_UNSPECIFIED);
      ("KeyType_KEY_TYPE_ED25519", KeyType_KEY_TYPE_ED25519);
      ("KeyType_KEY_TYPE_ECDSA_P256", KeyType_KEY_TYPE_ECDSA_P256);
      ("KeyType_KEY_TYPE_ECDSA_P384", KeyType_KEY_TYPE_ECDSA_P384);
      ("KeyType_KEY_TYPE_RSA_4096", KeyType_KEY_TYPE_RSA_4096)];
   mkGoEnum "KeyPurpose"
     [("KeyPurpose_KEY_PURPOSE_UNSPECIFIED", KeyPurpose_KEY_PURPOSE_UNSPECIFIED);
      ("KeyPurpose_KEY_PURPOSE_SIGNING", KeyPurpose_KEY_PURPOSE_SIGNING);
      ("KeyPurpose_KEY_PURPOSE_ENCRYPTION", KeyPurpose_KEY_PURPOSE_ENCRYPTION);
      ("KeyPurpose_KEY_PURPOSE_AUTHENTICATION", KeyPurpose_KEY_PURPOSE_AUTHENTICATION);
      ("KeyPurpose_KEY_PURPOSE_RECOVERY", KeyPurpose_KEY_PURPOSE_RECOVERY)];
   mkGoEnum "KeyStatus"
     [("KeyStatus_KEY_STATUS_UNSPECIFIED", KeyStatus_KEY_STATUS_UNSPECIFIED);
      ("KeyStatus_KEY_STATUS_ACTIVE", KeyStatus_KEY_STATUS_ACTIVE);
      ("KeyStatus_KEY_STATUS_ROTATED", KeyStatus_KEY_STATUS_ROTATED);
      ("KeyStatus_KEY_STATUS_REVOKED", KeyStatus_KEY_STATUS_REVOKED);
      ("KeyStatus_KEY_STATUS_COMPROMISED", KeyStatus_KEY_STATUS_COMPROMISED)];
   mkGoEnum "TenantTier"
     [("TenantTier_TENANT_TIER_UNSPECIFIED", TenantTier_TENANT_TIER_UNSPECIFIED);
      ("TenantTier_TENANT_TIER_STANDARD", TenantTier_TENANT_TIER_STANDARD);
      ("TenantTier_TENANT_TIER_PROFESSIONAL", TenantTier_TENANT_TIER_PROFESSIONAL);
      ("TenantTier_TENANT_TIER_ENTERPRISE", TenantTier_TENANT_TIER_ENTERPRISE)]].

(** ** The generator *)

(** Names with underscores in camel case: a letter after an underscore is a
    capital.  In Go the first letter is one too. *)
Definition upper (c : ascii) : ascii :=
  let n := N_of_ascii c in if (97 <=? n)%N && (n <=? 122)%N then ascii_of_N (n - 32) else c.
Fixpoint camel (after_underscore : bool) (s : string) : string :=
  match s with
  | EmptyString => EmptyString
  | String c s =>
    if Ascii.eqb c "_" then camel true s
    else String (if after_underscore then upper c else c) (camel false s)
  end.
Definition go_name : string -> string := camel true.
Definition json_name : string -> string := camel false.

Fixpoint go_type (t : ptype) : gotype :=
  match t with
  | PString => GoString
  | PInt32 => GoInt32
  | PInt64 => GoInt64
  | PBytes => GoBytes
  | PTimestamp => GoPtr "timestamppb.Timestamp"
  | PEnum name => GoNamed name
  | PMessage name => GoPtr name
  | PMap k v => GoMap (go_type k) (go_type v)
  end.

(** Integers and enums are variable-length integers, all else is a sequence of
    bytes with its length. *)
Definition wire_type (t : ptype) : string :=
  match t with
  | PInt32 | PInt64 | PEnum _ => "varint"
  | PString | PBytes | PTimestamp | PMessage _ | PMap _ _ => "bytes"
  end.
Definition enum_suffix (t : ptype) : string :=
  match t with PEnum name => ",enum=" +:+ proto_package +:+ "." +:+ name | _ => "" end.
(** A map is a repeated message of a key and a value. *)
Definition is_repeated (f : pfield) : bool :=
  match pf_card f, pf_type f with Repeated, _ | _, PMap _ _ => true | _, _ => false end.
Definition protobuf_tag (f : pfield) : string :=
  wire_type (pf_type f) +:+ "," +:+ pretty (pf_number f) +:+
  (if is_repeated f then ",rep" else ",opt") +:+ ",name=" +:+ pf_name f +:+
  (if String.eqb (json_name (pf_name f)) (pf_name f) then "" else ",json=" +:+ json_name (pf_name f)) +:+
  ",proto3" +:+ enum_suffix (pf_type f).
Definition map_tags (t : ptype) : list (string * string) :=
  match t with
  | PMap k v =>
    [("protobuf_key", protobuf_tag (mkField Singular "key" 1 k));
     ("protobuf_val", protobuf_tag (mkField Singular "value" 2 v))]
  | _ => []
  end.
Definition generate_field (f : pfield) : gofield :=
  field (go_name (pf_name f))
    (match pf_card f with Singular => go_type (pf_type f) | Repeated => GoSlice (go_type (pf_type f)) end)
    (("protobuf", protobuf_tag f) :: ("json", pf_name f +:+ ",omitempty") :: map_tags (pf_type f)).
Definition generate_message (m : pmessage) : gostruct :=
  message_struct (pm_name m) (generate_field <$> pm_fields m).
Definition generate_enum (e : penum) : goenum :=
  mkGoEnum (pe_name e) (prod_map (fun v => pe_name e +:+ "_" +:+ v) id <$> pe_values e).

(** ** Values of the structs *)

Inductive goval :=
| VString (s : string) | VInt (n : Z) | VNil | VPtr | VBytes (b : bytes) | VSlice (l : list goval)
| VMap (m : list (goval * goval)) | VRuntime.
Definition has_type (t : gotype) (v : goval) : bool :=
  match t, v with
  | GoString, VString _ | GoRuntime _, VRuntime => true
  | GoInt32, VInt n | GoNamed _, VInt n => (- 2 ^ 31 <=? n) && (n <? 2 ^ 31)
  | GoInt64, VInt n => (- 2 ^ 63 <=? n) && (n <? 2 ^ 63)
  | (GoBytes | GoPtr _ | GoSlice _ | GoMap _ _), VNil => true
  | GoBytes, VBytes _ | GoPtr _, VPtr | GoSlice _, VSlice _ | GoMap _ _, VMap _ => true
  | _, _ => false
  end.
(** The zero value of a type; an enum's is the number 0. *)
Definition zero_value (t : gotype) : goval :=
  match t with
  | GoString => VString ""
  | GoInt32 | GoInt64 | GoNamed _ => VInt 0
  | GoBytes | GoPtr _ | GoSlice _ | GoMap _ _ => VNil
  | GoRuntime _ => VRuntime
  end.
(** [*x = T{}]. *)
Definition Reset (s : gostruct) (x : list goval) : list goval := zero_value ∘ gf_type <$> gs_fields s.

Lemma Reset_typed s x :
  Forall2 (fun f v => has_type (gf_type f) v = true) (gs_fields s) (Reset s x).
Proof.
  apply Forall2_fmap_r, Forall_Forall2_diag, Forall_true. intros [n t tag]. simpl. by destruct t.
Qed.

(** ** The declarations follow the protocol *)

(** The structs and the constants of the enums are what the generator makes of
    the protocol, field for field: the names, the types, the numbers, the
    encodings and the JSON names. *)
Theorem structs_follow_protocol :
  generate_message <$> types_proto = types_structs /\
  generate_message <$> identity_proto = identity_structs /\
  generate_message <$> keys_proto = keys_structs /\
  generate_enum <$> proto_enums = go_enums.
Proof. split_and!; vm_compute; reflexivity. Qed.

(** What makes a message decodable: its numbers differ and are in the range of
    the encoding, outside the one that is reserved, and its Go names differ. *)
Definition valid_number (n : Z) : bool :=
  (1 <=? n) && (n <? 2 ^ 29) && negb ((19000 <=? n) && (n <=? 19999)).
Definition well_formed (m : pmessage) : Prop :=
  NoDup (pf_number <$> pm_fields m) /\ forallb (fun f => valid_number (pf_number f)) (pm_fields m) = true /\
  NoDup (gf_name <$> gs_fields (generate_message m)).
#[export] Instance well_formed_dec m : Decision (well_formed m) := _.

(** The messages that a type names are declared. *)
Fixpoint names_of (t : ptype) : list string :=
  match t with
  | PMessage n | PEnum n => [n]
  | PMap k v => names_of k ++ names_of v
  | PString | PInt32 | PInt64 | PBytes | PTimestamp => []
  end.
Definition all_messages : list pmessage := (types_proto ++ identity_proto ++ keys_proto)%list.
Definition declared_names : list string := ((pm_name <$> all_messages) ++ (pe_name <$> proto_enums))%list.

Theorem protocol_is_well_formed :
  Forall well_formed all_messages /\ NoDup declared_names /\
  Forall (fun n => n ∈ declared_names) (all_messages ≫= fun m => pm_fields m ≫= fun f => names_of (pf_type f)) /\
  Forall (fun e => NoDup (pe_values e).*2 /\ (pe_values e).*2 !! 0%nat = Some 0) proto_enums.
Proof. split_and!; apply (bool_decide_unpack _); vm_compute; exact Logic.I. Qed.

(** ** The enums on the wire *)

Definition lower (c : ascii) : ascii :=
  let n := N_of_ascii c in if (65 <=? n)%N && (n <=? 90)%N then ascii_of_N (n + 32) else c.
Fixpoint map_string (f : ascii -> ascii) (s : string) : string :=
  match s with EmptyString => EmptyString | String c s => String (f c) (map_string f s) end.

(** The values of an enum of the protocol but the first, which is unspecified,
    each with its label: its name in lower case, without the prefix that all
    names of the enum share. *)
Definition value_labels (e : penum) : list (string * Z) :=
  match pe_values e with
  | [] => []
  | (unspecified, _) :: values =>
    let prefix := (String.length unspecified - String.length "UNSPECIFIED")%nat in
    (fun v => (map_string lower (String.substring prefix (String.length v.1 - prefix) v.1), v.2)) <$> values
  end.
Definition enum_labels (name : string) : list (string * Z) :=
  match List.find (fun e => String.eqb (pe_name e) name) proto_enums with
  | Some e => value_labels e
  | None => []
  end.
Definition label_of (name : string) (n : Z) : option string :=
  fst <$> List.find (fun v => n =? v.2) (enum_labels name).
Definition number_of (name : string) (label : string) : option Z :=
  snd <$> List.find (fun v => String.eqb label v.1) (enum_labels name).

Ltac compute_labels :=
  unfold label_of, number_of;
  match goal with |- context [enum_labels ?name] =>
    let l := eval vm_compute in (enum_labels name) in
    replace (enum_labels name) with l by (vm_compute; reflexivity)
  end.
Ltac by_number n :=
  compute_labels; cbv -[Z.eqb]; repeat match goal with |- context [n =? ?k] => destruct (Z.eqb_spec n k) end;
  subst; first [reflexivity | discriminate | lia].
Ltac by_label t :=
  compute_labels; cbv -[String.eqb]; repeat match goal with |- context [String.eqb t ?k] => destruct (String.eqb_spec t k) end;
  subst; first [reflexivity | discriminate].

(** C37. The enums on the wire.  A number is decoded to the label of its value in
    the protocol, and any other number to the default: human, the standard
    tier, Ed25519, signing.  A label is encoded to its number in the protocol,
    and any other text as unspecified, but the key types P-384 and RSA-4096
    are encoded as unspecified although they have numbers (a client that sends
    them back gets an Ed25519 key).  The labels of the columns are those of the
    protocol, so that every other label that is stored comes back as it was. *)
Theorem enums_on_the_wire :
  (forall n, identityTypeFromProto n = default "human" (label_of "IdentityType" n)) /\
  (forall n, tenantTierFromProto n = default "standard" (label_of "TenantTier" n)) /\
  (forall n, keyTypeFromProto n = default "ed25519" (label_of "KeyType" n)) /\
  (forall n, keyPurposeFromProto n = default "signing" (label_of "KeyPurpose" n)) /\
  (forall t, identityTypeToProto t = default 0 (number_of "IdentityType" t)) /\
  (forall s, identityStatusToProto s = default 0 (number_of "IdentityStatus" s)) /\
  (forall t, tenantTierToProto t = default 0 (number_of "TenantTier" t)) /\
  (forall u, keyPurposeToProto u = default 0 (number_of "KeyPurpose" u)) /\
  (forall s, keyStatusToProto s = default 0 (number_of "KeyStatus" s)) /\
  (forall t, keyTypeToProto t =
     if String.eqb t "ecdsa_p384" || String.eqb t "rsa_4096" then 0 else default 0 (number_of "KeyType" t)) /\
  (fun name => (enum_labels name).*1) <$>
    ["IdentityType"; "IdentityStatus"; "TenantTier"; "KeyPurpose"; "KeyStatus"; "KeyType"] =
    [Schema.identity_type; Schema.identity_status; Schema.tenant_tier; Schema.key_purpose;
     Schema.key_status; Schema.key_type] /\
  (forall t, t ∈ Schema.identity_type -> identityTypeFromProto (identityTypeToProto t) = t) /\
  (forall t, t ∈ Schema.tenant_tier -> tenantTierFromProto (tenantTierToProto t) = t) /\
  (forall u, u ∈ Schema.key_purpose -> keyPurposeFromProto (keyPurposeToProto u) = u) /\
  (forall t, t ∈ Schema.key_type -> keyTypeFromProto (keyTypeToProto t) =
     if String.eqb t "ecdsa_p384" || String.eqb t "rsa_4096" then "ed25519" else t).
Proof.
  split_and!.
  1-4: intros n; by_number n.
  1-6: intros t; by_label t.
  1: vm_compute; reflexivity.
  all: intros t Ht; repeat (apply elem_of_cons in Ht as [->|Ht]; [reflexivity|]); by apply elem_of_nil in Ht.
Qed.

(** ** The services *)

Definition msg_name (T : MsgType) : string :=
  match T with
  | TCreateTenantRequest => "CreateTenantRequest"
  | TCreateTenantResponse => "CreateTenantResponse"
  | TGetTenantRequest => "GetTenantRequest"
  | TGetTenantResponse => "GetTenantResponse"
  | TSuspendTenantRequest => "SuspendTenantRequest"
  | TSuspendTenantResponse => "SuspendTenantResponse"
  | TActivateTenantRequest => "ActivateTenantRequest"
  | TActivateTenantResponse => "ActivateTenantResponse"
  | TCreateIdentityRequest => "CreateIdentityRequest"
  | TCreateIdentityResponse => "CreateIdentityResponse"
  | TGetIdentityRequest => "GetIdentityRequest"
  | TGetIdentityResponse => "GetIdentityResponse"
  | TGetIdentityByHandleRequest => "GetIdentityByHandleRequest"
  | TListIdentitiesRequest => "ListIdentitiesRequest"
  | TListIdentitiesResponse => "ListIdentitiesResponse"
  | TUpdateIdentityRequest => "UpdateIdentityRequest"
  | TUpdateIdentityResponse => "UpdateIdentityResponse"
  | TSuspendIdentityRequest => "SuspendIdentityRequest"
  | TSuspendIdentityResponse => "SuspendIdentityResponse"
  | TReactivateIdentityRequest => "ReactivateIdentityRequest"
  | TReactivateIdentityResponse => "ReactivateIdentityResponse"
  | TDeactivateIdentityRequest => "DeactivateIdentityRequest"
  | TDeactivateIdentityResponse => "DeactivateIdentityResponse"
  | TGenerateKeyRequest => "GenerateKeyRequest"
  | TGenerateKeyResponse => "GenerateKeyResponse"
  | TGetKeyRequest => "GetKeyRequest"
  | TGetKeyResponse => "GetKeyResponse"
  | TListKeysRequest => "ListKeysRequest"
  | TListKeysResponse => "ListKeysResponse"
  | TRotateKeyRequest => "RotateKeyRequest"
  | TRotateKeyResponse => "RotateKeyResponse"
  | TRevokeKeyRequest => "RevokeKeyRequest"
  | TRevokeKeyResponse => "RevokeKeyResponse"
  end.

(** The methods of the protocol: full name, request and response. *)
Definition protocol_methods : list (string * string * string) :=
  proto_services ≫= fun s =>
    (fun r => ("/" +:+ proto_package +:+ "." +:+ ps_name s +:+ "/" +:+ rpc_name r, rpc_request r, rpc_response r))
    <$> ps_rpcs s.

Section services.
Context {W : Type}.

(** A decoder that refuses, naming the message that was to be decoded; and a
    connection that does, naming the method that was to be called, with its request and
    response. *)
Definition refusing_decoder (T : MsgType) : outcome status (msg T) :=
  Err (mkStatus Internal (msg_name T)).
Definition call_text (m : string * string * string) : string :=
  m.1.1 +:+ "(" +:+ m.1.2 +:+ ") returns (" +:+ m.2 +:+ ")".
Definition refusing_conn : ClientConn W :=
  fun R path m => throw (mkStatus Internal (call_text (path, msg_name (projT1 m), msg_name R))).
Definition status_of {A} (p : H W A) : option string :=
  match p with Ret (Err s) => Some (st_message s) | _ => None end.

(** What each stub calls. *)
Definition stub_calls (m : forall T, msg T) : list (option string) :=
  [status_of (identityServiceClient_CreateTenant refusing_conn (m _));
   status_of (identityServiceClient_GetTenant refusing_conn (m _));
   status_of (identityServiceClient_SuspendTenant refusing_conn (m _));
   status_of (identityServiceClient_ActivateTenant refusing_conn (m _));
   status_of (identityServiceClient_CreateIdentity refusing_conn (m _));
   status_of (identityServiceClient_GetIdentity refusing_conn (m _));
   status_of (identityServiceClient_GetIdentityByHandle refusing_conn (m _));
   status_of (identityServiceClient_ListIdentities refusing_conn (m _));
   status_of (identityServiceClient_UpdateIdentity refusing_conn (m _));
   status_of (identityServiceClient_SuspendIdentity refusing_conn (m _));
   status_of (identityServiceClient_ReactivateIdentity refusing_conn (m _));
   status_of (identityServiceClient_DeactivateIdentity refusing_conn (m _));
   status_of (keyServiceClient_GenerateKey refusing_conn (m _));
   status_of (keyServiceClient_GetKey refusing_conn (m _));
   status_of (keyServiceClient_ListKeys refusing_conn (m _));
   status_of (keyServiceClient_RotateKey refusing_conn (m _));
   status_of (keyServiceClient_RevokeKey refusing_conn (m _))].

(** Both sides of the services follow the protocol, whatever servers are
    registered and whatever is sent: each registered method has the full name
    of a method of the protocol, in its order, and decodes its request, with or
    without an interceptor; each stub calls the method under its full name with
    its request and for its response. *)
Theorem services_follow_protocol (ids : IdentityServiceServer W) (ks : KeyServiceServer W) i m :
  (let served := RegisterKeyServiceServer (RegisterIdentityServiceServer [] ids) ks in
   (served ≫= fun rg => (fun h => ("/" +:+ rg_Name rg +:+ "/" +:+ h.1, status_of (h.2 refusing_decoder i)))
      <$> rg_Methods rg) =
   (fun d => (d.1.1, Some d.1.2)) <$> protocol_methods) /\
  stub_calls m = (fun d => Some (call_text d)) <$> protocol_methods.
Proof. split; reflexivity. Qed.
End services.

(** ** Requests from outside *)

Section server.
Context {W : Type} (ids : IdentityServiceServer W) (ks : KeyServiceServer W).
Context (codec : GrpcCodec) (serve_rpc : list (registered W) -> string -> bytes -> H W bytes).
Context `{!ProtoCodecOk codec, !GrpcServerOk codec serve_rpc}.
Abbreviation served := (RegisterKeyServiceServer (RegisterIdentityServiceServer [] ids) ks).

(** The full names of the methods. *)
Definition protocol_names : list string := (fun d => d.1.1) <$> protocol_methods.

Definition is_unary (h : (forall T, outcome status (msg T)) -> option (UnaryServerInterceptor (W:=W)) -> H W anymsg) :=
  exists T R name (method : msg T -> H W (msg R)), h = unary_handler name method.

Lemma find_first {A} (f : A -> bool) l :
  (exists x, List.find f l = Some x /\ x ∈ l /\ f x = true) \/
  List.find f l = None /\ Forall (fun x => f x = false) l.
Proof.
  destruct (List.find f l) as [x|] eqn:Hf.
  - left. exists x. apply List.find_some in Hf as [Hin Hx]. by rewrite list_elem_of_In.
  - right. split; [done|]. apply list.Forall_forall. intros x Hx%list_elem_of_In.
    by eapply List.find_none.
Qed.

(** The names that the server knows are those of the protocol, and behind each
    is a generated handler. *)
Lemma find_method_served path :
  match find_method served path with
  | Some h => path ∈ protocol_names /\ is_unary h
  | None => path ∉ protocol_names
  end.
Proof.
  unfold find_method.
  set (named := served ≫= _). assert (named.*1 = protocol_names) as Hnames by reflexivity.
  assert (Forall (fun m => is_unary m.2) named) as Hall
    by (repeat constructor; eexists _, _, _, _; reflexivity).
  destruct (find_first (fun m => String.eqb m.1 path) named) as [([n h] & -> & Hin & Hn)|[-> Hno]];
    cbn [fmap option_fmap option_map snd fst] in *.
  - apply String.eqb_eq in Hn as <-. rewrite <-Hnames. split; [by apply (list_elem_of_fmap_2 fst _ (n, h))|].
    exact (proj1 (list.Forall_forall _ _) Hall (n, h) Hin).
  - rewrite <-Hnames. intros (m & -> & Hm)%list_elem_of_fmap.
    pose proof (proj1 (list.Forall_forall _ _) Hno m Hm) as Hf. cbv beta in Hf. by rewrite String.eqb_refl in Hf.
Qed.

(** What becomes of a request: a method of the protocol is never called, since
    decoding its request panics; any other name is Unimplemented. *)
Lemma served_request path b :
  if bool_decide (path ∈ protocol_names) then exists text, serve_rpc served path b = panic text
  else exists text, serve_rpc served path b = throw (mkStatus Unimplemented text).
Proof.
  pose proof (find_method_served path) as Hf.
  destruct (find_method served path) as [h|] eqn:Hh.
  - destruct Hf as [Hin (T & R & name & method & ->)]. rewrite bool_decide_eq_true_2 by done.
    destruct (serve_method served path _ b Hh) as (m1 & m2 & ->).
    destruct (Unmarshal_nil (codec:=codec) T b) as [text Ht]. exists text.
    unfold unary_handler, ProtoReflect. by rewrite Ht.
  - rewrite bool_decide_eq_false_2 by done. by apply serve_unknown.
Qed.
End server.
