(* ===== verification/Main.v ===== *)
(** * Main: [cmd/verion/main.go]

    The parsing of the configuration.  The wiring of the components, which
    [main] does next, is that of file System (the services over PostgreSQL and
    the local key store) and of file Http (the gateway). *)

From Stdlib Require Import ZArith Lia Ascii String.
From stdpp Require Import base list strings numbers gmap pretty.
From S2P Require Import Prelude Bytes Errors Model Repository World Schema Postgres Crypto Argon2.
From S2P Require Import Jwt.
Open Scope string_scope.
Open Scope Z_scope.

Definition char_code (c : ascii) : Z := Z.of_N (N_of_ascii c).

Definition hexNibble (c : ascii) : Z :=
  let n := char_code c in
  if (48 <=? n) && (n <=? 57) then n - 48
  else if (97 <=? n) && (n <=? 102) then n - 97 + 10
  else if (65 <=? n) && (n <=? 70) then n - 65 + 10
  else -1.

(** The loop of decodeHexKey: [i] bytes are decoded, the next characters are
    those of [hex]; the two characters exist while [hex] has them. *)
Fixpoint decode_from (i : nat) (hex : string) : error + bytes :=
  match hex with
  | String h (String l hex) =>
    let hi := hexNibble h in
    let lo := hexNibble l in
    if (hi <? 0) || (lo <? 0)
    then inl (ENew ("invalid hex character at position " +:+ pretty (i * 2)%nat))
    else match decode_from (S i) hex with
         | inl e => inl e
         | inr b => inr (byte_of_Z (Z.lor (Z.shiftl hi 4) lo) :: b)
         end
  | _ => inr []
  end.

Definition decodeHexKey (hex : string) : error + bytes :=
  if negb (Nat.eqb (String.length hex) 64)
  then inl (ENew ("must be 64 hex characters (32 bytes), got " +:+ pretty (String.length hex)))
  else decode_from 0 hex.

Definition envOrDefault (getenv : string -> string) (key def : string) : string :=
  let v := getenv key in
  if String.eqb v "" then def else v.

(** The master key and the configuration of the crypto service, as [main] makes
    them from the environment; an error is fatal. *)
Definition main_CryptoConfig (getenv : string -> string) : error + CryptoConfig :=
  let masterKeyHex := getenv "VERION_MASTER_KEY" in
  if String.eqb masterKeyHex ""
  then inl (ENew "required environment variable VERION_MASTER_KEY is not set")
  else match decodeHexKey masterKeyHex with
       | inl err => inl (EWrap "VERION_MASTER_KEY" err)
       | inr masterKey => inr (DefaultCryptoConfig masterKey)
       end.

(** [strconv.Atoi]: a sign, at least one digit, and the range of int. *)
Definition int_max : Z := 2 ^ 63 - 1.
Definition Atoi (s : string) : option Z :=
  let '(negative, ds) := match s with
    | String "-" ds => (true, ds)
    | String "+" ds => (false, ds)
    | _ => (false, s)
    end in
  match ds, span_digits ds with
  | EmptyString, _ => None
  | _, (num, EmptyString) =>
    let v := decimal_value 0 num in
    let n := if negative then - v else v in
    if (- int_max - 1 <=? n) && (n <=? int_max) then Some n else None
  | _, _ => None
  end.

(** The connection settings: the defaults, overridden by what is set; a port
    that is not a number leaves the default. *)
Definition main_dbCfg (getenv : string -> string) : Config :=
  let d := DefaultConfig in
  mkConfig (envOrDefault getenv "VERION_DB_HOST" (cfg_Host d))
    (envOrDefault getenv "VERION_DB_NAME" (cfg_Database d))
    (envOrDefault getenv "VERION_DB_USER" (cfg_User d))
    (envOrDefault getenv "VERION_DB_PASSWORD" (cfg_Password d))
    (envOrDefault getenv "VERION_DB_SSLMODE" (cfg_SSLMode d))
    (default (cfg_Port d) (Atoi (getenv "VERION_DB_PORT")))
    (cfg_MaxOpenConns d) (cfg_MaxIdleConns d) (cfg_ConnMaxLifetime d).
