(* ===== verification/MainFacts.v ===== *)
(** * MainFacts: the configuration *)

From Stdlib Require Import ZArith Lia Ascii String.
From stdpp Require Import base list strings numbers pretty.
From S2P Require Import Prelude Bytes Errors Model Repository World Schema Postgres Crypto Argon2.
From S2P Require Import Jwt Main.
Open Scope string_scope.
Open Scope Z_scope.

(** The characters that are digits, and a text with the digits in lower case. *)
Definition is_hex (c : ascii) : bool := 0 <=? hexNibble c.
Fixpoint all_hex (s : string) : bool :=
  match s with
  | EmptyString => true
  | String c s => is_hex c && all_hex s
  end.
Fixpoint lower (s : string) : string :=
  match s with
  | EmptyString => EmptyString
  | String c s => String (hex_digit (hexNibble c)) (lower s)
  end.

Lemma hexNibble_range c : -1 <= hexNibble c < 16.
Proof. unfold hexNibble. repeat case_match; rewrite ?andb_true_iff, ?Z.leb_le in *; lia. Qed.
Lemma is_hex_true c : is_hex c = true -> 0 <= hexNibble c < 16.
Proof. unfold is_hex. rewrite Z.leb_le. pose proof (hexNibble_range c). lia. Qed.

(** Two digits make one byte, whose digits they are. *)
Lemma lor_digits hi lo : 0 <= hi < 16 -> 0 <= lo < 16 -> Z.lor (Z.shiftl hi 4) lo = 16 * hi + lo.
Proof.
  intros Hh Hl. assert (forall z, 0 <= z < 16 -> z ∈ seqZ 0 16) as Hin by (intros; apply elem_of_seqZ; lia).
  apply Hin in Hh, Hl. revert lo Hl. revert hi Hh.
  assert (Forall (fun hi => Forall (fun lo => Z.lor (Z.shiftl hi 4) lo = 16 * hi + lo) (seqZ 0 16))
    (seqZ 0 16)) as H by (vm_compute; repeat constructor).
  intros hi Hh lo Hl. rewrite list.Forall_forall in H. specialize (H hi Hh).
  by rewrite list.Forall_forall in H; apply H.
Qed.

Lemma hex_cons_digits hi lo b : 0 <= hi < 16 -> 0 <= lo < 16 ->
  hex (byte_of_Z (Z.lor (Z.shiftl hi 4) lo) :: b) = String (hex_digit hi) (String (hex_digit lo) (hex b)).
Proof.
  intros Hh Hl. simpl. rewrite lor_digits, byte_to_of_Z by lia.
  replace ((16 * hi + lo) / 16) with hi by (apply Z.div_unique with lo; lia).
  by replace ((16 * hi + lo) mod 16) with lo by (apply Z.mod_unique with hi; lia).
Qed.


(** What the loop returns on a text of an even length: its bytes, or the first
    pair that is not made of digits. *)
Lemma decode_from_spec n i s : String.length s = (2 * n)%nat ->
  match decode_from i s with
  | inr b => all_hex s = true /\ List.length b = n /\ hex b = lower s
  | inl e => exists pre h l post, s = pre +:+ String h (String l post) /\ all_hex pre = true /\
      is_hex h && is_hex l = false /\
      e = ENew ("invalid hex character at position " +:+ pretty (2 * i + String.length pre)%nat)
  end.
Proof.
  revert i s. induction n as [|n IH]; intros i s Hlen.
  { destruct s; [|discriminate]. by split_and!. }
  destruct s as [|h [|l s]]; [discriminate|simpl in Hlen; lia|]. simpl decode_from. simpl in Hlen.
  pose proof (hexNibble_range h). pose proof (hexNibble_range l).
  destruct (_ || _) eqn:Hbad.
  - exists "", h, l, s. split; [done|]. split; [done|]. unfold is_hex. split.
    + apply andb_false_iff. rewrite !Z.leb_gt. apply orb_true_iff in Hbad as [?%Z.ltb_lt|?%Z.ltb_lt]; auto.
    + do 3 f_equal. simpl. lia.
  - apply orb_false_iff in Hbad as [Hh%Z.ltb_ge Hl%Z.ltb_ge].
    assert (is_hex h = true) as Hih by by apply Z.leb_le.
    assert (is_hex l = true) as Hil by by apply Z.leb_le.
    specialize (IH (S i) s ltac:(lia)). destruct (decode_from (S i) s) as [e|b].
    + destruct IH as (pre & h' & l' & post & -> & Hpre & Hbad & ->).
      exists (String h (String l pre)), h', l', post. simpl. rewrite Hih, Hil. split_and!; try done.
      do 3 f_equal. simpl. lia.
    + destruct IH as (Ha & Hb & Hx). rewrite hex_cons_digits by lia. simpl. rewrite Hih, Hil, Hb, Hx.
      by split_and!.
Qed.

Lemma decodeHexKey_length s b : decodeHexKey s = inr b -> List.length b = 32%nat.
Proof.
  unfold decodeHexKey. destruct (Nat.eqb_spec (String.length s) 64) as [Hl|]; [|discriminate].
  simpl. intros Hd. pose proof (decode_from_spec 32 0 s Hl) as H. rewrite Hd in H. apply H.
Qed.


(** The configuration that main builds is one that the services can use:
    the master key has the 32 bytes that AES-256 asks for, the Argon2
    parameters are in the domain of the key derivation, and the connection
    settings are the defaults where the environment sets nothing.  Without a
    master key, or with a malformed one, main stops. *)
Theorem configuration_is_usable getenv :
  match main_CryptoConfig getenv with
  | inr cfg => decodeHexKey (getenv "VERION_MASTER_KEY") = inr (MasterKey cfg) /\
      List.length (MasterKey cfg) = 32%nat /\
      1 <= Argon2Time cfg < 2 ^ 32 /\ 0 <= Argon2Memory cfg < 2 ^ 32 /\
      1 <= Argon2Threads cfg < 2 ^ 8 /\ 1 <= Argon2KeyLen cfg < 2 ^ 32
  | inl e => getenv "VERION_MASTER_KEY" = "" \/
      exists e', decodeHexKey (getenv "VERION_MASTER_KEY") = inl e' /\ e = EWrap "VERION_MASTER_KEY" e'
  end /\
  main_dbCfg (fun _ => "") = DefaultConfig /\
  (Atoi (getenv "VERION_DB_PORT") = None -> cfg_Port (main_dbCfg getenv) = 5432).
Proof.
  split; [|split; [reflexivity|by unfold main_dbCfg; intros ->]].
  unfold main_CryptoConfig. destruct (String.eqb_spec (getenv "VERION_MASTER_KEY") "") as [He|_];
    [by left|].
  destruct (decodeHexKey _) as [e|b] eqn:Hd.
  - right. by exists e.
  - simpl. apply decodeHexKey_length in Hd as Hl. by split_and!.
Qed.
