(* ===== verification/WebAuthn.v ===== *)
(** * WebAuthn: [internal/auth/webauthn.go]

    Registration and login with passkeys.  The library go-webauthn is an
    argument ([WebAuthnLib]): its ceremonies are actions, as they draw random
    challenges, and its session data have an abstract type.  The HTTP request
    that carries the browser's answer is passed through to it. *)

From Stdlib Require Import ZArith Lia Ascii String.
From stdpp Require Import base list strings numbers gmap.
From S2P Require Import Prelude Bytes Errors Model Repository World IdentityService Crypto Store.
Open Scope string_scope.
Open Scope Z_scope.

(** [webauthn.Credential], with the fields the sources read or set. *)
Record wCredential := mkWCredential {
  wc_ID : slice; wc_PublicKey : slice; wc_AttestationType : string;
  wc_AAGUID : slice; wc_SignCount : Z }.

(** The user the library sees, through the methods of [webauthn.User]. *)
Record verionUser := mkVerionUser { vu_id : Identity; vu_credentials : list wCredential }.
Definition WebAuthnID (u : verionUser) : bytes := s2b (i_ID (vu_id u)).
Definition WebAuthnName (u : verionUser) : string := i_Handle (vu_id u).
Definition WebAuthnDisplayName (u : verionUser) : string := i_DisplayName (vu_id u).
Definition WebAuthnCredentials (u : verionUser) : list wCredential := vu_credentials u.
Definition WebAuthnIcon (u : verionUser) : string := "".

Record WebAuthnLib (W Req : Type) := mkWebAuthnLib {
  CredentialCreation : Type;                    (* protocol.CredentialCreation *)
  CredentialAssertion : Type;                   (* protocol.CredentialAssertion *)
  wSession : Type;                              (* webauthn.SessionData *)
  marshal_wSession : wSession -> option bytes;
  unmarshal_wSession : bytes -> option wSession;
  lib_BeginRegistration : verionUser -> M W (CredentialCreation * wSession);
  lib_FinishRegistration : verionUser -> wSession -> Req -> M W wCredential;
  lib_BeginDiscoverableLogin : M W (CredentialAssertion * wSession);
  lib_BeginLogin : verionUser -> M W (CredentialAssertion * wSession);
  lib_FinishLogin : verionUser -> wSession -> Req -> M W wCredential }.
Arguments CredentialCreation {W Req}. Arguments CredentialAssertion {W Req}.
Arguments wSession {W Req}. Arguments marshal_wSession {W Req}.
Arguments unmarshal_wSession {W Req}. Arguments lib_BeginRegistration {W Req}.
Arguments lib_FinishRegistration {W Req}. Arguments lib_BeginDiscoverableLogin {W Req}.
Arguments lib_BeginLogin {W Req}. Arguments lib_FinishLogin {W Req}.

Definition challengeTTL : Z := 5 * 60 * second.

(** The conversion [uint32(n)] of an int64. *)
Definition uint32 (n : Z) : Z := n mod 2 ^ 32.

(** ** User adapter *)

Definition domainCredToWebAuthn (c : Credential) : wCredential :=
  mkWCredential (c_CredentialID c) (c_Data c) "none" (Some []) (uint32 (c_SignCount c)).

Definition newVerionUser (id : Identity) (creds : list Credential) : verionUser :=
  mkVerionUser id
    ((fun c => mkWCredential (c_CredentialID c) None "" None 0) <$> creds).

Definition newVerionUserWithCreds (id : Identity) (creds : list Credential) : verionUser :=
  mkVerionUser id (domainCredToWebAuthn <$> creds).

(** The filter on the types of credential. *)
Definition passkeys (allCreds : list Credential) : list Credential :=
  List.filter (fun c => String.eqb (c_Type c) CredentialTypePasskey ||
                        String.eqb (c_Type c) CredentialTypeHardwareToken) allCreds.

(** The search for the credential with an ID: the first one. *)
Definition findCredential (ID : slice) (creds : list Credential) : option Credential :=
  List.find (fun c => bool_decide (slice_bytes (c_CredentialID c) = slice_bytes ID)) creds.

Record FinishRegistrationResult := mkFinishRegistrationResult {
  frr_Credential : Credential; frr_IdentityID : string; frr_Handle : string; frr_Type : string }.

Section service.
Context {W Req : Type} (lib : WebAuthnLib W Req) (client : RedisClient W).
Context (repos : Repositories W) (crypto : CryptoService W) (sys : Sys W) (p : Prims) (json : Codec).
Local Open Scope prog_scope.

Definition generateChallengeID : M W string :=
  let* b := mapErr (EWrap "generate challenge id") (RandRead sys 16) in
  ret (hex b).

(** Both Begin operations end with storing the library's session under a fresh
    challenge identifier. *)
Definition storeSession (marshal_op store_op : string) (session : wSession lib) : M W string :=
  match marshal_wSession lib session with
  | None => throw (EWrap marshal_op (ENew "json: unsupported value"))
  | Some sessionBytes =>
    let* sessionID := generateChallengeID in
    mapErr (EWrap store_op) (SetChallenge client sessionID sessionBytes challengeTTL) ;;;
    ret sessionID
  end.

(** Both Finish operations take the stored session back. *)
Definition takeSession (get_op unmarshal_op sessionID : string) : M W (wSession lib) :=
  let* sessionBytes := mapErr (EWrap get_op) (GetChallenge client sessionID) in
  match unmarshal_wSession lib sessionBytes with
  | None => throw (EWrap unmarshal_op (ENew "json: cannot unmarshal"))
  | Some session => ret session
  end.

Definition BeginRegistration (tenantID identityID : string)
  : M W (CredentialCreation lib * string) :=
  let* id := mapErr (EWrap "webauthn: begin registration")
               (GetIdentity repos crypto json tenantID identityID) in
  if negb (Identity_IsActive id) then throw (ESentinel ErrIdentityInactive) else
  let* existingCreds := mapErr (EWrap "webauthn: list credentials")
    (Credentials_ListByIdentity (Credentials repos) tenantID identityID None) in
  let user := newVerionUser id existingCreds in
  let* (creation, session) := mapErr (EWrap "webauthn: begin registration")
                                (lib_BeginRegistration lib user) in
  let* sessionID := storeSession "webauthn: marshal session" "webauthn: store challenge" session in
  ret (creation, sessionID).

(** The rows that a registration inserts. *)
Definition registeredKey (tenantID identityID : string) (credential : wCredential) : IdentityKey :=
  let fingerprint := hex (sha256_Sum256 p (slice_bytes (wc_PublicKey credential))) in
  mkIdentityKey "" identityID tenantID KeyTypeECDSAP256 KeyPurposeAuthentication "ES256"
    (wc_PublicKey credential) None "" fingerprint KeyStatusActive 0 None None None 0.
Definition registeredCredential (tenantID identityID keyID : string) (credential : wCredential)
  : Credential :=
  mkCredential "" identityID tenantID (Some keyID) CredentialTypePasskey CredentialStatusActive
    (wc_PublicKey credential) None (Some (hex (slice_bytes (wc_AAGUID credential))))
    (wc_ID credential) (wc_SignCount credential) (Some "Passkey") None None 0 None.

Definition FinishRegistration (tenantID identityID sessionID : string) (r : Req)
  : M W FinishRegistrationResult :=
  let* id := mapErr (EWrap "webauthn: finish: load identity")
               (GetIdentity repos crypto json tenantID identityID) in
  let* existingCreds := mapErr (EWrap "webauthn: finish: list credentials")
    (Credentials_ListByIdentity (Credentials repos) tenantID identityID None) in
  let user := newVerionUser id existingCreds in
  let* session := takeSession "webauthn: finish: get challenge"
                    "webauthn: finish: unmarshal session" sessionID in
  let* credential := mapErr (EWrap "webauthn: finish: verification failed")
                       (lib_FinishRegistration lib user session r) in
  let* createdKey := mapErr (EWrap "webauthn: finish: create key")
    (Keys_Create (Keys repos) (registeredKey tenantID identityID credential)) in
  (match i_PrimaryKeyID id with
   | None => mapErr (EWrap "webauthn: finish: set primary key")
       (Identities_SetPrimaryKey (Identities repos) tenantID identityID (k_ID createdKey))
   | Some _ => ret tt
   end) ;;;
  let* createdCred := mapErr (EWrap "webauthn: finish: create credential")
    (Credentials_Create (Credentials repos)
       (registeredCredential tenantID identityID (k_ID createdKey) credential)) in
  ignore (Audit_Insert (Audit repos)
    (auditEvent tenantID AuditEventCredentialCreated "credential" (c_ID createdCred)
       (Some identityID) true)) ;;;
  ret (mkFinishRegistrationResult createdCred identityID (i_Handle id) (i_Type id)).

(** The identity that logs in, and its passkeys. *)
Definition loadPasskeys (op list_op tenantID handle : string) : M W (Identity * list Credential) :=
  let* id := mapErr (EWrap op) (GetIdentityByHandle repos crypto json tenantID handle) in
  if negb (Identity_IsActive id) then throw (ESentinel ErrIdentityInactive) else
  let* allCreds := mapErr (EWrap list_op)
    (Credentials_ListByIdentity (Credentials repos) tenantID (i_ID id)
       (Some CredentialStatusActive)) in
  ret (id, passkeys allCreds).

Definition BeginAssertion (tenantID handle : string) : M W (CredentialAssertion lib * string) :=
  let* (id, passkeyCreds) := loadPasskeys "webauthn: begin assertion"
                               "webauthn: begin assertion: list" tenantID handle in
  let user := newVerionUserWithCreds id passkeyCreds in
  let* (assertion, session) := mapErr (EWrap "webauthn: begin assertion")
    (if Nat.eqb (List.length passkeyCreds) 0 then lib_BeginDiscoverableLogin lib
     else lib_BeginLogin lib user) in
  let* sessionID := storeSession "webauthn: begin assertion: marshal"
                      "webauthn: begin assertion: store" session in
  ret (assertion, sessionID).

(** The audit event of a login, whose error is dropped. *)
Definition auditLogin (tenantID : string) (id : Identity) (EventType : string) (Success : bool)
  : M W unit :=
  ignore (Audit_Insert (Audit repos)
    (auditEvent tenantID EventType "identity" (i_ID id) (Some (i_ID id)) Success)).

Definition FinishAssertion (tenantID handle sessionID : string) (r : Req) : M W Identity :=
  let* (id, passkeyCreds) := loadPasskeys "webauthn: finish assertion"
                               "webauthn: finish assertion: list" tenantID handle in
  let user := newVerionUserWithCreds id passkeyCreds in
  let* session := takeSession "webauthn: finish assertion: get challenge"
                    "webauthn: finish assertion: unmarshal" sessionID in
  let* result := try (lib_FinishLogin lib user session r) in
  match result with
  | inl err =>
    auditLogin tenantID id AuditEventAuthFailure false ;;;
    throw (EWrap "webauthn: finish assertion: verify" err)
  | inr credential =>
    let newCount := wc_SignCount credential in
    let storedCred := findCredential (wc_ID credential) passkeyCreds in
    match storedCred with
    | Some stored =>
      if negb (newCount =? 0) && (newCount <=? uint32 (c_SignCount stored)) then
        auditLogin tenantID id AuditEventAuthFailure false ;;;
        throw (ESentinel ErrCloneDetected)
      else
        ignore (Credentials_UpdateSignCount (Credentials repos) tenantID (c_ID stored) newCount) ;;;
        let* now := Now sys in
        ignore (Credentials_UpdateLastUsed (Credentials repos) tenantID (c_ID stored) now) ;;;
        auditLogin tenantID id AuditEventAuthSuccess true ;;;
        ret id
    | None =>
      auditLogin tenantID id AuditEventAuthSuccess true ;;;
      ret id
    end
  end.
End service.
