(* ===== verification/WebAuthnFacts.v ===== *)
(** * WebAuthnFacts: passkey registration and login *)

From Stdlib Require Import ZArith Lia Ascii String.
From stdpp Require Import base list strings numbers gmap.
From S2P Require Import Prelude Bytes Errors Model Repository World Schema Postgres IdentityService.
From S2P Require Import Crypto Argon2 SchemaFacts StatementFacts Guarantees Integrity Runs System.
From S2P Require Import Demo Store StoreFacts WebAuthn.
Open Scope string_scope.
Open Scope Z_scope.

(** The ceremonies of the library work on their arguments and on random bytes. *)
Class LibSteps {X Req} (lib : WebAuthnLib (World X) Req) : Prop := {
  ls_BeginRegistration u : steps_in (db_steps eq) (lib_BeginRegistration lib u);
  ls_FinishRegistration u s r : steps_in (db_steps eq) (lib_FinishRegistration lib u s r);
  ls_BeginDiscoverableLogin : steps_in (db_steps eq) (lib_BeginDiscoverableLogin lib);
  ls_BeginLogin u : steps_in (db_steps eq) (lib_BeginLogin lib u);
  ls_FinishLogin u s r : steps_in (db_steps eq) (lib_FinishLogin lib u s r) }.

Section webauthn.
Context {X Req : Type} (env : Env) (p : Prims) (IDKey : idkey) (json : Codec) (cfg : CryptoConfig).
Context (lib : WebAuthnLib (World X) Req) (client : RedisClient (World X)).
Implicit Types w : World X.
Abbreviation repos := (repos (X:=X) env json).
Abbreviation crypto := (cryptoSvc (X:=X) env p IDKey json cfg).
Abbreviation sys := (sys (X:=X) env).
Abbreviation FinishAssertion := (FinishAssertion lib client repos crypto sys json).
Abbreviation FinishRegistration := (FinishRegistration lib client repos crypto p json).

(** ** Login *)

Section once.
Context (content : X -> rcontent) (rclock : nat -> time) (fault : nat -> bool).
Context `{!RedisOk client content rclock fault, !LibSteps lib}.

Lemma db_steps_spends G id w w' :
  db_steps G w w' -> spends (fun _ => True) (stored content id) w w'.
Proof. intros (_ & Hx & _) _. split; [done|]. unfold stored. by rewrite Hx. Qed.

Lemma spends_db {A} G id (m : prog (World X) A) :
  steps_in (db_steps G) m -> steps_in (spends (fun _ => True) (stored content id)) m.
Proof. apply steps_in_mono. intros w w'. apply db_steps_spends. Qed.

Lemma auditLogin_steps t i ty ok : steps_in (db_steps (evolves env)) (auditLogin repos t i ty ok).
Proof.
  apply steps_in_ignore.
  apply (rs_Audit_Insert (repos:=repos) (scope:=fun _ => True)). done.
Qed.

Lemma loadPasskeys_steps op lop t h :
  steps_in (db_steps (evolves env)) (loadPasskeys repos crypto json op lop t h).
Proof.
  unfold loadPasskeys. apply steps_in_bind.
  - apply steps_in_mapErr. apply (GetIdentityByHandle_steps _ (fun _ => True)); apply _.
  - intros id. case_match; [steps_walk|]. apply steps_in_bind; [|steps_walk].
    apply steps_in_mapErr. apply (rs_Credentials_ListByIdentity (repos:=repos) (scope:=fun _ => True)).
Qed.

Lemma FinishAssertion_spends id t h sid r :
  steps_in (spends (fun _ => True) (stored content id)) (FinishAssertion t h sid r).
Proof.
  unfold WebAuthn.FinishAssertion.
  apply steps_in_bind; [eapply spends_db, loadPasskeys_steps|intros [i creds]].
  apply steps_in_bind.
  { unfold takeSession. apply steps_in_bind; [|intros b; case_match; steps_walk].
    apply steps_in_mapErr. by apply (GetChallenge_spends client content rclock fault). }
  intros s. apply steps_in_bind; [eapply spends_db, steps_in_try, ls_FinishLogin|].
  assert (forall ty ok A (k : M (World X) A), steps_in (spends (fun _ => True) (stored content id)) k ->
    steps_in (spends (fun _ => True) (stored content id)) (bind (auditLogin repos t i ty ok) (fun _ => k)))
    as Haudit.
  { intros. apply steps_in_bind; [eapply spends_db, auditLogin_steps|done]. }
  intros [e|cred]; [apply Haudit; steps_walk|].
  case_match; [|apply Haudit; steps_walk]. case_match; [apply Haudit; steps_walk|].
  apply steps_in_bind.
  { eapply spends_db, steps_in_ignore.
    by apply (rs_Credentials_UpdateSignCount (G:=db_steps (evolves env)) (repos:=repos) (scope:=fun _ => True)). }
  intros _. apply steps_in_bind; [eapply spends_db, (time_Now_steps env eq)|intros now].
  apply steps_in_bind; [|intros _; apply Haudit; steps_walk].
  eapply spends_db, steps_in_ignore.
  by apply (rs_Credentials_UpdateLastUsed (G:=db_steps (evolves env)) (repos:=repos) (scope:=fun _ => True)).
Qed.

Lemma FinishAssertion_disarms t h sid r :
  must_disarm (fun _ => True) (stored content sid) is_ok (FinishAssertion t h sid r).
Proof.
  unfold WebAuthn.FinishAssertion. apply must_disarm_later. intros [i creds].
  apply must_disarm_here. unfold takeSession. apply must_disarm_here, must_disarm_mapErr.
  by apply (GetChallenge_disarms client content rclock fault).
Qed.

(** C7. A login answer works once: of any number of logins running concurrently,
    two that present the same challenge cannot both succeed, whichever
    identities and tenants they are for, in any interleaving of their database
    and Redis commands and whatever commands fail. *)
Theorem login_challenge_used_once (logins : list (string * string * string * Req)) sched w
    i j t h t' h' sid r r' a b :
  i <> j -> logins !! i = Some (t, h, sid, r) -> logins !! j = Some (t', h', sid, r') ->
  let ps := (fun '(t, h, sid, r) => FinishAssertion t h sid r) <$> logins in
  let ps' := snd (run_sched sched w ps) in
  ~ (ps' !! i = Some (Ret (Ok a)) /\ ps' !! j = Some (Ret (Ok b))).
Proof.
  intros Hij Hi Hj ps ps' [Ha Hb]. destruct (run_sched_steps sched w ps) as [tr Htr].
  eapply (one_winner (fun _ => True) (stored content sid) is_ok);
    [exact Htr| |done|exact Hij| | | | |exact Ha|exact Hb|by split; eexists].
  - apply Forall_fmap, list.Forall_true. intros [[[t1 h1] sid1] r1]. apply FinishAssertion_spends.
  - unfold ps. by rewrite list_lookup_fmap, Hi.
  - apply FinishAssertion_disarms.
  - unfold ps. by rewrite list_lookup_fmap, Hj.
  - apply FinishAssertion_disarms.
Qed.
End once.

(** ** Registration *)

Lemma KeyRepo_Create_without_jwk k :
  k_PublicKeyJWK k = None ->
  must_disarm (fun _ => True) (fun _ => false) is_ok (KeyRepo_Create (X:=X) env k).
Proof.
  intros Hk. unfold KeyRepo_Create, withTenantConn.
  do 2 (apply must_disarm_later; intros _). apply must_disarm_mapErr, must_disarm_here.
  intros w _. right. simpl. destruct (pg_fault _ _); [by intros [? [=]]|].
  destruct (sqlKeyInsert env k (w_tick w) (w_db w)) as [e|[db' row]] eqn:Hr; [by intros [? [=]]|].
  exfalso. unfold sqlKeyInsert in Hr. rewrite Hk in Hr. stmt_inv Hr. stmt_checks. simplify_eq/=.
Qed.

(** A passkey registration never succeeds: FinishRegistration inserts a key
    without a JWK, which the column public_key_jwk refuses, so that whatever
    the library answers, in any world and any interleaving with other programs,
    it does not return a result. *)
Theorem registration_never_succeeds sched w ps i t id sid r result :
  ps !! i = Some (FinishRegistration t id sid r) ->
  snd (run_sched sched w ps) !! i <> Some (Ret (Ok result)).
Proof.
  intros Hi Hr. destruct (run_sched_steps sched w ps) as [tr Htr].
  eapply (disarmed_no_winner (fun _ => True) (fun _ => false) is_ok);
    [exact Htr| |done|done|exact Hi| |exact Hr|by eexists].
  - apply list.Forall_true. intros q. by apply steps_in_any.
  - unfold WebAuthn.FinishRegistration. do 4 (apply must_disarm_later; intros ?).
    apply must_disarm_here, must_disarm_mapErr. by apply KeyRepo_Create_without_jwk.
Qed.

(** ** Signature counters *)

Section counter.
Context `{!Reliable env}.

Lemma auditLogin_credentials t i ty ok w :
  exists w', exec (auditLogin repos t i ty ok) w = (w', Ok tt) /\
    db_credentials (w_db w') = db_credentials (w_db w).
Proof.
  unfold auditLogin. rewrite exec_ignore. simpl Audit_Insert.
  unfold AuditRepo_Insert. rewrite (exec_withTenantConn env). unfold insertConn, insert_event.
  simpl IsZero. rewrite !exec_bind, (exec_time_Now env), exec_ret. rewrite exec_bind.
  unfold Returning. rewrite (exec_pg_command env).
  destruct (sqlAuditInsert _ _ _ _) as [e|[db' u]] eqn:Ha; [by eexists|].
  rewrite exec_ret. eexists. split; [done|]. unfold sqlAuditInsert in Ha. stmt_inv Ha. stmt_checks.
  by world_simpl.
Qed.

(** The outcome of updating one credential. *)
Lemma exec_update_credential f t T id c w :
  uuid_in env t = Some T -> uuid_in env id = Some id -> find_credential (w_db w) T id = Some c ->
  exec (Exec env (update_credential env f t id)) w =
  (ticks 1 (set_db (set_credentials (<[id := f c]> (db_credentials (w_db w))) (w_db w)) w), Ok tt).
Proof.
  intros Ht Hid Hc. unfold Exec. rewrite (exec_pg_command env).
  unfold update_credential, uuid_col. rewrite Hid, Ht. simpl. by rewrite Hc.
Qed.

(** C31. The signature counter.  When the library has verified a login against
    one of the identity's stored passkeys, the login is refused with
    ErrCloneDetected, and the stored passkeys stay as they are, exactly if the
    authenticator's counter is non-zero and not above the stored one; otherwise
    the login succeeds and the stored counter becomes the authenticator's.  So a
    counter of zero is always accepted, and resets a stored counter that was
    not. *)
Theorem login_counter t T h sid r w w1 w2 w3 i creds s cred stored row :
  exec (loadPasskeys repos crypto json "webauthn: finish assertion"
          "webauthn: finish assertion: list" t h) w = (w1, Ok (i, creds)) ->
  exec (takeSession lib client "webauthn: finish assertion: get challenge"
          "webauthn: finish assertion: unmarshal" sid) w1 = (w2, Ok s) ->
  exec (lib_FinishLogin lib (newVerionUserWithCreds i creds) s r) w2 = (w3, Ok cred) ->
  findCredential (wc_ID cred) creds = Some stored ->
  uuid_in env t = Some T -> uuid_in env (c_ID stored) = Some (c_ID stored) ->
  find_credential (w_db w3) T (c_ID stored) = Some row ->
  let newCount := wc_SignCount cred in
  exists w' used_at,
  if negb (newCount =? 0) && (newCount <=? uint32 (c_SignCount stored))
  then exec (FinishAssertion t h sid r) w = (w', Err (ESentinel ErrCloneDetected)) /\
       db_credentials (w_db w') = db_credentials (w_db w3)
  else exec (FinishAssertion t h sid r) w = (w', Ok i) /\
       db_credentials (w_db w') =
         <[c_ID stored := set_last_used used_at (set_sign_count newCount row)]>
           (db_credentials (w_db w3)).
Proof.
  intros Hl Hs Hf Hfind HT Hid Hrow newCount. unfold WebAuthn.FinishAssertion.
  rewrite exec_bind, Hl. cbv iota beta. rewrite exec_bind, Hs. cbv iota beta.
  rewrite exec_bind, exec_try, Hf. cbv iota beta. rewrite Hfind. fold newCount.
  destruct (_ && _).
  - rewrite exec_bind. destruct (auditLogin_credentials t i AuditEventAuthFailure false w3) as (w' & -> & Hc).
    exists w', 0. split; [done|exact Hc].
  - rewrite exec_bind, exec_ignore. simpl Credentials_UpdateSignCount.
    unfold CredentialRepo_UpdateSignCount. rewrite exec_mapErr.
    rewrite (exec_update_credential _ t T _ row) by done. cbv iota beta.
    rewrite exec_bind. simpl Now. rewrite (exec_time_Now env). cbv iota beta.
    rewrite exec_bind, exec_ignore. simpl Credentials_UpdateLastUsed.
    unfold CredentialRepo_UpdateLastUsed. rewrite exec_mapErr.
    rewrite (exec_update_credential _ t T _ (set_sign_count newCount row)); [|done..|].
    + cbv iota beta. rewrite exec_bind.
      match goal with |- context [exec (auditLogin _ _ _ _ _) ?v] =>
        destruct (auditLogin_credentials t i AuditEventAuthSuccess true v) as (w' & -> & Hc) end.
      eexists w', _. split; [done|]. rewrite Hc. world_simpl. simpl. by rewrite insert_insert_eq.
    + world_simpl. unfold find_credential in *. simpl. rewrite lookup_insert_eq. simpl.
      destruct (_ !! c_ID stored) as [c|]; [|done]. destruct (String.eqb (c_TenantID c) T) eqn:E; [|done].
      injection Hrow as ->. by rewrite E.
Qed.
End counter.
End webauthn.

(** ** A concrete library: the browser's answer is the authenticator's counter *)

Definition demo_lib : WebAuthnLib (World rcontent) Z :=
  mkWebAuthnLib _ _ unit unit bytes Some Some
    (fun _ => ret (tt, [])) (fun _ _ n => ret (mkWCredential (Some [Byte.x07]) (Some [Byte.x08]) "none" (Some []) n))
    (ret (tt, [])) (fun _ => ret (tt, []))
    (fun u _ n => match WebAuthnCredentials u with
                  | c :: _ => ret (mkWCredential (wc_ID c) (wc_PublicKey c) "none" (Some []) n)
                  | [] => throw (ENew "no credential")
                  end).
#[export] Instance demo_lib_steps : LibSteps demo_lib.
Proof. split; intros; simpl; try apply steps_in_ret. case_match; steps_walk. Qed.

Definition demo_passkey (count : Z) : Credential :=
  mkCredential "c1" "alice" "t1" (Some "k1") "passkey" "active" (Some [Byte.x08]) (Some []) None
    (Some [Byte.x07]) count None None None demo_epoch None.
Definition demo_login_world (count : Z) : World rcontent :=
  mkWorld (set_credentials {["c1" := demo_passkey count]} (demo_db "active" "active")) ∅ 0
    with_challenge.
Definition demo_FinishAssertion (h sid : string) (n : Z) : M (World rcontent) Identity :=
  FinishAssertion demo_lib redis1 (repos demo_env demo_json)
    (cryptoSvc demo_env demo_prims demo_IDKey demo_json demo_cfg) (sys demo_env) demo_json "t1" h sid n.

(** A counter of 3 is a clone when 5 is stored, and 0 is not. *)
Lemma login_counter_witness :
  (exists w', exec (demo_FinishAssertion "alice" "c" 3) (demo_login_world 5) =
     (w', Err (ESentinel ErrCloneDetected))) /\
  (exists w' i, exec (demo_FinishAssertion "alice" "c" 0) (demo_login_world 5) = (w', Ok i) /\
     (c_SignCount <$> db_credentials (w_db w') !! "c1") = Some 0).
Proof.
  split.
  - edestruct (login_counter (X:=rcontent) demo_env demo_prims demo_IDKey demo_json demo_cfg demo_lib
      redis1 "t1" "t1" "alice" "c" 3 (demo_login_world 5)) as (w' & used & He);
      [vm_compute; reflexivity..|]. destruct He as [He _]. exists w'. exact He.
  - edestruct (login_counter (X:=rcontent) demo_env demo_prims demo_IDKey demo_json demo_cfg demo_lib
      redis1 "t1" "t1" "alice" "c" 0 (demo_login_world 5)) as (w' & used & He);
      [vm_compute; reflexivity..|]. destruct He as [He Hc]. eexists w', _. split; [exact He|].
    rewrite Hc. reflexivity.
Defined.

Lemma login_challenge_used_once_witness :
  let ps' := snd (run_sched [0; 1; 0; 1; 0; 1; 0; 1; 0; 1; 0; 1; 0; 1; 0; 1]%nat (demo_login_world 5)
    ((fun '(t, h, sid, r) => FinishAssertion demo_lib redis1 (repos demo_env demo_json)
        (cryptoSvc demo_env demo_prims demo_IDKey demo_json demo_cfg) (sys demo_env) demo_json t h sid r)
     <$> [("t1", "alice", "c", 6); ("t1", "alice", "c", 7)])) in
  ~ (exists a b, ps' !! 0%nat = Some (Ret (Ok a)) /\ ps' !! 1%nat = Some (Ret (Ok b))).
Proof.
  intros ps' (a & b & Hab). revert Hab.
  exact (login_challenge_used_once (X:=rcontent) demo_env demo_prims demo_IDKey demo_json demo_cfg
    demo_lib redis1 id ticking (fun _ => false) [("t1", "alice", "c", 6); ("t1", "alice", "c", 7)]
    _ (demo_login_world 5) 0 1 _ _ _ _ _ _ _ a b ltac:(discriminate) eq_refl eq_refl).
Defined.

Lemma registration_never_succeeds_witness :
  let p := FinishRegistration demo_lib redis1 (repos demo_env demo_json)
    (cryptoSvc demo_env demo_prims demo_IDKey demo_json demo_cfg) demo_prims demo_json
    "t1" "alice" "c" 1 in
  ~ exists res, snd (run_sched (replicate 40 0%nat) (demo_login_world 5) [p]) !! 0%nat = Some (Ret (Ok res)).
Proof.
  intros p [res H]. revert H. by eapply (registration_never_succeeds (X:=rcontent) demo_env demo_prims demo_IDKey
    demo_json demo_cfg demo_lib redis1 _ _ [p] 0 "t1" "alice" "c" 1).
Defined.
