(* ===== verification/Http.v ===== *)
(** * Http: [internal/transport/http]

    The REST gateway: the routes, the middleware, the handlers and the mapping
    of errors to statuses.  A handler works on a response writer, which it may
    have written to before it panics and which collects what the gateway logs.
    A request carries its context: its id and the claims of its token.  Its path is
    given by its segments, as [http.ServeMux] matches them once the path is in
    canonical form (it redirects a client that sent any other).  The decoding of
    request bodies, the encoding of response bodies and the WebAuthn library are
    arguments. *)

From Stdlib Require Import ZArith Lia Ascii String.
From stdpp Require Import base list strings numbers gmap pretty.
From S2P Require Import Prelude Bytes Errors Model Repository World TenantService IdentityService.
From S2P Require Import KeyService Crypto Store Jwt Grpc WebAuthn.
Open Scope string_scope.
Open Scope Z_scope.

(** ** Requests and responses *)

Abbreviation header := (gmap string string).

(** The values of the context: [requestIDKey] and [claimsKey]. *)
Record ReqContext := mkReqContext {
  ctx_RequestID : option string; ctx_Claims : option Claims }.
Definition Background : ReqContext := mkReqContext None None.

Record Request := mkRequest {
  r_Method : string; r_Path : list string; r_Query : list (string * string);
  r_Header : header; r_Body : bytes; r_RemoteAddr : string; r_Context : ReqContext }.

(** [r.WithContext(ctx)]. *)
Definition WithContext (ctx : ReqContext) (r : Request) : Request :=
  mkRequest (r_Method r) (r_Path r) (r_Query r) (r_Header r) (r_Body r) (r_RemoteAddr r) ctx.
(** [context.WithValue] for the two keys. *)
Definition WithRequestID (id : string) (ctx : ReqContext) : ReqContext :=
  mkReqContext (Some id) (ctx_Claims ctx).
Definition WithClaims (claims : Claims) (ctx : ReqContext) : ReqContext :=
  mkReqContext (ctx_RequestID ctx) (Some claims).

Definition RequestIDFromContext (ctx : ReqContext) : string := default "" (ctx_RequestID ctx).
Definition ClaimsFromContext (ctx : ReqContext) : option Claims := ctx_Claims ctx.

(** [r.URL.Path]. *)
Definition URL_Path (r : Request) : string :=
  String.concat "" ((fun s => "/" +:+ s) <$> r_Path r).

(** [r.Header.Get] and [r.URL.Query().Get]: the empty string when absent. *)
Definition Header_Get (r : Request) (name : string) : string := default "" (r_Header r !! name).
Definition Query_Get (r : Request) (name : string) : string :=
  match List.find (fun kv => String.eqb kv.1 name) (r_Query r) with
  | Some kv => kv.2
  | None => ""
  end.

(** The wildcards of the matched pattern; [r.PathValue]. *)
Abbreviation pathvars := (list (string * string)).
Definition PathValue (vars : pathvars) (name : string) : string :=
  match List.find (fun kv => String.eqb kv.1 name) vars with
  | Some kv => kv.2
  | None => ""
  end.

(** What the gateway logs, at the level Info or above. *)
Inductive LogEntry :=
| LogRequest (method path : string) (status duration_ms : Z) (request_id : string)
| LogPanic (rec : string)
| LogEncodeFailed
| LogUnhandled (err : error)
| LogClone (tenant_id handle : string)
| LogLogoutFailed (session_id : string) (err : error)
| LogListFailed (identity_id : string) (err : error)
| LogRevokeFailed (session_id : string) (err : error).

(** The wrapper through which Logger learns the status. *)
Record responseWriter := mkResponseWriter { rw_status : Z; rw_written : bool }.

(** A response writer: the header map, the status line with the header it was
    sent with, the body, the wrapper inside Logger, and the log. *)
Record Writer := mkWriter {
  wr_header : header; wr_sent : option (Z * header); wr_body : bytes;
  wr_rw : option responseWriter; wr_log : list LogEntry }.
Definition newWriter : Writer := mkWriter ∅ None [] None [].

Definition Header_Set (name value : string) (wr : Writer) : Writer :=
  mkWriter (<[name := value]> (wr_header wr)) (wr_sent wr) (wr_body wr) (wr_rw wr) (wr_log wr).
Definition slog (e : LogEntry) (wr : Writer) : Writer :=
  mkWriter (wr_header wr) (wr_sent wr) (wr_body wr) (wr_rw wr) (wr_log wr ++ [e])%list.
Definition set_rw (rw : option responseWriter) (wr : Writer) : Writer :=
  mkWriter (wr_header wr) (wr_sent wr) (wr_body wr) rw (wr_log wr).
(** The library's writer: only the first status line is sent. *)
Definition sendStatus (status : Z) (wr : Writer) : Writer :=
  match wr_sent wr with
  | None => mkWriter (wr_header wr) (Some (status, wr_header wr)) (wr_body wr) (wr_rw wr) (wr_log wr)
  | Some _ => wr
  end.
(** The wrapper's method, where there is one: it notes every status. *)
Definition WriteHeader (status : Z) (wr : Writer) : Writer :=
  sendStatus status
    (match wr_rw wr with
     | Some _ => set_rw (Some (mkResponseWriter status true)) wr
     | None => wr
     end).
(** The library's: a status line that was not sent is sent past the wrapper. *)
Definition Write (b : bytes) (wr : Writer) : Writer :=
  let wr := sendStatus 200 wr in
  mkWriter (wr_header wr) (wr_sent wr) (wr_body wr ++ b)%list (wr_rw wr) (wr_log wr).

Definition StatusOK : Z := 200.
Definition StatusCreated : Z := 201.
Definition StatusNoContent : Z := 204.
Definition StatusBadRequest : Z := 400.
Definition StatusUnauthorized : Z := 401.
Definition StatusForbidden : Z := 403.
Definition StatusNotFound : Z := 404.
Definition StatusMethodNotAllowed : Z := 405.
Definition StatusConflict : Z := 409.
Definition StatusUnprocessableEntity : Z := 422.
Definition StatusInternalServerError : Z := 500.

(** The values the handlers encode; [C] and [A] are the library's options. *)
Inductive Body (C A : Type) :=
| BStrings (m : list (string * string))
| BTenant (t : Tenant)
| BIdentity (i : Identity)
| BIdentityWithKeys (r : IdentityWithKeys)
| BIdentities (l : list Identity) (total : Z)
| BKey (k : IdentityKey)
| BSessions (l : list SessionData)
| BCreation (c : C)
| BAssertion (a : A)
| BRegistered (credentialID type_ : string) (createdAt : time) (token sessionID : string)
| BLoggedIn (identityID tenantID handle token sessionID : string).
Arguments BStrings {C A}. Arguments BTenant {C A}. Arguments BIdentity {C A}.
Arguments BIdentityWithKeys {C A}. Arguments BIdentities {C A}. Arguments BKey {C A}.
Arguments BSessions {C A}. Arguments BCreation {C A}. Arguments BAssertion {C A}.
Arguments BRegistered {C A}. Arguments BLoggedIn {C A}.

(** The request bodies, as [json.NewDecoder(r.Body).Decode] fills the structs. *)
Record reqTenant := mkReqTenant {
  rt_Name : string; rt_Slug : string; rt_Tier : string; rt_DataRegion : string }.
Record reqIdentity := mkReqIdentity {
  ri_TenantID : string; ri_Type : string; ri_DisplayName : string; ri_Handle : string;
  ri_CreatedBy : string; ri_Attributes : attributes }.
Record reqUpdate := mkReqUpdate {
  ru_TenantID : string; ru_DisplayName : string; ru_Attributes : attributes;
  ru_Version : Z; ru_ActorID : string }.
Record reqKey := mkReqKey {
  rk_TenantID : string; rk_IdentityID : string; rk_KeyType : string; rk_Purpose : string;
  rk_ActorID : string }.
Record Decoders := mkDecoders {
  decode_register : bytes -> option (string * string);          (* tenant_id, identity_id *)
  decode_login : bytes -> option (string * string);             (* tenant_id, handle *)
  decode_tenant : bytes -> option reqTenant;
  decode_identity : bytes -> option reqIdentity;
  decode_update : bytes -> option reqUpdate;
  decode_actor : bytes -> option (string * string);             (* tenant_id, actor_id *)
  decode_key : bytes -> option reqKey;
  decode_rotate : bytes -> option (string * string * string) }. (* tenant, identity, actor *)

(** ** gateway.go: errors *)

(** The status and the message of [writeServiceError]. *)
Definition serviceError (err : error) : Z * string :=
  if errors_Is err ErrNotFound || errors_Is err ErrTenantNotFound ||
     errors_Is err ErrKeyNotFound || errors_Is err ErrCredentialNotFound ||
     errors_Is err ErrRecoveryNotFound
  then (StatusNotFound, Error err)
  else if errors_Is err ErrAlreadyExists || errors_Is err ErrHandleTaken ||
     errors_Is err ErrVersionConflict
  then (StatusConflict, Error err)
  else if errors_Is err ErrInvalidInput || errors_Is err ErrInvalidHandle
  then (StatusBadRequest, Error err)
  else if errors_Is err ErrIdentityTerminal || errors_Is err ErrTenantInactive ||
     errors_Is err ErrIdentityInactive || errors_Is err ErrKeyCompromised ||
     errors_Is err ErrKeyNotUsable
  then (StatusUnprocessableEntity, Error err)
  else if errors_Is err ErrUnauthorized
  then (StatusForbidden, Error err)
  else (StatusInternalServerError, "internal error").

(** ** Handlers

    A handler leaves the writer, and the message of a panic that ended it. *)
Abbreviation result := (Writer * option string)%type.
Abbreviation Handler W := (Request -> pathvars -> Writer -> prog W result).

(** [x, err := m]; a panic of [m] leaves the writer as it is. *)
Definition invoke {W A} (m : M W A) (wr : Writer) (k : error + A -> prog W result)
    : prog W result :=
  pbind m (fun o => match o with
                    | Ok a => k (inr a)
                    | Err e => k (inl e)
                    | Panic s => Ret (wr, Some s)
                    end).

Section gateway.
Context {W : Type} (repos : Repositories W) (crypto : CryptoService W) (sys : Sys W).
Context (p : Prims) (json : Codec) (cj : ClaimsCodec) (tokenSvc : TokenService).
Context (client : RedisClient W) (sj : SessionCodec) (ttl : Z).
Context (lib : WebAuthnLib W Request) (dec : Decoders).
Abbreviation Value := (Body (CredentialCreation lib) (CredentialAssertion lib)).
Context (encode_body : Value -> option bytes).

Definition writeJSON (status : Z) (v : Value) (wr : Writer) : Writer :=
  let wr := Header_Set "Content-Type" "application/json" wr in
  let wr := WriteHeader status wr in
  match encode_body v with
  | Some b => Write b wr
  | None => slog LogEncodeFailed wr
  end.
Definition writeError (status : Z) (msg : string) (wr : Writer) : Writer :=
  writeJSON status (BStrings [("error", msg)]) wr.
Definition writeServiceError (err : error) (wr : Writer) : Writer :=
  let '(status, msg) := serviceError err in
  writeError status msg
    (if status =? StatusInternalServerError then slog (LogUnhandled err) wr else wr).

Definition finished (wr : Writer) : prog W result := Ret (wr, None).

(** [if err != nil { writeServiceError(w, err); return }; writeJSON(...)]. *)
Definition serve {A} (m : M W A) (status : Z) (body : A -> Value) (wr : Writer) : prog W result :=
  invoke m wr (fun r => finished (match r with
                                  | inl err => writeServiceError err wr
                                  | inr a => writeJSON status (body a) wr
                                  end)).

(** [if err := json.NewDecoder(r.Body).Decode(&req); err != nil { ... }]. *)
Definition withBody {R} (decode : bytes -> option R) (r : Request) (wr : Writer)
    (k : R -> prog W result) : prog W result :=
  match decode (r_Body r) with
  | None => finished (writeError StatusBadRequest "invalid request body" wr)
  | Some req => k req
  end.
Definition withTenantQuery (r : Request) (wr : Writer) (k : string -> prog W result)
    : prog W result :=
  let tenantID := Query_Get r "tenant_id" in
  if String.eqb tenantID "" then
    finished (writeError StatusBadRequest "tenant_id query parameter required" wr)
  else k tenantID.

Definition statusBody {A} (s : string) : A -> Value := fun _ => BStrings [("status", s)].

(** *** routes.go *)

Definition handleHealthz : Handler W := fun _ _ wr =>
  finished (writeJSON StatusOK (BStrings [("status", "ok"); ("version", "0.2.0")]) wr).

Definition handleCreateTenant : Handler W := fun r _ wr =>
  withBody (decode_tenant dec) r wr (fun req =>
    serve (CreateTenant repos (mkCreateTenantInput (rt_Name req) (rt_Slug req) (rt_Tier req)
                                 (rt_DataRegion req))) StatusCreated BTenant wr).
Definition handleGetTenant : Handler W := fun r vars wr =>
  serve (GetTenant repos (PathValue vars "id")) StatusOK BTenant wr.
Definition handleSuspendTenant : Handler W := fun r vars wr =>
  serve (SuspendTenant repos (PathValue vars "id")) StatusOK (statusBody "suspended") wr.
Definition handleActivateTenant : Handler W := fun r vars wr =>
  serve (ActivateTenant repos (PathValue vars "id")) StatusOK (statusBody "active") wr.

Definition handleCreateIdentity : Handler W := fun r _ wr =>
  withBody (decode_identity dec) r wr (fun req =>
    let input := mkCreateIdentityInput (ri_TenantID req) (ri_Type req) (ri_DisplayName req)
      (ri_Handle req) (ptrUnlessEmpty (ri_CreatedBy req)) (ri_Attributes req) in
    serve (CreateIdentity repos crypto json input) StatusCreated BIdentityWithKeys wr).
Definition handleGetIdentity : Handler W := fun r vars wr =>
  withTenantQuery r wr (fun tenantID =>
    serve (GetIdentity repos crypto json tenantID (PathValue vars "id")) StatusOK BIdentity wr).
Definition handleGetByHandle : Handler W := fun r vars wr =>
  withTenantQuery r wr (fun tenantID =>
    serve (GetIdentityByHandle repos crypto json tenantID (PathValue vars "handle"))
      StatusOK BIdentity wr).
Definition handleListIdentities : Handler W := fun r vars wr =>
  withTenantQuery r wr (fun tenantID =>
    serve (ListIdentities repos crypto json tenantID (mkIdentityFilter None None 50 0 "" false))
      StatusOK (fun results => BIdentities results (Z.of_nat (List.length results))) wr).
Definition handleUpdateIdentity : Handler W := fun r vars wr =>
  withBody (decode_update dec) r wr (fun req =>
    let input := mkUpdateIdentityInput (ru_TenantID req) (PathValue vars "id") (ru_DisplayName req)
      (ru_Attributes req) (ru_Version req) (ptrUnlessEmpty (ru_ActorID req)) in
    serve (UpdateIdentity repos crypto json input) StatusOK BIdentity wr).
Definition handleSuspendIdentity : Handler W := fun r vars wr =>
  withBody (decode_actor dec) r wr (fun '(TenantID, ActorID) =>
    serve (SuspendIdentity repos TenantID (PathValue vars "id") ActorID)
      StatusOK (statusBody "suspended") wr).
Definition handleReactivateIdentity : Handler W := fun r vars wr =>
  withBody (decode_actor dec) r wr (fun '(TenantID, ActorID) =>
    serve (ReactivateIdentity repos TenantID (PathValue vars "id") ActorID)
      StatusOK (statusBody "active") wr).
Definition handleDeactivateIdentity : Handler W := fun r vars wr =>
  withBody (decode_actor dec) r wr (fun '(TenantID, ActorID) =>
    serve (DeactivateIdentity repos TenantID (PathValue vars "id") ActorID)
      StatusOK (statusBody "deactivated") wr).

Definition handleGenerateKey : Handler W := fun r vars wr =>
  withBody (decode_key dec) r wr (fun req =>
    let input := mkGenerateKeyInput (rk_TenantID req) (rk_IdentityID req) (rk_KeyType req)
      (rk_Purpose req) (ptrUnlessEmpty (rk_ActorID req)) in
    serve (GenerateKey repos crypto input) StatusCreated BKey wr).
Definition handleGetKey : Handler W := fun r vars wr =>
  withTenantQuery r wr (fun tenantID =>
    serve (GetKey repos tenantID (PathValue vars "key_id")) StatusOK BKey wr).
Definition handleRotateKey : Handler W := fun r vars wr =>
  withBody (decode_rotate dec) r wr (fun '(TenantID, IdentityID, ActorID) =>
    serve (RotateKey repos crypto sys TenantID IdentityID (PathValue vars "key_id") ActorID)
      StatusOK BKey wr).
Definition handleRevokeKey : Handler W := fun r vars wr =>
  withBody (decode_actor dec) r wr (fun '(TenantID, ActorID) =>
    serve (RevokeKey repos TenantID (PathValue vars "key_id") ActorID)
      StatusOK (statusBody "revoked") wr).

(** *** helpers.go *)

(** A failing random source makes it panic. *)
Definition generateSessionID : M W string :=
  pbind (RandRead sys 16) (fun o => Ret (match o with
    | Ok b => Ok (hex (take 4 b) +:+ "-" +:+ hex (take 2 (drop 4 b)) +:+ "-" +:+
                  hex (take 2 (drop 6 b)) +:+ "-" +:+ hex (take 2 (drop 8 b)) +:+ "-" +:+
                  hex (drop 10 b))
    | Err e => Panic ("generateSessionID: crypto/rand failed: " +:+ Error e)
    | Panic s => Panic s
    end)).

(** The end of RegisterComplete and LoginComplete: a session is created and a
    token issued that is bound to it. *)
Definition startSession (r : Request) (IdentityID TenantID Handle : string) (claims : Claims)
    (wr : Writer) (k : string -> string -> prog W result) : prog W result :=
  invoke generateSessionID wr (fun o => match o with
  | inl err => Ret (wr, Some (Error err))
  | inr authSessionID =>
    invoke (Now sys) wr (fun created => invoke (Now sys) wr (fun seen =>
      match created, seen with
      | inr created, inr seen =>
        let session := mkSessionData authSessionID IdentityID TenantID Handle created seen
                         (Header_Get r "User-Agent") (r_RemoteAddr r) in
        invoke (Create client sj ttl session) wr (fun o => match o with
        | inl _ => finished (writeError StatusInternalServerError "session creation failed" wr)
        | inr _ =>
          invoke (Issue p sys json cj tokenSvc claims authSessionID) wr (fun o => match o with
          | inl _ => finished (writeError StatusInternalServerError "token issuance failed" wr)
          | inr (token, _) => k token authSessionID
          end)
        end)
      | _, _ => Ret (wr, Some "time.Now")
      end))
  end).

(** *** webauthn_handler.go *)

Definition RegisterBegin : Handler W := fun r _ wr =>
  withBody (decode_register dec) r wr (fun '(TenantID, IdentityID) =>
    if String.eqb TenantID "" || String.eqb IdentityID "" then
      finished (writeError StatusBadRequest "tenant_id and identity_id are required" wr) else
    invoke (BeginRegistration lib client repos crypto sys json TenantID IdentityID) wr (fun o =>
      finished (match o with
                | inl err => writeServiceError err wr
                | inr (options, sessionID) =>
                  writeJSON StatusOK (BCreation options) (Header_Set "X-Session-ID" sessionID wr)
                end))).

Definition RegisterComplete : Handler W := fun r _ wr =>
  let tenantID := Header_Get r "X-Tenant-ID" in
  let identityID := Header_Get r "X-Identity-ID" in
  let sessionID := Header_Get r "X-Session-ID" in
  if String.eqb tenantID "" || String.eqb identityID "" || String.eqb sessionID "" then
    finished (writeError StatusBadRequest
      "X-Tenant-ID, X-Identity-ID, and X-Session-ID headers required" wr) else
  invoke (FinishRegistration lib client repos crypto p json tenantID identityID sessionID r) wr
    (fun o => match o with
    | inl err => finished (writeServiceError err wr)
    | inr result =>
      startSession r (frr_IdentityID result) tenantID (frr_Handle result)
        (mkClaims (frr_IdentityID result) 0 0 "" tenantID (frr_Handle result) (frr_Type result) "")
        wr (fun token authSessionID =>
          let cred := frr_Credential result in
          finished (writeJSON StatusCreated
            (BRegistered (c_ID cred) (c_Type cred) (c_CreatedAt cred) token authSessionID) wr))
    end).

(** *** login_handler.go *)

Definition LoginBegin : Handler W := fun r _ wr =>
  withBody (decode_login dec) r wr (fun '(TenantID, Handle) =>
    if String.eqb TenantID "" || String.eqb Handle "" then
      finished (writeError StatusBadRequest "tenant_id and handle are required" wr) else
    invoke (BeginAssertion lib client repos crypto sys json TenantID Handle) wr (fun o =>
      finished (match o with
                | inl err => writeServiceError err wr
                | inr (options, sessionID) =>
                  writeJSON StatusOK (BAssertion options) (Header_Set "X-Session-ID" sessionID wr)
                end))).

Definition LoginComplete : Handler W := fun r _ wr =>
  let tenantID := Header_Get r "X-Tenant-ID" in
  let handle := Header_Get r "X-Handle" in
  let sessionID := Header_Get r "X-Session-ID" in
  if String.eqb tenantID "" || String.eqb handle "" || String.eqb sessionID "" then
    finished (writeError StatusBadRequest
      "X-Tenant-ID, X-Handle, and X-Session-ID headers required" wr) else
  invoke (FinishAssertion lib client repos crypto sys json tenantID handle sessionID r) wr
    (fun o => match o with
    | inl err =>
      finished (if errors_Is err ErrCloneDetected
                then writeError StatusForbidden "authentication failed"
                       (slog (LogClone tenantID handle) wr)
                else writeServiceError err wr)
    | inr id =>
      startSession r (i_ID id) tenantID (i_Handle id)
        (mkClaims (i_ID id) 0 0 "" (i_TenantID id) (i_Handle id) (i_Type id) "")
        wr (fun token authSessionID =>
          finished (writeJSON StatusOK
            (BLoggedIn (i_ID id) (i_TenantID id) (i_Handle id) token authSessionID) wr))
    end).

(** *** auth_middleware.go *)

Definition RequireAuth (next : Handler W) : Handler W := fun r vars wr =>
  let authHeader := Header_Get r "Authorization" in
  if String.eqb authHeader "" || negb (HasPrefix authHeader "Bearer ") then
    finished (writeError StatusUnauthorized "missing or invalid authorization header" wr) else
  let token := TrimPrefix authHeader "Bearer " in
  invoke (Verify p sys cj tokenSvc token) wr (fun o => match o with
  | inl _ => finished (writeError StatusUnauthorized "invalid or expired token" wr)
  | inr claims =>
    let r := WithContext (WithClaims claims (r_Context r)) r in
    if String.eqb (cl_SessionID claims) "" then next r vars wr else
    invoke (Get client sys sj ttl (cl_SessionID claims)) wr (fun o => match o with
    | inl _ => finished (writeError StatusUnauthorized "session expired or revoked" wr)
    | inr _ => next r vars wr
    end)
  end).

(** *** session_handler.go *)

(** [claims := ClaimsFromContext(r.Context()); if claims == nil { ... }]. *)
Definition withClaims (r : Request) (wr : Writer) (k : Claims -> prog W result) : prog W result :=
  match ClaimsFromContext (r_Context r) with
  | None => finished (writeError StatusUnauthorized "not authenticated" wr)
  | Some claims => k claims
  end.

(** A failing deletion is logged, not reported. *)
Definition Logout : Handler W := fun r _ wr =>
  withClaims r wr (fun claims =>
    invoke (Delete client sj (cl_SessionID claims)) wr (fun o =>
      let wr := match o with
                | inl err => slog (LogLogoutFailed (cl_SessionID claims) err) wr
                | inr _ => wr
                end in
      finished (writeJSON StatusOK (BStrings [("status", "logged_out")]) wr))).

Definition ListSessions : Handler W := fun r _ wr =>
  withClaims r wr (fun claims =>
    invoke (ListByIdentity client sj (Subject claims)) wr (fun o =>
      finished (match o with
                | inl err => writeError StatusInternalServerError "internal error"
                               (slog (LogListFailed (Subject claims) err) wr)
                | inr sessions => writeJSON StatusOK (BSessions sessions) wr
                end))).

Definition RevokeSession : Handler W := fun r vars wr =>
  withClaims r wr (fun claims =>
    let sessionID := PathValue vars "session_id" in
    if String.eqb sessionID "" then
      finished (writeError StatusBadRequest "session_id is required" wr) else
    invoke (Get client sys sj ttl sessionID) wr (fun o => match o with
    | inl _ => finished (writeError StatusNotFound "session not found" wr)
    | inr session =>
      if negb (String.eqb (sd_IdentityID session) (Subject claims)) then
        finished (writeError StatusForbidden "cannot revoke another identity's session" wr) else
      invoke (Delete client sj sessionID) wr (fun o =>
        finished (match o with
                  | inl err => writeError StatusInternalServerError "internal error"
                                 (slog (LogRevokeFailed sessionID err) wr)
                  | inr _ => writeJSON StatusOK (BStrings [("status", "revoked")]) wr
                  end))
    end)).

(** *** Routing *)

Inductive segment := Lit (s : string) | Var (name : string).

(** A wildcard matches one segment that is not empty. *)
Fixpoint match_path (pattern : list segment) (path : list string) : option pathvars :=
  match pattern, path with
  | [], [] => Some []
  | Lit s :: pattern, t :: path => if String.eqb s t then match_path pattern path else None
  | Var name :: pattern, t :: path =>
    if String.eqb t "" then None
    else match match_path pattern path with
         | Some vars => Some ((name, t) :: vars)
         | None => None
         end
  | _, _ => None
  end.

Record route := mkRoute { rt_method : string; rt_pattern : list segment; rt_handler : Handler W }.

Definition public_routes : list route :=
  [mkRoute "GET" [Lit "healthz"] handleHealthz;
   mkRoute "POST" [Lit "v1"; Lit "tenants"] handleCreateTenant;
   mkRoute "POST" [Lit "v1"; Lit "identities"] handleCreateIdentity;
   mkRoute "POST" [Lit "v1"; Lit "auth"; Lit "register"] RegisterBegin;
   mkRoute "POST" [Lit "v1"; Lit "auth"; Lit "register"; Lit "complete"] RegisterComplete;
   mkRoute "POST" [Lit "v1"; Lit "auth"; Lit "login"] LoginBegin;
   mkRoute "POST" [Lit "v1"; Lit "auth"; Lit "login"; Lit "complete"] LoginComplete].

(** The handlers behind RequireAuth. *)
Definition protected_handlers : list (string * list segment * Handler W) :=
  [("POST", [Lit "v1"; Lit "auth"; Lit "logout"], Logout);
   ("GET", [Lit "v1"; Lit "auth"; Lit "sessions"], ListSessions);
   ("DELETE", [Lit "v1"; Lit "auth"; Lit "sessions"; Var "session_id"], RevokeSession);
   ("GET", [Lit "v1"; Lit "tenants"; Var "id"], handleGetTenant);
   ("POST", [Lit "v1"; Lit "tenants"; Var "id"; Lit "suspend"], handleSuspendTenant);
   ("POST", [Lit "v1"; Lit "tenants"; Var "id"; Lit "activate"], handleActivateTenant);
   ("GET", [Lit "v1"; Lit "identities"; Var "id"], handleGetIdentity);
   ("GET", [Lit "v1"; Lit "identities"; Lit "handle"; Var "handle"], handleGetByHandle);
   ("GET", [Lit "v1"; Lit "identities"], handleListIdentities);
   ("PUT", [Lit "v1"; Lit "identities"; Var "id"], handleUpdateIdentity);
   ("POST", [Lit "v1"; Lit "identities"; Var "id"; Lit "suspend"], handleSuspendIdentity);
   ("POST", [Lit "v1"; Lit "identities"; Var "id"; Lit "reactivate"],
      handleReactivateIdentity);
   ("DELETE", [Lit "v1"; Lit "identities"; Var "id"], handleDeactivateIdentity);
   ("POST", [Lit "v1"; Lit "keys"], handleGenerateKey);
   ("GET", [Lit "v1"; Lit "keys"; Var "key_id"], handleGetKey);
   ("POST", [Lit "v1"; Lit "keys"; Var "key_id"; Lit "rotate"], handleRotateKey);
   ("DELETE", [Lit "v1"; Lit "keys"; Var "key_id"], handleRevokeKey)].
Definition protected_routes : list route :=
  (fun '(m, pat, h) => mkRoute m pat (RequireAuth h)) <$> protected_handlers.
Definition registerRoutes : list route := (public_routes ++ protected_routes)%list.

(** A pattern of method GET also matches HEAD. *)
Definition match_method (m : string) (r : Request) : bool :=
  String.eqb m (r_Method r) || (String.eqb m "GET" && String.eqb (r_Method r) "HEAD").

Fixpoint find_route (rs : list route) (r : Request) : option (route * pathvars) :=
  match rs with
  | [] => None
  | rt :: rs =>
    match match_path (rt_pattern rt) (r_Path r) with
    | Some vars => if match_method (rt_method rt) r then Some (rt, vars) else find_route rs r
    | None => find_route rs r
    end
  end.

(** [http.Error]; the text ends with a newline. *)
Definition httpError (status : Z) (msg : string) (wr : Writer) : Writer :=
  let wr := Header_Set "Content-Type" "text/plain; charset=utf-8" wr in
  let wr := Header_Set "X-Content-Type-Options" "nosniff" wr in
  Write (s2b msg ++ [Byte.x0a])%list (WriteHeader status wr).

(** The methods for which some pattern matches the path, in order. *)
Definition matches_path (r : Request) (rt : route) : bool :=
  match match_path (rt_pattern rt) (r_Path r) with Some _ => true | None => false end.
Definition allowedMethods (r : Request) : list string :=
  List.filter (fun m => existsb (fun rt => matches_path r rt &&
      (String.eqb (rt_method rt) m || (String.eqb (rt_method rt) "GET" && String.eqb m "HEAD")))
    registerRoutes) ["DELETE"; "GET"; "HEAD"; "POST"; "PUT"].
Fixpoint comma_separated (l : list string) : string :=
  match l with
  | [] => ""
  | [s] => s
  | s :: l => s +:+ ", " +:+ comma_separated l
  end.

(** [http.ServeMux.ServeHTTP]: no two patterns match the same request, so the
    first match is the match. *)
Definition mux : Handler W := fun r _ wr =>
  match find_route registerRoutes r with
  | Some (rt, vars) => rt_handler rt r vars wr
  | None =>
    match allowedMethods r with
    | [] => finished (httpError StatusNotFound "404 page not found" wr)
    | methods => finished (httpError StatusMethodNotAllowed "Method Not Allowed"
                             (Header_Set "Allow" (comma_separated methods) wr))
    end
  end.

(** *** middleware.go *)

Definition RequestID (next : Handler W) : Handler W := fun r vars wr =>
  invoke (Now sys) wr (fun o => match o with
  | inr now =>
    let id := pretty (now - unixToInternal * second) in
    let wr := Header_Set "X-Request-ID" id wr in
    next (WithContext (WithRequestID id (r_Context r)) r) vars wr
  | inl e => Ret (wr, Some (Error e))
  end).

Definition statusCode (rw : responseWriter) : Z :=
  if negb (rw_written rw) then StatusOK else rw_status rw.

(** [time.Since(start).Milliseconds()]: a duration is a saturating 64-bit number
    of nanoseconds, and the division truncates. *)
Definition elapsed_ms (start now : time) : Z :=
  Z.quot (Z.max (- 2 ^ 63) (Z.min (2 ^ 63 - 1) (now - start))) 1000000.

(** The entry is logged unless the handler panicked. *)
Definition Logger (next : Handler W) : Handler W := fun r vars wr =>
  invoke (Now sys) wr (fun start =>
    pbind (next r vars (set_rw (Some (mkResponseWriter 0 false)) wr)) (fun '(wr, pnc) =>
    let status := match wr_rw wr with Some rw => statusCode rw | None => StatusOK end in
    let wr := set_rw None wr in
    match pnc with
    | None => invoke (Now sys) wr (fun now =>
        match start, now with
        | inr start, inr now =>
          finished (slog (LogRequest (r_Method r) (URL_Path r) status (elapsed_ms start now)
                            (RequestIDFromContext (r_Context r))) wr)
        | _, _ => Ret (wr, Some "time.Now")
        end)
    | Some s => Ret (wr, Some s)
    end)).

Definition CORS (next : Handler W) : Handler W := fun r vars wr =>
  let wr := Header_Set "Access-Control-Allow-Origin" "*" wr in
  let wr := Header_Set "Access-Control-Allow-Methods" "GET, POST, PUT, DELETE, OPTIONS" wr in
  let wr := Header_Set "Access-Control-Allow-Headers" "Content-Type, Authorization, X-Request-ID" wr in
  if String.eqb (r_Method r) "OPTIONS" then finished (WriteHeader StatusNoContent wr)
  else next r vars wr.

Definition Recover (next : Handler W) : Handler W := fun r vars wr =>
  pbind (next r vars wr) (fun '(wr, pnc) =>
    finished (match pnc with
              | Some rec => writeError StatusInternalServerError "internal error"
                              (slog (LogPanic rec) wr)
              | None => wr
              end)).

Fixpoint Chain (h : Handler W) (middleware : list (Handler W -> Handler W)) : Handler W :=
  match middleware with
  | [] => h
  | m :: middleware => m (Chain h middleware)
  end.

Definition gateway : Handler W := Chain mux [Recover; RequestID; Logger; CORS].

(** A request as the server handles it, with an empty context and a fresh writer. *)
Definition ServeHTTP (r : Request) : prog W result :=
  gateway (WithContext Background r) [] newWriter.
End gateway.
