(* ===== verification/HttpFacts.v ===== *)
(** * HttpFacts: the gateway and the gRPC server *)

From Stdlib Require Import ZArith Lia Ascii String.
From stdpp Require Import base list strings numbers gmap pretty.
From S2P Require Import Prelude Bytes Errors Model Repository World Schema Postgres TenantService.
From S2P Require Import IdentityService KeyService Crypto Argon2 SchemaFacts Guarantees Integrity.
From S2P Require Import Runs System Demo Store StoreFacts Jwt JwtFacts Grpc WebAuthn WebAuthnFacts.
From S2P Require Import Http.
Open Scope string_scope.
Open Scope Z_scope.

(** ** Errors *)

(** The status that corresponds to a code; the services' errors are never
    reported as Unimplemented. *)
Definition status_of_code (c : code) : Z :=
  match c with
  | NotFound => StatusNotFound
  | AlreadyExists | Aborted => StatusConflict
  | InvalidArgument => StatusBadRequest
  | FailedPrecondition => StatusUnprocessableEntity
  | PermissionDenied => StatusForbidden
  | Internal | Unimplemented => StatusInternalServerError
  end.

(** The errors that the gateway does not know. *)
Definition unknown_to_gateway (e : error) : bool :=
  errors_Is e ErrCredentialInactive || errors_Is e ErrCredentialConsumed ||
  errors_Is e ErrRecoveryNotUsable || errors_Is e ErrNoPrimaryKey.

(** The sentinel an error answers to, if any. *)
Fixpoint sentinel_of (e : error) : option sentinel :=
  match e with
  | ESentinel s => Some s
  | NotFoundError _ _ => Some ErrNotFound
  | ValidationError _ _ => Some ErrInvalidInput
  | VersionConflictError _ _ _ _ => Some ErrVersionConflict
  | EWrap _ e => sentinel_of e
  | ENew _ | EPg _ _ => None
  end.
Lemma errors_Is_sentinel_of e s : errors_Is e s = bool_decide (sentinel_of e = Some s).
Proof.
  induction e as [r|t i|f m|t i x y|q e IH|m|c m]; simpl; [| | | |exact IH|done|done];
    unfold NotFoundError_Is, ValidationError_Is, VersionConflictError_Is;
    apply bool_decide_ext; split; congruence.
Qed.

(** The statuses of an error on the two transports. *)
Lemma statuses_correspond e :
  fst (serviceError e) = status_of_code (st_code (toGRPCError e)) \/
  st_code (toGRPCError e) = FailedPrecondition /\ fst (serviceError e) = StatusInternalServerError.
Proof.
  unfold serviceError, toGRPCError. rewrite !errors_Is_sentinel_of.
  destruct (sentinel_of e) as [[]|]; vm_compute; auto.
Qed.

(** Both transports report an error the same way whether or not a service
    wrapped it, and report corresponding statuses, except for the four errors
    that the gateway does not know and reports as internal; an error reported
    as internal never has its text shown. *)
Theorem transports_agree_on_errors e op :
  fst (serviceError (wrapRepoError op e)) = fst (serviceError e) /\
  st_code (toGRPCError (wrapRepoError op e)) = st_code (toGRPCError e) /\
  (if unknown_to_gateway e
   then fst (serviceError e) = StatusInternalServerError /\
        st_code (toGRPCError e) = FailedPrecondition
   else fst (serviceError e) = status_of_code (st_code (toGRPCError e))) /\
  (fst (serviceError e) = StatusInternalServerError -> snd (serviceError e) = "internal error") /\
  (st_code (toGRPCError e) = Internal -> st_message (toGRPCError e) = "internal error").
Proof.
  unfold serviceError, toGRPCError, unknown_to_gateway. rewrite !errors_Is_wrapRepoError.
  rewrite !errors_Is_sentinel_of.
  destruct (sentinel_of e) as [[]|]; vm_compute; repeat split; try discriminate; done.
Qed.

(** ** Routing *)

Fixpoint overlap (a b : list segment) : bool :=
  match a, b with
  | [], [] => true
  | Lit s :: a, Lit t :: b => String.eqb s t && overlap a b
  | _ :: a, _ :: b => overlap a b
  | _, _ => false
  end.

Lemma overlap_complete a b path va vb :
  match_path a path = Some va -> match_path b path = Some vb -> overlap a b = true.
Proof.
  revert b path va vb. induction a as [|[s|x] a IH]; intros [|[t|y] b] [|q path] va vb;
    cbn [match_path overlap]; try discriminate; [reflexivity|..].
  - destruct (String.eqb_spec s q) as [->|]; [|discriminate].
    destruct (String.eqb_spec t q) as [->|]; [|discriminate].
    rewrite String.eqb_refl. apply IH.
  - destruct (String.eqb s q); [|discriminate]. destruct (String.eqb q ""); [discriminate|].
    destruct (match_path b path) eqn:Hb; [|discriminate]. intros Ha _. by eapply IH.
  - destruct (String.eqb q ""); [discriminate|]. destruct (String.eqb t q); [|discriminate].
    destruct (match_path a path) eqn:Ha; [|discriminate]. intros _ Hb. by eapply IH.
  - destruct (String.eqb q ""); [discriminate|]. destruct (match_path a path) eqn:Ha; [|discriminate].
    destruct (match_path b path) eqn:Hb; [|discriminate]. intros _ _. by eapply IH.
Qed.

(** Two patterns of compatible methods that overlap. *)
Definition conflict (x y : string * list segment) : bool :=
  String.eqb x.1 y.1 && overlap x.2 y.2.
Fixpoint no_conflicts (l : list (string * list segment)) : bool :=
  match l with
  | [] => true
  | x :: l => forallb (fun y => negb (conflict x y)) l && no_conflicts l
  end.

Lemma no_conflicts_lookup l i j x y :
  no_conflicts l = true -> (i < j)%nat -> l !! i = Some x -> l !! j = Some y ->
  conflict x y = false.
Proof.
  revert i j. induction l as [|z l IH]; intros i j; simpl; [done|].
  intros [Hz Hl]%andb_prop Hij Hi Hj. destruct j as [|j]; [lia|].
  destruct i as [|i]; simpl in *; [|eapply IH; [done| |done|done]; lia].
  simplify_eq. rewrite forallb_forall in Hz. apply list_elem_of_lookup_2, list_elem_of_In, Hz in Hj.
  by apply negb_true_iff in Hj.
Qed.

(** The methods of the table. *)
Definition is_method (m : string) : bool :=
  existsb (String.eqb m) ["GET"; "POST"; "PUT"; "DELETE"].

Lemma match_method_inj m m' r :
  is_method m = true -> is_method m' = true ->
  match_method m r = true -> match_method m' r = true -> m = m'.
Proof.
  unfold match_method, is_method. simpl. rewrite !orb_false_r, !orb_true_iff, !andb_true_iff, !String.eqb_eq.
  intros Hm Hm' H1 H2. naive_solver congruence.
Qed.

(** The public routes. *)
Definition public_keys : list (string * list segment) :=
  [("GET", [Lit "healthz"]); ("POST", [Lit "v1"; Lit "tenants"]);
   ("POST", [Lit "v1"; Lit "identities"]); ("POST", [Lit "v1"; Lit "auth"; Lit "register"]);
   ("POST", [Lit "v1"; Lit "auth"; Lit "register"; Lit "complete"]);
   ("POST", [Lit "v1"; Lit "auth"; Lit "login"]);
   ("POST", [Lit "v1"; Lit "auth"; Lit "login"; Lit "complete"])].

Section gateway.
Context {X : Type} (env : Env) (p : Prims) (IDKey : idkey) (json : Codec) (cfg : CryptoConfig).
Context (cj : ClaimsCodec) (tokenSvc : TokenService).
Context (client : RedisClient (World X)) (sj : SessionCodec) (ttl : Z).
Context (lib : WebAuthnLib (World X) Request) (dec : Decoders).
Context (encode_body : Body (CredentialCreation lib) (CredentialAssertion lib) -> option bytes).
Implicit Types w : World X.
Abbreviation repos := (repos (X:=X) env json).
Abbreviation crypto := (cryptoSvc (X:=X) env p IDKey json cfg).
Abbreviation sys := (system (X:=X) env).
Abbreviation routes := (registerRoutes repos crypto sys p json cj tokenSvc client sj ttl lib dec encode_body).
Abbreviation protected :=
  (protected_routes repos crypto sys p json cj tokenSvc client sj ttl lib dec encode_body).
Abbreviation ServeHTTP :=
  (ServeHTTP repos crypto sys p json cj tokenSvc client sj ttl lib dec encode_body).
Abbreviation Verify := (Verify (W:=World X) p sys cj tokenSvc).

Definition rt_key (rt : route (W:=World X)) : string * list segment := (rt_method rt, rt_pattern rt).

Lemma routes_no_conflicts : no_conflicts (rt_key <$> routes) = true.
Proof. vm_compute. reflexivity. Qed.
Lemma routes_methods : forallb (fun k => is_method k.1) (rt_key <$> routes) = true.
Proof. vm_compute. reflexivity. Qed.

Definition matches (r : Request) (rt : route (W:=World X)) : Prop :=
  match_method (rt_method rt) r = true /\ is_Some (match_path (rt_pattern rt) (r_Path r)).

Lemma match_unique r i j rt rt' :
  routes !! i = Some rt -> routes !! j = Some rt' -> matches r rt -> matches r rt' -> i = j.
Proof.
  intros Hi Hj [Hm [v Hv]] [Hm' [v' Hv']].
  assert (rt_method rt = rt_method rt') as Heq.
  { eapply match_method_inj; [| |exact Hm|exact Hm'].
    - pose proof routes_methods as H. rewrite forallb_forall in H.
      apply (H (rt_key rt)), list_elem_of_In, list_elem_of_fmap. exists rt. split; [done|].
      by eapply list_elem_of_lookup_2.
    - pose proof routes_methods as H. rewrite forallb_forall in H.
      apply (H (rt_key rt')), list_elem_of_In, list_elem_of_fmap. exists rt'. split; [done|].
      by eapply list_elem_of_lookup_2. }
  assert (forall a b (x y : route (W:=World X)), (a < b)%nat -> routes !! a = Some x -> routes !! b = Some y ->
    rt_method x = rt_method y -> overlap (rt_pattern x) (rt_pattern y) = true -> False) as Hno.
  { intros a b x y Hab Ha Hb Hxy Ho.
    assert (conflict (rt_key x) (rt_key y) = false) as Hc.
    { eapply no_conflicts_lookup; [apply routes_no_conflicts|exact Hab| |]; rewrite list_lookup_fmap;
        [by rewrite Ha|by rewrite Hb]. }
    unfold conflict, rt_key in Hc. simpl in Hc. by rewrite Hxy, String.eqb_refl, Ho in Hc. }
  destruct (Nat.lt_trichotomy i j) as [Hlt|[->|Hgt]]; [|done|].
  - destruct (Hno i j rt rt' Hlt Hi Hj Heq (overlap_complete _ _ _ _ _ Hv Hv')).
  - destruct (Hno j i rt' rt Hgt Hj Hi (eq_sym Heq) (overlap_complete _ _ _ _ _ Hv' Hv)).
Qed.

Lemma find_route_Some r rs (rt : route (W:=World X)) vars :
  find_route rs r = Some (rt, vars) ->
  rt ∈ rs /\ match_method (rt_method rt) r = true /\ match_path (rt_pattern rt) (r_Path r) = Some vars.
Proof.
  induction rs as [|rt' rs IH]; simpl; [done|].
  intros Hf. repeat case_match; simplify_eq; try (destruct (IH Hf) as (? & ? & ?)).
  all: split_and!; [set_solver|done..].
Qed.
Lemma find_route_None r rs (rt : route (W:=World X)) :
  find_route rs r = None -> rt ∈ rs -> ~ matches r rt.
Proof.
  induction rs as [|rt' rs IH]; simpl; [set_solver|].
  intros Hf Hin [Hm [v Hv]]. apply elem_of_cons in Hin as [->|Hin].
  - by rewrite Hv, Hm in Hf.
  - destruct (match_path _ _); [destruct (match_method _ _); [done|]|]; by eapply IH.
Qed.

Lemma mux_route r rt vars vs wr :
  rt ∈ routes -> match_method (rt_method rt) r = true ->
  match_path (rt_pattern rt) (r_Path r) = Some vars ->
  mux repos crypto sys p json cj tokenSvc client sj ttl lib dec encode_body r vs wr =
  rt_handler rt r vars wr.
Proof.
  intros Hin Hm Hp. unfold mux. destruct (find_route _ r) as [[rt' vars']|] eqn:Hf.
  - apply find_route_Some in Hf as (Hin' & Hm' & Hp').
    apply list_elem_of_lookup in Hin as [i Hi], Hin' as [j Hj].
    assert (i = j) as ->
      by (eapply (match_unique r i j rt rt'); [done|done|by split; [|eexists]..]).
    by simplify_eq.
  - exfalso. eapply find_route_None; [exact Hf|exact Hin|]. by split; [|eexists].
Qed.

(** Routing is unambiguous: a request that matches a route of the table is
    served by this route's handler, with the wildcards of its pattern, whatever
    the order of registration: no request matches two routes. *)
Theorem routes_unambiguous r rt vars vs wr :
  rt ∈ routes -> match_method (rt_method rt) r = true ->
  match_path (rt_pattern rt) (r_Path r) = Some vars ->
  mux repos crypto sys p json cj tokenSvc client sj ttl lib dec encode_body r vs wr =
  rt_handler rt r vars wr.
Proof. apply mux_route. Qed.

(** ** Responses *)

Abbreviation writeJSON := (writeJSON lib encode_body).
Abbreviation writeError := (writeError lib encode_body).

(** The entries that account for a request. *)
Definition accounts (e : LogEntry) : bool :=
  match e with LogRequest _ _ _ _ _ | LogPanic _ => true | _ => false end.
Definition account (wr : Writer) : list LogEntry := List.filter accounts (wr_log wr).

Section answers.
Context (id : string).

(** A writer to which nothing was written. *)
Record fresh (wr : Writer) : Prop := {
  fr_sent : wr_sent wr = None;
  fr_rw : wr_rw wr = Some (mkResponseWriter 0 false);
  fr_account : account wr = [];
  fr_id : wr_header wr !! "X-Request-ID" = Some id }.

(** A writer whose status was sent, and of which the wrapper knows. *)
Definition reported (wr : Writer) : Prop :=
  exists st h rw, wr_sent wr = Some (st, h) /\ h !! "X-Request-ID" = Some id /\
    wr_rw wr = Some rw /\ statusCode rw = st /\ account wr = [].

Lemma fresh_Header_Set n v wr : n <> "X-Request-ID" -> fresh wr -> fresh (Header_Set n v wr).
Proof. intros Hn []. split; [done..|]. simpl. by rewrite lookup_insert_ne. Qed.
Lemma fresh_slog e wr : accounts e = false -> fresh wr -> fresh (slog e wr).
Proof.
  intros He []. split; [done..| |done]. unfold account, slog in *. simpl.
  rewrite List.filter_app, fr_account0. simpl. by rewrite He.
Qed.
Lemma reported_WriteHeader st wr : fresh wr -> reported (WriteHeader st wr).
Proof.
  intros [Hs Hrw Ha Hid]. unfold WriteHeader, sendStatus. rewrite Hrw. simpl. rewrite Hs.
  by exists st, (wr_header wr), (mkResponseWriter st true).
Qed.
Lemma reported_Write b wr : reported wr -> reported (Write b wr).
Proof.
  intros (st & h & rw & Hs & Hrest). unfold Write, sendStatus. rewrite Hs. by exists st, h, rw.
Qed.
Lemma reported_slog e wr : accounts e = false -> reported wr -> reported (slog e wr).
Proof.
  intros He (st & h & rw & Hs & Hid & Hrw & Hst & Ha). exists st, h, rw. split_and!; [done..|].
  unfold account, slog in *. simpl. rewrite List.filter_app, Ha. simpl. by rewrite He.
Qed.
Lemma reported_writeJSON st v wr : fresh wr -> reported (writeJSON st v wr).
Proof.
  intros H. unfold Http.writeJSON.
  assert (reported (WriteHeader st (Header_Set "Content-Type" "application/json" wr))) as Hr
    by (apply reported_WriteHeader, fresh_Header_Set; done).
  case_match; [by apply reported_Write|by apply reported_slog].
Qed.
Lemma reported_writeError st msg wr : fresh wr -> reported (writeError st msg wr).
Proof. apply reported_writeJSON. Qed.
Lemma reported_writeServiceError e wr : fresh wr -> reported (writeServiceError lib encode_body e wr).
Proof.
  intros H. unfold writeServiceError. destruct (serviceError e) as [st msg].
  apply reported_writeJSON. case_match; [by apply fresh_slog|done].
Qed.
Lemma reported_httpError st msg wr : fresh wr -> reported (httpError st msg wr).
Proof. intros H. apply reported_Write, reported_WriteHeader. by do 2 (apply fresh_Header_Set; [done|]). Qed.
#[local] Hint Resolve fresh_Header_Set fresh_slog reported_writeJSON reported_writeError
  reported_writeServiceError reported_WriteHeader reported_httpError : answers.
#[local] Hint Extern 1 (_ <> _) => discriminate : answers.
#[local] Hint Extern 1 (accounts _ = false) => reflexivity : answers.

(** A handler that is given a fresh writer sends one status, or panics before it
    has sent any. *)
Definition answered (x : result) : Prop :=
  match x.2 with Some _ => fresh x.1 | None => reported x.1 end.
Definition answers (m : prog (World X) result) : Prop := yields (fun _ => True) answered m.

Lemma answers_finished wr : reported wr -> answers (finished wr).
Proof. intros H. exact H. Qed.
Lemma answers_panic wr s : fresh wr -> answers (Ret (wr, Some s)).
Proof. intros H. exact H. Qed.
Lemma answers_invoke {A} (m : M (World X) A) wr k :
  fresh wr -> (forall x, answers (k x)) -> answers (invoke m wr k).
Proof.
  intros Hwr Hk. eapply yields_pbind; [by apply (yields_True _ (fun _ => True))|].
  intros [a|e|s] _; [apply Hk|apply Hk|]. by apply answers_panic.
Qed.
#[local] Hint Resolve answers_finished answers_panic : answers.
Lemma answers_serve {A} (m : M (World X) A) st b wr :
  fresh wr -> answers (serve lib encode_body m st b wr).
Proof. intros H. apply answers_invoke; [done|]. intros [e|a]; auto with answers. Qed.
Lemma answers_withBody {R} (d : bytes -> option R) r wr k :
  fresh wr -> (forall x, answers (k x)) -> answers (withBody lib encode_body d r wr k).
Proof. intros H Hk. unfold withBody. case_match; auto with answers. Qed.
Lemma answers_withTenantQuery r wr k :
  fresh wr -> (forall x, answers (k x)) -> answers (withTenantQuery lib encode_body r wr k).
Proof. intros H Hk. unfold withTenantQuery. case_match; auto with answers. Qed.
Lemma answers_withClaims r wr k :
  fresh wr -> (forall x, answers (k x)) -> answers (withClaims lib encode_body r wr k).
Proof. intros H Hk. unfold withClaims. case_match; auto with answers. Qed.

Lemma answers_startSession r i t h c wr k :
  fresh wr -> (forall x y, answers (k x y)) ->
  answers (startSession sys p json cj tokenSvc client sj ttl lib encode_body r i t h c wr k).
Proof.
  intros H Hk. unfold startSession. apply answers_invoke; [done|]. intros [e|sid]; [auto with answers|].
  do 2 (apply answers_invoke; [done|intros ?]). case_match; [auto with answers|].
  case_match; [auto with answers|]. apply answers_invoke; [done|]. intros [e|u]; [auto with answers|].
  apply answers_invoke; [done|]. intros [e|[tok c']]; [auto with answers|apply Hk].
Qed.

Ltac answers_walk :=
  repeat first
    [ done
    | apply answers_serve
    | apply answers_withBody; [|intros ?]
    | apply answers_withTenantQuery; [|intros ?]
    | apply answers_withClaims; [|intros ?]
    | apply answers_startSession; [|intros ? ?]
    | apply answers_invoke; [|intros ?]
    | apply answers_panic
    | apply answers_finished; repeat case_match; solve [auto with answers]
    | case_match ].

Lemma answers_mux r vs wr :
  fresh wr ->
  answers (mux repos crypto sys p json cj tokenSvc client sj ttl lib dec encode_body r vs wr).
Proof.
  intros H. unfold mux. destruct (find_route _ r) as [[rt vars]|] eqn:Hf; [|answers_walk].
  apply find_route_Some in Hf as (Hin & _).
  unfold registerRoutes, public_routes, protected_routes, protected_handlers in Hin. simpl in Hin.
  repeat (apply elem_of_cons in Hin as [->|Hin]; [simpl rt_handler|]); [..|by apply elem_of_nil in Hin].
  1-7: unfold handleHealthz, handleCreateTenant, handleCreateIdentity, RegisterBegin,
    RegisterComplete, LoginBegin, LoginComplete; answers_walk.
  all: unfold RequireAuth, Logout, ListSessions, RevokeSession, handleGetTenant, handleSuspendTenant,
    handleActivateTenant, handleGetIdentity, handleGetByHandle, handleListIdentities,
    handleUpdateIdentity, handleSuspendIdentity, handleReactivateIdentity, handleDeactivateIdentity,
    handleGenerateKey, handleGetKey, handleRotateKey, handleRevokeKey; answers_walk.
Qed.
End answers.

Lemma yields_exec {A} (Q : A -> Prop) (m : prog (World X) A) w :
  yields (fun _ => True) Q m -> Q (snd (exec m w)).
Proof.
  revert w. induction m as [a|R f g IH]; intros w; simpl; [done|].
  intros H. specialize (H w I). destruct (f w) as [w' y]. by apply IH.
Qed.

Lemma exec_invoke {A} (m : M (World X) A) wr k w :
  exec (invoke m wr k) w =
  let '(w', o) := exec m w in
  match o with
  | Ok a => exec (k (inr a)) w'
  | Err e => exec (k (inl e)) w'
  | Panic s => (w', (wr, Some s))
  end.
Proof. unfold invoke. rewrite exec_pbind. by destruct (exec m w) as [w' []]. Qed.

(** *** The middleware *)

(** The id of a request, the request with it, and the writer inside Logger. *)
Definition request_id (now : time) : string := pretty (now - unixToInternal * second).
Definition received (now : time) (r : Request) : Request :=
  WithContext (WithRequestID (request_id now) Background) r.
Definition logged_writer (now : time) : Writer :=
  set_rw (Some (mkResponseWriter 0 false)) (Header_Set "X-Request-ID" (request_id now) newWriter).

(** What Logger and Recover make of a result. *)
Definition logged (r : Request) (now start stop : time) (wr : Writer) : Writer :=
  slog (LogRequest (r_Method r) (URL_Path r)
          match wr_rw wr with Some rw => statusCode rw | None => StatusOK end
          (elapsed_ms start stop) (request_id now))
    (set_rw None wr).
Definition recovered (rec : string) (wr : Writer) : Writer :=
  writeError StatusInternalServerError "internal error" (slog (LogPanic rec) (set_rw None wr)).

Abbreviation mux := (mux repos crypto sys p json cj tokenSvc client sj ttl lib dec encode_body).

(** What they make of the outcome of a handler, for a request that came at [w]. *)
Definition after_handler (r : Request) w (x : World X * result) : World X * result :=
  let '(w', (wr, pnc)) := x in
  match pnc with
  | None => (ticks 1 w', (logged r (clock env (w_tick w)) (clock env (1 + w_tick w))
                            (clock env (w_tick w')) wr, None))
  | Some s => (w', (recovered s wr, None))
  end.

Lemma exec_gateway r w :
  let now := clock env (w_tick w) in
  exec (ServeHTTP r) w =
  after_handler r w (exec (CORS mux (received now r) [] (logged_writer now)) (ticks 2 w)).
Proof.
  intros now. unfold Http.ServeHTTP, Http.gateway. simpl Chain. unfold Recover. rewrite exec_pbind.
  unfold RequestID. rewrite exec_invoke. change (Now sys) with (time_Now (X:=X) env).
  assert (forall v, exec (time_Now (X:=X) env) v = (ticks 1 v, Ok (clock env (w_tick v)))) as Hnow
    by by intros v.
  rewrite Hnow. unfold Logger. rewrite exec_invoke. change (Now sys) with (time_Now (X:=X) env).
  rewrite Hnow, ticks_ticks. simpl (1 + 1)%nat. rewrite exec_pbind.
  change (WithContext (WithRequestID _ _) (WithContext Background r)) with (received now r).
  change (set_rw _ (Header_Set "X-Request-ID" _ _)) with (logged_writer now).
  destruct (exec (CORS mux _ _ _) _) as [w' [wr [s|]]].
  - reflexivity.
  - rewrite exec_invoke. change (Now sys) with (time_Now (X:=X) env). rewrite Hnow. reflexivity.
Qed.

Lemma fresh_logged_writer now : fresh (request_id now) (logged_writer now).
Proof. by split. Qed.

Lemma account_logged r now a b wr : account wr = [] ->
  exists st ms, account (logged r now a b wr) =
    [LogRequest (r_Method r) (URL_Path r) st ms (request_id now)] /\
    st = match wr_rw wr with Some rw => statusCode rw | None => StatusOK end.
Proof.
  intros H. eexists _, _. split; [|reflexivity]. unfold account, logged, slog in *. simpl.
  by rewrite List.filter_app, H.
Qed.
Lemma account_recovered id rec wr : fresh id wr ->
  account (recovered rec wr) = [LogPanic rec] /\
  exists h, wr_sent (recovered rec wr) = Some (StatusInternalServerError, h) /\
    h !! "X-Request-ID" = Some id.
Proof.
  intros [Hs Hrw Ha Hid]. unfold account in *. unfold recovered, Http.writeError, Http.writeJSON, WriteHeader.
  assert (<["Content-Type" := "application/json"]> (wr_header wr) !! "X-Request-ID" = Some id)
    by by rewrite lookup_insert_ne.
  destruct wr as [hd st b rw l]; simpl in *; subst. unfold Write.
  case_match; simpl; (split; [by rewrite ?List.filter_app, Ha|eexists; by split]).
Qed.

(** C23. Every request is answered and accounted for: whatever the request and
    the state of the world, and whatever panics inside, the gateway returns
    without a panic, having sent one status line with the request's id; the log
    has one entry for the request, with its method, its path, the status that
    was sent and its id, or, when it panicked, the panic, and then the status is
    500. *)
Theorem every_request_is_answered r w :
  exists w' wr st h, exec (ServeHTTP r) w = (w', (wr, None)) /\ wr_sent wr = Some (st, h) /\
  let id := request_id (clock env (w_tick w)) in
  h !! "X-Request-ID" = Some id /\
  ((exists ms, account wr = [LogRequest (r_Method r) (URL_Path r) st ms id]) \/
   (exists rec, account wr = [LogPanic rec] /\ st = StatusInternalServerError)).
Proof.
  rewrite exec_gateway. set (now := clock env (w_tick w)).
  assert (answers (request_id now) (CORS mux (received now r) [] (logged_writer now))) as H.
  { unfold CORS. pose proof (fresh_logged_writer now) as Hf.
    case_match; [apply answers_finished, reported_WriteHeader|apply answers_mux];
      by do 3 (apply fresh_Header_Set; [done|]). }
  apply (yields_exec _ _ (ticks 2 w)) in H.
  destruct (exec (CORS _ _ _ _) _) as [w' [wr [rec|]]]; unfold answered in H; simpl in H.
  - destruct (account_recovered _ rec wr H) as (Ha & h & Hs & Hid).
    eexists w', _, _, h. split; [done|]. split; [exact Hs|]. split; [exact Hid|]. right. by exists rec.
  - destruct H as (st & h & rw & Hs & Hid & Hrw & Hst & Ha).
    destruct (account_logged r now (clock env (1 + w_tick w)) (clock env (w_tick w')) wr Ha)
      as (st' & ms & Hl & Hst').
    exists (ticks 1 w'), (logged r now (clock env (1 + w_tick w)) (clock env (w_tick w')) wr), st, h.
    split; [done|]. split; [exact Hs|]. split; [exact Hid|]. left. exists ms.
    rewrite Hl, Hst', Hrw. by rewrite Hst.
Qed.

(** ** Authentication *)

(** The writer a handler gets from the middleware. *)
Definition prepared (now : time) : Writer :=
  Header_Set "Access-Control-Allow-Headers" "Content-Type, Authorization, X-Request-ID"
    (Header_Set "Access-Control-Allow-Methods" "GET, POST, PUT, DELETE, OPTIONS"
      (Header_Set "Access-Control-Allow-Origin" "*" (logged_writer now))).

(** No route takes the method that CORS answers itself. *)
Lemma routed_not_OPTIONS r rt :
  rt ∈ routes -> match_method (rt_method rt) r = true -> String.eqb (r_Method r) "OPTIONS" = false.
Proof.
  intros Hin Hm. pose proof routes_methods as H. rewrite forallb_forall in H.
  assert (is_method (rt_method rt) = true) as Hrt
    by (apply (H (rt_key rt)), list_elem_of_In, list_elem_of_fmap; by exists rt).
  unfold match_method, is_method in *. simpl in Hrt.
  rewrite orb_false_r, !orb_true_iff, ?andb_true_iff, !String.eqb_eq in *.
  apply String.eqb_neq. intros Ho. rewrite Ho in Hm. naive_solver congruence.
Qed.

Lemma exec_ServeHTTP r rt vars w :
  rt ∈ routes -> match_method (rt_method rt) r = true ->
  match_path (rt_pattern rt) (r_Path r) = Some vars ->
  let now := clock env (w_tick w) in
  exec (ServeHTTP r) w =
  after_handler r w (exec (rt_handler rt (received now r) vars (prepared now)) (ticks 2 w)).
Proof.
  intros Hin Hm Hp now. rewrite exec_gateway. fold now.
  pose proof (routed_not_OPTIONS r rt Hin Hm) as Hopt.
  unfold CORS. change (r_Method (received now r)) with (r_Method r). rewrite Hopt.
  by rewrite (mux_route (received now r) rt vars).
Qed.

Section sessions.
Context (content : X -> rcontent) (rclock : nat -> time) (fault : nat -> bool).
Context `{!RedisOk client content rclock fault}.

(** The tables and the private keys are untouched. *)
Definition untouched (w w' : World X) : Prop := w_db w' = w_db w /\ w_keys w' = w_keys w.

(** A command that cannot panic, seen from outside. *)
Lemma exec_redis {R} (m : M (World X) R) (cmd : rcommand R) w :
  runs content rclock fault m cmd -> (forall now d s, snd (cmd now d) <> Panic s) ->
  exists w' o, exec m w = (w', o) /\ untouched w w' /\ (forall s, o <> Panic s) /\
    (is_ok o -> o = snd (cmd (rclock (w_tick w)) (content (w_ext w)))).
Proof.
  intros (f & -> & Hf) Hnp. specialize (Hf w). rewrite exec_actO.
  destruct (f w) as [w' o]. exists w', o. destruct Hf as (Hdb & Hks & _ & Hf).
  destruct (cmd _ _) as [d' reply] eqn:Hc. split; [done|]. split; [by split|].
  destruct (fault _).
  - destruct Hf as [_ [msg ->]]. split; [done|]. by intros [? [=]].
  - destruct Hf as [_ ->]. simpl. split; [|done]. intros s Hs.
    apply (Hnp (rclock (w_tick w)) (content (w_ext w)) s). by rewrite Hc.
Qed.

Lemma exec_redis_Get k w :
  exists w' o, exec (Redis_Get client k) w = (w', o) /\ untouched w w' /\ (forall s, o <> Panic s) /\
    (is_ok o -> is_Some (content (w_ext w) !! k)).
Proof.
  destruct (exec_redis _ (cmdGet k) w (redis_Get (RedisOk:=_) k)) as (w' & o & He & Hu & Hnp & Hok).
  { intros now d s. unfold cmdGet. simpl. by repeat case_match. }
  exists w', o. split_and!; [done|done|done|]. intros H. specialize (Hok H). destruct H as [b ->].
  unfold cmdGet, live in Hok. simpl in Hok. destruct (content _ !! k); [by eexists|discriminate].
Qed.

Lemma exec_redis_Set k v t w :
  exists w' o, exec (Redis_Set client k v t) w = (w', o) /\ untouched w w' /\ (forall s, o <> Panic s).
Proof.
  destruct (exec_redis _ (cmdSet k v t) w (redis_Set (RedisOk:=_) k v t)) as (w' & o & He & Hu & Hnp & _);
    [done|]. by exists w', o.
Qed.

Lemma exec_session_Get sid w :
  exists w' o, exec (Get client sys sj ttl sid) w = (w', o) /\ untouched w w' /\
    (forall s, o <> Panic s) /\ (is_ok o -> is_Some (content (w_ext w) !! key sid)).
Proof.
  unfold Get. rewrite exec_bind, exec_mapErr.
  destruct (exec_redis_Get (key sid) w) as (w1 & o1 & -> & Hu1 & Hnp1 & Hok1).
  destruct o1 as [b|e|s]; [|by eexists _, _; split_and!; [done|done|done|intros [? [=]]]|by edestruct Hnp1].
  destruct (unmarshal_session sj b) as [data|];
    [|eexists _, _; split_and!; [done|done|done|intros [? [=]]]].
  rewrite exec_bind. change (Now sys) with (time_Now (X:=X) env).
  change (exec (time_Now env) w1) with (ticks 1 w1, Ok (E:=error) (clock env (w_tick w1))). cbv iota beta.
  assert (untouched w (ticks 1 w1)) as Hu1' by exact Hu1.
  rewrite exec_bind. destruct (marshal_session sj _) as [b'|].
  - rewrite exec_ignore. destruct (exec_redis_Set (key sid) b' ttl (ticks 1 w1)) as (w2 & o2 & -> & Hu2 & Hnp2).
    destruct o2 as [u|e|s]; [| |by edestruct Hnp2].
    all: eexists _, _; split_and!; [done|destruct Hu1', Hu2; split; congruence|done|intros _; apply Hok1; by eexists].
  - rewrite exec_ret. eexists _, _. split_and!; [done|done|done|intros _; apply Hok1; by eexists].
Qed.

(** A request whose token is valid at a world and whose session, if the token
    names one, can be read. *)
Definition authenticated (r : Request) (c : Claims) (w w' : World X) : Prop :=
  exists token, Header_Get r "Authorization" = "Bearer " +:+ token /\
  exec (Verify token) w = (ticks 1 w, Ok c) /\
  if String.eqb (cl_SessionID c) "" then w' = ticks 1 w
  else exists data, exec (Get client sys sj ttl (cl_SessionID c)) (ticks 1 w) = (w', Ok data).

Lemma prefix_Some pre s : String.prefix pre s = true -> exists t, s = pre +:+ t.
Proof.
  revert s. induction pre as [|c pre IH]; intros s; [by exists s|].
  destruct s as [|d s]; simpl; [done|]. destruct (ascii_dec c d) as [->|]; [|done].
  intros [t ->]%IH. by exists t.
Qed.

Definition with_claims (c : Claims) (r : Request) : Request :=
  WithContext (WithClaims c (r_Context r)) r.

Lemma RequireAuth_gate next r vars wr w :
  (exists c w', authenticated r c w w' /\ untouched w w' /\
     exec (RequireAuth sys p cj tokenSvc client sj ttl lib encode_body next r vars wr) w =
     exec (next (with_claims c r) vars wr) w') \/
  (exists w' msg,
     exec (RequireAuth sys p cj tokenSvc client sj ttl lib encode_body next r vars wr) w =
       (w', (writeError StatusUnauthorized msg wr, None)) /\ untouched w w').
Proof.
  unfold RequireAuth. destruct (String.eqb _ "" || _) eqn:Hpre.
  { right. by exists w, "missing or invalid authorization header". }
  apply orb_false_iff in Hpre as [_ Hpre]. apply negb_false_iff, prefix_Some in Hpre as [token Htok].
  rewrite Htok, TrimPrefix_app, exec_invoke.
  pose proof (exec_Verify (X:=X) env p cj tokenSvc token w) as Hv.
  destruct (exec (Verify token) w) as [w1 o] eqn:Hex. destruct (token_claims p cj tokenSvc token) as [c|];
    [|injection Hv as -> ->; right; by exists w, "invalid or expired token"].
  injection Hv as -> ->. unfold validity.
  destruct (_ <? _) eqn:Hexp; [right; by exists (ticks 1 w), "invalid or expired token"|].
  destruct (_ || _) eqn:Hempty; [right; by exists (ticks 1 w), "invalid or expired token"|].
  assert (exec (Verify token) w = (ticks 1 w, Ok c)) as Hok
    by by rewrite Hex; unfold validity; rewrite Hexp, Hempty.
  destruct (String.eqb (cl_SessionID c) "") eqn:Hsid.
  { left. exists c, (ticks 1 w). split; [|done]. exists token. rewrite Hsid. by split_and!. }
  rewrite exec_invoke.
  destruct (exec_session_Get (cl_SessionID c) (ticks 1 w)) as (w2 & o & Hg & Hu & Hnp & _).
  rewrite Hg. destruct o as [data|e|s]; [| |by edestruct Hnp].
  - left. exists c, w2. split; [|by split]. exists token. rewrite Hsid. split_and!; [done|done|]. by exists data.
  - right. by exists w2, "session expired or revoked".
Qed.

Lemma protected_handler rt : rt ∈ protected ->
  exists next, rt_handler rt = RequireAuth sys p cj tokenSvc client sj ttl lib encode_body next.
Proof. intros ([[m pat] h] & -> & _)%list_elem_of_fmap. by exists h. Qed.
Lemma protected_is_registered rt : rt ∈ protected -> rt ∈ routes.
Proof. intros H. apply elem_of_app. by right. Qed.

(** What writeJSON sends to a writer that has sent nothing. *)
Lemma writeJSON_sends st v wr : wr_sent wr = None ->
  exists h, wr_sent (writeJSON st v wr) = Some (st, h) /\
    wr_body (writeJSON st v wr) = (wr_body wr ++ default [] (encode_body v))%list.
Proof.
  destruct wr as [hd s b rw l]. simpl. intros ->. unfold Http.writeJSON, WriteHeader, Write.
  destruct rw, (encode_body v); simpl; rewrite ?app_nil_r; by eexists.
Qed.

Lemma rejected r rt vars w :
  rt ∈ protected -> match_method (rt_method rt) r = true ->
  match_path (rt_pattern rt) (r_Path r) = Some vars ->
  (forall c w', ~ authenticated r c (ticks 2 w) w') ->
  exists w' wr h, exec (ServeHTTP r) w = (w', (wr, None)) /\
    wr_sent wr = Some (StatusUnauthorized, h) /\ untouched w w'.
Proof.
  intros Hin Hm Hp Hno. rewrite (exec_ServeHTTP r rt vars) by auto using protected_is_registered.
  destruct (protected_handler rt Hin) as [next ->].
  set (now := clock env (w_tick w)).
  destruct (RequireAuth_gate next (received now r) vars (prepared now) (ticks 2 w))
    as [(c & w' & Ha & _)|(w' & msg & -> & Hu)]; [by apply Hno in Ha|].
  destruct (writeJSON_sends StatusUnauthorized (BStrings [("error", msg)]) (prepared now))
    as (h & Hh & _); [done|].
  eexists (ticks 1 w'), _, h. split_and!; [done|exact Hh|exact Hu].
Qed.

(** C8. Every route but the seven public ones is behind authentication: a
    request to it that does not carry a bearer token that verifies, and, when
    the token names a session, whose session cannot be read, is answered 401
    with the tables and private keys untouched. *)
Theorem protected_routes_require_session r rt vars w :
  rt ∈ routes -> rt_key rt ∉ public_keys ->
  match_method (rt_method rt) r = true -> match_path (rt_pattern rt) (r_Path r) = Some vars ->
  (forall c w', ~ authenticated r c (ticks 2 w) w') ->
  exists w' wr h, exec (ServeHTTP r) w = (w', (wr, None)) /\
    wr_sent wr = Some (StatusUnauthorized, h) /\ untouched w w'.
Proof.
  intros Hin Hpub. apply rejected. apply elem_of_app in Hin as [Hin|Hin]; [|done].
  exfalso. apply Hpub. unfold public_routes in Hin.
  repeat (apply elem_of_cons in Hin as [->|Hin]; [vm_compute; set_solver|]). by apply elem_of_nil in Hin.
Qed.

(** A revoked session ends its token: once the session is not stored any
    more, every protected route answers 401 to a request with the token that
    was issued for it, although the token's signature still verifies, whatever
    happens to the commands and whatever else is stored. *)
Theorem revoked_session_rejects_token token c r rt vars w :
  token_claims p cj tokenSvc token = Some c -> cl_SessionID c <> "" ->
  content (w_ext w) !! key (cl_SessionID c) = None ->
  Header_Get r "Authorization" = "Bearer " +:+ token ->
  rt ∈ protected -> match_method (rt_method rt) r = true ->
  match_path (rt_pattern rt) (r_Path r) = Some vars ->
  exists w' wr h, exec (ServeHTTP r) w = (w', (wr, None)) /\
    wr_sent wr = Some (StatusUnauthorized, h) /\ untouched w w'.
Proof.
  intros Htc Hsid Hnone Hauth Hin Hm Hp. apply (rejected r rt vars); [done..|].
  intros c' w' (token' & Htok & Hv & Hs). rewrite Hauth in Htok.
  apply (f_equal (fun t => TrimPrefix t "Bearer ")) in Htok. rewrite !TrimPrefix_app in Htok. subst token'.
  rewrite (exec_Verify (X:=X) env), Htc in Hv. injection Hv as Hv.
  assert (c' = c) as -> by (unfold validity in Hv; repeat case_match; by simplify_eq).
  rewrite (proj2 (String.eqb_neq _ _) Hsid) in Hs. destruct Hs as [data Hg].
  destruct (exec_session_Get (cl_SessionID c) (ticks 1 (ticks 2 w))) as (w2 & o & Hg' & _ & _ & Hok).
  rewrite Hg in Hg'. injection Hg' as <- <-. destruct Hok as [? Hsome]; [by eexists|].
  change (w_ext (ticks 1 (ticks 2 w))) with (w_ext w) in Hsome. congruence.
Qed.
End sessions.
End gateway.
