(* ===== verification/HttpDemo.v ===== *)
(** * HttpDemo: the gateway on concrete requests

    The gateway over the concrete database, server and codecs of the other
    files, a WebAuthn library whose answer is the length of the body, and the
    theorems of HttpFacts at requests that evaluate. *)

From Stdlib Require Import ZArith Lia Ascii String.
From stdpp Require Import base list strings numbers gmap pretty.
From S2P Require Import Prelude Bytes Errors Model Repository World Schema Postgres TenantService.
From S2P Require Import IdentityService KeyService Crypto Argon2 SchemaFacts Guarantees Integrity.
From S2P Require Import Runs System Demo Store StoreFacts Jwt JwtFacts Grpc WebAuthn WebAuthnFacts.
From S2P Require Import Http HttpFacts.
Open Scope string_scope.
Open Scope Z_scope.

(** The authenticator's counter is the length of the request's body. *)
Definition demo_http_lib : WebAuthnLib (World rcontent) Request :=
  mkWebAuthnLib _ _ unit unit bytes Some Some
    (fun _ => ret (tt, [])) (fun _ _ r => ret (mkWCredential (Some [Byte.x07]) (Some [Byte.x08]) "none" (Some []) 0))
    (ret (tt, [])) (fun _ => ret (tt, []))
    (fun u _ r => match WebAuthnCredentials u with
                  | c :: _ => ret (mkWCredential (wc_ID c) (wc_PublicKey c) "none" (Some [])
                                     (Z.of_nat (List.length (r_Body r))))
                  | [] => throw (ENew "no credential")
                  end).

(** No body parses, except the empty object of an actor. *)
Definition demo_dec : Decoders :=
  mkDecoders (fun _ => None) (fun _ => None) (fun _ => None) (fun _ => None) (fun _ => None)
    (fun b => match b with [] => Some ("t1", "") | _ => None end) (fun _ => None) (fun _ => None).

(** The text that identifies the value. *)
Definition demo_body (v : Body unit unit) : option bytes :=
  match v with
  | BIdentity i => Some (s2b ("identity " +:+ i_ID i +:+ " of " +:+ i_TenantID i))
  | BLoggedIn i t h token sid => Some (s2b ("session " +:+ sid +:+ " token " +:+ token))
  | BStrings ((_, v) :: _) => Some (s2b v)
  | _ => None
  end.

Definition demo_ServeHTTP : Request -> prog (World rcontent) result :=
  ServeHTTP (repos demo_env demo_json) (cryptoSvc demo_env demo_prims demo_IDKey demo_json demo_cfg)
     (system demo_env) demo_prims demo_json demo_cj demo_tokens redis1 demo_sj day
     demo_http_lib demo_dec demo_body.

Definition demo_routes : list (route (W:=World rcontent)) :=
  registerRoutes (repos demo_env demo_json) (cryptoSvc demo_env demo_prims demo_IDKey demo_json demo_cfg)
     (system demo_env) demo_prims demo_json demo_cj demo_tokens redis1 demo_sj day
     demo_http_lib demo_dec demo_body.

(** Alice's token, issued at the start for the session s1. *)
Definition demo_token : string :=
  match snd (exec (Issue demo_prims demo_sys demo_json demo_cj demo_tokens demo_claims "s1")
               (demo_world "active" "active")) with
  | Ok (t, _) => t
  | _ => ""
  end.
Definition bearer (token : string) : header := {["Authorization" := "Bearer " +:+ token]}.

Definition get_bob (h : header) : Request :=
  mkRequest "GET" ["v1"; "identities"; "bob"] [("tenant_id", "t2")] h [] "10.0.0.1:4000" Background.

(** The gateway does not tie a request to the tenant of its token: with a
    session of tenant t1 and its token, a request for an identity of tenant t2
    that names t2 in its query is answered with this identity. *)
Theorem cross_tenant_read :
  (exists w c, exec (Verify demo_prims (system demo_env) demo_cj demo_tokens demo_token)
     (demo_store (with_session hour hour)) = (w, Ok c) /\ cl_TenantID c = "t1") /\
  exists w wr h, exec (demo_ServeHTTP (get_bob (bearer demo_token)))
    (demo_store (with_session hour hour)) = (w, (wr, None)) /\
  wr_sent wr = Some (StatusOK, h) /\ wr_body wr = s2b "identity bob of t2".
Proof.
  split; [eexists _, _; split; vm_compute; reflexivity|].
  eexists _, _, _. split; [vm_compute; reflexivity|]. split; vm_compute; reflexivity.
Qed.

Lemma demo_route_of_bob :
  { rt | demo_routes !! 13%nat = Some rt /\ match_method (rt_method rt) (get_bob ∅) = true /\
         match_path (rt_pattern rt) ["v1"; "identities"; "bob"] = Some [("id", "bob")] }.
Proof. eexists. split; [reflexivity|]. split; reflexivity. Defined.
Definition bob_route : route (W:=World rcontent) := proj1_sig demo_route_of_bob.

Lemma routes_unambiguous_witness :
  let wr := newWriter in
  mux (repos demo_env demo_json) (cryptoSvc demo_env demo_prims demo_IDKey demo_json demo_cfg)
     (system demo_env) demo_prims demo_json demo_cj demo_tokens redis1 demo_sj day
     demo_http_lib demo_dec demo_body (get_bob ∅) [] wr =
  rt_handler bob_route (get_bob ∅) [("id", "bob")] wr.
Proof.
  intros wr. apply (routes_unambiguous (X:=rcontent)); [|reflexivity..].
  by apply (list_elem_of_lookup_2 _ 13%nat).
Defined.

Lemma protected_routes_require_session_witness :
  exists w' wr h, exec (demo_ServeHTTP (get_bob ∅)) (demo_store ∅) = (w', (wr, None)) /\
    wr_sent wr = Some (StatusUnauthorized, h) /\ untouched (demo_store ∅) w'.
Proof.
  apply (protected_routes_require_session (X:=rcontent) demo_env demo_prims demo_IDKey demo_json
    demo_cfg demo_cj demo_tokens redis1 demo_sj day demo_http_lib demo_dec demo_body
    id ticking (fun _ => false) (get_bob ∅) bob_route [("id", "bob")]).
  - by apply (list_elem_of_lookup_2 _ 13%nat).
  - vm_compute. set_solver.
  - reflexivity.
  - reflexivity.
  - intros c w' (token & Hauth & _). discriminate Hauth.
Defined.

(** The token verifies, and its session was never stored. *)
Lemma revoked_session_rejects_token_witness :
  exists w' wr h, exec (demo_ServeHTTP (get_bob (bearer demo_token))) (demo_store ∅) = (w', (wr, None)) /\
    wr_sent wr = Some (StatusUnauthorized, h) /\ untouched (demo_store ∅) w'.
Proof.
  assert (exists c, token_claims demo_prims demo_cj demo_tokens demo_token = Some c /\
    cl_SessionID c = "s1") as (c & Hc & Hs) by (eexists; split; vm_compute; reflexivity).
  apply (revoked_session_rejects_token (X:=rcontent) demo_env demo_prims demo_IDKey demo_json
    demo_cfg demo_cj demo_tokens redis1 demo_sj day demo_http_lib demo_dec demo_body
    id ticking (fun _ => false) demo_token c (get_bob (bearer demo_token)) bob_route [("id", "bob")]).
  - exact Hc.
  - rewrite Hs. discriminate.
  - reflexivity.
  - reflexivity.
  - by apply (list_elem_of_lookup_2 _ 6%nat).
  - reflexivity.
  - reflexivity.
Defined.
