(* ===== verification/LoginFacts.v ===== *)
(** * LoginFacts: from a login to the protected routes

    The composition of the WebAuthn service, the session store, the token
    service and the gateway: what a login leaves is what the middleware asks
    for. *)

From Stdlib Require Import ZArith Lia Ascii String.
From stdpp Require Import base list strings numbers gmap pretty.
From S2P Require Import Prelude Bytes Errors Model Repository World Schema Postgres TenantService.
From S2P Require Import IdentityService KeyService Crypto Argon2 SchemaFacts Guarantees Integrity.
From S2P Require Import Runs System Demo IdentityFacts Store StoreFacts Jwt JwtFacts Grpc WebAuthn.
From S2P Require Import WebAuthnFacts Http HttpFacts HttpDemo.
Open Scope string_scope.
Open Scope Z_scope.

Section login.
Context {X : Type} (env : Env) (p : Prims) (IDKey : idkey) (json : Codec) (cfg : CryptoConfig).
Context `{!Reliable env, !PrimsOk p}.
Context (cj : ClaimsCodec) `{!ClaimsCodecOk cj} (sj : SessionCodec) `{!SessionCodecOk sj}.
Context (tokenSvc : TokenService) (seed : bytes).
Context (Hseed : ed25519_GenerateKey p seed = (ts_publicKey tokenSvc, ts_privateKey tokenSvc)).
Context (client : RedisClient (World X)) (content : X -> rcontent) (rclock : nat -> time).
Context `{!RedisOk client content rclock (fun _ => false)}.
Context (ttl : Z) (Httl : 0 < ttl).
Context (lib : WebAuthnLib (World X) Request) (dec : Decoders).
Context (encode_body : Body (CredentialCreation lib) (CredentialAssertion lib) -> option bytes).
Implicit Types w : World X.
Abbreviation repos := (repos (X:=X) env json).
Abbreviation crypto := (cryptoSvc (X:=X) env p IDKey json cfg).
Abbreviation sys := (system (X:=X) env).
Abbreviation ServeHTTP :=
  (ServeHTTP repos crypto sys p json cj tokenSvc client sj ttl lib dec encode_body).
Abbreviation RequireAuth := (RequireAuth sys p cj tokenSvc client sj ttl lib encode_body).
Abbreviation FinishAssertion := (FinishAssertion lib client repos crypto sys json).

(** The middleware hands a request that is authenticated to its handler. *)
Lemma RequireAuth_passes next r vars wr c w w' :
  authenticated env p cj tokenSvc client sj ttl r c w w' ->
  exec (RequireAuth next r vars wr) w = exec (next (with_claims c r) vars wr) w'.
Proof.
  intros (token & Hauth & Hv & Hs). unfold Http.RequireAuth. rewrite Hauth.
  unfold HasPrefix. rewrite prefix_app. simpl (String.eqb _ _ || _). cbv iota.
  rewrite TrimPrefix_app, exec_invoke, Hv. destruct (String.eqb (cl_SessionID c) "").
  - by subst w'.
  - destruct Hs as [data Hg]. by rewrite exec_invoke, Hg.
Qed.

(** The session id made of the random bytes of a tick. *)
Definition session_id (b : bytes) : string :=
  hex (take 4 b) +:+ "-" +:+ hex (take 2 (drop 4 b)) +:+ "-" +:+ hex (take 2 (drop 6 b)) +:+ "-" +:+
  hex (take 2 (drop 8 b)) +:+ "-" +:+ hex (drop 10 b).

Lemma session_id_utf8 b : valid_utf8 (session_id b) = true.
Proof. apply valid_utf8_ascii. unfold session_id. by rewrite !is_ascii_app, !is_ascii_hex. Qed.
Lemma session_id_nonempty b : session_id b <> "".
Proof. unfold session_id. by destruct (hex (take 4 b)). Qed.

Lemma exec_generateSessionID w :
  exec (generateSessionID sys) w = (ticks 1 w, Ok (session_id (drawn env (w_tick w) 16))).
Proof. unfold generateSessionID. rewrite exec_pbind. simpl RandRead. by rewrite exec_rand_Read. Qed.

(** The session and the claims of a login that was verified at tick [n]. *)
Definition login_session (r : Request) (t : string) (i : Identity) (n : nat) : SessionData :=
  mkSessionData (session_id (drawn env n 16)) (i_ID i) t (i_Handle i)
    (clock env (1 + n)) (clock env (2 + n)) (Header_Get r "User-Agent") (r_RemoteAddr r).
Definition login_claims (i : Identity) (n : nat) : Claims :=
  stamped tokenSvc (mkClaims (i_ID i) 0 0 "" (i_TenantID i) (i_Handle i) (i_Type i) "")
    (session_id (drawn env n 16)) (clock env (6 + n)).
Definition login_token (i : Identity) (n : nat) : string :=
  let input := signingInput json cj (login_claims i n) in
  input +:+ "." +:+ jwtBase64 (ed25519_Sign p (ts_privateKey tokenSvc) (s2b input)).

Lemma exec_startSession r t i b k wr w :
  let n := w_tick w in
  let data := login_session r t i n in
  marshal_session sj data = Some b -> well_typed (content (w_ext w)) ->
  exists w', exec (startSession sys p json cj tokenSvc client sj ttl lib encode_body r (i_ID i) t
      (i_Handle i) (mkClaims (i_ID i) 0 0 "" (i_TenantID i) (i_Handle i) (i_Type i) "") wr k) w =
    exec (k (login_token i n) (sd_SessionID data)) w' /\
  w_tick w' = (7 + n)%nat /\
  content (w_ext w') !! key (sd_SessionID data) = Some (session_entry b (rclock (3 + n) + ttl)).
Proof.
  intros n data Hb Hwt. unfold startSession. rewrite exec_invoke, exec_generateSessionID.
  cbv iota beta. do 2 (rewrite exec_invoke; change (Now sys) with (time_Now (X:=X) env);
    change (exec (time_Now env) ?v) with (ticks 1 v, Ok (E:=error) (clock env (w_tick v)));
    cbv iota beta).
  rewrite exec_invoke, !ticks_ticks, !w_tick_ticks. fold n.
  change (mkSessionData _ _ _ _ _ _ _ _) with data.
  destruct (exec_Create client content rclock sj ttl Httl data b (ticks 3 w) Hb Hwt)
    as (w1 & d & He & (Ht & Hd & _ & _) & Hk & _).
  match goal with |- context [exec (Create client sj ttl data) ?v] =>
    change v with (ticks 3 w) end.
  rewrite He. cbv iota beta. rewrite exec_invoke. rewrite (exec_Issue env p json cj tokenSvc).
  rewrite Ht, w_tick_ticks. cbv iota beta zeta. eexists (ticks 1 w1).
  split; [done|]. rewrite w_tick_ticks, Ht, w_tick_ticks. split; [done|].
  change (w_ext (ticks 1 w1)) with (w_ext w1). rewrite Hd. rewrite w_tick_ticks in Hk. exact Hk.
Qed.
(** The texts of a login that go through JSON. *)
Definition login_texts (r : Request) (t : string) (i : Identity) : list string :=
  [t; Header_Get r "User-Agent"; r_RemoteAddr r; i_ID i; i_TenantID i; i_Handle i; i_Type i;
   cfg_Issuer (ts_cfg tokenSvc)].

Lemma login_utf8 r t i n : forallb valid_utf8 (login_texts r t i) = true ->
  session_utf8 (login_session r t i n) = true /\ claims_utf8 (login_claims i n) = true.
Proof.
  unfold login_texts, session_utf8, claims_utf8. simpl.
  rewrite !andb_true_iff. intros. rewrite session_id_utf8. naive_solver.
Qed.

(** The session of a login authenticates its token while both last. *)
Lemma login_authenticates r t i n b r' w :
  let data := login_session r t i n in
  let c := login_claims i n in
  forallb valid_utf8 (login_texts r t i) = true -> i_ID i <> "" -> i_TenantID i <> "" ->
  marshal_session sj data = Some b ->
  content (w_ext w) !! key (sd_SessionID data) = Some (session_entry b (rclock (3 + n) + ttl)) ->
  Header_Get r' "Authorization" = "Bearer " +:+ login_token i n ->
  Unix (clock env (w_tick w)) <= ExpiresAt c -> rclock (1 + w_tick w) < rclock (3 + n) + ttl ->
  exists w', authenticated env p cj tokenSvc client sj ttl r' c w w'.
Proof.
  intros data c Hutf Hid Ht Hb Hk Hauth Hexp Hlive. apply (login_utf8 r t i n) in Hutf as [Hs Hc].
  destruct (exec_Get_live env client content rclock sj ttl Httl (sd_SessionID data) data b
    (rclock (3 + n) + ttl) (ticks 1 w) Hs Hb Hk Hlive) as (w' & Hg & _).
  exists w', (login_token i n). split; [done|]. split.
  - rewrite (exec_Verify env).
    change (token_claims _ _ _ (login_token i n)) with (token_claims p cj tokenSvc
      (signingInput json cj c +:+ "." +:+
       jwtBase64 (ed25519_Sign p (ts_privateKey tokenSvc) (s2b (signingInput json cj c))))).
    rewrite (token_claims_issued p json cj tokenSvc c seed Hseed Hc).
    unfold validity. rewrite (proj2 (Z.ltb_ge _ _) Hexp). unfold c. simpl Subject. simpl cl_TenantID.
    by rewrite !(proj2 (String.eqb_neq _ _)).
  - unfold c. simpl cl_SessionID. rewrite (proj2 (String.eqb_neq _ _) (session_id_nonempty _)).
    by eexists.
Qed.

(** C12. A login opens the protected routes.  When the library and the
    signature counter accept a login, the gateway answers LoginComplete with
    status 200, a session id and a token such that any later request with
    this token is handed to its handler, with the claims of the identity that
    logged in, as long as the session is still stored and neither the token
    nor the session has expired: Redis keeps the session [ttl] from its
    creation, and the token expires its own TTL after it was issued. *)
Theorem login_opens_protected_routes r t h sid w w1 i b :
  r_Method r = "POST" -> r_Path r = ["v1"; "auth"; "login"; "complete"] ->
  Header_Get r "X-Tenant-ID" = t -> Header_Get r "X-Handle" = h -> Header_Get r "X-Session-ID" = sid ->
  t <> "" -> h <> "" -> sid <> "" ->
  exec (FinishAssertion t h sid (received (clock env (w_tick w)) r)) (ticks 2 w) = (w1, Ok i) ->
  i_ID i <> "" -> i_TenantID i <> "" -> forallb valid_utf8 (login_texts r t i) = true ->
  let n := w_tick w1 in
  marshal_session sj (login_session r t i n) = Some b -> well_typed (content (w_ext w1)) ->
  exists w2 wr hd token sid',
    exec (ServeHTTP r) w = (w2, (wr, None)) /\ wr_sent wr = Some (StatusOK, hd) /\
    wr_body wr = default [] (encode_body (BLoggedIn (i_ID i) (i_TenantID i) (i_Handle i) token sid')) /\
    forall r' w3,
      Header_Get r' "Authorization" = "Bearer " +:+ token ->
      content (w_ext w3) !! key sid' = content (w_ext w2) !! key sid' ->
      Unix (clock env (w_tick w3)) <= Unix (clock env (6 + n) + TTL (ts_cfg tokenSvc)) ->
      rclock (1 + w_tick w3) < rclock (3 + n) + ttl ->
      exists c w4, Subject c = i_ID i /\ cl_TenantID c = i_TenantID i /\ cl_SessionID c = sid' /\
        forall next vars wr', exec (RequireAuth next r' vars wr') w3 = exec (next (with_claims c r') vars wr') w4.
Proof.
  intros Hm Hp Ht Hh Hs Htne Hhne Hsne Hfin Hid Htid Hutf n Hb Hwt.
  set (now := clock env (w_tick w)) in *.
  set (k := fun token sid' => finished (W:=World X) (writeJSON lib encode_body StatusOK
       (BLoggedIn (i_ID i) (i_TenantID i) (i_Handle i) token sid') (prepared now))).
  destruct (exec_startSession (received now r) t i b k (prepared now) w1 Hb Hwt)
    as (w2 & He & _ & Hk).
  destruct (writeJSON_sends lib encode_body StatusOK
    (BLoggedIn (i_ID i) (i_TenantID i) (i_Handle i) (login_token i n)
       (sd_SessionID (login_session r t i n))) (prepared now)) as (hd & Hsent & Hbody); [done|].
  eexists (ticks 1 w2), (logged r now (clock env (1 + w_tick w)) (clock env (w_tick w2)) _), hd,
    (login_token i n), _. split; [|split; [exact Hsent|split; [exact Hbody|]]].
  - rewrite (exec_ServeHTTP env p IDKey json cfg cj tokenSvc client sj ttl lib dec encode_body r
      (mkRoute "POST" [Lit "v1"; Lit "auth"; Lit "login"; Lit "complete"]
         (LoginComplete repos crypto sys p json cj tokenSvc client sj ttl lib encode_body)) []).
    + fold now. unfold rt_handler, LoginComplete.
      change (Header_Get (received now r)) with (Header_Get r). rewrite Ht, Hh, Hs.
      rewrite !(proj2 (String.eqb_neq _ _)) by done. simpl (_ || _). cbv iota.
      rewrite exec_invoke, Hfin. fold k. rewrite He. reflexivity.
    + apply elem_of_app. left. unfold public_routes. set_solver.
    + unfold match_method. simpl rt_method. by rewrite Hm.
    + by rewrite Hp.
  - intros r' w3 Hauth Hsame Hexp Hlive.
    destruct (login_authenticates r t i n b r' w3) as [w4 Ha]; try done.
    { exact (eq_trans Hsame Hk). }
    exists (login_claims i n), w4. split_and!; [done..|]. intros next vars wr'. by apply RequireAuth_passes.
Qed.
End login.

(** ** Alice logs in and lists her sessions *)

Definition login_request : Request :=
  mkRequest "POST" ["v1"; "auth"; "login"; "complete"] []
    (<["X-Tenant-ID" := "t1"]> (<["X-Handle" := "alice"]> {["X-Session-ID" := "c"]}))
    (replicate 6 Byte.x00) "10.0.0.1:4000" Background.

Definition login_result : World rcontent * outcome error Identity :=
  exec (FinishAssertion demo_http_lib redis1 (repos demo_env demo_json)
          (cryptoSvc demo_env demo_prims demo_IDKey demo_json demo_cfg) (system demo_env) demo_json
          "t1" "alice" "c" login_request) (ticks 2 (demo_login_world 5)).

Lemma login_opens_protected_routes_witness :
  exists w2 wr hd token sid,
    exec (demo_ServeHTTP login_request) (demo_login_world 5) = (w2, (wr, None)) /\
    wr_sent wr = Some (StatusOK, hd) /\
    wr_body wr = default [] (demo_body (BLoggedIn "alice" "t1" "alice" token sid)) /\
    exists c w4, Subject c = "alice" /\
      exec (RequireAuth (system demo_env) demo_prims demo_cj demo_tokens redis1 demo_sj day
              demo_http_lib demo_body (fun _ _ wr => finished wr) (get_bob (bearer token)) []
              (newWriter)) w2 = (w4, (newWriter, None)).
Proof.
  destruct (login_opens_protected_routes (X:=rcontent) demo_env demo_prims demo_IDKey demo_json
    demo_cfg demo_cj demo_sj demo_tokens (replicate 32 Byte.x00) eq_refl redis1 id ticking day eq_refl
    demo_http_lib demo_dec demo_body login_request "t1" "alice" "c" (demo_login_world 5)
    (fst login_result) (match snd login_result with Ok i => i | _ => scanIdentity (demo_identity "" "" "" "" "") end)
    (demo_text (login_session demo_env login_request "t1"
       (match snd login_result with Ok i => i | _ => scanIdentity (demo_identity "" "" "" "" "") end)
       (w_tick (fst login_result)))))
    as (w2 & wr & hd & token & sid & He & Hsent & Hbody & Hnext);
    [reflexivity..|discriminate|discriminate|discriminate|vm_compute; reflexivity|
     vm_compute; discriminate|vm_compute; discriminate|vm_compute; reflexivity|vm_compute; reflexivity| |].
  - assert (id (w_ext (fst login_result)) = ∅) as -> by (vm_compute; reflexivity).
    split; intros k e He; discriminate He.
  - assert (w_tick w2 = 22%nat) as Ht.
    { apply (f_equal (fun x => w_tick (fst x))) in He. vm_compute in He. exact (eq_sym He). }
    exists w2, wr, hd, token, sid.
    split; [exact He|]. split; [exact Hsent|]. split; [exact Hbody|].
    destruct (Hnext (get_bob (bearer token)) w2) as (c & w4 & Hsub & _ & _ & Hreq);
      [reflexivity|reflexivity|rewrite Ht; vm_compute; discriminate|rewrite Ht; vm_compute; reflexivity|].
    exists c, w4. split; [exact Hsub|]. rewrite Hreq. reflexivity.
Defined.
