(* ===== verification/RequestWalk.v ===== *)
(** * RequestWalk: what every request relies on

    A logic for the whole server.  An invariant that the steps of the tables,
    the random source and the operations of the session store keep
    ([RequestsKeep]) is kept by every request on either transport, whatever it
    asks for: the handlers are walked once, here, for all such invariants. *)

From Stdlib Require Import ZArith Lia Ascii String.
From stdpp Require Import base list sorting strings numbers gmap.
From S2P Require Import Prelude Bytes Errors Model Repository World Schema Postgres TenantService.
From S2P Require Import IdentityService KeyService Crypto Argon2 SchemaFacts StatementFacts.
From S2P Require Import Guarantees Integrity System Store Jwt Grpc Rpc RpcFacts WebAuthn.
From S2P Require Import WebAuthnFacts Http HttpFacts.
Open Scope string_scope.
Open Scope Z_scope.

Create HintDb rely.

Section walk.
Context {X : Type} (env : Env) (p : Prims) (IDKey : idkey) (json : Codec) (cfg : CryptoConfig).
Context (cj : ClaimsCodec) (tokenSvc : TokenService).
Context (client : RedisClient (World X)) (sj : SessionCodec) (ttl : Z).
Context (lib : WebAuthnLib (World X) Request) (dec : Decoders).
Context (encode_body : Body (CredentialCreation lib) (CredentialAssertion lib) -> option bytes).
Context (fmt_v : any -> string) (codec : GrpcCodec).
Context (serve_rpc : list (registered (World X)) -> string -> bytes -> H (World X) bytes).
Context `{!LibSteps lib, !GrpcServerOk codec serve_rpc}.
Abbreviation repos := (repos (X:=X) env json).
Abbreviation crypto := (cryptoSvc (X:=X) env p IDKey json cfg).
Abbreviation sys := (sys (X:=X) env).

(** ** The services *)

(** What the commands to PostgreSQL and the readings of the environment do: [B]
    is a relation on the tables that the statements stay in. *)
Context (B : DB -> DB -> Prop) `{!PreOrder B}.
Context `{!Statements env B (fun _ => True), !TenantStatements env B}.
Abbreviation D := (db_steps (X:=X) B).

Lemma db_quiet {A} (m : prog (World X) A) : steps_in (db_steps eq) m -> steps_in D m.
Proof. apply steps_in_mono. intros w w'. apply db_steps_mono. by intros db ? <-. Qed.

#[local] Instance services_repos : RepositoriesSteps D (fun _ => True) repos :=
  postgres_steps env json B (fun _ => True).
#[local] Instance services_tenants : TenantWrites D repos := _.
#[local] Instance services_crypto : CryptoSteps D crypto := service_steps env p IDKey json cfg B.
#[local] Instance services_sys : SysSteps D sys := system_steps env B.

Lemma lib_quiet :
  (forall u, steps_in D (lib_BeginRegistration lib u)) /\
  (forall u s r, steps_in D (lib_FinishRegistration lib u s r)) /\
  steps_in D (lib_BeginDiscoverableLogin lib) /\
  (forall u, steps_in D (lib_BeginLogin lib u)) /\
  (forall u s r, steps_in D (lib_FinishLogin lib u s r)).
Proof. split_and!; intros; apply db_quiet, LibSteps0. Qed.

Hint Extern 0 => exact Logic.I : steps.
Ltac service_step :=
  first
    [ eapply CreateTenant_steps | eapply GetTenant_steps | eapply SuspendTenant_steps
    | eapply ActivateTenant_steps | eapply CreateIdentity_steps | eapply GetIdentity_steps
    | eapply GetIdentityByHandle_steps | eapply ListIdentities_steps | eapply UpdateIdentity_steps
    | eapply DeactivateIdentity_steps | eapply SuspendIdentity_steps
    | eapply ReactivateIdentity_steps | eapply GenerateKey_steps | eapply GetKey_steps
    | eapply ListKeys_steps | eapply RotateKey_steps | eapply RevokeKey_steps
    | apply (ss_Now (G:=D)) | apply (ss_RandRead (G:=D)) | apply lib_quiet ];
  (apply _ || exact Logic.I || done).
Hint Extern 3 (steps_in D _) => service_step : steps.

(** ** What is asked of an invariant *)

Context (I : World X -> Prop) (G : World X -> World X -> Prop).
Abbreviation rely := (rely I G).

(** Of the services and of the store, but for what a login does to it. *)
Class StoreKeep : Prop := {
  rk_quiet w w' : I w -> D w w' -> I w' /\ G w w';
  rk_Get sid : rely (Get client sys sj ttl sid);
  rk_Delete sid : rely (Delete client sj sid);
  rk_ListByIdentity id : rely (ListByIdentity client sj id);
  rk_SetChallenge id b t : rely (SetChallenge client id b t);
  rk_GetChallenge id : rely (GetChallenge client id) }.
Context `{!StoreKeep}.

Lemma rely_quiet {A} (m : prog (World X) A) : steps_in D m -> rely m.
Proof. apply rely_steps_in. apply rk_quiet. Qed.

Hint Resolve rely_Ret rely_ret rely_throw rk_Get rk_Delete rk_ListByIdentity rk_SetChallenge
  rk_GetChallenge : rely.
Hint Extern 5 (Prelude.rely I G _) => apply rely_quiet; solve [eauto with steps] : rely.

(** Walks a program down to what the hints know. *)
Ltac rely_walk :=
  pose proof services_repos; pose proof services_tenants; pose proof services_crypto;
  pose proof services_sys;
  repeat first
    [ solve [eauto with rely]
    | apply rely_bind; [|intros ?]
    | apply rely_mapErr | apply rely_try | apply rely_ignore
    | case_match
    | case_decide ].

(** ** WebAuthn *)

Lemma storeSession_rely m s x : rely (storeSession lib client sys m s x).
Proof. unfold storeSession, generateChallengeID. rely_walk. Qed.
Lemma takeSession_rely g u sid : rely (takeSession lib client g u sid).
Proof. unfold takeSession. rely_walk. Qed.
Hint Resolve storeSession_rely takeSession_rely : rely.
Lemma BeginRegistration_rely t i : rely (BeginRegistration lib client repos crypto sys json t i).
Proof. unfold BeginRegistration. rely_walk. Qed.
Lemma FinishRegistration_rely `{!CredentialWrites D (fun _ => True) repos} t i s r :
  rely (FinishRegistration lib client repos crypto p json t i s r).
Proof. unfold FinishRegistration. rely_walk. Qed.
Lemma BeginAssertion_rely t h : rely (BeginAssertion lib client repos crypto sys json t h).
Proof. unfold BeginAssertion, loadPasskeys. rely_walk. Qed.
Lemma FinishAssertion_rely t h s r :
  rely (FinishAssertion lib client repos crypto sys json t h s r).
Proof. unfold FinishAssertion, loadPasskeys, auditLogin. rely_walk. Qed.
Hint Resolve BeginRegistration_rely BeginAssertion_rely : rely.

(** Of the end of a registration or login: [enters] is what a success
    of either shows, and under it a session with a [fresh] id is stored. *)
Context (enters : Prop) (fresh : string -> Prop).
Class RequestsKeep : Prop := {
  rk_FinishRegistration t i s r :
    keeps I G (on_ok (fun _ => enters)) (FinishRegistration lib client repos crypto p json t i s r);
  rk_FinishAssertion t h s r :
    keeps I G (on_ok (fun _ => enters)) (FinishAssertion lib client repos crypto sys json t h s r);
  rk_fresh : enters -> keeps I G (on_ok fresh) (generateSessionID sys);
  rk_Create data : enters -> fresh (sd_SessionID data) -> rely (Create client sj ttl data) }.
Context `{!RequestsKeep}.

(** ** The gateway *)

Lemma invoke_keeps {A} (Q : outcome error A -> Prop) (Q' : result -> Prop) (m : M (World X) A) wr k :
  keeps I G Q m -> (forall a, Q (Ok a) -> keeps I G Q' (k (inr a))) ->
  (forall e, Q (Err e) -> keeps I G Q' (k (inl e))) -> (forall s, Q (Panic s) -> Q' (wr, Some s)) ->
  keeps I G Q' (invoke m wr k).
Proof.
  intros Hm Hk He Hs. eapply keeps_pbind; [exact Hm|].
  intros [a|e|s] Ho; [by apply Hk|by apply He|by apply Hs].
Qed.
Lemma invoke_rely {A} (m : M (World X) A) wr k :
  rely m -> (forall x, rely (k x)) -> rely (invoke m wr k).
Proof. intros Hm Hk. apply rely_pbind; [done|]. intros [a|e|s]; auto with rely. Qed.
Lemma invoke_rely_post {A} (Q : A -> Prop) (m : M (World X) A) wr k :
  keeps I G (on_ok Q) m -> (forall a, Q a -> rely (k (inr a))) -> (forall e, rely (k (inl e))) ->
  rely (invoke m wr k).
Proof.
  intros Hm Hk He. eapply rely_pbind_post; [exact Hm|]. intros [a|e|s] Ho; auto with rely.
Qed.
Lemma serve_rely {A} (m : M (World X) A) status body wr :
  rely m -> rely (serve lib encode_body m status body wr).
Proof. intros Hm. apply invoke_rely; [done|]. intros x. apply rely_Ret. Qed.
Lemma finished_rely (wr : Writer) : rely (finished (W:=World X) wr).
Proof. apply rely_Ret. Qed.

Lemma Issue_rely t c s : rely (Issue p sys json cj t c s).
Proof. unfold Issue. rely_walk. Qed.
Lemma Verify_rely t s : rely (Verify p sys cj t s).
Proof. unfold Verify, Claims_Valid. rely_walk. Qed.
Lemma Now_rely : rely (Now sys).
Proof. eauto with rely. Qed.
Hint Resolve finished_rely Issue_rely Verify_rely Now_rely : rely.

Lemma startSession_rely r i t h c wr k :
  enters -> (forall x y, rely (k x y)) ->
  rely (startSession sys p json cj tokenSvc client sj ttl lib encode_body r i t h c wr k).
Proof.
  intros Hin Hk. unfold startSession. eapply invoke_rely_post; [by apply rk_fresh|intros sid Hsid|intros e; apply rely_Ret].
  do 2 (apply invoke_rely; [auto with rely|intros [?|?]]);
    auto with rely; (apply invoke_rely; [by apply rk_Create|]); intros [?|?]; auto with rely;
    (apply invoke_rely; auto with rely); intros [?|[? ?]]; auto with rely.
Qed.

(** Walks a handler. *)
Ltac handler_walk :=
  pose proof services_repos; pose proof services_tenants; pose proof services_crypto;
  pose proof services_sys;
  repeat first
    [ solve [eauto with rely]
    | apply serve_rely
    | apply invoke_rely; [|intros ?]
    | case_match ].

Abbreviation mux :=
  (mux repos crypto sys p json cj tokenSvc client sj ttl lib dec encode_body).
Abbreviation ServeHTTP :=
  (ServeHTTP repos crypto sys p json cj tokenSvc client sj ttl lib dec encode_body).

Lemma RegisterComplete_rely r vars wr :
  rely (RegisterComplete repos crypto sys p json cj tokenSvc client sj ttl lib encode_body r vars wr).
Proof.
  unfold RegisterComplete. case_match; [auto with rely|].
  eapply invoke_rely_post; [apply rk_FinishRegistration|intros a Hin|auto with rely].
  apply startSession_rely; [done|]. auto with rely.
Qed.
Lemma LoginComplete_rely r vars wr :
  rely (LoginComplete repos crypto sys p json cj tokenSvc client sj ttl lib encode_body r vars wr).
Proof.
  unfold LoginComplete. case_match; [auto with rely|].
  eapply invoke_rely_post; [apply rk_FinishAssertion|intros a Hin|auto with rely].
  apply startSession_rely; [done|]. auto with rely.
Qed.
Hint Resolve RegisterComplete_rely LoginComplete_rely : rely.

Lemma mux_rely r vs wr : rely (mux r vs wr).
Proof.
  unfold Http.mux. destruct (find_route _ r) as [[rt vars]|] eqn:Hf; [|handler_walk].
  apply find_route_Some in Hf as (Hin & _).
  unfold registerRoutes, public_routes, protected_routes, protected_handlers in Hin. simpl in Hin.
  repeat (apply elem_of_cons in Hin as [->|Hin]; [simpl rt_handler|]); [..|by apply elem_of_nil in Hin].
  1-7: unfold handleHealthz, handleCreateTenant, handleCreateIdentity, RegisterBegin, LoginBegin,
    withBody; handler_walk.
  all: unfold RequireAuth, Logout, ListSessions, RevokeSession, handleGetTenant, handleSuspendTenant,
    handleActivateTenant, handleGetIdentity, handleGetByHandle, handleListIdentities,
    handleUpdateIdentity, handleSuspendIdentity, handleReactivateIdentity, handleDeactivateIdentity,
    handleGenerateKey, handleGetKey, handleRotateKey, handleRevokeKey, withBody, withTenantQuery,
    withClaims;
    handler_walk.
Qed.

Lemma gateway_rely r : rely (ServeHTTP r).
Proof.
  unfold Http.ServeHTTP, gateway, Chain, Recover, RequestID, Logger, CORS.
  apply rely_pbind; [|intros [wr pnc]; auto with rely].
  apply invoke_rely; [auto with rely|intros [e|now]; [auto with rely|]].
  apply invoke_rely; [auto with rely|intros start]. apply rely_pbind.
  - case_match; [auto with rely|apply mux_rely].
  - intros [wr [pnc|]]; [auto with rely|]. apply invoke_rely; [auto with rely|].
    intros stop. destruct start, stop; auto with rely.
Qed.

(** The clock always answers. *)
Lemma Now_keeps : keeps I G (fun o => exists t, o = Ok t) (Now sys).
Proof.
  intros w Hw. assert (D w (bump w)) as Hb by (apply db_steps_same; simpl; (done || lia || apply _)).
  destruct (rk_quiet w (bump w) Hw Hb) as [HI HG]. split; [exact HI|]. split; [exact HG|]. by eexists.
Qed.
Lemma invoke_Now_keeps (Q : result -> Prop) wr k :
  (forall t, keeps I G Q (k (inr t))) -> keeps I G Q (invoke (Now sys) wr k).
Proof.
  intros Hk. eapply invoke_keeps; [apply Now_keeps|intros t _; apply Hk|by intros e [? [=]]..].
Qed.

(** What a route's handler leaves in the writer, the gateway leaves, if the log,
    the wrapper and an error written after it do not matter. *)
Lemma gateway_keeps (Q : Writer -> Prop) r rt vars :
  rt ∈ registerRoutes repos crypto sys p json cj tokenSvc client sj ttl lib dec encode_body ->
  match_method (rt_method rt) r = true ->
  match_path (rt_pattern rt) (r_Path r) = Some vars ->
  (forall wr rw, Q wr -> Q (set_rw rw wr)) -> (forall wr e, Q wr -> Q (slog e wr)) ->
  (forall wr msg, Q wr -> Q (writeError lib encode_body StatusInternalServerError msg wr)) ->
  (forall now, keeps I G (fun res => Q res.1) (rt_handler rt (received now r) vars (prepared now))) ->
  keeps I G (fun res => Q res.1 /\ res.2 = None) (ServeHTTP r).
Proof.
  intros Hin Hm Hp Hrw Hlog Herr Hh. unfold Http.ServeHTTP, gateway, Chain, Recover.
  apply (keeps_pbind _ _ (fun res => Q res.1)); [|intros [wr pnc] HQ; split; [|done]; simpl in *;
    destruct pnc; auto].
  unfold RequestID. apply invoke_Now_keeps. intros now. unfold Logger. apply invoke_Now_keeps.
  intros start. apply (keeps_pbind _ _ (fun res => Q res.1)).
  - unfold CORS. cbn [r_Method WithContext]. rewrite (routed_not_OPTIONS env p IDKey json cfg cj tokenSvc client
      sj ttl lib dec encode_body r rt Hin Hm).
    rewrite (mux_route env p IDKey json cfg cj tokenSvc client sj ttl lib dec encode_body
      (received now r) rt vars); [apply Hh|done..].
  - intros [wr pnc] HQ. simpl in HQ. destruct pnc; [by apply Hrw|]. apply invoke_Now_keeps.
    intros stop. by apply Hlog, Hrw.
Qed.

(** ** The gRPC server *)

Lemma orStatus_rely {A} (m : M (World X) A) : rely m -> rely (orStatus m).
Proof. intros Hm. apply rely_pbind; [done|]. intros [a|e|s]; apply rely_Ret. Qed.

(** The messages of a list. *)
Lemma rely_replies {A C} (f : A -> outcome status C) l : rely (mapM (fun a => Ret (f a)) l).
Proof.
  induction l as [|a l IH]; [apply rely_ret|]. cbn [mapM].
  apply rely_bind; [apply rely_Ret|intros b]. apply rely_bind; [done|intros bs]. apply rely_ret.
Qed.

Lemma unary_rely {T R} name (method : msg T -> H (World X) (msg R)) d :
  (forall req, rely (method req)) -> rely (unary_handler name method d None).
Proof.
  intros Hm. unfold unary_handler. case_match; [|apply rely_Ret..].
  apply rely_bind; [apply Hm|]. intros out. apply rely_ret.
Qed.

Abbreviation server := (New repos crypto sys json fmt_v).

Lemma methods_rely :
  Forall (fun m : string * _ => forall d, rely (m.2 d None)) (server ≫= rg_Methods).
Proof.
  pose proof services_repos. pose proof services_tenants. pose proof services_crypto.
  pose proof services_sys.
  repeat (apply Forall_cons; split; [intros d; apply unary_rely; intros req|]).
  all: try by apply Forall_nil.
  all: simpl in req; repeat match goal with x : _ * _ |- _ => destruct x end;
    cbn [newIdentityServer newKeyServer srv_CreateTenant srv_GetTenant srv_SuspendTenant
    srv_ActivateTenant srv_CreateIdentity srv_GetIdentity srv_GetIdentityByHandle
    srv_ListIdentities srv_UpdateIdentity srv_SuspendIdentity srv_ReactivateIdentity
    srv_DeactivateIdentity srv_GenerateKey srv_GetKey srv_ListKeys srv_RotateKey srv_RevokeKey].
  all: unfold rpcCreateTenant, rpcGetTenant, rpcSuspendTenant, rpcActivateTenant, rpcCreateIdentity,
    rpcGetIdentity, rpcGetIdentityByHandle, rpcListIdentities, rpcUpdateIdentity, rpcSuspendIdentity,
    rpcReactivateIdentity, rpcDeactivateIdentity, rpcGenerateKey, rpcGetKey, rpcListKeys, rpcRotateKey,
    rpcRevokeKey.
  all: try (apply rely_bind; [|intros ?]); try (apply orStatus_rely; eauto with rely; fail).
  all: repeat first [apply rely_Ret | apply rely_ret | apply rely_bind; [|intros ?] | apply rely_replies].
Qed.

Lemma serve_rpc_rely path b : rely (serve_rpc server path b).
Proof.
  destruct (find_method server path) as [h|] eqn:Hf; cycle 1.
  - destruct (serve_unknown server path b Hf) as [m ->]. apply rely_throw.
  - destruct (serve_method server path h b Hf) as (m1 & m2 & ->).
    assert (forall d, rely (h d None)) as Hh.
    { unfold find_method in Hf. destruct (List.find _ _) as [m|] eqn:Hfind; [|done].
      injection Hf as <-. apply List.find_some in Hfind as [Hin _].
      apply list_elem_of_In, list_elem_of_bind in Hin as (rg & Hm & Hrg).
      apply list_elem_of_fmap in Hm as ([n h'] & -> & Hh'). simpl. intros d.
      eapply (proj1 (list.Forall_forall _ _) methods_rely (n, h')).
      apply list_elem_of_bind. eauto. }
    apply rely_bind; [apply Hh|]. intros [T out]. simpl. case_match; apply rely_Ret.
Qed.

(** ** Any requests *)

Inductive request := HttpRequest (r : Request) | GrpcRequest (path : string) (b : bytes).

(** The answer: what was written, and the panic that ended the handler if one
    did; or a message or a status. *)
Inductive reply :=
| HttpReply (wr : Writer) (pnc : option string)
| GrpcReply (o : outcome status bytes).

Definition handle_request (q : request) : prog (World X) reply :=
  match q with
  | HttpRequest r => pbind (ServeHTTP r) (fun '(wr, pnc) => Ret (HttpReply wr pnc))
  | GrpcRequest path b => pbind (serve_rpc server path b) (fun o => Ret (GrpcReply o))
  end.

Lemma handle_request_rely q : rely (handle_request q).
Proof.
  destruct q; (apply rely_pbind; [|intros ?; repeat case_match; apply rely_Ret]);
    [apply gateway_rely|apply serve_rpc_rely].
Qed.
End walk.
