(* ===== verification/RequestFacts.v ===== *)
(** * RequestFacts: any requests, on both transports, in any interleaving

    The theorems of file SystemFacts lifted to the requests that reach the
    server: whatever requests the gateway and the gRPC server handle at once,
    with whatever bodies, and whatever fails on the way in PostgreSQL, in Redis
    or in the random source, the tables keep their integrity and their history. *)

From Stdlib Require Import ZArith Lia Ascii String.
From stdpp Require Import base list sorting strings numbers gmap.
From S2P Require Import Prelude Bytes Errors Model Repository World Schema Postgres TenantService.
From S2P Require Import IdentityService KeyService Crypto Argon2 SchemaFacts StatementFacts.
From S2P Require Import Guarantees Integrity Runs System SystemFacts Demo Store StoreFacts Jwt.
From S2P Require Import JwtFacts Grpc Rpc RpcFacts WebAuthn WebAuthnFacts Http HttpFacts HttpDemo.
From S2P Require Import RequestWalk.
Open Scope string_scope.
Open Scope Z_scope.

Section requests.
Context {X : Type} (env : Env) (p : Prims) (IDKey : idkey) (json : Codec) (cfg : CryptoConfig).
Context (cj : ClaimsCodec) (tokenSvc : TokenService).
Context (client : RedisClient (World X)) (sj : SessionCodec) (ttl : Z).
Context (lib : WebAuthnLib (World X) Request) (dec : Decoders).
Context (encode_body : Body (CredentialCreation lib) (CredentialAssertion lib) -> option bytes).
Context (fmt_v : any -> string) (codec : GrpcCodec).
Context (serve_rpc : list (registered (World X)) -> string -> bytes -> H (World X) bytes).
Context (content : X -> rcontent) (rclock : nat -> time) (fault : nat -> bool).
Context `{!RedisOk client content rclock fault, !LibSteps lib, !GrpcServerOk codec serve_rpc}.
Abbreviation repos := (repos (X:=X) env json).
Abbreviation crypto := (cryptoSvc (X:=X) env p IDKey json cfg).
Abbreviation sys := (sys (X:=X) env).

(** What an action may do to the tables, whatever it does to the rest. *)
Definition tables (w w' : World X) : Prop := evolves env (w_db w) (w_db w').
#[export] Instance tables_preorder : PreOrder tables.
Proof. split; [by intros w|]. intros x y z. unfold tables. by intros; etrans. Qed.

Lemma db_steps_tables {A} G (m : prog (World X) A) :
  (forall db db', G db db' -> evolves env db db') -> steps_in (db_steps G) m -> steps_in tables m.
Proof. intros HG. apply steps_in_mono. intros w w' [Hdb _]. by apply HG. Qed.
Lemma quiet_tables {A} (m : prog (World X) A) : steps_in (db_steps eq) m -> steps_in tables m.
Proof. apply db_steps_tables. by intros db ? <-. Qed.

(** *** Redis *)

Lemma runs_tables {R} (m : M (World X) R) (cmd : rcommand R) :
  runs content rclock fault m cmd -> steps_in tables m.
Proof.
  intros (f & -> & Hf). apply steps_in_actO. intros w. specialize (Hf w). destruct (f w) as [w' o].
  destruct Hf as (Hdb & _). unfold tables. simpl. by rewrite Hdb.
Qed.
Lemma redis_tables :
  (forall k v t, steps_in tables (Redis_Set client k v t)) /\
  (forall k, steps_in tables (Redis_Get client k)) /\
  (forall k, steps_in tables (Redis_GetDel client k)) /\
  (forall k, steps_in tables (Redis_Del client k)) /\
  (forall k m, steps_in tables (Redis_SAdd client k m)) /\
  (forall k m, steps_in tables (Redis_SRem client k m)) /\
  (forall k t, steps_in tables (Redis_Expire client k t)) /\
  (forall k, steps_in tables (Redis_SMembers client k)).
Proof. split_and!; intros; eapply runs_tables, RedisOk0. Qed.
Hint Extern 1 (steps_in tables (Redis_Set _ _ _ _)) => apply redis_tables : steps.
Hint Extern 1 (steps_in tables (Redis_Get _ _)) => apply redis_tables : steps.
Hint Extern 1 (steps_in tables (Redis_GetDel _ _)) => apply redis_tables : steps.
Hint Extern 1 (steps_in tables (Redis_Del _ _)) => apply redis_tables : steps.
Hint Extern 1 (steps_in tables (Redis_SAdd _ _ _)) => apply redis_tables : steps.
Hint Extern 1 (steps_in tables (Redis_SRem _ _ _)) => apply redis_tables : steps.
Hint Extern 1 (steps_in tables (Redis_Expire _ _ _)) => apply redis_tables : steps.
Hint Extern 1 (steps_in tables (Redis_SMembers _ _)) => apply redis_tables : steps.

#[export] Instance sys_tables : SysSteps tables sys.
Proof. split; intros; apply quiet_tables; apply (system_steps env eq). Qed.

Hint Extern 1 (steps_in tables (Now _)) => apply (ss_Now (G:=tables)) : steps.
Hint Extern 1 (steps_in tables (RandRead _ _)) => apply (ss_RandRead (G:=tables)) : steps.

Lemma pipe_tables queue : Forall (steps_in tables) queue -> steps_in tables (pipe_Exec queue).
Proof. induction 1; cbn [pipe_Exec]; steps_walk. Qed.
Lemma Create_tables d : steps_in tables (Create client sj ttl d).
Proof.
  unfold Create. case_match; [|steps_walk]. apply steps_in_mapErr, pipe_tables.
  repeat constructor; apply redis_tables.
Qed.
Lemma Get_tables sid : steps_in tables (Get client sys sj ttl sid).
Proof. unfold Get. steps_walk. Qed.
Lemma Delete_tables sid : steps_in tables (Delete client sj sid).
Proof.
  unfold Delete. apply steps_in_bind; [steps_walk|intros b]. case_match; [|steps_walk].
  apply steps_in_mapErr, pipe_tables. repeat constructor; apply redis_tables.
Qed.
Lemma ListByIdentity_tables id : steps_in tables (ListByIdentity client sj id).
Proof.
  unfold ListByIdentity. apply steps_in_bind; [steps_walk|intros sids].
  induction sids as [|sid sids IH]; cbn [list_sessions]; steps_walk.
Qed.
Lemma SetChallenge_tables id b t : steps_in tables (SetChallenge client id b t).
Proof. unfold SetChallenge. steps_walk. Qed.
Lemma GetChallenge_tables id : steps_in tables (GetChallenge client id).
Proof. unfold GetChallenge. steps_walk. Qed.
#[local] Hint Resolve Create_tables Get_tables Delete_tables ListByIdentity_tables
  SetChallenge_tables GetChallenge_tables : steps.

Lemma in_tables {A} (m : prog (World X) A) : steps_in tables m -> rely (fun _ => True) tables m.
Proof. apply rely_steps_in. by split. Qed.
#[export] Instance store_in_tables :
  StoreKeep env client sj ttl (evolves env) (fun _ => True) tables.
Proof.
  split; intros; try (apply in_tables; eauto with steps; fail).
  match goal with H : db_steps _ _ _ |- _ => by destruct H end.
Qed.
#[export] Instance requests_in_tables :
  RequestsKeep env p IDKey json cfg client sj ttl lib (fun _ => True) tables True (fun _ => True).
Proof.
  split; intros; try (apply in_tables; eauto with steps; fail); apply rely_on_ok.
  - eapply FinishRegistration_rely with (B := evolves env); apply _.
  - eapply FinishAssertion_rely with (B := evolves env); apply _.
  - apply in_tables, steps_in_pbind; [eauto with steps|]. intros [?|?|?]; apply steps_in_Ret.
Qed.

Abbreviation handle_request :=
  (handle_request env p IDKey json cfg cj tokenSvc client sj ttl lib dec encode_body fmt_v serve_rpc).


(** C1. The whole server.  Any number of HTTP and gRPC requests are handled at
    once, public and protected, with any headers and bodies; their commands to
    PostgreSQL and Redis interleave in any order and any of them may fail.
    Well-formed tables stay well-formed, the audit log only grows, no row
    disappears, and what identifies a row never changes. *)
Theorem requests_keep_integrity qs sched w :
  db_ok env (w_db w) ->
  let db := w_db w in
  let db' := w_db (fst (run_sched sched w (handle_request <$> qs))) in
  db_ok env db' /\ db_audit db `prefix_of` db_audit db' /\
  rows_kept tenant_frozen (db_tenants db) (db_tenants db') /\
  rows_kept identity_frozen (db_identities db) (db_identities db') /\
  rows_kept key_frozen (db_keys db) (db_keys db') /\
  rows_kept credential_frozen (db_credentials db) (db_credentials db').
Proof.
  intros Hok db db'.
  destruct (pool_rely (fun _ => True) tables sched w (handle_request <$> qs)) as [_ Hev]; [done| |].
  { apply Forall_fmap, list.Forall_true. intros q. unfold compose. eapply handle_request_rely with (B := evolves env); apply _. }
  destruct Hev. split; [auto|]. by split_and!.
Qed.
End requests.

(** ** On concrete requests *)

#[export] Instance demo_http_lib_steps : LibSteps demo_http_lib.
Proof. split; intros; simpl; try apply steps_in_ret; repeat case_match; steps_walk. Qed.

(** A codec for the messages of one string and of no field, which panics like the
    library's on a message that does not reflect. *)
Definition needs_reflection {A} (refl : option unit) (o : outcome string A) : outcome string A :=
  match refl with
  | Some _ => o
  | None => Panic "runtime error: invalid memory address or nil pointer dereference"
  end.
Definition demo_codec : GrpcCodec :=
  mkGrpcCodec unit
    (fun T refl m => needs_reflection refl
       (match T return msg T -> outcome string bytes with
        | TSuspendTenantResponse | TActivateTenantResponse => fun _ => Ok []
        | TGetTenantRequest | TSuspendTenantRequest | TActivateTenantRequest => fun m => Ok (s2b m)
        | _ => fun _ => Err "unknown message"
        end m))
    (fun T refl b => needs_reflection refl
       (match T return outcome string (msg T) with
        | TSuspendTenantResponse | TActivateTenantResponse => Ok tt
        | TGetTenantRequest | TSuspendTenantRequest | TActivateTenantRequest => Ok (b2s b)
        | _ => Err "unknown message"
        end)).
#[export] Instance demo_codec_ok : ProtoCodecOk demo_codec.
Proof. split; by eexists. Qed.

Definition demo_serve (s : list (registered (World rcontent))) (path : string) (b : bytes)
    : H (World rcontent) bytes :=
  match find_method s path with
  | None => throw (mkStatus Unimplemented "unknown method")
  | Some h =>
    bind (h (fun T => match Unmarshal demo_codec T (ProtoReflect T) b with
                      | Ok m => Ok m
                      | Err e => Err (mkStatus Internal e)
                      | Panic msg => Panic msg
                      end) None)
      (fun out => match Marshal demo_codec (projT1 out) (ProtoReflect (projT1 out)) (projT2 out) with
                  | Ok b => ret b
                  | Err e => throw (mkStatus Internal e)
                  | Panic msg => panic msg
                  end)
  end.
#[export] Instance demo_serve_ok : GrpcServerOk demo_codec demo_serve.
Proof.
  split; intros; unfold demo_serve.
  - eexists. by case_match.
  - exists "unknown message", "unknown message". by case_match; simplify_eq.
Qed.

Definition suspend_t1 (h : header) : Request :=
  mkRequest "POST" ["v1"; "tenants"; "t1"; "suspend"] [] h [] "10.0.0.1:4000" Background.

(** A suspension of the tenant and a read of bob with a token, an unknown gRPC
    method, and a known one, which panics; interleaved. *)
Lemma requests_keep_integrity_witness :
  let w := demo_store (with_session hour hour) in
  let r := run_sched [0; 2; 0; 1; 2; 2; 0; 0; 2; 2; 0; 0; 2; 2; 0; 2; 2; 2; 2; 0; 0; 0; 0; 0; 0; 0; 3]%nat w
    (handle_request demo_env demo_prims demo_IDKey demo_json demo_cfg demo_cj demo_tokens redis1
       demo_sj day demo_http_lib demo_dec demo_body (fun _ => "") demo_serve <$>
       [HttpRequest (suspend_t1 (bearer demo_token));
        GrpcRequest "/verion.v1.IdentityService/DropTenant" [];
        HttpRequest (get_bob (bearer demo_token));
        GrpcRequest "/verion.v1.IdentityService/SuspendTenant" (s2b "t1")]) in
  db_ok demo_env (w_db (fst r)) /\
  a_EventType <$> db_audit (w_db (fst r)) = ["tenant.suspended"] /\
  (exists msg, snd r !! 3%nat = Some (Ret (GrpcReply (Panic msg)))).
Proof.
  intros w r. split; [|split; [vm_compute; reflexivity|eexists; vm_compute; reflexivity]].
  apply (requests_keep_integrity demo_env demo_prims demo_IDKey demo_json demo_cfg demo_cj demo_tokens
    redis1 demo_sj day demo_http_lib demo_dec demo_body (fun _ => "") demo_codec demo_serve id ticking
    (fun _ => false)).
  apply demo_db_ok; repeat constructor.
Defined.
