(* ===== verification/ServiceRoutes.v ===== *)
(** * ServiceRoutes: the gateway's service routes as calls of the services

    Sixteen routes of the gateway are fronts of the services.  [sr_call] is the
    call a request to one of them stands for, if its body or its query gives
    one.  The handler makes this call and reports its outcome; the same call
    made over gRPC has the same effect and a corresponding status. *)

From Stdlib Require Import ZArith Lia Ascii String.
From stdpp Require Import base list strings numbers gmap.
From S2P Require Import Prelude Bytes Errors Model Repository World Schema Postgres TenantService.
From S2P Require Import IdentityService KeyService Crypto Argon2 SchemaFacts Guarantees Integrity.
From S2P Require Import Runs System Demo Store StoreFacts Jwt JwtFacts Grpc Rpc RpcFacts.
From S2P Require Import WebAuthn WebAuthnFacts Http HttpFacts HttpDemo.
Open Scope string_scope.
Open Scope Z_scope.

Inductive service_route :=
| SrCreateTenant | SrGetTenant | SrSuspendTenant | SrActivateTenant
| SrCreateIdentity | SrGetIdentity | SrGetByHandle | SrListIdentities | SrUpdateIdentity
| SrSuspendIdentity | SrReactivateIdentity | SrDeactivateIdentity
| SrGenerateKey | SrGetKey | SrRotateKey | SrRevokeKey.

(** The method and the pattern of the route. *)
Definition sr_key (s : service_route) : string * list segment :=
  match s with
  | SrCreateTenant => ("POST", [Lit "v1"; Lit "tenants"])
  | SrGetTenant => ("GET", [Lit "v1"; Lit "tenants"; Var "id"])
  | SrSuspendTenant => ("POST", [Lit "v1"; Lit "tenants"; Var "id"; Lit "suspend"])
  | SrActivateTenant => ("POST", [Lit "v1"; Lit "tenants"; Var "id"; Lit "activate"])
  | SrCreateIdentity => ("POST", [Lit "v1"; Lit "identities"])
  | SrGetIdentity => ("GET", [Lit "v1"; Lit "identities"; Var "id"])
  | SrGetByHandle => ("GET", [Lit "v1"; Lit "identities"; Lit "handle"; Var "handle"])
  | SrListIdentities => ("GET", [Lit "v1"; Lit "identities"])
  | SrUpdateIdentity => ("PUT", [Lit "v1"; Lit "identities"; Var "id"])
  | SrSuspendIdentity => ("POST", [Lit "v1"; Lit "identities"; Var "id"; Lit "suspend"])
  | SrReactivateIdentity => ("POST", [Lit "v1"; Lit "identities"; Var "id"; Lit "reactivate"])
  | SrDeactivateIdentity => ("DELETE", [Lit "v1"; Lit "identities"; Var "id"])
  | SrGenerateKey => ("POST", [Lit "v1"; Lit "keys"])
  | SrGetKey => ("GET", [Lit "v1"; Lit "keys"; Var "key_id"])
  | SrRotateKey => ("POST", [Lit "v1"; Lit "keys"; Var "key_id"; Lit "rotate"])
  | SrRevokeKey => ("DELETE", [Lit "v1"; Lit "keys"; Var "key_id"])
  end.

(** Only tenants and identities are created without a token. *)
Definition sr_public (s : service_route) : bool :=
  match s with SrCreateTenant | SrCreateIdentity => true | _ => false end.

Definition sr_success (s : service_route) : Z :=
  match s with SrCreateTenant | SrCreateIdentity | SrGenerateKey => StatusCreated | _ => StatusOK end.

(** The query's tenant, which must not be empty. *)
Definition tenant_query (r : Request) : option string :=
  let t := Query_Get r "tenant_id" in if String.eqb t "" then None else Some t.

(** The call a request stands for. *)
Definition sr_call (dec : Decoders) (s : service_route) (r : Request) (vars : pathvars)
    : option call :=
  let id := PathValue vars "id" in
  let key_id := PathValue vars "key_id" in
  match s with
  | SrCreateTenant =>
    req ← decode_tenant dec (r_Body r);
    Some (CallCreateTenant
      (mkCreateTenantInput (rt_Name req) (rt_Slug req) (rt_Tier req) (rt_DataRegion req)))
  | SrGetTenant => Some (CallGetTenant id)
  | SrSuspendTenant => Some (CallSuspendTenant id)
  | SrActivateTenant => Some (CallActivateTenant id)
  | SrCreateIdentity =>
    req ← decode_identity dec (r_Body r);
    Some (CallCreateIdentity
      (mkCreateIdentityInput (ri_TenantID req) (ri_Type req) (ri_DisplayName req) (ri_Handle req)
         (ptrUnlessEmpty (ri_CreatedBy req)) (ri_Attributes req)))
  | SrGetIdentity => t ← tenant_query r; Some (CallGetIdentity t id)
  | SrGetByHandle =>
    t ← tenant_query r; Some (CallGetIdentityByHandle t (PathValue vars "handle"))
  | SrListIdentities =>
    t ← tenant_query r; Some (CallListIdentities t (mkIdentityFilter None None 50 0 "" false))
  | SrUpdateIdentity =>
    req ← decode_update dec (r_Body r);
    Some (CallUpdateIdentity
      (mkUpdateIdentityInput (ru_TenantID req) id (ru_DisplayName req) (ru_Attributes req)
         (ru_Version req) (ptrUnlessEmpty (ru_ActorID req))))
  | SrSuspendIdentity =>
    '(t, a) ← decode_actor dec (r_Body r); Some (CallSuspendIdentity t id a)
  | SrReactivateIdentity =>
    '(t, a) ← decode_actor dec (r_Body r); Some (CallReactivateIdentity t id a)
  | SrDeactivateIdentity =>
    '(t, a) ← decode_actor dec (r_Body r); Some (CallDeactivateIdentity t id a)
  | SrGenerateKey =>
    req ← decode_key dec (r_Body r);
    Some (CallGenerateKey
      (mkGenerateKeyInput (rk_TenantID req) (rk_IdentityID req) (rk_KeyType req) (rk_Purpose req)
         (ptrUnlessEmpty (rk_ActorID req))))
  | SrGetKey => t ← tenant_query r; Some (CallGetKey t key_id)
  | SrRotateKey =>
    '(t, i, a) ← decode_rotate dec (r_Body r); Some (CallRotateKey t i key_id a)
  | SrRevokeKey => '(t, a) ← decode_actor dec (r_Body r); Some (CallRevokeKey t key_id a)
  end.

Section routes.
Context {X : Type} (env : Env) (p : Prims) (IDKey : idkey) (json : Codec) (cfg : CryptoConfig).
Context (cj : ClaimsCodec) (tokenSvc : TokenService).
Context (client : RedisClient (World X)) (sj : SessionCodec) (ttl : Z).
Context (lib : WebAuthnLib (World X) Request) (dec : Decoders).
Context (encode_body : Body (CredentialCreation lib) (CredentialAssertion lib) -> option bytes).
Context (fmt_v : any -> string).
Implicit Types w : World X.
Abbreviation repos := (repos (X:=X) env json).
Abbreviation crypto := (cryptoSvc (X:=X) env p IDKey json cfg).
Abbreviation sys := (system (X:=X) env).
Abbreviation run_call := (run_call (X:=X) env p IDKey json cfg).
Abbreviation ServeHTTP :=
  (ServeHTTP repos crypto sys p json cj tokenSvc client sj ttl lib dec encode_body).
Abbreviation routes :=
  (registerRoutes repos crypto sys p json cj tokenSvc client sj ttl lib dec encode_body).
Abbreviation writeJSON := (writeJSON lib encode_body).
Abbreviation writeError := (writeError lib encode_body).
Abbreviation writeServiceError := (writeServiceError lib encode_body).
Abbreviation RequireAuth := (RequireAuth sys p cj tokenSvc client sj ttl lib encode_body).
Abbreviation authenticated := (authenticated env p cj tokenSvc client sj ttl).

Definition sr_handler (s : service_route) : Handler (World X) :=
  match s with
  | SrCreateTenant => handleCreateTenant repos lib dec encode_body
  | SrGetTenant => handleGetTenant repos lib encode_body
  | SrSuspendTenant => handleSuspendTenant repos lib encode_body
  | SrActivateTenant => handleActivateTenant repos lib encode_body
  | SrCreateIdentity => handleCreateIdentity repos crypto json lib dec encode_body
  | SrGetIdentity => handleGetIdentity repos crypto json lib encode_body
  | SrGetByHandle => handleGetByHandle repos crypto json lib encode_body
  | SrListIdentities => handleListIdentities repos crypto json lib encode_body
  | SrUpdateIdentity => handleUpdateIdentity repos crypto json lib dec encode_body
  | SrSuspendIdentity => handleSuspendIdentity repos lib dec encode_body
  | SrReactivateIdentity => handleReactivateIdentity repos lib dec encode_body
  | SrDeactivateIdentity => handleDeactivateIdentity repos lib dec encode_body
  | SrGenerateKey => handleGenerateKey repos crypto lib dec encode_body
  | SrGetKey => handleGetKey repos lib encode_body
  | SrRotateKey => handleRotateKey repos crypto sys lib dec encode_body
  | SrRevokeKey => handleRevokeKey repos lib dec encode_body
  end.

(** The route as it is registered. *)
Definition sr_route (s : service_route) : route :=
  mkRoute (sr_key s).1 (sr_key s).2
    (if sr_public s then sr_handler s else RequireAuth (sr_handler s)).

Lemma sr_registered s : sr_route s ∈ routes.
Proof.
  unfold registerRoutes, public_routes, protected_routes, protected_handlers. simpl.
  destruct s; repeat first [apply list_elem_of_here | apply list_elem_of_further].
Qed.

(** ** Handlers *)

(** A program that makes a call and reports its outcome to a writer. *)
Definition reports (m : prog (World X) result) (wr : Writer) (c : call) (status : Z) : Prop :=
  forall w, fst (exec m w) = fst (exec (run_call c) w) /\
  match snd (exec (run_call c) w) with
  | Ok _ => exists v, snd (exec m w) = (writeJSON status v wr, None)
  | Err e => snd (exec m w) = (writeServiceError e wr, None)
  | Panic s => snd (exec m w) = (wr, Some s)
  end.

Lemma serve_outcome {A} (m : M (World X) A) status body wr w :
  exec (serve lib encode_body m status body wr) w =
  (fst (exec m w), match snd (exec m w) with
                   | Ok a => (writeJSON status (body a) wr, None)
                   | Err e => (writeServiceError e wr, None)
                   | Panic s => (wr, Some s)
                   end).
Proof. unfold serve. rewrite exec_invoke. by destruct (exec m w) as [w' [a|e|s]]. Qed.
Lemma serve_reports {A} (m : M (World X) A) c status body wr :
  run_call c = finish m -> reports (serve lib encode_body m status body wr) wr c status.
Proof.
  intros Hc w. rewrite serve_outcome, Hc. unfold finish. rewrite exec_bind.
  destruct (exec m w) as [w' [a|e|s]]; simpl; [|done..]. split; [done|]. by eexists.
Qed.
Lemma serve_reports_unit (m : M (World X) unit) c status body wr :
  run_call c = m -> reports (serve lib encode_body m status body wr) wr c status.
Proof.
  intros Hc w. rewrite serve_outcome, Hc.
  destruct (exec m w) as [w' [a|e|s]]; simpl; [|done..]. split; [done|]. by eexists.
Qed.

Lemma handler_reports s r vars wr :
  match sr_call dec s r vars with
  | Some c => reports (sr_handler s r vars wr) wr c (sr_success s)
  | None => exists msg, sr_handler s r vars wr = finished (writeError StatusBadRequest msg wr)
  end.
Proof.
  destruct s; unfold sr_call, sr_handler, handleCreateTenant, handleGetTenant, handleSuspendTenant,
    handleActivateTenant, handleCreateIdentity, handleGetIdentity, handleGetByHandle,
    handleListIdentities, handleUpdateIdentity, handleSuspendIdentity, handleReactivateIdentity,
    handleDeactivateIdentity, handleGenerateKey, handleGetKey, handleRotateKey, handleRevokeKey;
    unfold withBody, withTenantQuery, tenant_query; unfold mbind, option_bind;
    repeat case_match; simplify_eq;
    first [by eapply serve_reports | by eapply serve_reports_unit | by eexists].
Qed.

(** The status of a reported outcome, and its effect. *)
Lemma reported_status m wr c status w : wr_sent wr = None -> reports m wr c status ->
  exists w' o, exec (run_call c) w = (w', o) /\
  match o with
  | Ok _ => exists wr' h, exec m w = (w', (wr', None)) /\ wr_sent wr' = Some (status, h)
  | Err e => exists wr' h, exec m w = (w', (wr', None)) /\
      wr_sent wr' = Some (fst (serviceError e), h)
  | Panic s => exec m w = (w', (wr, Some s))
  end.
Proof.
  intros Hwr Hm. specialize (Hm w). destruct (exec (run_call c) w) as [w' o], (exec m w) as [w1 x].
  simpl in Hm. destruct Hm as [-> Hx]. exists w', o. split; [done|].
  destruct o as [a|e|s]; [destruct Hx as [v ->]| |by subst].
  - destruct (writeJSON_sends lib encode_body status v wr Hwr) as (h & Hh & _). by eexists _, h.
  - subst x. unfold Http.writeServiceError. destruct (serviceError e) as [st msg].
    destruct (writeJSON_sends lib encode_body st (BStrings [("error", msg)])
      (if st =? StatusInternalServerError then slog (LogUnhandled e) wr else wr)) as (h & Hh & _);
      [by case_match|]. by eexists _, h.
Qed.

(** ** Requests *)

Section sessions.
Context (content : X -> rcontent) (rclock : nat -> time) (fault : nat -> bool).
Context `{!RedisOk client content rclock fault}.

(** What the gateway does from the world [w1] in which a handler starts. *)
Definition runs_call (oc : option call) (success : Z) (w1 w' : World X) (st : Z) : Prop :=
  match oc with
  | None => untouched w1 w' /\ st = StatusBadRequest
  | Some c =>
    untouched (fst (exec (run_call c) w1)) w' /\
    st = match snd (exec (run_call c) w1) with
         | Ok _ => success
         | Err e => fst (serviceError e)
         | Panic _ => StatusInternalServerError
         end
  end.

Lemma untouched_ticks n w : untouched w (ticks n w).
Proof. by split. Qed.
Lemma recovered_sends rec wr : wr_sent wr = None ->
  exists h, wr_sent (recovered lib encode_body rec wr) = Some (StatusInternalServerError, h).
Proof.
  intros Hwr. destruct (writeJSON_sends lib encode_body StatusInternalServerError
    (BStrings [("error", "internal error")]) (slog (LogPanic rec) (set_rw None wr)) Hwr) as (h & Hh & _).
  by exists h.
Qed.

Lemma handler_runs_call s r vars now w1 :
  exists w2 wr pnc, exec (sr_handler s r vars (prepared now)) w1 = (w2, (wr, pnc)) /\
    match pnc with
    | None => exists st h, wr_sent wr = Some (st, h) /\
        runs_call (sr_call dec s r vars) (sr_success s) w1 w2 st
    | Some _ => wr_sent wr = None /\
        runs_call (sr_call dec s r vars) (sr_success s) w1 w2 StatusInternalServerError
    end.
Proof.
  pose proof (handler_reports s r vars (prepared now)) as H. unfold runs_call.
  destruct (sr_call dec s r vars) as [c|].
  - destruct (reported_status _ (prepared now) _ _ w1 eq_refl H) as (w2 & o & Hc & Ho). rewrite Hc. exists w2.
    destruct o as [a|e|m]; [destruct Ho as (wr & h & He & Hs)..|]; rewrite ?He, ?Ho.
    1-2: exists wr, None; split; [done|]; eexists _, h; split; [exact Hs|]; by split.
    by eexists _, (Some m).
  - destruct H as [msg ->]. eexists w1, _, None. split; [reflexivity|].
    destruct (writeJSON_sends lib encode_body StatusBadRequest (BStrings [("error", msg)]) (prepared now))
      as (h & Hh & _); [done|]. by exists StatusBadRequest, h.
Qed.

(** C11. The gateway refines the service layer.  A request that matches a service
    route is one call of a service or none: a protected route may answer 401
    and touch nothing; otherwise the request was let through by a session it
    authenticates with, or the route is public, and then a body that does not
    decode or a missing tenant is answered 400 with nothing touched, and any
    other request changes the tables and the private keys exactly as the call
    it stands for does, and is answered with the route's success status, with
    the status of the call's error, or with 500 when the call panics. *)
Theorem http_refines_call s r vars w :
  match_method (sr_key s).1 r = true -> match_path (sr_key s).2 (r_Path r) = Some vars ->
  exists w' wr st h, exec (ServeHTTP r) w = (w', (wr, None)) /\ wr_sent wr = Some (st, h) /\
  (sr_public s = false /\ st = StatusUnauthorized /\ untouched w w' \/
   exists w1, untouched w w1 /\
     (if sr_public s then w1 = ticks 2 w else exists c, authenticated r c (ticks 2 w) w1) /\
     runs_call (sr_call dec s r vars) (sr_success s) w1 w' st).
Proof.
  intros Hm Hp. rewrite (exec_ServeHTTP env p IDKey json cfg cj tokenSvc client sj ttl lib dec encode_body
    r (sr_route s) vars w (sr_registered s) Hm Hp).
  set (now := clock env (w_tick w)).
  assert (forall r' w1, (sr_call dec s r' vars = sr_call dec s r vars) -> exists w' wr st h,
    after_handler env lib encode_body r w (exec (sr_handler s r' vars (prepared now)) w1) =
      (w', (wr, None)) /\ wr_sent wr = Some (st, h) /\
    runs_call (sr_call dec s r vars) (sr_success s) w1 w' st) as Hrun.
  { intros r' w1 Hsame. destruct (handler_runs_call s r' vars now w1) as (w2 & wr & pnc & -> & H).
    rewrite Hsame in H. destruct pnc as [m|].
    - destruct H as [Hs H], (recovered_sends m wr Hs) as [h Hh]. by eexists w2, _, _, h.
    - destruct H as (st & h & Hs & H). eexists (ticks 1 w2), _, st, h. split; [done|]. split; [exact Hs|].
      exact H. }
  unfold sr_route, rt_handler. destruct (sr_public s).
  - destruct (Hrun (received now r) (ticks 2 w) eq_refl) as (w' & wr & st & h & -> & Hs & H).
    exists w', wr, st, h. split; [done|]. split; [done|]. right. exists (ticks 2 w).
    by split; [apply untouched_ticks|].
  - destruct (RequireAuth_gate env p cj tokenSvc client sj ttl lib encode_body content rclock fault
      (sr_handler s) (received now r) vars (prepared now) (ticks 2 w))
      as [(c & w1 & Ha & Hu & ->)|(w1 & msg & -> & Hu)].
    + destruct (Hrun (with_claims c (received now r)) w1 eq_refl) as (w' & wr & st & h & He & Hs & H).
      exists w', wr, st, h. split; [exact He|]. split; [done|]. right. exists w1.
      split; [exact Hu|]. split; [by exists c|done].
    + destruct (writeJSON_sends lib encode_body StatusUnauthorized (BStrings [("error", msg)]) (prepared now))
        as (h & Hh & _); [done|].
      eexists (ticks 1 w1), _, StatusUnauthorized, h. split; [done|]. split; [exact Hh|]. left.
      split; [done|]. split; [done|exact Hu].
Qed.
End sessions.

(** ** The two transports *)

Abbreviation method :=
  (server_call (newIdentityServer repos crypto json fmt_v) (newKeyServer repos crypto (System.sys env))).

(** C14. The transports are equivalent.  When an HTTP request to a service route
    and a gRPC request stand for the same call, the handler and the method
    leave the same world; both succeed, both panic with the same message, or
    both fail, and then with corresponding statuses, except that the gateway
    may report as internal what gRPC reports as a failed precondition. *)
Theorem transports_equivalent s r vars wr q w :
  sr_call dec s r vars = Some (call_of q) -> wr_sent wr = None ->
  exists w' wr' pnc o, exec (sr_handler s r vars wr) w = (w', (wr', pnc)) /\
    exec (method q) w = (w', o) /\
    match o with
    | Ok _ => pnc = None /\ exists h, wr_sent wr' = Some (sr_success s, h)
    | Err st => pnc = None /\ exists n h, wr_sent wr' = Some (n, h) /\
        (n = status_of_code (st_code st) \/
         st_code st = FailedPrecondition /\ n = StatusInternalServerError)
    | Panic m => pnc = Some m
    end.
Proof.
  intros Hc Hwr. pose proof (handler_reports s r vars wr) as H. rewrite Hc in H.
  destruct (reported_status _ _ _ _ w Hwr H) as (w' & o & Ho & Hh).
  pose proof (method_runs_call env p IDKey json cfg fmt_v q w) as [Hw Hm]. rewrite Ho in Hw, Hm.
  cbn [fst snd] in Hw, Hm. destruct (exec (method q) w) as [w1 o']. cbn [fst snd] in Hw, Hm. subst w1.
  destruct o as [a|e|m].
  - destruct Hm as [b ->], Hh as (wr' & h & -> & Hs). eexists w', wr', None, _.
    split; [done|]. split; [done|]. split; [done|]. by exists h.
  - destruct Hh as (wr' & h & -> & Hs). subst o'. eexists w', wr', None, _.
    split; [done|]. split; [done|]. split; [done|]. exists (fst (serviceError e)), h. split; [done|].
    apply statuses_correspond.
  - subst o'. by eexists w', wr, (Some m), _.
Qed.
End routes.

(** ** On concrete requests *)

(** Bob is read with alice's token, and without one. *)
Lemma http_refines_call_witness :
  let run tok := exec (demo_ServeHTTP (get_bob tok)) (demo_store (with_session hour hour)) in
  let served tok st := exists w' wr h, run tok = (w', (wr, None)) /\ wr_sent wr = Some (st, h) in
  served (bearer demo_token) StatusOK /\ served ∅ StatusUnauthorized.
Proof.
  split;
    [destruct (http_refines_call (X:=rcontent) demo_env demo_prims demo_IDKey demo_json demo_cfg
       demo_cj demo_tokens redis1 demo_sj day demo_http_lib demo_dec demo_body id ticking
       (fun _ => false) SrGetIdentity (get_bob (bearer demo_token)) [("id", "bob")]
       (demo_store (with_session hour hour)) eq_refl eq_refl) as (w' & wr & st & h & He & Hs & _)
    |destruct (http_refines_call (X:=rcontent) demo_env demo_prims demo_IDKey demo_json demo_cfg
       demo_cj demo_tokens redis1 demo_sj day demo_http_lib demo_dec demo_body id ticking
       (fun _ => false) SrGetIdentity (get_bob ∅) [("id", "bob")]
       (demo_store (with_session hour hour)) eq_refl eq_refl) as (w' & wr & st & h & He & Hs & _)];
    exists w', wr, h; (split; [exact He|]); rewrite Hs; f_equal; f_equal;
    apply (f_equal (fun x => fst <$> wr_sent (x.2).1)) in He; cbn [fst snd] in He; rewrite Hs in He;
    vm_compute in He; injection He as <-; reflexivity.
Defined.

(** A tenant is suspended over HTTP and over gRPC. *)
Definition suspend_t1 : Request :=
  mkRequest "POST" ["v1"; "tenants"; "t1"; "suspend"] [] ∅ [] "10.0.0.1:4000" Background.

Lemma transports_equivalent_witness :
  let w := demo_store ∅ in
  exists w' wr' pnc o h,
    exec (sr_handler demo_env demo_prims demo_IDKey demo_json demo_cfg demo_http_lib demo_dec demo_body
            SrSuspendTenant suspend_t1 [("id", "t1")] newWriter) w = (w', (wr', pnc)) /\
    exec (server_call
            (newIdentityServer (repos demo_env demo_json)
               (cryptoSvc demo_env demo_prims demo_IDKey demo_json demo_cfg) demo_json (fun _ => ""))
            (newKeyServer (repos demo_env demo_json)
               (cryptoSvc demo_env demo_prims demo_IDKey demo_json demo_cfg) (system demo_env))
            (RpcSuspendTenant "t1")) w = (w', Ok o) /\
    wr_sent wr' = Some (StatusOK, h).
Proof.
  intros w. destruct (transports_equivalent (X:=rcontent) demo_env demo_prims demo_IDKey demo_json
    demo_cfg demo_http_lib demo_dec demo_body (fun _ => "") SrSuspendTenant suspend_t1 [("id", "t1")]
    newWriter (RpcSuspendTenant "t1") w eq_refl eq_refl) as (w' & wr' & pnc & o & Hh & Hg & H).
  assert (is_ok o) as [u ->].
  { change o with (snd (w', o)). rewrite <- Hg. eexists. vm_compute. reflexivity. }
  destruct H as [-> [h Hs]]. exists w', wr', None, u, h. by split_and!.
Defined.
