(* ===== verification/SessionRoutes.v ===== *)
(** * SessionRoutes: listing and ending sessions

    What the routes behind a login do to the sessions, from the commands to the
    gateway: the list of an identity's sessions is the list of its live ones, and
    a logout ends the token that made it. *)

From Stdlib Require Import ZArith Lia Ascii String.
From stdpp Require Import base list sorting strings numbers gmap.
From S2P Require Import Prelude Bytes Errors Model Repository World Schema Postgres TenantService.
From S2P Require Import IdentityService KeyService Crypto Argon2 SchemaFacts Guarantees Integrity.
From S2P Require Import Runs System Demo Store StoreFacts Jwt JwtFacts Grpc WebAuthn WebAuthnFacts.
From S2P Require Import Http HttpFacts HttpDemo LoginFacts.
Open Scope string_scope.
Open Scope Z_scope.

(** ** Listing *)

(** No key expires between the ticks [m] and [n]: all are as at [now]. *)
Definition alive (now : time) (e : rentry) : bool :=
  match re_expiry e with Some t => now <? t | None => true end.
Definition steady (rclock : nat -> time) (now : time) (m n : nat) (d : rcontent) : Prop :=
  forall k e i, d !! k = Some e -> (m <= i < n)%nat -> alive (rclock i) e = alive now e.

Lemma live_alive now d k :
  live now d k = match d !! k with Some e => if alive now e then Some e else None | None => None end.
Proof. unfold live, alive. destruct (d !! k) as [e|]; [|done]. by destruct (re_expiry e). Qed.
Lemma steady_live rclock now m n d k i :
  steady rclock now m n d -> (m <= i < n)%nat -> live (rclock i) d k = live now d k.
Proof.
  intros Hst Hi. rewrite !live_alive. destruct (d !! k) as [e|] eqn:He; [|done].
  by rewrite (Hst k e i He Hi).
Qed.

(** A content with entries of another, whose expiries it kept. *)
Definition trimmed (d d' : rcontent) : Prop :=
  forall k e', d' !! k = Some e' -> exists e, d !! k = Some e /\ re_expiry e = re_expiry e'.
Lemma steady_trimmed rclock now m n m' d d' :
  trimmed d d' -> (m <= m')%nat -> steady rclock now m n d -> steady rclock now m' n d'.
Proof.
  intros Htr Hm Hst k e' i He' Hi. destruct (Htr k e' He') as (e & He & Hex).
  specialize (Hst k e i He ltac:(lia)). unfold alive in *. by rewrite <- Hex.
Qed.

(** SREM on an index keeps the expiries and the types. *)
Lemma cmdSRem_trims id sid now d d' o :
  well_typed d -> cmdSRem (indexKey id) sid now d = (d', o) -> trimmed d d' /\ well_typed d'.
Proof.
  intros [Hset Hstr]. unfold cmdSRem. destruct (live now d (indexKey id)) as [[[b|s] t]|] eqn:Hl.
  - apply live_Some in Hl. destruct (Hset _ _ Hl) as (s & [=] & _).
  - apply live_Some in Hl. case_bool_decide as Hemp; intros [= <- <-].
    + split; [intros k e' He'; exists e'; by apply lookup_delete_Some in He' as [_ ?]|].
      split; intros i e He; apply lookup_delete_Some in He as [_ He]; eauto.
    + split; [|split].
      * intros k e' He'. destruct (decide (k = indexKey id)) as [->|Hne].
        -- rewrite lookup_insert_eq in He'. simplify_eq. by eexists.
        -- rewrite lookup_insert_ne in He' by done. by eexists.
      * intros i e [[_ <-]|[_ He]]%lookup_insert_Some; [by eexists|eauto].
      * intros i e [[Hk _]|[_ He]]%lookup_insert_Some; [by apply eq_sym, key_indexKey in Hk|eauto].
  - intros [= <- <-]. split; [intros k e' He'; by exists e'|done].
Qed.

Section list.
Context {X : Type} (client : RedisClient (World X)) (content : X -> rcontent).
Context (rclock : nat -> time) `{!RedisOk client content rclock (fun _ => false)}.
Context (sj : SessionCodec).
Implicit Types w : World X.
Abbreviation later := (later content).

(** The session of a live key whose text parses. *)
Definition session_at (now : time) (d : rcontent) (sid : string) : option SessionData :=
  match live now d (key sid) with
  | Some (mkEntry (RString b) _) => unmarshal_session sj b
  | _ => None
  end.
Definition dead (now : time) (d : rcontent) (sid : string) : Prop := live now d (key sid) = None.
#[local] Instance dead_dec now d sid : Decision (dead now d sid).
Proof. unfold dead. destruct (live _ _ _); [right; discriminate|by left]. Defined.
Definition dead_ids (now : time) (d : rcontent) (sids : list string) : gset string :=
  list_to_set (filter (dead now d) sids).

(** Both depend on the keys of sessions only. *)
Lemma omap_session_at now d d' sids :
  (forall sid, d' !! key sid = d !! key sid) ->
  omap (session_at now d') sids = omap (session_at now d) sids /\
  dead_ids now d' sids = dead_ids now d sids.
Proof.
  intros H. assert (forall sid, live now d' (key sid) = live now d (key sid)) as Hl
    by by intros sid; rewrite !live_alive, H.
  split.
  - apply list_omap_ext. apply list.Forall2_same_length_lookup. split; [done|].
    intros i x y Hx Hy. simplify_eq. unfold session_at. by rewrite Hl.
  - unfold dead_ids. f_equal. apply list_filter_iff. intros sid. unfold dead. by rewrite Hl.
Qed.

(** GET of a session's key. *)
Lemma exec_Get_key sid w :
  well_typed (content (w_ext w)) ->
  exists w' o, exec (Redis_Get client (key sid)) w = (w', o) /\ later 1 (content (w_ext w)) w w' /\
  match live (rclock (w_tick w)) (content (w_ext w)) (key sid) with
  | None => o = Err (ESentinel RedisNil)
  | Some e => exists b, re_value e = RString b /\ o = Ok b
  end.
Proof.
  intros [_ Hstr].
  destruct (exec_runs content rclock _ _ w (content (w_ext w))
    (snd (cmdGet (key sid) (rclock (w_tick w)) (content (w_ext w))))
    (redis_Get (RedisOk:=_) (key sid)) eq_refl) as (w' & He & Hl).
  eexists w', _. split; [exact He|]. split; [exact Hl|]. unfold cmdGet. simpl.
  destruct (live _ _ _) as [[v t]|] eqn:Hlive; [|done].
  apply live_Some in Hlive. destruct (Hstr _ _ Hlive) as [b Hb]. simpl in Hb. subst v. by exists b.
Qed.

(** SREM of an id of the index. *)
Lemma exec_SRem_index id sid now n w :
  well_typed (content (w_ext w)) -> steady rclock now (w_tick w) n (content (w_ext w)) ->
  (w_tick w < n)%nat ->
  exists w' d, exec (Redis_SRem client (indexKey id) sid) w = (w', Ok tt) /\ later 1 d w w' /\
    trimmed (content (w_ext w)) d /\ well_typed d /\
    indexed_ids now d id = indexed_ids now (content (w_ext w)) id ∖ {[sid]} /\
    forall k, k <> indexKey id -> d !! k = content (w_ext w) !! k.
Proof.
  intros Hwt Hst Hn. destruct (cmdSRem_index id sid (rclock (w_tick w)) _ Hwt) as (d & Hc & Hids & Hother).
  destruct (exec_runs content rclock _ _ w d (Ok tt)
    (redis_SRem (RedisOk:=_) (indexKey id) sid) Hc) as (w' & He & Hl).
  destruct (cmdSRem_trims id sid _ _ _ _ Hwt Hc) as [Htr Hwt'].
  exists w', d. split_and!; [done..| |done]. revert Hids. unfold indexed_ids.
  rewrite (steady_live rclock now (w_tick w) n (content (w_ext w))) by (done || lia).
  rewrite (steady_live rclock now (w_tick w) n d); [done| |lia]. by eapply steady_trimmed.
Qed.

(** The loop returns the live sessions and takes the dead ids out of the index. *)
Lemma exec_list_sessions id sids now n w :
  let d := content (w_ext w) in
  well_typed d -> steady rclock now (w_tick w) n d ->
  (w_tick w + 2 * List.length sids < n)%nat ->
  exists w' d', exec (list_sessions client sj id sids) w = (w', Ok (omap (session_at now d) sids)) /\
    content (w_ext w') = d' /\ w_db w' = w_db w /\
    indexed_ids now d' id = indexed_ids now d id ∖ dead_ids now d sids /\
    forall k, k <> indexKey id -> d' !! k = d !! k.
Proof.
  revert w. induction sids as [|sid sids IH]; intros w d Hwt Hst Hn; simpl in Hn.
  { exists w, d. split_and!; [done..| |done]. unfold dead_ids. simpl. set_solver. }
  cbn [list_sessions]. rewrite exec_bind, exec_try.
  destruct (exec_Get_key sid w Hwt) as (w1 & o & -> & Hl1 & Ho). pose proof Hl1 as (Ht1 & Hd1 & Hdb1 & _).
  rewrite (steady_live rclock now (w_tick w) n) in Ho by (done || lia). fold d in Ho, Hd1.
  destruct (live now d (key sid)) as [e|] eqn:Hlive.
  - destruct Ho as (b & Hb & ->). cbv iota beta. rewrite exec_bind.
    destruct (IH w1) as (w' & d' & -> & Hc & Hdb & Hids & Hk);
      rewrite ?Hd1, ?Ht1; [done|by eapply steady_trimmed; [by intros k e'; exists e'| |exact Hst]; lia|lia|].
    rewrite Hd1 in *. cbv iota beta. exists w', d'. split.
    + assert (session_at now d sid = unmarshal_session sj b) as Hs
        by by unfold session_at; rewrite Hlive; destruct e as [v t]; simpl in Hb; subst v.
      simpl omap. rewrite Hs. by destruct (unmarshal_session sj b).
    + split_and!; [done|congruence| |done]. rewrite Hids. unfold dead_ids.
      rewrite filter_cons_False; [done|]. unfold dead. by rewrite Hlive.
  - subst o. cbv iota beta. simpl errors_Is. cbv iota. rewrite exec_bind, exec_ignore.
    destruct (exec_SRem_index id sid now n w1) as (w2 & d2 & -> & Hl2 & Htr & Hwt2 & Hids2 & Hk2);
      rewrite ?Hd1, ?Ht1; [done|by eapply steady_trimmed; [by intros k e'; exists e'| |exact Hst]; lia|lia|].
    pose proof Hl2 as (Ht2 & Hd2 & Hdb2 & _). rewrite Hd1 in *.
    destruct (IH w2) as (w' & d' & -> & Hc & Hdb & Hids & Hk);
      rewrite ?Hd2, ?Ht2, ?Ht1; [done|by eapply steady_trimmed; [exact Htr| |exact Hst]; lia|lia|].
    rewrite Hd2 in *. destruct (omap_session_at now d d2 sids) as [-> Hdead].
    { intros sid'. apply Hk2, key_indexKey. }
    exists w', d'. split_and!; [|done|congruence| |].
    + simpl omap. unfold session_at at 2. by rewrite Hlive.
    + rewrite Hids, Hids2, Hdead. unfold dead_ids. rewrite filter_cons_True by done.
      simpl. set_solver.
    + intros k Hne. by rewrite Hk, Hk2.
Qed.

(** C34. The list of an identity's sessions.  When no key expires while it runs,
    ListByIdentity returns the sessions of the identity's index that are stored,
    live and parse, one for each id, takes the ids of the others that are no
    longer stored out of the index, and changes no other key; an identity
    without a live index has no sessions. *)
Theorem ListByIdentity_lists_live id n w :
  let d := content (w_ext w) in
  let now := rclock (w_tick w) in
  let ids := indexed_ids now d id in
  well_typed d -> steady rclock now (w_tick w) n d -> (w_tick w + 2 * size ids + 1 < n)%nat ->
  exists w' d',
    exec (ListByIdentity client sj id) w = (w', Ok (omap (session_at now d) (elements ids))) /\
    content (w_ext w') = d' /\ w_db w' = w_db w /\
    (forall sid, sid ∈ indexed_ids now d' id <-> sid ∈ ids /\ is_Some (live now d (key sid))) /\
    forall k, k <> indexKey id -> d' !! k = d !! k.
Proof.
  intros d now ids Hwt Hst Hn. unfold ListByIdentity. rewrite exec_bind, exec_mapErr.
  destruct (exec_runs content rclock _ _ w d (Ok (elements ids))
    (redis_SMembers (RedisOk:=_) (indexKey id))) as (w1 & -> & Ht1 & Hd1 & Hdb1 & _).
  { unfold cmdSMembers, ids, indexed_ids. fold now d. f_equal.
    destruct (live now d (indexKey id)) as [[v t]|] eqn:Hl; [|by rewrite elements_empty].
    apply live_Some in Hl. destruct (proj1 Hwt _ _ Hl) as (s & Hs & _). simpl in Hs. subst v.
    reflexivity. }
  destruct (exec_list_sessions id (elements ids) now n w1) as (w' & d' & He & Hc & Hdb & Hids & Hk);
    rewrite ?Hd1, ?Ht1; [done|by eapply steady_trimmed; [by intros k e'; exists e'| |exact Hst]; lia|
      change (List.length (elements ids)) with (size ids); lia|].
  rewrite Hd1 in *. exists w', d'. cbv iota beta. split_and!; [exact He|done|congruence| |done].
  intros sid. rewrite Hids. fold ids. unfold dead_ids.
  rewrite elem_of_difference, elem_of_list_to_set, list_elem_of_filter, elem_of_elements.
  unfold dead. destruct (live now d (key sid)) as [e|].
  - split; [intros [? _]; by split; [|eexists]|]. intros [? _]. split; [done|]. by intros [[=] _].
  - split; [intros [? H]; by destruct H|]. by intros [_ [? [=]]].
Qed.
End list.

(** ** Logging out *)

Section logout.
Context {X : Type} (env : Env) (p : Prims) (IDKey : idkey) (json : Codec) (cfg : CryptoConfig).
Context (cj : ClaimsCodec) (tokenSvc : TokenService).
Context (client : RedisClient (World X)) (content : X -> rcontent) (rclock : nat -> time).
Context `{!RedisOk client content rclock (fun _ => false)}.
Context (sj : SessionCodec) `{!SessionCodecOk sj} (ttl : Z) (Httl : 0 < ttl).
Context (lib : WebAuthnLib (World X) Request) (dec : Decoders).
Context (encode_body : Body (CredentialCreation lib) (CredentialAssertion lib) -> option bytes).
Implicit Types w : World X.
Abbreviation repos := (repos (X:=X) env json).
Abbreviation crypto := (cryptoSvc (X:=X) env p IDKey json cfg).
Abbreviation sys := (system (X:=X) env).
Abbreviation ServeHTTP :=
  (ServeHTTP repos crypto sys p json cj tokenSvc client sj ttl lib dec encode_body).
Abbreviation protected :=
  (protected_routes repos crypto sys p json cj tokenSvc client sj ttl lib dec encode_body).

Definition logout_route : route :=
  mkRoute "POST" [Lit "v1"; Lit "auth"; Lit "logout"]
    (RequireAuth sys p cj tokenSvc client sj ttl lib encode_body (Logout client sj lib encode_body)).
Lemma logout_protected : logout_route ∈ protected.
Proof. unfold protected_routes, protected_handlers. simpl. apply list_elem_of_here. Qed.

(** C13. A logout is final.  The bearer of a token that verifies, whose session is
    live, logs out: the answer is 200 and the session is not stored any more;
    and then, as long as nobody stores a session under this id again, every
    protected route answers 401 to any request with this token, whatever else
    happened in between, with the tables and private keys untouched. *)
Theorem logout_is_final token c data b b' expiry r w :
  r_Method r = "POST" -> r_Path r = ["v1"; "auth"; "logout"] ->
  Header_Get r "Authorization" = "Bearer " +:+ token ->
  exec (Verify p sys cj tokenSvc token) (ticks 2 w) = (ticks 3 w, Ok c) ->
  let sid := cl_SessionID c in
  sid <> "" -> session_utf8 data = true -> marshal_session sj data = Some b ->
  well_typed (content (w_ext w)) -> content (w_ext w) !! key sid = Some (session_entry b expiry) ->
  rclock (3 + w_tick w) < expiry ->
  marshal_session sj (set_LastSeenAt (clock env (4 + w_tick w)) data) = Some b' ->
  rclock (6 + w_tick w) < rclock (5 + w_tick w) + ttl ->
  exists w' wr h, exec (ServeHTTP r) w = (w', (wr, None)) /\ wr_sent wr = Some (StatusOK, h) /\
    content (w_ext w') !! key sid = None /\
    forall r' rt vars w2,
      content (w_ext w2) !! key sid = None ->
      Header_Get r' "Authorization" = "Bearer " +:+ token ->
      rt ∈ protected -> match_method (rt_method rt) r' = true ->
      match_path (rt_pattern rt) (r_Path r') = Some vars ->
      exists w3 wr' h', exec (ServeHTTP r') w2 = (w3, (wr', None)) /\
        wr_sent wr' = Some (StatusUnauthorized, h') /\ untouched w2 w3.
Proof.
  intros Hm Hp Hauth Hv sid Hsid Hutf Hb Hwt Hk Hlt Hb' Hslide.
  destruct (exec_Get_live env client content rclock sj ttl Httl sid data b expiry (ticks 3 w)
    Hutf Hb Hk Hlt) as (w1 & Hg & Hd1 & Ht1).
  rewrite w_tick_ticks in Hd1, Ht1. change (1 + (3 + w_tick w))%nat with (4 + w_tick w)%nat in Hd1, Ht1.
  rewrite Hb' in Hd1, Ht1.
  set (now := clock env (w_tick w)). set (r1 := received now r).
  assert (authenticated env p cj tokenSvc client sj ttl r1 c (ticks 2 w) w1) as Ha.
  { exists token. split; [exact Hauth|]. split; [exact Hv|].
    fold sid. rewrite (proj2 (String.eqb_neq _ _) Hsid). eexists. exact Hg. }
  set (data' := set_LastSeenAt (clock env (4 + w_tick w)) data).
  destruct (Delete_removes_session client content rclock sj sid data' b' (rclock (5 + w_tick w) + ttl) w1)
    as (w2 & He & Hnone & _).
  { exact Hutf. } { exact Hb'. } { rewrite Hd1. apply lookup_insert_eq. }
  { rewrite Ht1. exact Hslide. }
  { rewrite Hd1. by apply well_typed_insert_session. }
  destruct (writeJSON_sends lib encode_body StatusOK (BStrings [("status", "logged_out")]) (prepared now))
    as (h & Hh & _); [done|].
  exists (ticks 1 w2), (logged r now (clock env (1 + w_tick w)) (clock env (w_tick w2))
    (writeJSON lib encode_body StatusOK (BStrings [("status", "logged_out")]) (prepared now))), h.
  split; [|split; [exact Hh|split; [exact Hnone|]]].
  - rewrite (exec_ServeHTTP env p IDKey json cfg cj tokenSvc client sj ttl lib dec encode_body r
      logout_route []); [|apply protected_is_registered, logout_protected|
        unfold match_method; simpl; by rewrite Hm|by rewrite Hp].
    fold now r1. unfold logout_route, rt_handler. erewrite RequireAuth_passes by exact Ha.
    unfold Logout, withClaims. simpl ClaimsFromContext. cbv iota.
    rewrite exec_invoke. fold sid. rewrite He. reflexivity.
  - intros r' rt vars w3 Hno Hauth' Hrt Hm' Hp'.
    eapply (revoked_session_rejects_token env p IDKey json cfg cj tokenSvc client sj ttl lib dec
      encode_body content rclock (fun _ => false) token c); try done.
    rewrite (exec_Verify (X:=X) env) in Hv. destruct (token_claims p cj tokenSvc token) as [c'|];
      [|by injection Hv]. injection Hv as Hv. unfold validity in Hv. repeat case_match; by simplify_eq.
Qed.
End logout.

(** ** On concrete requests *)

Lemma with_session_steady n : (n <= 3600)%nat -> steady ticking (ticking 0) 0 n (with_session hour hour).
Proof.
  intros Hn k e i He [_ Hi]. assert (re_expiry e = Some hour) as Hex.
  { unfold with_session in He. rewrite lookup_insert_Some, lookup_singleton_Some in He. naive_solver. }
  assert (ticking i < hour) by (unfold ticking, hour, second; lia).
  unfold alive. by rewrite Hex, !(proj2 (Z.ltb_lt _ _)).
Qed.

(** Alice has the one session. *)
Lemma ListByIdentity_lists_live_witness :
  exists w', exec (ListByIdentity redis1 demo_sj "alice") (demo_store (with_session hour hour)) =
    (w', Ok [demo_session]).
Proof.
  destruct (ListByIdentity_lists_live (X:=rcontent) redis1 id ticking demo_sj "alice" 10
    (demo_store (with_session hour hour)) (with_session_well_typed _ _)) as (w' & d' & He & _);
    [apply with_session_steady; lia|apply Nat.ltb_lt; vm_compute; reflexivity|].
  exists w'. rewrite He. reflexivity.
Defined.

Definition post_logout (h : header) : Request :=
  mkRequest "POST" ["v1"; "auth"; "logout"] [] h [] "10.0.0.1:4000" Background.

(** Alice logs out; her token reads no identity any more. *)
Lemma logout_is_final_witness :
  exists w1 wr1 h1 w2 wr2 h2,
    exec (demo_ServeHTTP (post_logout (bearer demo_token))) (demo_store (with_session hour hour)) =
      (w1, (wr1, None)) /\ wr_sent wr1 = Some (StatusOK, h1) /\
    exec (demo_ServeHTTP (get_bob (bearer demo_token))) w1 = (w2, (wr2, None)) /\
    wr_sent wr2 = Some (StatusUnauthorized, h2).
Proof.
  set (w := demo_store (with_session hour hour)).
  assert (exists c, exec (Verify demo_prims (system demo_env) demo_cj demo_tokens demo_token) (ticks 2 w)
    = (ticks 3 w, Ok c) /\ cl_SessionID c = "s1") as (c & Hv & Hs)
    by (eexists; split; vm_compute; reflexivity).
  destruct (logout_is_final (X:=rcontent) demo_env demo_prims demo_IDKey demo_json demo_cfg demo_cj
    demo_tokens redis1 id ticking demo_sj day eq_refl demo_http_lib demo_dec demo_body demo_token c
    demo_session (demo_text demo_session)
    (demo_text (set_LastSeenAt (clock demo_env 4) demo_session)) hour
    (post_logout (bearer demo_token)) w) as (w1 & wr1 & h1 & He1 & Hs1 & Hnone & Hrej);
    [reflexivity|reflexivity|reflexivity|exact Hv|rewrite Hs; discriminate|vm_compute; reflexivity
    |reflexivity|apply with_session_well_typed|rewrite Hs; apply lookup_insert_eq
    |vm_compute; reflexivity|vm_compute; reflexivity|vm_compute; reflexivity|].
  destruct (Hrej (get_bob (bearer demo_token)) bob_route [("id", "bob")] w1 Hnone eq_refl)
    as (w2 & wr2 & h2 & He2 & Hs2 & _);
    [by apply (list_elem_of_lookup_2 _ 6%nat)|reflexivity|reflexivity|].
  exists w1, wr1, h1, w2, wr2, h2. exact (conj He1 (conj Hs1 (conj He2 Hs2))).
Defined.

(** A logout is reported even when it failed: the connection fails at the
    deletion's GET, the answer is 200, and the session is still stored. *)
Theorem failed_logout_reports_success :
  let fault n := Nat.eqb n 6 in
  let '(w', (wr, _)) := exec
    (ServeHTTP (repos demo_env demo_json) (cryptoSvc demo_env demo_prims demo_IDKey demo_json demo_cfg)
       (system demo_env) demo_prims demo_json demo_cj demo_tokens (demo_redis ticking fault) demo_sj day
       demo_http_lib demo_dec demo_body (post_logout (bearer demo_token)))
    (demo_store (with_session hour hour)) in
  fst <$> wr_sent wr = Some StatusOK /\
  bool_decide (is_Some (live (ticking (w_tick w')) (w_ext w') (key "s1"))) = true /\
  List.filter (fun e => negb (accounts e)) (wr_log wr) =
    [LogLogoutFailed "s1" (EWrap "session store: delete get" (ENew "redis: connection refused"))].
Proof. vm_compute. repeat split. Qed.
