(* ===== verification/SessionGate.v ===== *)
(** * SessionGate: sessions that are gone, and the gate in front of the routes

    An invariant for the whole server: the sessions of some ids are not stored.
    The operations of the store keep it ([StoreKeep]), as they store only what
    they found or a session with a new id; and under it the middleware answers
    401 to the tokens of these sessions.  Files Revocation and Lockout use it. *)

From Stdlib Require Import ZArith Lia Ascii String.
From stdpp Require Import base list sorting strings numbers gmap.
From S2P Require Import Prelude Bytes Errors Model Repository World Schema Postgres TenantService.
From S2P Require Import IdentityService KeyService Crypto Argon2 SchemaFacts StatementFacts.
From S2P Require Import Guarantees Integrity System Store StoreFacts Jwt JwtFacts Grpc Rpc.
From S2P Require Import WebAuthn WebAuthnFacts Http HttpFacts LoginFacts RequestWalk.
Open Scope string_scope.
Open Scope Z_scope.

Definition unauthorized (wr : Writer) : Prop := exists h, wr_sent wr = Some (StatusUnauthorized, h).
(** An operation that ends in an error. *)
Definition fails {A} (o : outcome error A) : Prop := exists e, o = Err e.

(** A status that was sent stays. *)
Lemma writeError_sent {W} (lib : WebAuthnLib W Request) encode_body st msg wr :
  wr_sent (writeError lib encode_body st msg wr) =
  match wr_sent wr with Some x => Some x | None => wr_sent (writeError lib encode_body st msg wr) end.
Proof.
  destruct wr as [h s b rw l]. destruct s; [|done].
  unfold writeError, writeJSON, WriteHeader, Write. simpl. repeat case_match; done.
Qed.

Section gone.
Context {X : Type} (env : Env) (p : Prims) (IDKey : idkey) (json : Codec) (cfg : CryptoConfig).
Context (cj : ClaimsCodec) (tokenSvc : TokenService).
Context (client : RedisClient (World X)) (sj : SessionCodec) (ttl : Z).
Context (lib : WebAuthnLib (World X) Request) (dec : Decoders).
Context (encode_body : Body (CredentialCreation lib) (CredentialAssertion lib) -> option bytes).
Context (fmt_v : any -> string).
Context (serve_rpc : list (registered (World X)) -> string -> bytes -> H (World X) bytes).
Context (content : X -> rcontent) (rclock : nat -> time) (fault : nat -> bool).
Context `{!RedisOk client content rclock fault}.
Implicit Types w : World X.
Abbreviation repos := (repos (X:=X) env json).
Abbreviation crypto := (cryptoSvc (X:=X) env p IDKey json cfg).
Abbreviation sys := (sys (X:=X) env).
Abbreviation protected :=
  (protected_routes repos crypto sys p json cj tokenSvc client sj ttl lib dec encode_body).
Abbreviation handle_request :=
  (handle_request env p IDKey json cfg cj tokenSvc client sj ttl lib dec encode_body fmt_v serve_rpc).

(** ** The invariant *)

(** From tick [n0] on the sessions with a [gone] id are not stored; [closed] is a
    property of the tables that the statements keep, as they stay in [B]. *)
Context (B : DB -> DB -> Prop) (closed : DB -> Prop) (gone : string -> Prop) (n0 : nat).
Context `{!PreOrder B}.
Context (Hclosed : forall db db', B db db' -> closed db -> closed db').

Definition unstored (d : rcontent) : Prop := forall s, gone s -> d !! key s = None.
Definition barred (w : World X) : Prop :=
  (n0 <= w_tick w)%nat /\ closed (w_db w) /\ unstored (content (w_ext w)).
Abbreviation anywhere := (fun _ _ : World X => True).
Abbreviation keeps := (keeps barred anywhere).
Abbreviation rely := (rely barred anywhere).

(** A command that stores none of the sessions, and whose replies are in [Q] as
    long as none is stored. *)
Definition spares {R} (Q : R -> Prop) (cmd : rcommand R) : Prop :=
  forall now d, unstored d -> unstored (cmd now d).1 /\ on_ok Q (cmd now d).2.

Lemma keeps_spares {R} (Q : R -> Prop) (m : M (World X) R) (cmd : rcommand R) :
  runs content rclock fault m cmd -> spares Q cmd -> keeps (on_ok Q) m.
Proof.
  intros (f & -> & Hf) Hcmd w (Ht & Hc & Hw). specialize (Hf w). destruct (f w) as [w' r].
  destruct (Hcmd (rclock (w_tick w)) _ Hw) as [Hnone HQ]. destruct Hf as (Hdb & _ & Ht' & Hf).
  destruct (cmd _ _) as [d' reply]. simpl in *. unfold barred. rewrite Ht', Hdb.
  destruct (fault _).
  - destruct Hf as [[->| ->] [msg ->]]; (split_and!; [lia|done..|by intros ? [=]]).
  - destruct Hf as [-> ->]. split_and!; [lia|done..].
Qed.
Lemma rely_spares {R} (m : M (World X) R) (cmd : rcommand R) :
  runs content rclock fault m cmd -> spares (fun _ => True) cmd -> rely m.
Proof. intros Hm Hc. by eapply rely_keeps, keeps_spares. Qed.

Lemma on_ok_True {R} (o : outcome error R) : on_ok (fun _ => True) o.
Proof. by intros a _. Qed.

(** Commands that change one key at most. *)
Lemma spares_changing {R} k (cmd : rcommand R) :
  (forall s, gone s -> k <> key s) -> (forall now d k', k' <> k -> (cmd now d).1 !! k' = d !! k') ->
  spares (fun _ => True) cmd.
Proof.
  intros Hk Hcmd now d Hd. split; [|apply on_ok_True]. intros s Hs.
  rewrite Hcmd; [by apply Hd|]. by apply not_eq_sym, Hk.
Qed.
(** Commands that may remove a key. *)
Lemma spares_removing {R} (cmd : rcommand R) :
  (forall now d k', (cmd now d).1 !! k' = d !! k' \/ (cmd now d).1 !! k' = None) ->
  spares (fun _ => True) cmd.
Proof.
  intros Hcmd now d Hd. split; [|apply on_ok_True]. intros s Hs.
  destruct (Hcmd now d (key s)) as [->| ->]; [by apply Hd|done].
Qed.

Lemma spares_Set k v t : (forall s, gone s -> k <> key s) -> spares (fun _ => True) (cmdSet k v t).
Proof. intros Hk. apply (spares_changing k); [done|]. intros. simpl. by rewrite lookup_insert_ne. Qed.
Lemma index_not_gone id s : gone s -> indexKey id <> key s.
Proof. intros _. apply not_eq_sym, key_indexKey. Qed.
Lemma spares_SAdd id m : spares (fun _ => True) (cmdSAdd (indexKey id) m).
Proof.
  apply (spares_changing (indexKey id)); [apply index_not_gone|]. intros. unfold cmdSAdd.
  repeat case_match; simpl; by rewrite ?lookup_insert_ne.
Qed.
Lemma spares_SRem id m : spares (fun _ => True) (cmdSRem (indexKey id) m).
Proof.
  apply (spares_changing (indexKey id)); [apply index_not_gone|]. intros. unfold cmdSRem.
  destruct (live _ _ _) as [[[b|s] t]|]; simpl; [done| |done].
  case_bool_decide; [by rewrite lookup_delete_ne|by rewrite lookup_insert_ne].
Qed.
Lemma spares_Expire id t : spares (fun _ => True) (cmdExpire (indexKey id) t).
Proof.
  apply (spares_changing (indexKey id)); [apply index_not_gone|]. intros. unfold cmdExpire.
  case_match; simpl; by rewrite ?lookup_insert_ne.
Qed.
(** A reading of a session finds none that is gone. *)
Lemma spares_Get s : spares (fun _ => ~ gone s) (cmdGet (key s)).
Proof.
  intros now d Hd. split; [done|]. intros b Hb Hs. unfold cmdGet, live in Hb. simpl in Hb.
  by rewrite (Hd s Hs) in Hb.
Qed.
Lemma spares_GetDel k : spares (fun _ => True) (cmdGetDel k).
Proof.
  apply spares_removing. intros now d k'. unfold cmdGetDel. repeat case_match; simpl; auto;
    destruct (decide (k' = k)) as [->|]; rewrite ?lookup_delete_eq, ?lookup_delete_ne; auto.
Qed.
Lemma spares_Del k : spares (fun _ => True) (cmdDel k).
Proof.
  apply spares_removing. intros now d k'. simpl.
  destruct (decide (k' = k)) as [->|]; rewrite ?lookup_delete_eq, ?lookup_delete_ne; auto.
Qed.
Lemma spares_SMembers k : spares (fun _ => True) (cmdSMembers k).
Proof. apply spares_removing. auto. Qed.

(** ** The operations of the store *)

(** What only draws on the environment. *)
Lemma barred_reading w w' : barred w -> w_db w' = w_db w -> w_ext w' = w_ext w ->
  w_tick w' = S (w_tick w) -> barred w'.
Proof. intros (Ht & Hc & Hw) Hdb Hx Ht'. unfold barred. rewrite Hdb, Hx. by split; [lia|]. Qed.
Lemma barred_quiet w w' : barred w -> db_steps B w w' -> barred w' /\ True.
Proof.
  intros (Ht & Hc & Hw) (Hdb & Hx & Ht'). split; [|done]. split; [lia|]. split; [by eapply Hclosed|].
  by rewrite Hx.
Qed.
Lemma rely_Now : rely (Now sys).
Proof. eapply rely_steps_in; [exact barred_quiet|]. apply (system_steps env B). Qed.

Lemma rely_pipe queue : Forall rely queue -> rely (pipe_Exec queue).
Proof.
  induction 1 as [|m queue Hm _ IH]; cbn [pipe_Exec]; [apply rely_ret|].
  apply rely_bind; [by apply rely_try|intros r]. apply rely_bind; [by apply rely_try|intros rest].
  destruct r, rest; first [apply rely_ret|apply rely_throw].
Qed.

Lemma not_gone_key s : ~ gone s -> forall s', gone s' -> key s <> key s'.
Proof. by intros Hs s' Hs' <-%key_inj. Qed.

Lemma rely_Create data : ~ gone (sd_SessionID data) -> rely (Create client sj ttl data).
Proof.
  intros Hne. unfold Create. case_match; [|apply rely_throw]. apply rely_mapErr, rely_pipe.
  repeat constructor; (eapply rely_spares; [apply RedisOk0|]);
    [by apply spares_Set, not_gone_key|apply spares_SAdd|apply spares_Expire].
Qed.

(** Get renews only what it found. *)
Lemma rely_Get s : rely (Get client sys sj ttl s).
Proof.
  unfold Get. eapply rely_pbind_post.
  { eapply keeps_mapErr, keeps_spares; [apply redis_Get|apply spares_Get]. }
  intros [b|e|m] Hne; [|apply rely_Ret..]. specialize (Hne b eq_refl). simpl in Hne.
  case_match; [|apply rely_throw]. apply rely_bind; [apply rely_Now|intros now].
  apply rely_bind; [|intros; apply rely_ret]. case_match; [|apply rely_ret].
  eapply rely_ignore, rely_spares; [apply redis_Set|]. by apply spares_Set, not_gone_key.
Qed.

Lemma rely_Delete s : rely (Delete client sj s).
Proof.
  unfold Delete. apply rely_bind; [|intros b].
  - eapply rely_mapErr, rely_keeps, keeps_spares; [apply redis_Get|apply spares_Get].
  - case_match; [|apply rely_throw]. apply rely_mapErr, rely_pipe.
    repeat constructor; (eapply rely_spares; [apply RedisOk0|]); [apply spares_Del|apply spares_SRem].
Qed.

Lemma rely_ListByIdentity id : rely (ListByIdentity client sj id).
Proof.
  unfold ListByIdentity. apply rely_bind; [|intros sids].
  { eapply rely_mapErr, rely_spares; [apply redis_SMembers|apply spares_SMembers]. }
  induction sids as [|s sids IH]; cbn [list_sessions]; [apply rely_ret|].
  apply rely_bind; [|intros [e|b]].
  - eapply rely_try, rely_keeps, keeps_spares; [apply redis_Get|apply spares_Get].
  - case_match; [|apply rely_throw]. apply rely_bind; [|done].
    eapply rely_ignore, rely_spares; [apply redis_SRem|apply spares_SRem].
  - apply rely_bind; [exact IH|intros rest]. case_match; apply rely_ret.
Qed.

#[export] Instance store_keeps_barred : StoreKeep env client sj ttl B barred anywhere.
Proof.
  split; intros.
  - by apply (barred_quiet w).
  - apply rely_Get.
  - apply rely_Delete.
  - apply rely_ListByIdentity.
  - eapply rely_mapErr, rely_spares; [apply redis_Set|]. apply spares_Set. discriminate.
  - eapply rely_mapErr, rely_spares; [apply redis_GetDel|apply spares_GetDel].
Qed.

(** ** The gate *)

(** The request bears no token but those of sessions that are gone. *)
Definition only_gone (r : Request) : Prop :=
  forall token c, Header_Get r "Authorization" = "Bearer " +:+ token ->
    token_claims p cj tokenSvc token = Some c -> cl_SessionID c <> "" /\ gone (cl_SessionID c).

Lemma writeError_unauthorized msg wr : wr_sent wr = None ->
  unauthorized (writeError lib encode_body StatusUnauthorized msg wr).
Proof.
  intros Hs. destruct (writeJSON_sends lib encode_body StatusUnauthorized (BStrings [("error", msg)]) wr Hs)
    as (h & Hh & _). by exists h.
Qed.

(** What Verify returns are the claims of the token. *)
Lemma keeps_Verify token :
  keeps (fun o => match o with
                  | Ok c => token_claims p cj tokenSvc token = Some c
                  | Err _ => True
                  | Panic _ => False
                  end) (Verify p sys cj tokenSvc token).
Proof.
  unfold Verify, token_claims. repeat case_match; try done. simplify_option_eq.
  intros w Hw. simpl. split; [by apply (barred_reading w)|]. split; [done|].
  repeat case_match; simplify_eq; done.
Qed.

(** Reading a session that is gone fails. *)
Lemma keeps_Get_fails s : gone s -> keeps fails (Get client sys sj ttl s).
Proof.
  intros Hs. unfold Get. apply (keeps_pbind _ _ fails); [apply (keeps_pbind _ _ fails)|].
  - destruct (redis_Get (RedisOk:=_) (key s)) as (f & -> & Hf). intros w (Ht & Hc & Hw). specialize (Hf w).
    destruct (f w) as [w' o]. destruct Hf as (Hdb & _ & Ht' & Hf). simpl in *. unfold live in Hf.
    rewrite (Hw s Hs) in Hf. split; [|split; [done|]].
    + unfold barred. rewrite Hdb, Ht'. split; [lia|]. split; [done|].
      destruct (fault _), Hf as [Hd _]; [destruct Hd as [->| ->]|rewrite Hd]; done.
    + destruct (fault _), Hf as [_ Ho]; [destruct Ho as [m Ho]|]; rewrite Ho; by eexists.
  - intros o [e ->]. by eexists.
  - intros o [e ->]. by eexists.
Qed.

Lemma RequireAuth_rejects next r vars wr :
  only_gone r -> wr_sent wr = None ->
  keeps (fun res => unauthorized res.1)
    (RequireAuth sys p cj tokenSvc client sj ttl lib encode_body next r vars wr).
Proof.
  intros Hr Hwr. unfold RequireAuth.
  assert (forall msg, keeps (fun res => unauthorized res.1)
    (finished (writeError lib encode_body StatusUnauthorized msg wr))) as Hno.
  { intros msg. by apply writeError_unauthorized. }
  destruct (String.eqb _ "" || _) eqn:Hpre; [apply Hno|].
  apply orb_false_iff in Hpre as [_ Hpre]. apply negb_false_iff, prefix_Some in Hpre as [token Htok].
  rewrite Htok, TrimPrefix_app.
  eapply invoke_keeps; [apply keeps_Verify|intros c Hc|intros e _; apply Hno|done].
  destruct (Hr token c Htok Hc) as [Hne He]. rewrite (proj2 (String.eqb_neq _ _) Hne).
  eapply invoke_keeps; [by apply keeps_Get_fails|by intros a [e [=]]|intros e _; apply Hno|
    by intros s [e [=]]].
Qed.

(** The answer of a protected route. *)
Lemma keeps_protected r rt vars :
  only_gone r -> rt ∈ protected -> match_method (rt_method rt) r = true ->
  match_path (rt_pattern rt) (r_Path r) = Some vars ->
  keeps (fun rp => exists wr, rp = HttpReply wr None /\ unauthorized wr) (handle_request (HttpRequest r)).
Proof.
  intros Hr Hin Hm Hp. apply (keeps_pbind _ _ (fun res => unauthorized res.1 /\ res.2 = None)).
  - eapply gateway_keeps with (B := B); [apply _|apply _|by apply protected_is_registered|exact Hm|exact Hp|done|done| |].
    { intros wr msg [h Hh]. exists h. by rewrite writeError_sent, Hh. }
    intros now. destruct (protected_handler env p IDKey json cfg cj tokenSvc client sj ttl lib dec
      encode_body rt Hin) as [next ->]. by apply RequireAuth_rejects.
  - intros [wr pnc] [Hu Hn]. simpl in Hu, Hn. subst pnc. by exists wr.
Qed.
End gone.
