(* ===== verification/Revocation.v ===== *)
(** * Revocation: an ended session stays ended, whatever runs

    A session that is not stored any more, in the midst of requests on both
    transports: none of them stores it again, and none that carries its token
    passes a protected route.  The requests are those that start after the
    session's end; one that has read the session before stores it again, as the
    race at the end of the file shows. *)

From Stdlib Require Import ZArith Lia Ascii String.
From stdpp Require Import base list sorting strings numbers gmap.
From S2P Require Import Prelude Bytes Errors Model Repository World Schema Postgres TenantService.
From S2P Require Import IdentityService KeyService Crypto Argon2 SchemaFacts StatementFacts.
From S2P Require Import Guarantees Integrity Runs System Demo Store StoreFacts Jwt JwtFacts Grpc.
From S2P Require Import Rpc.
From S2P Require Import RpcFacts WebAuthn WebAuthnFacts Http HttpFacts HttpDemo LoginFacts.
From S2P Require Import RequestWalk RequestFacts SessionRoutes SessionGate.
Open Scope string_scope.
Open Scope Z_scope.

Section revocation.
Context {X : Type} (env : Env) (p : Prims) (IDKey : idkey) (json : Codec) (cfg : CryptoConfig).
Context (cj : ClaimsCodec) (tokenSvc : TokenService).
Context (client : RedisClient (World X)) (sj : SessionCodec) (ttl : Z).
Context (lib : WebAuthnLib (World X) Request) (dec : Decoders).
Context (encode_body : Body (CredentialCreation lib) (CredentialAssertion lib) -> option bytes).
Context (fmt_v : any -> string) (codec : GrpcCodec).
Context (serve_rpc : list (registered (World X)) -> string -> bytes -> H (World X) bytes).
Context (content : X -> rcontent) (rclock : nat -> time) (fault : nat -> bool).
Context `{!RedisOk client content rclock fault, !LibSteps lib, !GrpcServerOk codec serve_rpc}.
Implicit Types w : World X.
Abbreviation protected :=
  (protected_routes (System.repos (X:=X) env json) (cryptoSvc env p IDKey json cfg) (System.sys env)
     p json cj tokenSvc client sj ttl lib dec encode_body).
Abbreviation handle_request :=
  (handle_request env p IDKey json cfg cj tokenSvc client sj ttl lib dec encode_body fmt_v serve_rpc).

(** The session [sid] is gone, from tick [n0] on. *)
Definition revoked (sid : string) (n0 : nat) : World X -> Prop :=
  barred content (fun _ => True) (fun s => s = sid) n0.

(** The ids that logins draw are new. *)
Lemma keeps_generateSessionID sid n0 :
  (forall n b, (n0 <= n)%nat -> entropy env n 16 = Some b -> session_id b <> sid) ->
  keeps (revoked sid n0) (fun _ _ => True) (on_ok (fun s => s <> sid)) (generateSessionID (system env)).
Proof.
  intros Hnew w Hw. simpl. split; [by apply (barred_reading _ _ _ _ w)|]. split; [done|].
  destruct Hw as [Ht _]. destruct (entropy env (w_tick w) 16) as [b|] eqn:Hb; simpl; [|by intros ? [=]].
  intros s [= <-]. by eapply Hnew.
Qed.

Lemma store_keeps_revoked sid n0 :
  StoreKeep env client sj ttl (evolves env) (revoked sid n0) (fun _ _ => True).
Proof. eapply store_keeps_barred; [apply _|apply _|done]. Qed.
Lemma requests_keep_revoked sid n0 :
  (forall n b, (n0 <= n)%nat -> entropy env n 16 = Some b -> session_id b <> sid) ->
  RequestsKeep env p IDKey json cfg client sj ttl lib (revoked sid n0) (fun _ _ => True)
    True (fun s => s <> sid).
Proof.
  intros Hnew. pose proof (store_keeps_revoked sid n0). split; intros.
  - eapply rely_on_ok, FinishRegistration_rely with (B := evolves env); apply _.
  - eapply rely_on_ok, FinishAssertion_rely with (B := evolves env); apply _.
  - by apply keeps_generateSessionID.
  - by eapply rely_Create.
Qed.

(** A request with a token of the session. *)
Definition bears (sid : string) (r : Request) : Prop :=
  exists token c, Header_Get r "Authorization" = "Bearer " +:+ token /\
    token_claims p cj tokenSvc token = Some c /\ cl_SessionID c = sid.

Lemma bears_only_gone sid r : sid <> "" -> bears sid r -> only_gone p cj tokenSvc (fun s => s = sid) r.
Proof.
  intros Hsid (token & c & Hauth & Hc & <-) token' c' Hauth' Hc'. rewrite Hauth in Hauth'.
  apply (f_equal (fun t => TrimPrefix t "Bearer ")) in Hauth'. rewrite !TrimPrefix_app in Hauth'.
  simplify_eq. by split.
Qed.

(** C9. A revoked session stays revoked.  From the moment a session is not
    stored any more, any number of HTTP and gRPC requests run at once, logins,
    logouts and requests with the session's own token among them, interleaved in
    any way and with any connection failing.  As long as no login draws the
    same random id, the session is not stored again, and every request that
    bears its token to a protected route and has been answered was answered
    401, without a panic. *)
Theorem revoked_session_stays_revoked sid qs sched (w : World X) :
  sid <> "" -> content (w_ext w) !! key sid = None ->
  (forall n b, (w_tick w <= n)%nat -> entropy env n 16 = Some b -> session_id b <> sid) ->
  let '(w', ps) := run_sched sched w
    (handle_request <$> qs) in
  content (w_ext w') !! key sid = None /\
  forall i r rt rp, qs !! i = Some (HttpRequest r) -> bears sid r ->
    rt ∈ protected -> match_method (rt_method rt) r = true ->
    is_Some (match_path (rt_pattern rt) (r_Path r)) -> ps !! i = Some (Ret rp) ->
    exists wr h, rp = HttpReply wr None /\ wr_sent wr = Some (StatusUnauthorized, h).
Proof.
  intros Hsid Hnone Hnew. pose proof (store_keeps_revoked sid (w_tick w)).
  pose proof (requests_keep_revoked sid (w_tick w) Hnew).
  destruct (run_sched sched w (handle_request <$> qs)) as [w' ps] eqn:Hrun.
  destruct (run_sched_steps sched w (handle_request <$> qs)) as [tr Htr]. rewrite Hrun in Htr.
  assert (PreOrder (fun _ _ : World X => True)) by by split.
  set (P i := exists r rt vars, qs !! i = Some (HttpRequest r) /\ bears sid r /\
    rt ∈ protected /\ match_method (rt_method rt) r = true /\
    match_path (rt_pattern rt) (r_Path r) = Some vars).
  set (Q i rp := P i -> exists wr, rp = HttpReply wr None /\ unauthorized wr).
  apply (pool_keeps (revoked sid (w_tick w)) (fun _ _ => True) Q) in Htr as ((_ & _ & Hw') & _ & Hps);
    [| |].
  - split; [by apply Hw'|]. intros i r rt rp Hi Hb Hin Hm [vars Hp] Hrp.
    destruct (Hps i _ Hrp) as (wr & -> & h & Hh); [by exists r, rt, vars|by exists wr, h].
  - split; [done|]. split; [done|]. by intros s ->.
  - intros i m Hm. apply list_lookup_fmap_Some in Hm as (q & -> & Hq). apply keeps_forall.
    + eapply rely_elim, handle_request_rely with (B := evolves env); apply _.
    + intros (r & rt & vars & Hi & Hb & Hin & Hmm & Hp). rewrite Hq in Hi. injection Hi as ->.
      eapply keeps_protected with (B := evolves env);
        [apply _|apply _|done|by apply bears_only_gone|done..].
Qed.
End revocation.

(** ** On concrete requests *)

Definition demo_handle : request -> prog (World rcontent) reply :=
  handle_request demo_env demo_prims demo_IDKey demo_json demo_cfg demo_cj demo_tokens redis1
    demo_sj day demo_http_lib demo_dec demo_body (fun _ => "") demo_serve.
Definition reply_status (m : option (prog (World rcontent) reply)) : option Z :=
  match m with Some (Ret (HttpReply wr None)) => fst <$> wr_sent wr | _ => None end.

(** Alice's session s1 has ended.  She logs in again, while her old token is
    used to read bob and to log out. *)
Definition demo_requests : list request :=
  [HttpRequest login_request; HttpRequest (get_bob (bearer demo_token));
   HttpRequest (post_logout (bearer demo_token))].
Definition demo_schedule : list nat := concat (replicate 30 [0; 1; 2]%nat).

Lemma revoked_session_stays_revoked_witness :
  let '(w', ps) := run_sched demo_schedule (demo_login_world 5) (demo_handle <$> demo_requests) in
  w_ext w' !! key "s1" = None /\ reply_status (ps !! 0%nat) = Some StatusOK /\
  reply_status (ps !! 1%nat) = Some StatusUnauthorized.
Proof.
  assert (exists c, token_claims demo_prims demo_cj demo_tokens demo_token = Some c /\
    cl_SessionID c = "s1") as (c & Hc & Hs) by (eexists; split; vm_compute; reflexivity).
  assert (exists rp, snd (run_sched demo_schedule (demo_login_world 5) (demo_handle <$> demo_requests))
    !! 1%nat = Some (Ret rp)) as [rp Hrp] by (eexists; vm_compute; reflexivity).
  assert (reply_status (snd (run_sched demo_schedule (demo_login_world 5)
    (demo_handle <$> demo_requests)) !! 0%nat) = Some StatusOK) as Hlogin by (vm_compute; reflexivity).
  pose proof (revoked_session_stays_revoked (X:=rcontent) demo_env demo_prims demo_IDKey demo_json
    demo_cfg demo_cj demo_tokens redis1 demo_sj day demo_http_lib demo_dec demo_body (fun _ => "")
    demo_codec demo_serve id ticking (fun _ => false) "s1" demo_requests demo_schedule
    (demo_login_world 5)) as H.
  fold demo_handle in H. destruct (run_sched _ _ _) as [w' ps]. simpl in Hrp, Hlogin.
  destruct H as [Hnone H]; [discriminate|reflexivity| |].
  - intros n b _ [= <-] Hid. apply (f_equal String.length) in Hid. discriminate Hid.
  - destruct (H 1%nat (get_bob (bearer demo_token)) bob_route rp) as (wr & h & Hwr & Hsent);
      [reflexivity|exists demo_token, c; split; [reflexivity|exact (conj Hc Hs)]
      |apply (list_elem_of_lookup_2 _ 6%nat); reflexivity|reflexivity
      |eexists; reflexivity|exact Hrp|].
    split; [exact Hnone|]. split; [exact Hlogin|]. rewrite Hrp, Hwr. simpl. by rewrite Hsent.
Defined.

(** A request in flight undoes a logout.  Alice logs out while another of her
    requests is between its reading of the session and the writing that renews
    it: the logout is answered 200, the session is stored again, and her token
    still opens the routes afterwards. *)
Theorem logout_undone_by_request_in_flight :
  let '(w', ps) := run_sched ([1; 1; 1; 1]%nat ++ replicate 30 0%nat ++ replicate 30 1%nat)%list
    (demo_store (with_session hour hour))
    (demo_handle <$> [HttpRequest (post_logout (bearer demo_token));
                      HttpRequest (get_bob (bearer demo_token))]) in
  reply_status (ps !! 0%nat) = Some StatusOK /\ reply_status (ps !! 1%nat) = Some StatusOK /\
  is_Some (live (ticking (w_tick w')) (w_ext w') (key "s1")) /\
  reply_status (Some (Ret (snd (exec (demo_handle (HttpRequest (get_bob (bearer demo_token)))) w')))) =
    Some StatusOK.
Proof. vm_compute. repeat split. eexists. reflexivity. Qed.
