(* ===== verification/Lockout.v ===== *)
(** * Lockout: nobody gets in

    From tables without credentials, as a new deployment has them, and a store
    without sessions, no registration of a passkey succeeds (its key has no JWK:
    theorem registration_never_succeeds), so that no credential is ever stored,
    no login succeeds and no session is opened: whatever requests are sent, the
    protected routes stay shut. *)

From Stdlib Require Import ZArith Lia Ascii String.
From stdpp Require Import base list sorting strings numbers gmap.
From S2P Require Import Prelude Bytes Errors Model Repository World Schema Postgres TenantService.
From S2P Require Import IdentityService KeyService Crypto Argon2 SchemaFacts StatementFacts.
From S2P Require Import Guarantees Integrity Runs System Demo Store StoreFacts Jwt JwtFacts Grpc.
From S2P Require Import Rpc.
From S2P Require Import RpcFacts WebAuthn WebAuthnFacts Http HttpFacts HttpDemo LoginFacts.
From S2P Require Import RequestWalk RequestFacts SessionRoutes SessionGate Revocation.
Open Scope string_scope.
Open Scope Z_scope.

(** ** No credential appears *)

Definition no_credentials (db : DB) : Prop := db_credentials db = ∅.
Record stays_closed (db db' : DB) : Prop := { stay_closed : no_credentials db -> no_credentials db' }.

#[export] Instance stays_closed_preorder : PreOrder stays_closed.
Proof. split; [by intros db|]. intros x y z [] []. split. auto. Qed.

(** Every statement but the insertion of a credential leaves none where there
    is none. *)
Ltac closed_tac :=
  match goal with H : ?t = inr _ |- stays_closed _ _ =>
    let h := head_of t in try unfold h in H;
    try (match type of H with ?t' = _ => let h' := head_of t' in try unfold h' in H end);
    stmt_inv H; repeat (case_match; stmt_inv H); stmt_checks; simplify_eq;
    split; intro; try done;
    match goal with Hf : find_credential ?db _ _ = Some _, Hdb : no_credentials ?db |- _ =>
      unfold find_credential in Hf; rewrite Hdb in Hf; discriminate Hf end
  end.
#[export] Instance closed_statements env : Statements env stays_closed (fun _ => True).
Proof. split; intros; try done; closed_tac. Qed.
#[export] Instance closed_tenant_statements env : TenantStatements env stays_closed.
Proof. split; intros; closed_tac. Qed.

(** [ValidateLogin] of go-webauthn: the credential that a login presents must be
    one of the user's, so that a user without credentials cannot log in. *)
Class LibVerifies {X} (lib : WebAuthnLib (World X) Request) : Prop :=
  lv_FinishLogin u s r : WebAuthnCredentials u = [] ->
    guar (db_steps eq) (fun o => ~ is_ok o) (lib_FinishLogin lib u s r).

Section lockout.
Context {X : Type} (env : Env) (p : Prims) (IDKey : idkey) (json : Codec) (cfg : CryptoConfig).
Context (cj : ClaimsCodec) (tokenSvc : TokenService).
Context (client : RedisClient (World X)) (sj : SessionCodec) (ttl : Z).
Context (lib : WebAuthnLib (World X) Request) (dec : Decoders).
Context (encode_body : Body (CredentialCreation lib) (CredentialAssertion lib) -> option bytes).
Context (fmt_v : any -> string) (codec : GrpcCodec).
Context (serve_rpc : list (registered (World X)) -> string -> bytes -> H (World X) bytes).
Context (content : X -> rcontent) (rclock : nat -> time) (fault : nat -> bool).
Context `{!RedisOk client content rclock fault, !LibSteps lib, !LibVerifies lib}.
Context `{!GrpcServerOk codec serve_rpc}.
Implicit Types w : World X.
Abbreviation repos := (repos (X:=X) env json).
Abbreviation crypto := (cryptoSvc (X:=X) env p IDKey json cfg).
Abbreviation sys := (sys (X:=X) env).
Abbreviation routes := (registerRoutes repos crypto sys p json cj tokenSvc client sj ttl lib dec encode_body).
Abbreviation protected :=
  (protected_routes repos crypto sys p json cj tokenSvc client sj ttl lib dec encode_body).
Abbreviation handle_request :=
  (handle_request env p IDKey json cfg cj tokenSvc client sj ttl lib dec encode_body fmt_v serve_rpc).

(** No credential and no session is stored. *)
Definition locked : World X -> Prop := barred content no_credentials (fun _ => True) 0.
Abbreviation anywhere := (fun _ _ : World X => True).
Abbreviation keeps := (keeps locked anywhere).
Abbreviation rely := (rely locked anywhere).

#[local] Instance store_keeps_locked : StoreKeep env client sj ttl stays_closed locked anywhere.
Proof. eapply store_keeps_barred; [apply _|apply _|]. by intros db db' []. Qed.

Lemma locked_quiet w w' : locked w -> db_steps stays_closed w w' -> locked w' /\ True.
Proof. apply barred_quiet. by intros db db' []. Qed.
Lemma locked_services {A} (m : prog (World X) A) : steps_in (db_steps stays_closed) m -> rely m.
Proof. intros Hm. exact (rely_steps_in _ _ _ m locked_quiet Hm). Qed.

Lemma keeps_takeSession g u s : keeps (on_ok (fun _ => True)) (takeSession lib client g u s).
Proof.
  apply rely_on_ok. eapply takeSession_rely with (B := stays_closed) (p := p) (IDKey := IDKey)
    (json := json) (cfg := cfg); apply _.
Qed.

(** The passkeys of an identity. *)
Lemma keeps_loadPasskeys op op' t h :
  keeps (on_ok (fun x => x.2 = [])) (loadPasskeys repos crypto json op op' t h).
Proof.
  pose proof (postgres_steps (X:=X) env json stays_closed (fun _ => True)) as Hr.
  pose proof (service_steps (X:=X) env p IDKey json cfg stays_closed) as Hc.
  unfold loadPasskeys. eapply keeps_then.
  { apply rely_on_ok, rely_mapErr, locked_services. by eapply GetIdentityByHandle_steps. }
  intros i. case_match; [apply keeps_throw|].
  apply (keeps_bind _ _ (fun l => l = [])); [|intros l ->; by apply keeps_ret].
  apply keeps_mapErr, keeps_yields.
  { apply rely_elim, locked_services. apply Hr. }
  simpl. unfold CredentialRepo_ListByIdentity, Returning.
  intros w (_ & Hdb & _). simpl. destruct (pg_fault _ _); simpl; [by intros ? [=]|].
  unfold sqlCredentialListByIdentity. rewrite Hdb. unfold rows_where. rewrite map_to_list_empty. simpl.
  destruct (uuid_col env (i_ID i)); simpl; [by intros ? [=]|].
  destruct (uuid_col env t); simpl; [by intros ? [=]|].
  unfold answer. destruct (pg_lost _ _); simpl; [by intros ? [=]|]. by intros ? [= <-].
Qed.

(** A login does not succeed. *)
Lemma keeps_FinishAssertion t h s r :
  keeps (on_ok (fun _ => False)) (FinishAssertion lib client repos crypto sys json t h s r).
Proof.
  pose proof (postgres_steps (X:=X) env json stays_closed (fun _ => True)) as Hr.
  unfold FinishAssertion. eapply keeps_bind; [apply keeps_loadPasskeys|intros [i creds] Hcreds].
  simpl in Hcreds. subst creds.
  eapply keeps_then; [apply keeps_takeSession|intros session].
  apply (keeps_bind _ _ (fun o => exists e, o = inl e)).
  - apply (keeps_pbind _ _ (fun o => ~ is_ok o)).
    + eapply keeps_guar; [|by apply lv_FinishLogin].
      intros w w' Hw Hs. apply (locked_quiet w); [done|].
      eapply db_steps_mono; [|exact Hs]. by intros db ? <-.
    + intros [a|e|m] Ho; simpl; [destruct Ho; by eexists| |]; intros ? [= <-]. by eexists.
  - intros o [e ->]. eapply keeps_then; [|intros ?; apply keeps_throw].
    apply rely_on_ok, locked_services. unfold auditLogin. apply steps_in_ignore.
    by eapply (rs_Audit_Insert (scope := fun _ => True)).
Qed.

(** A key without a JWK is not created. *)
Lemma KeyRepo_Create_yields k :
  k_PublicKeyJWK k = None -> yields locked (on_ok (fun _ => False)) (KeyRepo_Create (X:=X) env k).
Proof.
  intros Hk. unfold KeyRepo_Create, withTenantConn.
  do 2 (apply yields_then; intros _). apply yields_mapErr.
  eapply yields_pbind with (Q := on_ok (fun _ => False)).
  - intros w _. simpl. destruct (pg_fault _ _); simpl; [by intros ? [=]|].
    destruct (sqlKeyInsert env k (w_tick w) (w_db w)) as [e|[db' row]] eqn:Hr; simpl; [by intros ? [=]|].
    exfalso. unfold sqlKeyInsert in Hr. rewrite Hk in Hr. stmt_inv Hr. stmt_checks. simplify_eq/=.
  - intros [a|e|m] Ho; [by destruct (Ho a eq_refl)|by intros ? [=]..].
Qed.

(** A registration does not succeed. *)
Lemma keeps_FinishRegistration t i s r :
  keeps (on_ok (fun _ => False)) (FinishRegistration lib client repos crypto p json t i s r).
Proof.
  pose proof (postgres_steps (X:=X) env json stays_closed (fun _ => True)) as Hr.
  pose proof (service_steps (X:=X) env p IDKey json cfg stays_closed) as Hc.
  unfold FinishRegistration.
  eapply keeps_then; [apply rely_on_ok, rely_mapErr, locked_services; by eapply GetIdentity_steps|intros id].
  eapply keeps_then; [apply rely_on_ok, rely_mapErr, locked_services; apply Hr|intros creds].
  eapply keeps_then; [apply keeps_takeSession|intros session].
  eapply keeps_then.
  { apply rely_on_ok, rely_mapErr, locked_services, (db_quiet stays_closed), LibSteps0. }
  intros credential. apply (keeps_bind _ _ (fun _ => False)); [|done].
  apply keeps_mapErr, keeps_yields; [apply rely_elim, locked_services; by apply Hr|].
  by apply KeyRepo_Create_yields.
Qed.

#[local] Instance requests_keep_locked :
  RequestsKeep env p IDKey json cfg client sj ttl lib locked anywhere False (fun _ => True).
Proof. split; intros; [apply keeps_FinishRegistration|apply keeps_FinishAssertion|done..]. Qed.

(** ** The routes that would open a session *)

(** Nothing was sent, or no success. *)
Definition no_success (wr : Writer) : Prop :=
  match wr_sent wr with Some (st, _) => 400 <= st | None => True end.

Lemma no_success_writeJSON st v wr : 400 <= st -> wr_sent wr = None ->
  no_success (writeJSON lib encode_body st v wr).
Proof.
  intros Hst Hwr. destruct (writeJSON_sends lib encode_body st v wr Hwr) as (h & Hh & _).
  unfold no_success. by rewrite Hh.
Qed.
Lemma no_success_serviceError e wr : wr_sent wr = None ->
  no_success (writeServiceError lib encode_body e wr).
Proof.
  intros Hwr. unfold writeServiceError. destruct (serviceError e) as [st msg] eqn:He.
  apply no_success_writeJSON; [|by case_match].
  unfold serviceError in He. repeat case_match; simplify_eq; done.
Qed.

(** The handlers that end a registration or a login. *)
Definition opens_session (rt : route (W:=World X)) : Prop :=
  rt_key rt = ("POST", [Lit "v1"; Lit "auth"; Lit "register"; Lit "complete"]) \/
  rt_key rt = ("POST", [Lit "v1"; Lit "auth"; Lit "login"; Lit "complete"]).

Lemma opening_routes rt : rt ∈ routes -> opens_session rt ->
  rt_handler rt = RegisterComplete repos crypto sys p json cj tokenSvc client sj ttl lib encode_body \/
  rt_handler rt = LoginComplete repos crypto sys p json cj tokenSvc client sj ttl lib encode_body.
Proof.
  intros Hin Ho. unfold registerRoutes, public_routes, protected_routes, protected_handlers in Hin.
  simpl in Hin. repeat (apply elem_of_cons in Hin as [->|Hin];
    [first [by left|by right|by destruct Ho as [Ho|Ho]; discriminate Ho]|]).
  by apply elem_of_nil in Hin.
Qed.
Lemma no_success_writeError st msg wr : 400 <= st -> no_success wr ->
  no_success (writeError lib encode_body st msg wr).
Proof.
  intros Hst Hwr. unfold no_success in *. rewrite writeError_sent.
  destruct (wr_sent wr) as [[? ?]|] eqn:Hs; [done|].
  by apply no_success_writeJSON.
Qed.

(** A handler that ends in an error, or panics, without having sent anything. *)
Lemma keeps_invoke_fails {A} (m : M (World X) A) wr k :
  keeps (on_ok (fun _ => False)) m -> wr_sent wr = None ->
  (forall e, exists wr', k (inl e) = finished wr' /\ no_success wr') ->
  keeps (fun res => no_success res.1) (invoke m wr k).
Proof.
  intros Hm Hwr Hk. eapply invoke_keeps; [exact Hm|by intros a []%(fun H => H a eq_refl)|..].
  - intros e _. destruct (Hk e) as (wr' & -> & Hwr'). exact Hwr'.
  - intros s _. unfold no_success. simpl. by rewrite Hwr.
Qed.

Lemma keeps_opening rt r vars wr : rt ∈ routes -> opens_session rt -> wr_sent wr = None ->
  keeps (fun res => no_success res.1) (rt_handler rt r vars wr).
Proof.
  intros Hin Ho Hwr. assert (no_success wr) as Hno by (unfold no_success; by rewrite Hwr).
  destruct (opening_routes rt Hin Ho) as [->| ->]; [unfold RegisterComplete|unfold LoginComplete];
    (case_match; [by apply (no_success_writeError StatusBadRequest)|]).
  - apply keeps_invoke_fails; [apply keeps_FinishRegistration|done|]. intros e. eexists. split; [done|].
    by apply no_success_serviceError.
  - apply keeps_invoke_fails; [apply keeps_FinishAssertion|done|]. intros e. eexists. split; [done|].
    case_match; [by apply (no_success_writeError StatusForbidden)|by apply no_success_serviceError].
Qed.

(** The answers of the requests that would open a session. *)
Lemma keeps_entrance r rt vars : rt ∈ routes -> opens_session rt ->
  match_method (rt_method rt) r = true -> match_path (rt_pattern rt) (r_Path r) = Some vars ->
  keeps (fun rp => exists wr, rp = HttpReply wr None /\ no_success wr) (handle_request (HttpRequest r)).
Proof.
  intros Hin Ho Hm Hp. apply (keeps_pbind _ _ (fun res => no_success res.1 /\ res.2 = None)).
  - eapply gateway_keeps with (B := stays_closed); [apply _|apply _|exact Hin|exact Hm|exact Hp|done|done| |].
    { intros wr msg. by apply (no_success_writeError StatusInternalServerError). }
    intros now. by apply keeps_opening.
  - intros [wr pnc] [Hu Hn]. simpl in Hu, Hn. subst pnc. by exists wr.
Qed.

Definition no_sessions (d : rcontent) : Prop := forall sid, d !! key sid = None.

(** Every token of the request that verifies names a session. *)
Definition names_session (r : Request) : Prop :=
  only_gone p cj tokenSvc (fun _ => True) r.

(** C10. Nobody gets in.  From tables without credentials and a store without
    sessions, as a new deployment has them, any number of HTTP and gRPC requests
    run at once, interleaved in any way and with any connection failing.
    Afterwards no credential and no session is stored; no request that ends a
    registration or a login was answered with a success; and every answered
    request to a protected route was answered 401, unless it bears a token
    without a session. *)
Theorem nobody_gets_in qs sched (w : World X) :
  no_credentials (w_db w) -> no_sessions (content (w_ext w)) ->
  let '(w', ps) := run_sched sched w (handle_request <$> qs) in
  no_credentials (w_db w') /\ no_sessions (content (w_ext w')) /\
  forall i r rt rp, qs !! i = Some (HttpRequest r) -> rt ∈ routes ->
    match_method (rt_method rt) r = true -> is_Some (match_path (rt_pattern rt) (r_Path r)) ->
    ps !! i = Some (Ret rp) ->
    (opens_session rt -> exists wr, rp = HttpReply wr None /\ no_success wr) /\
    (rt ∈ protected -> names_session r -> exists wr, rp = HttpReply wr None /\ unauthorized wr).
Proof.
  intros Hdb Hnone. destruct (run_sched sched w (handle_request <$> qs)) as [w' ps] eqn:Hrun.
  destruct (run_sched_steps sched w (handle_request <$> qs)) as [tr Htr]. rewrite Hrun in Htr.
  assert (PreOrder anywhere) by by split.
  set (sent i (rt : route (W:=World X)) r vars := qs !! i = Some (HttpRequest r) /\ match_method (rt_method rt) r = true /\
    match_path (rt_pattern rt) (r_Path r) = Some vars).
  set (P i := exists r rt vars, sent i rt r vars /\ rt ∈ routes /\ opens_session rt).
  set (P' i := exists r rt vars, sent i rt r vars /\ rt ∈ protected /\ names_session r).
  set (Q i rp := (P i -> exists wr, rp = HttpReply wr None /\ no_success wr) /\
    (P' i -> exists wr, rp = HttpReply wr None /\ unauthorized wr)).
  apply (pool_keeps locked anywhere Q) in Htr as ((_ & Hdb' & Hw') & _ & Hps); [| |].
  - split; [exact Hdb'|]. split; [intros sid; by apply Hw'|]. intros i r rt rp Hi Hin Hm [vars Hp] Hrp.
    destruct (Hps i _ Hrp) as [H1 H2]. split; intros; [apply H1|apply H2]; by exists r, rt, vars.
  - split; [lia|]. split; [exact Hdb|]. by intros s _.
  - intros i m Hm. apply list_lookup_fmap_Some in Hm as (q & -> & Hq).
    assert (rely (handle_request q)) as Hrely by (eapply handle_request_rely with (B := stays_closed); apply _).
    apply keeps_and; (apply keeps_forall; [by apply rely_elim|]);
      intros (r & rt & vars & (Hi & Hmm & Hp) & Hin & Hr); rewrite Hq in Hi; injection Hi as ->.
    + by eapply keeps_entrance.
    + eapply keeps_protected with (B := stays_closed);
        [apply _|apply _|by intros db db' []|exact Hr|exact Hin|exact Hmm|exact Hp].
Qed.
End lockout.

(** ** On concrete requests *)

#[export] Instance demo_http_lib_verifies : LibVerifies demo_http_lib.
Proof. intros u s r Hu. cbn. rewrite Hu. by intros []. Qed.

(** Alice ends a login and a registration, each with the challenge that is
    stored, and reads bob with a token of a session s1. *)
Definition register_request : Request :=
  mkRequest "POST" ["v1"; "auth"; "register"; "complete"] []
    (<["X-Tenant-ID" := "t1"]> (<["X-Identity-ID" := "alice"]> {["X-Session-ID" := "c"]})) []
    "10.0.0.1:4000" Background.
Definition entering_requests : list request :=
  [HttpRequest login_request; HttpRequest (get_bob (bearer demo_token)); HttpRequest register_request].

Lemma nobody_gets_in_witness :
  let '(w', ps) := run_sched demo_schedule (demo_store with_challenge)
    (demo_handle <$> entering_requests) in
  no_credentials (w_db w') /\ no_sessions (w_ext w') /\
  reply_status (ps !! 0%nat) = Some StatusInternalServerError /\
  reply_status (ps !! 1%nat) = Some StatusUnauthorized /\
  reply_status (ps !! 2%nat) = Some StatusInternalServerError.
Proof.
  assert (exists rp, snd (run_sched demo_schedule (demo_store with_challenge)
    (demo_handle <$> entering_requests)) !! 1%nat = Some (Ret rp)) as [rp Hrp]
    by (eexists; vm_compute; reflexivity).
  assert (reply_status <$> map (fun i => snd (run_sched demo_schedule (demo_store with_challenge)
      (demo_handle <$> entering_requests)) !! i) [0; 2]%nat =
    replicate 2 (Some StatusInternalServerError)) as Hends by (vm_compute; reflexivity).
  assert (names_session demo_prims demo_cj demo_tokens (get_bob (bearer demo_token))) as Hnames.
  { intros token c Hauth Hc. split; [|exact Logic.I].
    change (Header_Get (get_bob (bearer demo_token)) "Authorization") with ("Bearer " +:+ demo_token) in Hauth.
    apply (f_equal (fun t => TrimPrefix t "Bearer ")) in Hauth. rewrite !TrimPrefix_app in Hauth.
    subst token. revert Hc. vm_compute. intros [= <-]. discriminate. }
  pose proof (nobody_gets_in (X:=rcontent) demo_env demo_prims demo_IDKey demo_json
    demo_cfg demo_cj demo_tokens redis1 demo_sj day demo_http_lib demo_dec demo_body (fun _ => "")
    demo_codec demo_serve id ticking (fun _ => false) entering_requests demo_schedule
    (demo_store with_challenge)) as H.
  fold demo_handle in H. destruct (run_sched _ _ _) as [w' ps]. simpl in Hrp, Hends.
  destruct H as (Hdb & Hnone & H); [reflexivity|intros sid; apply lookup_singleton_ne; discriminate|].
  destruct (H 1%nat (get_bob (bearer demo_token)) bob_route rp) as [_ Hbob];
    [reflexivity|apply (list_elem_of_lookup_2 _ 13%nat); reflexivity|reflexivity
    |eexists; reflexivity|exact Hrp|].
  destruct Hbob as (wr & Hwr & h & Hsent);
    [apply (list_elem_of_lookup_2 _ 6%nat); reflexivity|exact Hnames|].
  split; [exact Hdb|]. split; [exact Hnone|]. injection Hends as Hlogin Hregister.
  split; [exact Hlogin|]. split; [|exact Hregister]. rewrite Hrp, Hwr. simpl. by rewrite Hsent.
Defined.
