(* ===== verification/PanicFacts.v ===== *)
(** * PanicFacts: no service call panics

    What can panic in the sources is partial here: dereferencing a pointer,
    indexing and slicing (file Bytes), and encrypting or decrypting with a nonce
    of the wrong size (file Crypto).  [calm] says of a program that none of its
    runs panics, whatever happens in the world between its actions; the
    services are calm over PostgreSQL and the local key store, because of the
    tests they make before these operations. *)

From Stdlib Require Import ZArith Lia Ascii String.
From stdpp Require Import base list strings numbers gmap.
From S2P Require Import Prelude Bytes Errors Model Repository World Schema Postgres TenantService.
From S2P Require Import IdentityService KeyService Crypto Argon2 SchemaFacts Guarantees Integrity.
From S2P Require Import Runs System Demo CryptoFacts SessionFacts Grpc Rpc RpcFacts.
Open Scope string_scope.
Open Scope Z_scope.

Section calm.
Context {W E : Type}.

Definition no_panic {A} (o : outcome E A) : Prop := match o with Panic _ => False | _ => True end.
Definition calm {A} (m : prog W (outcome E A)) : Prop :=
  keeps (fun _ => True) (fun _ _ => True) no_panic m.

Lemma calm_ret {A} (a : A) : calm (ret a).
Proof. exact I. Qed.
Lemma calm_Ret {A} (o : outcome E A) : no_panic o -> calm (Ret o).
Proof. done. Qed.
Lemma calm_throw {A} (e : E) : calm (throw (A:=A) e).
Proof. exact I. Qed.
Lemma calm_bind {A B} (m : prog W (outcome E A)) (k : A -> prog W (outcome E B)) :
  calm m -> (forall a, calm (k a)) -> calm (bind m k).
Proof.
  intros Hm Hk. eapply keeps_pbind; [exact Hm|]. intros [a|e|s] Ho; [apply Hk|exact I|done].
Qed.
(** A program whose values are in [Q]. *)
Definition calm_on {A} (Q : A -> Prop) (m : prog W (outcome E A)) : Prop :=
  keeps (fun _ => True) (fun _ _ => True) (fun o => no_panic o /\ on_ok Q o) m.
Lemma calm_bind_on {A B} Q (m : prog W (outcome E A)) (k : A -> prog W (outcome E B)) :
  calm_on Q m -> (forall a, Q a -> calm (k a)) -> calm (bind m k).
Proof.
  intros Hm Hk. eapply keeps_pbind; [exact Hm|]. intros [a|e|s] [Ho HQ]; [by apply Hk, HQ|exact I|done].
Qed.
Lemma calm_on_mapErr {A} Q g (m : prog W (outcome E A)) : calm_on Q m -> calm_on Q (mapErr g m).
Proof.
  intros Hm. eapply keeps_pbind; [exact Hm|]. intros [a|e|s] [Ho HQ]; [done|by split|done].
Qed.
Lemma calm_mapErr {A} g (m : prog W (outcome E A)) : calm m -> calm (mapErr g m).
Proof. intros Hm. eapply keeps_pbind; [exact Hm|]. by intros [a|e|s] Ho. Qed.
Lemma calm_try {A} (m : prog W (outcome E A)) : calm m -> calm (try m).
Proof. intros Hm. eapply keeps_pbind; [exact Hm|]. by intros [a|e|s] Ho. Qed.
Lemma calm_act {A} (f : W -> W * A) : calm (act (E:=E) f).
Proof. by intros w _. Qed.
Lemma calm_actO {A} (f : W -> W * outcome E A) : (forall w, no_panic (snd (f w))) -> calm (actO f).
Proof. intros Hf w _. split; [done|]. split; [done|]. apply Hf. Qed.
Lemma calm_mapM {A B} (f : A -> prog W (outcome E B)) l : (forall x, calm (f x)) -> calm (mapM f l).
Proof.
  intros Hf. induction l as [|x l IH]; [apply calm_ret|]. cbn [mapM].
  do 2 (apply calm_bind; [auto|intros ?]). apply calm_ret.
Qed.
Lemma calm_exec {A} (m : prog W (outcome E A)) w : calm m -> no_panic (snd (exec m w)).
Proof.
  revert w. induction m as [o|R f k IH]; intros w; [done|]. intros H. destruct (H w I) as (_ & _ & Hk).
  cbn [exec]. destruct (f w) as [w' r]. by apply IH.
Qed.
End calm.

Ltac calm_walk :=
  repeat first
    [ solve [eauto with calm]
    | apply calm_ret | apply calm_throw | apply calm_Ret
    | apply calm_bind; [|intros ?] | apply calm_mapErr | apply calm_try
    | apply calm_mapM; intros ?
    | case_match ].

Section calls.
Context {X : Type} (env : Env) (p : Prims) (IDKey : idkey) (json : Codec) (cfg : CryptoConfig).
Context (fmt_v : any -> string) `{!EnvOk env}.
Implicit Types w : World X.
Abbreviation repos := (repos (X:=X) env json).
Abbreviation crypto := (cryptoSvc (X:=X) env p IDKey json cfg).
Abbreviation sys := (System.sys (X:=X) env).
Abbreviation run_call := (run_call (X:=X) env p IDKey json cfg).
Abbreviation method :=
  (server_call (newIdentityServer repos crypto json fmt_v) (newKeyServer repos crypto sys)).

(** ** Primitives *)

Lemma time_Now_calm : calm (time_Now (X:=X) env).
Proof. apply calm_act. Qed.
Lemma rand_Read_calm n : calm (rand_Read (X:=X) env n).
Proof. apply calm_actO. intros w. simpl. by case_match. Qed.
Lemma pg_command_calm {R} (f : nat -> DB -> error + (DB * R)) : calm (pg_command (X:=X) env f).
Proof. apply calm_actO. intros w. unfold answer. repeat case_match; exact I. Qed.
#[local] Hint Resolve time_Now_calm rand_Read_calm pg_command_calm : calm.

(** ** Repositories *)

Lemma withTenantConn_calm {A} t (fn : Conn -> M (World X) A) :
  (forall c, calm (fn c)) -> calm (withTenantConn env t fn).
Proof. intros Hfn. unfold withTenantConn, command. calm_walk. Qed.
Lemma withTenantTx_calm {A} t (fn : Conn -> M (World X) A) :
  (forall c, calm (fn c)) -> calm (withTenantTx env t fn).
Proof.
  intros Hfn. unfold withTenantTx, command. apply calm_bind; [calm_walk|]. intros _.
  apply calm_actO. intros w.
  match goal with |- context [exec ?m w] => pose proof (calm_exec m w) as H end.
  destruct (exec _ w) as [w' [a|e|s]]; [|done|apply H; calm_walk].
  rewrite exec_bind, exec_mapErr. unfold commit, answer. rewrite exec_actO.
  by repeat case_match.
Qed.
Lemma QueryRow_calm {R A} stmt (scan : R -> A) : calm (QueryRow (X:=X) env stmt scan).
Proof. unfold QueryRow. calm_walk. Qed.
Lemma Returning_calm {R} (stmt : nat -> DB -> error + (DB * R)) : calm (Returning (X:=X) env stmt).
Proof. apply pg_command_calm. Qed.
Lemma Exec_calm stmt : calm (Exec (X:=X) env stmt).
Proof. apply pg_command_calm. Qed.
Lemma insert_event_calm a : calm (insert_event (X:=X) env a).
Proof. unfold insert_event, Returning. calm_walk. Qed.
#[local] Hint Resolve QueryRow_calm Returning_calm Exec_calm insert_event_calm : calm.

(** What the services use of the repositories and of the crypto service. *)
Record calm_repos (r : Repositories (World X)) : Prop := {
  cr_Tenants_Create t : calm (Tenants_Create (Tenants r) t);
  cr_Tenants_GetByID id : calm (Tenants_GetByID (Tenants r) id);
  cr_Tenants_GetBySlug s : calm (Tenants_GetBySlug (Tenants r) s);
  cr_Tenants_UpdateStatus id s : calm (Tenants_UpdateStatus (Tenants r) id s);
  cr_Identities_Create i : calm (Identities_Create (Identities r) i);
  cr_Identities_GetByID t id : calm (Identities_GetByID (Identities r) t id);
  cr_Identities_GetByHandle t h : calm (Identities_GetByHandle (Identities r) t h);
  cr_Identities_Update i : calm (Identities_Update (Identities r) i);
  cr_Identities_UpdateStatus t id s : calm (Identities_UpdateStatus (Identities r) t id s);
  cr_Identities_SetPrimaryKey t id k : calm (Identities_SetPrimaryKey (Identities r) t id k);
  cr_Identities_List t f : calm (Identities_List (Identities r) t f);
  cr_Keys_Create k : calm (Keys_Create (Keys r) k);
  cr_Keys_GetByID t id : calm (Keys_GetByID (Keys r) t id);
  cr_Keys_ListByIdentity t id s : calm (Keys_ListByIdentity (Keys r) t id s);
  cr_Keys_Rotate t o n : calm (Keys_Rotate (Keys r) t o n);
  cr_Keys_Revoke t id : calm (Keys_Revoke (Keys r) t id);
  cr_Audit_Insert a : calm (Audit_Insert (Audit r) a) }.

Lemma postgres_calm : calm_repos repos.
Proof.
  split; intros; cbn [Tenants Identities Keys Audit repos PostgresRepositories TenantRepo
    IdentityRepo KeyRepo AuditRepo Tenants_Create Tenants_GetByID Tenants_GetBySlug
    Tenants_UpdateStatus Identities_Create Identities_GetByID Identities_GetByHandle
    Identities_Update Identities_UpdateStatus Identities_SetPrimaryKey Identities_List Keys_Create
    Keys_GetByID Keys_ListByIdentity Keys_Rotate Keys_Revoke Audit_Insert];
    unfold TenantRepo_Create, TenantRepo_GetByID, TenantRepo_GetBySlug, TenantRepo_UpdateStatus,
      IdentityRepo_Create, IdentityRepo_GetByID, IdentityRepo_GetByHandle, IdentityRepo_Update,
      IdentityRepo_UpdateStatus, IdentityRepo_SetPrimaryKey, IdentityRepo_List, KeyRepo_Create,
      KeyRepo_GetByID, getKey, KeyRepo_ListByIdentity, KeyRepo_Rotate, KeyRepo_Revoke,
      AuditRepo_Insert, insertConn, insertTx;
    first [apply withTenantConn_calm; intros ? | apply withTenantTx_calm; intros ? | idtac]; calm_walk.
Qed.

Record calm_crypto (c : CryptoService (World X)) : Prop := {
  cc_GenerateEd25519Key id : calm (GenerateEd25519Key c id);
  cc_GenerateECDSAP256Key id : calm (GenerateECDSAP256Key c id);
  cc_Encrypt b : calm (Encrypt c b);
  cc_Decrypt b iv : calm (Decrypt c b iv) }.

Lemma local_Store_calm id k : calm (local_Store (X:=X) id k).
Proof. unfold local_Store. pose proof @calm_act. calm_walk. Qed.
#[local] Hint Resolve local_Store_calm : calm.

(** Padding tests that there is room for the bytes. *)
Lemma zeroPad_calm b n : no_panic (E:=error) (zeroPad b n).
Proof.
  destruct (Nat.le_gt_cases n (List.length b)) as [Hn|Hn].
  - unfold zeroPad. by rewrite (proj2 (Nat.leb_le _ _) Hn).
  - by rewrite zeroPad_pads by lia.
Qed.
Lemma p256_jwk_calm x y id : no_panic (E:=error) (p256_jwk x y id).
Proof.
  unfold p256_jwk. pose proof (zeroPad_calm (big_Bytes x) p256_byteLen).
  pose proof (zeroPad_calm (big_Bytes y) p256_byteLen).
  destruct (zeroPad (big_Bytes x) _); [|done..]. by destruct (zeroPad (big_Bytes y) _).
Qed.
(** A nonce is drawn in the size that Seal accepts, and is tested for the size
    that Open accepts. *)
Lemma RandRead_size n : calm_on (fun b => List.length b = n) (RandRead sys n).
Proof.
  intros w _. split; [done|]. split; [done|]. simpl.
  destruct (entropy env (w_tick w) n) as [b|] eqn:Hb; [|by split].
  split; [done|]. intros b' [= <-]. by eapply entropy_length.
Qed.
Lemma check_calm {A} (e : error + A) : calm (W:=World X) (check e).
Proof. by destruct e. Qed.
Lemma aesEncrypt_calm key pt : calm (aesEncrypt p sys key pt).
Proof.
  unfold aesEncrypt. case_match; [apply calm_throw|].
  apply calm_bind; [apply calm_mapErr, check_calm|intros block].
  apply calm_bind_on with (Q := fun b => List.length b = aesNonceSize);
    [apply calm_on_mapErr, RandRead_size|intros iv Hiv].
  unfold AEAD_Seal. rewrite Hiv. calm_walk.
Qed.
Lemma aesDecrypt_calm key ct iv : calm (W:=World X) (aesDecrypt p key ct iv).
Proof.
  unfold aesDecrypt. case_match; [apply calm_throw|].
  destruct (Nat.eqb (List.length iv) aesNonceSize) eqn:Hiv; [|apply calm_throw]. cbn [negb].
  apply calm_bind; [apply calm_mapErr, check_calm|intros block].
  unfold AEAD_Open. unfold aesNonceSize in Hiv. rewrite Hiv. calm_walk.
Qed.
#[local] Hint Resolve p256_jwk_calm check_calm aesEncrypt_calm aesDecrypt_calm : calm.
Lemma service_calm : calm_crypto crypto.
Proof.
  split; simpl; intros; unfold generateEd25519Key, generateECDSAP256Key; simpl; calm_walk.
Qed.

(** ** Services *)

(** The copies of encryptAttributes fill the slice it made for them; the slices
    of decryptAttributes are of attributes it found long enough. *)
Lemma encryptAttributes_calm attrs : calm (encryptAttributes crypto json attrs).
Proof.
  destruct service_calm. unfold encryptAttributes. case_match; [apply calm_ret|].
  apply calm_bind; [apply check_calm|intros pt].
  apply calm_bind; [by apply calm_mapErr|intros [ct iv]].
  rewrite copy_front by (rewrite length_replicate; lia).
  eapply calm_bind_on with (Q := fun c => c = (iv ++ replicate (List.length ct) Byte.x00)%list).
  - intros. split; [done|]. intros ? [= <-]. rewrite drop_replicate. do 2 f_equal. lia.
  - intros c ->. rewrite copy_back by (rewrite length_app, length_replicate; lia). calm_walk.
Qed.
Lemma decryptAttributes_calm i : calm (decryptAttributes crypto json i).
Proof.
  destruct service_calm. unfold decryptAttributes. case_match; [apply calm_ret|].
  destruct (Nat.ltb_spec (List.length (slice_bytes (i_Attributes i))) ivLen) as [|Hlen]; [apply calm_throw|].
  rewrite subslice_to, subslice_from by done. calm_walk.
Qed.
(** A pointer is tested before it is dereferenced. *)
Lemma IsUsable_calm {E} k now : no_panic (E:=E) (IdentityKey_IsUsable k now).
Proof.
  unfold IdentityKey_IsUsable. destruct (negb _), (Before now (k_ValidFrom k)), (k_ValidUntil k) as [u|]; try done.
  cbn [not_nil andalso deref obind]. by destruct (After now u).
Qed.
Lemma primary_calm (q : option string) old :
  no_panic (E:=error) (andalso (not_nil q) (obind (deref q) (fun id => Ok (String.eqb id old)))).
Proof. by destruct q. Qed.
#[local] Hint Resolve encryptAttributes_calm decryptAttributes_calm IsUsable_calm primary_calm : calm.

Lemma run_call_calm c : calm (run_call c).
Proof.
  destruct postgres_calm, service_calm. destruct c; unfold System.run_call, finish;
    unfold CreateTenant, GetTenant, GetTenantBySlug, SuspendTenant, ActivateTenant, CreateIdentity,
      GetIdentity, GetIdentityByHandle, ListIdentities, UpdateIdentity, DeactivateIdentity,
      SuspendIdentity, ReactivateIdentity, GenerateKey, GetKey, ListKeys, RotateKey, RevokeKey,
      generateKeyPair, keyIsUsable;
    change (Now sys) with (time_Now (X:=X) env); calm_walk.
Qed.

(** C24. No call panics.  Of any number of service calls that run at once, in any
    interleaving and whatever fails on the way, none ends in a panic, nor does
    a gRPC method that is given a decoded request: every slice they take is in
    bounds (stored attributes of any length included), every pointer they
    dereference is not nil, and the nonces they use are of the size that the
    cipher asks for. *)
Theorem calls_never_panic cs sched w i s :
  snd (run_sched sched w (run_call <$> cs)) !! i <> Some (Ret (Panic s)) /\
  forall q w', snd (exec (method q) w') <> Panic s.
Proof.
  split.
  - intros Hi. destruct (run_sched_steps sched w (run_call <$> cs)) as [tr Htr].
    assert (PreOrder (fun _ _ : World X => True)) by by split.
    destruct (pool_keeps (fun _ => True) (fun _ _ => True) (fun _ => no_panic) _ _ _ _ _ Htr I)
      as (_ & _ & Hps); [|exact (Hps i _ Hi)].
    intros j m Hj. apply list_lookup_fmap_Some in Hj as (c & -> & _). apply run_call_calm.
  - intros q w' Hs. pose proof (method_runs_call env p IDKey json cfg fmt_v q w') as [_ H].
    pose proof (calm_exec _ w' (run_call_calm (call_of q))) as Hc.
    destruct (snd (exec (run_call (call_of q)) w')) as [a|e|m]; [|congruence|done].
    destruct H as [b Hb]. congruence.
Qed.
End calls.

(** What a scan reads as bob's attributes is shorter than a nonce: reading him is an
    error, in the middle of another call. *)
Lemma calls_never_panic_witness :
  let db := demo_db "active" "active" in
  let bob := mkIdentityRow "bob" "t2" "human" "bob" "bob" "active" (Some "k2") [] [Byte.x07] None 1
               demo_epoch demo_epoch None in
  let w := World.set_db (mkDB (db_tenants db) (<["bob" := bob]> (db_identities db)) (db_keys db)
                     (db_credentials db) (db_audit db)) (demo_world "active" "active") in
  let ps := snd (run_sched [0; 1; 0; 1; 0; 1; 0; 1; 0; 1; 0; 1; 0; 1; 0; 1]%nat w
    (run_call demo_env demo_prims demo_IDKey demo_json demo_cfg <$>
       [CallGetIdentity "t2" "bob"; CallRotateKey "t1" "alice" "k1" "alice"])) in
  ps !! 0%nat = Some (Ret (Err (EWrap "decrypt attributes" (ENew "encrypted attributes too short")))) /\
  forall i s, ps !! i <> Some (Ret (Panic s)).
Proof.
  intros db bob w ps. split; [vm_compute; reflexivity|]. intros i s.
  apply (calls_never_panic (X:=unit) demo_env demo_prims demo_IDKey demo_json demo_cfg (fun _ => "")).
Defined.
