(* ===== verification/Boot.v ===== *)
(** * Boot: the process of [cmd/verion/main.go]

    What [main] does from its start to the signal that stops it, and after it:
    the constructors that open connections ([postgres.New], [store.New],
    [auth.New]), the wiring of the components, the two goroutines, the shutdown
    and the deferred calls.  A process keeps the trace of what it did outside;
    [os.Exit], which [log.Fatalf] calls too, is the error of its programs, and
    leaves the deferred calls undone.  The libraries' constructors, pings and
    listeners are arguments. *)

From Stdlib Require Import ZArith Lia Ascii String.
From stdpp Require Import base list strings numbers gmap.
From S2P Require Import Prelude Bytes Errors Model Repository World Schema Postgres Crypto Argon2.
From S2P Require Import System Store Jwt Grpc Rpc WebAuthn Http Main.
Open Scope string_scope.
Open Scope Z_scope.

(** ** What a process does outside *)

(** [pgxpool.Config], as [postgres.New] fills it. *)
Record PoolConfig := mkPoolConfig {
  pc_DSN : string; pc_MaxConns : Z; pc_MinConns : Z; pc_MaxConnLifetime : Z }.

(** [auth.WebAuthnConfig], from which [webauthn.Config] is filled field by field. *)
Record WebAuthnConfig := mkWebAuthnConfig {
  RPID : string; RPDisplayName : string; RPOrigins : list string }.

Inductive event :=
| Logged (msg : string) | LoggedErr (msg : string) (err : error)
| PoolOpened (cfg : PoolConfig) | PoolClosed
| RedisOpened (url : string) | RedisClosed
| Listening (addr : string) | Notified | ServingGRPC (addr : string) | ServingHTTP (addr : string)
| GatewayShutdown | GracefulStopped | Cancelled.

Record Process (W : Type) := mkProcess {
  ps_world : W; ps_trace : list event; ps_defers : list event }.
Arguments mkProcess {W}. Arguments ps_world {W}. Arguments ps_trace {W}. Arguments ps_defers {W}.

Section process.
Context {W : Type}.
Local Open Scope prog_scope.

Definition set_world (w : W) (s : Process W) : Process W := mkProcess w (ps_trace s) (ps_defers s).
Definition add_event (e : event) (s : Process W) : Process W :=
  mkProcess (ps_world s) (ps_trace s ++ [e])%list (ps_defers s).

(** A piece of [main]: the error is the code of [os.Exit]. *)
Definition proc (A : Type) : Type := prog (Process W) (outcome Z A).

Definition note (e : event) : proc unit := act (fun s => (add_event e s, tt)).
Definition os_Exit {A} (code : Z) : proc A := throw code.
Definition log_Fatalf {A} (msg : string) : proc A := note (Logged msg) ;;; os_Exit 1.
(** [slog.Error(msg, "err", err); os.Exit(1)]. *)
Definition slog_Fatal {A} (msg : string) (err : error) : proc A := note (LoggedErr msg err) ;;; os_Exit 1.

(** [defer]: the last deferred call is the first to run. *)
Definition defer_ (e : event) : proc unit :=
  act (fun s => (mkProcess (ps_world s) (ps_trace s) (e :: ps_defers s), tt)).
Definition run_defers (s : Process W) : Process W :=
  mkProcess (ps_world s) (ps_trace s ++ ps_defers s)%list [].

(** A program of the libraries or of a component, with its error as a value. *)
Fixpoint lift_prog {A} (m : prog W A) : prog (Process W) A :=
  match m with
  | Ret a => Ret a
  | Act f k => Act (fun s => let '(w, r) := f (ps_world s) in (set_world w s, r)) (fun r => lift_prog (k r))
  end.
Definition lift {A} (m : M W A) : proc (error + A) :=
  pbind (lift_prog m) (fun o => Ret (match o with
                                     | Ok a => Ok (inr a)
                                     | Err e => Ok (inl e)
                                     | Panic s => Panic s
                                     end)).

(** ** The libraries *)

Record Library (Req : Type) := mkLibrary {
  lb_ParseConfig : string -> option error;                            (* pgxpool.ParseConfig *)
  lb_NewWithConfig : PoolConfig -> (M W unit -> M W bool) -> M W unit; (* pgxpool.NewWithConfig *)
  lb_PoolPing : M W unit;                                             (* pool.Ping *)
  lb_ParseURL : string -> option error;                               (* redis.ParseURL *)
  lb_NewClient : string -> RedisClient W;                             (* redis.NewClient *)
  lb_RedisPing : string -> M W unit;                                  (* client.Ping *)
  lb_webauthn_New : WebAuthnConfig -> error + WebAuthnLib W Req;      (* webauthn.New *)
  lb_Listen : string -> M W unit;                                     (* net.Listen *)
  lb_Shutdown : M W unit }.                                           (* server.Shutdown *)
Arguments lb_ParseConfig {Req}. Arguments lb_NewWithConfig {Req}. Arguments lb_PoolPing {Req}.
Arguments lb_ParseURL {Req}. Arguments lb_NewClient {Req}. Arguments lb_RedisPing {Req}.
Arguments lb_webauthn_New {Req}. Arguments lb_Listen {Req}. Arguments lb_Shutdown {Req}.

(** ** Constructors *)

Section constructors.
Context {Req : Type} (lb : Library Req).

(** The pool's hook: a connection that does not answer a ping is not used. *)
Definition BeforeAcquire (ping : M W unit) : M W bool :=
  let* r := try ping in ret (match r with inr _ => true | inl _ => false end).

(** internal/identity/postgres/db.go *)
Definition postgres_New (cfg : Config) : proc (error + unit) :=
  match lb_ParseConfig lb (DSN cfg) with
  | Some err => ret (inl (EWrap "postgres: parse config" err))
  | None =>
    let poolCfg := mkPoolConfig (DSN cfg) (cfg_MaxOpenConns cfg) (cfg_MaxIdleConns cfg)
                     (cfg_ConnMaxLifetime cfg) in
    let* r := lift (lb_NewWithConfig lb poolCfg BeforeAcquire) in
    match r with
    | inl err => ret (inl (EWrap "postgres: create pool" err))
    | inr _ =>
      note (PoolOpened poolCfg) ;;;
      let* r := lift (lb_PoolPing lb) in
      match r with
      | inl err => note PoolClosed ;;; ret (inl (EWrap "postgres: ping failed" err))
      | inr _ => ret (inr tt)
      end
    end
  end.

(** internal/store/redis.go *)
Definition store_New (redisURL : string) : proc (error + RedisClient W) :=
  match lb_ParseURL lb redisURL with
  | Some err => ret (inl (EWrap "store: parse redis url" err))
  | None =>
    note (RedisOpened redisURL) ;;;
    let* r := lift (lb_RedisPing lb redisURL) in
    match r with
    | inl err => note RedisClosed ;;; ret (inl (EWrap "store: redis ping failed" err))
    | inr _ => ret (inr (lb_NewClient lb redisURL))
    end
  end.

(** internal/auth/webauthn.go *)
Definition auth_New (cfg : WebAuthnConfig) : error + WebAuthnLib W Req :=
  match lb_webauthn_New lb cfg with
  | inl err => inl (EWrap "webauthn: init" err)
  | inr w => inr w
  end.
End constructors.

Definition mustEnv (getenv : string -> string) (key : string) : proc string :=
  let v := getenv key in
  if String.eqb v "" then log_Fatalf ("required environment variable " +:+ key +:+ " is not set")
  else ret v.
End process.
Arguments proc : clear implicits.
Arguments Library : clear implicits.
Arguments lb_ParseConfig {W Req}. Arguments lb_NewWithConfig {W Req}. Arguments lb_PoolPing {W Req}.
Arguments lb_ParseURL {W Req}. Arguments lb_NewClient {W Req}. Arguments lb_RedisPing {W Req}.
Arguments lb_webauthn_New {W Req}. Arguments lb_Listen {W Req}. Arguments lb_Shutdown {W Req}.

(** ** main *)

(** What [main] hands to the transports. *)
Record App (W : Type) := mkApp {
  ap_grpcAddr : string; ap_httpAddr : string; ap_dbCfg : Config; ap_cryptoCfg : CryptoConfig;
  ap_client : RedisClient W; ap_ttl : Z; ap_tokenSvc : TokenService;
  ap_wauthn : WebAuthnLib W Request }.
Arguments mkApp {W}. Arguments ap_grpcAddr {W}. Arguments ap_httpAddr {W}. Arguments ap_dbCfg {W}.
Arguments ap_cryptoCfg {W}. Arguments ap_client {W}. Arguments ap_ttl {W}.
Arguments ap_tokenSvc {W}. Arguments ap_wauthn {W}.

(** http.ErrServerClosed, which Start returns after a Shutdown. *)
Definition ErrServerClosed : error := ENew "http: Server closed".

Section main.
Context {X : Type} (env : Env) (p : Prims) (lb : Library (World X) Request).
Context (getenv : string -> string).
Abbreviation W := (World X).
Local Open Scope prog_scope.

Definition main_wauthnCfg : WebAuthnConfig :=
  mkWebAuthnConfig (envOrDefault getenv "VERION_WEBAUTHN_RPID" "localhost")
    (envOrDefault getenv "VERION_WEBAUTHN_DISPLAY_NAME" "Verion")
    [envOrDefault getenv "VERION_WEBAUTHN_ORIGIN" "http://localhost:8080"].
Definition main_redisURL : string :=
  envOrDefault getenv "VERION_REDIS_URL" "redis://:verion_redis_secret@localhost:6379/0".

(** From the start to [<-quit]. *)
Definition startup : proc W (App W) :=
  let grpcAddr := envOrDefault getenv "VERION_GRPC_ADDR" ":50051" in
  let httpAddr := envOrDefault getenv "VERION_HTTP_ADDR" ":8080" in
  let* masterKeyHex := mustEnv getenv "VERION_MASTER_KEY" in
  match decodeHexKey masterKeyHex with
  | inl err => log_Fatalf ("VERION_MASTER_KEY: " +:+ Error err)
  | inr masterKey =>
  (* Database *)
  let dbCfg := main_dbCfg getenv in
  let* db := postgres_New lb dbCfg in
  match db with
  | inl err => log_Fatalf ("connect postgres: " +:+ Error err)
  | inr _ =>
  defer_ PoolClosed ;;;
  note (Logged "✓ postgres connected") ;;;
  (* Crypto *)
  let cryptoCfg := DefaultCryptoConfig masterKey in
  note (Logged "✓ crypto service ready (local keystore — dev only)") ;;;
  (* Redis *)
  let* redisStore := store_New lb main_redisURL in
  match redisStore with
  | inl err => slog_Fatal "redis connection failed" err
  | inr client =>
  defer_ RedisClosed ;;;
  note (Logged "✓ redis connected") ;;;
  (* Session store *)
  let ttl := 24 * 3600 * second in
  note (Logged "✓ session store ready") ;;;
  (* Token service *)
  let* tokenSvc := lift (NewTokenService p (system (X:=X) env) DefaultTokenConfig) in
  match tokenSvc with
  | inl err => slog_Fatal "token service init failed" err
  | inr tokenSvc =>
  note (Logged "✓ token service ready") ;;;
  (* WebAuthn *)
  match auth_New lb main_wauthnCfg with
  | inl err => slog_Fatal "webauthn init failed" err
  | inr wauthn =>
  note (Logged "✓ webauthn service ready") ;;;
  (* gRPC *)
  let* lis := lift (lb_Listen lb grpcAddr) in
  match lis with
  | inl err => log_Fatalf ("listen " +:+ grpcAddr +:+ ": " +:+ Error err)
  | inr _ =>
  note (Listening grpcAddr) ;;;
  note Notified ;;;
  note (ServingGRPC grpcAddr) ;;;
  (* HTTP gateway *)
  note (ServingHTTP httpAddr) ;;;
  ret (mkApp grpcAddr httpAddr dbCfg cryptoCfg client ttl tokenSvc wauthn)
  end end end end end end.

(** After the signal, up to the end of [main]. *)
Definition shutdown : proc W unit :=
  note (Logged "shutdown signal received — draining...") ;;;
  defer_ Cancelled ;;;
  let* r := lift (lb_Shutdown lb) in
  note GatewayShutdown ;;;
  (match r with
   | inl err => note (LoggedErr "HTTP gateway shutdown error" err)
   | inr _ => ret tt
   end) ;;;
  note GracefulStopped ;;;
  note PoolClosed ;;;
  note (Logged "✓ graceful shutdown complete").

(** ** The life of a process *)

Context (IDKey : idkey) (json : Codec) (cj : ClaimsCodec) (sj : SessionCodec) (dec : Decoders).
Context (encode_body : forall lib : WebAuthnLib W Request,
           Body (CredentialCreation lib) (CredentialAssertion lib) -> option bytes).
Context (fmt_v : any -> string).
Context (serve_rpc : list (registered W) -> string -> bytes -> H W bytes).

(** A request on either transport, as it comes from outside, with the
    components that [main] built. *)
Definition app_ServeHTTP (app : App W) (r : Request) : prog W result :=
  let crypto := cryptoSvc env p IDKey json (ap_cryptoCfg app) in
  ServeHTTP (repos env json) crypto (system env) p json cj (ap_tokenSvc app) (ap_client app) sj
    (ap_ttl app) (ap_wauthn app) dec (encode_body (ap_wauthn app)) r.
Definition app_ServeGRPC (app : App W) (path : string) (b : bytes) : H W bytes :=
  let crypto := cryptoSvc env p IDKey json (ap_cryptoCfg app) in
  serve_rpc (New (repos env json) crypto (System.sys env) json fmt_v) path b.

(** A process starts, serves on the transports that are up, and ends. *)
Inductive pstate :=
| Starting (s : Process W)
| Running (app : App W) (grpc http : bool) (s : Process W)
| Ended (code : Z) (s : Process W).

Inductive pstep : pstate -> pstate -> Prop :=
| step_started s s' app : exec startup s = (s', Ok app) ->
    pstep (Starting s) (Running app true true s')
| step_exited s s' code : exec startup s = (s', Err code) -> pstep (Starting s) (Ended code s')
| step_start_panic s s' msg : exec startup s = (s', Panic msg) ->
    pstep (Starting s) (Ended 2 (run_defers s'))
  (* a request; the gateway recovers from a panic, the gRPC server does not, and
     a panic that nothing recovers from ends the process without deferred calls *)
| step_http app grpc s r :
    pstep (Running app grpc true s)
      (Running app grpc true (set_world (fst (exec (app_ServeHTTP app r) (ps_world s))) s))
| step_grpc app http s path b w o :
    exec (app_ServeGRPC app path b) (ps_world s) = (w, o) -> (forall msg, o <> Panic msg) ->
    pstep (Running app true http s) (Running app true http (set_world w s))
| step_grpc_panic app http s path b w msg :
    exec (app_ServeGRPC app path b) (ps_world s) = (w, Panic msg) ->
    pstep (Running app true http s) (Ended 2 (set_world w s))
  (* a server that fails is logged *)
| step_grpc_error app http s err :
    pstep (Running app true http s)
      (Running app false http (add_event (LoggedErr "gRPC server error" err) s))
| step_http_error app grpc s err : err <> ErrServerClosed ->
    pstep (Running app grpc true s)
      (Running app grpc false (add_event (LoggedErr "HTTP gateway error" err) s))
  (* SIGINT or SIGTERM *)
| step_signal app grpc http s s' : exec shutdown s = (s', Ok tt) ->
    pstep (Running app grpc http s) (Ended 0 (run_defers s'))
| step_stop_panic app grpc http s s' msg : exec shutdown s = (s', Panic msg) ->
    pstep (Running app grpc http s) (Ended 2 (run_defers s')).
End main.
