(* ===== verification/BootFacts.v ===== *)
(** * BootFacts: starting, serving, stopping and crashing

    What a start needs and leaves open when it fails, and what ends a running
    process: a signal, or a gRPC request to a method of the protocol. *)

From Stdlib Require Import ZArith Lia Ascii String.
From stdpp Require Import base relations list strings numbers gmap.
From S2P Require Import Prelude Bytes Errors Model Repository World Schema Postgres Crypto Argon2.
From S2P Require Import SchemaFacts Guarantees Integrity Runs System Demo Store StoreFacts Jwt.
From S2P Require Import JwtFacts.
From S2P Require Import SessionFacts Grpc Rpc RpcFacts Proto PanicFacts WebAuthn WebAuthnFacts Http.
From S2P Require Import HttpFacts.
From S2P Require Import HttpDemo RequestFacts Main Boot.
Open Scope string_scope.
Open Scope Z_scope.

(** ** Programs of a process *)

Section process.
Context {W : Type}.
Implicit Types s : Process W.

Lemma exec_lift_prog {A} (m : prog W A) s :
  exec (lift_prog m) s = (set_world (fst (exec m (ps_world s))) s, snd (exec m (ps_world s))).
Proof.
  revert s. induction m as [a|R f k IH]; intros s; [by destruct s|]. cbn [lift_prog exec].
  destruct (f (ps_world s)) as [w r]. by rewrite IH.
Qed.
Lemma exec_lift {A} (m : M W A) s w o :
  exec m (ps_world s) = (w, o) ->
  exec (lift m) s = (set_world w s, match o with
                                    | Ok a => Ok (inr a)
                                    | Err e => Ok (inl e)
                                    | Panic msg => Panic msg
                                    end).
Proof. intros H. unfold lift. rewrite exec_pbind, exec_lift_prog, H. by destruct o. Qed.
Lemma exec_note e s : exec (note e) s = (add_event e s, Ok tt).
Proof. done. Qed.
Lemma exec_defer e s :
  exec (defer_ e) s = (mkProcess (ps_world s) (ps_trace s) (e :: ps_defers s), Ok tt).
Proof. done. Qed.
Lemma exec_log_Fatalf {A} msg s : exec (log_Fatalf (A:=A) msg) s = (add_event (Logged msg) s, Err 1).
Proof. done. Qed.
Lemma exec_slog_Fatal {A} msg err s :
  exec (slog_Fatal (A:=A) msg err) s = (add_event (LoggedErr msg err) s, Err 1).
Proof. done. Qed.
End process.

(** One more step of a program whose library calls are decided. *)
Ltac exec_step :=
  first
    [ rewrite exec_bind | rewrite exec_note | rewrite exec_defer | rewrite exec_log_Fatalf
    | rewrite exec_slog_Fatal | rewrite exec_ret
    | erewrite exec_lift by (cbn [ps_world set_world add_event]; eassumption) ];
  cbv iota beta.

Section boot.
Context {X : Type} (env : Env) (p : Prims) (lb : Library (World X) Request).
Context (getenv : string -> string).
Abbreviation W := (World X).
Implicit Types s : Process W.
Abbreviation startup := (startup env p lb getenv).
Abbreviation shutdown := (shutdown lb).

(** ** Starting *)

Definition main_poolCfg (cfg : Config) : PoolConfig :=
  mkPoolConfig (DSN cfg) (cfg_MaxOpenConns cfg) (cfg_MaxIdleConns cfg) (cfg_ConnMaxLifetime cfg).

(** Everything a start needs, in its order, between two worlds. *)
Record started (w : W) (app : App W) (w' : W) : Prop := {
  st_key : exists key, getenv "VERION_MASTER_KEY" <> "" /\
    decodeHexKey (getenv "VERION_MASTER_KEY") = inr key /\ ap_cryptoCfg app = DefaultCryptoConfig key;
  st_config : ap_grpcAddr app = envOrDefault getenv "VERION_GRPC_ADDR" ":50051" /\
    ap_httpAddr app = envOrDefault getenv "VERION_HTTP_ADDR" ":8080" /\
    ap_dbCfg app = main_dbCfg getenv /\ ap_ttl app = 24 * 3600 * second /\
    ap_client app = lb_NewClient lb (main_redisURL getenv);
  st_parses : lb_ParseConfig lb (DSN (ap_dbCfg app)) = None /\
    lb_ParseURL lb (main_redisURL getenv) = None;
  st_wauthn : lb_webauthn_New lb (main_wauthnCfg getenv) = inr (ap_wauthn app);
  st_opens : exists w1 w2 w3 w4,
    exec (lb_NewWithConfig lb (main_poolCfg (ap_dbCfg app)) BeforeAcquire) w = (w1, Ok tt) /\
    exec (lb_PoolPing lb) w1 = (w2, Ok tt) /\
    exec (lb_RedisPing lb (main_redisURL getenv)) w2 = (w3, Ok tt) /\
    exec (NewTokenService p (system env) DefaultTokenConfig) w3 = (w4, Ok (ap_tokenSvc app)) /\
    exec (lb_Listen lb (ap_grpcAddr app)) w4 = (w', Ok tt) }.

(** What a started process did outside. *)
Definition boot_trace (app : App W) : list event :=
  [PoolOpened (main_poolCfg (ap_dbCfg app));
   Logged "✓ postgres connected";
   Logged "✓ crypto service ready (local keystore — dev only)";
   RedisOpened (main_redisURL getenv);
   Logged "✓ redis connected";
   Logged "✓ session store ready";
   Logged "✓ token service ready";
   Logged "✓ webauthn service ready";
   Listening (ap_grpcAddr app); Notified;
   ServingGRPC (ap_grpcAddr app); ServingHTTP (ap_httpAddr app)].

(** A failed start: what it did with the connections. *)
Definition pool_opened (e : event) : bool := match e with PoolOpened _ => true | _ => false end.
Definition pool_closed (e : event) : bool := match e with PoolClosed => true | _ => false end.
Definition redis_opened (e : event) : bool := match e with RedisOpened _ => true | _ => false end.
Definition redis_closed (e : event) : bool := match e with RedisClosed => true | _ => false end.
Definition serving (e : event) : bool :=
  match e with ServingGRPC _ | ServingHTTP _ => true | _ => false end.
Definition said (msg : string) (e : event) : bool :=
  match e with Logged m => String.eqb m msg | _ => false end.

Record failed_start (evs : list event) : Prop := {
  fs_serving : existsb serving evs = false;
  fs_pool : existsb pool_closed evs =
    existsb pool_opened evs && negb (existsb (said "✓ postgres connected") evs);
  fs_redis : existsb redis_closed evs =
    existsb redis_opened evs && negb (existsb (said "✓ redis connected") evs) }.

(** The end of a start that failed. *)
Ltac start_failed :=
  repeat exec_step; split; [reflexivity|]; eexists; split;
  [cbn [ps_trace add_event set_world]; rewrite <- ?app_assoc; reflexivity|split; reflexivity].

(** The three outcomes of a start. *)
Lemma startup_outcome s :
  let '(s', o) := exec startup s in
  match o with
  | Ok app => started (ps_world s) app (ps_world s') /\
      ps_trace s' = (ps_trace s ++ boot_trace app)%list /\
      ps_defers s' = RedisClosed :: PoolClosed :: ps_defers s
  | Err code => code = 1 /\ exists evs, ps_trace s' = (ps_trace s ++ evs)%list /\ failed_start evs
  | Panic _ => True
  end.
Proof.
  unfold Boot.startup, mustEnv.
  destruct (String.eqb_spec (getenv "VERION_MASTER_KEY") "") as [He|Hne]; [start_failed|].
  repeat exec_step. destruct (decodeHexKey _) as [e|key] eqn:Hkey; [start_failed|].
  unfold postgres_New. destruct (lb_ParseConfig lb _) as [e|] eqn:Hparse; [start_failed|].
  set (cfg := main_dbCfg getenv) in *. change (mkPoolConfig _ _ _ _) with (main_poolCfg cfg).
  destruct (exec (lb_NewWithConfig lb (main_poolCfg cfg) BeforeAcquire) (ps_world s))
    as [w1 [[]|e|m]] eqn:H1; [repeat exec_step|start_failed|by repeat exec_step].
  destruct (exec (lb_PoolPing lb) w1) as [w2 [[]|e|m]] eqn:H2;
    [repeat exec_step|start_failed|by repeat exec_step].
  unfold store_New. destruct (lb_ParseURL lb _) as [e|] eqn:Hurl; [start_failed|repeat exec_step].
  destruct (exec (lb_RedisPing lb (main_redisURL getenv)) w2) as [w3 [[]|e|m]] eqn:H3;
    [repeat exec_step|start_failed|by repeat exec_step].
  destruct (exec (NewTokenService p (system env) DefaultTokenConfig) w3) as [w4 [ts|e|m]] eqn:H4;
    [repeat exec_step|start_failed|by repeat exec_step].
  unfold auth_New. destruct (lb_webauthn_New lb _) as [e|lib] eqn:Hlib; [start_failed|repeat exec_step].
  destruct (exec (lb_Listen lb (envOrDefault getenv "VERION_GRPC_ADDR" ":50051")) w4)
    as [w5 [[]|e|m]] eqn:H5; [repeat exec_step|start_failed|by repeat exec_step].
  split; [|split; [cbn [ps_trace add_event set_world]; by rewrite <- !app_assoc|reflexivity]].
  split; [by exists key|done|done|done|]. by exists w1, w2, w3, w4.
Qed.

(** C26. What a start needs.  The process serves exactly when its master key is
    set and is 64 hexadecimal digits, the configuration of the pool, the Redis
    URL and the WebAuthn configuration are accepted, and, one after the other,
    the pool opens and answers, Redis answers, a signing key is drawn and the
    gRPC address is free; then it has the components that the environment asks
    for, it has done what [boot_trace] lists, in this order, and the two
    connections are left to be closed at the end. *)
Theorem startup_succeeds_iff s s' app :
  exec startup s = (s', Ok app) <->
  started (ps_world s) app (ps_world s') /\
  ps_trace s' = (ps_trace s ++ boot_trace app)%list /\
  ps_defers s' = RedisClosed :: PoolClosed :: ps_defers s.
Proof.
  split.
  - intros He. pose proof (startup_outcome s) as H. by rewrite He in H.
  - intros [[(key & Hne & Hkey & Hcfg) (Hga & Hha & Hdb & Httl & Hcl) [Hparse Hurl] Hlib
      (w1 & w2 & w3 & w4 & H1 & H2 & H3 & H4 & H5)] [Htr Hdef]].
    destruct app as [ga ha db cc cl ttl ts lib]. simpl in *. subst.
    unfold Boot.startup, mustEnv. rewrite (proj2 (String.eqb_neq _ _) Hne). repeat exec_step.
    rewrite Hkey. unfold postgres_New. rewrite Hparse. change (mkPoolConfig _ _ _ _) with
      (main_poolCfg (main_dbCfg getenv)). repeat exec_step.
    unfold store_New. rewrite Hurl. repeat exec_step. unfold auth_New. rewrite Hlib. repeat exec_step.
    destruct s' as [w' tr df]. simpl in *. subst. f_equal. unfold set_world, add_event. simpl.
    by rewrite <- !app_assoc.
Qed.

(** C27. A start that fails.  Whatever the environment and whatever the libraries
    answer, a start that does not succeed ends the process with code 1, without
    having served; a pool or a Redis client that was opened is closed when its
    own ping fails, and only then: once connected, a connection that a later
    failure finds open is not closed, since [os.Exit] skips the deferred calls. *)
Theorem failed_startup_skips_closes s s' code :
  exec startup s = (s', Err code) ->
  code = 1 /\ exists evs, ps_trace s' = (ps_trace s ++ evs)%list /\ failed_start evs.
Proof. intros He. pose proof (startup_outcome s) as H. by rewrite He in H. Qed.
(** ** Serving and stopping *)

(** The libraries' constructors, pings and listeners do not panic. *)
Class LibraryCalm : Prop := {
  lc_NewWithConfig cfg hook : calm (lb_NewWithConfig lb cfg hook);
  lc_PoolPing : calm (lb_PoolPing lb);
  lc_RedisPing url : calm (lb_RedisPing lb url);
  lc_Listen addr : calm (lb_Listen lb addr);
  lc_Shutdown : calm (lb_Shutdown lb) }.

Context `{!LibraryCalm}.
Context (IDKey : idkey) (json : Codec) (cj : ClaimsCodec) (sj : SessionCodec) (dec : Decoders).
Context (encode_body : forall lib : WebAuthnLib W Request,
           Body (CredentialCreation lib) (CredentialAssertion lib) -> option bytes).
Context (fmt_v : any -> string).
Context (codec : GrpcCodec) (serve_rpc : list (registered W) -> string -> bytes -> H W bytes).
Context `{!ProtoCodecOk codec, !GrpcServerOk codec serve_rpc}.
Abbreviation pstep := (pstep env p lb getenv IDKey json cj sj dec encode_body fmt_v serve_rpc).

Lemma lift_calm {A} (m : M W A) : calm m -> calm (lift m).
Proof.
  intros Hm. eapply keeps_pbind with (Q := no_panic); [|by intros [a|e|msg] Ho].
  induction m as [o|R f k IH]; [exact Hm|]. intros s _. split; [done|]. split; [done|].
  destruct (Hm (ps_world s) I) as (_ & _ & Hk). destruct (f (ps_world s)) as [w r]. by apply IH.
Qed.
Lemma note_calm (e : event) : calm (note (W:=W) e).
Proof. apply calm_act. Qed.
Lemma defer_calm (e : event) : calm (defer_ (W:=W) e).
Proof. apply calm_act. Qed.
#[local] Hint Resolve lift_calm note_calm defer_calm lc_NewWithConfig lc_PoolPing lc_RedisPing
  lc_Listen lc_Shutdown : calm.

Lemma startup_calm : calm startup.
Proof.
  assert (calm (NewTokenService p (system (X:=X) env) DefaultTokenConfig)).
  { unfold NewTokenService. apply calm_bind; [apply rand_Read_calm|]. intros seed. by case_match. }
  unfold Boot.startup, mustEnv, log_Fatalf, slog_Fatal, os_Exit, postgres_New, store_New, auth_New.
  calm_walk.
Qed.
Lemma shutdown_calm : calm shutdown.
Proof. unfold Boot.shutdown. calm_walk. Qed.

(** What a stop does, with the answer of the gateway's Shutdown. *)
Definition stop_trace (r : option error) : list event :=
  [Logged "shutdown signal received — draining..."; GatewayShutdown] ++
  match r with Some err => [LoggedErr "HTTP gateway shutdown error" err] | None => [] end ++
  [GracefulStopped; PoolClosed; Logged "✓ graceful shutdown complete";
   Cancelled; RedisClosed; PoolClosed].

Lemma shutdown_outcome s :
  ps_defers s = [RedisClosed; PoolClosed] ->
  exists s' r, exec shutdown s = (s', Ok tt) /\
    ps_trace (run_defers s') = (ps_trace s ++ stop_trace r)%list.
Proof.
  intros Hdef. unfold Boot.shutdown. repeat exec_step.
  pose proof (calm_exec _ (ps_world s) lc_Shutdown) as Hc.
  destruct (exec (lb_Shutdown lb) (ps_world s)) as [w [[]|err|msg]] eqn:Hs; [| |done].
  - repeat exec_step. eexists _, None. split; [done|].
    cbn [ps_trace ps_defers run_defers add_event set_world]. rewrite Hdef, <- !app_assoc. done.
  - repeat exec_step. eexists _, (Some err). split; [done|].
    cbn [ps_trace ps_defers run_defers add_event set_world]. rewrite Hdef, <- !app_assoc. done.
Qed.

(** The log of a server that failed. *)
Definition server_error (e : event) : Prop :=
  exists err, e = LoggedErr "gRPC server error" err \/
    e = LoggedErr "HTTP gateway error" err /\ err <> ErrServerClosed.

(** A process between its start and its end. *)
Definition life (s0 : Process W) (st : pstate) : Prop :=
  match st with
  | Starting s => s = s0
  | Running app grpc http s =>
    ps_defers s = [RedisClosed; PoolClosed] /\
    exists served, ps_trace s = (boot_trace app ++ served)%list /\ Forall server_error served
  | Ended code s =>
    code = 1 /\ failed_start (ps_trace s) \/
    (code = 0 /\ exists app served r,
      ps_trace s = (boot_trace app ++ served ++ stop_trace r)%list /\ Forall server_error served) \/
    (code = 2 /\ ps_defers s = [RedisClosed; PoolClosed] /\ exists app served,
      ps_trace s = (boot_trace app ++ served)%list /\ Forall server_error served)
  end.

(** What a gRPC request does: for a method of the protocol it panics before
    anything else, for any other name it changes nothing. *)
Lemma exec_app_ServeGRPC app path b w :
  exists text, exec (app_ServeGRPC env p IDKey json fmt_v serve_rpc app path b) w =
    (w, if bool_decide (path ∈ protocol_names) then Panic text else Err (mkStatus Unimplemented text)).
Proof.
  unfold app_ServeGRPC, New. match goal with |- context [serve_rpc (RegisterKeyServiceServer
    (RegisterIdentityServiceServer [] ?ids) ?ks) _ _] => pose proof (served_request ids ks codec serve_rpc path b) as H end.
  case_match; destruct H as [text ->]; by exists text.
Qed.

(** What a running process can do next, when its servers answer or not. *)
Definition next (app : App W) (grpc http : bool) (s : Process W) (st : pstate) : Prop :=
  match st with
  | Starting _ => False
  | Running app' _ _ _ => app' = app
  | Ended code s' =>
    (code = 0 /\ exists s1, exec shutdown s = (s1, Ok tt) /\ s' = run_defers s1) \/
    (code = 2 /\ grpc = true /\ s' = s)
  end.

Lemma running_next app grpc http s st :
  ps_defers s = [RedisClosed; PoolClosed] -> pstep (Running app grpc http s) st ->
  next app grpc http s st.
Proof.
  intros Hd Hstep. inversion Hstep as [| | | |? ? ? path b w o Hq Hno|? ? ? path b w msg Hq| | |
    ? ? ? ? s' He|? ? ? ? s' msg He]; subst; cbn [next]; try done.
  - right. destruct (exec_app_ServeGRPC app path b (ps_world s)) as [text Ht]. rewrite Hq in Ht.
    split_and!; [done..|]. injection Ht as -> _. by destruct s.
  - left. split; [done|]. by exists s'.
  - pose proof (calm_exec _ s shutdown_calm) as H. by rewrite He in H.
Qed.

Lemma logs_server_error app served e s :
  server_error e -> ps_trace s = (boot_trace app ++ served)%list -> Forall server_error served ->
  exists served', ps_trace (add_event e s) = (boot_trace app ++ served')%list /\
    Forall server_error served'.
Proof.
  intros He Ht Hall. exists (served ++ [e])%list. cbn [ps_trace add_event].
  rewrite Ht, <-app_assoc. split; [done|]. apply Forall_app. split; [done|]. by repeat constructor.
Qed.

Lemma life_step s0 st st' :
  ps_trace s0 = [] -> ps_defers s0 = [] -> pstep st st' -> life s0 st -> life s0 st'.
Proof.
  intros Htr Hdef Hstep.
  destruct st as [s|app grpc http s|code s]; [| |by inversion Hstep].
  - cbn [life]. intros ->. pose proof (startup_outcome s0) as H.
    inversion Hstep as [? s' app He|? s' code He|? s' msg He| | | | | | |]; subst; rewrite He in H; cbn [life].
    + destruct H as (_ & Ht & Hd). rewrite Hd, Ht, Htr, Hdef. split; [done|]. exists []. by rewrite app_nil_r.
    + destruct H as (-> & evs & Ht & Hf). left. rewrite Ht, Htr. by split.
    + pose proof (calm_exec _ s0 startup_calm) as Hc. by rewrite He in Hc.
  - intros (Hd & served & Ht & Hall). pose proof (running_next _ _ _ _ _ Hd Hstep) as Hnext.
    destruct st' as [s'|app' grpc' http' s'|code s']; [done| |].
    + cbn [next] in Hnext. subst app'. inversion Hstep; subst; cbn [life];
        first [split; [exact Hd|by exists served]
              |split; [exact Hd|]; eapply logs_server_error; [|exact Ht|done];
               unfold server_error; eauto].
    + destruct Hnext as [(-> & s1 & He & ->)|(-> & _ & ->)]; right; [left|right; split_and!; [done..|by exists app, served]].
      destruct (shutdown_outcome s Hd) as (s2 & r & Hs & Htr'). rewrite He in Hs. injection Hs as <-.
      split; [done|]. exists app, served, r. rewrite Htr', Ht, <-app_assoc. done.
Qed.

(** C25. The life of a process.  Started with nothing done, a process that has
    come to its end failed to start (code 1), or was stopped by a signal (code
    0), or crashed (code 2).  A process that is stopped has done what a start
    does, logged the servers that failed, and then, in this order, drained the
    gateway, drained the gRPC server, closed the pool, and run the deferred
    calls, the last deferred first: the context, Redis, the pool again.  A
    process that crashed has closed nothing.  While a process runs, a signal
    ends it; any gRPC request to a method of the protocol crashes it, in
    whatever state the tables are and whatever its bytes, since ProtoReflect of
    the messages returns nil; and nothing else ends it: no HTTP request, no
    gRPC request under another name, no server that fails. *)
Theorem what_ends_a_process s0 st :
  ps_trace s0 = [] -> ps_defers s0 = [] -> rtc pstep (Starting s0) st ->
  life s0 st /\
  match st with
  | Running app grpc http s =>
    (exists s', pstep st (Ended 0 s')) /\
    (grpc = true -> forall path b, path ∈ protocol_names ->
       exists text, exec (app_ServeGRPC env p IDKey json fmt_v serve_rpc app path b) (ps_world s) =
         (ps_world s, Panic text) /\ pstep st (Ended 2 s)) /\
    (forall path b, path ∉ protocol_names ->
       exists text, exec (app_ServeGRPC env p IDKey json fmt_v serve_rpc app path b) (ps_world s) =
         (ps_world s, Err (mkStatus Unimplemented text))) /\
    (forall st', pstep st st' -> next app grpc http s st')
  | _ => True
  end.
Proof.
  intros Htr Hdef Hst.
  assert (life s0 st) as Hlife.
  { assert (forall st1, rtc pstep st1 st -> life s0 st1 -> life s0 st) as H; [|by eapply H].
    induction 1; [done|]. intros. eauto using life_step. }
  split; [done|]. destruct st as [s|app grpc http s|code s]; [done| |done].
  destruct Hlife as (Hd & _). split_and!.
  - destruct (shutdown_outcome s Hd) as (s' & r & He & _). exists (run_defers s'). by apply step_signal.
  - intros -> path b Hin. destruct (exec_app_ServeGRPC app path b (ps_world s)) as [text Ht].
    rewrite bool_decide_eq_true_2 in Ht by done. exists text. split; [done|].
    replace s with (set_world (ps_world s) s) at 2 by by destruct s. by eapply step_grpc_panic.
  - intros path b Hin. destruct (exec_app_ServeGRPC app path b (ps_world s)) as [text Ht].
    rewrite bool_decide_eq_false_2 in Ht by done. by exists text.
  - intros st'. by apply running_next.
Qed.
End boot.

(** What [main] builds meets what file LoginFacts asks for: its tokens are
    signed with a generated pair, and its sessions last. *)
Lemma started_tokens {X} (env : Env) (p : Prims) (lb : Library (World X) Request) getenv w app w' :
  started env p lb getenv w app w' ->
  0 < ap_ttl app /\ ts_cfg (ap_tokenSvc app) = DefaultTokenConfig /\
  exists seed, ed25519_GenerateKey p seed = (ts_publicKey (ap_tokenSvc app), ts_privateKey (ap_tokenSvc app)).
Proof.
  intros [_ (_ & _ & _ & Httl & _) _ _ (w1 & w2 & w3 & w4 & _ & _ & _ & Hts & _)].
  split; [by rewrite Httl|]. unfold NewTokenService in Hts. rewrite exec_bind in Hts.
  destruct (exec (RandRead _ 32) w3) as [w5 [seed|e|m]]; [|discriminate..].
  destruct (ed25519_GenerateKey p seed) as [pub priv] eqn:Hg. injection Hts as _ <-.
  split; [done|]. by exists seed.
Qed.

(** ** A concrete process *)

Definition demo_getenv (key : string) : string :=
  if String.eqb key "VERION_MASTER_KEY"
  then "000102030405060708090a0b0c0d0e0f101112131415161718191a1b1c1d1e1f" else "".
(** Everything is accepted; Redis answers or not. *)
Definition demo_library (redis_up : bool) : Library (World rcontent) Request :=
  mkLibrary _ (fun _ => None) (fun _ _ => ret tt) (ret tt) (fun _ => None) (fun _ => redis1)
    (fun _ => if redis_up then ret tt else throw (ENew "dial tcp: connection refused"))
    (fun _ => inr demo_http_lib) (fun _ => ret tt) (ret tt).
#[export] Instance demo_library_calm up : LibraryCalm (demo_library up).
Proof. split; intros; try destruct up; exact I. Qed.
Definition demo_process : Process (World rcontent) := mkProcess (demo_store ∅) [] [].

Definition demo_started : Process (World rcontent) * outcome Z (App (World rcontent)) :=
  exec (startup demo_env demo_prims (demo_library true) demo_getenv) demo_process.

Lemma startup_succeeds_iff_witness :
  exists s' app, demo_started = (s', Ok app) /\
    ap_cryptoCfg app = DefaultCryptoConfig (byte_of_Z <$> seqZ 0 32) /\
    List.length (ps_trace s') = 12%nat.
Proof.
  assert (exists app, snd demo_started = Ok app) as [app Happ] by (eexists; reflexivity).
  assert (demo_started = (fst demo_started, Ok app)) as He by (rewrite <- Happ; by destruct demo_started).
  exists (fst demo_started), app. split; [exact He|].
  apply startup_succeeds_iff in He as ([(key & _ & Hkey & Hcfg) _ _ _ _] & Htr & _).
  split; [|rewrite Htr; reflexivity].
  vm_compute in Hkey. injection Hkey as <-. rewrite Hcfg. vm_compute. reflexivity.
Defined.

(** Redis is down: its client is closed, and the pool is not. *)
Lemma failed_startup_skips_closes_witness :
  exists s', exec (startup demo_env demo_prims (demo_library false) demo_getenv) demo_process = (s', Err 1) /\
    existsb pool_opened (ps_trace s') = true /\ existsb pool_closed (ps_trace s') = false /\
    existsb redis_closed (ps_trace s') = true.
Proof.
  set (r := exec (startup demo_env demo_prims (demo_library false) demo_getenv) demo_process).
  assert (r = (fst r, Err 1)) as He by (vm_compute; reflexivity).
  exists (fst r). split; [exact He|].
  destruct (failed_startup_skips_closes (X:=rcontent) demo_env demo_prims (demo_library false) demo_getenv
    demo_process _ _ He) as (_ & evs & Htr & [_ Hpool Hredis]).
  change (ps_trace (fst r) = evs) in Htr. rewrite Htr, Hpool, Hredis. rewrite <- Htr.
  split_and!; vm_compute; reflexivity.
Defined.

(** The HTTP server fails and the process goes on, until the signal or a gRPC
    request. *)
Lemma what_ends_a_process_witness :
  let pstep := pstep demo_env demo_prims (demo_library true) demo_getenv demo_IDKey demo_json demo_cj
                 demo_sj demo_dec (fun _ _ => None) (fun _ => "") demo_serve in
  exists app s, rtc pstep (Starting demo_process) (Running app true false s) /\
    (exists s', pstep (Running app true false s) (Ended 0 s')) /\
    pstep (Running app true false s) (Ended 2 s).
Proof.
  intros pstep.
  assert (exists app, snd demo_started = Ok app) as [app Happ] by (eexists; reflexivity).
  set (s := fst demo_started).
  set (err := LoggedErr "HTTP gateway error" (ENew "listen tcp :8080: address already in use")).
  assert (rtc pstep (Starting demo_process) (Running app true false (add_event err s))) as Hst.
  { eapply rtc_l; [apply step_started with (s' := s) (app := app); unfold s; rewrite <- Happ;
      exact (surjective_pairing demo_started)|].
    eapply rtc_l; [apply step_http_error with (err := ENew "listen tcp :8080: address already in use");
      unfold ErrServerClosed; discriminate|]. apply rtc_refl. }
  exists app, (add_event err s). split; [exact Hst|].
  destruct (what_ends_a_process (X:=rcontent) demo_env demo_prims (demo_library true)
    demo_getenv demo_IDKey demo_json demo_cj demo_sj demo_dec (fun _ _ => None) (fun _ => "")
    demo_codec demo_serve demo_process _ eq_refl eq_refl Hst) as (_ & Hsignal & Hcrash & _).
  split; [exact Hsignal|].
  destruct (Hcrash eq_refl "/verion.v1.IdentityService/GetTenant" (s2b "t1")) as (text & _ & H); [|exact H].
  apply (bool_decide_unpack _). vm_compute. exact Logic.I.
Defined.
