(* ===== verification/Rls.v ===== *)
(** * Rls: the row level security of migration 000007

    The policies of the five tables, the reads of the repositories under them,
    and what a role that is subject to them would see.  The service's role owns
    the tables, and the policies do not apply to it (files Schema and Postgres);
    the migration asks for another role in production. *)

From Stdlib Require Import ZArith Lia Ascii String.
From stdpp Require Import base list strings numbers gmap.
From S2P Require Import Prelude Bytes Errors Model Repository World Schema Postgres.
Open Scope string_scope.
Open Scope Z_scope.

(** A row of one of the tables, and a read of the repositories. *)
Inductive row :=
| RTenant (t : Tenant) | RIdentity (i : IdentityRow) | RKey (k : IdentityKey)
| RCredential (c : Credential) | REvent (a : AuditEvent).

Inductive read :=
| RdTenant (id : string) | RdTenantBySlug (slug : string) | RdTenants (f : TenantFilter)
| RdIdentity (tenant id : string) | RdIdentityByHandle (tenant handle : string)
| RdIdentities (tenant : string) (f : IdentityFilter) (order : string) (dsc : bool)
| RdKey (tenant id : string) | RdKeyByFingerprint (tenant fp : string)
| RdActiveKey (tenant identity purpose : string)
| RdKeys (tenant identity : string) (status : option string)
| RdCredential (tenant id : string) | RdWebAuthn (tenant : string) (cid : slice)
| RdCredentials (tenant identity : string) (status : option string)
| RdEvent (tenant id : string) | RdEventsByEntity (tenant etype entity : string) (lim off : Z)
| RdEventsByActor (tenant actor : string) (lim off : Z) | RdEvents (tenant : string) (f : AuditFilter).

(** A write of the repositories. *)
Inductive write :=
| WrTenant (name slug tier status : string) (settings : slice) (region : string)
| WrTenantUpdate (id name tier : string) (settings : slice) (region : string)
| WrTenantStatus (id status : string)
| WrIdentity (tenant typ display_name handle status : string) (attrs iv : slice) (created_by : option string)
| WrIdentityUpdate (tenant id display_name : string) (attrs iv : slice) (version : Z)
| WrIdentityStatus (tenant id status : string) | WrPrimaryKey (tenant id key : string)
| WrKey (k : IdentityKey) | WrKeyRotate (tenant id new : string)
| WrKeyRevoke (tenant id : string) | WrKeyCompromised (tenant id : string)
| WrCredential (c : Credential) | WrSignCount (tenant id : string) (count : Z)
| WrLastUsed (tenant id : string) (at_ : time) | WrCredentialRevoke (tenant id : string)
| WrEvent (a : AuditEvent).

Section rls.
Context (env : Env).
Local Open Scope prog_scope.

Definition one {A} (f : A -> row) (r : error + (DB * option A)) : error + list row :=
  let? x := r in inr (match snd x with Some a => [f a] | None => [] end).
Definition many {A} (f : A -> row) (r : error + (DB * list A)) : error + list row :=
  let? x := r in inr (f <$> snd x).

Definition read_rows (r : read) (n : nat) (db : DB) : error + list row :=
  match r with
  | RdTenant id => one RTenant (sqlTenantGetByID env id n db)
  | RdTenantBySlug slug => one RTenant (sqlTenantGetBySlug env slug n db)
  | RdTenants f => many RTenant (sqlTenantList env f n db)
  | RdIdentity t id => one RIdentity (sqlIdentityGetByID env t id n db)
  | RdIdentityByHandle t h => one RIdentity (sqlIdentityGetByHandle env t h n db)
  | RdIdentities t f o d => many RIdentity (sqlIdentityList env t f o d n db)
  | RdKey t id => one RKey (sqlKeyGetByID env t id n db)
  | RdKeyByFingerprint t fp => one RKey (sqlKeyGetByFingerprint env t fp n db)
  | RdActiveKey t i u => one RKey (sqlKeyGetActiveByPurpose env t i u n db)
  | RdKeys t i s => many RKey (sqlKeyListByIdentity env t i s n db)
  | RdCredential t id => one RCredential (sqlCredentialGetByID env t id n db)
  | RdWebAuthn t c => one RCredential (sqlCredentialGetWebAuthn env t c n db)
  | RdCredentials t i s => many RCredential (sqlCredentialListByIdentity env t i s n db)
  | RdEvent t id => one REvent (sqlAuditGetByID env t id n db)
  | RdEventsByEntity t e i l o => many REvent (sqlAuditListByEntity env t e i l o n db)
  | RdEventsByActor t a l o => many REvent (sqlAuditListByActor env t a l o n db)
  | RdEvents t f => many REvent (sqlAuditListByTenant env t f n db)
  end.

(** The tables after a write. *)
Definition after {R} (r : error + (DB * R)) : error + DB := let? x := r in inr (fst x).
Definition write_db (w : write) (n : nat) (db : DB) : error + DB :=
  match w with
  | WrTenant name slug tier status settings region =>
      after (sqlTenantInsert env name slug tier status settings region n db)
  | WrTenantUpdate id name tier settings region =>
      after (sqlTenantUpdate env id name tier settings region n db)
  | WrTenantStatus id status => after (sqlTenantUpdateStatus env id status n db)
  | WrIdentity t typ dn h st attrs iv cb => after (sqlIdentityInsert env t typ dn h st attrs iv cb n db)
  | WrIdentityUpdate t id dn attrs iv v => after (sqlIdentityUpdate env t id dn attrs iv v n db)
  | WrIdentityStatus t id st => after (sqlIdentityUpdateStatus env t id st n db)
  | WrPrimaryKey t id key => after (sqlIdentitySetPrimaryKey env t id key n db)
  | WrKey k => after (sqlKeyInsert env k n db)
  | WrKeyRotate t id new => after (sqlKeyRotate env t id new n db)
  | WrKeyRevoke t id => after (sqlKeyRevoke env t id n db)
  | WrKeyCompromised t id => after (sqlKeyMarkCompromised env t id n db)
  | WrCredential c => after (sqlCredentialInsert env c n db)
  | WrSignCount t id v => after (update_credential env (set_sign_count v) t id n db)
  | WrLastUsed t id at_ => after (update_credential env (set_last_used at_) t id n db)
  | WrCredentialRevoke t id => after (update_credential env set_revoked t id n db)
  | WrEvent a => after (sqlAuditInsert env a n db)
  end.

(** An insertion, with the tenant of the new row; or an update, with the row it
    names, if the tables have it. *)
Definition inserted_tenant (w : write) (n : nat) : option (error + string) :=
  match w with
  | WrTenant _ _ _ _ _ _ => Some (inr (pg_uuid env n))
  | WrIdentity t _ _ _ _ _ _ _ => Some (uuid_col env t)
  | WrKey k => Some (uuid_col env (k_TenantID k))
  | WrCredential c => Some (uuid_col env (c_TenantID c))
  | WrEvent a => Some (uuid_col env (a_TenantID a))
  | _ => None
  end.
Definition has_row {A} (m : gmap string A) (id : string) : bool :=
  match uuid_col env id with inr i => bool_decide (is_Some (m !! i)) | inl _ => false end.
Definition names_row (w : write) (db : DB) : bool :=
  match w with
  | WrTenantUpdate id _ _ _ _ | WrTenantStatus id _ => has_row (db_tenants db) id
  | WrIdentityUpdate _ id _ _ _ _ | WrIdentityStatus _ id _ | WrPrimaryKey _ id _ =>
      has_row (db_identities db) id
  | WrKeyRotate _ id _ | WrKeyRevoke _ id | WrKeyCompromised _ id => has_row (db_keys db) id
  | WrSignCount _ id _ | WrLastUsed _ id _ | WrCredentialRevoke _ id => has_row (db_credentials db) id
  | WrTenant _ _ _ _ _ _ | WrIdentity _ _ _ _ _ _ _ _ | WrKey _ | WrCredential _ | WrEvent _ => false
  end.

(** ** The policies *)

(** [current_setting('app.current_tenant_id', true)::UUID]: NULL when the
    setting was never set; a text that is no UUID, the empty one included, is an
    error of every statement that reads a row. *)
Definition policy_tenant (setting : option string) : error + option string :=
  match setting with
  | None => inr None
  | Some s => let? u := uuid_col env s in inr (Some u)
  end.

(** [USING (tenant_id = ...)], [USING (id = ...)] on the tenants: NULL admits nothing. *)
Definition admits (policy : option string) (tenant_id : string) : bool :=
  match policy with Some t => String.eqb tenant_id t | None => false end.
Definition admitted {A} (policy : option string) (tenant_of : A -> string) (m : gmap string A)
    : gmap string A :=
  filter (fun kv => Is_true (admits policy (tenant_of kv.2))) m.
Definition rls_view (policy : option string) (db : DB) : DB :=
  mkDB (filter (fun kv : string * Tenant => Is_true (admits policy kv.1)) (db_tenants db))
    (admitted policy ir_tenant_id (db_identities db)) (admitted policy k_TenantID (db_keys db))
    (admitted policy c_TenantID (db_credentials db))
    (filter (fun a => Is_true (admits policy (a_TenantID a))) (db_audit db)).

Definition rls_read (setting : option string) (r : read) (n : nat) (db : DB) : error + list row :=
  let? policy := policy_tenant setting in read_rows r n (rls_view policy db).

(** A write: the policy is also the check of a new row (no WITH CHECK is given),
    and an update finds only the rows that the policy admits; the indexes and
    the references look at all rows. *)
Definition rls_write (setting : option string) (w : write) (n : nat) (db : DB) : error + DB :=
  let? policy := policy_tenant setting in
  match inserted_tenant w n with
  | Some tenant =>
    let? t := tenant in
    let? _ := guard_or (admits policy t) (pgerr env "42501") in
    write_db w n db
  | None =>
    if names_row w (rls_view policy db) then write_db w n db
    else let? _ := write_db w n (rls_view policy db) in inr db
  end.

(** The setting on a connection: outside a transaction it has its reset value,
    NULL, or the empty text once it was set for a transaction. *)
Context (reset : option string) (Hreset : reset = None \/ reset = Some "").
Definition setting_of (conn : Conn) : option string :=
  match current_tenant conn with Some t => Some t | None => reset end.

(** Commands of the owner of the tables, and of a role that is subject to the
    policies. *)
Definition owner_query {X} (r : read) : M (World X) (list row) :=
  pg_command env (fun n db => let? rows := read_rows r n db in inr (db, rows)).
Definition owner_exec {X} (w : write) : M (World X) unit :=
  pg_command env (fun n db => let? db' := write_db w n db in inr (db', tt)).
Definition rls_query {X} (conn : Conn) (r : read) : M (World X) (list row) :=
  pg_command env (fun n db => let? rows := rls_read (setting_of conn) r n db in inr (db, rows)).

Definition rls_exec {X} (conn : Conn) (w : write) : M (World X) unit :=
  pg_command env (fun n db => let? db' := rls_write (setting_of conn) w n db in inr (db', tt)).

Lemma admitted_none {A} (tenant_of : A -> string) m : admitted None tenant_of m = ∅.
Proof. apply map_empty_filter_2. intros i x _ []. Qed.
Lemma rls_view_none db : rls_view None db = mkDB ∅ ∅ ∅ ∅ [].
Proof.
  unfold rls_view. rewrite !admitted_none. f_equal.
  - apply map_empty_filter_2. intros i x _ [].
  - induction (db_audit db) as [|a l IH]; [done|]. rewrite filter_cons_False by auto. exact IH.
Qed.

Lemma order_by_nil {A} (le : A -> A -> bool) : order_by le [] = [].
Proof. done. Qed.
Lemma limit_offset_nil {A} l o : limit_offset (A:=A) l o [] = [].
Proof. unfold limit_offset. repeat case_match; by rewrite ?drop_nil, ?take_nil. Qed.

Lemma rows_where_empty {A} (P : A -> bool) : rows_where P ∅ = [].
Proof. unfold rows_where. by rewrite map_to_list_empty. Qed.

(** No read finds a row where there is none. *)
Lemma read_rows_empty r n rows : read_rows r n (mkDB ∅ ∅ ∅ ∅ []) = inr rows -> rows = [].
Proof.
  unfold read_rows, one, many. destruct r;
    unfold sqlTenantGetByID, sqlTenantGetBySlug, sqlTenantList, sqlIdentityGetByID,
      sqlIdentityGetByHandle, sqlIdentityList, sqlKeyGetByID, sqlKeyGetByFingerprint,
      sqlKeyGetActiveByPurpose, sqlKeyListByIdentity, sqlCredentialGetByID, sqlCredentialGetWebAuthn,
      sqlCredentialListByIdentity, sqlAuditGetByID, sqlAuditListByEntity, sqlAuditListByActor,
      sqlAuditListByTenant, limit_offset_strict, find_identity, find_key, find_credential,
      audit_where, rbind;
    cbn [db_tenants db_identities db_keys db_credentials db_audit];
    rewrite ?rows_where_empty, ?lookup_empty; simpl;
    repeat case_match; intros; simplify_eq/=;
    rewrite ?rows_where_empty, ?lookup_empty, ?filter_nil, ?order_by_nil, ?limit_offset_nil, ?drop_nil, ?take_nil in *;
    simplify_eq/=; done.
Qed.

(** A setting that is not a tenant shows nothing. *)
Lemma rls_read_reset r n db rows :
  uuid_in env "" = None -> rls_read reset r n db = inr rows -> rows = [].
Proof.
  intros Hempty. unfold rls_read, policy_tenant. destruct Hreset as [->| ->]; simpl.
  - rewrite rls_view_none. apply read_rows_empty.
  - unfold uuid_col. simpl. by rewrite Hempty.
Qed.

(** Nor can anything be written. *)
Lemma names_row_empty w : names_row w (mkDB ∅ ∅ ∅ ∅ []) = false.
Proof. unfold names_row, has_row. destruct w; simpl; try done; case_match; done. Qed.
Lemma rls_write_reset w n db db' :
  uuid_in env "" = None -> rls_write reset w n db = inr db' -> inserted_tenant w n = None /\ db' = db.
Proof.
  intros Hempty. unfold rls_write, policy_tenant. destruct Hreset as [->| ->]; simpl.
  - rewrite rls_view_none, names_row_empty. destruct (inserted_tenant w n) as [[e|t]|]; simpl; [done..|].
    destruct (write_db _ _ _); simpl; [done|]. by intros [= <-].
  - unfold uuid_col. simpl. by rewrite Hempty.
Qed.

(** The tenant's own rows pass its policy. *)
Lemma admitted_lookup {A} t (tenant_of : A -> string) m id :
  match admitted (Some t) tenant_of m !! id with
  | Some r => if String.eqb (tenant_of r) t then Some r else None
  | None => None
  end = match m !! id with
        | Some r => if String.eqb (tenant_of r) t then Some r else None
        | None => None
        end.
Proof.
  unfold admitted. destruct (m !! id) as [x|] eqn:Hx.
  - destruct (String.eqb (tenant_of x) t) eqn:Ht.
    + rewrite map_lookup_filter_Some_2 with (x := x); [by rewrite Ht|done|]. simpl. by rewrite Ht.
    + rewrite map_lookup_filter_None_2; [done|]. right. intros y Hy Hin. simplify_eq.
      simpl in Hin. by rewrite Ht in Hin.
  - by rewrite map_lookup_filter_None_2 by by left.
Qed.

(** A local value that is set outside a transaction block lapses with its own
    statement; in a block it holds. *)
Lemma local_lapses v conn : cn_in_block conn = false ->
  current_tenant (set_config v true conn) = cn_session conn.
Proof. intros Hb. unfold set_config, statement. by rewrite Hb. Qed.
Lemma local_holds v conn : cn_in_block conn = true -> current_tenant (set_config v true conn) = Some v.
Proof. intros Hb. unfold set_config, statement. by rewrite Hb. Qed.
Lemma setting_of_conn tenant : setting_of (set_config tenant true acquired) = reset.
Proof. unfold setting_of. by rewrite local_lapses. Qed.
Lemma setting_of_tx tenant : setting_of (set_config tenant true (begin_block acquired)) = Some tenant.
Proof. unfold setting_of. by rewrite local_holds. Qed.
End rls.
