(* ===== verification/RlsFacts.v ===== *)
(** * RlsFacts: the policies isolate the tenants, where they have a tenant

    What a role that is subject to the policies reads and writes in a
    transaction of a tenant are rows of this tenant, whatever the statement
    says; and for a statement of the tenant the policies change nothing.  On the
    connection of withTenantConn there is no tenant, and no row. *)

From Stdlib Require Import ZArith Lia Ascii String.
From stdpp Require Import base list sorting strings numbers gmap.
From S2P Require Import Prelude Bytes Errors Model Repository World Schema SchemaFacts.
From S2P Require Import StatementFacts Guarantees Integrity Postgres Runs Demo Rls.
Open Scope string_scope.
Open Scope Z_scope.

(** ** The rows that a read finds *)

Definition row_tenant (r : row) : string :=
  match r with
  | RTenant t => t_ID t | RIdentity i => ir_tenant_id i | RKey k => k_TenantID k
  | RCredential c => c_TenantID c | REvent a => a_TenantID a
  end.
(** The row is in its table. *)
Definition held (db : DB) (r : row) : Prop :=
  match r with
  | RTenant t => exists id, db_tenants db !! id = Some t
  | RIdentity i => exists id, db_identities db !! id = Some i
  | RKey k => exists id, db_keys db !! id = Some k
  | RCredential c => exists id, db_credentials db !! id = Some c
  | REvent a => a ∈ db_audit db
  end.

Lemma rows_where_held {A} (P : A -> bool) (m : gmap string A) x :
  x ∈ rows_where P m -> exists id, m !! id = Some x.
Proof.
  unfold rows_where. intros [_ Hx]%list_elem_of_filter.
  apply list_elem_of_fmap in Hx as ([id y] & -> & Hin). apply elem_of_map_to_list in Hin. by exists id.
Qed.
Lemma order_by_elem {A} (le : A -> A -> bool) l x : x ∈ order_by le l -> x ∈ l.
Proof. unfold order_by. by rewrite merge_sort_Permutation. Qed.
Lemma take_elem {A} n (l : list A) x : x ∈ take n l -> x ∈ l.
Proof. intros (i & Hi & _)%elem_of_take. by eapply list_elem_of_lookup_2. Qed.
Lemma drop_elem {A} n (l : list A) x : x ∈ drop n l -> x ∈ l.
Proof. rewrite <- (take_drop n l) at 2. rewrite elem_of_app. auto. Qed.
Lemma limit_offset_elem {A} lim off (l : list A) x : x ∈ limit_offset lim off l -> x ∈ l.
Proof. unfold limit_offset. repeat case_match; eauto using take_elem, drop_elem. Qed.

Section rls.
Context (env : Env).
Local Open Scope prog_scope.

Lemma one_held {A} (f : A -> row) db stmt rows :
  one f stmt = inr rows -> (forall db' a, stmt = inr (db', Some a) -> held db (f a)) ->
  Forall (held db) rows.
Proof.
  unfold one. destruct stmt as [e|[db' [a|]]]; simpl; [done|..]; intros [= <-] Ha; repeat constructor.
  by eapply Ha.
Qed.
Lemma many_held {A} (f : A -> row) db stmt rows :
  many f stmt = inr rows -> (forall db' l a, stmt = inr (db', l) -> a ∈ l -> held db (f a)) ->
  Forall (held db) rows.
Proof.
  unfold many. destruct stmt as [e|[db' l]]; simpl; [done|]; intros [= <-] Ha.
  apply list.Forall_forall. intros x (a & -> & Hin)%list_elem_of_fmap. by eapply Ha.
Qed.

Lemma limit_offset_strict_elem {A} lim off (l l' : list A) x :
  limit_offset_strict env lim off l = inr l' -> x ∈ l' -> x ∈ l.
Proof.
  unfold limit_offset_strict. intros H. stmt_inv H. stmt_checks. eauto using take_elem, drop_elem.
Qed.
Lemma audit_where_elem P db a : a ∈ audit_where P db -> a ∈ db_audit db.
Proof. unfold audit_where. intros Ha%order_by_elem. by apply list_elem_of_filter in Ha as [_ ?]. Qed.

Hint Resolve limit_offset_elem limit_offset_strict_elem audit_where_elem order_by_elem rows_where_held
  head_Some_elem_of : core.

(** A read finds rows of its table. *)
Lemma read_rows_held r n db rows : read_rows env r n db = inr rows -> Forall (held db) rows.
Proof.
  destruct r; intros H; cbn [read_rows] in H; (eapply one_held in H; [exact H|]) || (eapply many_held in H; [exact H|]);
    intros db'; intros;
    match goal with Hs : ?t = inr (db', _) |- _ =>
      let h := head_of t in unfold h in Hs; stmt_inv Hs; stmt_checks end; simpl;
    try match goal with
    | Hf : find_identity _ _ _ = Some _ |- _ => apply find_identity_Some in Hf as [? _]
    | Hf : find_key _ _ _ = Some _ |- _ => apply find_key_Some in Hf as [? _]
    | Hf : find_credential _ _ _ = Some _ |- _ => apply find_credential_Some in Hf as [? _]
    end; eauto 6.
  - match goal with Hf : head _ = Some _ |- _ => apply head_Some_elem_of, list_elem_of_filter in Hf as [_ ?] end.
    done.
Qed.

(** ** The rows that a write leaves alone *)

(** The rows that the policy hides. *)
Definition concealed {A} (policy : option string) (tenant_of : A -> string) (m : gmap string A)
    : gmap string A :=
  filter (fun kv => Is_true (negb (admits policy (tenant_of kv.2)))) m.
Definition rls_hidden (policy : option string) (db : DB) : DB :=
  mkDB (filter (fun kv : string * Tenant => Is_true (negb (admits policy kv.1))) (db_tenants db))
    (concealed policy ir_tenant_id (db_identities db)) (concealed policy k_TenantID (db_keys db))
    (concealed policy c_TenantID (db_credentials db))
    (filter (fun a => Is_true (negb (admits policy (a_TenantID a)))) (db_audit db)).

Lemma concealed_insert {A} policy (tenant_of : A -> string) m id x :
  admits policy (tenant_of x) = true ->
  (forall y, m !! id = Some y -> admits policy (tenant_of y) = true) ->
  concealed policy tenant_of (<[id := x]> m) = concealed policy tenant_of m.
Proof.
  intros Hx Hm. unfold concealed. apply map_filter_insert_not'; simpl.
  - rewrite Hx. intros [].
  - intros y Hy. rewrite (Hm y Hy). intros [].
Qed.
Lemma hidden_tenant policy id t db : admits policy id = true ->
  rls_hidden policy (set_tenants (<[id := t]> (db_tenants db)) db) = rls_hidden policy db.
Proof.
  intros Hid. unfold rls_hidden. simpl. f_equal. apply map_filter_insert_not. intros y. simpl. rewrite Hid. intros [].
Qed.
Lemma hidden_identity policy id r db : admits policy (ir_tenant_id r) = true ->
  (forall y, db_identities db !! id = Some y -> admits policy (ir_tenant_id y) = true) ->
  rls_hidden policy (set_identities (<[id := r]> (db_identities db)) db) = rls_hidden policy db.
Proof. intros. unfold rls_hidden. simpl. f_equal. by apply concealed_insert. Qed.
Lemma hidden_key policy id k db : admits policy (k_TenantID k) = true ->
  (forall y, db_keys db !! id = Some y -> admits policy (k_TenantID y) = true) ->
  rls_hidden policy (set_keys_table (<[id := k]> (db_keys db)) db) = rls_hidden policy db.
Proof. intros. unfold rls_hidden. simpl. f_equal. by apply concealed_insert. Qed.
Lemma hidden_credential policy id c db : admits policy (c_TenantID c) = true ->
  (forall y, db_credentials db !! id = Some y -> admits policy (c_TenantID y) = true) ->
  rls_hidden policy (set_credentials (<[id := c]> (db_credentials db)) db) = rls_hidden policy db.
Proof. intros. unfold rls_hidden. simpl. f_equal. by apply concealed_insert. Qed.
Lemma hidden_event policy a db : admits policy (a_TenantID a) = true ->
  rls_hidden policy (add_audit a db) = rls_hidden policy db.
Proof.
  intros Ha. unfold rls_hidden. simpl. f_equal. rewrite filter_app, filter_cons_False, filter_nil by (rewrite Ha; intros []).
  apply app_nil_r.
Qed.

Lemma admitted_Some {A} policy (tenant_of : A -> string) m id x :
  admitted policy tenant_of m !! id = Some x <-> m !! id = Some x /\ admits policy (tenant_of x) = true.
Proof. unfold admitted. rewrite map_lookup_filter_Some. simpl. by rewrite Is_true_true. Qed.
Lemma has_row_inr {A} (m : gmap string A) id i :
  uuid_in env id = Some i -> has_row env m id = true -> is_Some (m !! i).
Proof. unfold has_row, uuid_col. intros ->. simpl. apply bool_decide_eq_true. Qed.

(** Turns what a statement did into the rows it changed. *)
Ltac written H :=
  cbn [write_db] in H; unfold after in H; stmt_inv H; simplify_eq;
  match goal with Hs : ?t = inr ?x |- _ => is_var x; destruct x;
    let h := head_of t in unfold h in Hs; try (match type of Hs with ?t' = _ => let h' := head_of t' in try unfold h' in Hs end);
    stmt_inv Hs; repeat (case_match; stmt_inv Hs); stmt_checks end; simpl in *; simplify_eq.
Ltac hidden :=
  try done;
  first [ apply hidden_tenant | apply hidden_identity | apply hidden_key | apply hidden_credential
        | apply hidden_event ]; simpl; intros; simplify_eq; done.

Lemma insertion_hidden policy w n db db' t :
  inserted_tenant env w n = Some (inr t) -> admits policy t = true -> write_db env w n db = inr db' ->
  rls_hidden policy db' = rls_hidden policy db.
Proof. intros Hins Ht H. destruct w; try discriminate Hins; injection Hins as Hins; written H; hidden. Qed.

(** An update changes the row it names, within its tenant. *)
Lemma update_hidden policy w n db db' :
  names_row env w (rls_view policy db) = true -> write_db env w n db = inr db' ->
  rls_hidden policy db' = rls_hidden policy db.
Proof.
  intros Hrow H. destruct w; try discriminate Hrow; simpl in Hrow; written H; try done;
    match goal with Hu : uuid_in env _ = Some _, Hr : has_row env _ _ = true |- _ =>
      destruct (has_row_inr _ _ _ Hu Hr) as [y Hy] end.
  all: try (apply map_lookup_filter_Some in Hy as [Hy Ha]; simpl in Ha; apply Is_true_true in Ha;
            apply hidden_tenant; done).
  all: apply admitted_Some in Hy as [Hy Ha]; repeat match goal with
    | Hf : find_identity _ _ _ = Some _ |- _ => apply find_identity_Some in Hf as [? _]
    | Hf : find_key _ _ _ = Some _ |- _ => apply find_key_Some in Hf as [? _]
    | Hf : find_credential _ _ _ = Some _ |- _ => apply find_credential_Some in Hf as [? _]
    end; simplify_eq; hidden.
Qed.

(** A write leaves the hidden rows alone, whatever it names. *)
Lemma rls_write_hidden setting policy w n db db' :
  policy_tenant env setting = inr policy -> rls_write env setting w n db = inr db' ->
  rls_hidden policy db' = rls_hidden policy db.
Proof.
  intros Hp. unfold rls_write. rewrite Hp. simpl. destruct (inserted_tenant env w n) as [[e|t]|] eqn:Hins.
  - done.
  - simpl. destruct (admits policy t) eqn:Ha; simpl; [|done]. intros H. by eapply insertion_hidden.
  - destruct (names_row _ _ _) eqn:Hrow; [by apply update_hidden|]. intros H. stmt_inv H. by simplify_eq.
Qed.

(** ** The tenant's own writes *)

(** The tenant that a write names; none for those on the tenants. *)
Definition write_tenant (w : write) : option string :=
  match w with
  | WrTenant _ _ _ _ _ _ | WrTenantUpdate _ _ _ _ _ | WrTenantStatus _ _ => None
  | WrIdentity t _ _ _ _ _ _ _ | WrIdentityUpdate t _ _ _ _ _ | WrIdentityStatus t _ _
  | WrPrimaryKey t _ _ | WrKeyRotate t _ _ | WrKeyRevoke t _ | WrKeyCompromised t _
  | WrSignCount t _ _ | WrLastUsed t _ _ | WrCredentialRevoke t _ => Some t
  | WrKey k => Some (k_TenantID k)
  | WrCredential c => Some (c_TenantID c)
  | WrEvent a => Some (a_TenantID a)
  end.

(** A row that the policy hides is not found for the tenant. *)
Lemma not_found {A} u (tenant_of : A -> string) m id i :
  uuid_col env id = inr i -> has_row env (admitted (Some u) tenant_of m) id = false ->
  admitted (Some u) tenant_of m !! i = None /\
  match m !! i with Some r => if String.eqb (tenant_of r) u then Some r else None | None => None end = None.
Proof.
  unfold has_row. intros -> Hrow%bool_decide_eq_false. apply eq_None_not_Some in Hrow.
  split; [done|]. rewrite <- admitted_lookup. by rewrite Hrow.
Qed.

Lemma own_write tenant u w n db :
  uuid_col env tenant = inr u -> write_tenant w = Some tenant ->
  rls_write env (Some tenant) w n db = write_db env w n db.
Proof.
  intros Hu Hw. unfold rls_write, policy_tenant. rewrite Hu. simpl rbind. cbv iota.
  destruct w; try discriminate Hw; injection Hw as <-; simpl inserted_tenant; cbv iota;
    try (rewrite Hu; simpl; by rewrite String.eqb_refl).
  all: destruct (names_row _ _ _) eqn:Hrow; [done|]; cbn [names_row rls_view db_identities db_keys db_credentials] in Hrow.
  all: cbn [write_db]; unfold sqlIdentityUpdate, sqlIdentityUpdateStatus, sqlIdentitySetPrimaryKey, sqlKeyRotate,
    sqlKeyRevoke, sqlKeyMarkCompromised, sqlKeySetStatus, update_credential, find_identity, find_key, find_credential;
    rewrite ?Hu; match type of Hrow with has_row env _ ?i = _ => destruct (uuid_col env i) as [e|i'] eqn:Hi end;
    simpl; try done.
  all: destruct (not_found _ _ _ _ _ Hi Hrow) as [-> ->]; unfold after, rbind; repeat case_match; simplify_eq; done.
Qed.

(** The rows of the policy's view. *)
Lemma held_view u db x :
  map_Forall (fun id t => t_ID t = id) (db_tenants db) -> held (rls_view (Some u) db) x ->
  held db x /\ row_tenant x = u.
Proof.
  intros Hkeys. destruct x; simpl;
    [intros [id [Hx Ha]%map_lookup_filter_Some]|intros [id [Hx Ha]%admitted_Some]..|
     intros [Ha Hx]%list_elem_of_filter]; simpl in Ha; rewrite ?Is_true_true in Ha;
    apply String.eqb_eq in Ha; eauto.
  split; [by exists id|]. by rewrite <- Ha, (Hkeys _ _ Hx).
Qed.

(** Commands that agree in the transaction agree with it. *)
Lemma withTenantTx_ext {X A} tenant (f g : Conn -> M (World X) A) w :
  (forall w1, exec (f (set_config tenant true (begin_block acquired))) w1 =
              exec (g (set_config tenant true (begin_block acquired))) w1) ->
  exec (withTenantTx env tenant f) w = exec (withTenantTx env tenant g) w.
Proof.
  intros Hfg. unfold withTenantTx, transaction. rewrite !exec_bind.
  destruct (exec (mapErr _ _) w) as [w1 [[]|e|s]]; [|done..]. rewrite !exec_actO, !exec_bind.
  destruct (exec (mapErr _ _) w1) as [w2 [[]|e|s]]; [|done..]. rewrite !exec_bind.
  destruct (exec (mapErr _ _) w2) as [w3 [[]|e|s]]; [|done..]. by rewrite Hfg.
Qed.
Lemma pg_command_ext {X R} (f g : nat -> DB -> error + (DB * R)) (w : World X) :
  (forall n db, f n db = g n db) -> exec (pg_command env f) w = exec (pg_command env g) w.
Proof. intros Hfg. unfold pg_command. by rewrite !exec_actO, Hfg. Qed.

(** A row of the tenant, found by its id. *)
Lemma own_read tenant u r id n db :
  uuid_col env tenant = inr u -> r ∈ [RdIdentity tenant id; RdKey tenant id; RdCredential tenant id] ->
  rls_read env (Some tenant) r n db = read_rows env r n db.
Proof.
  intros Hu Hr. unfold rls_read, policy_tenant. rewrite Hu. simpl rbind. cbv iota.
  revert r Hr. apply list.Forall_forall.
  repeat constructor; unfold read_rows, sqlIdentityGetByID, sqlKeyGetByID, sqlCredentialGetByID;
    rewrite ?Hu; unfold rbind; destruct (uuid_col env id) as [e|i]; try done;
    unfold find_identity, find_key, find_credential; cbn [rls_view db_identities db_keys db_credentials];
    rewrite admitted_lookup; repeat case_match; done.
Qed.

Section context.
Context (reset : option string) (Hreset : reset = None \/ reset = Some "").

(** C39. The tenant context of [withTenantConn] has lapsed when the statements
    run, since set_config is local and there is no transaction: to a role that
    is subject to the policies, on the connection that withTenantConn passes on
    every read of the repositories either fails or finds no row, the tenant's
    own rows included, and every write leaves the tables unchanged, an
    insertion by failing.  In [withTenantTx], which sets the context after it
    began a transaction, a read by id of the tenant's rows and any write that
    names the tenant do exactly what they do for the owner of the tables,
    whatever command fails. *)
Theorem rls_context_lapses :
  uuid_in env "" = None ->
  (forall X tenant r (w : World X) rows,
     snd (exec (withTenantConn env tenant (fun conn => rls_query env reset conn r)) w) = Ok rows ->
     rows = []) /\
  (forall X tenant wr (w w' : World X) o,
     exec (withTenantConn env tenant (fun conn => rls_exec env reset conn wr)) w = (w', o) ->
     w_db w' = w_db w /\ forall u, o = Ok u -> forall n, inserted_tenant env wr n = None) /\
  (forall X tenant u r id (w : World X), uuid_col env tenant = inr u ->
     r ∈ [RdIdentity tenant id; RdKey tenant id; RdCredential tenant id] ->
     exec (withTenantTx env tenant (fun tx => rls_query env reset tx r)) w =
     exec (withTenantTx env tenant (fun _ => owner_query env r)) w) /\
  (forall X tenant u wr (w : World X), uuid_col env tenant = inr u -> write_tenant wr = Some tenant ->
     exec (withTenantTx env tenant (fun tx => rls_exec env reset tx wr)) w =
     exec (withTenantTx env tenant (fun _ => owner_exec env wr)) w).
Proof.
  intros Hempty. split_and!.
  - intros X tenant r w rows. destruct (conn_runs env tenant (fun conn => rls_query env reset conn r) w)
      as (w2 & _ & [[e ->]| ->]); [done|].
    unfold rls_query. rewrite setting_of_conn.
    match goal with |- context [pg_command env ?f] =>
      destruct (pg_command_cases env f w2) as (w3 & [->|[e ->]] & _) end; [|done].
    destruct (rls_read env reset r (w_tick w2) (w_db w2)) as [e|l] eqn:Hr; simpl; [discriminate|].
    intros [= <-]. by eapply rls_read_reset.
  - intros X tenant wr w w' o. destruct (conn_runs env tenant (fun conn => rls_exec env reset conn wr) w)
      as (w2 & Hdb & [[e ->]| ->]); [by intros [= <- <-]|].
    unfold rls_exec. rewrite setting_of_conn, <- Hdb.
    match goal with |- context [pg_command env ?f] =>
      destruct (pg_command_cases env f w2) as (w3 & He & Hdb3) end.
    cbv beta in Hdb3.
    destruct (rls_write env reset wr (w_tick w2) (w_db w2)) as [e|db'] eqn:Hw; cbn [rbind] in He, Hdb3.
    + intros H. destruct He as [He|[e' He]]; rewrite He in H; injection H as <- <-;
        (destruct Hdb3 as [Hdb3|[? [=]]]; by split).
    + destruct (rls_write_reset _ _ Hreset _ _ _ _ Hempty Hw) as [Hins ->].
      assert (w_db w3 = w_db w2) as Hsame by by destruct Hdb3 as [?|[? [= ->]]].
      intros H. destruct He as [He|[e' He]]; rewrite He in H; injection H as <- <-; (split; [done|]); [|done].
      intros u _ n. revert Hins. by destruct wr.
  - intros X tenant u r id w Hu Hr. apply withTenantTx_ext. intros w1. unfold rls_query.
    rewrite setting_of_tx. apply pg_command_ext. intros n db. by erewrite own_read.
  - intros X tenant u wr w Hu Hwr. apply withTenantTx_ext. intros w1. unfold rls_exec.
    rewrite setting_of_tx. apply pg_command_ext. intros n db. unfold rls_write. simpl policy_tenant.
    pose proof (own_write tenant u wr n db Hu Hwr) as H. unfold rls_write in H. simpl policy_tenant in H.
    by rewrite H.
Qed.
End context.

(** C40. The policies isolate the tenants.  To a role that is subject to them,
    in a transaction with the context of a tenant: the rows that a read of the
    repositories finds are stored rows of this tenant, whichever tenant its
    parameters name (the tenants being stored under their ids); a write leaves
    every row of the others as it is, whatever it names; and a write that names
    the tenant does what it does for the owner of the tables, with the same
    error if it fails. *)
Theorem policies_isolate_tenants tenant u :
  uuid_col env tenant = inr u ->
  (forall r n db rows, map_Forall (fun id t => t_ID t = id) (db_tenants db) ->
     rls_read env (Some tenant) r n db = inr rows ->
     Forall (fun x => held db x /\ row_tenant x = u) rows) /\
  (forall w n db db', rls_write env (Some tenant) w n db = inr db' ->
     rls_hidden (Some u) db' = rls_hidden (Some u) db) /\
  (forall w n db, write_tenant w = Some tenant ->
     rls_write env (Some tenant) w n db = write_db env w n db).
Proof.
  intros Hu. assert (policy_tenant env (Some tenant) = inr (Some u)) as Hp by (simpl; by rewrite Hu).
  split_and!.
  - intros r n db rows Hkeys H. unfold rls_read in H. rewrite Hp in H. apply read_rows_held in H.
    eapply list.Forall_impl; [exact H|]. intros x. exact (held_view u db x Hkeys).
  - intros w n db db'. by apply rls_write_hidden.
  - intros w n db. by eapply own_write.
Qed.
End rls.

(** ** On a concrete database *)

(** In a transaction of t1: alice is read and suspended; bob of t2 is neither. *)
Lemma policies_isolate_tenants_witness :
  let db := w_db (demo_world "active" "active") in
  exists a db' db1, rls_read demo_env (Some "t1") (RdIdentity "t1" "alice") 0 db = inr [a] /\
    row_tenant a = "t1" /\
    rls_read demo_env (Some "t1") (RdIdentity "t2" "bob") 0 db = inr [] /\
    rls_write demo_env (Some "t1") (WrIdentityStatus "t2" "bob" "suspended") 0 db = inr db' /\
    rls_hidden (Some "t1") db' = rls_hidden (Some "t1") db /\
    rls_write demo_env (Some "t1") (WrIdentityStatus "t1" "alice" "suspended") 0 db = inr db1 /\
    (ir_status <$> db_identities db1 !! "alice") = Some "suspended".
Proof.
  intros db. destruct (policies_isolate_tenants demo_env "t1" "t1" eq_refl) as (Hread & Hwrite & Hown).
  assert (map_Forall (fun id t => t_ID t = id) (db_tenants db)) as Hkeys
    by (apply (bool_decide_unpack _); vm_compute; exact Logic.I).
  assert (exists a, rls_read demo_env (Some "t1") (RdIdentity "t1" "alice") 0 db = inr [a]) as [a Ha]
    by (eexists; vm_compute; reflexivity).
  assert (exists db', rls_write demo_env (Some "t1") (WrIdentityStatus "t2" "bob" "suspended") 0 db = inr db')
    as [db' Hdb'] by (eexists; vm_compute; reflexivity).
  assert (exists db1, write_db demo_env (WrIdentityStatus "t1" "alice" "suspended") 0 db = inr db1 /\
    (ir_status <$> db_identities db1 !! "alice") = Some "suspended") as (db1 & Hdb1 & Hst)
    by (eexists; split; vm_compute; reflexivity).
  exists a, db', db1. split; [exact Ha|]. split.
  { exact (proj2 (Forall_inv (Hread _ _ _ _ Hkeys Ha))). }
  split; [vm_compute; reflexivity|]. split; [exact Hdb'|]. split; [exact (Hwrite _ _ _ _ Hdb')|].
  split; [|exact Hst]. rewrite Hown; [exact Hdb1|reflexivity].
Defined.

(** Alice, found by the owner and in a transaction, is not found on a
    connection. *)
Lemma rls_context_lapses_witness :
  let w := demo_world "active" "active" in
  let alice := RdIdentity "t1" "alice" in
  exists i rows, read_rows demo_env alice 0 (w_db w) = inr [RIdentity i] /\
    snd (exec (withTenantTx demo_env "t1" (fun tx => rls_query demo_env None tx alice)) w) =
      Ok [RIdentity i] /\
    snd (exec (withTenantConn demo_env "t1" (fun conn => rls_query demo_env None conn alice)) w) = Ok rows /\
    rows = [].
Proof.
  intros w alice.
  destruct (rls_context_lapses demo_env None (or_introl eq_refl) eq_refl) as (Hconn & _ & Htx & _).
  assert (exists rows, snd (exec (withTenantConn demo_env "t1"
    (fun conn => rls_query demo_env None conn alice)) w) = Ok rows) as [rows Hrows]
    by (eexists; vm_compute; reflexivity).
  assert (exists i, read_rows demo_env alice 0 (w_db w) = inr [RIdentity i] /\
    snd (exec (withTenantTx demo_env "t1" (fun _ => owner_query demo_env alice)) w) = Ok [RIdentity i])
    as (i & Hi & Howner) by (eexists; split; vm_compute; reflexivity).
  exists i, rows. split; [exact Hi|]. split; [|split; [exact Hrows|exact (Hconn unit "t1" alice w rows Hrows)]].
  unfold alice in *. rewrite (Htx unit "t1" "t1" _ "alice" w eq_refl); [exact Howner|].
  apply list_elem_of_here.
Defined.
